(* ===== verification/_CoqProject ===== *)
-Q . S2P
Prelude.v
Bits.v
Types.v
BpfMaps.v
Ebpf.v
Checksum.v
Xdp.v
Samples.v
XdpSpec.v
DataPlane.v
Race.v
CTypes.v
Layout.v
KernelBase.v
KernelUapi.v
KernelBpf.v
KernelNet.v
KernelVerifier.v
KernelStack.v
Vmlinux.v
Members.v
GoNet.v
GoStrings.v
Manager.v
Pool.v
Simulate.v
PoolTest.v
Reconcile.v
Tables.v
ManagerSpec.v
ManagerWf.v
Fleet.v
ControlPlane.v
Leaks.v
Interleave.v
Attach.v
Shutdown.v
EndToEnd.v
Stats.v
Busy.v
Collector.v
Readback.v
Discovery.v
Main.v
