(* ===== verification/Prelude.v ===== *)
(** * container-lb: an XDP load balancer, its data plane and its control plane

    container-lb spreads ICMP requests to a virtual address (VIP) over Docker containers.
    This development models the repository under [src/] and proves what makes it correct.

    ** The program

    - [kernelspace/xdp_lb.c]: two XDP programs that share four BPF maps.
      [xdp_lb_ingress] runs on the ingress interface, picks a backend at random, rewrites
      destination address and MACs (DNAT) and counts the packet; [xdp_veth_snat] runs on the
      host side of each backend's veth and rewrites the source of replies to the VIP.
    - [kernelspace/types.h]: the structs of the map values; [kernelspace/vmlinux.h]: a dump
      of the kernel's types, which declares the packet headers, the XDP context and the
      kernel objects the programs run on.
    - [userspace/bpf]: generated bindings ([lb_bpfel.go]), the map operations ([maps.go]) and
      the attachment of the programs ([loader.go]) of the type [Manager].
    - [userspace/discovery]: [docker.go] finds the backend containers and their host-side
      veths, [pool.go] reconciles the list with the maps and the attachments ([Sync]) through
      the interface [BPFUpdater].
    - [userspace/stats/collector.go] prints a table of the backends and their counters.
    - [userspace/cmd/main.go] starts everything, polls discovery, and cleans up on a signal.

    User space writes the configuration, forward and reverse maps; the ingress program reads
    configuration and forward table and writes the per-CPU counters; the SNAT program reads
    configuration and reverse table; user space reads the counters.

    ** The files

    - [Prelude]: machine integers, byte order, buffers, tactics, the database [lb_wf].
    - [Bits]: runs of bits in a buffer, in both byte orders, with the laws of reading and
      writing them.
    - [Types]: structs of [types.h], their well-formedness, layout, and round trip with the
      structs of [lb_bpfel.go].
    - [BpfMaps]: the maps as classes of operations ([ArrayMap], [HashMap], [PerCpuArray],
      bundled in [BpfMaps]) with their laws; [RefMaps] is a reference implementation.
    - [Ebpf]: programs as trees of kernel interactions ([prog], one node per memory access or
      helper call) and their run on a kernel state ([exec]; [None] is a fault).
    - [Checksum]: [update_ip_csum] and ones' complement arithmetic.
    - [Xdp]: the two programs, statement by statement; [Samples]: concrete packets and maps.
    - [XdpSpec]: what they compute ([select], [dnat], [ingress_result], [snat_result]).
    - [DataPlane]: the refinement and what follows from it; [Race]: the same programs with
      arbitrary map updates between any two memory accesses.
    - [CTypes]: C declarations and their layout (System V ABI for 64-bit targets); [Layout]:
      the layout of a header file as a whole.
    - [KernelBase], [KernelUapi], [KernelBpf], [KernelNet], [KernelVerifier], [KernelStack]:
      the declarations of [vmlinux.h] the program rests on, one definition per declaration
      (those of more than 150 lines in several lists of fields); [Vmlinux]: all of them
      together, with [types.h]; [Members]: members as runs of bits, and the two programs in
      terms of the declared members.
    - [GoNet], [GoStrings]: what the control plane uses of Go's net, strconv and strings.
    - [Manager]: [maps.go] and [loader.go]; the class [Host] stands for the link library, the
      interfaces and the loading of the objects.
    - [Pool]: [pool.go]; [Simulate]: [Sync] on two related updaters; [PoolTest]: the unit test
      of the pool ([pool_test.go]) run on the model; [Reconcile]: the contract of
      [BPFUpdater] ([UpdaterLaws]) over an abstract data plane ([dp]) and the refinement of
      [Sync] to [dp_sync]; [Tables]: what [dp_sync] computes; [ManagerSpec]: the manager
      satisfies the contract; [ManagerWf]: it keeps the maps well formed; [Fleet]: concrete pools.
    - [ControlPlane], [Leaks], [Interleave], [Attach]: properties of [Sync] on its own, what
      its failures leave behind, between its steps, and of the attachments; [Shutdown]: a signal while [Sync] is under way;
      [EndToEnd]: [Sync] followed by the programs.
    - [Stats]: the counters and the formatting functions; [Busy]: [Sync] while frames run
      through the programs between its calls; [Collector]: the table; [Readback]: reading it.
    - [Discovery]: [docker.go]; the classes [Docker] and [Netlink] are what one poll sees.
    - [Main]: [main.go] as start-up function and step relation.

    Definitions have the names of the source where possible; parts of a function that are
    loops or values of their own have a name of their own ([write_loop], [mk_config], ...).

    ** What the theorems show

    - Data plane: both programs refine their specification, never fault, always pass the
      packet on, and change only the bytes NAT must change, with a checksum that is valid for
      the fixed 20-byte header ([ingress_refines], [ingress_dnat], [snat_refines], [snat_rewrites_source],
      [ingress_filters]), also while the maps change under them ([ingress_race_safe],
      [snat_race_safe]); the choice is fair ([selection_fair]); for headers with options the
      checksum is wrong except in a case stated exactly ([dnat_options_checksum]).
    - Control plane: [Sync] refines the abstract reconciliation for every updater that
      satisfies the contract ([sync_refines]), with the exact tables it leaves
      ([sync_forward_table], [sync_reverse_table]), success within the capacity
      ([sync_succeeds]), and every failure ([sync_failure], [sync_too_many]), with what it
      leaves behind for all later reconciliations ([failed_sync_leaks],
      [overlong_list_blocks]); traffic between its calls does not change what it does
      ([busy_sync_refines]), and every frame meanwhile is handled and goes to a backend of the
      old or the new list ([busy_frames], [sync_interleaving]); attachments follow the list
      but for those a failed [Sync] left over ([attachments_follow], [start_attaches]), and a signal in the middle leaves none behind
      ([shutdown_any_time]).
    - Discovery returns exactly the usable containers, fit for [Sync], and leaks no handle
      ([discover_exact], [discover_fit], [discover_releases]).
    - Together: requests and replies go round ([e2e_request], [e2e_round_trip]), except for
      the one poll after a backend moved to a smaller index ([moved_backend_untranslated],
      [resync_heals]), so that two polls that see the same containers are enough as long
      as there were never more than 64 of them ([main_converges]); the statistics are exact ([stats_exact], [formatBytes_total])
      and can be read back from the table ([render_reads_back]); the running process keeps its invariant whatever
      fails and whatever arrives ([main_invariant]), counts every frame it forwards exactly
      once over its whole life ([main_stats]), serves its snapshot when nothing fails
      ([main_serves]) and cleans up ([main_shutdown]).
    - Types: the sizes, offsets and constants of the model are those the declarations of
      vmlinux.h have ([packet_headers_agree]), and both programs read and write exactly the
      declared members the source names ([programs_on_members]), with a wrong header length
      on a big-endian target ([big_endian_ihl]); what they read as members of the map values
      is what the control plane stored ([map_values_members], [struct_roundtrip]).

    ** Modelling choices

    Integers are [Z] with explicit wrap-around ([u16], [u32], [u64], [i64]); addresses and
    MACs are byte lists; both byte orders are covered by a parameter [endian].  A Go method
    that mutates its receiver returns the new one; errors are values ([result], [option
    error]); a panic is [None].  The iteration order of Go maps is a parameter ([GoRange]).
    The mutex of the pool makes [Sync] one step for its callers.  Frames and the signal do not
    wait for it: they come between its system calls (also between the two map operations of
    [UpdateBackend] and [ClearBackend], which no mutex covers), as updaters that do more than
    the manager's ([Busy], [Shutdown]) and on which [Sync] runs unchanged.  A link whose
    [Close] reports an error may be detached or not; theorems that need more say so
    ([links_work], [close_atomic]).  The theorems on the process assume of Docker and the host
    ([env_ok]) answers without nil pointers, identifiers of at least twelve characters, and
    veth names that keep their index while the process runs; on a nil pointer the model of
    discovery panics, as the code does.  Deferred calls run when their function returns, last
    first ([call_fn]).  Column padding counts the runes of UTF-8 ([rune_count]).

    The only fuel is that of loops over a value that shrinks: six divisions of a 64-bit count
    by 1024 ([formatBytes], shown to be enough by [formatBytes_total]), nine groups of an IPv6
    address ([parse_v6], which stops at sixteen bytes) and the length of the string in
    [TrimSpace] and [rune_count].  Qualifiers and attributes other than [packed] and the byte
    mode of enumerations do not affect the layout of the declarations and are left out; the
    sizes are those of a 64-bit target.

    ** Not modelled

    The BPF verifier and the loading of the ELF object, the Docker client, netlink and the
    kernel's networking are parameters with their documented behaviour.  Log lines, flag
    parsing, the tickers' timing, the tests that need Docker, scripts and build files have no
    model.  Of [vmlinux.h] the declarations with no connection to the program are left out.
    The kernel's relocation of field accesses (CO-RE) is not modelled: the three packet
    headers and the context are part of the kernel's stable interface. *)

From stdpp Require Export base gmap strings list numbers fin_maps pretty.
From coqutil Require Export Byte Word.LittleEndianList.

(** ** Notations and scopes *)

Declare Scope lb_scope.
Delimit Scope lb_scope with lb.
Open Scope Z_scope.
Open Scope lb_scope.

(** The development's databases: [lb_wf] solves well-formedness side conditions
    (widths, lengths), [lb_len] normalises lengths. *)
Create HintDb lb_wf discriminated.

(** ** Machine integers

    A w-bit unsigned integer is a [Z]; the casts and the arithmetic of the C and
    Go sources wrap modulo [2^w]. *)

Definition u8 (x : Z) : Z := x mod 2 ^ 8.
Definition u16 (x : Z) : Z := x mod 2 ^ 16.
Definition u32 (x : Z) : Z := x mod 2 ^ 32.
Definition u64 (x : Z) : Z := x mod 2 ^ 64.

(** A Go [int64] or [int], in two's complement. *)
Definition i64 (x : Z) : Z := (x + 2 ^ 63) mod 2 ^ 64 - 2 ^ 63.
Definition is_i64 (x : Z) : Prop := - 2 ^ 63 <= x < 2 ^ 63.

Definition is_u16 (x : Z) : Prop := 0 <= x < 2 ^ 16.
Definition is_u32 (x : Z) : Prop := 0 <= x < 2 ^ 32.
Definition is_u64 (x : Z) : Prop := 0 <= x < 2 ^ 64.

Lemma u16_range x : is_u16 (u16 x).
Proof. apply Z.mod_pos_bound. lia. Qed.
Lemma u32_range x : is_u32 (u32 x).
Proof. apply Z.mod_pos_bound. lia. Qed.
Lemma u64_range x : is_u64 (u64 x).
Proof. apply Z.mod_pos_bound. lia. Qed.
Lemma u16_id x : is_u16 x -> u16 x = x.
Proof. apply Z.mod_small. Qed.
Lemma u32_id x : is_u32 x -> u32 x = x.
Proof. apply Z.mod_small. Qed.
Lemma u64_id x : is_u64 x -> u64 x = x.
Proof. apply Z.mod_small. Qed.

Lemma i64_id x : is_i64 x -> i64 x = x.
Proof. unfold is_i64, i64. intros. rewrite Z.mod_small; lia. Qed.

#[export] Hint Resolve u16_range u32_range u64_range : lb_wf.

(** A [u64] accumulator only depends on its summands modulo [2^64]. *)
Lemma u64_add_l x y : u64 (u64 x + y) = u64 (x + y).
Proof. apply Zplus_mod_idemp_l. Qed.
Lemma u64_add_r x y : u64 (x + u64 y) = u64 (x + y).
Proof. apply Zplus_mod_idemp_r. Qed.

(** ** Bytes and byte order

    [load e bs] is the value of a multi-byte object whose memory is [bs] on a
    host of byte order [e]; [store e n w] is the memory of an [n]-byte object. *)

#[export] Instance byte_eq_dec : EqDecision byte := Byte.byte_eq_dec.

Inductive endian := LE | BE.

#[export] Instance endian_eq_dec : EqDecision endian.
Proof. solve_decision. Defined.

Definition load (e : endian) (bs : list byte) : Z :=
  match e with LE => le_combine bs | BE => le_combine (rev bs) end.

Definition store (e : endian) (n : nat) (w : Z) : list byte :=
  match e with LE => le_split n w | BE => rev (le_split n w) end.

Lemma length_store e n w : length (store e n w) = n.
Proof. destruct e; simpl; rewrite ?length_rev; apply length_le_split. Qed.

Lemma load_store e n w : load e (store e n w) = w mod 2 ^ (Z.of_nat n * 8).
Proof. destruct e; simpl; rewrite ?rev_involutive; apply le_combine_split. Qed.

Lemma store_load e n bs : length bs = n -> store e n (load e bs) = bs.
Proof.
  intros <-. destruct e; simpl; [apply split_le_combine|].
  rewrite <-(length_rev bs) at 1. rewrite split_le_combine. apply rev_involutive.
Qed.

Lemma load_range e bs : 0 <= load e bs < 2 ^ (8 * Z.of_nat (length bs)).
Proof. destruct e; simpl; [|rewrite <-(length_rev bs)]; apply le_combine_bound. Qed.

Lemma load_inj e bs cs : length bs = length cs -> load e bs = load e cs -> bs = cs.
Proof.
  intros Hlen Heq.
  by rewrite <-(store_load e (length cs) cs eq_refl), <-Heq, store_load.
Qed.

Lemma load_u16 e bs : length bs = 2%nat -> is_u16 (load e bs).
Proof. intros H. pose proof (load_range e bs) as R. rewrite H in R. apply R. Qed.
Lemma load_u32 e bs : length bs = 4%nat -> is_u32 (load e bs).
Proof. intros H. pose proof (load_range e bs) as R. rewrite H in R. apply R. Qed.

Lemma load_store_u16 e w : is_u16 w -> load e (store e 2 w) = w.
Proof. intros H. rewrite load_store. by apply Z.mod_small. Qed.
Lemma load_store_u32 e w : is_u32 w -> load e (store e 4 w) = w.
Proof. intros H. rewrite load_store. by apply Z.mod_small. Qed.
Lemma load_store_u64 e w : is_u64 w -> load e (store e 8 w) = w.
Proof. intros H. rewrite load_store. by apply Z.mod_small. Qed.

#[export] Hint Resolve load_u16 load_u32 length_store : lb_wf.

(** ** Buffers

    A buffer is a list of bytes; a pointer into it is an offset.  [peek] and
    [poke] are the load and the store of a run of bytes: [None] is an access
    outside the buffer.  [splice] is the store without its bounds check. *)

Definition splice (p : list byte) (off : nat) (bs : list byte) : list byte :=
  take off p ++ bs ++ drop (off + length bs) p.

Definition slice (p : list byte) (off n : nat) : list byte := take n (drop off p).

Definition peek (p : list byte) (off n : nat) : option (list byte) :=
  if (off + n <=? length p)%nat then Some (slice p off n) else None.

Definition poke (p : list byte) (off : nat) (bs : list byte) : option (list byte) :=
  if (off + length bs <=? length p)%nat then Some (splice p off bs) else None.

Lemma length_slice p off n : (off + n <= length p)%nat -> length (slice p off n) = n.
Proof. intros. unfold slice. rewrite length_take, length_drop. lia. Qed.

Lemma length_splice p off bs :
  (off + length bs <= length p)%nat -> length (splice p off bs) = length p.
Proof. intros. unfold splice. rewrite !length_app, length_take, length_drop. lia. Qed.

Lemma slice_splice_eq p off bs :
  (off + length bs <= length p)%nat -> slice (splice p off bs) off (length bs) = bs.
Proof.
  intros. unfold slice, splice.
  rewrite drop_app_length' by (rewrite length_take; lia).
  apply take_app_length.
Qed.

Lemma slice_splice_eq' p off bs n :
  length bs = n -> (off + n <= length p)%nat -> slice (splice p off bs) off n = bs.
Proof. intros <-. apply slice_splice_eq. Qed.

Lemma lookup_splice_ne p off bs i :
  (off + length bs <= length p)%nat -> ~ (off <= i < off + length bs)%nat ->
  splice p off bs !! i = p !! i.
Proof.
  intros Hb Hi. unfold splice. destruct (decide (i < off)%nat).
  - rewrite lookup_app_l by (rewrite length_take; lia). by rewrite lookup_take_lt by lia.
  - rewrite lookup_app_r by (rewrite length_take; lia).
    rewrite lookup_app_r by (rewrite length_take; lia).
    rewrite lookup_drop, length_take. f_equal. lia.
Qed.

(** Two buffers agree outside a set of offsets. *)
Lemma slice_lookup_ext p q off n :
  length p = length q ->
  (forall i, (off <= i < off + n)%nat -> p !! i = q !! i) -> slice p off n = slice q off n.
Proof.
  intros Hlen Hext. apply list_eq. intros i. unfold slice.
  destruct (decide (i < n)%nat).
  - rewrite !lookup_take_lt, !lookup_drop by done. apply Hext. lia.
  - by rewrite !lookup_take_ge by lia.
Qed.

Lemma slice_splice_ne p off bs off' n :
  (off + length bs <= length p)%nat ->
  (off' + n <= off \/ off + length bs <= off')%nat ->
  slice (splice p off bs) off' n = slice p off' n.
Proof.
  intros Hb Hd. apply slice_lookup_ext; [by apply length_splice|].
  intros i Hi. apply lookup_splice_ne; lia.
Qed.

(** ** Finite sets *)

Lemma size_list_to_set_le (l : list Z) : (size (list_to_set l : gset Z) <= length l)%nat.
Proof.
  induction l as [|x l IH]; [done|].
  rewrite list_to_set_cons, size_union_alt, size_singleton.
  pose proof (subseteq_size (list_to_set l ∖ {[x]} : gset Z) (list_to_set l)
    ltac:(set_solver)). simpl. lia.
Qed.

Lemma length_omap_le {A B} (f : A -> option B) (l : list A) :
  (length (omap f l) <= length l)%nat.
Proof.
  induction l as [|x l IH]; [done|]. cbn [omap list_omap]. fold (omap f l).
  destruct (f x); simpl; lia.
Qed.

(** ** Results of fallible calls *)

(** The result of a call that returns a value or an error. *)
Abbreviation result E A := (E + A)%type.
Abbreviation Ok x := (inr x) (only parsing).
Abbreviation Err x := (inl x) (only parsing).

(** ** Tactics *)

(** Case analysis on the scrutinee of the first [match] or [if] of the goal,
    closing what the equations decide. *)
Ltac split_match :=
  match goal with
  | |- context [match ?x with _ => _ end] => destruct x eqn:?; simplify_eq/=
  end.

(** Replace a list of known (literal) length by its explicit elements. *)
Ltac explicit_list_go l H :=
  match type of H with
  | length l = 0%nat => apply nil_length_inv in H; subst l
  | length l = S _ =>
      let x := fresh "x" in
      let l' := fresh l in
      destruct l as [|x l']; [discriminate H|simpl in H; apply Nat.succ_inj in H; explicit_list_go l' H]
  end.
Ltac explicit_list l H :=
  match type of H with
  | length l = ?n => let n' := eval vm_compute in n in change (length l = n') in H
  end;
  explicit_list_go l H.

(** Boolean comparisons of hypotheses and goal as propositions. *)
Ltac bool_to_prop :=
  repeat match goal with
  | H : (_ =? _) = true |- _ => apply Z.eqb_eq in H
  | H : (_ =? _) = false |- _ => apply Z.eqb_neq in H
  | H : (_ <=? _)%nat = true |- _ => apply Nat.leb_le in H
  | H : (_ <=? _)%nat = false |- _ => apply Nat.leb_gt in H
  | H : (_ <? _)%nat = true |- _ => apply Nat.ltb_lt in H
  | H : (_ <? _)%nat = false |- _ => apply Nat.ltb_ge in H
  | H : (_ <? _) = true |- _ => apply Z.ltb_lt in H
  | H : (_ <? _) = false |- _ => apply Z.ltb_ge in H
  end.
