(* ===== verification/Bits.v ===== *)
(** * Runs of bits in a buffer

    [read_bits] and [write_bits] access the [w] bits at bit offset [o] of a buffer in either
    byte order, the way a C compiler lays out scalars and bit-fields: on a little-endian
    target bits are counted from the least significant bit of the first byte, on a big-endian
    target from the most significant one.  They satisfy the laws of a lens, and on runs of
    whole bytes they are the loads and stores of [Prelude]. *)

From S2P Require Import Prelude.

(** ** Runs of bits in an integer *)

Definition bits_at (x pos w : Z) : Z := Z.land (Z.shiftr x pos) (Z.ones w).

Definition bits_put (x pos w v : Z) : Z :=
  Z.lor (Z.land x (Z.lnot (Z.shiftl (Z.ones w) pos))) (Z.shiftl (Z.land v (Z.ones w)) pos).

Lemma testbit_ones_pos w i : 0 <= w -> 0 <= i -> Z.testbit (Z.ones w) i = (i <? w).
Proof.
  intros Hw Hi. rewrite Z.testbit_ones by done. by rewrite (proj2 (Z.leb_le 0 i) Hi).
Qed.

Lemma testbit_at x pos w i :
  0 <= pos -> 0 <= w -> 0 <= i ->
  Z.testbit (bits_at x pos w) i = (i <? w) && Z.testbit x (i + pos).
Proof.
  intros. unfold bits_at. rewrite Z.land_spec, Z.shiftr_spec, testbit_ones_pos by done.
  apply andb_comm.
Qed.

Lemma testbit_put x pos w v i :
  0 <= pos -> 0 <= w -> 0 <= i ->
  Z.testbit (bits_put x pos w v) i =
    if (pos <=? i) && (i <? pos + w) then Z.testbit v (i - pos) else Z.testbit x i.
Proof.
  intros. unfold bits_put. rewrite Z.lor_spec, Z.land_spec, Z.lnot_spec, !Z.shiftl_spec by done.
  destruct (Z.leb_spec pos i); cbn [andb].
  - rewrite Z.land_spec, testbit_ones_pos by lia.
    destruct (Z.ltb_spec (i - pos) w), (Z.ltb_spec i (pos + w)); try lia; cbn [negb].
    + by rewrite andb_false_r, andb_true_r.
    + by rewrite andb_true_r, andb_false_r, orb_false_r.
  - rewrite !(Z.testbit_neg_r _ (i - pos)) by lia. by rewrite andb_true_r, orb_false_r.
Qed.

(** Equalities of such integers, bit by bit. *)
Ltac bit_cases :=
  repeat match goal with
         | |- context [?x <=? ?y] => destruct (Z.leb_spec x y)
         | |- context [?x <? ?y] => destruct (Z.ltb_spec x y)
         end;
  cbn [andb orb]; try lia; try done.
Ltac bitwise := apply Z.bits_inj'; intros i Hi.

Section Laws.
Context (x pos w v : Z).
Hypothesis Hpos : 0 <= pos.
Hypothesis Hw : 0 <= w.

Lemma bits_at_range : 0 <= bits_at x pos w < 2 ^ w.
Proof. unfold bits_at. rewrite Z.land_ones by done. apply Z.mod_pos_bound. lia. Qed.

Lemma bits_at_put : bits_at (bits_put x pos w v) pos w = v mod 2 ^ w.
Proof.
  rewrite <- Z.land_ones by done. bitwise.
  rewrite testbit_at, testbit_put, Z.land_spec, testbit_ones_pos by lia.
  replace (i + pos - pos) with i by lia. rewrite (andb_comm (Z.testbit v i)). bit_cases.
Qed.

Lemma bits_at_put_other pos' w' :
  0 <= pos' -> 0 <= w' -> pos + w <= pos' \/ pos' + w' <= pos ->
  bits_at (bits_put x pos w v) pos' w' = bits_at x pos' w'.
Proof. intros. bitwise. rewrite !testbit_at, testbit_put by lia. bit_cases. Qed.

Lemma bits_put_at : bits_put x pos w (bits_at x pos w) = x.
Proof.
  bitwise. rewrite testbit_put by lia. bit_cases. rewrite testbit_at by lia. bit_cases.
  f_equal. lia.
Qed.

Lemma bits_put_put v' : bits_put (bits_put x pos w v) pos w v' = bits_put x pos w v'.
Proof. bitwise. rewrite !testbit_put by lia. bit_cases. Qed.

Lemma bits_put_range n : pos + w <= n -> 0 <= x < 2 ^ n -> 0 <= bits_put x pos w v < 2 ^ n.
Proof.
  intros Hn Hx. assert (bits_put x pos w v mod 2 ^ n = bits_put x pos w v) as <-;
    [|apply Z.mod_pos_bound; lia].
  rewrite <- (Z.mod_small x (2 ^ n)) at 2 by done. bitwise.
  rewrite <- (Z.mod_small x (2 ^ n)) at 1 by done. rewrite <- !Z.land_ones by lia.
  rewrite Z.land_spec, !testbit_put, Z.land_spec, testbit_ones_pos by lia. bit_cases;
    rewrite ?andb_true_r, ?andb_false_r; done.
Qed.
End Laws.

(** ** Runs of bits in a buffer *)

(** The position, in the integer a buffer of [n] bytes holds, of the [w] bits at offset [o]. *)
Definition bit_pos (e : endian) (n : nat) (o w : Z) : Z :=
  match e with LE => o | BE => 8 * Z.of_nat n - (o + w) end.

Definition read_bits (e : endian) (bs : list byte) (o w : Z) : Z :=
  bits_at (load e bs) (bit_pos e (length bs) o w) w.

Definition write_bits (e : endian) (bs : list byte) (o w v : Z) : list byte :=
  store e (length bs) (bits_put (load e bs) (bit_pos e (length bs) o w) w v).

(** The bits lie in a buffer of [n] bytes. *)
Definition within (n : nat) (o w : Z) : Prop := 0 <= o /\ 0 <= w /\ o + w <= 8 * Z.of_nat n.

Lemma bit_pos_nonneg e n o w : within n o w -> 0 <= bit_pos e n o w.
Proof. intros (? & ? & ?). destruct e; simpl; lia. Qed.

Lemma bit_pos_end e n o w : within n o w -> bit_pos e n o w + w <= 8 * Z.of_nat n.
Proof. intros (? & ? & ?). destruct e; simpl; lia. Qed.

Lemma bit_pos_disjoint e n o w o' w' :
  o + w <= o' \/ o' + w' <= o ->
  bit_pos e n o w + w <= bit_pos e n o' w' \/ bit_pos e n o' w' + w' <= bit_pos e n o w.
Proof. destruct e; simpl; lia. Qed.

Lemma length_write_bits e bs o w v : length (write_bits e bs o w v) = length bs.
Proof. apply length_store. Qed.

Lemma load_write e bs o w v :
  within (length bs) o w ->
  load e (write_bits e bs o w v) = bits_put (load e bs) (bit_pos e (length bs) o w) w v.
Proof.
  intros Hin. unfold write_bits. rewrite load_store, Z.mul_comm. apply Z.mod_small.
  apply bits_put_range; [by apply bit_pos_nonneg|apply Hin|by apply bit_pos_end|].
  apply load_range.
Qed.

Section Buffer.
Context (e : endian) (bs : list byte) (o w : Z).
Hypothesis Hin : within (length bs) o w.

Lemma read_bits_range : 0 <= read_bits e bs o w < 2 ^ w.
Proof. apply bits_at_range, Hin. Qed.

Lemma read_write v : read_bits e (write_bits e bs o w v) o w = v mod 2 ^ w.
Proof.
  unfold read_bits. rewrite load_write, length_write_bits by done.
  apply bits_at_put; [by apply bit_pos_nonneg|apply Hin].
Qed.

Lemma read_write_other v o' w' :
  within (length bs) o' w' -> o + w <= o' \/ o' + w' <= o ->
  read_bits e (write_bits e bs o w v) o' w' = read_bits e bs o' w'.
Proof.
  intros Hin' Hd. unfold read_bits. rewrite load_write, length_write_bits by done.
  apply bits_at_put_other; [by apply bit_pos_nonneg|apply Hin|by apply bit_pos_nonneg
    |apply Hin'|]. by apply bit_pos_disjoint.
Qed.

Lemma write_read : write_bits e bs o w (read_bits e bs o w) = bs.
Proof.
  apply (load_inj e); [apply length_write_bits|]. rewrite load_write by done.
  apply bits_put_at; [by apply bit_pos_nonneg|apply Hin].
Qed.

Lemma write_write v v' :
  write_bits e (write_bits e bs o w v) o w v' = write_bits e bs o w v'.
Proof.
  apply (load_inj e); [by rewrite !length_write_bits|].
  rewrite !load_write by (by rewrite ?length_write_bits). rewrite length_write_bits.
  apply bits_put_put; [by apply bit_pos_nonneg|apply Hin].
Qed.
End Buffer.

(** ** Whole bytes *)

Lemma le_combine_drop n bs :
  (n <= length bs)%nat -> le_combine (drop n bs) = Z.shiftr (le_combine bs) (8 * Z.of_nat n).
Proof.
  intros Hn. rewrite <- (take_drop n bs) at 2. rewrite le_combine_app, length_take_le by done.
  pose proof (le_combine_bound (take n bs)) as Hb. rewrite length_take_le in Hb by done.
  bitwise. rewrite Z.shiftr_spec, Z.lor_spec, Z.shiftl_spec by lia.
  rewrite <- (Z.mod_small (le_combine (take n bs)) (2 ^ (8 * Z.of_nat n))) by done.
  rewrite Z.mod_pow2_bits_high by lia. cbn [orb]. f_equal. lia.
Qed.

Lemma le_combine_slice bs off n :
  (off + n <= length bs)%nat ->
  le_combine (slice bs off n) = bits_at (le_combine bs) (8 * Z.of_nat off) (8 * Z.of_nat n).
Proof.
  intros Hb. unfold slice, bits_at.
  rewrite le_combine_firstn, le_combine_drop, Z.land_ones by lia. done.
Qed.

Lemma slice_rev bs off n :
  (off + n <= length bs)%nat ->
  rev (slice bs off n) = slice (rev bs) (length bs - (off + n)) n.
Proof.
  intros Hb. unfold slice. rewrite skipn_rev, firstn_rev, length_take. f_equal.
  replace (length bs - (length bs - (off + n)))%nat with (off + n)%nat by lia.
  rewrite Nat.min_l by lia. replace (off + n - n)%nat with off by lia.
  by rewrite take_drop_commute, Nat.add_comm.
Qed.

(** A load of [n] bytes at offset [off] reads these bits. *)
Lemma load_slice e bs off n :
  (off + n <= length bs)%nat ->
  load e (slice bs off n) = read_bits e bs (8 * Z.of_nat off) (8 * Z.of_nat n).
Proof.
  intros Hb. unfold read_bits. destruct e; cbn [load bit_pos].
  - by apply le_combine_slice.
  - rewrite slice_rev, le_combine_slice by (rewrite ?length_rev; lia). f_equal. lia.
Qed.

(** Slices of a buffer with some bits written. *)
Lemma slice_write_other e bs o w v off n :
  within (length bs) o w -> (off + n <= length bs)%nat ->
  o + w <= 8 * Z.of_nat off \/ 8 * Z.of_nat (off + n) <= o ->
  slice (write_bits e bs o w v) off n = slice bs off n.
Proof.
  intros Hin Hb Hd. pose proof (length_write_bits e bs o w v) as Hl.
  apply (load_inj e); [by rewrite !length_slice by lia|].
  rewrite !load_slice by lia. apply read_write_other; [done|split; lia|lia].
Qed.

Lemma slice_cut bs off n :
  (off + n <= length bs)%nat ->
  bs = slice bs 0 off ++ slice bs off n ++ slice bs (off + n) (length bs - (off + n)).
Proof.
  intros Hb. unfold slice. rewrite drop_0, <- drop_drop.
  rewrite (take_ge (drop n (drop off bs))) by (rewrite !length_drop; lia).
  by rewrite !take_drop.
Qed.

(** A store of [n] bytes at offset [off] writes these bits. *)
Lemma splice_store e bs off n v :
  (off + n <= length bs)%nat ->
  splice bs off (store e n v) = write_bits e bs (8 * Z.of_nat off) (8 * Z.of_nat n) v.
Proof.
  intros Hb. assert (within (length bs) (8 * Z.of_nat off) (8 * Z.of_nat n)) as Hin
    by (split; lia).
  set (W := write_bits _ _ _ _ _). pose proof (length_write_bits e bs _ _ v : length W = _) as Hl.
  rewrite (slice_cut W off n) by lia. rewrite Hl. unfold W.
  rewrite (slice_write_other e bs _ _ v 0 off), (slice_write_other e bs _ _ v (off + n)) by (done || lia).
  unfold splice. rewrite length_store. f_equal. f_equal.
  - apply (load_inj e); [by rewrite length_store, length_slice by (fold W; lia)|].
    rewrite load_slice by (fold W; lia). rewrite read_write by done. rewrite load_store.
    do 2 f_equal. lia.
  - symmetry. unfold slice. apply take_ge. rewrite length_drop. lia.
Qed.

(** Bits of a slice are bits of the buffer. *)
Lemma bits_at_at x pos w pos' w' :
  0 <= pos -> 0 <= pos' -> 0 <= w' -> pos' + w' <= w ->
  bits_at (bits_at x pos w) pos' w' = bits_at x (pos + pos') w'.
Proof.
  intros. bitwise. rewrite !testbit_at by lia. bit_cases; rewrite ?testbit_at by lia; bit_cases.
  f_equal. lia.
Qed.

Lemma read_slice e bs off n o w :
  (off + n <= length bs)%nat -> within n o w ->
  read_bits e (slice bs off n) o w = read_bits e bs (8 * Z.of_nat off + o) w.
Proof.
  intros Hb (H0 & Hw & Hn). unfold read_bits at 1. rewrite length_slice, load_slice by done.
  unfold read_bits. rewrite bits_at_at; [|destruct e; simpl; lia..]. f_equal.
  destruct e; simpl; lia.
Qed.

Lemma slice_slice (bs : list byte) off n off' n' :
  (off' + n' <= n)%nat -> slice (slice bs off n) off' n' = slice bs (off + off') n'.
Proof.
  intros Hn. unfold slice. rewrite skipn_firstn_comm, take_take, drop_drop.
  by rewrite Nat.min_l by lia.
Qed.

Lemma lookup_splice_in p off bs i :
  (off <= length p)%nat -> (off <= i < off + length bs)%nat ->
  splice p off bs !! i = bs !! (i - off)%nat.
Proof.
  intros Ho Hi. unfold splice. rewrite lookup_app_r, length_take_le by (rewrite ?length_take; lia).
  by rewrite lookup_app_l by lia.
Qed.

(** A store inside a slice. *)
Lemma splice_slice (bs : list byte) off n off' c :
  (off + n <= length bs)%nat -> (off' + length c <= n)%nat ->
  splice bs off (splice (slice bs off n) off' c) = splice bs (off + off') c.
Proof.
  intros Hb Hc. pose proof (length_slice bs off n Hb) as Hl.
  assert (length (splice (slice bs off n) off' c) = n) as Hs by (rewrite length_splice; lia).
  apply list_eq. intros i.
  destruct (decide (off <= i < off + n)%nat) as [Hi|Hi].
  - rewrite lookup_splice_in by (rewrite ?Hs; lia).
    destruct (decide (off + off' <= i < off + off' + length c)%nat) as [Hin|Hout].
    + rewrite !lookup_splice_in by lia. f_equal. lia.
    + rewrite !lookup_splice_ne by (rewrite ?Hl; lia). unfold slice.
      rewrite lookup_take_lt, lookup_drop by lia. f_equal. lia.
  - rewrite !lookup_splice_ne by (rewrite ?Hs; lia). done.
Qed.
