(* ===== verification/Types.v ===== *)
(** * Shared data types (kernelspace/types.h, userspace/bpf/lb_bpfel.go)

    The structs the two XDP programs and the Go control plane share through the
    BPF maps, their memory layout, and the round trip through it: what the Go
    side marshals is what the C side loads field by field. *)

From S2P Require Import Prelude.

Definition MAX_BACKENDS : Z := 64.
Definition ETH_ALEN : nat := 6.

(** ** The structs *)

Record backend_info := {
  bi_ipv4 : Z;           (** backend IPv4, the wire bytes read as a native word *)
  bi_port : Z;
  bi_pad : Z;
  bi_mac : list byte;
  bi_pad2 : list byte;
  bi_weight : Z
}.

Record lb_config := {
  cfg_vip : Z;
  cfg_vport : Z;
  cfg_pad : Z;
  cfg_backend_count : Z;
  cfg_src_mac : list byte;
  cfg_pad2 : list byte
}.

Record stats_counter := { rx_packets : Z; rx_bytes : Z }.

Definition zero_mac : list byte := replicate ETH_ALEN Byte.x00.
Definition zero_pad2 : list byte := replicate 2 Byte.x00.

(** The zero values: Go's [var x T], and the initial content of an array map. *)
Definition backend_info_zero : backend_info :=
  {| bi_ipv4 := 0; bi_port := 0; bi_pad := 0; bi_mac := zero_mac;
     bi_pad2 := zero_pad2; bi_weight := 0 |}.
Definition lb_config_zero : lb_config :=
  {| cfg_vip := 0; cfg_vport := 0; cfg_pad := 0; cfg_backend_count := 0;
     cfg_src_mac := zero_mac; cfg_pad2 := zero_pad2 |}.
Definition stats_counter_zero : stats_counter := {| rx_packets := 0; rx_bytes := 0 |}.

#[export] Instance backend_info_eq_dec : EqDecision backend_info.
Proof. solve_decision. Defined.
#[export] Instance lb_config_eq_dec : EqDecision lb_config.
Proof. solve_decision. Defined.
#[export] Instance stats_counter_eq_dec : EqDecision stats_counter.
Proof. solve_decision. Defined.

(** ** Well-formedness: every field fits its declared width *)

Definition wf_backend_info (b : backend_info) : Prop :=
  is_u32 (bi_ipv4 b) /\ is_u16 (bi_port b) /\ is_u16 (bi_pad b) /\
  length (bi_mac b) = ETH_ALEN /\ length (bi_pad2 b) = 2%nat /\ is_u32 (bi_weight b).

Definition wf_lb_config (c : lb_config) : Prop :=
  is_u32 (cfg_vip c) /\ is_u16 (cfg_vport c) /\ is_u16 (cfg_pad c) /\
  is_u32 (cfg_backend_count c) /\ length (cfg_src_mac c) = ETH_ALEN /\
  length (cfg_pad2 c) = 2%nat.

Definition wf_stats_counter (s : stats_counter) : Prop :=
  is_u64 (rx_packets s) /\ is_u64 (rx_bytes s).

Lemma wf_backend_info_zero : wf_backend_info backend_info_zero.
Proof. by vm_compute. Qed.
Lemma wf_lb_config_zero : wf_lb_config lb_config_zero.
Proof. by vm_compute. Qed.
Lemma wf_stats_counter_zero : wf_stats_counter stats_counter_zero.
Proof. by vm_compute. Qed.
#[export] Hint Resolve wf_backend_info_zero wf_lb_config_zero wf_stats_counter_zero : lb_wf.

(** ** Memory layout

    [c_layout] is the C ABI's placement of fields given as (size, alignment):
    each field at the next multiple of its alignment, the struct rounded up to
    the largest alignment. *)

Definition align_up (off a : nat) : nat := (off + (a - off mod a) mod a)%nat.

Fixpoint c_offsets (off : nat) (fs : list (nat * nat)) : list nat * nat :=
  match fs with
  | [] => ([], off)
  | (sz, a) :: fs =>
      let o := align_up off a in
      let '(os, e) := c_offsets (o + sz) fs in (o :: os, e)
  end.

Definition c_layout (fs : list (nat * nat)) : list nat * nat :=
  let '(os, e) := c_offsets 0 fs in
  (os, align_up e (foldr Nat.max 1%nat (map snd fs))).

Definition backend_info_fields : list (nat * nat) :=
  [(4, 4); (2, 2); (2, 2); (ETH_ALEN, 1); (2, 1); (4, 4)]%nat.
Definition lb_config_fields : list (nat * nat) :=
  [(4, 4); (2, 2); (2, 2); (4, 4); (ETH_ALEN, 1); (2, 1)]%nat.
Definition stats_counter_fields : list (nat * nat) := [(8, 8); (8, 8)]%nat.

(** What the Go side hands to the kernel: the fields in declaration order (the
    bpf2go structs carry [structs.HostLayout]). *)
Definition marshal_backend_info (e : endian) (b : backend_info) : list byte :=
  store e 4 (bi_ipv4 b) ++ store e 2 (bi_port b) ++ store e 2 (bi_pad b) ++
  bi_mac b ++ bi_pad2 b ++ store e 4 (bi_weight b).

Definition marshal_lb_config (e : endian) (c : lb_config) : list byte :=
  store e 4 (cfg_vip c) ++ store e 2 (cfg_vport c) ++ store e 2 (cfg_pad c) ++
  store e 4 (cfg_backend_count c) ++ cfg_src_mac c ++ cfg_pad2 c.

Definition marshal_stats_counter (e : endian) (s : stats_counter) : list byte :=
  store e 8 (rx_packets s) ++ store e 8 (rx_bytes s).

(** What the C side loads from a map value: each field at its ABI offset. *)
Definition field (fs : list (nat * nat)) (k : nat) (bs : list byte) : list byte :=
  slice bs (nth k (fst (c_layout fs)) 0%nat) (fst (nth k fs (0, 0)%nat)).

Definition view_backend_info (e : endian) (bs : list byte) : backend_info :=
  let f k := field backend_info_fields k bs in
  {| bi_ipv4 := load e (f 0%nat); bi_port := load e (f 1%nat); bi_pad := load e (f 2%nat);
     bi_mac := f 3%nat; bi_pad2 := f 4%nat; bi_weight := load e (f 5%nat) |}.

Definition view_lb_config (e : endian) (bs : list byte) : lb_config :=
  let f k := field lb_config_fields k bs in
  {| cfg_vip := load e (f 0%nat); cfg_vport := load e (f 1%nat); cfg_pad := load e (f 2%nat);
     cfg_backend_count := load e (f 3%nat); cfg_src_mac := f 4%nat; cfg_pad2 := f 5%nat |}.

Definition view_stats_counter (e : endian) (bs : list byte) : stats_counter :=
  let f k := field stats_counter_fields k bs in
  {| rx_packets := load e (f 0%nat); rx_bytes := load e (f 1%nat) |}.

(** Make every stored word of the goal an explicit byte list, remembering what
    loading it back gives. *)
Ltac explicit_stores :=
  repeat match goal with
  | |- context [store ?e ?n ?w] =>
      let s := fresh "s" in let H := fresh "Hs" in let L := fresh "Hl" in
      pose proof (length_store e n w) as L; pose proof (load_store e n w) as H;
      generalize dependent (store e n w); intros s L H;
      explicit_list s L
  end.

(** ** Round trips *)

(** The C side's view of a marshalled Go struct is that struct. *)
Lemma view_marshal_backend_info e b :
  wf_backend_info b -> view_backend_info e (marshal_backend_info e b) = b.
Proof.
  intros (Hi & Hp & Hpad & Hm & Hpad2 & Hw). destruct b as [i p pd m pd2 w]; simpl in *.
  unfold marshal_backend_info; simpl.
  explicit_list m Hm. explicit_list pd2 Hpad2. explicit_stores.
  cbv [view_backend_info field backend_info_fields slice]. simpl.
  f_equal; (etrans; [eassumption|by apply Z.mod_small]).
Qed.

Lemma view_marshal_lb_config e c :
  wf_lb_config c -> view_lb_config e (marshal_lb_config e c) = c.
Proof.
  intros (Hv & Hp & Hpad & Hc & Hm & Hpad2). destruct c as [v p pd n m pd2]; simpl in *.
  unfold marshal_lb_config; simpl.
  explicit_list m Hm. explicit_list pd2 Hpad2. explicit_stores.
  cbv [view_lb_config field lb_config_fields slice]. simpl.
  f_equal; (etrans; [eassumption|by apply Z.mod_small]).
Qed.

Lemma view_marshal_stats_counter e s :
  wf_stats_counter s -> view_stats_counter e (marshal_stats_counter e s) = s.
Proof.
  intros (Hp & Hb). destruct s as [p b]; simpl in *.
  unfold marshal_stats_counter; simpl. explicit_stores.
  cbv [view_stats_counter field stats_counter_fields slice]. simpl.
  f_equal; (etrans; [eassumption|by apply Z.mod_small]).
Qed.

(** C31: user space and kernel agree on the map values.  For all three structs, the bytes
    the Go side marshals have the size the C ABI gives the struct, and the C side, which
    reads each field at its ABI offset in the host's byte order, sees exactly the fields
    that were written: no padding the Go structs do not have, on either byte order. *)
Theorem struct_roundtrip e b c s :
  wf_backend_info b -> wf_lb_config c -> wf_stats_counter s ->
  view_backend_info e (marshal_backend_info e b) = b /\
  view_lb_config e (marshal_lb_config e c) = c /\
  view_stats_counter e (marshal_stats_counter e s) = s /\
  length (marshal_backend_info e b) = snd (c_layout backend_info_fields) /\
  length (marshal_lb_config e c) = snd (c_layout lb_config_fields) /\
  length (marshal_stats_counter e s) = snd (c_layout stats_counter_fields).
Proof.
  intros Hb Hc Hs. split_and!; auto using view_marshal_backend_info, view_marshal_lb_config,
    view_marshal_stats_counter.
  - destruct Hb as (_ & _ & _ & Hm & Hp & _). unfold marshal_backend_info.
    by rewrite !length_app, !length_store, Hm, Hp.
  - destruct Hc as (_ & _ & _ & _ & Hm & Hp). unfold marshal_lb_config.
    by rewrite !length_app, !length_store, Hm, Hp.
  - unfold marshal_stats_counter. by rewrite !length_app, !length_store.
Qed.

(** An entry with distinct bytes in every field. *)
Definition sample_entry : backend_info :=
  {| bi_ipv4 := 33558188; bi_port := 8080; bi_pad := 0;
     bi_mac := [Byte.x02; Byte.x42; Byte.xac; Byte.x12; Byte.x00; Byte.x02];
     bi_pad2 := zero_pad2; bi_weight := 1 |}.

Lemma struct_roundtrip_witness :
  view_backend_info BE (marshal_backend_info BE sample_entry) = sample_entry /\
  length (marshal_backend_info BE sample_entry) = 20%nat.
Proof.
  destruct (struct_roundtrip BE sample_entry lb_config_zero stats_counter_zero)
    as (Hv & _ & _ & Hl & _); [by vm_compute|auto with lb_wf..|].
  split; [exact Hv|exact Hl].
Defined.
