(* ===== verification/BpfMaps.v ===== *)
(** * BPF maps: the interface the kernel promises (kernelspace/xdp_lb.c:18-44)

    The maps themselves are kernel code; the sources only declare them (type, key,
    value, [max_entries]) and call them.  Their documented behaviour is stated here
    as type classes with laws, one per map type the program declares, and the
    other files are proved against the classes.  [RefMaps] is a reference
    implementation that shows the laws can hold; examples evaluate on it. *)

From S2P Require Import Prelude Types.

(** The errors a map call can return to user space. *)
Inductive errno := E2BIG | ENOENT | EOTHER (n : Z).

#[export] Instance errno_eq_dec : EqDecision errno.
Proof. solve_decision. Defined.

(** ** BPF_MAP_TYPE_ARRAY

    All [max] elements exist from creation, zero-initialised; lookups outside
    give NULL and updates outside give [E2BIG]; elements cannot be deleted. *)
Class ArrayMap (M V : Type) := {
  am_init : M;
  am_lookup : M -> Z -> option V;
  am_update : M -> Z -> V -> result errno M
}.

Class ArrayMapLaws (M V : Type) `{!ArrayMap M V} (zero : V) (max : Z) := {
  am_lookup_init k : 0 <= k < max -> am_lookup am_init k = Some zero;
  am_lookup_in m k : 0 <= k < max -> is_Some (am_lookup m k);
  am_lookup_out m k : ~ 0 <= k < max -> am_lookup m k = None;
  am_update_in m k v : 0 <= k < max -> exists m', am_update m k v = Ok m';
  am_update_out m k v : ~ 0 <= k < max -> am_update m k v = Err E2BIG;
  am_lookup_update m k v m' j :
    am_update m k v = Ok m' ->
    am_lookup m' j = if decide (j = k) then Some v else am_lookup m j
}.

(** ** BPF_MAP_TYPE_HASH

    At most [max] keys: inserting a new key in a full map gives [E2BIG], deleting
    an absent key gives [ENOENT]. *)
Class HashMap (M V : Type) := {
  hm_init : M;
  hm_keys : M -> gset Z;
  hm_lookup : M -> Z -> option V;
  hm_update : M -> Z -> V -> result errno M;
  hm_delete : M -> Z -> result errno M
}.

Class HashMapLaws (M V : Type) `{!HashMap M V} (max : nat) := {
  hm_lookup_init k : hm_lookup (hm_init (M := M)) k = None;
  hm_keys_lookup m k : k ∈ hm_keys m <-> is_Some (hm_lookup m k);
  hm_update_room m k v :
    k ∈ hm_keys m \/ (size (hm_keys m) < max)%nat -> exists m', hm_update m k v = Ok m';
  hm_update_full m k v :
    k ∉ hm_keys m -> (max <= size (hm_keys m))%nat -> hm_update m k v = Err E2BIG;
  hm_lookup_update m k v m' j :
    hm_update m k v = Ok m' ->
    hm_lookup m' j = if decide (j = k) then Some v else hm_lookup m j;
  hm_delete_present m k : k ∈ hm_keys m -> exists m', hm_delete m k = Ok m';
  hm_delete_absent m k : k ∉ hm_keys m -> hm_delete m k = Err ENOENT;
  hm_lookup_delete m k m' j :
    hm_delete m k = Ok m' ->
    hm_lookup m' j = if decide (j = k) then None else hm_lookup m j
}.

(** ** BPF_MAP_TYPE_PERCPU_ARRAY

    One array per possible CPU, none for other CPU numbers.  A program sees and writes (through the pointer
    the lookup returns) the slot of the CPU it runs on; user space reads the slots
    of all CPUs at once. *)
Class PerCpuArray (M V : Type) := {
  pm_init : M;
  pm_ncpus : nat;
  pm_lookup : M -> nat -> Z -> option V;
  pm_write : M -> nat -> Z -> V -> M;
  pm_values : M -> Z -> result errno (list V)
}.

Class PerCpuArrayLaws (M V : Type) `{!PerCpuArray M V} (zero : V) (max : Z) := {
  pm_lookup_init c k :
    (c < pm_ncpus)%nat -> 0 <= k < max -> pm_lookup (pm_init (M := M)) c k = Some zero;
  pm_lookup_in m c k : (c < pm_ncpus)%nat -> 0 <= k < max -> is_Some (pm_lookup m c k);
  pm_lookup_out m c k : ~ 0 <= k < max -> pm_lookup m c k = None;
  pm_lookup_cpu m c k : (pm_ncpus <= c)%nat -> pm_lookup m c k = None;
  pm_lookup_write m c k v c' k' :
    is_Some (pm_lookup m c k) ->
    pm_lookup (pm_write m c k v) c' k' =
      if decide (c' = c /\ k' = k) then Some v else pm_lookup m c' k';
  pm_values_in m k :
    0 <= k < max -> exists vs, pm_values m k = Ok vs /\ length vs = pm_ncpus /\
      (forall c, (c < pm_ncpus)%nat -> vs !! c = pm_lookup m c k);
  pm_values_out m k : ~ 0 <= k < max -> pm_values m k = Err ENOENT
}.

(** ** The four maps of the program *)

Class BpfMaps := {
  config_t : Type;
  backend_t : Type;
  ips_t : Type;
  counters_t : Type;
  config_ops :: ArrayMap config_t lb_config;
  backend_ops :: ArrayMap backend_t backend_info;
  ips_ops :: HashMap ips_t Z;
  counters_ops :: PerCpuArray counters_t stats_counter
}.

Class BpfMapsLaws `{!BpfMaps} := {
  config_laws :: ArrayMapLaws config_t lb_config lb_config_zero 1;
  backend_laws :: ArrayMapLaws backend_t backend_info backend_info_zero MAX_BACKENDS;
  ips_laws :: HashMapLaws ips_t Z (Z.to_nat MAX_BACKENDS);
  counters_laws :: PerCpuArrayLaws counters_t stats_counter stats_counter_zero MAX_BACKENDS
}.

(** [lbMaps] of the generated bindings: the maps as loaded in the kernel. *)
Record lbMaps `{!BpfMaps} := {
  ConfigMap : config_t;
  BackendMap : backend_t;
  BackendIpsMap : ips_t;
  CountersMap : counters_t
}.

Section Maps.
Context {KM : BpfMaps}.

Definition lbMaps_init : lbMaps :=
  {| ConfigMap := am_init; BackendMap := am_init; BackendIpsMap := hm_init;
     CountersMap := pm_init |}.

Definition with_ConfigMap (m : lbMaps) (c : config_t) : lbMaps :=
  {| ConfigMap := c; BackendMap := BackendMap m; BackendIpsMap := BackendIpsMap m;
     CountersMap := CountersMap m |}.
Definition with_BackendMap (m : lbMaps) (b : backend_t) : lbMaps :=
  {| ConfigMap := ConfigMap m; BackendMap := b; BackendIpsMap := BackendIpsMap m;
     CountersMap := CountersMap m |}.
Definition with_BackendIpsMap (m : lbMaps) (i : ips_t) : lbMaps :=
  {| ConfigMap := ConfigMap m; BackendMap := BackendMap m; BackendIpsMap := i;
     CountersMap := CountersMap m |}.
Definition with_CountersMap (m : lbMaps) (c : counters_t) : lbMaps :=
  {| ConfigMap := ConfigMap m; BackendMap := BackendMap m;
     BackendIpsMap := BackendIpsMap m; CountersMap := c |}.
End Maps.

(** ** A reference implementation of the interface *)

Module RefMaps.
Section Array.
Context {V : Type} (zero : V) (max : Z).

Definition in_range (k : Z) : bool := (0 <=? k) && (k <? max).

Definition array_lookup (m : gmap Z V) (k : Z) : option V :=
  if in_range k then Some (default zero (m !! k)) else None.
Definition array_update (m : gmap Z V) (k : Z) (v : V) : result errno (gmap Z V) :=
  if in_range k then Ok (<[k := v]> m) else Err E2BIG.

Definition array_map : ArrayMap (gmap Z V) V :=
  {| am_init := ∅; am_lookup := array_lookup; am_update := array_update |}.

Lemma in_range_spec k : in_range k = bool_decide (0 <= k < max).
Proof. unfold in_range. repeat case_bool_decide; lia. Qed.

Lemma array_laws : ArrayMapLaws (gmap Z V) V (ArrayMap0 := array_map) zero max.
Proof.
  split; simpl; unfold array_lookup, array_update; intros *;
    rewrite ?in_range_spec; repeat case_bool_decide; try done; eauto.
  - intros [= <-]. rewrite lookup_insert. repeat case_decide; by subst.
  - intros [= <-]. case_decide; by subst.
Qed.
End Array.

Section Hash.
Context {V : Type} (max : nat).

Definition hash_update (m : gmap Z V) (k : Z) (v : V) : result errno (gmap Z V) :=
  if decide (k ∈ dom m \/ (size (dom m) < max)%nat)
  then Ok (<[k := v]> m) else Err E2BIG.
Definition hash_delete (m : gmap Z V) (k : Z) : result errno (gmap Z V) :=
  if decide (k ∈ dom m) then Ok (delete k m) else Err ENOENT.

Definition hash_map : HashMap (gmap Z V) V :=
  {| hm_init := ∅; hm_keys := dom; hm_lookup := fun m k => m !! k;
     hm_update := hash_update; hm_delete := hash_delete |}.

Lemma hash_laws : HashMapLaws (gmap Z V) V (HashMap0 := hash_map) max.
Proof.
  split; simpl; unfold hash_update, hash_delete; intros *.
  - done.
  - apply elem_of_dom.
  - intros H. rewrite decide_True by done. eauto.
  - intros Hk Hs. rewrite decide_False; [done|]. intros [?|?]; [done|lia].
  - case_decide; [|done]. intros [= <-]. rewrite lookup_insert.
    repeat case_decide; by subst.
  - intros H. rewrite decide_True by done. eauto.
  - intros H. by rewrite decide_False.
  - case_decide; [|done]. intros [= <-]. rewrite lookup_delete.
    repeat case_decide; by subst.
Qed.
End Hash.

Section PerCpu.
Context {V : Type} (zero : V) (max : Z) (ncpus : nat).

Definition percpu_lookup (m : gmap (nat * Z) V) (c : nat) (k : Z) : option V :=
  if (c <? ncpus)%nat && in_range max k then Some (default zero (m !! (c, k))) else None.
Definition percpu_values (m : gmap (nat * Z) V) (k : Z) : result errno (list V) :=
  if in_range max k
  then Ok (map (fun c => default zero (m !! (c, k))) (seq 0 ncpus)) else Err ENOENT.

Definition percpu_array : PerCpuArray (gmap (nat * Z) V) V :=
  {| pm_init := ∅; pm_ncpus := ncpus; pm_lookup := percpu_lookup;
     pm_write := fun m c k v => <[(c, k) := v]> m; pm_values := percpu_values |}.

Lemma percpu_laws :
  PerCpuArrayLaws (gmap (nat * Z) V) V (PerCpuArray0 := percpu_array) zero max.
Proof.
  split; simpl; unfold percpu_lookup, percpu_values; intros *;
    rewrite ?in_range_spec.
  - intros Hc Hk. rewrite (proj2 (Nat.ltb_lt _ _) Hc), bool_decide_eq_true_2 by done.
    done.
  - intros Hc Hk. rewrite (proj2 (Nat.ltb_lt _ _) Hc), bool_decide_eq_true_2 by done.
    eauto.
  - intros Hk. rewrite bool_decide_eq_false_2, andb_false_r by done. done.
  - intros Hc. by rewrite (proj2 (Nat.ltb_ge _ _) Hc).
  - intros Hs. rewrite lookup_insert.
    destruct (decide ((c', k') = (c, k))) as [[= -> ->]|Hne].
    + rewrite !decide_True by done.
      destruct (_ && _); [done|by destruct Hs].
    + rewrite !decide_False by naive_solver. done.
  - intros Hk. rewrite bool_decide_eq_true_2 by done. eexists; split; [done|].
    rewrite length_map, length_seq. split; [done|]. intros c Hc.
    rewrite (proj2 (Nat.ltb_lt _ _) Hc). simpl.
    rewrite list_lookup_fmap, lookup_seq_lt by done. done.
  - intros Hk. by rewrite bool_decide_eq_false_2.
Qed.
End PerCpu.

(** Two possible CPUs, so that per-CPU effects are visible in examples. *)
#[export] Instance maps : BpfMaps := {|
  config_ops := array_map lb_config_zero 1;
  backend_ops := array_map backend_info_zero MAX_BACKENDS;
  ips_ops := hash_map (Z.to_nat MAX_BACKENDS);
  counters_ops := percpu_array stats_counter_zero MAX_BACKENDS 2
|}.

#[export] Instance maps_laws : BpfMapsLaws.
Proof. split; [apply array_laws|apply array_laws|apply hash_laws|apply percpu_laws]. Qed.
End RefMaps.
