(* ===== verification/Ebpf.v ===== *)
(** * The eBPF programs' view of the kernel

    An XDP program is a finite tree of kernel interactions ([prog]): packet loads
    and stores, map lookups, loads and stores through the pointers the lookups
    return, and the [bpf_get_prandom_u32] helper.  Each node is one memory access,
    so that [exec] can run a program on its own and [Race] can interleave it with
    map updates from user space.

    Packet pointers are offsets from [ctx->data]; [PktLen] is
    [data_end - data].  An access outside the packet, or through a pointer no
    lookup can have returned, has no result: [exec] gives [None]. *)

From S2P Require Import Prelude Types BpfMaps.

(** enum xdp_action *)
Inductive xdp_action := XDP_ABORTED | XDP_DROP | XDP_PASS | XDP_TX | XDP_REDIRECT.

#[export] Instance xdp_action_eq_dec : EqDecision xdp_action.
Proof. solve_decision. Defined.

(** ** Interactions *)

Inductive event :=
  | PktLen
  | PktLoad (off n : nat)
  | PktStore (off : nat) (bs : list byte)
  | PRandom
  (* bpf_map_lookup_elem: is the pointer non-NULL? *)
  | ConfigLookup (k : Z)
  | BackendLookup (k : Z)
  | IpsLookup (k : Z)
  | CounterLookup (k : Z)
  (* loads and stores through the returned pointers, one field each *)
  | LdVip (k : Z)
  | LdBackendCount (k : Z)
  | LdSrcMac (k : Z) (i : nat)
  | LdIpv4 (k : Z)
  | LdMac (k : Z) (i : nat)
  | LdRxPackets (k : Z)
  | LdRxBytes (k : Z)
  | StRxPackets (k : Z) (v : Z)
  | StRxBytes (k : Z) (v : Z).

Definition resp (ev : event) : Type :=
  match ev with
  | PktLen => nat
  | PktLoad _ _ => list byte
  | PktStore _ _ | StRxPackets _ _ | StRxBytes _ _ => unit
  | ConfigLookup _ | BackendLookup _ | IpsLookup _ | CounterLookup _ => bool
  | PRandom | LdVip _ | LdBackendCount _ | LdIpv4 _ | LdRxPackets _ | LdRxBytes _ => Z
  | LdSrcMac _ _ | LdMac _ _ => byte
  end.

(** ** Programs *)

Inductive prog (A : Type) :=
  | Ret (a : A)
  | Vis (ev : event) (k : resp ev -> prog A).
Arguments Ret {A} a.
Arguments Vis {A} ev k.

Fixpoint prog_bind {A B} (f : A -> prog B) (p : prog A) : prog B :=
  match p with
  | Ret a => f a
  | Vis ev k => Vis ev (fun x => prog_bind f (k x))
  end.

Notation "'let!' x := p 'in' k" := (prog_bind (fun x => k) p)
  (at level 100, x name, p at level 99, k at level 200, right associativity) : lb_scope.
Notation "'do!' p ; k" := (prog_bind (fun _ => k) p)
  (at level 100, p at level 99, k at level 200, right associativity) : lb_scope.

Definition call (ev : event) : prog (resp ev) := Vis ev Ret.

(** ** The kernel state of one invocation *)

Section Kernel.
Context {KM : BpfMaps}.

(** The packet, the maps, the CPU the program runs on and the value the next
    [bpf_get_prandom_u32] returns. *)
Record kstate := {
  ks_pkt : list byte;
  ks_maps : lbMaps;
  ks_cpu : nat;
  ks_rand : Z
}.

Definition with_pkt (s : kstate) (p : list byte) : kstate :=
  {| ks_pkt := p; ks_maps := ks_maps s; ks_cpu := ks_cpu s; ks_rand := ks_rand s |}.
Definition with_maps (s : kstate) (m : lbMaps) : kstate :=
  {| ks_pkt := ks_pkt s; ks_maps := m; ks_cpu := ks_cpu s; ks_rand := ks_rand s |}.

Definition config_at (s : kstate) (k : Z) : option lb_config :=
  am_lookup (ConfigMap (ks_maps s)) k.
Definition backend_at (s : kstate) (k : Z) : option backend_info :=
  am_lookup (BackendMap (ks_maps s)) k.
Definition counter_at (s : kstate) (k : Z) : option stats_counter :=
  pm_lookup (CountersMap (ks_maps s)) (ks_cpu s) k.

Definition set_counter (s : kstate) (k : Z) (c : stats_counter) : kstate :=
  with_maps s (with_CountersMap (ks_maps s)
    (pm_write (CountersMap (ks_maps s)) (ks_cpu s) k c)).

(** One interaction. *)
Definition handle (ev : event) (s : kstate) : option (resp ev * kstate) :=
  match ev return option (resp ev * kstate) with
  | PktLen => Some (length (ks_pkt s), s)
  | PktLoad off n => bs ← peek (ks_pkt s) off n; Some (bs, s)
  | PktStore off bs => p ← poke (ks_pkt s) off bs; Some (tt, with_pkt s p)
  | PRandom => Some (ks_rand s, s)
  | ConfigLookup k => Some (bool_decide (is_Some (config_at s k)), s)
  | BackendLookup k => Some (bool_decide (is_Some (backend_at s k)), s)
  | IpsLookup k =>
      Some (bool_decide (is_Some (hm_lookup (BackendIpsMap (ks_maps s)) k)), s)
  | CounterLookup k => Some (bool_decide (is_Some (counter_at s k)), s)
  | LdVip k => c ← config_at s k; Some (cfg_vip c, s)
  | LdBackendCount k => c ← config_at s k; Some (cfg_backend_count c, s)
  | LdSrcMac k i => c ← config_at s k; b ← cfg_src_mac c !! i; Some (b, s)
  | LdIpv4 k => b ← backend_at s k; Some (bi_ipv4 b, s)
  | LdMac k i => b ← backend_at s k; x ← bi_mac b !! i; Some (x, s)
  | LdRxPackets k => c ← counter_at s k; Some (rx_packets c, s)
  | LdRxBytes k => c ← counter_at s k; Some (rx_bytes c, s)
  | StRxPackets k v =>
      c ← counter_at s k;
      Some (tt, set_counter s k {| rx_packets := v; rx_bytes := rx_bytes c |})
  | StRxBytes k v =>
      c ← counter_at s k;
      Some (tt, set_counter s k {| rx_packets := rx_packets c; rx_bytes := v |})
  end.

(** A program that runs to its end with no map update in between. *)
Fixpoint exec {A} (p : prog A) (s : kstate) : option (A * kstate) :=
  match p with
  | Ret a => Some (a, s)
  | Vis ev k => '(x, s') ← handle ev s; exec (k x) s'
  end.

Lemma exec_bind {A B} (p : prog A) (f : A -> prog B) s :
  exec (prog_bind f p) s = '(a, s') ← exec p s; exec (f a) s'.
Proof.
  revert s. induction p as [a|ev k IH]; intros s; [done|].
  simpl.
  destruct (handle ev s) as [[x s']|]; simpl; [apply IH|done].
Qed.

Lemma exec_call ev s : exec (call ev) s = handle ev s.
Proof. simpl. by destruct (handle ev s) as [[x s']|]. Qed.

Lemma exec_call_bind {B} ev (f : resp ev -> prog B) s :
  exec (prog_bind f (call ev)) s = '(x, s') ← handle ev s; exec (f x) s'.
Proof. done. Qed.
End Kernel.

Arguments exec : simpl never.
Arguments prog_bind : simpl never.

(** Reduce the binds of the option monad and decided conditions, and nothing else. *)
Ltac opt_simpl :=
  cbn [mbind option_bind negb andb ks_pkt ks_maps ks_cpu ks_rand with_pkt with_maps].

Lemma exec_Ret `{BpfMaps} {A} (a : A) s : exec (Ret a) s = Some (a, s).
Proof. reflexivity. Qed.

(** Run the interaction at the head of a program (the equations of
    [exec_call_bind] and [exec_call], used up to conversion of [resp]). *)
Ltac exec_step :=
  match goal with
  | |- context [@exec ?M ?A (@prog_bind ?X ?Y ?f ?p) ?s] =>
      lazymatch p with
      | call ?ev =>
          change (@exec M A (@prog_bind X Y f p) s)
            with ('(x, s') ← handle ev s; @exec M A (f x) s')
      end
  | |- context [@exec ?M ?A ?p ?s] =>
      lazymatch p with
      | call ?ev => let H := fresh in
          pose proof (exec_call ev s) as H; change (resp ev) with A in H; rewrite H; clear H
      end
  end; cbn [handle]; opt_simpl.
