(* ===== verification/Checksum.v ===== *)
(** * The IPv4 header checksum (kernelspace/xdp_lb.c:46-65)

    [update_ip_csum] as the C code has it, RFC 1071's one's-complement sum as the
    specification, and the theorems that relate them: the recomputed field makes
    the 20-byte header verify, on hosts of either byte order. *)

From S2P Require Import Prelude Types BpfMaps Ebpf.

(** ** The code *)

(** sizeof(struct iphdr) and the offset of its [check] field. *)
Definition sizeof_iphdr : nat := 20.
Definition iphdr_check : nat := 10.

(** The unrolled loop: [csum += *p++], a 32-bit accumulator. *)
Fixpoint csum_words (e : endian) (off n : nat) (csum : Z) : prog Z :=
  match n with
  | O => Ret csum
  | S n => let! w := call (PktLoad off 2) in csum_words e (off + 2) n (u32 (csum + load e w))
  end.

Arguments csum_words : simpl never.

(** The two folds and the complement, truncated to 16 bits. *)
Definition csum_fold (csum : Z) : Z :=
  let csum := u32 (Z.shiftr csum 16 + Z.land csum 65535) in
  let csum := u32 (csum + Z.shiftr csum 16) in
  u16 (u32 (Z.lnot csum)).

Definition update_ip_csum (e : endian) (iph : nat) : prog unit :=
  do! call (PktStore (iph + iphdr_check) (store e 2 0));
  let! csum := csum_words e iph (sizeof_iphdr / 2) 0 in
  call (PktStore (iph + iphdr_check) (store e 2 (csum_fold csum))).

(** ** The specification: RFC 1071 *)

(** The 16-bit words of a header, as a host of byte order [e] loads them. *)
Fixpoint words (e : endian) (bs : list byte) : list Z :=
  match bs with
  | a :: b :: bs => load e [a; b] :: words e bs
  | _ => []
  end.

(** One's-complement addition: the carry out of bit 15 is added back. *)
Definition oc_add (a b : Z) : Z := (a + b) mod 2 ^ 16 + (a + b) / 2 ^ 16.
Definition oc_sum (ws : list Z) : Z := foldl oc_add 0 ws.

(** A header verifies when the sum over all its words, the checksum field
    included, is all ones. *)
Definition csum_valid (e : endian) (hdr : list byte) : Prop := oc_sum (words e hdr) = 65535.

#[export] Instance csum_valid_dec e hdr : Decision (csum_valid e hdr).
Proof. unfold csum_valid. apply _. Defined.

Definition sum (ws : list Z) : Z := foldr Z.add 0 ws.

(** The one's-complement value of an unbounded sum. *)
Definition oc_norm (s : Z) : Z := if decide (s = 0) then 0 else (s - 1) mod 65535 + 1.

(** ** Arithmetic of one's-complement sums *)

Lemma sum_app xs ys : sum (xs ++ ys) = sum xs + sum ys.
Proof. induction xs as [|x xs IH]; simpl; [done|]. unfold sum in *. simpl. lia. Qed.

Lemma words_u16 e bs : Forall is_u16 (words e bs).
Proof.
  revert bs. fix IH 1. intros [|a [|b bs]]; simpl; auto.
  constructor; [by apply load_u16|apply IH].
Qed.

Lemma sum_nonneg ws : Forall is_u16 ws -> 0 <= sum ws.
Proof. induction 1 as [|w ws [Hw _] _ IH]; simpl; [done|]. lia. Qed.

Lemma sum_bound ws : Forall is_u16 ws -> sum ws <= 65535 * Z.of_nat (length ws).
Proof. induction 1 as [|w ws [_ Hw] _ IH]; simpl; [done|]. lia. Qed.

Lemma oc_norm_range s : 0 <= s -> 0 <= oc_norm s < 2 ^ 16.
Proof.
  intros Hs. unfold oc_norm. case_decide; [lia|].
  pose proof (Z.mod_pos_bound (s - 1) 65535). lia.
Qed.

Lemma oc_norm_add s w : 0 <= s -> is_u16 w -> oc_add (oc_norm s) w = oc_norm (s + w).
Proof.
  intros Hs [Hw Hw']. unfold oc_add, oc_norm. repeat case_decide; subst.
  - by replace w with 0 by lia.
  - rewrite !Z.add_0_l, (Z.mod_small (w - 1)), Z.mod_small, Z.div_small by lia. lia.
  - lia.
  - pose proof (Z.mod_pos_bound (s - 1) 65535 ltac:(lia)) as Hr.
    set (r := (s - 1) mod 65535) in *.
    replace ((s + w - 1) mod 65535) with ((r + w) mod 65535).
    2: { unfold r. rewrite Zplus_mod_idemp_l. f_equal. lia. }
    destruct (decide (r + w < 65535)).
    + rewrite (Z.mod_small (r + w)), Z.mod_small, Z.div_small by lia. lia.
    + replace ((r + w) mod 65535) with (r + w - 65535).
      2: { rewrite (Z.mod_eq (r + w)) by lia.
           replace ((r + w) / 65535) with 1; [lia|].
           apply Z.div_unique with (r := r + w - 65535); lia. }
      replace ((r + 1 + w) / 2 ^ 16) with 1 by
        (apply Z.div_unique with (r := r + 1 + w - 2 ^ 16); lia).
      replace ((r + 1 + w) mod 2 ^ 16) with (r + 1 + w - 2 ^ 16) by
        (apply Z.mod_unique with (q := 1); lia).
      lia.
Qed.

Lemma oc_sum_norm ws : Forall is_u16 ws -> oc_sum ws = oc_norm (sum ws).
Proof.
  unfold oc_sum. intros Hws. rewrite <-(Z.add_0_l (sum ws)).
  change 0 with (oc_norm 0) at 1. generalize (Z.le_refl 0). generalize 0 at 2 3 4.
  induction Hws as [|w ws Hw Hws IH]; intros s Hs; simpl; [f_equal; lia|].
  rewrite oc_norm_add by done. rewrite IH by (destruct Hw; lia).
  f_equal. lia.
Qed.

(** A sum is all ones exactly when it is a positive multiple of 65535. *)
Lemma oc_norm_ones s : 0 <= s -> oc_norm s = 65535 <-> 0 < s /\ s mod 65535 = 0.
Proof.
  intros Hs. unfold oc_norm. case_decide as H0; [lia|].
  split; intros H; [|destruct H as [_ H]].
  - split; [lia|]. rewrite Z.mod_eq in H by lia.
    apply Z.mod_divide; [lia|]. exists ((s - 1) / 65535 + 1). lia.
  - apply Z.mod_divide in H as [k Hk]; [|lia].
    rewrite (Z.mod_eq (s - 1)) by lia.
    replace ((s - 1) / 65535) with (k - 1); [lia|].
    apply Z.div_unique with (r := 65534); lia.
Qed.

Lemma csum_valid_iff e hdr :
  csum_valid e hdr <-> 0 < sum (words e hdr) /\ sum (words e hdr) mod 65535 = 0.
Proof.
  unfold csum_valid. rewrite oc_sum_norm by apply words_u16.
  apply oc_norm_ones, sum_nonneg, words_u16.
Qed.

(** The code's two folds suffice for the ten words of a header: they compute the
    one's-complement sum, and the result is its complement. *)
Lemma csum_fold_norm s : 0 <= s <= 655350 -> csum_fold s = 65535 - oc_norm s.
Proof.
  intros Hs. unfold csum_fold. cbv zeta.
  rewrite !Z.shiftr_div_pow2 by lia.
  rewrite (Z.land_ones s 16 ltac:(lia) : Z.land s 65535 = _).
  pose proof (Z.div_mod s (2 ^ 16) ltac:(lia)) as Hdm.
  pose proof (Z.mod_pos_bound s (2 ^ 16) ltac:(lia)) as Hlo.
  set (h := s / 2 ^ 16) in *. set (l := s mod 2 ^ 16) in *.
  assert (0 <= h <= 9) as Hh by lia.
  rewrite (u32_id (h + l)) by (unfold is_u32; lia).
  assert (oc_norm s = if decide (h + l < 2 ^ 16) then h + l else h + l - 65535) as Hn.
  { unfold oc_norm. case_decide; [case_decide; lia|].
    case_decide.
    - rewrite <-(Z.mod_unique (s - 1) 65535 h (h + l - 1)); lia.
    - rewrite <-(Z.mod_unique (s - 1) 65535 (h + 1) (h + l - 65536)); lia. }
  rewrite Hn. case_decide as Hc.
  - rewrite (Z.div_small (h + l)) by lia. rewrite Z.add_0_r, (u32_id (h + l)) by (unfold is_u32; lia).
    unfold u16, u32, Z.lnot.
    rewrite <-Z.mod_unique with (a := Z.pred (- (h + l))) (q := -1) (r := 2 ^ 32 - 1 - (h + l))
      by lia.
    symmetry. apply Z.mod_unique with (q := 65535); lia.
  - replace ((h + l) / 2 ^ 16) with 1 by
      (apply Z.div_unique with (r := h + l - 2 ^ 16); lia).
    rewrite (u32_id (h + l + 1)) by (unfold is_u32; lia). unfold u16, u32, Z.lnot.
    rewrite <-Z.mod_unique with (a := Z.pred (- (h + l + 1))) (q := -1)
      (r := 2 ^ 32 - 1 - (h + l + 1)) by lia.
    symmetry. apply Z.mod_unique with (q := 65534); lia.
Qed.

(** A sum with the complement of its fold added back is a positive multiple of
    65535. *)
Lemma csum_fold_complement e a b :
  0 <= a <= 327675 -> 0 <= b <= 327675 ->
  0 < a + load e (store e 2 (csum_fold (a + b))) + b /\
  (a + load e (store e 2 (csum_fold (a + b))) + b) mod 65535 = 0.
Proof.
  intros Ha Hb. rewrite csum_fold_norm by lia.
  pose proof (oc_norm_range (a + b) ltac:(lia)) as Hr.
  rewrite load_store_u16 by (unfold is_u16; lia).
  unfold oc_norm in *. case_decide.
  - replace a with 0 by lia. replace b with 0 by lia. done.
  - split; [lia|].
    pose proof (Z.div_mod (a + b - 1) 65535 ltac:(lia)).
    apply Z.mod_divide; [lia|]. exists ((a + b - 1) / 65535 + 1). lia.
Qed.

(** ** Headers as runs of words *)

Lemma sum_words_bound e bs :
  (length bs <= 10)%nat -> 0 <= sum (words e bs) <= 327675.
Proof.
  intros Hlen. split; [apply sum_nonneg, words_u16|].
  assert (length (words e bs) <= 5)%nat.
  { do 11 (destruct bs as [|? bs]; [simpl; lia|]). simpl in Hlen. lia. }
  etrans; [apply sum_bound, words_u16|]. lia.
Qed.

Lemma slice_plus p off n m : slice p off (n + m) = slice p off n ++ slice p (off + n) m.
Proof. unfold slice. by rewrite <-take_take_drop, drop_drop. Qed.

Lemma words_app e n xs ys :
  length xs = (2 * n)%nat -> words e (xs ++ ys) = words e xs ++ words e ys.
Proof.
  revert xs. induction n as [|n IH]; intros [|a [|b xs]] H; try (simpl in H; lia); [done|].
  simpl. f_equal. apply IH. simpl in H. lia.
Qed.

Lemma words_pair e xs : length xs = 2%nat -> words e xs = [load e xs].
Proof. intros H. explicit_list xs H. done. Qed.

Lemma sum_words_slice e p off n m :
  (off + 2 * n + m <= length p)%nat ->
  sum (words e (slice p off (2 * n + m))) =
    sum (words e (slice p off (2 * n))) + sum (words e (slice p (off + 2 * n) m)).
Proof.
  intros H. rewrite slice_plus, (words_app e n) by (apply length_slice; lia).
  apply sum_app.
Qed.

(** A header with the checksum field apart: ten bytes, the field, eight bytes. *)
Lemma sum_words_header e p iph :
  (iph + 20 <= length p)%nat ->
  sum (words e (slice p iph 20)) =
    sum (words e (slice p iph 10)) + load e (slice p (iph + 10) 2) +
    sum (words e (slice p (iph + 12) 8)).
Proof.
  intros H. change 20%nat with (2 * 5 + (2 * 1 + 8))%nat.
  rewrite !sum_words_slice by (simpl; lia). simpl (2 * _)%nat.
  rewrite (words_pair e (slice p (iph + 10) 2)) by (apply length_slice; lia).
  rewrite <-Nat.add_assoc. simpl. lia.
Qed.

(** ** What the code computes *)

(** The packet after [update_ip_csum]. *)
Definition fix_csum (e : endian) (iph : nat) (p : list byte) : list byte :=
  let p0 := splice p (iph + iphdr_check) (store e 2 0) in
  splice p0 (iph + iphdr_check)
    (store e 2 (csum_fold (sum (words e (slice p0 iph sizeof_iphdr))))).

Section Exec.
Context {KM : BpfMaps}.

Lemma exec_csum_words e off n acc s :
  (off + 2 * n <= length (ks_pkt s))%nat ->
  0 <= acc -> acc + 65535 * Z.of_nat n < 2 ^ 32 ->
  exec (csum_words e off n acc) s =
    Some (acc + sum (words e (slice (ks_pkt s) off (2 * n))), s).
Proof.
  revert off acc. induction n as [|n IH]; intros off acc Hlen Hacc Hmax.
  { change (words e _) with (@nil Z). simpl. by rewrite Z.add_0_r. }
  change (csum_words e off (S n) acc) with
    (let! w := call (PktLoad off 2) in csum_words e (off + 2) n (u32 (acc + load e w))).
  exec_step. unfold peek. rewrite (proj2 (Nat.leb_le _ _)) by lia. simpl.
  pose proof (length_slice (ks_pkt s) off 2 ltac:(lia)) as H2.
  destruct (load_u16 e _ H2) as [Hlo Hhi].
  rewrite u32_id by (unfold is_u32; lia). rewrite IH by lia.
  replace (S (n + S (n + 0)))%nat with (2 * 1 + 2 * n)%nat by lia.
  rewrite sum_words_slice by lia. simpl (2 * 1)%nat. rewrite (words_pair _ _ H2).
  do 2 f_equal. simpl. lia.
Qed.

Lemma exec_update_ip_csum e iph s :
  (iph + sizeof_iphdr <= length (ks_pkt s))%nat ->
  exec (update_ip_csum e iph) s = Some (tt, with_pkt s (fix_csum e iph (ks_pkt s))).
Proof.
  unfold sizeof_iphdr. intros Hlen. unfold update_ip_csum, iphdr_check.
  exec_step. unfold poke. rewrite length_store, (proj2 (Nat.leb_le _ _)) by lia. simpl.
  pose proof (length_splice (ks_pkt s) (iph + 10) (store e 2 0)) as Hsp.
  rewrite length_store in Hsp. specialize (Hsp ltac:(lia)).
  rewrite exec_bind, exec_csum_words by (simpl; rewrite ?Hsp; simpl; lia).
  simpl. exec_step. unfold poke. simpl.
  by rewrite length_store, Hsp, (proj2 (Nat.leb_le _ _)) by lia.
Qed.
End Exec.

Lemma length_fix_csum e iph p :
  (iph + sizeof_iphdr <= length p)%nat -> length (fix_csum e iph p) = length p.
Proof.
  unfold sizeof_iphdr. intros H. unfold fix_csum, iphdr_check.
  repeat rewrite ?length_splice, ?length_store; lia.
Qed.

(** Only the two bytes of the [check] field change. *)
Lemma lookup_fix_csum_ne e iph p i :
  (iph + sizeof_iphdr <= length p)%nat -> ~ (iph + 10 <= i < iph + 12)%nat ->
  fix_csum e iph p !! i = p !! i.
Proof.
  unfold sizeof_iphdr. intros H Hi. unfold fix_csum, iphdr_check.
  rewrite lookup_splice_ne, lookup_splice_ne; [done|..];
    repeat rewrite ?length_splice, ?length_store; lia.
Qed.

Lemma slice_fix_csum_ne e iph p off n :
  (iph + sizeof_iphdr <= length p)%nat -> (off + n <= iph + 10 \/ iph + 12 <= off)%nat ->
  slice (fix_csum e iph p) off n = slice p off n.
Proof.
  intros H Hd. apply slice_lookup_ext; [by apply length_fix_csum|].
  intros i Hi. apply lookup_fix_csum_ne; [done|lia].
Qed.

(** The words of the rewritten header sum to a positive multiple of 65535. *)
Lemma sum_fix_csum e iph p :
  (iph + sizeof_iphdr <= length p)%nat ->
  0 < sum (words e (slice (fix_csum e iph p) iph sizeof_iphdr)) /\
  sum (words e (slice (fix_csum e iph p) iph sizeof_iphdr)) mod 65535 = 0.
Proof.
  intros H. pose proof (length_fix_csum e iph p H) as Hlen.
  pose proof (slice_fix_csum_ne e iph p iph 10 H ltac:(lia)) as Hpre.
  pose proof (slice_fix_csum_ne e iph p (iph + 12) 8 H ltac:(lia)) as Hpost.
  assert (slice (fix_csum e iph p) (iph + 10) 2 =
    store e 2 (csum_fold (sum (words e (slice p iph 10)) +
      sum (words e (slice p (iph + 12) 8))))) as Hfld.
  { unfold fix_csum, iphdr_check, sizeof_iphdr in *.
    set (p0 := splice p (iph + 10) (store e 2 0)).
    assert (length p0 = length p) as Hp0 by
      (unfold p0; rewrite length_splice; rewrite ?length_store; lia).
    rewrite (slice_splice_eq' p0) by (rewrite ?length_store; lia).
    rewrite (sum_words_header e p0) by lia. unfold p0.
    rewrite (slice_splice_ne _ _ _ iph), (slice_splice_ne _ _ _ (iph + 12))
      by (rewrite ?length_store; lia).
    rewrite slice_splice_eq' by (rewrite ?length_store; lia).
    by rewrite load_store_u16, Z.add_0_r by (unfold is_u16; lia). }
  unfold sizeof_iphdr in *. rewrite sum_words_header by lia. rewrite Hpre, Hpost, Hfld.
  apply csum_fold_complement.
  - apply sum_words_bound. rewrite length_slice; lia.
  - apply sum_words_bound. rewrite length_slice; lia.
Qed.

(** ** Byte-order independence

    Swapping the bytes of every word multiplies the sum by 256 modulo 65535, so a
    header verifies in host order exactly when it verifies in network order. *)

Definition swap_endian (e : endian) : endian := match e with LE => BE | BE => LE end.

Lemma le_combine_pair a b : le_combine [a; b] = byte.unsigned a + 256 * byte.unsigned b.
Proof.
  pose proof (byte.unsigned_range a). pose proof (byte.unsigned_range b).
  set (w := byte.unsigned a + 256 * byte.unsigned b).
  assert (le_split 2 w = [a; b]) as <-.
  { cbv [le_split].
    rewrite Z.shiftr_div_pow2 by lia.
    f_equal; [|f_equal]; apply byte.unsigned_inj; rewrite byte.unsigned_of_Z;
      unfold byte.wrap, w.
    - symmetry. apply Z.mod_unique with (q := byte.unsigned b); lia.
    - rewrite <-(Z.div_unique _ (2 ^ 8) (byte.unsigned b) (byte.unsigned a)) by lia.
      apply Z.mod_small. lia. }
  rewrite le_combine_split. apply Z.mod_small. simpl. lia.
Qed.

Lemma load_pair_swap e a b :
  exists k, 0 <= k /\ 256 * load e [a; b] = load (swap_endian e) [a; b] + 65535 * k.
Proof.
  pose proof (byte.unsigned_range a). pose proof (byte.unsigned_range b).
  destruct e; simpl; rewrite !le_combine_pair;
    [exists (byte.unsigned b)|exists (byte.unsigned a)]; lia.
Qed.

Lemma sum_swap e bs :
  exists k, 0 <= k /\
    256 * sum (words e bs) = sum (words (swap_endian e) bs) + 65535 * k.
Proof.
  revert bs. fix IH 1. intros [|a [|b bs]]; [by exists 0|by exists 0|].
  destruct (IH bs) as (k & Hk & E). destruct (load_pair_swap e a b) as (j & Hj & F).
  exists (j + k). simpl in *. lia.
Qed.

Lemma csum_valid_swap e hdr : csum_valid e hdr -> csum_valid (swap_endian e) hdr.
Proof.
  rewrite !csum_valid_iff. intros [Hpos Hmod].
  destruct (sum_swap e hdr) as (k & Hk & E).
  destruct (sum_swap (swap_endian e) hdr) as (j & Hj & F).
  replace (swap_endian (swap_endian e)) with e in F by (by destruct e).
  split; [lia|]. apply Z.mod_divide in Hmod as [q Hq]; [|lia].
  apply Z.mod_divide; [lia|]. exists (256 * q - k). lia.
Qed.

(** Verification does not depend on the byte order of the verifier. *)
Lemma csum_valid_endian e e' hdr : csum_valid e hdr <-> csum_valid e' hdr.
Proof.
  destruct (decide (e = e')) as [->|Hne]; [done|].
  replace e' with (swap_endian e) by (by destruct e, e').
  split; [apply csum_valid_swap|]. intros H%csum_valid_swap.
  by replace (swap_endian (swap_endian e)) with e in H by (by destruct e).
Qed.

(** ** The header after the update *)

Lemma fix_csum_valid e e' iph p :
  (iph + sizeof_iphdr <= length p)%nat ->
  csum_valid e' (slice (fix_csum e iph p) iph sizeof_iphdr).
Proof. intros H. rewrite (csum_valid_endian e' e), csum_valid_iff. by apply sum_fix_csum. Qed.

(** With [2 * m] bytes of options after the fixed header, which the update leaves
    out, the whole header verifies exactly when the options sum to zero. *)
Lemma fix_csum_options e iph p m :
  (iph + sizeof_iphdr + 2 * m <= length p)%nat ->
  csum_valid e (slice (fix_csum e iph p) iph (sizeof_iphdr + 2 * m)) <->
  sum (words e (slice p (iph + sizeof_iphdr) (2 * m))) mod 65535 = 0.
Proof.
  intros H. pose proof (length_fix_csum e iph p ltac:(lia)) as Hlen.
  destruct (sum_fix_csum e iph p ltac:(lia)) as [Hpos Hmod].
  rewrite csum_valid_iff.
  change sizeof_iphdr with (2 * 10)%nat in *.
  rewrite (sum_words_slice e (fix_csum e iph p)) by (rewrite Hlen; lia).
  rewrite (slice_fix_csum_ne e iph p (iph + 2 * 10)) by (unfold sizeof_iphdr; lia).
  pose proof (sum_nonneg _ (words_u16 e (slice p (iph + 2 * 10) (2 * m)))) as Hopt.
  rewrite <-Zplus_mod_idemp_l, Hmod, Z.add_0_l. split; [by intros [_ ?]|].
  intros Hz. split; [lia|done].
Qed.
