(* ===== verification/Xdp.v ===== *)
(** * The XDP data plane (kernelspace/xdp_lb.c)

    The two programs, [xdp_lb_ingress] (DNAT) and [xdp_veth_snat] (SNAT), statement
    by statement, as trees of kernel interactions. *)

From S2P Require Import Prelude Types BpfMaps Ebpf Checksum.

(** ** Header layout (struct ethhdr, iphdr, icmphdr of vmlinux.h)

    The fields of the three headers as (size, alignment); the two nibbles of the first
    byte of an IPv4 header are one field here. *)

Definition ethhdr_fields : list (nat * nat) := [(6, 1); (6, 1); (2, 2)]%nat.
Definition iphdr_fields : list (nat * nat) :=
  [(1, 1); (1, 1); (2, 2); (2, 2); (2, 2); (1, 1); (1, 1); (2, 2); (4, 4); (4, 4)]%nat.
Definition icmphdr_fields : list (nat * nat) := [(1, 1); (1, 1); (2, 2); (4, 4)]%nat.

Definition sizeof_ethhdr : nat := 14.
Definition ethhdr_h_dest : nat := 0.
Definition ethhdr_h_source : nat := 6.
Definition ethhdr_h_proto : nat := 12.

Definition iphdr_protocol : nat := 9.
Definition iphdr_saddr : nat := 12.
Definition iphdr_daddr : nat := 16.

Definition sizeof_icmphdr : nat := 8.

(** These offsets are those of the C ABI. *)
Example header_layout :
  c_layout ethhdr_fields = ([ethhdr_h_dest; ethhdr_h_source; ethhdr_h_proto], sizeof_ethhdr) /\
  c_layout iphdr_fields = ([0; 1; 2; 4; 6; 8; iphdr_protocol; iphdr_check; iphdr_saddr;
                            iphdr_daddr], sizeof_iphdr)%nat /\
  c_layout icmphdr_fields = ([0; 1; 2; 4]%nat, sizeof_icmphdr).
Proof. split_and!; reflexivity. Qed.

Definition ETH_P_IP : Z := 2048.
Definition IPPROTO_ICMP : Z := 1.

(** The bit field [__u8 ihl: 4], the first of its byte: the low nibble on a
    little-endian target, the high one on a big-endian target. *)
Definition iphdr_ihl (e : endian) (b : Z) : Z :=
  match e with LE => Z.land b 15 | BE => Z.shiftr b 4 end.

(** bpf_htons: the native value whose memory is [x] in network order. *)
Definition bpf_htons (e : endian) (x : Z) : Z := load e (store BE 2 x).

(** The 32-bit modulo of the BPF instruction set: modulo zero leaves the dividend. *)
Definition bpf_mod (a b : Z) : Z := if b =? 0 then a else a mod b.

(** ** Program 1: DNAT on the ingress interface *)

(** [cfg->vip != 0 && ip->daddr != cfg->vip], left to right. *)
Definition vip_mismatch (e : endian) (ip : nat) (cfg : Z) : prog bool :=
  let! vip := call (LdVip cfg) in
  if vip =? 0 then Ret false else
  let! daddr := call (PktLoad (ip + iphdr_daddr) 4) in
  let! vip := call (LdVip cfg) in
  Ret (negb (load e daddr =? vip)).

(** The unrolled loop that rewrites both MAC addresses, from index [i] on with [n]
    iterations left. *)
Fixpoint rewrite_macs (eth : nat) (cfg backend : Z) (i n : nat) : prog unit :=
  match n with
  | O => Ret tt
  | S n =>
      let! b := call (LdMac backend i) in
      do! call (PktStore (eth + ethhdr_h_dest + i) [b]);
      let! b := call (LdSrcMac cfg i) in
      do! call (PktStore (eth + ethhdr_h_source + i) [b]);
      rewrite_macs eth cfg backend (S i) n
  end.

Arguments rewrite_macs : simpl never.

(** The per-CPU statistics update. *)
Definition update_stats (idx : Z) (len : Z) : prog unit :=
  let! stats := call (CounterLookup idx) in
  if stats : bool then
    let! n := call (LdRxPackets idx) in
    do! call (StRxPackets idx (u64 (n + 1)));
    let! n := call (LdRxBytes idx) in
    call (StRxBytes idx (u64 (n + u64 len)))
  else Ret tt.

Definition xdp_lb_ingress (e : endian) : prog xdp_action :=
  let data := 0%nat in
  let! data_end := call PktLen in

  let eth := data in
  if (data_end <? eth + sizeof_ethhdr)%nat then Ret XDP_PASS else
  let! h_proto := call (PktLoad (eth + ethhdr_h_proto) 2) in
  if negb (load e h_proto =? bpf_htons e ETH_P_IP) then Ret XDP_PASS else

  let ip := (eth + sizeof_ethhdr)%nat in
  if (data_end <? ip + sizeof_iphdr)%nat then Ret XDP_PASS else
  let! protocol := call (PktLoad (ip + iphdr_protocol) 1) in
  if negb (load e protocol =? IPPROTO_ICMP) then Ret XDP_PASS else

  let! b := call (PktLoad ip 1) in
  let icmp := (ip + Z.to_nat (iphdr_ihl e (load e b) * 4))%nat in
  if (data_end <? icmp + sizeof_icmphdr)%nat then Ret XDP_PASS else

  let zero := 0 in
  let! cfg := call (ConfigLookup zero) in
  if negb cfg then Ret XDP_PASS else
  let! backend_count := call (LdBackendCount zero) in
  if backend_count =? 0 then Ret XDP_PASS else

  let! mismatch := vip_mismatch e ip zero in
  if mismatch : bool then Ret XDP_PASS else

  let! r := call PRandom in
  let! backend_count := call (LdBackendCount zero) in
  let idx := bpf_mod r backend_count in

  let! backend := call (BackendLookup idx) in
  if negb backend then Ret XDP_PASS else
  let! ipv4 := call (LdIpv4 idx) in
  if ipv4 =? 0 then Ret XDP_PASS else

  do! rewrite_macs eth zero idx 0 ETH_ALEN;
  let! ipv4 := call (LdIpv4 idx) in
  do! call (PktStore (ip + iphdr_daddr) (store e 4 ipv4));
  do! update_ip_csum e ip;

  do! update_stats idx (Z.of_nat data_end - Z.of_nat data);
  Ret XDP_PASS.

(** ** Program 2: SNAT on each backend's host-side veth *)

Definition xdp_veth_snat (e : endian) : prog xdp_action :=
  let data := 0%nat in
  let! data_end := call PktLen in

  let eth := data in
  if (data_end <? eth + sizeof_ethhdr)%nat then Ret XDP_PASS else
  let! h_proto := call (PktLoad (eth + ethhdr_h_proto) 2) in
  if negb (load e h_proto =? bpf_htons e ETH_P_IP) then Ret XDP_PASS else

  let ip := (eth + sizeof_ethhdr)%nat in
  if (data_end <? ip + sizeof_iphdr)%nat then Ret XDP_PASS else
  let! protocol := call (PktLoad (ip + iphdr_protocol) 1) in
  if negb (load e protocol =? IPPROTO_ICMP) then Ret XDP_PASS else

  let! b := call (PktLoad ip 1) in
  let icmp := (ip + Z.to_nat (iphdr_ihl e (load e b) * 4))%nat in
  if (data_end <? icmp + sizeof_icmphdr)%nat then Ret XDP_PASS else

  let! saddr := call (PktLoad (ip + iphdr_saddr) 4) in
  let! idx := call (IpsLookup (load e saddr)) in
  if negb idx then Ret XDP_PASS else

  let zero := 0 in
  let! cfg := call (ConfigLookup zero) in
  if negb cfg then Ret XDP_PASS else
  let! vip := call (LdVip zero) in
  if vip =? 0 then Ret XDP_PASS else

  let! vip := call (LdVip zero) in
  do! call (PktStore (ip + iphdr_saddr) (store e 4 vip));
  do! update_ip_csum e ip;
  Ret XDP_PASS.

(** ** Well-formed maps *)

Section Xdp.
Context {KM : BpfMaps}.

(** Every value of every map fits its struct. *)
Record wf_maps (m : lbMaps) : Prop := {
  wf_config k c : am_lookup (ConfigMap m) k = Some c -> wf_lb_config c;
  wf_backend k b : am_lookup (BackendMap m) k = Some b -> wf_backend_info b;
  wf_counter c k v : pm_lookup (CountersMap m) c k = Some v -> wf_stats_counter v
}.

(** ** What the programs do, as functions of the packet and the maps *)

(** The common prefix of both programs: an IPv4 ICMP frame with room for every
    header the program touches. *)
Definition is_icmp_frame (e : endian) (p : list byte) : bool :=
  (sizeof_ethhdr <=? length p)%nat &&
  (load e (slice p ethhdr_h_proto 2) =? bpf_htons e ETH_P_IP) &&
  (sizeof_ethhdr + sizeof_iphdr <=? length p)%nat &&
  (load e (slice p (sizeof_ethhdr + iphdr_protocol) 1) =? IPPROTO_ICMP) &&
  (sizeof_ethhdr + Z.to_nat (iphdr_ihl e (load e (slice p sizeof_ethhdr 1)) * 4)
     + sizeof_icmphdr <=? length p)%nat.

Definition saddr_of (p : list byte) : list byte := slice p (sizeof_ethhdr + iphdr_saddr) 4.
Definition daddr_of (p : list byte) : list byte := slice p (sizeof_ethhdr + iphdr_daddr) 4.
Definition h_dest_of (p : list byte) : list byte := slice p ethhdr_h_dest ETH_ALEN.
Definition h_source_of (p : list byte) : list byte := slice p ethhdr_h_source ETH_ALEN.
Definition iphdr_of (p : list byte) : list byte := slice p sizeof_ethhdr sizeof_iphdr.

(** The backend a packet is sent to: its index, the configuration and the entry. *)
Definition select (e : endian) (m : lbMaps) (rnd : Z) (p : list byte)
    : option (Z * lb_config * backend_info) :=
  if is_icmp_frame e p then
    cfg ← am_lookup (ConfigMap m) 0;
    if cfg_backend_count cfg =? 0 then None else
    if negb (cfg_vip cfg =? 0) && negb (load e (daddr_of p) =? cfg_vip cfg) then None else
    let idx := bpf_mod rnd (cfg_backend_count cfg) in
    b ← am_lookup (BackendMap m) idx;
    if bi_ipv4 b =? 0 then None else Some (idx, cfg, b)
  else None.

Definition dnat (e : endian) (cfg : lb_config) (b : backend_info) (p : list byte)
    : list byte :=
  fix_csum e sizeof_ethhdr
    (splice (splice (splice p ethhdr_h_dest (bi_mac b)) ethhdr_h_source (cfg_src_mac cfg))
       (sizeof_ethhdr + iphdr_daddr) (store e 4 (bi_ipv4 b))).

Definition snat (e : endian) (cfg : lb_config) (p : list byte) : list byte :=
  fix_csum e sizeof_ethhdr
    (splice p (sizeof_ethhdr + iphdr_saddr) (store e 4 (cfg_vip cfg))).

(** One more packet of [len] bytes in this CPU's counter of backend [idx]. *)
Definition count_packet (m : lbMaps) (cpu : nat) (idx len : Z) : lbMaps :=
  match pm_lookup (CountersMap m) cpu idx with
  | Some c =>
      with_CountersMap m (pm_write
        (pm_write (CountersMap m) cpu idx
           {| rx_packets := u64 (rx_packets c + 1); rx_bytes := rx_bytes c |})
        cpu idx {| rx_packets := u64 (rx_packets c + 1);
                   rx_bytes := u64 (rx_bytes c + u64 len) |})
  | None => m
  end.
End Xdp.
