(* ===== verification/Samples.v ===== *)
(** * Concrete inputs

    A frame like the ones of docs/architecture.md section 4 (client 172.18.0.4, VIP
    10.200.200.200, backends 172.18.0.2 and 172.18.0.3) and maps that hold that
    configuration, on the reference implementation of the map interface. *)

From S2P Require Import Prelude Types BpfMaps Ebpf Checksum Xdp.
Import RefMaps.

Definition bytes_of (l : list Z) : list byte := map byte.of_Z l.

Definition client_ip : list byte := bytes_of [172; 18; 0; 4].
Definition vip_ip : list byte := bytes_of [10; 200; 200; 200].
Definition b1_ip : list byte := bytes_of [172; 18; 0; 2].
Definition b2_ip : list byte := bytes_of [172; 18; 0; 3].
Definition b1_mac : list byte := bytes_of [2; 66; 172; 18; 0; 2].
Definition b2_mac : list byte := bytes_of [2; 66; 172; 18; 0; 3].
Definition host_mac : list byte := bytes_of [2; 66; 10; 0; 0; 1].

(** Ethernet, IPv4 ([opts] after the fixed header) and an ICMP echo header. *)
Definition icmp_frame (vihl : Z) (src dst opts : list byte) : list byte :=
  host_mac ++ b1_mac ++ bytes_of [8; 0] ++
  bytes_of [vihl; 0; 0; 28; 0; 1; 64; 0; 64; 1; 0; 0] ++ src ++ dst ++ opts ++
  bytes_of [8; 0; 247; 253; 0; 1; 0; 1].

(** An echo request from the client to the VIP, and the reply of backend 1. *)
Definition request : list byte := icmp_frame 69 client_ip vip_ip [].
Definition reply : list byte := icmp_frame 69 b1_ip client_ip [].

(** The same request with a Router Alert option (RFC 2113), so [ihl = 6]. *)
Definition request_ra : list byte :=
  icmp_frame 70 client_ip vip_ip (bytes_of [148; 4; 0; 0]).

Definition sample_config : lb_config :=
  {| cfg_vip := load LE vip_ip; cfg_vport := 8080; cfg_pad := 0; cfg_backend_count := 2;
     cfg_src_mac := host_mac; cfg_pad2 := zero_pad2 |}.

Definition entry (ip mac : list byte) : backend_info :=
  {| bi_ipv4 := load LE ip; bi_port := 8080; bi_pad := 0; bi_mac := mac;
     bi_pad2 := zero_pad2; bi_weight := 1 |}.

Definition sample_maps : lbMaps :=
  {| ConfigMap := {[ 0 := sample_config ]} : gmap Z lb_config;
     BackendMap := {[ 0 := entry b1_ip b1_mac; 1 := entry b2_ip b2_mac ]}
       : gmap Z backend_info;
     BackendIpsMap := {[ load LE b1_ip := 0; load LE b2_ip := 1 ]} : gmap Z Z;
     CountersMap := ∅ : gmap (nat * Z) stats_counter |}.

Definition sample_state (p : list byte) (rnd : Z) : kstate :=
  {| ks_pkt := p; ks_maps := sample_maps; ks_cpu := 1; ks_rand := rnd |}.

(** The maps fit their structs. *)
Lemma sample_maps_wf : wf_maps sample_maps.
Proof.
  split.
  - intros k c. simpl. unfold RefMaps.array_lookup. case_match; [|done].
    rewrite lookup_singleton. case_decide; intros [= <-]; by vm_compute.
  - intros k b. simpl. unfold RefMaps.array_lookup. case_match; [|done].
    rewrite lookup_insert, lookup_singleton. repeat case_decide; intros [= <-]; by vm_compute.
  - intros c k v. simpl. unfold RefMaps.percpu_lookup. case_match; [|done].
    intros [= <-]. by vm_compute.
Qed.

Example request_is_icmp : is_icmp_frame LE request = true.
Proof. reflexivity. Qed.

(** Index 7 mod 2 = 1: the request goes to backend 2. *)
Example request_selected :
  select LE sample_maps 7 request = Some (1, sample_config, entry b2_ip b2_mac).
Proof. vm_compute. reflexivity. Qed.

Example request_runs :
  fmap (fun r => (fst r, daddr_of (ks_pkt (snd r))))
    (exec (xdp_lb_ingress LE) (sample_state request 7)) = Some (XDP_PASS, b2_ip).
Proof. vm_compute. reflexivity. Qed.
