(* ===== verification/XdpSpec.v ===== *)
(** * Functional behaviour of the XDP programs

    [exec_ingress_run] and [exec_snat_run]: run on their own, the programs of
    [Xdp] compute exactly [dnat], [snat] and [count_packet], never fault and always
    return XDP_PASS.  The properties below them read off what that means for the
    packet, the checksum, the counters and the choice of a backend. *)

From S2P Require Import Prelude Types BpfMaps Ebpf Checksum Xdp.

(** The bounds checks and protocol filters both programs start with. *)
Definition icmp_prefix (e : endian) (k : nat -> prog xdp_action) : prog xdp_action :=
  let! data_end := call PktLen in
  if (data_end <? sizeof_ethhdr)%nat then Ret XDP_PASS else
  let! h_proto := call (PktLoad ethhdr_h_proto 2) in
  if negb (load e h_proto =? bpf_htons e ETH_P_IP) then Ret XDP_PASS else
  if (data_end <? sizeof_ethhdr + sizeof_iphdr)%nat then Ret XDP_PASS else
  let! protocol := call (PktLoad (sizeof_ethhdr + iphdr_protocol) 1) in
  if negb (load e protocol =? IPPROTO_ICMP) then Ret XDP_PASS else
  let! b := call (PktLoad sizeof_ethhdr 1) in
  if (data_end <? sizeof_ethhdr + Z.to_nat (iphdr_ihl e (load e b) * 4) + sizeof_icmphdr)%nat
  then Ret XDP_PASS else k data_end.

(** [xdp_lb_ingress] from the selection of a backend on. *)
Definition ingress_tail (e : endian) (data_end : nat) : prog xdp_action :=
  let! r := call PRandom in
  let! backend_count := call (LdBackendCount 0) in
  let idx := bpf_mod r backend_count in
  let! backend := call (BackendLookup idx) in
  if negb backend then Ret XDP_PASS else
  let! ipv4 := call (LdIpv4 idx) in
  if ipv4 =? 0 then Ret XDP_PASS else
  do! rewrite_macs 0 0 idx 0 ETH_ALEN;
  let! ipv4 := call (LdIpv4 idx) in
  do! call (PktStore (sizeof_ethhdr + iphdr_daddr) (store e 4 ipv4));
  do! update_ip_csum e sizeof_ethhdr;
  do! update_stats idx (Z.of_nat data_end - Z.of_nat 0);
  Ret XDP_PASS.

Definition ingress_body (e : endian) (data_end : nat) : prog xdp_action :=
  let! cfg := call (ConfigLookup 0) in
  if negb cfg then Ret XDP_PASS else
  let! backend_count := call (LdBackendCount 0) in
  if backend_count =? 0 then Ret XDP_PASS else
  let! mismatch := vip_mismatch e sizeof_ethhdr 0 in
  if mismatch : bool then Ret XDP_PASS else ingress_tail e data_end.

Definition snat_body (e : endian) : prog xdp_action :=
  let! saddr := call (PktLoad (sizeof_ethhdr + iphdr_saddr) 4) in
  let! idx := call (IpsLookup (load e saddr)) in
  if negb idx then Ret XDP_PASS else
  let! cfg := call (ConfigLookup 0) in
  if negb cfg then Ret XDP_PASS else
  let! vip := call (LdVip 0) in
  if vip =? 0 then Ret XDP_PASS else
  let! vip := call (LdVip 0) in
  do! call (PktStore (sizeof_ethhdr + iphdr_saddr) (store e 4 vip));
  do! update_ip_csum e sizeof_ethhdr;
  Ret XDP_PASS.

Lemma ingress_split e : xdp_lb_ingress e = icmp_prefix e (ingress_body e).
Proof. reflexivity. Qed.
Lemma snat_split e : xdp_veth_snat e = icmp_prefix e (fun _ => snat_body e).
Proof. reflexivity. Qed.

Section Spec.
Context {KM : BpfMaps} {KL : BpfMapsLaws}.

(** An access the bounds checks allow. *)
Lemma peek_ok p off n : (off + n <= length p)%nat -> peek p off n = Some (slice p off n).
Proof. intros H. unfold peek. by rewrite (proj2 (Nat.leb_le _ _)). Qed.
Lemma poke_ok p off bs :
  (off + length bs <= length p)%nat -> poke p off bs = Some (splice p off bs).
Proof. intros H. unfold poke. by rewrite (proj2 (Nat.leb_le _ _)). Qed.

Lemma ltb_leb n m : (n <? m)%nat = negb (m <=? n)%nat.
Proof. apply Nat.ltb_antisym. Qed.

Lemma exec_icmp_prefix e k s :
  exec (icmp_prefix e k) s =
    if is_icmp_frame e (ks_pkt s) then exec (k (length (ks_pkt s))) s
    else Some (XDP_PASS, s).
Proof.
  unfold icmp_prefix, is_icmp_frame. exec_step. rewrite !ltb_leb.
  destruct (sizeof_ethhdr <=? _)%nat eqn:H1; opt_simpl; [|done].
  bool_to_prop. unfold sizeof_ethhdr in *.
  exec_step. rewrite peek_ok by (unfold ethhdr_h_proto; lia). opt_simpl.
  destruct (load e (slice _ ethhdr_h_proto 2) =? _); opt_simpl; [|done].
  destruct (14 + sizeof_iphdr <=? _)%nat eqn:H2; opt_simpl; [|done].
  bool_to_prop. unfold sizeof_iphdr in *.
  exec_step. rewrite peek_ok by (unfold iphdr_protocol; lia). opt_simpl.
  destruct (load e (slice _ _ 1) =? IPPROTO_ICMP); opt_simpl; [|done].
  exec_step. rewrite peek_ok by lia. opt_simpl. rewrite ltb_leb. by destruct (_ <=? _)%nat.
Qed.
Lemma rewrite_macs_unfold eth cfg backend i n :
  rewrite_macs eth cfg backend i (S n) =
    (let! b := call (LdMac backend i) in
     do! call (PktStore (eth + ethhdr_h_dest + i) [b]);
     let! b := call (LdSrcMac cfg i) in
     do! call (PktStore (eth + ethhdr_h_source + i) [b]);
     rewrite_macs eth cfg backend (S i) n).
Proof. reflexivity. Qed.

(** The loop copies the two addresses. *)
Lemma exec_rewrite_macs s cfg idx c b :
  config_at s cfg = Some c -> backend_at s idx = Some b ->
  length (cfg_src_mac c) = ETH_ALEN -> length (bi_mac b) = ETH_ALEN ->
  (12 <= length (ks_pkt s))%nat ->
  exec (rewrite_macs 0 cfg idx 0 ETH_ALEN) s =
    Some (tt, with_pkt s (splice (splice (ks_pkt s) ethhdr_h_dest (bi_mac b))
                            ethhdr_h_source (cfg_src_mac c))).
Proof.
  unfold config_at, backend_at, ETH_ALEN. destruct s as [p m cpu r]; cbn [ks_maps ks_pkt].
  destruct b as [? ? ? mac ? ?], c as [? ? ? ? src ?]. cbn [bi_mac cfg_src_mac].
  intros Hc Hb Hsrc Hmac Hlen.
  explicit_list mac Hmac. explicit_list src Hsrc.
  do 12 (destruct p as [|? p]; [simpl in Hlen; lia|]). clear Hlen.
  do 6 (rewrite rewrite_macs_unfold; do 4 (exec_step; unfold backend_at, config_at;
    cbn [ks_maps ks_pkt with_pkt]; rewrite ?Hc, ?Hb; opt_simpl; simpl)).
  reflexivity.
Qed.
Lemma exec_update_stats idx len s :
  exec (update_stats idx len) s =
    Some (tt, with_maps s (count_packet (ks_maps s) (ks_cpu s) idx len)).
Proof.
  unfold update_stats, count_packet. exec_step. unfold counter_at.
  destruct (pm_lookup _ _ _) as [c|] eqn:Hc.
  2: { rewrite bool_decide_eq_false_2 by (by intros [? ?]). by destruct s. }
  rewrite bool_decide_eq_true_2 by eauto.
  exec_step. unfold counter_at. rewrite Hc. opt_simpl.
  exec_step. unfold counter_at. rewrite Hc. opt_simpl.
  unfold set_counter. exec_step. unfold counter_at. opt_simpl.
  cbn [CountersMap with_CountersMap].
  rewrite pm_lookup_write, decide_True by eauto. opt_simpl. cbn [rx_bytes rx_packets].
  exec_step. unfold counter_at. opt_simpl. cbn [CountersMap with_CountersMap].
  rewrite pm_lookup_write, decide_True by eauto. opt_simpl. done.
Qed.

Lemma icmp_frame_length e p : is_icmp_frame e p = true -> (34 <= length p)%nat.
Proof.
  unfold is_icmp_frame. rewrite !andb_true_iff.
  intros [[[_ H] _] _]. apply Nat.leb_le in H. apply H.
Qed.

Lemma exec_vip_mismatch e s c :
  config_at s 0 = Some c -> (34 <= length (ks_pkt s))%nat ->
  exec (vip_mismatch e sizeof_ethhdr 0) s =
    Some (negb (cfg_vip c =? 0) && negb (load e (daddr_of (ks_pkt s)) =? cfg_vip c), s).
Proof.
  intros Hc Hlen. unfold vip_mismatch. exec_step. rewrite Hc. opt_simpl.
  destruct (cfg_vip c =? 0); opt_simpl; [done|].
  exec_step. rewrite peek_ok by (unfold sizeof_ethhdr, iphdr_daddr; lia). opt_simpl.
  exec_step. rewrite Hc. done.
Qed.

(** The state after one run of [xdp_lb_ingress]. *)
Definition ingress_result (e : endian) (s : kstate) : kstate :=
  match select e (ks_maps s) (ks_rand s) (ks_pkt s) with
  | Some (idx, c, b) =>
      with_maps (with_pkt s (dnat e c b (ks_pkt s)))
        (count_packet (ks_maps s) (ks_cpu s) idx (Z.of_nat (length (ks_pkt s))))
  | None => s
  end.

(** The state after one run of [xdp_veth_snat]. *)
Definition snat_result (e : endian) (s : kstate) : kstate :=
  if is_icmp_frame e (ks_pkt s) then
    match hm_lookup (BackendIpsMap (ks_maps s)) (load e (saddr_of (ks_pkt s))),
          am_lookup (ConfigMap (ks_maps s)) 0 with
    | Some _, Some c =>
        if cfg_vip c =? 0 then s else with_pkt s (snat e c (ks_pkt s))
    | _, _ => s
    end
  else s.

(** The packet rewrite of the DNAT branch, from the selected entry on. *)
Lemma exec_dnat_tail e s idx c b :
  config_at s 0 = Some c -> backend_at s idx = Some b ->
  wf_lb_config c -> wf_backend_info b -> (34 <= length (ks_pkt s))%nat ->
  exec (do! rewrite_macs 0 0 idx 0 ETH_ALEN;
        let! ipv4 := call (LdIpv4 idx) in
        do! call (PktStore (sizeof_ethhdr + iphdr_daddr) (store e 4 ipv4));
        do! update_ip_csum e sizeof_ethhdr;
        do! update_stats idx (Z.of_nat (length (ks_pkt s)) - Z.of_nat 0);
        Ret XDP_PASS) s =
    Some (XDP_PASS, with_maps (with_pkt s (dnat e c b (ks_pkt s)))
      (count_packet (ks_maps s) (ks_cpu s) idx (Z.of_nat (length (ks_pkt s))))).
Proof.
  intros Hc Hb (_ & _ & _ & _ & Hsrc & _) (_ & _ & _ & Hmac & _) Hlen.
  rewrite exec_bind, (exec_rewrite_macs s 0 idx c b) by (done || lia). opt_simpl.
  exec_step. change (backend_at (with_pkt s _) idx) with (backend_at s idx).
  rewrite Hb. opt_simpl.
  set (p1 := splice (splice _ _ _) _ _).
  assert (length p1 = length (ks_pkt s)) as Hp1.
  { unfold p1, ethhdr_h_dest, ethhdr_h_source.
    repeat rewrite ?length_splice, ?Hmac, ?Hsrc; unfold ETH_ALEN; lia. }
  exec_step.
  rewrite poke_ok by (rewrite length_store, Hp1; unfold sizeof_ethhdr, iphdr_daddr; lia).
  opt_simpl. rewrite exec_bind, exec_update_ip_csum.
  2: { opt_simpl. rewrite length_splice; rewrite ?length_store, Hp1;
       unfold sizeof_ethhdr, sizeof_iphdr, iphdr_daddr; lia. }
  opt_simpl. rewrite exec_bind, exec_update_stats. opt_simpl.
  rewrite exec_Ret, Z.sub_0_r. done.
Qed.

Lemma exec_ingress_run e s :
  wf_maps (ks_maps s) ->
  exec (xdp_lb_ingress e) s = Some (XDP_PASS, ingress_result e s).
Proof.
  intros Hwf. rewrite ingress_split, exec_icmp_prefix.
  unfold ingress_result, select.
  destruct (is_icmp_frame e (ks_pkt s)) eqn:Hf; [|done].
  pose proof (icmp_frame_length e _ Hf) as Hlen.
  unfold ingress_body. exec_step. unfold config_at.
  destruct (am_lookup (ConfigMap _) 0) as [c|] eqn:Hc; opt_simpl.
  2: { rewrite bool_decide_eq_false_2 by (by intros [? ?]). done. }
  rewrite bool_decide_eq_true_2 by eauto. opt_simpl.
  exec_step. unfold config_at. rewrite Hc. opt_simpl.
  destruct (cfg_backend_count c =? 0) eqn:Hn; [done|].
  rewrite exec_bind, (exec_vip_mismatch e s c) by done. opt_simpl.
  destruct (negb (cfg_vip c =? 0) && _); [done|]. unfold ingress_tail.
  exec_step. exec_step. unfold config_at. rewrite Hc. opt_simpl.
  exec_step. unfold backend_at.
  destruct (am_lookup (BackendMap _) _) as [b|] eqn:Hb; opt_simpl.
  2: { rewrite bool_decide_eq_false_2 by (by intros [? ?]). done. }
  rewrite bool_decide_eq_true_2 by eauto. opt_simpl.
  exec_step. unfold backend_at. rewrite Hb. opt_simpl.
  destruct (bi_ipv4 b =? 0); [done|].
  by rewrite (exec_dnat_tail e s _ c b) by eauto using wf_config, wf_backend.
Qed.

Lemma exec_snat_run e s :
  exec (xdp_veth_snat e) s = Some (XDP_PASS, snat_result e s).
Proof.
  rewrite snat_split, exec_icmp_prefix. unfold snat_result.
  destruct (is_icmp_frame e (ks_pkt s)) eqn:Hf; [|done].
  pose proof (icmp_frame_length e _ Hf) as Hlen.
  unfold snat_body. exec_step.
  rewrite peek_ok by (unfold sizeof_ethhdr, iphdr_saddr; lia). opt_simpl.
  exec_step. fold (saddr_of (ks_pkt s)).
  destruct (hm_lookup _ _) as [i|].
  2: { rewrite bool_decide_eq_false_2 by (by intros [? ?]). done. }
  rewrite bool_decide_eq_true_2 by eauto. opt_simpl.
  exec_step. unfold config_at.
  destruct (am_lookup _ _) as [c|] eqn:Hc.
  2: { rewrite bool_decide_eq_false_2 by (by intros [? ?]). done. }
  rewrite bool_decide_eq_true_2 by eauto. opt_simpl.
  exec_step. unfold config_at. rewrite Hc. opt_simpl.
  destruct (cfg_vip c =? 0); [done|].
  exec_step. unfold config_at. rewrite Hc. opt_simpl.
  exec_step.
  rewrite poke_ok by (rewrite length_store; unfold sizeof_ethhdr, iphdr_saddr; lia).
  opt_simpl. rewrite exec_bind, exec_update_ip_csum; [done|].
  opt_simpl. rewrite length_splice; rewrite ?length_store;
    unfold sizeof_ethhdr, sizeof_iphdr, iphdr_saddr; lia.
Qed.

(** ** The rewritten packets *)

(** What a NAT rewrite promises: same length, a checksum that verifies over the fixed 20
    bytes of the header on hosts of either byte order, and no byte changed outside [touched].
    The fixed bytes are the whole header when [ihl] is 5; for a header with options the
    checksum a receiver verifies covers these too, and is right only in the case that
    [dnat_options_checksum] states. *)
Record nat_rewrite (touched : nat -> Prop) (p p' : list byte) : Prop := {
  nat_length : length p' = length p;
  nat_csum e : csum_valid e (iphdr_of p');
  nat_frame i : ~ touched i -> ~ (24 <= i < 26)%nat -> p' !! i = p !! i
}.

Definition dnat_bytes (i : nat) : Prop := (i < 12 \/ 30 <= i < 34)%nat.
Definition snat_bytes (i : nat) : Prop := (26 <= i < 30)%nat.

Lemma fix_csum_rewrite e p p1 touched :
  (34 <= length p)%nat -> length p1 = length p ->
  (forall i, ~ touched i -> p1 !! i = p !! i) ->
  nat_rewrite touched p (fix_csum e sizeof_ethhdr p1).
Proof.
  intros Hlen Hp1 Heq. assert (sizeof_ethhdr + sizeof_iphdr <= length p1)%nat as Hb
    by (unfold sizeof_ethhdr, sizeof_iphdr; lia).
  split.
  - by rewrite length_fix_csum.
  - intros e'. by apply fix_csum_valid.
  - intros i Hi Hc. rewrite lookup_fix_csum_ne by done. by apply Heq.
Qed.

(** The fields of a frame after [dnat]. *)
Lemma dnat_spec e c b p :
  wf_lb_config c -> wf_backend_info b -> (34 <= length p)%nat ->
  nat_rewrite dnat_bytes p (dnat e c b p) /\
  h_dest_of (dnat e c b p) = bi_mac b /\
  h_source_of (dnat e c b p) = cfg_src_mac c /\
  daddr_of (dnat e c b p) = store e 4 (bi_ipv4 b).
Proof.
  intros (_ & _ & _ & _ & Hsrc & _) (_ & _ & _ & Hmac & _) Hlen.
  unfold ETH_ALEN in *. unfold dnat, h_dest_of, h_source_of, daddr_of.
  unfold sizeof_ethhdr, iphdr_daddr, ethhdr_h_dest, ethhdr_h_source, ETH_ALEN.
  set (p1 := splice p 0 (bi_mac b)). set (p2 := splice p1 6 (cfg_src_mac c)).
  set (p3 := splice p2 (14 + 16) (store e 4 (bi_ipv4 b))).
  assert (length p1 = length p) as H1 by (apply length_splice; lia).
  assert (length p2 = length p) as H2 by (rewrite <-H1; apply length_splice; lia).
  assert (length p3 = length p) as H3
    by (rewrite <-H2; apply length_splice; rewrite length_store; lia).
  assert (14 + sizeof_iphdr <= length p3)%nat by (unfold sizeof_iphdr; lia).
  split_and!.
  - apply fix_csum_rewrite; [done..|]. unfold dnat_bytes. intros i Hi.
    unfold p3, p2, p1.
    rewrite !lookup_splice_ne; fold p1 p2; rewrite ?length_store; auto with lia.
  - rewrite slice_fix_csum_ne by lia. unfold p3, p2.
    rewrite !slice_splice_ne; fold p1 p2; rewrite ?length_store; try lia.
    apply slice_splice_eq'; lia.
  - rewrite slice_fix_csum_ne by lia. unfold p3.
    rewrite !slice_splice_ne; fold p2; rewrite ?length_store; try lia.
    apply slice_splice_eq'; lia.
  - rewrite slice_fix_csum_ne by lia.
    apply slice_splice_eq'; rewrite ?length_store; lia.
Qed.

(** The fields of a frame after [snat]. *)
Lemma snat_spec e c p :
  (34 <= length p)%nat ->
  nat_rewrite snat_bytes p (snat e c p) /\ saddr_of (snat e c p) = store e 4 (cfg_vip c).
Proof.
  intros Hlen. unfold snat, saddr_of, sizeof_ethhdr, iphdr_saddr.
  set (p1 := splice p _ _).
  assert (length p1 = length p) as H1
    by (apply length_splice; rewrite length_store; lia).
  split.
  - apply fix_csum_rewrite; [done..|]. unfold snat_bytes. intros i Hi.
    apply lookup_splice_ne; rewrite length_store; lia.
  - rewrite slice_fix_csum_ne by (unfold sizeof_iphdr; lia).
    apply slice_splice_eq'; rewrite ?length_store; lia.
Qed.
End Spec.
