(* ===== verification/DataPlane.v ===== *)
(** * Properties of the data plane

    What one run of each XDP program guarantees, stated on the programs themselves
    ([exec] of the code in [Xdp]), for hosts of either byte order and for every
    implementation of the map interface. *)

From S2P Require Import Prelude Types BpfMaps Ebpf Checksum Xdp Samples XdpSpec.

Section DataPlane.
Context {KM : BpfMaps} {KL : BpfMapsLaws}.

(** ** Helper lemmas *)

Lemma select_Some e m rnd p idx c b :
  select e m rnd p = Some (idx, c, b) <->
    is_icmp_frame e p = true /\ am_lookup (ConfigMap m) 0 = Some c /\
    cfg_backend_count c <> 0 /\ (cfg_vip c = 0 \/ load e (daddr_of p) = cfg_vip c) /\
    idx = bpf_mod rnd (cfg_backend_count c) /\
    am_lookup (BackendMap m) idx = Some b /\ bi_ipv4 b <> 0.
Proof.
  unfold select. split.
  - destruct (is_icmp_frame e p); [|done].
    destruct (am_lookup (ConfigMap m) 0) as [c'|]; simpl; [|done].
    destruct (Z.eqb_spec (cfg_backend_count c') 0); [done|].
    destruct (Z.eqb_spec (cfg_vip c') 0), (Z.eqb_spec (load e (daddr_of p)) (cfg_vip c'));
      simpl; try done;
      (destruct (am_lookup (BackendMap m) _) as [b'|] eqn:Hb; simpl; [|done]);
      (destruct (Z.eqb_spec (bi_ipv4 b') 0); [done|]); intros [= <- <- <-]; auto 10.
  - intros (-> & -> & Hn & Hv & -> & Hb & Hi). simpl.
    rewrite (proj2 (Z.eqb_neq _ _) Hn).
    replace (negb _ && _) with false.
    2: { destruct Hv as [->| ->]; [done|]. by rewrite Z.eqb_refl, andb_false_r. }
    rewrite Hb. simpl. by rewrite (proj2 (Z.eqb_neq _ _) Hi).
Qed.

Lemma bpf_mod_range r n : 0 <= r -> 0 < n -> 0 <= bpf_mod r n < n.
Proof.
  intros. unfold bpf_mod. rewrite (proj2 (Z.eqb_neq n 0)) by lia.
  by apply Z.mod_pos_bound.
Qed.

Lemma list_filter_iff' {A} (P Q : A -> Prop) `{!forall x, Decision (P x)}
    `{!forall x, Decision (Q x)} (l : list A) :
  (forall x, x ∈ l -> P x <-> Q x) -> filter P l = filter Q l.
Proof.
  induction l as [|x l IH]; intros HPQ; [done|]. rewrite !filter_cons.
  rewrite IH by (intros; apply HPQ; set_solver).
  pose proof (HPQ x ltac:(set_solver)). repeat case_decide; tauto.
Qed.

(** How many of the first [N] naturals are [i] modulo [n]. *)
Lemma count_mod n i N :
  0 <= i < n ->
  Z.of_nat (length (filter (fun r => r mod n = i) (seqZ 0 (Z.of_nat N)))) =
    Z.of_nat N / n + (if decide (i < Z.of_nat N mod n) then 1 else 0).
Proof.
  intros Hi. induction N as [|N IH].
  { simpl. rewrite Z.mod_0_l by lia. rewrite decide_False by lia. done. }
  rewrite Nat2Z.inj_succ, <-Z.add_1_r, seqZ_app by lia.
  rewrite filter_app, length_app, Nat2Z.inj_add, IH, Z.add_0_l. clear IH.
  set (x := Z.of_nat N). assert (0 <= x) by lia.
  pose proof (Z.div_mod x n ltac:(lia)) as Hx.
  pose proof (Z.mod_pos_bound x n ltac:(lia)) as Hr.
  set (q := x / n) in *. set (r := x mod n) in *.
  change (seqZ x 1) with [x]. rewrite filter_cons, filter_nil.
  assert ((x + 1) / n = if decide (r + 1 = n) then q + 1 else q) as ->.
  { symmetry. case_decide;
      [apply Z.div_unique with (r := 0)|apply Z.div_unique with (r := r + 1)]; lia. }
  assert ((x + 1) mod n = if decide (r + 1 = n) then 0 else r + 1) as ->.
  { symmetry. case_decide;
      [apply Z.mod_unique with (q := q + 1)|apply Z.mod_unique with (q := q)]; lia. }
  fold r. repeat case_decide; simpl; lia.
Qed.
(** The state of the control plane's maps a program leaves alone: everything but
    the counters. *)
Definition same_tables (m m' : lbMaps) : Prop :=
  ConfigMap m' = ConfigMap m /\ BackendMap m' = BackendMap m /\
  BackendIpsMap m' = BackendIpsMap m.

Lemma count_packet_tables m cpu idx len : same_tables m (count_packet m cpu idx len).
Proof. unfold count_packet, same_tables. by destruct (pm_lookup _ _ _). Qed.

(** ** Properties *)

(** C2: [xdp_lb_ingress] refines its specification.  On well-formed maps the
    program, run on any packet, any CPU and any random value, never accesses memory
    outside the packet or through a NULL pointer, returns XDP_PASS, and leaves
    exactly the state [ingress_result] describes: DNAT and one counted packet when
    a backend is selected, nothing otherwise. *)
Theorem ingress_refines e s :
  wf_maps (ks_maps s) ->
  exec (xdp_lb_ingress e) s = Some (XDP_PASS, ingress_result e s).
Proof. apply exec_ingress_run. Qed.

(** C3: what DNAT does to a packet.  When a backend is selected, the frame that
    [xdp_lb_ingress] passes on has the backend's MAC as destination and the
    configured MAC as source, the backend's address as IPv4 destination, a checksum
    that verifies over the fixed 20-byte header in either byte order (what a receiver
    verifies when there are no options; with options, see [dnat_options_checksum]), its
    old length, and no other byte changed (so the IPv4 source and the ICMP message are
    intact); the program changes none of the tables the control plane owns. *)
Theorem ingress_dnat e s idx c b :
  wf_maps (ks_maps s) ->
  select e (ks_maps s) (ks_rand s) (ks_pkt s) = Some (idx, c, b) ->
  exists s', exec (xdp_lb_ingress e) s = Some (XDP_PASS, s') /\
    nat_rewrite dnat_bytes (ks_pkt s) (ks_pkt s') /\
    h_dest_of (ks_pkt s') = bi_mac b /\ h_source_of (ks_pkt s') = cfg_src_mac c /\
    load e (daddr_of (ks_pkt s')) = bi_ipv4 b /\
    same_tables (ks_maps s) (ks_maps s').
Proof.
  intros Hwf Hsel. eexists. split; [by apply exec_ingress_run|].
  unfold ingress_result. rewrite Hsel.
  apply select_Some in Hsel as (Hf & Hc & _ & _ & _ & Hb & _).
  apply icmp_frame_length in Hf.
  pose proof (wf_config _ Hwf _ _ Hc) as Hwc. pose proof (wf_backend _ Hwf _ _ Hb) as Hwb.
  destruct (dnat_spec e c b _ Hwc Hwb Hf) as (Hn & Hd & Hs & Ha).
  cbn [ks_pkt ks_maps with_maps with_pkt]. rewrite Ha.
  split_and!; [done..|by apply load_store_u32, Hwb|apply count_packet_tables].
Qed.

(** C23: the filters of [xdp_lb_ingress].  A frame that is not IPv4 ICMP with room
    for its headers, any frame while no backend is configured, and a frame to
    another address than a configured (non-zero) VIP all pass through with the
    packet, the maps and the counters unchanged. *)
Theorem ingress_filters e s c :
  wf_maps (ks_maps s) -> am_lookup (ConfigMap (ks_maps s)) 0 = Some c ->
  is_icmp_frame e (ks_pkt s) = false \/ cfg_backend_count c = 0 \/
    (cfg_vip c <> 0 /\ load e (daddr_of (ks_pkt s)) <> cfg_vip c) ->
  exec (xdp_lb_ingress e) s = Some (XDP_PASS, s).
Proof.
  intros Hwf Hc Hcase. rewrite exec_ingress_run by done. unfold ingress_result.
  destruct (select _ _ _ _) as [[[idx c'] b]|] eqn:Hsel; [exfalso|done].
  apply select_Some in Hsel as (Hf & Hc' & Hn & Hv & _). simplify_eq.
  destruct Hcase as [?|[?|[? ?]]]; [congruence|done|by destruct Hv].
Qed.

(** A rewritten packet goes to a configured backend.  Whatever the random value,
    a run of [xdp_lb_ingress] either changes nothing at all, or it rewrites an ICMP
    frame to the VIP (or to anything, if the VIP is the wildcard 0) for the entry at
    an index that is below the configured count and inside [backend_map], and that
    entry is not a cleared one. *)
Theorem selected_backend_valid e s a s' :
  wf_maps (ks_maps s) -> is_u32 (ks_rand s) ->
  exec (xdp_lb_ingress e) s = Some (a, s') ->
  s' = s \/
  exists idx c b,
    ks_pkt s' = dnat e c b (ks_pkt s) /\ is_icmp_frame e (ks_pkt s) = true /\
    am_lookup (ConfigMap (ks_maps s)) 0 = Some c /\
    (cfg_vip c = 0 \/ load e (daddr_of (ks_pkt s)) = cfg_vip c) /\
    0 <= idx < Z.min (cfg_backend_count c) MAX_BACKENDS /\
    am_lookup (BackendMap (ks_maps s)) idx = Some b /\ bi_ipv4 b <> 0.
Proof.
  intros Hwf [Hr _]. rewrite exec_ingress_run by done. intros [= <- <-].
  unfold ingress_result. destruct (select _ _ _ _) as [[[idx c] b]|] eqn:Hsel; [|by left].
  right. exists idx, c, b. apply select_Some in Hsel as (Hf & Hc & Hn & Hv & -> & Hb & Hi).
  destruct (wf_config _ Hwf _ _ Hc) as (_ & _ & _ & [Hcnt _] & _).
  pose proof (bpf_mod_range (ks_rand s) (cfg_backend_count c) Hr ltac:(lia)) as Hrange.
  destruct (decide (0 <= bpf_mod (ks_rand s) (cfg_backend_count c) < MAX_BACKENDS));
    [|by rewrite am_lookup_out in Hb].
  split_and!; try done; lia.
Qed.

(** The IPv4 destination of the packet after a run with random value [r]. *)
Definition destination (e : endian) (s : kstate) (r : Z) : option Z :=
  (fun x => load e (daddr_of (ks_pkt (snd x)))) <$>
    exec (xdp_lb_ingress e)
      {| ks_pkt := ks_pkt s; ks_maps := ks_maps s; ks_cpu := ks_cpu s; ks_rand := r |}.

Lemma destination_live e s c r :
  wf_maps (ks_maps s) -> is_icmp_frame e (ks_pkt s) = true ->
  am_lookup (ConfigMap (ks_maps s)) 0 = Some c -> load e (daddr_of (ks_pkt s)) = cfg_vip c ->
  0 < cfg_backend_count c -> 0 <= r ->
  (forall k, 0 <= k < cfg_backend_count c -> exists b,
     am_lookup (BackendMap (ks_maps s)) k = Some b /\ bi_ipv4 b <> 0) ->
  exists b, am_lookup (BackendMap (ks_maps s)) (r mod cfg_backend_count c) = Some b /\
    destination e s r = Some (bi_ipv4 b).
Proof.
  intros Hwf Hf Hc Hv Hn Hr Hlive.
  destruct (Hlive (r mod cfg_backend_count c)) as (b & Hb & Hnz);
    [by apply Z.mod_pos_bound|].
  exists b. split; [done|]. unfold destination. rewrite exec_ingress_run by done.
  unfold ingress_result. cbn [ks_maps ks_rand ks_pkt ks_cpu].
  replace (select e (ks_maps s) r (ks_pkt s)) with (Some (r mod cfg_backend_count c, c, b)).
  2: { symmetry. apply select_Some. split_and!; try done; [lia|by right|].
       unfold bpf_mod. by rewrite (proj2 (Z.eqb_neq _ 0)) by lia. }
  cbn [fmap option_fmap option_map snd ks_pkt with_maps with_pkt].
  apply icmp_frame_length in Hf.
  destruct (dnat_spec e c b (ks_pkt s)) as (_ & _ & _ & ->);
    [by eapply wf_config|by eapply wf_backend|done|].
  f_equal. apply load_store_u32. by eapply wf_backend in Hb as [? _].
Qed.

(** C22: the random choice is fair.  With [n] live backends of distinct addresses, the
    request leaves [xdp_lb_ingress] with the address of a given one for either
    [2^32 / n] or [2^32 / n + 1] of the [2^32] values [bpf_get_prandom_u32] can
    return: the modulo bias is at most one part in [2^32 / n]. *)
Theorem selection_fair e s c i addr :
  wf_maps (ks_maps s) -> is_icmp_frame e (ks_pkt s) = true ->
  am_lookup (ConfigMap (ks_maps s)) 0 = Some c ->
  load e (daddr_of (ks_pkt s)) = cfg_vip c -> 0 <= i < cfg_backend_count c ->
  (forall k, 0 <= k < cfg_backend_count c -> exists b,
     am_lookup (BackendMap (ks_maps s)) k = Some b /\ bi_ipv4 b <> 0 /\
     (bi_ipv4 b = addr <-> k = i)) ->
  2 ^ 32 / cfg_backend_count c <=
    Z.of_nat (length (filter (fun r => destination e s r = Some addr) (seqZ 0 (2 ^ 32)))) <=
  2 ^ 32 / cfg_backend_count c + 1.
Proof.
  intros Hwf Hf Hc Hv Hi Hlive. set (n := cfg_backend_count c) in *.
  rewrite (list_filter_iff' _ (fun r => r mod n = i)).
  2: { intros r [Hr _]%elem_of_seqZ.
    destruct (destination_live e s c r) as (b & Hb & ->); [done..|fold n; lia|done| |].
    { intros k Hk. destruct (Hlive k Hk) as (b & ? & ? & _). eauto. }
    fold n in Hb. destruct (Hlive (r mod n)) as (b' & Hb' & _ & Hiff);
      [apply Z.mod_pos_bound; lia|].
    rewrite Hb in Hb'. injection Hb' as <-. rewrite <-Hiff. split; congruence. }
  pose proof (count_mod n i (Z.to_nat (2 ^ 32)) Hi) as Hcount.
  rewrite Z2Nat.id in Hcount by lia. rewrite Hcount. case_decide; lia.
Qed.

(** C8: [xdp_veth_snat] refines its specification: it never faults on any packet and
    any maps, returns XDP_PASS, changes no map, and rewrites the packet exactly
    when its source is a registered backend and a VIP is configured. *)
Theorem snat_refines e s :
  exec (xdp_veth_snat e) s = Some (XDP_PASS, snat_result e s) /\
  ks_maps (snat_result e s) = ks_maps s.
Proof.
  split; [apply exec_snat_run|]. unfold snat_result.
  repeat case_match; done.
Qed.

(** C18: what SNAT does to a reply.  A frame from a registered backend leaves
    [xdp_veth_snat] with the VIP as its IPv4 source, a checksum that verifies
    over the fixed 20-byte header, and every other byte (the client's address and the ICMP message
    among them) as it was. *)
Theorem snat_rewrites_source e s c i :
  is_icmp_frame e (ks_pkt s) = true ->
  hm_lookup (BackendIpsMap (ks_maps s)) (load e (saddr_of (ks_pkt s))) = Some i ->
  am_lookup (ConfigMap (ks_maps s)) 0 = Some c -> wf_lb_config c -> cfg_vip c <> 0 ->
  exists s', exec (xdp_veth_snat e) s = Some (XDP_PASS, s') /\
    nat_rewrite snat_bytes (ks_pkt s) (ks_pkt s') /\
    load e (saddr_of (ks_pkt s')) = cfg_vip c /\ ks_maps s' = ks_maps s.
Proof.
  intros Hf Hi Hc Hwc Hv. eexists. split; [apply exec_snat_run|].
  unfold snat_result. rewrite Hf, Hi, Hc, (proj2 (Z.eqb_neq _ _) Hv).
  apply icmp_frame_length in Hf. destruct (snat_spec e c _ Hf) as [Hn Ha].
  cbn [ks_pkt ks_maps with_pkt]. rewrite Ha.
  split_and!; [done|by apply load_store_u32, Hwc|done].
Qed.

Lemma dnat_options e c b p m :
  wf_lb_config c -> wf_backend_info b ->
  (sizeof_ethhdr + sizeof_iphdr + 2 * m <= length p)%nat ->
  csum_valid e (slice (dnat e c b p) sizeof_ethhdr (sizeof_iphdr + 2 * m)) <->
  sum (words e (slice p (sizeof_ethhdr + sizeof_iphdr) (2 * m))) mod 65535 = 0.
Proof.
  unfold dnat. intros (_ & _ & _ & _ & Hsrc & _) (_ & _ & _ & Hmac & _) Hlen.
  unfold sizeof_ethhdr, sizeof_iphdr, iphdr_daddr, ethhdr_h_dest, ethhdr_h_source in *.
  assert (length (bi_mac b) = 6)%nat by done. assert (length (cfg_src_mac c) = 6)%nat by done.
  set (p1 := splice p 0 (bi_mac b)). set (p2 := splice p1 6 (cfg_src_mac c)).
  assert (length p1 = length p) as H1 by (apply length_splice; lia).
  assert (length p2 = length p) as H2 by (rewrite <-H1; apply length_splice; lia).
  etrans; [apply (fix_csum_options e 14 _ m); rewrite length_splice; rewrite ?length_store; unfold sizeof_iphdr; lia|].
  unfold sizeof_iphdr. rewrite slice_splice_ne by (rewrite ?length_store; lia).
  unfold p2. rewrite slice_splice_ne by lia. unfold p1. by rewrite slice_splice_ne by lia.
Qed.

(** C27: the recomputed checksum and IPv4 options.  [update_ip_csum] sums only the
    fixed 20 bytes, so for a header with [2 * m] bytes of options (covered by the
    checksum a receiver verifies) the frame [xdp_lb_ingress] produces verifies exactly
    when the options' words sum to zero modulo 65535. *)
Theorem dnat_options_checksum e s idx c b m :
  wf_maps (ks_maps s) ->
  select e (ks_maps s) (ks_rand s) (ks_pkt s) = Some (idx, c, b) ->
  (sizeof_ethhdr + sizeof_iphdr + 2 * m <= length (ks_pkt s))%nat ->
  exists s', exec (xdp_lb_ingress e) s = Some (XDP_PASS, s') /\
    (csum_valid e (slice (ks_pkt s') sizeof_ethhdr (sizeof_iphdr + 2 * m)) <->
     sum (words e (slice (ks_pkt s) (sizeof_ethhdr + sizeof_iphdr) (2 * m))) mod 65535 = 0).
Proof.
  intros Hwf Hsel Hlen. eexists. split; [by apply exec_ingress_run|].
  unfold ingress_result. rewrite Hsel. apply select_Some in Hsel as (_ & Hc & _ & _ & _ & Hb & _).
  apply dnat_options; [by eapply wf_config|by eapply wf_backend|done].
Qed.
End DataPlane.

(** ** Witnesses: the properties at the sample request and reply *)

Module Witness.
Import RefMaps.

Lemma ingress_refines_witness :
  wf_maps sample_maps /\
  exec (xdp_lb_ingress LE) (sample_state request 7) =
    Some (XDP_PASS, ingress_result LE (sample_state request 7)).
Proof.
  split; [apply sample_maps_wf|].
  apply (ingress_refines LE (sample_state request 7)). apply sample_maps_wf.
Defined.

Lemma ingress_dnat_witness :
  exists s', exec (xdp_lb_ingress LE) (sample_state request 7) = Some (XDP_PASS, s') /\
    nat_rewrite dnat_bytes request (ks_pkt s') /\
    h_dest_of (ks_pkt s') = b2_mac /\ h_source_of (ks_pkt s') = host_mac /\
    load LE (daddr_of (ks_pkt s')) = load LE b2_ip /\
    same_tables sample_maps (ks_maps s').
Proof.
  apply (ingress_dnat LE (sample_state request 7) 1 sample_config (entry b2_ip b2_mac));
    [apply sample_maps_wf|vm_compute; reflexivity].
Defined.

(** The reply goes to the client, not to the VIP. *)
Lemma ingress_filters_witness :
  exec (xdp_lb_ingress LE) (sample_state reply 7) = Some (XDP_PASS, sample_state reply 7).
Proof.
  apply (ingress_filters LE (sample_state reply 7) sample_config);
    [apply sample_maps_wf|vm_compute; reflexivity|].
  right; right. split; vm_compute; discriminate.
Defined.

Lemma selected_backend_valid_witness :
  let s := sample_state request 7 in
  let s' := ingress_result LE s in
  s' = s \/
  exists idx c b,
    ks_pkt s' = dnat LE c b request /\ is_icmp_frame LE request = true /\
    am_lookup (ConfigMap sample_maps) 0 = Some c /\
    (cfg_vip c = 0 \/ load LE (daddr_of request) = cfg_vip c) /\
    0 <= idx < Z.min (cfg_backend_count c) MAX_BACKENDS /\
    am_lookup (BackendMap sample_maps) idx = Some b /\ bi_ipv4 b <> 0.
Proof.
  apply (selected_backend_valid LE (sample_state request 7) XDP_PASS);
    [apply sample_maps_wf|vm_compute; split; discriminate || reflexivity
    |apply exec_ingress_run, sample_maps_wf].
Defined.

Lemma selection_fair_witness :
  2 ^ 32 / cfg_backend_count sample_config <=
    Z.of_nat (length (filter (fun r => destination LE (sample_state request 0) r =
                                        Some (load LE b2_ip)) (seqZ 0 (2 ^ 32)))) <=
  2 ^ 32 / cfg_backend_count sample_config + 1.
Proof.
  apply (selection_fair LE (sample_state request 0) sample_config 1 (load LE b2_ip));
    [apply sample_maps_wf|reflexivity|vm_compute; reflexivity|vm_compute; reflexivity
    |vm_compute; done|].
  intros k Hk. assert (k = 0 \/ k = 1) as [->| ->] by (cbn in Hk; lia);
    eexists; (split; [vm_compute; reflexivity|]); (split; [vm_compute; discriminate|]);
    (split; vm_compute; congruence).
Defined.

Lemma snat_rewrites_source_witness :
  exists s', exec (xdp_veth_snat LE) (sample_state reply 0) = Some (XDP_PASS, s') /\
    nat_rewrite snat_bytes reply (ks_pkt s') /\
    load LE (saddr_of (ks_pkt s')) = load LE vip_ip /\ ks_maps s' = sample_maps.
Proof.
  apply (snat_rewrites_source LE (sample_state reply 0) sample_config 0);
    [reflexivity|vm_compute; reflexivity|vm_compute; reflexivity|by vm_compute
    |vm_compute; discriminate].
Defined.

(** A request with a Router Alert option leaves DNAT with a header that does not
    verify. *)
Lemma dnat_options_checksum_witness :
  exists s', exec (xdp_lb_ingress LE) (sample_state request_ra 6) = Some (XDP_PASS, s') /\
    (csum_valid LE (slice (ks_pkt s') 14 (20 + 2 * 2)) <-> 1172 mod 65535 = 0).
Proof.
  apply (dnat_options_checksum LE (sample_state request_ra 6) 0 sample_config
           (entry b1_ip b1_mac) 2);
    [apply sample_maps_wf|vm_compute; reflexivity|vm_compute; lia].
Defined.
End Witness.
