(* ===== verification/Race.v ===== *)
(** * The data plane under concurrent updates

    User space updates the maps while XDP programs run.  [rstep] interleaves the
    interactions of one run with map updates (and with the counter updates of other
    CPUs) at every point.  [wp] is a demonic weakest precondition in which every load
    through a map pointer may return any well-formed value; [wp_sound] shows that
    what [wp] proves holds of every interleaving. *)

From S2P Require Import Prelude Types BpfMaps Ebpf Checksum Xdp Samples XdpSpec.

(** ** Weakest preconditions with adversarial maps *)

(** [K] receives the response and the packet after the interaction.  Array elements
    exist for the whole life of the map, so a lookup's outcome depends on its key
    only; everything else a map holds can change between any two accesses. *)
Definition wp_event (ev : event) (pkt : list byte)
    : (resp ev -> list byte -> Prop) -> Prop :=
  match ev return (resp ev -> list byte -> Prop) -> Prop with
  | PktLen => fun K => K (length pkt) pkt
  | PktLoad off n => fun K => (off + n <= length pkt)%nat /\ K (slice pkt off n) pkt
  | PktStore off bs => fun K =>
      (off + length bs <= length pkt)%nat /\ K tt (splice pkt off bs)
  | PRandom => fun K => forall r, is_u32 r -> K r pkt
  | ConfigLookup k => fun K => K (bool_decide (0 <= k < 1)) pkt
  | BackendLookup k | CounterLookup k => fun K =>
      K (bool_decide (0 <= k < MAX_BACKENDS)) pkt
  | IpsLookup k => fun K => forall b, K b pkt
  | LdVip k | LdBackendCount k => fun K =>
      0 <= k < 1 /\ forall v, is_u32 v -> K v pkt
  | LdSrcMac k i => fun K => 0 <= k < 1 /\ (i < ETH_ALEN)%nat /\ forall b, K b pkt
  | LdIpv4 k => fun K => 0 <= k < MAX_BACKENDS /\ forall v, is_u32 v -> K v pkt
  | LdMac k i => fun K => 0 <= k < MAX_BACKENDS /\ (i < ETH_ALEN)%nat /\ forall b, K b pkt
  | LdRxPackets k | LdRxBytes k => fun K =>
      0 <= k < MAX_BACKENDS /\ forall v, is_u64 v -> K v pkt
  | StRxPackets k v | StRxBytes k v => fun K =>
      0 <= k < MAX_BACKENDS /\ is_u64 v /\ K tt pkt
  end.

Fixpoint wp {A} (p : prog A) (Q : A -> list byte -> Prop) (pkt : list byte) : Prop :=
  match p with
  | Ret a => Q a pkt
  | Vis ev k => wp_event ev pkt (fun x pkt' => wp (k x) Q pkt')
  end.

Arguments wp : simpl never.

(** Run the interaction at the head of the program. *)
Ltac wp_run :=
  match goal with
  | |- @wp _ (prog_bind ?f ?p) ?Q ?pkt =>
      lazymatch p with
      | call ?ev => change (wp_event ev pkt (fun x pkt' => wp (f x) Q pkt'))
      end
  | |- @wp _ (call ?ev) ?Q ?pkt => change (wp_event ev pkt Q)
  end; cbn [wp_event].

Lemma wp_ret {A} (a : A) (Q : A -> list byte -> Prop) pkt : Q a pkt -> wp (Ret a) Q pkt.
Proof. done. Qed.

Lemma wp_event_mono ev pkt (K K' : resp ev -> list byte -> Prop) :
  (forall x pkt', K x pkt' -> K' x pkt') -> wp_event ev pkt K -> wp_event ev pkt K'.
Proof. intros HK. destruct ev; simpl; naive_solver. Qed.

Lemma wp_bind {A B} (p : prog A) (f : A -> prog B) Q pkt :
  wp p (fun a pkt' => wp (f a) Q pkt') pkt -> wp (prog_bind f p) Q pkt.
Proof.
  revert pkt. induction p as [a|ev k IH]; intros pkt; [done|].
  change (prog_bind f (Vis ev k)) with (Vis ev (fun x => prog_bind f (k x))).
  apply wp_event_mono. intros x pkt'. apply IH.
Qed.

Lemma wp_mono {A} (p : prog A) (Q Q' : A -> list byte -> Prop) pkt :
  (forall a pkt', Q a pkt' -> Q' a pkt') -> wp p Q pkt -> wp p Q' pkt.
Proof.
  intros HQ. revert pkt. induction p as [a|ev k IH]; intros pkt; [apply HQ|].
  apply wp_event_mono. intros x pkt'. apply IH.
Qed.

(** A program that only touches the packet behaves the same under interference. *)
Fixpoint pkt_only {A} (p : prog A) : Prop :=
  match p with
  | Ret _ => True
  | Vis ev k =>
      match ev with PktLen | PktLoad _ _ | PktStore _ _ => True | _ => False end /\
      forall x, pkt_only (k x)
  end.

Lemma pkt_only_bind {A B} (p : prog A) (f : A -> prog B) :
  pkt_only p -> (forall a, pkt_only (f a)) -> pkt_only (prog_bind f p).
Proof. intros Hp Hf. induction p as [a|ev k IH]; [apply Hf|]. destruct Hp. split; eauto. Qed.

Lemma pkt_only_call ev :
  match ev with PktLen | PktLoad _ _ | PktStore _ _ => True | _ => False end ->
  pkt_only (call ev).
Proof. done. Qed.

Section Race.
Context {KM : BpfMaps} {KL : BpfMapsLaws}.

Lemma wp_pkt_only {A} (p : prog A) Q s a s' :
  pkt_only p -> exec p s = Some (a, s') -> Q a (ks_pkt s') -> wp p Q (ks_pkt s).
Proof.
  revert s. induction p as [x|ev k IH]; intros s Hp He HQ.
  { rewrite exec_Ret in He. by simplify_eq. }
  destruct Hp as [Hev Hk]. change (exec (Vis ev k) s)
    with ('(x, s') ← handle ev s; exec (k x) s') in He.
  destruct ev; try done; simpl in *.
  - eapply IH; eauto.
  - unfold peek in He. destruct (_ <=? _)%nat eqn:Hb; [|done]. bool_to_prop.
    split; [done|]. eapply IH; eauto.
  - unfold poke in He. destruct (_ <=? _)%nat eqn:Hb; [|done]. bool_to_prop.
    split; [done|]. eapply (IH tt (with_pkt s _)); eauto.
Qed.

(** ** Interleavings *)

(** A map update by someone else: one successful system call of user space, or a
    counter write on another CPU. *)
Inductive env_update (cpu : nat) (m : lbMaps) : lbMaps -> Prop :=
  | env_config k c t : wf_lb_config c -> am_update (ConfigMap m) k c = Ok t ->
      env_update cpu m (with_ConfigMap m t)
  | env_backend k b t : wf_backend_info b -> am_update (BackendMap m) k b = Ok t ->
      env_update cpu m (with_BackendMap m t)
  | env_ips_put k v t : hm_update (BackendIpsMap m) k v = Ok t ->
      env_update cpu m (with_BackendIpsMap m t)
  | env_ips_delete k t : hm_delete (BackendIpsMap m) k = Ok t ->
      env_update cpu m (with_BackendIpsMap m t)
  | env_counter cpu' k v : cpu' <> cpu -> wf_stats_counter v ->
      is_Some (pm_lookup (CountersMap m) cpu' k) ->
      env_update cpu m (with_CountersMap m (pm_write (CountersMap m) cpu' k v)).

Inductive rstep {A} : prog A * kstate -> prog A * kstate -> Prop :=
  | rstep_prog ev k s x s' : handle ev s = Some (x, s') -> rstep (Vis ev k, s) (k x, s')
  | rstep_env p s m : env_update (ks_cpu s) (ks_maps s) m -> rstep (p, s) (p, with_maps s m)
  | rstep_rand p s r : is_u32 r ->
      rstep (p, s) (p, {| ks_pkt := ks_pkt s; ks_maps := ks_maps s; ks_cpu := ks_cpu s;
                          ks_rand := r |}).

(** A kernel state a program can meet. *)
Definition wf_kstate (s : kstate) : Prop :=
  wf_maps (ks_maps s) /\ (ks_cpu s < pm_ncpus)%nat /\ is_u32 (ks_rand s).

Lemma env_update_wf cpu m m' : wf_maps m -> env_update cpu m m' -> wf_maps m'.
Proof.
  intros [Hc Hb Hp] [k c t Hw Hu|k b t Hw Hu|k v t Hu|k t Hu|c' k v Hne Hw Hs];
    split; simpl; eauto; intros *.
  - rewrite (am_lookup_update _ _ _ _ _ Hu). case_decide; naive_solver.
  - rewrite (am_lookup_update _ _ _ _ _ Hu). case_decide; naive_solver.
  - rewrite pm_lookup_write by done. case_decide; naive_solver.
Qed.

Lemma array_present {M V} `{!ArrayMap M V} zero max `{!ArrayMapLaws M V zero max}
    (m : M) k : bool_decide (is_Some (am_lookup m k)) = bool_decide (0 <= k < max).
Proof.
  apply bool_decide_ext. split; [|apply am_lookup_in].
  intros [v Hv]. destruct (decide (0 <= k < max)) as [|Hn]; [done|].
  by rewrite am_lookup_out in Hv.
Qed.

Lemma counter_present s k :
  (ks_cpu s < pm_ncpus)%nat ->
  bool_decide (is_Some (counter_at s k)) = bool_decide (0 <= k < MAX_BACKENDS).
Proof.
  intros Hcpu. unfold counter_at.
  apply bool_decide_ext. split; [|by apply pm_lookup_in].
  intros [v Hv]. destruct (decide (0 <= k < MAX_BACKENDS)) as [|Hn]; [done|].
  by rewrite pm_lookup_out in Hv.
Qed.
(** The stored value a load through an array pointer finds. *)
Lemma config_some s k : 0 <= k < 1 -> exists c, config_at s k = Some c.
Proof. intros Hk. apply (am_lookup_in (zero := lb_config_zero) (max := 1)), Hk. Qed.
Lemma backend_some s k : 0 <= k < MAX_BACKENDS -> exists b, backend_at s k = Some b.
Proof.
  intros Hk. apply (am_lookup_in (zero := backend_info_zero) (max := MAX_BACKENDS)), Hk.
Qed.
Lemma counter_some s k :
  wf_kstate s -> 0 <= k < MAX_BACKENDS ->
  exists c, counter_at s k = Some c /\ wf_stats_counter c.
Proof.
  intros (Hm & Hcpu & _) Hk.
  destruct (pm_lookup_in (zero := stats_counter_zero) (max := MAX_BACKENDS)
              (CountersMap (ks_maps s)) (ks_cpu s) k Hcpu Hk) as [c Hc].
  eexists; split; [done|]. by eapply wf_counter.
Qed.

Lemma set_counter_wf s k v :
  wf_kstate s -> wf_stats_counter v -> is_Some (counter_at s k) ->
  wf_kstate (set_counter s k v).
Proof.
  intros ([Hc Hb Hp] & Hcpu & Hr) Hv Hs. split; [split; simpl; eauto|done].
  intros c' k' w. rewrite pm_lookup_write by done. case_decide; naive_solver.
Qed.

(** What [wp_event] grants, the kernel state delivers. *)
Lemma wp_handle ev s K :
  wf_kstate s -> wp_event ev (ks_pkt s) K ->
  exists x s', handle ev s = Some (x, s') /\ K x (ks_pkt s') /\ wf_kstate s'.
Proof.
  intros Hs HK. pose proof Hs as (Hm & Hcpu & Hr).
  destruct ev; cbn [wp_event handle] in *.
  - eauto 10.
  - destruct HK as [Hb HK]. rewrite peek_ok by done. simpl. eauto 10.
  - destruct HK as [Hb HK]. rewrite poke_ok by done. simpl. eauto 10.
  - eauto 10.
  - unfold config_at. rewrite (array_present lb_config_zero 1). eauto 10.
  - unfold backend_at. rewrite (array_present backend_info_zero MAX_BACKENDS). eauto 10.
  - eauto 10.
  - rewrite counter_present by done. eauto 10.
  - destruct HK as [Hk HK]. destruct (config_some s k Hk) as [c Hc].
    rewrite Hc. simpl. destruct (wf_config _ Hm _ _ Hc). eauto 10.
  - destruct HK as [Hk HK]. destruct (config_some s k Hk) as [c Hc].
    rewrite Hc. simpl. destruct (wf_config _ Hm _ _ Hc) as (_ & _ & _ & ? & _). eauto 10.
  - destruct HK as (Hk & Hi & HK). destruct (config_some s k Hk) as [c Hc].
    rewrite Hc. simpl. destruct (wf_config _ Hm _ _ Hc) as (_ & _ & _ & _ & Hl & _).
    destruct (lookup_lt_is_Some_2 (cfg_src_mac c) i) as [b ->]; [lia|]. simpl. eauto 10.
  - destruct HK as [Hk HK]. destruct (backend_some s k Hk) as [b Hb].
    rewrite Hb. simpl. destruct (wf_backend _ Hm _ _ Hb). eauto 10.
  - destruct HK as (Hk & Hi & HK). destruct (backend_some s k Hk) as [b Hb].
    rewrite Hb. simpl. destruct (wf_backend _ Hm _ _ Hb) as (_ & _ & _ & Hl & _).
    destruct (lookup_lt_is_Some_2 (bi_mac b) i) as [x ->]; [lia|]. simpl. eauto 10.
  - destruct HK as [Hk HK]. destruct (counter_some s k Hs Hk) as (c & Hc & [? ?]).
    rewrite Hc. simpl. eauto 10.
  - destruct HK as [Hk HK]. destruct (counter_some s k Hs Hk) as (c & Hc & [? ?]).
    rewrite Hc. simpl. eauto 10.
  - destruct HK as (Hk & Hv & HK). destruct (counter_some s k Hs Hk) as (c & Hc & [? ?]).
    rewrite Hc. simpl. eexists _, _; split_and!; [done|done|].
    apply set_counter_wf; [done|done|by rewrite Hc].
  - destruct HK as (Hk & Hv & HK). destruct (counter_some s k Hs Hk) as (c & Hc & [? ?]).
    rewrite Hc. simpl. eexists _, _; split_and!; [done|done|].
    apply set_counter_wf; [done|done|by rewrite Hc].
Qed.

Lemma wp_step {A} (p p' : prog A) Q s s' :
  wf_kstate s -> wp p Q (ks_pkt s) -> rstep (p, s) (p', s') ->
  wf_kstate s' /\ wp p' Q (ks_pkt s').
Proof.
  intros Hs Hwp Hstep. inversion Hstep as [ev k ? x ? Hh|? ? m Henv|? ? r Hr]; subst.
  - destruct (wp_handle ev s _ Hs Hwp) as (x' & s'' & Hh' & HK & Hs').
    rewrite Hh in Hh'. simplify_eq. done.
  - destruct Hs as (Hm & ? & ?). split; [|done]. split; [|done].
    by eapply env_update_wf.
  - destruct Hs as (Hm & ? & ?). done.
Qed.

Lemma wp_reachable {A} (p p' : prog A) Q s s' :
  rtc rstep (p, s) (p', s') -> wf_kstate s -> wp p Q (ks_pkt s) ->
  wf_kstate s' /\ wp p' Q (ks_pkt s').
Proof.
  remember (p, s) as x eqn:Hx. remember (p', s') as y eqn:Hy. intros Hsteps.
  revert p s Hx. induction Hsteps as [x|x [p1 s1] y Hstep _ IH]; intros p s -> Hs Hwp.
  - by simplify_eq.
  - destruct (wp_step p p1 Q s s1) as [Hs1 Hwp1]; [done..|]. by eapply IH.
Qed.

(** Soundness: in every reachable configuration the program is finished with a
    result that satisfies the postcondition, or its next access is allowed. *)
Lemma wp_sound {A} (p p' : prog A) Q s s' :
  wf_kstate s -> wp p Q (ks_pkt s) -> rtc rstep (p, s) (p', s') ->
  match p' with
  | Ret a => Q a (ks_pkt s')
  | Vis ev _ => is_Some (handle ev s')
  end.
Proof.
  intros Hs Hwp Hsteps. destruct (wp_reachable p p' Q s s' Hsteps Hs Hwp) as [Hs' Hwp'].
  destruct p' as [a|ev k]; [done|].
  destruct (wp_handle ev s' _ Hs' Hwp') as (x & s'' & -> & _). eauto.
Qed.
(** ** The programs under interference *)

Lemma csum_words_pkt_only e off n acc : pkt_only (csum_words e off n acc).
Proof.
  revert off acc. induction n as [|n IH]; intros off acc; [done|].
  split; [done|]. intros w. apply IH.
Qed.

Lemma update_ip_csum_pkt_only e iph : pkt_only (update_ip_csum e iph).
Proof.
  apply pkt_only_bind; [done|]. intros _.
  apply pkt_only_bind; [apply csum_words_pkt_only|done].
Qed.

Lemma wp_update_ip_csum e iph (Q : unit -> list byte -> Prop) p :
  (iph + sizeof_iphdr <= length p)%nat ->
  Q tt (fix_csum e iph p) -> wp (update_ip_csum e iph) Q p.
Proof.
  intros Hb HQ.
  set (s := {| ks_pkt := p; ks_maps := lbMaps_init; ks_cpu := 0; ks_rand := 0 |}).
  apply (wp_pkt_only _ _ s tt (with_pkt s (fix_csum e iph p)));
    [apply update_ip_csum_pkt_only|by apply exec_update_ip_csum|done].
Qed.

(** Bytes from offset 12 on are as in [p]. *)
Definition macs_only (p p' : list byte) : Prop :=
  length p' = length p /\ forall i, (12 <= i)%nat -> p' !! i = p !! i.

Lemma wp_rewrite_macs idx i n (Q : unit -> list byte -> Prop) p :
  0 <= idx < MAX_BACKENDS -> (i + n <= ETH_ALEN)%nat -> (12 <= length p)%nat ->
  (forall p', macs_only p p' -> Q tt p') -> wp (rewrite_macs 0 0 idx i n) Q p.
Proof.
  intros Hidx. revert i p. induction n as [|n IH]; intros i p Hi Hlen HQ.
  { apply HQ. done. }
  rewrite rewrite_macs_unfold. unfold ETH_ALEN in *.
  wp_run. split; [done|]. split; [unfold ETH_ALEN; lia|]. intros b.
  wp_run. split; [simpl; lia|].
  wp_run. split; [lia|]. split; [unfold ETH_ALEN; lia|]. intros b'.
  assert (length (splice p (0 + ethhdr_h_dest + i) [b]) = length p) as Hl1
    by (apply length_splice; simpl; lia).
  wp_run. split; [simpl in *; lia|].
  set (p2 := splice (splice _ _ _) _ _).
  assert (macs_only p p2) as [Hl2 Hp2].
  { split.
    - unfold p2. rewrite length_splice; simpl in *; lia.
    - intros j Hj. unfold p2, ethhdr_h_dest, ethhdr_h_source.
      rewrite !lookup_splice_ne; simpl in *; rewrite ?Hl1; auto with lia. }
  apply IH; [lia|lia|]. intros p' [Hl' Hp']. apply HQ. split; [lia|].
  intros j Hj. by rewrite Hp', Hp2.
Qed.

Lemma wp_update_stats idx len (Q : unit -> list byte -> Prop) p :
  Q tt p -> wp (update_stats idx len) Q p.
Proof.
  intros HQ. unfold update_stats. wp_run. case_bool_decide as Hidx; [|by apply wp_ret].
  wp_run. split; [done|]. intros v _. wp_run. split; [done|]. split; [apply u64_range|].
  wp_run. split; [done|]. intros w _. wp_run. split; [done|]. split; [apply u64_range|done].
Qed.

(** The prefix is insensitive to the maps. *)
Lemma wp_icmp_prefix e k (Q : xdp_action -> list byte -> Prop) p :
  Q XDP_PASS p ->
  (is_icmp_frame e p = true -> wp (k (length p)) Q p) -> wp (icmp_prefix e k) Q p.
Proof.
  intros HQ Hk. unfold icmp_prefix. unfold is_icmp_frame in Hk. wp_run. rewrite !ltb_leb.
  destruct (sizeof_ethhdr <=? length p)%nat eqn:H1; opt_simpl; [|by apply wp_ret].
  bool_to_prop. unfold sizeof_ethhdr in *.
  wp_run. split; [unfold ethhdr_h_proto; lia|].
  destruct (load e _ =? _); opt_simpl; [|by apply wp_ret].
  destruct (14 + sizeof_iphdr <=? length p)%nat eqn:H2; opt_simpl; [|by apply wp_ret].
  bool_to_prop. unfold sizeof_iphdr in *.
  wp_run. split; [unfold iphdr_protocol; lia|].
  destruct (load e _ =? _); opt_simpl; [|by apply wp_ret].
  wp_run. split; [lia|]. rewrite ltb_leb.
  destruct (_ <=? _)%nat; [by apply Hk|by apply wp_ret].
Qed.

(** The outcome of a run whatever the maps do meanwhile: XDP_PASS, and the packet
    as it was or rewritten within [touched] with a valid checksum of the
    fixed header. *)
Definition pass_or_rewrite (touched : nat -> Prop) (p : list byte)
    (a : xdp_action) (p' : list byte) : Prop :=
  a = XDP_PASS /\ (p' = p \/ nat_rewrite touched p p').

Lemma wp_pass touched p : wp (Ret XDP_PASS) (pass_or_rewrite touched p) p.
Proof. split; by auto. Qed.

Lemma wp_csum_rewrite {A} e touched p p1 (k : unit -> prog A) Q :
  (34 <= length p)%nat -> length p1 = length p ->
  (forall i, ~ touched i -> p1 !! i = p !! i) ->
  (forall p', nat_rewrite touched p p' -> wp (k tt) Q p') ->
  wp (prog_bind k (update_ip_csum e sizeof_ethhdr)) Q p1.
Proof.
  intros Hlen Hl1 Hp1 Hk. apply wp_bind, wp_update_ip_csum.
  { unfold sizeof_ethhdr, sizeof_iphdr. lia. }
  by apply Hk, fix_csum_rewrite.
Qed.

Lemma wp_ingress_tail e p :
  (34 <= length p)%nat ->
  wp (ingress_tail e (length p)) (pass_or_rewrite dnat_bytes p) p.
Proof.
  intros Hlen. unfold ingress_tail.
  wp_run. intros r _. wp_run. split; [lia|]. intros n' _. cbv zeta.
  set (idx := bpf_mod r n').
  wp_run. case_bool_decide as Hidx; opt_simpl; [|apply wp_pass].
  wp_run. split; [done|]. intros a _.
  destruct (a =? 0); opt_simpl; [apply wp_pass|].
  apply wp_bind, wp_rewrite_macs; [done|done|lia|]. intros p1 [Hl1 Hp1].
  wp_run. split; [done|]. intros a' _.
  wp_run. split; [rewrite length_store; unfold sizeof_ethhdr, iphdr_daddr; lia|].
  apply (wp_csum_rewrite e dnat_bytes p); [done|..].
  - rewrite length_splice; rewrite ?length_store; unfold sizeof_ethhdr, iphdr_daddr; lia.
  - unfold dnat_bytes. intros i Hi. rewrite <-Hp1 by lia.
    apply lookup_splice_ne; rewrite ?length_store; unfold sizeof_ethhdr, iphdr_daddr; lia.
  - intros p' Hp'. apply wp_bind, wp_update_stats, wp_ret. split; by auto.
Qed.

Lemma wp_ingress e p : wp (xdp_lb_ingress e) (pass_or_rewrite dnat_bytes p) p.
Proof.
  rewrite ingress_split. apply wp_icmp_prefix; [apply wp_pass|]. intros Hf.
  apply icmp_frame_length in Hf. unfold ingress_body.
  wp_run. rewrite bool_decide_eq_true_2 by lia. opt_simpl.
  wp_run. split; [lia|]. intros n _.
  destruct (n =? 0); opt_simpl; [apply wp_pass|]. apply wp_bind.
  assert (forall b : bool, wp (if b then Ret XDP_PASS else ingress_tail e (length p))
    (pass_or_rewrite dnat_bytes p) p) as Htail
    by (intros [|]; [apply wp_pass|by apply wp_ingress_tail]).
  unfold vip_mismatch. wp_run. split; [lia|]. intros v _.
  destruct (v =? 0); opt_simpl; [apply wp_ret, (Htail false)|].
  wp_run. split; [unfold sizeof_ethhdr, iphdr_daddr; lia|].
  wp_run. split; [lia|]. intros w _. apply wp_ret, Htail.
Qed.

Lemma wp_snat e p : wp (xdp_veth_snat e) (pass_or_rewrite snat_bytes p) p.
Proof.
  rewrite snat_split. apply wp_icmp_prefix; [apply wp_pass|]. intros Hf.
  apply icmp_frame_length in Hf. unfold snat_body.
  wp_run. split; [unfold sizeof_ethhdr, iphdr_saddr; lia|].
  wp_run. intros [|]; opt_simpl; [|apply wp_pass].
  wp_run. rewrite bool_decide_eq_true_2 by lia. opt_simpl.
  wp_run. split; [lia|]. intros v _. destruct (v =? 0); opt_simpl; [apply wp_pass|].
  wp_run. split; [lia|]. intros w _.
  wp_run. split; [rewrite length_store; unfold sizeof_ethhdr, iphdr_saddr; lia|].
  apply (wp_csum_rewrite e snat_bytes p); [done|..].
  - rewrite length_splice; rewrite ?length_store; unfold sizeof_ethhdr, iphdr_saddr; lia.
  - unfold snat_bytes. intros i Hi.
    apply lookup_splice_ne; rewrite ?length_store; unfold sizeof_ethhdr, iphdr_saddr; lia.
  - intros p' Hp'. apply wp_ret. split; by auto.
Qed.

(** ** Properties *)

(** C9: [xdp_lb_ingress] is safe under concurrent reconfiguration.  However user
    space updates the four maps and other CPUs update their counters between any
    two memory accesses of a run, the next access is always inside the packet or
    through a valid pointer, and a finished run returns XDP_PASS with the packet
    either untouched or rewritten only in the two MACs, the IPv4 destination and
    the checksum, with a checksum that verifies over the fixed 20-byte header. *)
Theorem ingress_race_safe e s p' s' :
  wf_kstate s -> rtc rstep (xdp_lb_ingress e, s) (p', s') ->
  match p' with
  | Ret a => pass_or_rewrite dnat_bytes (ks_pkt s) a (ks_pkt s')
  | Vis ev _ => is_Some (handle ev s')
  end.
Proof. intros Hs Hsteps. eapply wp_sound; [done|apply wp_ingress|done]. Qed.

(** C24: [xdp_veth_snat] is safe under concurrent reconfiguration: the same guarantee
    with the IPv4 source as the only rewritten field besides the checksum. *)
Theorem snat_race_safe e s p' s' :
  wf_kstate s -> rtc rstep (xdp_veth_snat e, s) (p', s') ->
  match p' with
  | Ret a => pass_or_rewrite snat_bytes (ks_pkt s) a (ks_pkt s')
  | Vis ev _ => is_Some (handle ev s')
  end.
Proof. intros Hs Hsteps. eapply wp_sound; [done|apply wp_snat|done]. Qed.

(** ** Executing a schedule *)

(** Run [n] interactions of a program. *)
Fixpoint run_n {A} (n : nat) (x : prog A * kstate) : prog A * kstate :=
  match n, x with
  | S n, (Vis ev k, s) =>
      match handle ev s with Some (r, s') => run_n n (k r, s') | None => x end
  | _, _ => x
  end.

Lemma run_n_rtc {A} n (x : prog A * kstate) : rtc rstep x (run_n n x).
Proof.
  revert x. induction n as [|n IH]; intros [[a|ev k] s]; simpl; [done..|].
  destruct (handle ev s) as [[r s']|] eqn:Hh; [|done].
  eapply rtc_l; [by apply rstep_prog|]. apply IH.
Qed.
End Race.

(** ** Witnesses *)

Module RaceWitness.
Import RefMaps.

Lemma sample_state_wf p rnd : is_u32 rnd -> wf_kstate (sample_state p rnd).
Proof. intros H. split; [apply sample_maps_wf|]. split; [simpl; lia|done]. Qed.

(** A third backend that replaces backend 1 at index 0. *)
Definition b3_ip : list byte := bytes_of [172; 18; 0; 9].
Definition b3_mac : list byte := bytes_of [2; 66; 172; 18; 0; 9].

Definition updated_maps : lbMaps :=
  with_BackendMap sample_maps (<[0 := entry b3_ip b3_mac]> (BackendMap sample_maps)).

(** Schedule: 36 accesses of a run that selected index 0 (up to and including the
    MAC loop), then user space stores the new entry, then the run finishes. *)
Definition before_update : prog xdp_action * kstate :=
  run_n 36 (xdp_lb_ingress LE, sample_state request 6).
Definition after_update : prog xdp_action * kstate :=
  run_n 40 (fst before_update, with_maps (snd before_update) updated_maps).

Lemma before_update_maps :
  ks_maps (snd before_update) = sample_maps /\ ks_cpu (snd before_update) = 1%nat.
Proof. split; [vm_cast_no_check (eq_refl sample_maps)|reflexivity]. Qed.

Lemma torn_schedule :
  rtc rstep (xdp_lb_ingress LE, sample_state request 6) after_update.
Proof.
  destruct before_update_maps as [Hm Hcpu].
  etrans; [apply (run_n_rtc 36)|]. fold before_update. unfold after_update.
  etrans; [|apply run_n_rtc]. destruct before_update as [p s]. cbn [fst snd] in *.
  apply rtc_once, rstep_env. rewrite Hm.
  apply (env_backend _ _ 0 (entry b3_ip b3_mac)); [by vm_compute|reflexivity].
Qed.

Lemma ingress_race_safe_witness :
  wf_kstate (sample_state request 6) /\
  match fst after_update with
  | Ret a => pass_or_rewrite dnat_bytes request a (ks_pkt (snd after_update))
  | Vis ev _ => is_Some (handle ev (snd after_update))
  end.
Proof.
  split; [by apply sample_state_wf|].
  apply (ingress_race_safe LE (sample_state request 6) (fst after_update)
           (snd after_update)); [by apply sample_state_wf|].
  rewrite <-surjective_pairing. apply torn_schedule.
Defined.

Lemma snat_race_safe_witness :
  pass_or_rewrite snat_bytes reply XDP_PASS
    (ks_pkt (snd (run_n 40 (xdp_veth_snat LE, sample_state reply 0)))).
Proof.
  apply (snat_race_safe LE (sample_state reply 0) (Ret XDP_PASS)
           (snd (run_n 40 (xdp_veth_snat LE, sample_state reply 0))));
    [by apply sample_state_wf|].
  replace (Ret XDP_PASS) with (fst (run_n 40 (xdp_veth_snat LE, sample_state reply 0)))
    by reflexivity.
  rewrite <-surjective_pairing. apply run_n_rtc.
Defined.

(** A run can mix two backends.  In this schedule the entry at the selected index
    is replaced while the program runs, and the request leaves with the MAC of the
    old backend and the IPv4 address of the new one, a pair that was never in
    [backend_map]: the single-entry write is not a consistent snapshot for a run
    that is under way. *)
Theorem ingress_torn_read :
  exists s', rtc rstep (xdp_lb_ingress LE, sample_state request 6) (Ret XDP_PASS, s') /\
    h_dest_of (ks_pkt s') = b1_mac /\ daddr_of (ks_pkt s') = b3_ip /\
    (forall m, m = sample_maps \/ m = updated_maps -> forall k b,
       am_lookup (BackendMap m) k = Some b ->
       ~ (bi_mac b = b1_mac /\ bi_ipv4 b = load LE b3_ip)).
Proof.
  exists (snd after_update). split_and!.
  - replace (Ret XDP_PASS) with (fst after_update) by (vm_compute; reflexivity).
    rewrite <-surjective_pairing. apply torn_schedule.
  - vm_compute. reflexivity.
  - vm_compute. reflexivity.
  - intros m Hm k b Hb [Hmac Hip].
    assert (b = backend_info_zero \/ b = entry b1_ip b1_mac \/ b = entry b2_ip b2_mac \/
      b = entry b3_ip b3_mac) as Hcases.
    { destruct Hm as [->| ->]; revert Hb; simpl; unfold RefMaps.array_lookup;
        (case_match; [|done]); rewrite ?lookup_insert, ?lookup_singleton;
        repeat case_decide; intros [= <-]; auto. }
    revert Hmac Hip. clear Hb. destruct Hcases as [->|[->|[->| ->]]]; by vm_compute.
Qed.
End RaceWitness.
