(* ===== verification/CTypes.v ===== *)
(** * C type declarations and their memory layout

    The declarations of [vmlinux.h] are C structs, unions, enumerations and typedefs.
    This file gives their abstract syntax and the placement of fields that the C compiler
    follows on the 64-bit targets of the program (the System V ABI: pointers and [long]
    have eight bytes, bit-fields are packed into units of their declared type), together
    with the theorems every layout satisfies. *)

From Stdlib Require Import Sorting.Sorted.
From S2P Require Import Prelude Types.

Open Scope N_scope.

(** ** Abstract syntax *)

Inductive ikind :=
  | Bool | Char | SChar | UChar | Short | UShort | Int | UInt | Long | ULong
  | LongLong | ULongLong | Int128 | UInt128.

Inductive su := Struct | Union.

(** What a name can stand for. *)
Inductive tag := TStruct | TUnion | TEnum | TTypedef.

#[export] Instance tag_eq_dec : EqDecision tag.
Proof. solve_decision. Defined.

(** An unnamed field has the empty name; a bit-field has a width. *)
Inductive ctype :=
  | CVoid
  | CInt (k : ikind)
  | CRef (k : tag) (name : string)
  | CPtr (t : ctype)
  | CArr (t : ctype) (n : N)
  | CFun (ret : ctype) (args : list ctype) (variadic : bool)
  | CEnum (es : list (string * Z))
  | CComp (u : su) (packed : bool) (fs : fields)
with fields :=
  | FNil
  | FCons (name : string) (t : ctype) (bits : option N) (fs : fields).

Scheme ctype_fields_ind := Induction for ctype Sort Prop
  with fields_ctype_ind := Induction for fields Sort Prop.

(** A declaration of a header file. *)
Inductive decl :=
  | DTypedef (name : string) (t : ctype)
  | DComp (u : su) (name : string) (packed : bool) (fs : list (string * ctype * option N))
  | DEnum (name : string) (byte_mode : bool) (es : list (string * Z)).

Fixpoint to_fields (l : list (string * ctype * option N)) : fields :=
  match l with
  | [] => FNil
  | (name, t, w) :: l => FCons name t w (to_fields l)
  end.

(** ** Notation close to C *)

Declare Scope c_scope.
Delimit Scope c_scope with C.

Definition void := CVoid.
Definition bool_ := CInt Bool.
Definition char := CInt Char.
Definition schar := CInt SChar.
Definition uchar := CInt UChar.
Definition short := CInt Short.
Definition ushort := CInt UShort.
Definition int := CInt Int.
Definition uint := CInt UInt.
Definition long := CInt Long.
Definition ulong := CInt ULong.
Definition llong := CInt LongLong.
Definition ullong := CInt ULongLong.
Definition int128 := CInt Int128.
Definition uint128 := CInt UInt128.

Definition struct_ (name : string) := CRef TStruct name.
Definition union_ (name : string) := CRef TUnion name.
Definition enum_ (name : string) := CRef TEnum name.
Definition ty (name : string) := CRef TTypedef name.
Definition ptr := CPtr.
Definition fn (ret : ctype) (args : list ctype) := CFun ret args false.
Definition vfn (ret : ctype) (args : list ctype) := CFun ret args true.
Definition anon_struct (fs : list (string * ctype * option N)) := CComp Struct false (to_fields fs).
Definition anon_packed (fs : list (string * ctype * option N)) := CComp Struct true (to_fields fs).
Definition anon_union (fs : list (string * ctype * option N)) := CComp Union false (to_fields fs).
Definition anon_enum := CEnum.

Definition fld (name : string) (t : ctype) : string * ctype * option N := (name, t, None).
Definition bit (name : string) (t : ctype) (w : N) : string * ctype * option N :=
  (name, t, Some w).
Definition unnamed (t : ctype) : string * ctype * option N := ("", t, None).
Definition arr := CArr.

(** ** Sizes and alignments *)

Definition ikind_size (k : ikind) : N :=
  match k with
  | Bool | Char | SChar | UChar => 1
  | Short | UShort => 2
  | Int | UInt => 4
  | Long | ULong | LongLong | ULongLong => 8
  | Int128 | UInt128 => 16
  end.

(** The next multiple of [a]. *)
Definition round_up (x a : N) : N := if a =? 0 then x else (x + (a - 1)) / a * a.

(** The size and the alignment, in bytes, of the types declared so far. *)
Definition table := list (tag * string * (N * N)).

Fixpoint find (T : table) (k : tag) (name : string) : option (N * N) :=
  match T with
  | [] => None
  | (k', name', sa) :: T =>
      if bool_decide (k = k') && String.eqb name name' then Some sa else find T k name
  end.

(** An enumeration is an [unsigned int] or an [int], unless a value needs eight bytes. *)
Definition enum_size (es : list (string * Z)) : N :=
  if forallb (fun e => (- 2 ^ 31 <=? snd e)%Z && (snd e <? 2 ^ 32)%Z) es then 4 else 8.

(** A placed field: name, bit offset, width in bits, alignment in bits. *)
Record placed := { pl_name : string; pl_off : N; pl_width : N; pl_align : N }.

(** Where a bit-field of width [w] and declared size [s] (bytes) starts: it does not
    cross a unit of its type, unless the struct is packed. *)
Definition bit_start (packed : bool) (pos s w : N) : N :=
  if packed then pos
  else if 8 * s <? pos mod (8 * s) + w then round_up pos (8 * s) else pos.

(** [size_align] of a type in bytes; [place] and [overlay] put the fields of a struct one
    after another and those of a union on top of each other, from bit position [pos] and
    alignment [al] (bytes) on, and give the placed fields, the end and the alignment. *)
Fixpoint size_align (T : table) (t : ctype) : option (N * N) :=
  match t with
  | CVoid | CFun _ _ _ => None
  | CInt k => Some (ikind_size k, ikind_size k)
  | CRef k name => find T k name
  | CPtr _ => Some (8, 8)
  | CArr t n => '(s, a) ← size_align T t; Some (n * s, a)
  | CEnum es => Some (enum_size es, enum_size es)
  | CComp Struct packed fs =>
      '(_, pos, al) ← place T packed fs 0 1; Some (round_up pos (8 * al) / 8, al)
  | CComp Union packed fs =>
      '(_, pos, al) ← overlay T packed fs 0 1; Some (round_up pos (8 * al) / 8, al)
  end
with place (T : table) (packed : bool) (fs : fields) (pos al : N)
    : option (list placed * N * N) :=
  match fs with
  | FNil => Some ([], pos, al)
  | FCons name t None fs =>
      '(s, a) ← size_align T t;
      let a := if packed then 1 else a in
      let off := round_up pos (8 * a) in
      '(ps, pos, al) ← place T packed fs (off + 8 * s) (N.max al a);
      Some ({| pl_name := name; pl_off := off; pl_width := 8 * s; pl_align := 8 * a |} :: ps,
            pos, al)
  | FCons name t (Some w) fs =>
      '(s, a) ← size_align T t;
      if w =? 0 then place T packed fs (round_up pos (8 * s)) al
      else
        let off := bit_start packed pos s w in
        let al := if packed || String.eqb name "" then al else N.max al a in
        '(ps, pos, al) ← place T packed fs (off + w) al;
        Some ({| pl_name := name; pl_off := off; pl_width := w; pl_align := 1 |} :: ps, pos, al)
  end
with overlay (T : table) (packed : bool) (fs : fields) (pos al : N)
    : option (list placed * N * N) :=
  match fs with
  | FNil => Some ([], pos, al)
  | FCons name t w fs =>
      '(s, a) ← size_align T t;
      let a := if packed then 1 else a in
      let width := match w with Some w => w | None => 8 * s end in
      '(ps, pos, al) ← overlay T packed fs (N.max pos width) (N.max al a);
      Some ({| pl_name := name; pl_off := 0; pl_width := width;
               pl_align := match w with Some _ => 1 | None => 8 * a end |} :: ps, pos, al)
  end.

(** The layout of a struct or union: placed fields, size and alignment in bytes. *)
Definition comp_layout (T : table) (u : su) (packed : bool) (fs : fields)
    : option (list placed * N * N) :=
  '(ps, pos, al) ← match u with
                   | Struct => place T packed fs 0 1
                   | Union => overlay T packed fs 0 1
                   end;
  Some (ps, round_up pos (8 * al) / 8, al).

(** ** A header file: one declaration after another *)

Definition decl_key (d : decl) : tag * string :=
  match d with
  | DTypedef name _ => (TTypedef, name)
  | DComp Struct name _ _ => (TStruct, name)
  | DComp Union name _ _ => (TUnion, name)
  | DEnum name _ _ => (TEnum, name)
  end.

(** Typedefs of functions and of [void] have no size; they are only used behind
    pointers. *)
Definition decl_size (T : table) (d : decl) : option (option (N * N)) :=
  match d with
  | DTypedef _ CVoid | DTypedef _ (CFun _ _ _) => Some None
  | DTypedef _ t => sa ← size_align T t; Some (Some sa)
  | DComp u _ packed fs =>
      sa ← size_align T (CComp u packed (to_fields fs)); Some (Some sa)
  | DEnum _ byte_mode es =>
      let s := if byte_mode : bool then 1 else enum_size es in Some (Some (s, s))
  end.

Fixpoint layout_decls (T : table) (ds : list decl) : option table :=
  match ds with
  | [] => Some T
  | d :: ds =>
      sa ← decl_size T d;
      layout_decls (match sa with Some sa => (decl_key d, sa) :: T | None => T end) ds
  end.

(** [sizeof] and [offsetof] for a declared struct or union; a name inside an unnamed
    member is found through it. *)
Fixpoint lookup_decl (ds : list decl) (k : tag) (name : string) : option decl :=
  match ds with
  | [] => None
  | d :: ds =>
      if bool_decide (fst (decl_key d) = k) && String.eqb (snd (decl_key d)) name
      then Some d else lookup_decl ds k name
  end.

Fixpoint field_bits (T : table) (u : su) (packed : bool) (fs : fields) (pos : N)
    (name : string) : option (N * N) :=
  match fs with
  | FNil => None
  | FCons n t w fs' =>
      '(s, a) ← size_align T t;
      let start :=
        match u, w with
        | Union, _ => 0
        | Struct, None => round_up pos (8 * (if packed then 1 else a))
        | Struct, Some w => if w =? 0 then round_up pos (8 * s) else bit_start packed pos s w
        end in
      let width := match w with Some w => w | None => 8 * s end in
      if String.eqb n name then Some (start, width)
      else
        match (match w, t with
               | None, CComp u' p' fs'' =>
                   if String.eqb n "" then field_bits T u' p' fs'' 0 name else None
               | _, _ => None
               end) with
        | Some (o, w) => Some (start + o, w)
        | None =>
            field_bits T u packed fs' (match u with Struct => start + width | Union => 0 end)
              name
        end
  end.

(** Bit offset and width of a member of a declared struct or union. *)
Definition member (T : table) (ds : list decl) (k : tag) (name f : string)
    : option (N * N) :=
  match lookup_decl ds k name with
  | Some (DComp u _ packed fs) => field_bits T u packed (to_fields fs) 0 f
  | _ => None
  end.

(** The value of an enumerator. *)
Fixpoint enumerator (es : list (string * Z)) (name : string) : option Z :=
  match es with
  | [] => None
  | (n, v) :: es => if String.eqb n name then Some v else enumerator es name
  end.

(** ** Rounding *)

Lemma round_up_ge x a : x <= round_up x a.
Proof.
  unfold round_up. destruct (N.eqb_spec a 0) as [|Ha]; [lia|].
  pose proof (N.div_mod (x + (a - 1)) a Ha). pose proof (N.mod_lt (x + (a - 1)) a Ha). lia.
Qed.

Lemma round_up_lt x a : a <> 0 -> round_up x a < x + a.
Proof.
  intros Ha. unfold round_up. rewrite (proj2 (N.eqb_neq _ _) Ha).
  pose proof (N.div_mod (x + (a - 1)) a Ha).
  pose proof (N.le_0_l ((x + (a - 1)) mod a)). lia.
Qed.

Lemma round_up_mod x a : a <> 0 -> round_up x a mod a = 0.
Proof.
  intros Ha. unfold round_up. rewrite (proj2 (N.eqb_neq _ _) Ha). by apply N.Div0.mod_mul.
Qed.

Lemma bit_start_ge packed pos s w : pos <= bit_start packed pos s w.
Proof.
  unfold bit_start. destruct packed; [done|]. destruct (_ <? _); [apply round_up_ge|done].
Qed.

#[local] Hint Resolve round_up_ge bit_start_ge N.le_max_l : core.

(** ** Every layout is sound *)

(** Declared alignments are positive. *)
Definition wf_table (T : table) : Prop := Forall (fun e => snd (snd e) <> 0) T.

Lemma find_align T k name s a : wf_table T -> find T k name = Some (s, a) -> a <> 0.
Proof.
  induction 1 as [|[[k' n'] [s' a']] T Ha _ IH]; simpl; [done|].
  destruct (_ && _); [by intros [= <- <-]|done].
Qed.

(** Fields one after another: in order, apart, aligned and within the bounds. *)
Definition place_ok (pos al : N) (r : list placed * N * N) : Prop :=
  let '(ps, pos', al') := r in
  pos <= pos' /\ al <= al' /\
  Forall (fun p => pos <= pl_off p /\ pl_off p + pl_width p <= pos') ps /\
  Forall (fun p => pl_off p mod pl_align p = 0) ps /\
  StronglySorted (fun p q => pl_off p + pl_width p <= pl_off q) ps.

Definition overlay_ok (pos al : N) (r : list placed * N * N) : Prop :=
  let '(ps, pos', al') := r in
  pos <= pos' /\ al <= al' /\
  Forall (fun p => pl_off p = 0 /\ pl_width p <= pos') ps.

Lemma place_ok_cons pos al p ps pos1 al1 pos' al' :
  pos <= pl_off p -> pl_off p mod pl_align p = 0 -> pl_off p + pl_width p = pos1 -> al <= al1 ->
  place_ok pos1 al1 (ps, pos', al') -> place_ok pos al (p :: ps, pos', al').
Proof.
  intros Hpos Hmod <- Hal (H1 & H2 & H3 & H4 & H5). split_and!; try lia.
  - constructor; [lia|]. eapply Forall_impl; [exact H3|]. simpl. lia.
  - by constructor.
  - constructor; [done|]. eapply Forall_impl; [exact H3|]. simpl. lia.
Qed.

Section Sound.
Context (T : table) (HT : wf_table T).

Lemma size_align_pos t s a : size_align T t = Some (s, a) -> a <> 0
with place_sound packed fs pos al r : place T packed fs pos al = Some r -> place_ok pos al r
with overlay_sound packed fs pos al r :
  overlay T packed fs pos al = Some r -> overlay_ok pos al r.
Proof.
  - destruct t as [|k|k name|t|t n|ret args v|es|[|] packed fs]; cbn [size_align].
    + done.
    + intros [= <- <-]. by destruct k.
    + by apply find_align.
    + by intros [= <- <-].
    + destruct (size_align T t) as [[s' a']|] eqn:Ht; simpl; [|done].
      intros [= <- <-]. by eapply size_align_pos.
    + done.
    + intros [= <- <-]. unfold enum_size. by destruct (forallb _ _).
    + destruct (place T packed fs 0 1) as [[[ps pos] al]|] eqn:Hp; simpl; [|done].
      intros [= <- <-]. apply place_sound in Hp as (_ & ? & _). lia.
    + destruct (overlay T packed fs 0 1) as [[[ps pos] al]|] eqn:Hp; simpl; [|done].
      intros [= <- <-]. apply overlay_sound in Hp as (_ & ? & _). lia.
  - destruct fs as [|name t [w|] fs]; cbn [place].
    + intros [= <-]. split_and!; try done; constructor.
    + destruct (size_align T t) as [[s a]|] eqn:Ht; cbn [mbind option_bind]; [|done].
      destruct (w =? 0).
      * intros Hp. apply place_sound in Hp. destruct r as [[ps pos'] al'].
        destruct Hp as (H1 & H2 & H3 & H4 & H5). pose proof (round_up_ge pos (8 * s)).
        split_and!; try done; [lia|]. eapply Forall_impl; [exact H3|]. simpl. lia.
      * destruct (place _ _ _ _ _) as [[[ps pos'] al']|] eqn:Hp; cbn [mbind option_bind]; [|done].
        intros [= <-]. apply place_sound in Hp.
        eapply place_ok_cons; [..|exact Hp]; cbn; auto using N.mod_1_r.
        destruct (_ || _); [lia|auto].
    + destruct (size_align T t) as [[s a]|] eqn:Ht; cbn [mbind option_bind]; [|done].
      apply size_align_pos in Ht.
      destruct (place _ _ _ _ _) as [[[ps pos'] al']|] eqn:Hp; cbn [mbind option_bind]; [|done].
      intros [= <-]. apply place_sound in Hp.
      eapply place_ok_cons; [..|exact Hp]; cbn; auto. apply round_up_mod. destruct packed; lia.
  - destruct fs as [|name t w fs]; cbn [overlay].
    + intros [= <-]. split_and!; try done.
    + destruct (size_align T t) as [[s a]|] eqn:Ht; cbn [mbind option_bind]; [|done].
      destruct (overlay _ _ _ _ _) as [[[ps pos'] al']|] eqn:Hp; cbn [mbind option_bind]; [|done].
      intros [= <-]. apply overlay_sound in Hp as (H1 & H2 & H3).
      split_and!; [lia|lia|]. constructor; [|done]. simpl. split; [done|lia].
Qed.
End Sound.

(** The tables a header file builds are well formed. *)
Lemma decl_size_align T d s a :
  wf_table T -> decl_size T d = Some (Some (s, a)) -> a <> 0.
Proof.
  intros HT Hd. destruct d as [n t|u n p fs|n b es]; cbn [decl_size] in Hd.
  - assert (size_align T t = Some (s, a)) as Ht; [|by eapply size_align_pos].
    destruct (size_align T t) as [sa|]; destruct t; cbn in Hd; congruence.
  - destruct (size_align _ _) as [sa|] eqn:Ht; cbn in Hd; [|done].
    injection Hd as ->. by eapply size_align_pos.
  - injection Hd as <- <-. destruct b; [done|]. unfold enum_size. by destruct (forallb _ _).
Qed.

Lemma layout_decls_wf T ds T' : wf_table T -> layout_decls T ds = Some T' -> wf_table T'.
Proof.
  revert T. induction ds as [|d ds IH]; intros T HT; simpl; [by intros [= <-]|].
  destruct (decl_size T d) as [sa|] eqn:Hd; simpl; [|done]. apply IH.
  destruct sa as [[s a]|]; [|done]. constructor; [|done]. by eapply decl_size_align.
Qed.

(** ** Members found by name, at any depth, lie inside their struct or union *)

(** The placement of the fields of [u], from [pos] on. *)
Definition run (T : table) (u : su) (packed : bool) (fs : fields) (pos al : N)
    : option (list placed * N * N) :=
  match u with Struct => place T packed fs pos al | Union => overlay T packed fs pos al end.

Lemma size_align_comp T u packed fs :
  size_align T (CComp u packed fs) =
  ('(_, pos, al) ← run T u packed fs 0 1; Some (round_up pos (8 * al) / 8, al)).
Proof. by destruct u. Qed.

Lemma round_up_bytes pos al : al <> 0 -> pos <= 8 * (round_up pos (8 * al) / 8).
Proof.
  intros Ha. etrans; [apply (round_up_ge pos (8 * al))|].
  pose proof (round_up_mod pos (8 * al) ltac:(lia)) as Hm.
  apply N.Lcm0.mod_divide in Hm as [q Hq]. rewrite Hq.
  replace (q * (8 * al)) with (q * al * 8) by lia. rewrite N.div_mul by done. lia.
Qed.

Section Members.
Context (T : table) (HT : wf_table T).

(** The end of the placement bounds every member. *)
Definition inside (fs : fields) : Prop :=
  forall u packed pos al r name o w,
    run T u packed fs pos al = Some r ->
    field_bits T u packed fs (match u with Struct => pos | Union => 0 end) name = Some (o, w) ->
    o + w <= snd (fst r).

Lemma run_end u packed fs pos al r :
  run T u packed fs pos al = Some r -> pos <= snd (fst r) /\ al <= snd r.
Proof.
  destruct r as [[ps pos'] al'], u; cbn [run].
  - intros Hr%place_sound; [|done]. split; apply Hr.
  - intros Hr%overlay_sound; [|done]. split; apply Hr.
Qed.

Lemma inside_comp u packed fs name o w s a :
  inside fs -> size_align T (CComp u packed fs) = Some (s, a) ->
  field_bits T u packed fs 0 name = Some (o, w) -> o + w <= 8 * s.
Proof.
  intros Hin Hs Hf. rewrite size_align_comp in Hs.
  destruct (run T u packed fs 0 1) as [[[ps pos] al]|] eqn:Hr; cbn in Hs; [|done].
  injection Hs as <- <-. pose proof (run_end _ _ _ _ _ _ Hr) as [_ Hal]. cbn in Hal.
  pose proof (round_up_bytes pos al ltac:(lia)).
  enough (o + w <= pos) by lia.
  eapply (Hin u packed 0 1 (ps, pos, al)); [exact Hr|]. by destruct u.
Qed.

(** Where a field starts, its width, and the end of the placement of the rest. *)
Lemma run_cons u packed n t w fs pos al r :
  run T u packed (FCons n t w fs) pos al = Some r ->
  exists s a al1 r',
    size_align T t = Some (s, a) /\
    let start := match u, w with
                 | Union, _ => 0
                 | Struct, None => round_up pos (8 * (if packed then 1 else a))
                 | Struct, Some w =>
                     if w =? 0 then round_up pos (8 * s) else bit_start packed pos s w
                 end in
    let width := match w with Some w => w | None => 8 * s end in
    run T u packed fs (match u with Struct => start + width | Union => N.max pos width end) al1
      = Some r' /\
    snd (fst r) = snd (fst r').
Proof.
  destruct u; cbn [run place overlay].
  - destruct w as [w|].
    + destruct (size_align T t) as [[s a]|]; cbn [mbind option_bind]; [|done].
      destruct (N.eqb_spec w 0) as [->|].
      * intros Hr. exists s, a, al, r. by rewrite N.add_0_r.
      * destruct (place _ _ _ _ _) as [[[ps pos'] al']|] eqn:Hp; cbn [mbind option_bind]; [|done].
        intros [= <-]. eauto 10.
    + destruct (size_align T t) as [[s a]|]; cbn [mbind option_bind]; [|done].
      destruct (place _ _ _ _ _) as [[[ps pos'] al']|] eqn:Hp; cbn [mbind option_bind]; [|done].
      intros [= <-]. eauto 10.
  - destruct (size_align T t) as [[s a]|]; cbn [mbind option_bind]; [|done].
    destruct (overlay _ _ _ _ _) as [[[ps pos'] al']|] eqn:Hp; cbn [mbind option_bind]; [|done].
    intros [= <-]. eauto 10.
Qed.

(** Every member of a field list is inside. *)
Lemma fields_inside fs : inside fs.
Proof.
  apply (fields_ctype_ind
    (fun t => forall u packed fs, t = CComp u packed fs -> inside fs) inside); try done.
  { intros u packed fs' Hin u' packed' fs'' [= _ _ <-]. exact Hin. }
  intros n t Ht w fs' IH u packed pos al r name o wd Hr Hf.
  apply run_cons in Hr as (s & a & al1 & r' & Hs & Hr & Hend). cbn [field_bits] in Hf.
  rewrite Hs in Hf. cbn [mbind option_bind] in Hf.
  rewrite Hend. pose proof (run_end _ _ _ _ _ _ Hr) as [Hle _].
  destruct (String.eqb n name).
  { injection Hf as <- <-. destruct u; [exact Hle|]. lia. }
  destruct (match w, t with None, CComp _ _ _ => _ | _, _ => None end) as [[o' w']|] eqn:Hin.
  - destruct w; [done|]. destruct t as [| | | | | | |u' p' fs'']; try done.
    destruct (String.eqb n ""); [|done]. injection Hf as <- <-.
    pose proof (inside_comp _ _ _ _ _ _ _ _ (Ht _ _ _ eq_refl) Hs Hin). destruct u; lia.
  - eapply (IH u packed); [exact Hr|]. destruct u; exact Hf.
Qed.

Lemma member_inside u packed fs name o w s a :
  size_align T (CComp u packed fs) = Some (s, a) ->
  field_bits T u packed fs 0 name = Some (o, w) -> o + w <= 8 * s.
Proof. by apply inside_comp, fields_inside. Qed.
End Members.
