(* ===== verification/Layout.v ===== *)
(** * Layouts of header files

    What the placement of [CTypes] gives for a whole header file: declaring more types does
    not move the fields of the earlier ones, every declared struct or union has its fields
    aligned, apart and inside, members reached through unnamed structs and unions included,
    and for plain fields the placement is the one [Types] uses for the structs of the maps. *)

From Stdlib Require Import Sorting.Sorted.
From S2P Require Import Prelude Types CTypes.

Open Scope N_scope.

(** ** More declarations keep the layout *)

Definition extends (T T' : table) : Prop :=
  forall k name sa, find T k name = Some sa -> find T' k name = Some sa.

Lemma extends_refl T : extends T T.
Proof. by intros k name sa. Qed.

Lemma extends_trans T1 T2 T3 : extends T1 T2 -> extends T2 T3 -> extends T1 T3.
Proof. unfold extends. eauto. Qed.

Section Mono.
Context (T T' : table) (HT : extends T T').

Lemma size_align_mono t sa : size_align T t = Some sa -> size_align T' t = Some sa
with place_mono packed fs pos al r :
  place T packed fs pos al = Some r -> place T' packed fs pos al = Some r
with overlay_mono packed fs pos al r :
  overlay T packed fs pos al = Some r -> overlay T' packed fs pos al = Some r.
Proof.
  - destruct t as [|k|k name|t|t n|ret args v|es|[|] packed fs]; cbn [size_align]; try done.
    + apply HT.
    + destruct (size_align T t) as [[s a]|] eqn:Ht; cbn [mbind option_bind]; [|done].
      by rewrite (size_align_mono _ _ Ht).
    + destruct (place T packed fs 0 1) as [r|] eqn:Hp; cbn [mbind option_bind]; [|done].
      by rewrite (place_mono _ _ _ _ _ Hp).
    + destruct (overlay T packed fs 0 1) as [r|] eqn:Hp; cbn [mbind option_bind]; [|done].
      by rewrite (overlay_mono _ _ _ _ _ Hp).
  - destruct fs as [|name t [w|] fs]; cbn [place]; [done| |];
      (destruct (size_align T t) as [[s a]|] eqn:Ht; cbn [mbind option_bind]; [|done];
       rewrite (size_align_mono _ _ Ht); cbn [mbind option_bind]).
    + destruct (w =? 0); [apply place_mono|].
      destruct (place T _ _ _ _) as [q|] eqn:Hp; cbn [mbind option_bind]; [|done].
      by rewrite (place_mono _ _ _ _ _ Hp).
    + destruct (place T _ _ _ _) as [q|] eqn:Hp; cbn [mbind option_bind]; [|done].
      by rewrite (place_mono _ _ _ _ _ Hp).
  - destruct fs as [|name t w fs]; cbn [overlay]; [done|].
    destruct (size_align T t) as [[s a]|] eqn:Ht; cbn [mbind option_bind]; [|done].
    rewrite (size_align_mono _ _ Ht); cbn [mbind option_bind].
    destruct (overlay T _ _ _ _) as [q|] eqn:Hp; cbn [mbind option_bind]; [|done].
    by rewrite (overlay_mono _ _ _ _ _ Hp).
Qed.
End Mono.

(** ** The table of a header file *)

Lemma find_head T k name sa : find ((k, name, sa) :: T) k name = Some sa.
Proof. simpl. by rewrite bool_decide_true, String.eqb_refl. Qed.

Lemma find_in T k name sa : find T k name = Some sa -> In (k, name) (map fst T).
Proof.
  induction T as [|[[k' n'] sa'] T IH]; simpl; [done|].
  destruct (bool_decide (k = k')) eqn:Hk; simpl; [|auto].
  apply bool_decide_eq_true in Hk as ->.
  destruct (String.eqb_spec name n') as [->|]; auto.
Qed.

Lemma extends_cons T k name sa :
  ~ In (k, name) (map fst T) -> extends T ((k, name, sa) :: T).
Proof.
  intros Hnew k' n' sa' Hf. simpl.
  destruct (bool_decide (k' = k)) eqn:Hk; simpl; [|done].
  apply bool_decide_eq_true in Hk as ->.
  destruct (String.eqb_spec n' name) as [->|]; [|done].
  by apply find_in in Hf.
Qed.

(** Each declaration was sized in a table the final one extends, and its size is the one
    the final table has. *)
Lemma layout_decls_each T ds T' :
  wf_table T -> List.NoDup (map decl_key ds) ->
  (forall d, In d ds -> ~ In (decl_key d) (map fst T)) ->
  layout_decls T ds = Some T' ->
  extends T T' /\
  forall d, In d ds -> exists T0 sa,
    wf_table T0 /\ extends T0 T' /\ decl_size T0 d = Some sa /\
    (forall x, sa = Some x -> find T' (fst (decl_key d)) (snd (decl_key d)) = Some x).
Proof.
  revert T. induction ds as [|d ds IH]; intros T HT Hnd Hnew Hl; simpl in Hl.
  { injection Hl as <-. by split; [apply extends_refl|]. }
  inversion_clear Hnd as [|? ? Hd Hnd'].
  destruct (decl_size T d) as [sa|] eqn:Hs; simpl in Hl; [|done].
  assert (forall d', In d' ds -> decl_key d' <> decl_key d) as Hne.
  { intros d' Hin He. apply Hd. rewrite <- He. by apply in_map. }
  destruct sa as [[s a]|].
  - destruct (decl_key d) as [k n] eqn:Hk.
    assert (extends T ((k, n, (s, a)) :: T)) as Hext.
    { apply extends_cons. rewrite <- Hk. apply Hnew. by left. }
    destruct (IH ((k, n, (s, a)) :: T)) as [Hext' Heach]; [|done| |done|].
    + constructor; [by eapply decl_size_align|done].
    + intros d' Hin [He|He]; [by eapply Hne|by eapply Hnew; [right|]].
    + pose proof (extends_trans _ _ _ Hext Hext'). split; [done|]. intros d' [<-|Hin]; [|auto].
      exists T, (Some (s, a)). split_and!; try done. intros x [= <-]. rewrite Hk.
      apply Hext', find_head.
  - destruct (IH T) as [Hext' Heach]; [done|done| |done|].
    + intros d' Hin. by apply Hnew; right.
    + split; [done|]. intros d' [<-|Hin]; [|auto]. exists T, None. by split_and!.
Qed.

(** The layout of a struct or union: fields inside, aligned, and apart in a struct; the
    size is a multiple of the alignment. *)
Definition sound_layout (u : su) (l : list placed * N * N) : Prop :=
  let '(ps, size, al) := l in
  al <> 0 /\ size mod al = 0 /\
  Forall (fun p => pl_off p + pl_width p <= 8 * size /\ pl_off p mod pl_align p = 0) ps /\
  (u = Struct -> StronglySorted (fun p q => pl_off p + pl_width p <= pl_off q) ps).

Lemma round_up_div pos al : al <> 0 -> (round_up pos (8 * al) / 8) mod al = 0.
Proof.
  intros Ha. pose proof (round_up_mod pos (8 * al) ltac:(lia)) as Hm.
  apply N.Lcm0.mod_divide in Hm as [q ->].
  replace (q * (8 * al)) with (q * al * 8) by lia. rewrite N.div_mul by done.
  by apply N.Div0.mod_mul.
Qed.

Lemma comp_layout_sound T u packed fs l :
  wf_table T -> comp_layout T u packed fs = Some l -> sound_layout u l.
Proof.
  intros HT. unfold comp_layout. fold (run T u packed fs 0 1).
  destruct (run T u packed fs 0 1) as [[[ps pos] al]|] eqn:Hr; cbn; [|done]. intros [= <-].
  pose proof (run_end T HT _ _ _ _ _ _ Hr) as [_ Hal]. cbn in Hal.
  assert (al <> 0) as Ha by lia. pose proof (round_up_bytes pos al Ha).
  split_and!; [done|by apply round_up_div| |].
  - destruct u; cbn in Hr.
    + apply place_sound in Hr as (_ & _ & Hin & Hmod & _); [|done].
      eapply Forall_impl; [apply Forall_and; split; [exact Hin|exact Hmod]|]. simpl. lia.
    + apply overlay_sound in Hr as (_ & _ & Hin); [|done].
      eapply Forall_impl; [exact Hin|]. simpl. intros p [-> ?]. split; [lia|].
      by apply N.Div0.mod_0_l.
  - intros ->. cbn in Hr. apply place_sound in Hr; [|done]. apply Hr.
Qed.

Lemma comp_layout_size T u packed fs s a :
  size_align T (CComp u packed fs) = Some (s, a) <->
  exists ps, comp_layout T u packed fs = Some (ps, s, a).
Proof.
  rewrite size_align_comp. unfold comp_layout. fold (run T u packed fs 0 1).
  destruct (run T u packed fs 0 1) as [[[ps pos] al]|]; cbn; naive_solver.
Qed.

Definition su_tag (u : su) : tag := match u with Struct => TStruct | Union => TUnion end.

(** A header file that lays out, each name declared once. *)
Section Header.
Context (ds : list decl) (T : table).
Context (Hnd : List.NoDup (map decl_key ds)) (Hl : layout_decls [] ds = Some T).

Lemma header_wf : wf_table T.
Proof. by eapply layout_decls_wf; [constructor|exact Hl]. Qed.

Lemma header_comp u n packed fs :
  In (DComp u n packed fs) ds ->
  exists s a, size_align T (CComp u packed (to_fields fs)) = Some (s, a) /\
    find T (su_tag u) n = Some (s, a).
Proof.
  intros Hin. destruct (layout_decls_each [] ds T) as [_ Heach]; [by constructor|done|by auto|done|].
  destruct (Heach _ Hin) as (T0 & sa & HT0 & Hext & Hs & Hf). cbn [decl_size] in Hs.
  destruct (size_align T0 _) as [[s a]|] eqn:Ht; cbn in Hs; [|done]. injection Hs as <-.
  exists s, a. split; [by eapply size_align_mono|].
  specialize (Hf _ eq_refl). by destruct u.
Qed.

Lemma header_comp_layout u n packed fs :
  In (DComp u n packed fs) ds ->
  exists ps size al,
    comp_layout T u packed (to_fields fs) = Some (ps, size, al) /\
    find T (su_tag u) n = Some (size, al) /\
    sound_layout u (ps, size, al).
Proof.
  intros (s & a & Hs & Hf)%header_comp. apply comp_layout_size in Hs as [ps Hps].
  exists ps, s, a. split_and!; try done. by eapply (comp_layout_sound T); [apply header_wf|].
Qed.

Lemma lookup_decl_in k n d : lookup_decl ds k n = Some d -> In d ds /\ decl_key d = (k, n).
Proof.
  clear. induction ds as [|d' ds' IH]; simpl; [done|].
  destruct (bool_decide _) eqn:Hk; simpl; [|naive_solver].
  destruct (String.eqb_spec (snd (decl_key d')) n) as [Hn|]; [|naive_solver].
  intros [= ->]. apply bool_decide_eq_true in Hk. split; [by left|].
  destruct (decl_key d); simpl in *; congruence.
Qed.

Lemma header_member k n f o w :
  member T ds k n f = Some (o, w) ->
  exists s a, find T k n = Some (s, a) /\ o + w <= 8 * s.
Proof.
  unfold member. destruct (lookup_decl ds k n) as [[|u n' packed fs|]|] eqn:Hd; try done.
  apply lookup_decl_in in Hd as [Hin Hk]. intros Hf.
  destruct (header_comp _ _ _ _ Hin) as (s & a & Hs & Hsz).
  exists s, a. split; [by destruct u; injection Hk as <- <-|].
  eapply member_inside; [apply header_wf|exact Hs|exact Hf].
Qed.
End Header.

(** ** Plain fields: the placement [Types.c_layout] *)

Lemma multiple_unique x m y z :
  y mod m = 0 -> z mod m = 0 -> x <= y < x + m -> x <= z < x + m -> y = z.
Proof.
  intros [p ->]%N.Lcm0.mod_divide [q ->]%N.Lcm0.mod_divide Hp Hq.
  enough (p = q) by congruence. nia.
Qed.

Lemma align_up_spec off a :
  a <> 0%nat -> (off <= align_up off a < off + a)%nat /\ (align_up off a mod a = 0)%nat.
Proof.
  intros Ha. unfold align_up. pose proof (Nat.mod_upper_bound off a Ha).
  pose proof (Nat.div_mod_eq off a) as Hd.
  destruct (Nat.eq_dec (off mod a)%nat 0%nat) as [Hz|Hz].
  - rewrite Hz, Nat.sub_0_r, Nat.Div0.mod_same, Nat.add_0_r. lia.
  - rewrite (Nat.mod_small (a - off mod a)%nat) by lia. split; [lia|].
    replace (off + (a - off mod a))%nat with ((off / a + 1) * a)%nat by nia.
    apply Nat.Div0.mod_mul.
Qed.

Lemma round_up_align off a :
  a <> 0%nat -> round_up (8 * N.of_nat off) (8 * N.of_nat a) = 8 * N.of_nat (align_up off a).
Proof.
  intros Ha. destruct (align_up_spec off a Ha) as [Hr Hm].
  apply (multiple_unique (8 * N.of_nat off) (8 * N.of_nat a)).
  - apply round_up_mod. lia.
  - rewrite N.Div0.mul_mod_distr_l. apply N.eq_mul_0. right.
    rewrite <- Nnat.Nat2N.inj_mod, Hm. done.
  - split; [apply round_up_ge|apply round_up_lt; lia].
  - lia.
Qed.

Section Plain.
Context (T : table).

(** Fields without bit-fields, with their sizes and alignments. *)
Definition plain (l : list (string * ctype)) : list (string * ctype * option N) :=
  map (fun f => fld (fst f) (snd f)) l.

Definition plain_field (f : string * ctype) (sa : nat * nat) : Prop :=
  size_align T (snd f) = Some (N.of_nat (fst sa), N.of_nat (snd sa)) /\ snd sa <> 0%nat.

Definition max_align (fs : list (nat * nat)) : nat := foldr Nat.max 1%nat (map snd fs).

Lemma place_plain l fs off al :
  Forall2 plain_field l fs ->
  exists ps,
    place T false (to_fields (plain l)) (8 * N.of_nat off) al
      = Some (ps, 8 * N.of_nat (snd (c_offsets off fs)),
              foldl N.max al (map (fun sa => N.of_nat (snd sa)) fs)) /\
    map pl_off ps = map (fun o => 8 * N.of_nat o) (fst (c_offsets off fs)) /\
    map pl_width ps = map (fun sa => 8 * N.of_nat (fst sa)) fs.
Proof.
  intros Hl. revert off al.
  induction Hl as [|[n t] [sz a] l fs [Hs Ha] Hl IH]; intros off al; [by exists []|].
  destruct (IH (align_up off a + sz)%nat (N.max al (N.of_nat a))) as (ps & Hp & Ho & Hw).
  cbn [plain map to_fields fst snd fld place c_offsets foldl] in *.
  rewrite Hs. cbn [mbind option_bind]. rewrite round_up_align by done.
  replace (8 * N.of_nat (align_up off a) + 8 * N.of_nat sz)
    with (8 * N.of_nat (align_up off a + sz)) by lia.
  fold (plain l). rewrite Hp. cbn [mbind option_bind].
  destruct (c_offsets (align_up off a + sz) fs) as [os e] eqn:Hc. cbn [fst snd] in *.
  eexists. split; [reflexivity|]. cbn. by rewrite Ho, Hw.
Qed.

Lemma foldl_max_align al fs :
  foldl N.max al (map (fun sa : nat * nat => N.of_nat (snd sa)) fs)
  = N.max al (N.of_nat (foldr Nat.max 0%nat (map snd fs))).
Proof.
  revert al. induction fs as [|[s a] fs IH]; intros al; simpl; [lia|]. rewrite IH. lia.
Qed.

Lemma max_align_max fs :
  N.of_nat (max_align fs) = N.max 1 (N.of_nat (foldr Nat.max 0%nat (map snd fs))).
Proof. unfold max_align. induction fs as [|[s a] fs IH]; simpl in *; lia. Qed.

Lemma comp_layout_plain l fs :
  Forall2 plain_field l fs ->
  exists ps,
    comp_layout T Struct false (to_fields (plain l))
      = Some (ps, N.of_nat (snd (c_layout fs)), N.of_nat (max_align fs)) /\
    map pl_off ps = map (fun o => 8 * N.of_nat o) (fst (c_layout fs)) /\
    map pl_width ps = map (fun sa => 8 * N.of_nat (fst sa)) fs.
Proof.
  intros Hl. destruct (place_plain l fs 0 1 Hl) as (ps & Hp & Ho & Hw).
  exists ps. unfold comp_layout, c_layout. fold (max_align fs).
  rewrite foldl_max_align, <- max_align_max in Hp.
  change (8 * N.of_nat 0) with 0 in Hp. rewrite Hp. cbn [mbind option_bind].
  destruct (c_offsets 0 fs) as [os e]. cbn [fst snd] in *. split_and!; try done.
  rewrite round_up_align.
  - by rewrite N.mul_comm, N.div_mul.
  - pose proof (max_align_max fs). lia.
Qed.
End Plain.
