(* ===== verification/KernelBase.v ===== *)
(** * Kernel declarations: scalars and synchronisation (kernelspace/vmlinux.h)

    The typedefs of the fixed-width integers and the small structs (lists, locks, work,
    timers, reference counts) the other declarations contain by value.  Qualifiers do not
    affect the layout and are left out. *)

From S2P Require Import Prelude Types CTypes.

Open Scope N_scope.
Open Scope string_scope.

Definition typedef___s8 : decl := DTypedef "__s8" schar.

Definition typedef___u8 : decl := DTypedef "__u8" uchar.

Definition typedef___s16 : decl := DTypedef "__s16" short.

Definition typedef___u16 : decl := DTypedef "__u16" ushort.

Definition typedef___s32 : decl := DTypedef "__s32" int.

Definition typedef___u32 : decl := DTypedef "__u32" uint.

Definition typedef___s64 : decl := DTypedef "__s64" llong.

Definition typedef___u64 : decl := DTypedef "__u64" ullong.

Definition typedef_s8 : decl := DTypedef "s8" (ty "__s8").

Definition typedef_u8 : decl := DTypedef "u8" (ty "__u8").

Definition typedef_s16 : decl := DTypedef "s16" (ty "__s16").

Definition typedef_u16 : decl := DTypedef "u16" (ty "__u16").

Definition typedef_s32 : decl := DTypedef "s32" (ty "__s32").

Definition typedef_u32 : decl := DTypedef "u32" (ty "__u32").

Definition typedef_s64 : decl := DTypedef "s64" (ty "__s64").

Definition typedef_u64 : decl := DTypedef "u64" (ty "__u64").

Definition typedef___kernel_ulong_t : decl := DTypedef "__kernel_ulong_t" ulong.

Definition typedef___kernel_size_t : decl := DTypedef "__kernel_size_t" (ty "__kernel_ulong_t").

Definition typedef_bool : decl := DTypedef "bool" bool_.

Definition typedef_size_t : decl := DTypedef "size_t" (ty "__kernel_size_t").

Definition typedef_ktime_t : decl := DTypedef "ktime_t" (ty "s64").

Definition typedef_gfp_t : decl := DTypedef "gfp_t" uint.

Definition typedef_atomic_t : decl := DTypedef "atomic_t" (anon_struct [
    fld "counter" int
  ]).

Definition typedef_atomic64_t : decl := DTypedef "atomic64_t" (anon_struct [
    fld "counter" (ty "s64")
  ]).

Definition struct_list_head : decl := DComp Struct "list_head" false [
  fld "next" (ptr (struct_ "list_head"));
  fld "prev" (ptr (struct_ "list_head"))
].

Definition struct_hlist_head : decl := DComp Struct "hlist_head" false [
  fld "first" (ptr (struct_ "hlist_node"))
].

Definition struct_hlist_node : decl := DComp Struct "hlist_node" false [
  fld "next" (ptr (struct_ "hlist_node"));
  fld "pprev" (ptr (ptr (struct_ "hlist_node")))
].

Definition struct_callback_head : decl := DComp Struct "callback_head" false [
  fld "next" (ptr (struct_ "callback_head"));
  fld "func" (ptr (fn void [ptr (struct_ "callback_head")]))
].

Definition struct_refcount_struct : decl := DComp Struct "refcount_struct" false [
  fld "refs" (ty "atomic_t")
].

Definition typedef_refcount_t : decl := DTypedef "refcount_t" (struct_ "refcount_struct").

Definition struct_llist_node : decl := DComp Struct "llist_node" false [
  fld "next" (ptr (struct_ "llist_node"))
].

Definition struct_rb_node : decl := DComp Struct "rb_node" false [
  fld "__rb_parent_color" ulong;
  fld "rb_right" (ptr (struct_ "rb_node"));
  fld "rb_left" (ptr (struct_ "rb_node"))
].

Definition struct_timerqueue_node : decl := DComp Struct "timerqueue_node" false [
  fld "node" (struct_ "rb_node");
  fld "expires" (ty "ktime_t")
].

Definition struct_hrtimer : decl := DComp Struct "hrtimer" false [
  fld "node" (struct_ "timerqueue_node");
  fld "_softexpires" (ty "ktime_t");
  fld "function" (ptr (fn (enum_ "hrtimer_restart") [ptr (struct_ "hrtimer")]));
  fld "base" (ptr (struct_ "hrtimer_clock_base"));
  fld "state" (ty "u8");
  fld "is_rel" (ty "u8");
  fld "is_soft" (ty "u8");
  fld "is_hard" (ty "u8")
].

Definition typedef_atomic_long_t : decl := DTypedef "atomic_long_t" (ty "atomic64_t").

Definition struct_qspinlock : decl := DComp Struct "qspinlock" false [
  unnamed (anon_union [
    fld "val" (ty "atomic_t");
    unnamed (anon_struct [
      fld "locked" (ty "u8");
      fld "pending" (ty "u8")
    ]);
    unnamed (anon_struct [
      fld "locked_pending" (ty "u16");
      fld "tail" (ty "u16")
    ])
  ])
].

Definition typedef_arch_spinlock_t : decl := DTypedef "arch_spinlock_t" (struct_ "qspinlock").

Definition struct_raw_spinlock : decl := DComp Struct "raw_spinlock" false [
  fld "raw_lock" (ty "arch_spinlock_t")
].

Definition typedef_raw_spinlock_t : decl := DTypedef "raw_spinlock_t" (struct_ "raw_spinlock").

Definition struct_rb_root : decl := DComp Struct "rb_root" false [
  fld "rb_node" (ptr (struct_ "rb_node"))
].

Definition struct_optimistic_spin_queue : decl := DComp Struct "optimistic_spin_queue" false [
  fld "tail" (ty "atomic_t")
].

Definition struct_mutex : decl := DComp Struct "mutex" false [
  fld "owner" (ty "atomic_long_t");
  fld "wait_lock" (ty "raw_spinlock_t");
  fld "osq" (struct_ "optimistic_spin_queue");
  fld "wait_list" (struct_ "list_head")
].

Definition struct_spinlock : decl := DComp Struct "spinlock" false [
  unnamed (anon_union [
    fld "rlock" (struct_ "raw_spinlock")
  ])
].

Definition typedef_spinlock_t : decl := DTypedef "spinlock_t" (struct_ "spinlock").

Definition struct_seqcount : decl := DComp Struct "seqcount" false [
  fld "sequence" uint
].

Definition struct_timer_list : decl := DComp Struct "timer_list" false [
  fld "entry" (struct_ "hlist_node");
  fld "expires" ulong;
  fld "function" (ptr (fn void [ptr (struct_ "timer_list")]));
  fld "flags" (ty "u32")
].

Definition struct_kref : decl := DComp Struct "kref" false [
  fld "refcount" (ty "refcount_t")
].

Definition struct_rw_semaphore : decl := DComp Struct "rw_semaphore" false [
  fld "count" (ty "atomic_long_t");
  fld "owner" (ty "atomic_long_t");
  fld "osq" (struct_ "optimistic_spin_queue");
  fld "wait_lock" (ty "raw_spinlock_t");
  fld "wait_list" (struct_ "list_head")
].

Definition typedef_work_func_t : decl := DTypedef "work_func_t" (ptr (fn void [ptr (struct_
    "work_struct")])).

Definition struct_work_struct : decl := DComp Struct "work_struct" false [
  fld "data" (ty "atomic_long_t");
  fld "entry" (struct_ "list_head");
  fld "func" (ty "work_func_t")
].

Definition struct_wait_queue_head : decl := DComp Struct "wait_queue_head" false [
  fld "lock" (ty "spinlock_t");
  fld "head" (struct_ "list_head")
].

Definition struct_percpu_ref : decl := DComp Struct "percpu_ref" false [
  fld "percpu_count_ptr" ulong;
  fld "data" (ptr (struct_ "percpu_ref_data"))
].

Definition struct_rcu_work : decl := DComp Struct "rcu_work" false [
  fld "work" (struct_ "work_struct");
  fld "rcu" (struct_ "callback_head");
  fld "wq" (ptr (struct_ "workqueue_struct"))
].

Definition struct_swait_queue_head : decl := DComp Struct "swait_queue_head" false [
  fld "lock" (ty "raw_spinlock_t");
  fld "task_list" (struct_ "list_head")
].

Definition struct_completion : decl := DComp Struct "completion" false [
  fld "done" uint;
  fld "wait" (struct_ "swait_queue_head")
].

Definition struct_delayed_work : decl := DComp Struct "delayed_work" false [
  fld "work" (struct_ "work_struct");
  fld "timer" (struct_ "timer_list");
  fld "wq" (ptr (struct_ "workqueue_struct"));
  fld "cpu" int
].

Definition typedef___be16 : decl := DTypedef "__be16" (ty "__u16").

Definition typedef___be32 : decl := DTypedef "__be32" (ty "__u32").

Definition typedef___sum16 : decl := DTypedef "__sum16" (ty "__u16").

(** The declarations of this part, in the order of the header. *)
Definition base_decls : list decl := [typedef___s8; typedef___u8; typedef___s16; typedef___u16;
    typedef___s32; typedef___u32; typedef___s64; typedef___u64; typedef_s8; typedef_u8;
    typedef_s16; typedef_u16; typedef_s32; typedef_u32; typedef_s64; typedef_u64;
    typedef___kernel_ulong_t; typedef___kernel_size_t; typedef_bool; typedef_size_t;
    typedef_ktime_t; typedef_gfp_t; typedef_atomic_t; typedef_atomic64_t; struct_list_head;
    struct_hlist_head; struct_hlist_node; struct_callback_head; struct_refcount_struct;
    typedef_refcount_t; struct_llist_node; struct_rb_node; struct_timerqueue_node;
    struct_hrtimer; typedef_atomic_long_t; struct_qspinlock; typedef_arch_spinlock_t;
    struct_raw_spinlock; typedef_raw_spinlock_t; struct_rb_root; struct_optimistic_spin_queue;
    struct_mutex; struct_spinlock; typedef_spinlock_t; struct_seqcount; struct_timer_list;
    struct_kref; struct_rw_semaphore; typedef_work_func_t; struct_work_struct;
    struct_wait_queue_head; struct_percpu_ref; struct_rcu_work; struct_swait_queue_head;
    struct_completion; struct_delayed_work; typedef___be16; typedef___be32; typedef___sum16].
