(* ===== verification/KernelUapi.v ===== *)
(** * Kernel declarations: the user-space interface (kernelspace/vmlinux.h)

    The protocol headers the programs parse, the XDP context, the enumerations of the BPF
    system call and the attribute and information records the control plane's library
    passes to it. *)

From S2P Require Import Prelude Types CTypes.

Open Scope N_scope.
Open Scope string_scope.

Definition struct_bpf_insn : decl := DComp Struct "bpf_insn" false [
  fld "code" (ty "__u8");
  bit "dst_reg" (ty "__u8") 4;
  bit "src_reg" (ty "__u8") 4;
  fld "off" (ty "__s16");
  fld "imm" (ty "__s32")
].

Definition enum_bpf_map_type : decl := DEnum "bpf_map_type" false [
  ("BPF_MAP_TYPE_UNSPEC", 0);
  ("BPF_MAP_TYPE_HASH", 1);
  ("BPF_MAP_TYPE_ARRAY", 2);
  ("BPF_MAP_TYPE_PROG_ARRAY", 3);
  ("BPF_MAP_TYPE_PERF_EVENT_ARRAY", 4);
  ("BPF_MAP_TYPE_PERCPU_HASH", 5);
  ("BPF_MAP_TYPE_PERCPU_ARRAY", 6);
  ("BPF_MAP_TYPE_STACK_TRACE", 7);
  ("BPF_MAP_TYPE_CGROUP_ARRAY", 8);
  ("BPF_MAP_TYPE_LRU_HASH", 9);
  ("BPF_MAP_TYPE_LRU_PERCPU_HASH", 10);
  ("BPF_MAP_TYPE_LPM_TRIE", 11);
  ("BPF_MAP_TYPE_ARRAY_OF_MAPS", 12);
  ("BPF_MAP_TYPE_HASH_OF_MAPS", 13);
  ("BPF_MAP_TYPE_DEVMAP", 14);
  ("BPF_MAP_TYPE_SOCKMAP", 15);
  ("BPF_MAP_TYPE_CPUMAP", 16);
  ("BPF_MAP_TYPE_XSKMAP", 17);
  ("BPF_MAP_TYPE_SOCKHASH", 18);
  ("BPF_MAP_TYPE_CGROUP_STORAGE_DEPRECATED", 19);
  ("BPF_MAP_TYPE_CGROUP_STORAGE", 19);
  ("BPF_MAP_TYPE_REUSEPORT_SOCKARRAY", 20);
  ("BPF_MAP_TYPE_PERCPU_CGROUP_STORAGE_DEPRECATED", 21);
  ("BPF_MAP_TYPE_PERCPU_CGROUP_STORAGE", 21);
  ("BPF_MAP_TYPE_QUEUE", 22);
  ("BPF_MAP_TYPE_STACK", 23);
  ("BPF_MAP_TYPE_SK_STORAGE", 24);
  ("BPF_MAP_TYPE_DEVMAP_HASH", 25);
  ("BPF_MAP_TYPE_STRUCT_OPS", 26);
  ("BPF_MAP_TYPE_RINGBUF", 27);
  ("BPF_MAP_TYPE_INODE_STORAGE", 28);
  ("BPF_MAP_TYPE_TASK_STORAGE", 29);
  ("BPF_MAP_TYPE_BLOOM_FILTER", 30);
  ("BPF_MAP_TYPE_USER_RINGBUF", 31);
  ("BPF_MAP_TYPE_CGRP_STORAGE", 32);
  ("BPF_MAP_TYPE_ARENA", 33);
  ("__MAX_BPF_MAP_TYPE", 34)
]%Z.

Definition enum_bpf_prog_type : decl := DEnum "bpf_prog_type" false [
  ("BPF_PROG_TYPE_UNSPEC", 0);
  ("BPF_PROG_TYPE_SOCKET_FILTER", 1);
  ("BPF_PROG_TYPE_KPROBE", 2);
  ("BPF_PROG_TYPE_SCHED_CLS", 3);
  ("BPF_PROG_TYPE_SCHED_ACT", 4);
  ("BPF_PROG_TYPE_TRACEPOINT", 5);
  ("BPF_PROG_TYPE_XDP", 6);
  ("BPF_PROG_TYPE_PERF_EVENT", 7);
  ("BPF_PROG_TYPE_CGROUP_SKB", 8);
  ("BPF_PROG_TYPE_CGROUP_SOCK", 9);
  ("BPF_PROG_TYPE_LWT_IN", 10);
  ("BPF_PROG_TYPE_LWT_OUT", 11);
  ("BPF_PROG_TYPE_LWT_XMIT", 12);
  ("BPF_PROG_TYPE_SOCK_OPS", 13);
  ("BPF_PROG_TYPE_SK_SKB", 14);
  ("BPF_PROG_TYPE_CGROUP_DEVICE", 15);
  ("BPF_PROG_TYPE_SK_MSG", 16);
  ("BPF_PROG_TYPE_RAW_TRACEPOINT", 17);
  ("BPF_PROG_TYPE_CGROUP_SOCK_ADDR", 18);
  ("BPF_PROG_TYPE_LWT_SEG6LOCAL", 19);
  ("BPF_PROG_TYPE_LIRC_MODE2", 20);
  ("BPF_PROG_TYPE_SK_REUSEPORT", 21);
  ("BPF_PROG_TYPE_FLOW_DISSECTOR", 22);
  ("BPF_PROG_TYPE_CGROUP_SYSCTL", 23);
  ("BPF_PROG_TYPE_RAW_TRACEPOINT_WRITABLE", 24);
  ("BPF_PROG_TYPE_CGROUP_SOCKOPT", 25);
  ("BPF_PROG_TYPE_TRACING", 26);
  ("BPF_PROG_TYPE_STRUCT_OPS", 27);
  ("BPF_PROG_TYPE_EXT", 28);
  ("BPF_PROG_TYPE_LSM", 29);
  ("BPF_PROG_TYPE_SK_LOOKUP", 30);
  ("BPF_PROG_TYPE_SYSCALL", 31);
  ("BPF_PROG_TYPE_NETFILTER", 32);
  ("__MAX_BPF_PROG_TYPE", 33)
]%Z.

Definition enum_bpf_attach_type : decl := DEnum "bpf_attach_type" false [
  ("BPF_CGROUP_INET_INGRESS", 0);
  ("BPF_CGROUP_INET_EGRESS", 1);
  ("BPF_CGROUP_INET_SOCK_CREATE", 2);
  ("BPF_CGROUP_SOCK_OPS", 3);
  ("BPF_SK_SKB_STREAM_PARSER", 4);
  ("BPF_SK_SKB_STREAM_VERDICT", 5);
  ("BPF_CGROUP_DEVICE", 6);
  ("BPF_SK_MSG_VERDICT", 7);
  ("BPF_CGROUP_INET4_BIND", 8);
  ("BPF_CGROUP_INET6_BIND", 9);
  ("BPF_CGROUP_INET4_CONNECT", 10);
  ("BPF_CGROUP_INET6_CONNECT", 11);
  ("BPF_CGROUP_INET4_POST_BIND", 12);
  ("BPF_CGROUP_INET6_POST_BIND", 13);
  ("BPF_CGROUP_UDP4_SENDMSG", 14);
  ("BPF_CGROUP_UDP6_SENDMSG", 15);
  ("BPF_LIRC_MODE2", 16);
  ("BPF_FLOW_DISSECTOR", 17);
  ("BPF_CGROUP_SYSCTL", 18);
  ("BPF_CGROUP_UDP4_RECVMSG", 19);
  ("BPF_CGROUP_UDP6_RECVMSG", 20);
  ("BPF_CGROUP_GETSOCKOPT", 21);
  ("BPF_CGROUP_SETSOCKOPT", 22);
  ("BPF_TRACE_RAW_TP", 23);
  ("BPF_TRACE_FENTRY", 24);
  ("BPF_TRACE_FEXIT", 25);
  ("BPF_MODIFY_RETURN", 26);
  ("BPF_LSM_MAC", 27);
  ("BPF_TRACE_ITER", 28);
  ("BPF_CGROUP_INET4_GETPEERNAME", 29);
  ("BPF_CGROUP_INET6_GETPEERNAME", 30);
  ("BPF_CGROUP_INET4_GETSOCKNAME", 31);
  ("BPF_CGROUP_INET6_GETSOCKNAME", 32);
  ("BPF_XDP_DEVMAP", 33);
  ("BPF_CGROUP_INET_SOCK_RELEASE", 34);
  ("BPF_XDP_CPUMAP", 35);
  ("BPF_SK_LOOKUP", 36);
  ("BPF_XDP", 37);
  ("BPF_SK_SKB_VERDICT", 38);
  ("BPF_SK_REUSEPORT_SELECT", 39);
  ("BPF_SK_REUSEPORT_SELECT_OR_MIGRATE", 40);
  ("BPF_PERF_EVENT", 41);
  ("BPF_TRACE_KPROBE_MULTI", 42);
  ("BPF_LSM_CGROUP", 43);
  ("BPF_STRUCT_OPS", 44);
  ("BPF_NETFILTER", 45);
  ("BPF_TCX_INGRESS", 46);
  ("BPF_TCX_EGRESS", 47);
  ("BPF_TRACE_UPROBE_MULTI", 48);
  ("BPF_CGROUP_UNIX_CONNECT", 49);
  ("BPF_CGROUP_UNIX_SENDMSG", 50);
  ("BPF_CGROUP_UNIX_RECVMSG", 51);
  ("BPF_CGROUP_UNIX_GETPEERNAME", 52);
  ("BPF_CGROUP_UNIX_GETSOCKNAME", 53);
  ("BPF_NETKIT_PRIMARY", 54);
  ("BPF_NETKIT_PEER", 55);
  ("BPF_TRACE_KPROBE_SESSION", 56);
  ("BPF_TRACE_UPROBE_SESSION", 57);
  ("__MAX_BPF_ATTACH_TYPE", 58)
]%Z.

Definition enum_bpf_link_type : decl := DEnum "bpf_link_type" false [
  ("BPF_LINK_TYPE_UNSPEC", 0);
  ("BPF_LINK_TYPE_RAW_TRACEPOINT", 1);
  ("BPF_LINK_TYPE_TRACING", 2);
  ("BPF_LINK_TYPE_CGROUP", 3);
  ("BPF_LINK_TYPE_ITER", 4);
  ("BPF_LINK_TYPE_NETNS", 5);
  ("BPF_LINK_TYPE_XDP", 6);
  ("BPF_LINK_TYPE_PERF_EVENT", 7);
  ("BPF_LINK_TYPE_KPROBE_MULTI", 8);
  ("BPF_LINK_TYPE_STRUCT_OPS", 9);
  ("BPF_LINK_TYPE_NETFILTER", 10);
  ("BPF_LINK_TYPE_TCX", 11);
  ("BPF_LINK_TYPE_UPROBE_MULTI", 12);
  ("BPF_LINK_TYPE_NETKIT", 13);
  ("BPF_LINK_TYPE_SOCKMAP", 14);
  ("__MAX_BPF_LINK_TYPE", 15)
]%Z.

Definition union_bpf_attr_fields_1 : list (string * ctype * option N) := [
  unnamed (anon_struct [
    fld "map_type" (ty "__u32");
    fld "key_size" (ty "__u32");
    fld "value_size" (ty "__u32");
    fld "max_entries" (ty "__u32");
    fld "map_flags" (ty "__u32");
    fld "inner_map_fd" (ty "__u32");
    fld "numa_node" (ty "__u32");
    fld "map_name" (arr char 16);
    fld "map_ifindex" (ty "__u32");
    fld "btf_fd" (ty "__u32");
    fld "btf_key_type_id" (ty "__u32");
    fld "btf_value_type_id" (ty "__u32");
    fld "btf_vmlinux_value_type_id" (ty "__u32");
    fld "map_extra" (ty "__u64");
    fld "value_type_btf_obj_fd" (ty "__s32");
    fld "map_token_fd" (ty "__s32");
    fld "excl_prog_hash" (ty "__u64");
    fld "excl_prog_hash_size" (ty "__u32")
  ]);
  unnamed (anon_struct [
    fld "map_fd" (ty "__u32");
    fld "key" (ty "__u64");
    unnamed (anon_union [
      fld "value" (ty "__u64");
      fld "next_key" (ty "__u64")
    ]);
    fld "flags" (ty "__u64")
  ]);
  fld "batch" (anon_struct [
    fld "in_batch" (ty "__u64");
    fld "out_batch" (ty "__u64");
    fld "keys" (ty "__u64");
    fld "values" (ty "__u64");
    fld "count" (ty "__u32");
    fld "map_fd" (ty "__u32");
    fld "elem_flags" (ty "__u64");
    fld "flags" (ty "__u64")
  ]);
  unnamed (anon_struct [
    fld "prog_type" (ty "__u32");
    fld "insn_cnt" (ty "__u32");
    fld "insns" (ty "__u64");
    fld "license" (ty "__u64");
    fld "log_level" (ty "__u32");
    fld "log_size" (ty "__u32");
    fld "log_buf" (ty "__u64");
    fld "kern_version" (ty "__u32");
    fld "prog_flags" (ty "__u32");
    fld "prog_name" (arr char 16);
    fld "prog_ifindex" (ty "__u32");
    fld "expected_attach_type" (ty "__u32");
    fld "prog_btf_fd" (ty "__u32");
    fld "func_info_rec_size" (ty "__u32");
    fld "func_info" (ty "__u64");
    fld "func_info_cnt" (ty "__u32");
    fld "line_info_rec_size" (ty "__u32");
    fld "line_info" (ty "__u64");
    fld "line_info_cnt" (ty "__u32");
    fld "attach_btf_id" (ty "__u32");
    unnamed (anon_union [
      fld "attach_prog_fd" (ty "__u32");
      fld "attach_btf_obj_fd" (ty "__u32")
    ]);
    fld "core_relo_cnt" (ty "__u32");
    fld "fd_array" (ty "__u64");
    fld "core_relos" (ty "__u64");
    fld "core_relo_rec_size" (ty "__u32");
    fld "log_true_size" (ty "__u32");
    fld "prog_token_fd" (ty "__s32");
    fld "fd_array_cnt" (ty "__u32");
    fld "signature" (ty "__u64");
    fld "signature_size" (ty "__u32");
    fld "keyring_id" (ty "__s32")
  ]);
  unnamed (anon_struct [
    fld "pathname" (ty "__u64");
    fld "bpf_fd" (ty "__u32");
    fld "file_flags" (ty "__u32");
    fld "path_fd" (ty "__s32")
  ]);
  unnamed (anon_struct [
    unnamed (anon_union [
      fld "target_fd" (ty "__u32");
      fld "target_ifindex" (ty "__u32")
    ]);
    fld "attach_bpf_fd" (ty "__u32");
    fld "attach_type" (ty "__u32");
    fld "attach_flags" (ty "__u32");
    fld "replace_bpf_fd" (ty "__u32");
    unnamed (anon_union [
      fld "relative_fd" (ty "__u32");
      fld "relative_id" (ty "__u32")
    ]);
    fld "expected_revision" (ty "__u64")
  ]);
  fld "test" (anon_struct [
    fld "prog_fd" (ty "__u32");
    fld "retval" (ty "__u32");
    fld "data_size_in" (ty "__u32");
    fld "data_size_out" (ty "__u32");
    fld "data_in" (ty "__u64");
    fld "data_out" (ty "__u64");
    fld "repeat" (ty "__u32");
    fld "duration" (ty "__u32");
    fld "ctx_size_in" (ty "__u32");
    fld "ctx_size_out" (ty "__u32");
    fld "ctx_in" (ty "__u64");
    fld "ctx_out" (ty "__u64");
    fld "flags" (ty "__u32");
    fld "cpu" (ty "__u32");
    fld "batch_size" (ty "__u32")
  ]);
  unnamed (anon_struct [
    unnamed (anon_union [
      fld "start_id" (ty "__u32");
      fld "prog_id" (ty "__u32");
      fld "map_id" (ty "__u32");
      fld "btf_id" (ty "__u32");
      fld "link_id" (ty "__u32")
    ]);
    fld "next_id" (ty "__u32");
    fld "open_flags" (ty "__u32");
    fld "fd_by_id_token_fd" (ty "__s32")
  ]);
  fld "info" (anon_struct [
    fld "bpf_fd" (ty "__u32");
    fld "info_len" (ty "__u32");
    fld "info" (ty "__u64")
  ]);
  fld "query" (anon_struct [
    unnamed (anon_union [
      fld "target_fd" (ty "__u32");
      fld "target_ifindex" (ty "__u32")
    ]);
    fld "attach_type" (ty "__u32");
    fld "query_flags" (ty "__u32");
    fld "attach_flags" (ty "__u32");
    fld "prog_ids" (ty "__u64");
    unnamed (anon_union [
      fld "prog_cnt" (ty "__u32");
      fld "count" (ty "__u32")
    ]);
    fld "prog_attach_flags" (ty "__u64");
    fld "link_ids" (ty "__u64");
    fld "link_attach_flags" (ty "__u64");
    fld "revision" (ty "__u64")
  ])
].

Definition union_bpf_attr_fields_2 : list (string * ctype * option N) := [
  fld "raw_tracepoint" (anon_struct [
    fld "name" (ty "__u64");
    fld "prog_fd" (ty "__u32");
    fld "cookie" (ty "__u64")
  ]);
  unnamed (anon_struct [
    fld "btf" (ty "__u64");
    fld "btf_log_buf" (ty "__u64");
    fld "btf_size" (ty "__u32");
    fld "btf_log_size" (ty "__u32");
    fld "btf_log_level" (ty "__u32");
    fld "btf_log_true_size" (ty "__u32");
    fld "btf_flags" (ty "__u32");
    fld "btf_token_fd" (ty "__s32")
  ]);
  fld "task_fd_query" (anon_struct [
    fld "pid" (ty "__u32");
    fld "fd" (ty "__u32");
    fld "flags" (ty "__u32");
    fld "buf_len" (ty "__u32");
    fld "buf" (ty "__u64");
    fld "prog_id" (ty "__u32");
    fld "fd_type" (ty "__u32");
    fld "probe_offset" (ty "__u64");
    fld "probe_addr" (ty "__u64")
  ]);
  fld "link_create" (anon_struct [
    unnamed (anon_union [
      fld "prog_fd" (ty "__u32");
      fld "map_fd" (ty "__u32")
    ]);
    unnamed (anon_union [
      fld "target_fd" (ty "__u32");
      fld "target_ifindex" (ty "__u32")
    ]);
    fld "attach_type" (ty "__u32");
    fld "flags" (ty "__u32");
    unnamed (anon_union [
      fld "target_btf_id" (ty "__u32");
      unnamed (anon_struct [
        fld "iter_info" (ty "__u64");
        fld "iter_info_len" (ty "__u32")
      ]);
      fld "perf_event" (anon_struct [
        fld "bpf_cookie" (ty "__u64")
      ]);
      fld "kprobe_multi" (anon_struct [
        fld "flags" (ty "__u32");
        fld "cnt" (ty "__u32");
        fld "syms" (ty "__u64");
        fld "addrs" (ty "__u64");
        fld "cookies" (ty "__u64")
      ]);
      fld "tracing" (anon_struct [
        fld "target_btf_id" (ty "__u32");
        fld "cookie" (ty "__u64")
      ]);
      fld "netfilter" (anon_struct [
        fld "pf" (ty "__u32");
        fld "hooknum" (ty "__u32");
        fld "priority" (ty "__s32");
        fld "flags" (ty "__u32")
      ]);
      fld "tcx" (anon_struct [
        unnamed (anon_union [
          fld "relative_fd" (ty "__u32");
          fld "relative_id" (ty "__u32")
        ]);
        fld "expected_revision" (ty "__u64")
      ]);
      fld "uprobe_multi" (anon_struct [
        fld "path" (ty "__u64");
        fld "offsets" (ty "__u64");
        fld "ref_ctr_offsets" (ty "__u64");
        fld "cookies" (ty "__u64");
        fld "cnt" (ty "__u32");
        fld "flags" (ty "__u32");
        fld "pid" (ty "__u32")
      ]);
      fld "netkit" (anon_struct [
        unnamed (anon_union [
          fld "relative_fd" (ty "__u32");
          fld "relative_id" (ty "__u32")
        ]);
        fld "expected_revision" (ty "__u64")
      ]);
      fld "cgroup" (anon_struct [
        unnamed (anon_union [
          fld "relative_fd" (ty "__u32");
          fld "relative_id" (ty "__u32")
        ]);
        fld "expected_revision" (ty "__u64")
      ])
    ])
  ]);
  fld "link_update" (anon_struct [
    fld "link_fd" (ty "__u32");
    unnamed (anon_union [
      fld "new_prog_fd" (ty "__u32");
      fld "new_map_fd" (ty "__u32")
    ]);
    fld "flags" (ty "__u32");
    unnamed (anon_union [
      fld "old_prog_fd" (ty "__u32");
      fld "old_map_fd" (ty "__u32")
    ])
  ]);
  fld "link_detach" (anon_struct [
    fld "link_fd" (ty "__u32")
  ]);
  fld "enable_stats" (anon_struct [
    fld "type" (ty "__u32")
  ]);
  fld "iter_create" (anon_struct [
    fld "link_fd" (ty "__u32");
    fld "flags" (ty "__u32")
  ]);
  fld "prog_bind_map" (anon_struct [
    fld "prog_fd" (ty "__u32");
    fld "map_fd" (ty "__u32");
    fld "flags" (ty "__u32")
  ]);
  fld "token_create" (anon_struct [
    fld "flags" (ty "__u32");
    fld "bpffs_fd" (ty "__u32")
  ]);
  fld "prog_stream_read" (anon_struct [
    fld "stream_buf" (ty "__u64");
    fld "stream_buf_len" (ty "__u32");
    fld "stream_id" (ty "__u32");
    fld "prog_fd" (ty "__u32")
  ])
].

Definition union_bpf_attr : decl :=
  DComp Union "bpf_attr" false (union_bpf_attr_fields_1 ++ union_bpf_attr_fields_2).

Definition enum_bpf_func_id_values_1 : list (string * Z) := [
  ("BPF_FUNC_unspec", 0);
  ("BPF_FUNC_map_lookup_elem", 1);
  ("BPF_FUNC_map_update_elem", 2);
  ("BPF_FUNC_map_delete_elem", 3);
  ("BPF_FUNC_probe_read", 4);
  ("BPF_FUNC_ktime_get_ns", 5);
  ("BPF_FUNC_trace_printk", 6);
  ("BPF_FUNC_get_prandom_u32", 7);
  ("BPF_FUNC_get_smp_processor_id", 8);
  ("BPF_FUNC_skb_store_bytes", 9);
  ("BPF_FUNC_l3_csum_replace", 10);
  ("BPF_FUNC_l4_csum_replace", 11);
  ("BPF_FUNC_tail_call", 12);
  ("BPF_FUNC_clone_redirect", 13);
  ("BPF_FUNC_get_current_pid_tgid", 14);
  ("BPF_FUNC_get_current_uid_gid", 15);
  ("BPF_FUNC_get_current_comm", 16);
  ("BPF_FUNC_get_cgroup_classid", 17);
  ("BPF_FUNC_skb_vlan_push", 18);
  ("BPF_FUNC_skb_vlan_pop", 19);
  ("BPF_FUNC_skb_get_tunnel_key", 20);
  ("BPF_FUNC_skb_set_tunnel_key", 21);
  ("BPF_FUNC_perf_event_read", 22);
  ("BPF_FUNC_redirect", 23);
  ("BPF_FUNC_get_route_realm", 24);
  ("BPF_FUNC_perf_event_output", 25);
  ("BPF_FUNC_skb_load_bytes", 26);
  ("BPF_FUNC_get_stackid", 27);
  ("BPF_FUNC_csum_diff", 28);
  ("BPF_FUNC_skb_get_tunnel_opt", 29);
  ("BPF_FUNC_skb_set_tunnel_opt", 30);
  ("BPF_FUNC_skb_change_proto", 31);
  ("BPF_FUNC_skb_change_type", 32);
  ("BPF_FUNC_skb_under_cgroup", 33);
  ("BPF_FUNC_get_hash_recalc", 34);
  ("BPF_FUNC_get_current_task", 35);
  ("BPF_FUNC_probe_write_user", 36);
  ("BPF_FUNC_current_task_under_cgroup", 37);
  ("BPF_FUNC_skb_change_tail", 38);
  ("BPF_FUNC_skb_pull_data", 39);
  ("BPF_FUNC_csum_update", 40);
  ("BPF_FUNC_set_hash_invalid", 41);
  ("BPF_FUNC_get_numa_node_id", 42);
  ("BPF_FUNC_skb_change_head", 43);
  ("BPF_FUNC_xdp_adjust_head", 44);
  ("BPF_FUNC_probe_read_str", 45);
  ("BPF_FUNC_get_socket_cookie", 46);
  ("BPF_FUNC_get_socket_uid", 47);
  ("BPF_FUNC_set_hash", 48);
  ("BPF_FUNC_setsockopt", 49);
  ("BPF_FUNC_skb_adjust_room", 50);
  ("BPF_FUNC_redirect_map", 51);
  ("BPF_FUNC_sk_redirect_map", 52);
  ("BPF_FUNC_sock_map_update", 53);
  ("BPF_FUNC_xdp_adjust_meta", 54);
  ("BPF_FUNC_perf_event_read_value", 55);
  ("BPF_FUNC_perf_prog_read_value", 56);
  ("BPF_FUNC_getsockopt", 57);
  ("BPF_FUNC_override_return", 58);
  ("BPF_FUNC_sock_ops_cb_flags_set", 59);
  ("BPF_FUNC_msg_redirect_map", 60);
  ("BPF_FUNC_msg_apply_bytes", 61);
  ("BPF_FUNC_msg_cork_bytes", 62);
  ("BPF_FUNC_msg_pull_data", 63);
  ("BPF_FUNC_bind", 64);
  ("BPF_FUNC_xdp_adjust_tail", 65);
  ("BPF_FUNC_skb_get_xfrm_state", 66);
  ("BPF_FUNC_get_stack", 67);
  ("BPF_FUNC_skb_load_bytes_relative", 68);
  ("BPF_FUNC_fib_lookup", 69);
  ("BPF_FUNC_sock_hash_update", 70);
  ("BPF_FUNC_msg_redirect_hash", 71);
  ("BPF_FUNC_sk_redirect_hash", 72);
  ("BPF_FUNC_lwt_push_encap", 73);
  ("BPF_FUNC_lwt_seg6_store_bytes", 74);
  ("BPF_FUNC_lwt_seg6_adjust_srh", 75);
  ("BPF_FUNC_lwt_seg6_action", 76);
  ("BPF_FUNC_rc_repeat", 77);
  ("BPF_FUNC_rc_keydown", 78);
  ("BPF_FUNC_skb_cgroup_id", 79);
  ("BPF_FUNC_get_current_cgroup_id", 80);
  ("BPF_FUNC_get_local_storage", 81);
  ("BPF_FUNC_sk_select_reuseport", 82);
  ("BPF_FUNC_skb_ancestor_cgroup_id", 83);
  ("BPF_FUNC_sk_lookup_tcp", 84);
  ("BPF_FUNC_sk_lookup_udp", 85);
  ("BPF_FUNC_sk_release", 86);
  ("BPF_FUNC_map_push_elem", 87);
  ("BPF_FUNC_map_pop_elem", 88);
  ("BPF_FUNC_map_peek_elem", 89);
  ("BPF_FUNC_msg_push_data", 90);
  ("BPF_FUNC_msg_pop_data", 91);
  ("BPF_FUNC_rc_pointer_rel", 92);
  ("BPF_FUNC_spin_lock", 93);
  ("BPF_FUNC_spin_unlock", 94);
  ("BPF_FUNC_sk_fullsock", 95);
  ("BPF_FUNC_tcp_sock", 96);
  ("BPF_FUNC_skb_ecn_set_ce", 97);
  ("BPF_FUNC_get_listener_sock", 98);
  ("BPF_FUNC_skc_lookup_tcp", 99);
  ("BPF_FUNC_tcp_check_syncookie", 100);
  ("BPF_FUNC_sysctl_get_name", 101);
  ("BPF_FUNC_sysctl_get_current_value", 102);
  ("BPF_FUNC_sysctl_get_new_value", 103);
  ("BPF_FUNC_sysctl_set_new_value", 104);
  ("BPF_FUNC_strtol", 105);
  ("BPF_FUNC_strtoul", 106);
  ("BPF_FUNC_sk_storage_get", 107);
  ("BPF_FUNC_sk_storage_delete", 108);
  ("BPF_FUNC_send_signal", 109);
  ("BPF_FUNC_tcp_gen_syncookie", 110);
  ("BPF_FUNC_skb_output", 111);
  ("BPF_FUNC_probe_read_user", 112);
  ("BPF_FUNC_probe_read_kernel", 113);
  ("BPF_FUNC_probe_read_user_str", 114);
  ("BPF_FUNC_probe_read_kernel_str", 115);
  ("BPF_FUNC_tcp_send_ack", 116);
  ("BPF_FUNC_send_signal_thread", 117);
  ("BPF_FUNC_jiffies64", 118);
  ("BPF_FUNC_read_branch_records", 119);
  ("BPF_FUNC_get_ns_current_pid_tgid", 120);
  ("BPF_FUNC_xdp_output", 121);
  ("BPF_FUNC_get_netns_cookie", 122);
  ("BPF_FUNC_get_current_ancestor_cgroup_id", 123);
  ("BPF_FUNC_sk_assign", 124);
  ("BPF_FUNC_ktime_get_boot_ns", 125);
  ("BPF_FUNC_seq_printf", 126);
  ("BPF_FUNC_seq_write", 127);
  ("BPF_FUNC_sk_cgroup_id", 128);
  ("BPF_FUNC_sk_ancestor_cgroup_id", 129);
  ("BPF_FUNC_ringbuf_output", 130);
  ("BPF_FUNC_ringbuf_reserve", 131);
  ("BPF_FUNC_ringbuf_submit", 132);
  ("BPF_FUNC_ringbuf_discard", 133);
  ("BPF_FUNC_ringbuf_query", 134);
  ("BPF_FUNC_csum_level", 135);
  ("BPF_FUNC_skc_to_tcp6_sock", 136);
  ("BPF_FUNC_skc_to_tcp_sock", 137);
  ("BPF_FUNC_skc_to_tcp_timewait_sock", 138);
  ("BPF_FUNC_skc_to_tcp_request_sock", 139);
  ("BPF_FUNC_skc_to_udp6_sock", 140);
  ("BPF_FUNC_get_task_stack", 141);
  ("BPF_FUNC_load_hdr_opt", 142);
  ("BPF_FUNC_store_hdr_opt", 143);
  ("BPF_FUNC_reserve_hdr_opt", 144);
  ("BPF_FUNC_inode_storage_get", 145);
  ("BPF_FUNC_inode_storage_delete", 146);
  ("BPF_FUNC_d_path", 147)
]%Z.

Definition enum_bpf_func_id_values_2 : list (string * Z) := [
  ("BPF_FUNC_copy_from_user", 148);
  ("BPF_FUNC_snprintf_btf", 149);
  ("BPF_FUNC_seq_printf_btf", 150);
  ("BPF_FUNC_skb_cgroup_classid", 151);
  ("BPF_FUNC_redirect_neigh", 152);
  ("BPF_FUNC_per_cpu_ptr", 153);
  ("BPF_FUNC_this_cpu_ptr", 154);
  ("BPF_FUNC_redirect_peer", 155);
  ("BPF_FUNC_task_storage_get", 156);
  ("BPF_FUNC_task_storage_delete", 157);
  ("BPF_FUNC_get_current_task_btf", 158);
  ("BPF_FUNC_bprm_opts_set", 159);
  ("BPF_FUNC_ktime_get_coarse_ns", 160);
  ("BPF_FUNC_ima_inode_hash", 161);
  ("BPF_FUNC_sock_from_file", 162);
  ("BPF_FUNC_check_mtu", 163);
  ("BPF_FUNC_for_each_map_elem", 164);
  ("BPF_FUNC_snprintf", 165);
  ("BPF_FUNC_sys_bpf", 166);
  ("BPF_FUNC_btf_find_by_name_kind", 167);
  ("BPF_FUNC_sys_close", 168);
  ("BPF_FUNC_timer_init", 169);
  ("BPF_FUNC_timer_set_callback", 170);
  ("BPF_FUNC_timer_start", 171);
  ("BPF_FUNC_timer_cancel", 172);
  ("BPF_FUNC_get_func_ip", 173);
  ("BPF_FUNC_get_attach_cookie", 174);
  ("BPF_FUNC_task_pt_regs", 175);
  ("BPF_FUNC_get_branch_snapshot", 176);
  ("BPF_FUNC_trace_vprintk", 177);
  ("BPF_FUNC_skc_to_unix_sock", 178);
  ("BPF_FUNC_kallsyms_lookup_name", 179);
  ("BPF_FUNC_find_vma", 180);
  ("BPF_FUNC_loop", 181);
  ("BPF_FUNC_strncmp", 182);
  ("BPF_FUNC_get_func_arg", 183);
  ("BPF_FUNC_get_func_ret", 184);
  ("BPF_FUNC_get_func_arg_cnt", 185);
  ("BPF_FUNC_get_retval", 186);
  ("BPF_FUNC_set_retval", 187);
  ("BPF_FUNC_xdp_get_buff_len", 188);
  ("BPF_FUNC_xdp_load_bytes", 189);
  ("BPF_FUNC_xdp_store_bytes", 190);
  ("BPF_FUNC_copy_from_user_task", 191);
  ("BPF_FUNC_skb_set_tstamp", 192);
  ("BPF_FUNC_ima_file_hash", 193);
  ("BPF_FUNC_kptr_xchg", 194);
  ("BPF_FUNC_map_lookup_percpu_elem", 195);
  ("BPF_FUNC_skc_to_mptcp_sock", 196);
  ("BPF_FUNC_dynptr_from_mem", 197);
  ("BPF_FUNC_ringbuf_reserve_dynptr", 198);
  ("BPF_FUNC_ringbuf_submit_dynptr", 199);
  ("BPF_FUNC_ringbuf_discard_dynptr", 200);
  ("BPF_FUNC_dynptr_read", 201);
  ("BPF_FUNC_dynptr_write", 202);
  ("BPF_FUNC_dynptr_data", 203);
  ("BPF_FUNC_tcp_raw_gen_syncookie_ipv4", 204);
  ("BPF_FUNC_tcp_raw_gen_syncookie_ipv6", 205);
  ("BPF_FUNC_tcp_raw_check_syncookie_ipv4", 206);
  ("BPF_FUNC_tcp_raw_check_syncookie_ipv6", 207);
  ("BPF_FUNC_ktime_get_tai_ns", 208);
  ("BPF_FUNC_user_ringbuf_drain", 209);
  ("BPF_FUNC_cgrp_storage_get", 210);
  ("BPF_FUNC_cgrp_storage_delete", 211);
  ("__BPF_FUNC_MAX_ID", 212)
]%Z.

Definition enum_bpf_func_id : decl := DEnum "bpf_func_id" false (enum_bpf_func_id_values_1 ++ enum_bpf_func_id_values_2).

Definition struct_bpf_link_info : decl := DComp Struct "bpf_link_info" false [
  fld "type" (ty "__u32");
  fld "id" (ty "__u32");
  fld "prog_id" (ty "__u32");
  unnamed (anon_union [
    fld "raw_tracepoint" (anon_struct [
      fld "tp_name" (ty "__u64");
      fld "tp_name_len" (ty "__u32");
      fld "cookie" (ty "__u64")
    ]);
    fld "tracing" (anon_struct [
      fld "attach_type" (ty "__u32");
      fld "target_obj_id" (ty "__u32");
      fld "target_btf_id" (ty "__u32");
      fld "cookie" (ty "__u64")
    ]);
    fld "cgroup" (anon_struct [
      fld "cgroup_id" (ty "__u64");
      fld "attach_type" (ty "__u32")
    ]);
    fld "iter" (anon_struct [
      fld "target_name" (ty "__u64");
      fld "target_name_len" (ty "__u32");
      unnamed (anon_union [
        fld "map" (anon_struct [
          fld "map_id" (ty "__u32")
        ])
      ]);
      unnamed (anon_union [
        fld "cgroup" (anon_struct [
          fld "cgroup_id" (ty "__u64");
          fld "order" (ty "__u32")
        ]);
        fld "task" (anon_struct [
          fld "tid" (ty "__u32");
          fld "pid" (ty "__u32")
        ])
      ])
    ]);
    fld "netns" (anon_struct [
      fld "netns_ino" (ty "__u32");
      fld "attach_type" (ty "__u32")
    ]);
    fld "xdp" (anon_struct [
      fld "ifindex" (ty "__u32")
    ]);
    fld "struct_ops" (anon_struct [
      fld "map_id" (ty "__u32")
    ]);
    fld "netfilter" (anon_struct [
      fld "pf" (ty "__u32");
      fld "hooknum" (ty "__u32");
      fld "priority" (ty "__s32");
      fld "flags" (ty "__u32")
    ]);
    fld "kprobe_multi" (anon_struct [
      fld "addrs" (ty "__u64");
      fld "count" (ty "__u32");
      fld "flags" (ty "__u32");
      fld "missed" (ty "__u64");
      fld "cookies" (ty "__u64")
    ]);
    fld "uprobe_multi" (anon_struct [
      fld "path" (ty "__u64");
      fld "offsets" (ty "__u64");
      fld "ref_ctr_offsets" (ty "__u64");
      fld "cookies" (ty "__u64");
      fld "path_size" (ty "__u32");
      fld "count" (ty "__u32");
      fld "flags" (ty "__u32");
      fld "pid" (ty "__u32")
    ]);
    fld "perf_event" (anon_struct [
      fld "type" (ty "__u32");
      unnamed (anon_union [
        fld "uprobe" (anon_struct [
          fld "file_name" (ty "__u64");
          fld "name_len" (ty "__u32");
          fld "offset" (ty "__u32");
          fld "cookie" (ty "__u64");
          fld "ref_ctr_offset" (ty "__u64")
        ]);
        fld "kprobe" (anon_struct [
          fld "func_name" (ty "__u64");
          fld "name_len" (ty "__u32");
          fld "offset" (ty "__u32");
          fld "addr" (ty "__u64");
          fld "missed" (ty "__u64");
          fld "cookie" (ty "__u64")
        ]);
        fld "tracepoint" (anon_struct [
          fld "tp_name" (ty "__u64");
          fld "name_len" (ty "__u32");
          fld "cookie" (ty "__u64")
        ]);
        fld "event" (anon_struct [
          fld "config" (ty "__u64");
          fld "type" (ty "__u32");
          fld "cookie" (ty "__u64")
        ])
      ])
    ]);
    fld "tcx" (anon_struct [
      fld "ifindex" (ty "__u32");
      fld "attach_type" (ty "__u32")
    ]);
    fld "netkit" (anon_struct [
      fld "ifindex" (ty "__u32");
      fld "attach_type" (ty "__u32")
    ]);
    fld "sockmap" (anon_struct [
      fld "map_id" (ty "__u32");
      fld "attach_type" (ty "__u32")
    ])
  ])
].

Definition typedef___kernel_sa_family_t : decl := DTypedef "__kernel_sa_family_t" ushort.

Definition struct_in6_addr : decl := DComp Struct "in6_addr" false [
  fld "in6_u" (anon_union [
    fld "u6_addr8" (arr (ty "__u8") 16);
    fld "u6_addr16" (arr (ty "__be16") 8);
    fld "u6_addr32" (arr (ty "__be32") 4)
  ])
].

Definition struct_nlmsghdr : decl := DComp Struct "nlmsghdr" false [
  fld "nlmsg_len" (ty "__u32");
  fld "nlmsg_type" (ty "__u16");
  fld "nlmsg_flags" (ty "__u16");
  fld "nlmsg_seq" (ty "__u32");
  fld "nlmsg_pid" (ty "__u32")
].

Definition enum_bpf_netdev_command : decl := DEnum "bpf_netdev_command" false [
  ("XDP_SETUP_PROG", 0);
  ("XDP_SETUP_PROG_HW", 1);
  ("BPF_OFFLOAD_MAP_ALLOC", 2);
  ("BPF_OFFLOAD_MAP_FREE", 3);
  ("XDP_SETUP_XSK_POOL", 4)
]%Z.

Definition enum_xdp_action : decl := DEnum "xdp_action" false [
  ("XDP_ABORTED", 0);
  ("XDP_DROP", 1);
  ("XDP_PASS", 2);
  ("XDP_TX", 3);
  ("XDP_REDIRECT", 4)
]%Z.

Definition struct_xdp_md : decl := DComp Struct "xdp_md" false [
  fld "data" (ty "__u32");
  fld "data_end" (ty "__u32");
  fld "data_meta" (ty "__u32");
  fld "ingress_ifindex" (ty "__u32");
  fld "rx_queue_index" (ty "__u32");
  fld "egress_ifindex" (ty "__u32")
].

Definition enum_xdp_mem_type : decl := DEnum "xdp_mem_type" false [
  ("MEM_TYPE_PAGE_SHARED", 0);
  ("MEM_TYPE_PAGE_ORDER0", 1);
  ("MEM_TYPE_PAGE_POOL", 2);
  ("MEM_TYPE_XSK_BUFF_POOL", 3);
  ("MEM_TYPE_MAX", 4)
]%Z.

Definition struct_ethhdr : decl := DComp Struct "ethhdr" false [
  fld "h_dest" (arr uchar 6);
  fld "h_source" (arr uchar 6);
  fld "h_proto" (ty "__be16")
].

Definition enum_ipproto : decl := DEnum "" false [
  ("IPPROTO_IP", 0);
  ("IPPROTO_ICMP", 1);
  ("IPPROTO_IGMP", 2);
  ("IPPROTO_IPIP", 4);
  ("IPPROTO_TCP", 6);
  ("IPPROTO_EGP", 8);
  ("IPPROTO_PUP", 12);
  ("IPPROTO_UDP", 17);
  ("IPPROTO_IDP", 22);
  ("IPPROTO_TP", 29);
  ("IPPROTO_DCCP", 33);
  ("IPPROTO_IPV6", 41);
  ("IPPROTO_RSVP", 46);
  ("IPPROTO_GRE", 47);
  ("IPPROTO_ESP", 50);
  ("IPPROTO_AH", 51);
  ("IPPROTO_MTP", 92);
  ("IPPROTO_BEETPH", 94);
  ("IPPROTO_ENCAP", 98);
  ("IPPROTO_PIM", 103);
  ("IPPROTO_COMP", 108);
  ("IPPROTO_L2TP", 115);
  ("IPPROTO_SCTP", 132);
  ("IPPROTO_UDPLITE", 136);
  ("IPPROTO_MPLS", 137);
  ("IPPROTO_ETHERNET", 143);
  ("IPPROTO_AGGFRAG", 144);
  ("IPPROTO_RAW", 255);
  ("IPPROTO_SMC", 256);
  ("IPPROTO_MPTCP", 262);
  ("IPPROTO_MAX", 263)
]%Z.

Definition struct_in_addr : decl := DComp Struct "in_addr" false [
  fld "s_addr" (ty "__be32")
].

Definition struct_sockaddr_in : decl := DComp Struct "sockaddr_in" false [
  fld "sin_family" (ty "__kernel_sa_family_t");
  fld "sin_port" (ty "__be16");
  fld "sin_addr" (struct_ "in_addr");
  fld "__pad" (arr uchar 8)
].

Definition enum_bpf_cmd : decl := DEnum "bpf_cmd" false [
  ("BPF_MAP_CREATE", 0);
  ("BPF_MAP_LOOKUP_ELEM", 1);
  ("BPF_MAP_UPDATE_ELEM", 2);
  ("BPF_MAP_DELETE_ELEM", 3);
  ("BPF_MAP_GET_NEXT_KEY", 4);
  ("BPF_PROG_LOAD", 5);
  ("BPF_OBJ_PIN", 6);
  ("BPF_OBJ_GET", 7);
  ("BPF_PROG_ATTACH", 8);
  ("BPF_PROG_DETACH", 9);
  ("BPF_PROG_TEST_RUN", 10);
  ("BPF_PROG_RUN", 10);
  ("BPF_PROG_GET_NEXT_ID", 11);
  ("BPF_MAP_GET_NEXT_ID", 12);
  ("BPF_PROG_GET_FD_BY_ID", 13);
  ("BPF_MAP_GET_FD_BY_ID", 14);
  ("BPF_OBJ_GET_INFO_BY_FD", 15);
  ("BPF_PROG_QUERY", 16);
  ("BPF_RAW_TRACEPOINT_OPEN", 17);
  ("BPF_BTF_LOAD", 18);
  ("BPF_BTF_GET_FD_BY_ID", 19);
  ("BPF_TASK_FD_QUERY", 20);
  ("BPF_MAP_LOOKUP_AND_DELETE_ELEM", 21);
  ("BPF_MAP_FREEZE", 22);
  ("BPF_BTF_GET_NEXT_ID", 23);
  ("BPF_MAP_LOOKUP_BATCH", 24);
  ("BPF_MAP_LOOKUP_AND_DELETE_BATCH", 25);
  ("BPF_MAP_UPDATE_BATCH", 26);
  ("BPF_MAP_DELETE_BATCH", 27);
  ("BPF_LINK_CREATE", 28);
  ("BPF_LINK_UPDATE", 29);
  ("BPF_LINK_GET_FD_BY_ID", 30);
  ("BPF_LINK_GET_NEXT_ID", 31);
  ("BPF_ENABLE_STATS", 32);
  ("BPF_ITER_CREATE", 33);
  ("BPF_LINK_DETACH", 34);
  ("BPF_PROG_BIND_MAP", 35);
  ("BPF_TOKEN_CREATE", 36);
  ("BPF_PROG_STREAM_READ_BY_FD", 37);
  ("__MAX_BPF_CMD", 38)
]%Z.

Definition struct_iphdr : decl := DComp Struct "iphdr" false [
  bit "ihl" (ty "__u8") 4;
  bit "version" (ty "__u8") 4;
  fld "tos" (ty "__u8");
  fld "tot_len" (ty "__be16");
  fld "id" (ty "__be16");
  fld "frag_off" (ty "__be16");
  fld "ttl" (ty "__u8");
  fld "protocol" (ty "__u8");
  fld "check" (ty "__sum16");
  unnamed (anon_union [
    unnamed (anon_struct [
      fld "saddr" (ty "__be32");
      fld "daddr" (ty "__be32")
    ]);
    fld "addrs" (anon_struct [
      fld "saddr" (ty "__be32");
      fld "daddr" (ty "__be32")
    ])
  ])
].

Definition struct_tcphdr : decl := DComp Struct "tcphdr" false [
  fld "source" (ty "__be16");
  fld "dest" (ty "__be16");
  fld "seq" (ty "__be32");
  fld "ack_seq" (ty "__be32");
  bit "ae" (ty "__u16") 1;
  bit "res1" (ty "__u16") 3;
  bit "doff" (ty "__u16") 4;
  bit "fin" (ty "__u16") 1;
  bit "syn" (ty "__u16") 1;
  bit "rst" (ty "__u16") 1;
  bit "psh" (ty "__u16") 1;
  bit "ack" (ty "__u16") 1;
  bit "urg" (ty "__u16") 1;
  bit "ece" (ty "__u16") 1;
  bit "cwr" (ty "__u16") 1;
  fld "window" (ty "__be16");
  fld "check" (ty "__sum16");
  fld "urg_ptr" (ty "__be16")
].

Definition struct_arphdr : decl := DComp Struct "arphdr" false [
  fld "ar_hrd" (ty "__be16");
  fld "ar_pro" (ty "__be16");
  fld "ar_hln" uchar;
  fld "ar_pln" uchar;
  fld "ar_op" (ty "__be16")
].

Definition struct_ipv6hdr : decl := DComp Struct "ipv6hdr" false [
  bit "priority" (ty "__u8") 4;
  bit "version" (ty "__u8") 4;
  fld "flow_lbl" (arr (ty "__u8") 3);
  fld "payload_len" (ty "__be16");
  fld "nexthdr" (ty "__u8");
  fld "hop_limit" (ty "__u8");
  unnamed (anon_union [
    unnamed (anon_struct [
      fld "saddr" (struct_ "in6_addr");
      fld "daddr" (struct_ "in6_addr")
    ]);
    fld "addrs" (anon_struct [
      fld "saddr" (struct_ "in6_addr");
      fld "daddr" (struct_ "in6_addr")
    ])
  ])
].

Definition struct_udphdr : decl := DComp Struct "udphdr" false [
  fld "source" (ty "__be16");
  fld "dest" (ty "__be16");
  fld "len" (ty "__be16");
  fld "check" (ty "__sum16")
].

Definition struct_icmphdr : decl := DComp Struct "icmphdr" false [
  fld "type" (ty "__u8");
  fld "code" (ty "__u8");
  fld "checksum" (ty "__sum16");
  fld "un" (anon_union [
    fld "echo" (anon_struct [
      fld "id" (ty "__be16");
      fld "sequence" (ty "__be16")
    ]);
    fld "gateway" (ty "__be32");
    fld "frag" (anon_struct [
      fld "__unused" (ty "__be16");
      fld "mtu" (ty "__be16")
    ]);
    fld "reserved" (arr (ty "__u8") 4)
  ])
].

Definition struct_ifinfomsg : decl := DComp Struct "ifinfomsg" false [
  fld "ifi_family" uchar;
  fld "__ifi_pad" uchar;
  fld "ifi_type" ushort;
  fld "ifi_index" int;
  fld "ifi_flags" uint;
  fld "ifi_change" uint
].

Definition struct_bpf_prog_info : decl := DComp Struct "bpf_prog_info" false [
  fld "type" (ty "__u32");
  fld "id" (ty "__u32");
  fld "tag" (arr (ty "__u8") 8);
  fld "jited_prog_len" (ty "__u32");
  fld "xlated_prog_len" (ty "__u32");
  fld "jited_prog_insns" (ty "__u64");
  fld "xlated_prog_insns" (ty "__u64");
  fld "load_time" (ty "__u64");
  fld "created_by_uid" (ty "__u32");
  fld "nr_map_ids" (ty "__u32");
  fld "map_ids" (ty "__u64");
  fld "name" (arr char 16);
  fld "ifindex" (ty "__u32");
  bit "gpl_compatible" (ty "__u32") 1;
  fld "netns_dev" (ty "__u64");
  fld "netns_ino" (ty "__u64");
  fld "nr_jited_ksyms" (ty "__u32");
  fld "nr_jited_func_lens" (ty "__u32");
  fld "jited_ksyms" (ty "__u64");
  fld "jited_func_lens" (ty "__u64");
  fld "btf_id" (ty "__u32");
  fld "func_info_rec_size" (ty "__u32");
  fld "func_info" (ty "__u64");
  fld "nr_func_info" (ty "__u32");
  fld "nr_line_info" (ty "__u32");
  fld "line_info" (ty "__u64");
  fld "jited_line_info" (ty "__u64");
  fld "nr_jited_line_info" (ty "__u32");
  fld "line_info_rec_size" (ty "__u32");
  fld "jited_line_info_rec_size" (ty "__u32");
  fld "nr_prog_tags" (ty "__u32");
  fld "prog_tags" (ty "__u64");
  fld "run_time_ns" (ty "__u64");
  fld "run_cnt" (ty "__u64");
  fld "recursion_misses" (ty "__u64");
  fld "verified_insns" (ty "__u32");
  fld "attach_btf_obj_id" (ty "__u32");
  fld "attach_btf_id" (ty "__u32")
].

Definition struct_bpf_map_info : decl := DComp Struct "bpf_map_info" false [
  fld "type" (ty "__u32");
  fld "id" (ty "__u32");
  fld "key_size" (ty "__u32");
  fld "value_size" (ty "__u32");
  fld "max_entries" (ty "__u32");
  fld "map_flags" (ty "__u32");
  fld "name" (arr char 16);
  fld "ifindex" (ty "__u32");
  fld "btf_vmlinux_value_type_id" (ty "__u32");
  fld "netns_dev" (ty "__u64");
  fld "netns_ino" (ty "__u64");
  fld "btf_id" (ty "__u32");
  fld "btf_key_type_id" (ty "__u32");
  fld "btf_value_type_id" (ty "__u32");
  fld "btf_vmlinux_id" (ty "__u32");
  fld "map_extra" (ty "__u64");
  fld "hash" (ty "__u64");
  fld "hash_size" (ty "__u32")
].

(** The declarations of this part, in the order of the header. *)
Definition uapi_decls : list decl := [struct_bpf_insn; enum_bpf_map_type; enum_bpf_prog_type;
    enum_bpf_attach_type; enum_bpf_link_type; union_bpf_attr; enum_bpf_func_id;
    struct_bpf_link_info; typedef___kernel_sa_family_t; struct_in6_addr; struct_nlmsghdr;
    enum_bpf_netdev_command; enum_xdp_action; struct_xdp_md; enum_xdp_mem_type; struct_ethhdr;
    enum_ipproto; struct_in_addr; struct_sockaddr_in; enum_bpf_cmd; struct_iphdr; struct_tcphdr;
    struct_arphdr; struct_ipv6hdr; struct_udphdr; struct_icmphdr; struct_ifinfomsg;
    struct_bpf_prog_info; struct_bpf_map_info].
