(* ===== verification/KernelBpf.v ===== *)
(** * Kernel declarations: BPF objects (kernelspace/vmlinux.h)

    The kernel's maps, programs, links and their operation tables. *)

From S2P Require Import Prelude Types CTypes.

Open Scope N_scope.
Open Scope string_scope.

Definition struct_llist_head : decl := DComp Struct "llist_head" false [
  fld "first" (ptr (struct_ "llist_node"))
].

Definition struct_latch_tree_node : decl := DComp Struct "latch_tree_node" false [
  fld "node" (arr (struct_ "rb_node") 2)
].

Definition struct_percpu_counter : decl := DComp Struct "percpu_counter" false [
  fld "lock" (ty "raw_spinlock_t");
  fld "count" (ty "s64");
  fld "list" (struct_ "list_head");
  fld "counters" (ptr (ty "s32"))
].

Definition struct_hlist_nulls_node : decl := DComp Struct "hlist_nulls_node" false [
  fld "next" (ptr (struct_ "hlist_nulls_node"));
  fld "pprev" (ptr (ptr (struct_ "hlist_nulls_node")))
].

Definition struct_hlist_nulls_head : decl := DComp Struct "hlist_nulls_head" false [
  fld "first" (ptr (struct_ "hlist_nulls_node"))
].

Definition struct_sock_filter : decl := DComp Struct "sock_filter" false [
  fld "code" (ty "__u16");
  fld "jt" (ty "__u8");
  fld "jf" (ty "__u8");
  fld "k" (ty "__u32")
].

Definition struct_bpf_prog : decl := DComp Struct "bpf_prog" false [
  fld "pages" (ty "u16");
  bit "jited" (ty "u16") 1;
  bit "jit_requested" (ty "u16") 1;
  bit "gpl_compatible" (ty "u16") 1;
  bit "cb_access" (ty "u16") 1;
  bit "dst_needed" (ty "u16") 1;
  bit "blinding_requested" (ty "u16") 1;
  bit "blinded" (ty "u16") 1;
  bit "is_func" (ty "u16") 1;
  bit "kprobe_override" (ty "u16") 1;
  bit "has_callchain_buf" (ty "u16") 1;
  bit "enforce_expected_attach_type" (ty "u16") 1;
  bit "call_get_stack" (ty "u16") 1;
  bit "call_get_func_ip" (ty "u16") 1;
  bit "tstamp_type_access" (ty "u16") 1;
  bit "sleepable" (ty "u16") 1;
  fld "type" (enum_ "bpf_prog_type");
  fld "expected_attach_type" (enum_ "bpf_attach_type");
  fld "len" (ty "u32");
  fld "jited_len" (ty "u32");
  unnamed (anon_union [
    fld "digest" (arr (ty "u8") 32);
    fld "tag" (arr (ty "u8") 8)
  ]);
  fld "stats" (ptr (struct_ "bpf_prog_stats"));
  fld "active" (ptr int);
  fld "bpf_func" (ptr (fn uint [ptr void; ptr (struct_ "bpf_insn")]));
  fld "aux" (ptr (struct_ "bpf_prog_aux"));
  fld "orig_prog" (ptr (struct_ "sock_fprog_kern"));
  unnamed (anon_union [
    unnamed (anon_struct [
      fld "__empty_insns" (anon_struct [
      ]);
      fld "insns" (arr (struct_ "sock_filter") 0)
    ]);
    unnamed (anon_struct [
      fld "__empty_insnsi" (anon_struct [
      ]);
      fld "insnsi" (arr (struct_ "bpf_insn") 0)
    ])
  ])
].

Definition struct_bpf_map_ops : decl := DComp Struct "bpf_map_ops" false [
  fld "map_alloc_check" (ptr (fn int [ptr (union_ "bpf_attr")]));
  fld "map_alloc" (ptr (fn (ptr (struct_ "bpf_map")) [ptr (union_ "bpf_attr")]));
  fld "map_release" (ptr (fn void [ptr (struct_ "bpf_map"); ptr (struct_ "file")]));
  fld "map_free" (ptr (fn void [ptr (struct_ "bpf_map")]));
  fld "map_get_next_key" (ptr (fn int [ptr (struct_ "bpf_map"); ptr void; ptr void]));
  fld "map_release_uref" (ptr (fn void [ptr (struct_ "bpf_map")]));
  fld "map_lookup_elem_sys_only" (ptr (fn (ptr void) [ptr (struct_ "bpf_map"); ptr void]));
  fld "map_lookup_batch" (ptr (fn int [ptr (struct_ "bpf_map"); ptr (union_ "bpf_attr"); ptr
      (union_ "bpf_attr")]));
  fld "map_lookup_and_delete_elem" (ptr (fn int [ptr (struct_ "bpf_map"); ptr void; ptr void; ty
      "u64"]));
  fld "map_lookup_and_delete_batch" (ptr (fn int [ptr (struct_ "bpf_map"); ptr (union_
      "bpf_attr"); ptr (union_ "bpf_attr")]));
  fld "map_update_batch" (ptr (fn int [ptr (struct_ "bpf_map"); ptr (struct_ "file"); ptr (union_
      "bpf_attr"); ptr (union_ "bpf_attr")]));
  fld "map_delete_batch" (ptr (fn int [ptr (struct_ "bpf_map"); ptr (union_ "bpf_attr"); ptr
      (union_ "bpf_attr")]));
  fld "map_lookup_elem" (ptr (fn (ptr void) [ptr (struct_ "bpf_map"); ptr void]));
  fld "map_update_elem" (ptr (fn long [ptr (struct_ "bpf_map"); ptr void; ptr void; ty "u64"]));
  fld "map_delete_elem" (ptr (fn long [ptr (struct_ "bpf_map"); ptr void]));
  fld "map_push_elem" (ptr (fn long [ptr (struct_ "bpf_map"); ptr void; ty "u64"]));
  fld "map_pop_elem" (ptr (fn long [ptr (struct_ "bpf_map"); ptr void]));
  fld "map_peek_elem" (ptr (fn long [ptr (struct_ "bpf_map"); ptr void]));
  fld "map_lookup_percpu_elem" (ptr (fn (ptr void) [ptr (struct_ "bpf_map"); ptr void; ty "u32"]));
  fld "map_get_hash" (ptr (fn int [ptr (struct_ "bpf_map"); ty "u32"; ptr void]));
  fld "map_fd_get_ptr" (ptr (fn (ptr void) [ptr (struct_ "bpf_map"); ptr (struct_ "file"); int]));
  fld "map_fd_put_ptr" (ptr (fn void [ptr (struct_ "bpf_map"); ptr void; ty "bool"]));
  fld "map_gen_lookup" (ptr (fn int [ptr (struct_ "bpf_map"); ptr (struct_ "bpf_insn")]));
  fld "map_fd_sys_lookup_elem" (ptr (fn (ty "u32") [ptr void]));
  fld "map_seq_show_elem" (ptr (fn void [ptr (struct_ "bpf_map"); ptr void; ptr (struct_
      "seq_file")]));
  fld "map_check_btf" (ptr (fn int [ptr (struct_ "bpf_map"); ptr (struct_ "btf"); ptr (struct_
      "btf_type"); ptr (struct_ "btf_type")]));
  fld "map_poke_track" (ptr (fn int [ptr (struct_ "bpf_map"); ptr (struct_ "bpf_prog_aux")]));
  fld "map_poke_untrack" (ptr (fn void [ptr (struct_ "bpf_map"); ptr (struct_ "bpf_prog_aux")]));
  fld "map_poke_run" (ptr (fn void [ptr (struct_ "bpf_map"); ty "u32"; ptr (struct_ "bpf_prog");
      ptr (struct_ "bpf_prog")]));
  fld "map_direct_value_addr" (ptr (fn int [ptr (struct_ "bpf_map"); ptr (ty "u64"); ty "u32"]));
  fld "map_direct_value_meta" (ptr (fn int [ptr (struct_ "bpf_map"); ty "u64"; ptr (ty "u32")]));
  fld "map_mmap" (ptr (fn int [ptr (struct_ "bpf_map"); ptr (struct_ "vm_area_struct")]));
  fld "map_poll" (ptr (fn (ty "__poll_t") [ptr (struct_ "bpf_map"); ptr (struct_ "file"); ptr
      (struct_ "poll_table_struct")]));
  fld "map_get_unmapped_area" (ptr (fn ulong [ptr (struct_ "file"); ulong; ulong; ulong; ulong]));
  fld "map_local_storage_charge" (ptr (fn int [ptr (struct_ "bpf_local_storage_map"); ptr void;
      ty "u32"]));
  fld "map_local_storage_uncharge" (ptr (fn void [ptr (struct_ "bpf_local_storage_map"); ptr
      void; ty "u32"]));
  fld "map_owner_storage_ptr" (ptr (fn (ptr (ptr (struct_ "bpf_local_storage"))) [ptr void]));
  fld "map_redirect" (ptr (fn long [ptr (struct_ "bpf_map"); ty "u64"; ty "u64"]));
  fld "map_meta_equal" (ptr (fn (ty "bool") [ptr (struct_ "bpf_map"); ptr (struct_ "bpf_map")]));
  fld "map_set_for_each_callback_args" (ptr (fn int [ptr (struct_ "bpf_verifier_env"); ptr
      (struct_ "bpf_func_state"); ptr (struct_ "bpf_func_state")]));
  fld "map_for_each_callback" (ptr (fn long [ptr (struct_ "bpf_map"); ty "bpf_callback_t"; ptr
      void; ty "u64"]));
  fld "map_mem_usage" (ptr (fn (ty "u64") [ptr (struct_ "bpf_map")]));
  fld "map_btf_id" (ptr int);
  fld "iter_seq_info" (ptr (struct_ "bpf_iter_seq_info"))
].

Definition struct_bpf_map : decl := DComp Struct "bpf_map" false [
  fld "sha" (arr (ty "u8") 32);
  fld "ops" (ptr (struct_ "bpf_map_ops"));
  fld "inner_map_meta" (ptr (struct_ "bpf_map"));
  fld "security" (ptr void);
  fld "map_type" (enum_ "bpf_map_type");
  fld "key_size" (ty "u32");
  fld "value_size" (ty "u32");
  fld "max_entries" (ty "u32");
  fld "map_extra" (ty "u64");
  fld "map_flags" (ty "u32");
  fld "id" (ty "u32");
  fld "record" (ptr (struct_ "btf_record"));
  fld "numa_node" int;
  fld "btf_key_type_id" (ty "u32");
  fld "btf_value_type_id" (ty "u32");
  fld "btf_vmlinux_value_type_id" (ty "u32");
  fld "btf" (ptr (struct_ "btf"));
  fld "objcg" (ptr (struct_ "obj_cgroup"));
  fld "name" (arr char 16);
  fld "freeze_mutex" (struct_ "mutex");
  fld "refcnt" (ty "atomic64_t");
  fld "usercnt" (ty "atomic64_t");
  unnamed (anon_union [
    fld "work" (struct_ "work_struct");
    fld "rcu" (struct_ "callback_head")
  ]);
  fld "writecnt" (ty "atomic64_t");
  fld "owner_lock" (ty "spinlock_t");
  fld "owner" (ptr (struct_ "bpf_map_owner"));
  fld "bypass_spec_v1" (ty "bool");
  fld "frozen" (ty "bool");
  fld "free_after_mult_rcu_gp" (ty "bool");
  fld "free_after_rcu_gp" (ty "bool");
  fld "sleepable_refcnt" (ty "atomic64_t");
  fld "elem_count" (ptr (ty "s64"));
  fld "cookie" (ty "u64");
  fld "excl_prog_sha" (ptr char)
].

Definition struct_btf_header : decl := DComp Struct "btf_header" false [
  fld "magic" (ty "__u16");
  fld "version" (ty "__u8");
  fld "flags" (ty "__u8");
  fld "hdr_len" (ty "__u32");
  fld "type_off" (ty "__u32");
  fld "type_len" (ty "__u32");
  fld "str_off" (ty "__u32");
  fld "str_len" (ty "__u32")
].

Definition struct_btf : decl := DComp Struct "btf" false [
  fld "data" (ptr void);
  fld "types" (ptr (ptr (struct_ "btf_type")));
  fld "resolved_ids" (ptr (ty "u32"));
  fld "resolved_sizes" (ptr (ty "u32"));
  fld "strings" (ptr char);
  fld "nohdr_data" (ptr void);
  fld "hdr" (struct_ "btf_header");
  fld "nr_types" (ty "u32");
  fld "types_size" (ty "u32");
  fld "data_size" (ty "u32");
  fld "refcnt" (ty "refcount_t");
  fld "id" (ty "u32");
  fld "rcu" (struct_ "callback_head");
  fld "kfunc_set_tab" (ptr (struct_ "btf_kfunc_set_tab"));
  fld "dtor_kfunc_tab" (ptr (struct_ "btf_id_dtor_kfunc_tab"));
  fld "struct_meta_tab" (ptr (struct_ "btf_struct_metas"));
  fld "struct_ops_tab" (ptr (struct_ "btf_struct_ops_tab"));
  fld "base_btf" (ptr (struct_ "btf"));
  fld "start_id" (ty "u32");
  fld "start_str_off" (ty "u32");
  fld "name" (arr char 56);
  fld "kernel_btf" (ty "bool");
  fld "base_id_map" (ptr (ty "__u32"))
].

Definition struct_bpf_ksym : decl := DComp Struct "bpf_ksym" false [
  fld "start" ulong;
  fld "end" ulong;
  fld "name" (arr char 512);
  fld "lnode" (struct_ "list_head");
  fld "tnode" (struct_ "latch_tree_node");
  fld "prog" (ty "bool")
].

Definition struct_bpf_stream : decl := DComp Struct "bpf_stream" false [
  fld "capacity" (ty "atomic_t");
  fld "log" (struct_ "llist_head");
  fld "lock" (struct_ "mutex");
  fld "backlog_head" (ptr (struct_ "llist_node"));
  fld "backlog_tail" (ptr (struct_ "llist_node"))
].

Definition struct_bpf_prog_aux : decl := DComp Struct "bpf_prog_aux" false [
  fld "refcnt" (ty "atomic64_t");
  fld "used_map_cnt" (ty "u32");
  fld "used_btf_cnt" (ty "u32");
  fld "max_ctx_offset" (ty "u32");
  fld "max_pkt_offset" (ty "u32");
  fld "max_tp_access" (ty "u32");
  fld "stack_depth" (ty "u32");
  fld "id" (ty "u32");
  fld "func_cnt" (ty "u32");
  fld "real_func_cnt" (ty "u32");
  fld "func_idx" (ty "u32");
  fld "attach_btf_id" (ty "u32");
  fld "attach_st_ops_member_off" (ty "u32");
  fld "ctx_arg_info_size" (ty "u32");
  fld "max_rdonly_access" (ty "u32");
  fld "max_rdwr_access" (ty "u32");
  fld "attach_btf" (ptr (struct_ "btf"));
  fld "ctx_arg_info" (ptr (struct_ "bpf_ctx_arg_aux"));
  fld "priv_stack_ptr" (ptr void);
  fld "dst_mutex" (struct_ "mutex");
  fld "dst_prog" (ptr (struct_ "bpf_prog"));
  fld "dst_trampoline" (ptr (struct_ "bpf_trampoline"));
  fld "saved_dst_prog_type" (enum_ "bpf_prog_type");
  fld "saved_dst_attach_type" (enum_ "bpf_attach_type");
  fld "verifier_zext" (ty "bool");
  fld "dev_bound" (ty "bool");
  fld "offload_requested" (ty "bool");
  fld "attach_btf_trace" (ty "bool");
  fld "attach_tracing_prog" (ty "bool");
  fld "func_proto_unreliable" (ty "bool");
  fld "tail_call_reachable" (ty "bool");
  fld "xdp_has_frags" (ty "bool");
  fld "exception_cb" (ty "bool");
  fld "exception_boundary" (ty "bool");
  fld "is_extended" (ty "bool");
  fld "jits_use_priv_stack" (ty "bool");
  fld "priv_stack_requested" (ty "bool");
  fld "changes_pkt_data" (ty "bool");
  fld "might_sleep" (ty "bool");
  fld "kprobe_write_ctx" (ty "bool");
  fld "prog_array_member_cnt" (ty "u64");
  fld "ext_mutex" (struct_ "mutex");
  fld "arena" (ptr (struct_ "bpf_arena"));
  fld "recursion_detected" (ptr (fn void [ptr (struct_ "bpf_prog")]));
  fld "attach_func_proto" (ptr (struct_ "btf_type"));
  fld "attach_func_name" (ptr char);
  fld "func" (ptr (ptr (struct_ "bpf_prog")));
  fld "main_prog_aux" (ptr (struct_ "bpf_prog_aux"));
  fld "jit_data" (ptr void);
  fld "poke_tab" (ptr (struct_ "bpf_jit_poke_descriptor"));
  fld "kfunc_tab" (ptr (struct_ "bpf_kfunc_desc_tab"));
  fld "kfunc_btf_tab" (ptr (struct_ "bpf_kfunc_btf_tab"));
  fld "size_poke_tab" (ty "u32");
  fld "ksym" (struct_ "bpf_ksym");
  fld "ops" (ptr (struct_ "bpf_prog_ops"));
  fld "st_ops" (ptr (struct_ "bpf_struct_ops"));
  fld "used_maps" (ptr (ptr (struct_ "bpf_map")));
  fld "used_maps_mutex" (struct_ "mutex");
  fld "used_btfs" (ptr (struct_ "btf_mod_pair"));
  fld "prog" (ptr (struct_ "bpf_prog"));
  fld "user" (ptr (struct_ "user_struct"));
  fld "load_time" (ty "u64");
  fld "verified_insns" (ty "u32");
  fld "cgroup_atype" int;
  fld "cgroup_storage" (arr (ptr (struct_ "bpf_map")) 2);
  fld "name" (arr char 16);
  fld "bpf_exception_cb" (ptr (fn (ty "u64") [ty "u64"; ty "u64"; ty "u64"; ty "u64"; ty "u64"]));
  fld "security" (ptr void);
  fld "token" (ptr (struct_ "bpf_token"));
  fld "offload" (ptr (struct_ "bpf_prog_offload"));
  fld "btf" (ptr (struct_ "btf"));
  fld "func_info" (ptr (struct_ "bpf_func_info"));
  fld "func_info_aux" (ptr (struct_ "bpf_func_info_aux"));
  fld "linfo" (ptr (struct_ "bpf_line_info"));
  fld "jited_linfo" (ptr (ptr void));
  fld "func_info_cnt" (ty "u32");
  fld "nr_linfo" (ty "u32");
  fld "linfo_idx" (ty "u32");
  fld "mod" (ptr (struct_ "module"));
  fld "num_exentries" (ty "u32");
  fld "extable" (ptr (struct_ "exception_table_entry"));
  unnamed (anon_union [
    fld "work" (struct_ "work_struct");
    fld "rcu" (struct_ "callback_head")
  ]);
  fld "stream" (arr (struct_ "bpf_stream") 2)
].

Definition enum_bpf_arg_type : decl := DEnum "bpf_arg_type" false [
  ("ARG_DONTCARE", 0);
  ("ARG_CONST_MAP_PTR", 1);
  ("ARG_PTR_TO_MAP_KEY", 2);
  ("ARG_PTR_TO_MAP_VALUE", 3);
  ("ARG_PTR_TO_MEM", 4);
  ("ARG_PTR_TO_ARENA", 5);
  ("ARG_CONST_SIZE", 6);
  ("ARG_CONST_SIZE_OR_ZERO", 7);
  ("ARG_PTR_TO_CTX", 8);
  ("ARG_ANYTHING", 9);
  ("ARG_PTR_TO_SPIN_LOCK", 10);
  ("ARG_PTR_TO_SOCK_COMMON", 11);
  ("ARG_PTR_TO_SOCKET", 12);
  ("ARG_PTR_TO_BTF_ID", 13);
  ("ARG_PTR_TO_RINGBUF_MEM", 14);
  ("ARG_CONST_ALLOC_SIZE_OR_ZERO", 15);
  ("ARG_PTR_TO_BTF_ID_SOCK_COMMON", 16);
  ("ARG_PTR_TO_PERCPU_BTF_ID", 17);
  ("ARG_PTR_TO_FUNC", 18);
  ("ARG_PTR_TO_STACK", 19);
  ("ARG_PTR_TO_CONST_STR", 20);
  ("ARG_PTR_TO_TIMER", 21);
  ("ARG_KPTR_XCHG_DEST", 22);
  ("ARG_PTR_TO_DYNPTR", 23);
  ("__BPF_ARG_TYPE_MAX", 24);
  ("ARG_PTR_TO_MAP_VALUE_OR_NULL", 259);
  ("ARG_PTR_TO_MEM_OR_NULL", 260);
  ("ARG_PTR_TO_CTX_OR_NULL", 264);
  ("ARG_PTR_TO_SOCKET_OR_NULL", 268);
  ("ARG_PTR_TO_STACK_OR_NULL", 275);
  ("ARG_PTR_TO_BTF_ID_OR_NULL", 269);
  ("ARG_PTR_TO_UNINIT_MEM", 67141636);
  ("ARG_PTR_TO_FIXED_SIZE_MEM", 262148);
  ("__BPF_ARG_TYPE_LIMIT", 268435455)
]%Z.

Definition enum_bpf_return_type : decl := DEnum "bpf_return_type" false [
  ("RET_INTEGER", 0);
  ("RET_VOID", 1);
  ("RET_PTR_TO_MAP_VALUE", 2);
  ("RET_PTR_TO_SOCKET", 3);
  ("RET_PTR_TO_TCP_SOCK", 4);
  ("RET_PTR_TO_SOCK_COMMON", 5);
  ("RET_PTR_TO_MEM", 6);
  ("RET_PTR_TO_MEM_OR_BTF_ID", 7);
  ("RET_PTR_TO_BTF_ID", 8);
  ("__BPF_RET_TYPE_MAX", 9);
  ("RET_PTR_TO_MAP_VALUE_OR_NULL", 258);
  ("RET_PTR_TO_SOCKET_OR_NULL", 259);
  ("RET_PTR_TO_TCP_SOCK_OR_NULL", 260);
  ("RET_PTR_TO_SOCK_COMMON_OR_NULL", 261);
  ("RET_PTR_TO_RINGBUF_MEM_OR_NULL", 1286);
  ("RET_PTR_TO_DYNPTR_MEM_OR_NULL", 262);
  ("RET_PTR_TO_BTF_ID_OR_NULL", 264);
  ("RET_PTR_TO_BTF_ID_TRUSTED", 1048584);
  ("__BPF_RET_TYPE_LIMIT", 268435455)
]%Z.

Definition struct_bpf_func_proto : decl := DComp Struct "bpf_func_proto" false [
  fld "func" (ptr (fn (ty "u64") [ty "u64"; ty "u64"; ty "u64"; ty "u64"; ty "u64"]));
  fld "gpl_only" (ty "bool");
  fld "pkt_access" (ty "bool");
  fld "might_sleep" (ty "bool");
  fld "allow_fastcall" (ty "bool");
  fld "ret_type" (enum_ "bpf_return_type");
  unnamed (anon_union [
    unnamed (anon_struct [
      fld "arg1_type" (enum_ "bpf_arg_type");
      fld "arg2_type" (enum_ "bpf_arg_type");
      fld "arg3_type" (enum_ "bpf_arg_type");
      fld "arg4_type" (enum_ "bpf_arg_type");
      fld "arg5_type" (enum_ "bpf_arg_type")
    ]);
    fld "arg_type" (arr (enum_ "bpf_arg_type") 5)
  ]);
  unnamed (anon_union [
    unnamed (anon_struct [
      fld "arg1_btf_id" (ptr (ty "u32"));
      fld "arg2_btf_id" (ptr (ty "u32"));
      fld "arg3_btf_id" (ptr (ty "u32"));
      fld "arg4_btf_id" (ptr (ty "u32"));
      fld "arg5_btf_id" (ptr (ty "u32"))
    ]);
    fld "arg_btf_id" (arr (ptr (ty "u32")) 5);
    unnamed (anon_struct [
      fld "arg1_size" (ty "size_t");
      fld "arg2_size" (ty "size_t");
      fld "arg3_size" (ty "size_t");
      fld "arg4_size" (ty "size_t");
      fld "arg5_size" (ty "size_t")
    ]);
    fld "arg_size" (arr (ty "size_t") 5)
  ]);
  fld "ret_btf_id" (ptr int);
  fld "allowed" (ptr (fn (ty "bool") [ptr (struct_ "bpf_prog")]))
].

Definition enum_bpf_access_type : decl := DEnum "bpf_access_type" false [
  ("BPF_READ", 1);
  ("BPF_WRITE", 2)
]%Z.

Definition enum_bpf_reg_type : decl := DEnum "bpf_reg_type" false [
  ("NOT_INIT", 0);
  ("SCALAR_VALUE", 1);
  ("PTR_TO_CTX", 2);
  ("CONST_PTR_TO_MAP", 3);
  ("PTR_TO_MAP_VALUE", 4);
  ("PTR_TO_MAP_KEY", 5);
  ("PTR_TO_STACK", 6);
  ("PTR_TO_PACKET_META", 7);
  ("PTR_TO_PACKET", 8);
  ("PTR_TO_PACKET_END", 9);
  ("PTR_TO_FLOW_KEYS", 10);
  ("PTR_TO_SOCKET", 11);
  ("PTR_TO_SOCK_COMMON", 12);
  ("PTR_TO_TCP_SOCK", 13);
  ("PTR_TO_TP_BUFFER", 14);
  ("PTR_TO_XDP_SOCK", 15);
  ("PTR_TO_BTF_ID", 16);
  ("PTR_TO_MEM", 17);
  ("PTR_TO_ARENA", 18);
  ("PTR_TO_BUF", 19);
  ("PTR_TO_FUNC", 20);
  ("CONST_PTR_TO_DYNPTR", 21);
  ("__BPF_REG_TYPE_MAX", 22);
  ("PTR_TO_MAP_VALUE_OR_NULL", 260);
  ("PTR_TO_SOCKET_OR_NULL", 267);
  ("PTR_TO_SOCK_COMMON_OR_NULL", 268);
  ("PTR_TO_TCP_SOCK_OR_NULL", 269);
  ("PTR_TO_BTF_ID_OR_NULL", 272);
  ("__BPF_REG_TYPE_LIMIT", 268435455)
]%Z.

Definition struct_bpf_prog_ops : decl := DComp Struct "bpf_prog_ops" false [
  fld "test_run" (ptr (fn int [ptr (struct_ "bpf_prog"); ptr (union_ "bpf_attr"); ptr (union_
      "bpf_attr")]))
].

Definition struct_bpf_verifier_ops : decl := DComp Struct "bpf_verifier_ops" false [
  fld "get_func_proto" (ptr (fn (ptr (struct_ "bpf_func_proto")) [enum_ "bpf_func_id"; ptr
      (struct_ "bpf_prog")]));
  fld "is_valid_access" (ptr (fn (ty "bool") [int; int; enum_ "bpf_access_type"; ptr (struct_
      "bpf_prog"); ptr (struct_ "bpf_insn_access_aux")]));
  fld "gen_prologue" (ptr (fn int [ptr (struct_ "bpf_insn"); ty "bool"; ptr (struct_
      "bpf_prog")]));
  fld "gen_epilogue" (ptr (fn int [ptr (struct_ "bpf_insn"); ptr (struct_ "bpf_prog"); ty "s16"]));
  fld "gen_ld_abs" (ptr (fn int [ptr (struct_ "bpf_insn"); ptr (struct_ "bpf_insn")]));
  fld "convert_ctx_access" (ptr (fn (ty "u32") [enum_ "bpf_access_type"; ptr (struct_
      "bpf_insn"); ptr (struct_ "bpf_insn"); ptr (struct_ "bpf_prog"); ptr (ty "u32")]));
  fld "btf_struct_access" (ptr (fn int [ptr (struct_ "bpf_verifier_log"); ptr (struct_
      "bpf_reg_state"); int; int]))
].

Definition struct_bpf_link : decl := DComp Struct "bpf_link" false [
  fld "refcnt" (ty "atomic64_t");
  fld "id" (ty "u32");
  fld "type" (enum_ "bpf_link_type");
  fld "ops" (ptr (struct_ "bpf_link_ops"));
  fld "prog" (ptr (struct_ "bpf_prog"));
  fld "flags" (ty "u32");
  fld "attach_type" (enum_ "bpf_attach_type");
  unnamed (anon_union [
    fld "rcu" (struct_ "callback_head");
    fld "work" (struct_ "work_struct")
  ]);
  fld "sleepable" (ty "bool")
].

Definition struct_bpf_link_ops : decl := DComp Struct "bpf_link_ops" false [
  fld "release" (ptr (fn void [ptr (struct_ "bpf_link")]));
  fld "dealloc" (ptr (fn void [ptr (struct_ "bpf_link")]));
  fld "dealloc_deferred" (ptr (fn void [ptr (struct_ "bpf_link")]));
  fld "detach" (ptr (fn int [ptr (struct_ "bpf_link")]));
  fld "update_prog" (ptr (fn int [ptr (struct_ "bpf_link"); ptr (struct_ "bpf_prog"); ptr
      (struct_ "bpf_prog")]));
  fld "show_fdinfo" (ptr (fn void [ptr (struct_ "bpf_link"); ptr (struct_ "seq_file")]));
  fld "fill_link_info" (ptr (fn int [ptr (struct_ "bpf_link"); ptr (struct_ "bpf_link_info")]));
  fld "update_map" (ptr (fn int [ptr (struct_ "bpf_link"); ptr (struct_ "bpf_map"); ptr (struct_
      "bpf_map")]));
  fld "poll" (ptr (fn (ty "__poll_t") [ptr (struct_ "file"); ptr (struct_ "poll_table_struct")]))
].

Definition struct_bpf_nh_params : decl := DComp Struct "bpf_nh_params" false [
  fld "nh_family" (ty "u32");
  unnamed (anon_union [
    fld "ipv4_nh" (ty "u32");
    fld "ipv6_nh" (struct_ "in6_addr")
  ])
].

Definition struct_bpf_redirect_info : decl := DComp Struct "bpf_redirect_info" false [
  fld "tgt_index" (ty "u64");
  fld "tgt_value" (ptr void);
  fld "map" (ptr (struct_ "bpf_map"));
  fld "flags" (ty "u32");
  fld "map_id" (ty "u32");
  fld "map_type" (enum_ "bpf_map_type");
  fld "nh" (struct_ "bpf_nh_params");
  fld "kern_flags" (ty "u32")
].

Definition struct_bpf_mem_alloc : decl := DComp Struct "bpf_mem_alloc" false [
  fld "caches" (ptr (struct_ "bpf_mem_caches"));
  fld "cache" (ptr (struct_ "bpf_mem_cache"));
  fld "objcg" (ptr (struct_ "obj_cgroup"));
  fld "percpu" (ty "bool");
  fld "work" (struct_ "work_struct")
].

Definition typedef_rqspinlock_t : decl := DTypedef "rqspinlock_t" (struct_ "qspinlock").

Definition struct_pcpu_freelist_node : decl := DComp Struct "pcpu_freelist_node" false [
  fld "next" (ptr (struct_ "pcpu_freelist_node"))
].

Definition struct_pcpu_freelist : decl := DComp Struct "pcpu_freelist" false [
  fld "freelist" (ptr (struct_ "pcpu_freelist_head"))
].

Definition struct_bpf_lru_node : decl := DComp Struct "bpf_lru_node" false [
  fld "list" (struct_ "list_head");
  fld "cpu" (ty "u16");
  fld "type" (ty "u8");
  fld "ref" (ty "u8")
].

Definition struct_bpf_lru_list : decl := DComp Struct "bpf_lru_list" false [
  fld "lists" (arr (struct_ "list_head") 3);
  fld "counts" (arr uint 2);
  fld "next_inactive_rotation" (ptr (struct_ "list_head"));
  fld "lock" (ty "raw_spinlock_t");
  bit "" long 64;
  bit "" long 64;
  bit "" long 64;
  bit "" long 64;
  bit "" long 64;
  bit "" long 64;
  bit "" long 64
].

Definition struct_bpf_common_lru : decl := DComp Struct "bpf_common_lru" false [
  fld "lru_list" (struct_ "bpf_lru_list");
  fld "local_list" (ptr (struct_ "bpf_lru_locallist"));
  bit "" long 64;
  bit "" long 64;
  bit "" long 64;
  bit "" long 64;
  bit "" long 64;
  bit "" long 64;
  bit "" long 64
].

Definition typedef_del_from_htab_func : decl := DTypedef "del_from_htab_func" (ptr (fn (ty
    "bool") [ptr void; ptr (struct_ "bpf_lru_node")])).

Definition struct_bpf_lru : decl := DComp Struct "bpf_lru" false [
  unnamed (anon_union [
    fld "common_lru" (struct_ "bpf_common_lru");
    fld "percpu_lru" (ptr (struct_ "bpf_lru_list"))
  ]);
  fld "del_from_htab" (ty "del_from_htab_func");
  fld "del_arg" (ptr void);
  fld "hash_offset" uint;
  fld "target_free" uint;
  fld "nr_scans" uint;
  fld "percpu" (ty "bool");
  bit "" long 64;
  bit "" long 64;
  bit "" long 64;
  bit "" long 64
].

Definition struct_bpf_array : decl := DComp Struct "bpf_array" false [
  fld "map" (struct_ "bpf_map");
  fld "elem_size" (ty "u32");
  fld "index_mask" (ty "u32");
  fld "aux" (ptr (struct_ "bpf_array_aux"));
  unnamed (anon_union [
    unnamed (anon_struct [
      fld "__empty_value" (anon_struct [
      ]);
      fld "value" (arr char 0)
    ]);
    unnamed (anon_struct [
      fld "__empty_ptrs" (anon_struct [
      ]);
      fld "ptrs" (arr (ptr void) 0)
    ]);
    unnamed (anon_struct [
      fld "__empty_pptrs" (anon_struct [
      ]);
      fld "pptrs" (arr (ptr void) 0)
    ])
  ])
].

Definition struct_bpf_dispatcher_prog : decl := DComp Struct "bpf_dispatcher_prog" false [
  fld "prog" (ptr (struct_ "bpf_prog"));
  fld "users" (ty "refcount_t")
].

Definition struct_bpf_dispatcher : decl := DComp Struct "bpf_dispatcher" false [
  fld "mutex" (struct_ "mutex");
  fld "func" (ptr void);
  fld "progs" (arr (struct_ "bpf_dispatcher_prog") 48);
  fld "num_progs" int;
  fld "image" (ptr void);
  fld "rw_image" (ptr void);
  fld "image_off" (ty "u32");
  fld "ksym" (struct_ "bpf_ksym");
  fld "sc_key" (ptr (struct_ "static_call_key"));
  fld "sc_tramp" (ptr void)
].

Definition struct_bucket : decl := DComp Struct "bucket" false [
  fld "head" (struct_ "hlist_nulls_head");
  fld "raw_lock" (ty "rqspinlock_t")
].

Definition struct_bpf_htab : decl := DComp Struct "bpf_htab" false [
  fld "map" (struct_ "bpf_map");
  fld "ma" (struct_ "bpf_mem_alloc");
  fld "pcpu_ma" (struct_ "bpf_mem_alloc");
  fld "buckets" (ptr (struct_ "bucket"));
  fld "elems" (ptr void);
  bit "" long 64;
  bit "" long 64;
  unnamed (anon_union [
    fld "freelist" (struct_ "pcpu_freelist");
    fld "lru" (struct_ "bpf_lru")
  ]);
  fld "extra_elems" (ptr (ptr (struct_ "htab_elem")));
  fld "pcount" (struct_ "percpu_counter");
  fld "count" (ty "atomic_t");
  fld "use_percpu_counter" (ty "bool");
  fld "n_buckets" (ty "u32");
  fld "elem_size" (ty "u32");
  fld "hashrnd" (ty "u32");
  bit "" long 64;
  bit "" long 64;
  bit "" long 64;
  bit "" long 64;
  bit "" long 64;
  bit "" long 64;
  bit "" long 64
].

Definition struct_htab_elem : decl := DComp Struct "htab_elem" false [
  unnamed (anon_union [
    fld "hash_node" (struct_ "hlist_nulls_node");
    unnamed (anon_struct [
      fld "padding" (ptr void);
      unnamed (anon_union [
        fld "fnode" (struct_ "pcpu_freelist_node");
        fld "batch_flink" (ptr (struct_ "htab_elem"))
      ])
    ])
  ]);
  unnamed (anon_union [
    fld "ptr_to_pptr" (ptr void);
    fld "lru_node" (struct_ "bpf_lru_node")
  ]);
  fld "hash" (ty "u32");
  bit "" long 0;
  fld "key" (arr char 0)
].

Definition struct_bpf_xdp_link : decl := DComp Struct "bpf_xdp_link" false [
  fld "link" (struct_ "bpf_link");
  fld "dev" (ptr (struct_ "net_device"));
  fld "flags" int
].

(** The declarations of this part, in the order of the header. *)
Definition bpf_decls : list decl := [struct_llist_head; struct_latch_tree_node;
    struct_percpu_counter; struct_hlist_nulls_node; struct_hlist_nulls_head; struct_sock_filter;
    struct_bpf_prog; struct_bpf_map_ops; struct_bpf_map; struct_btf_header; struct_btf;
    struct_bpf_ksym; struct_bpf_stream; struct_bpf_prog_aux; enum_bpf_arg_type;
    enum_bpf_return_type; struct_bpf_func_proto; enum_bpf_access_type; enum_bpf_reg_type;
    struct_bpf_prog_ops; struct_bpf_verifier_ops; struct_bpf_link; struct_bpf_link_ops;
    struct_bpf_nh_params; struct_bpf_redirect_info; struct_bpf_mem_alloc; typedef_rqspinlock_t;
    struct_pcpu_freelist_node; struct_pcpu_freelist; struct_bpf_lru_node; struct_bpf_lru_list;
    struct_bpf_common_lru; typedef_del_from_htab_func; struct_bpf_lru; struct_bpf_array;
    struct_bpf_dispatcher_prog; struct_bpf_dispatcher; struct_bucket; struct_bpf_htab;
    struct_htab_elem; struct_bpf_xdp_link].
