(* ===== verification/KernelNet.v ===== *)
(** * Kernel declarations: network devices and XDP (kernelspace/vmlinux.h)

    The XDP buffers, the socket buffer, the network device with its queues and operation
    tables, the veth driver and the bridge the programs run under. *)

From S2P Require Import Prelude Types CTypes.

Open Scope N_scope.
Open Scope string_scope.

Definition typedef___kernel_dev_t : decl := DTypedef "__kernel_dev_t" (ty "u32").

Definition typedef_dev_t : decl := DTypedef "dev_t" (ty "__kernel_dev_t").

Definition typedef_rcuref_t : decl := DTypedef "rcuref_t" (anon_struct [
    fld "refcnt" (ty "atomic_t")
  ]).

Definition struct___call_single_node : decl := DComp Struct "__call_single_node" false [
  fld "llist" (struct_ "llist_node");
  unnamed (anon_union [
    fld "u_flags" uint;
    fld "a_flags" (ty "atomic_t")
  ]);
  fld "src" (ty "u16");
  fld "dst" (ty "u16")
].

Definition typedef_seqcount_t : decl := DTypedef "seqcount_t" (struct_ "seqcount").

Definition struct_seqcount_spinlock : decl := DComp Struct "seqcount_spinlock" false [
  fld "seqcount" (ty "seqcount_t")
].

Definition typedef_seqcount_spinlock_t : decl := DTypedef "seqcount_spinlock_t" (struct_
    "seqcount_spinlock").

Definition struct_lockdep_map : decl := DComp Struct "lockdep_map" false [].

Definition struct_kobject : decl := DComp Struct "kobject" false [
  fld "name" (ptr char);
  fld "entry" (struct_ "list_head");
  fld "parent" (ptr (struct_ "kobject"));
  fld "kset" (ptr (struct_ "kset"));
  fld "ktype" (ptr (struct_ "kobj_type"));
  fld "sd" (ptr (struct_ "kernfs_node"));
  fld "kref" (struct_ "kref");
  bit "state_initialized" uint 1;
  bit "state_in_sysfs" uint 1;
  bit "state_add_uevent_sent" uint 1;
  bit "state_remove_uevent_sent" uint 1;
  bit "uevent_suppress" uint 1
].

Definition typedef_local_t : decl := DTypedef "local_t" (anon_struct [
    fld "a" (ty "atomic_long_t")
  ]).

Definition typedef_local64_t : decl := DTypedef "local64_t" (anon_struct [
    fld "a" (ty "local_t")
  ]).

Definition typedef_wait_queue_head_t : decl := DTypedef "wait_queue_head_t" (struct_
    "wait_queue_head").

Definition typedef_smp_call_func_t : decl := DTypedef "smp_call_func_t" (ptr (fn void [ptr
    void])).

Definition struct___call_single_data : decl := DComp Struct "__call_single_data" false [
  fld "node" (struct_ "__call_single_node");
  fld "func" (ty "smp_call_func_t");
  fld "info" (ptr void)
].

Definition typedef_call_single_data_t : decl := DTypedef "call_single_data_t" (struct_
    "__call_single_data").

Definition struct_xarray : decl := DComp Struct "xarray" false [
  fld "xa_lock" (ty "spinlock_t");
  fld "xa_flags" (ty "gfp_t");
  fld "xa_head" (ptr void)
].

Definition struct_srcu_struct : decl := DComp Struct "srcu_struct" false [
  fld "srcu_ctrp" (ptr (struct_ "srcu_ctr"));
  fld "sda" (ptr (struct_ "srcu_data"));
  fld "dep_map" (struct_ "lockdep_map");
  fld "srcu_sup" (ptr (struct_ "srcu_usage"))
].

Definition enum_dl_dev_state : decl := DEnum "dl_dev_state" false [
  ("DL_DEV_NO_DRIVER", 0);
  ("DL_DEV_PROBING", 1);
  ("DL_DEV_DRIVER_BOUND", 2);
  ("DL_DEV_UNBINDING", 3)
]%Z.

Definition struct_dev_links_info : decl := DComp Struct "dev_links_info" false [
  fld "suppliers" (struct_ "list_head");
  fld "consumers" (struct_ "list_head");
  fld "defer_sync" (struct_ "list_head");
  fld "status" (enum_ "dl_dev_state")
].

Definition struct_pm_message : decl := DComp Struct "pm_message" false [
  fld "event" int
].

Definition typedef_pm_message_t : decl := DTypedef "pm_message_t" (struct_ "pm_message").

Definition enum_rpm_request : decl := DEnum "rpm_request" false [
  ("RPM_REQ_NONE", 0);
  ("RPM_REQ_IDLE", 1);
  ("RPM_REQ_SUSPEND", 2);
  ("RPM_REQ_AUTOSUSPEND", 3);
  ("RPM_REQ_RESUME", 4)
]%Z.

Definition enum_rpm_status : decl := DEnum "rpm_status" false [
  ("RPM_INVALID", (-1));
  ("RPM_ACTIVE", 0);
  ("RPM_RESUMING", 1);
  ("RPM_SUSPENDED", 2);
  ("RPM_SUSPENDING", 3);
  ("RPM_BLOCKED", 4)
]%Z.

Definition struct_dev_pm_info : decl := DComp Struct "dev_pm_info" false [
  fld "power_state" (ty "pm_message_t");
  bit "can_wakeup" (ty "bool") 1;
  bit "async_suspend" (ty "bool") 1;
  bit "in_dpm_list" (ty "bool") 1;
  bit "is_prepared" (ty "bool") 1;
  bit "is_suspended" (ty "bool") 1;
  bit "is_noirq_suspended" (ty "bool") 1;
  bit "is_late_suspended" (ty "bool") 1;
  bit "no_pm" (ty "bool") 1;
  bit "early_init" (ty "bool") 1;
  bit "direct_complete" (ty "bool") 1;
  fld "driver_flags" (ty "u32");
  fld "lock" (ty "spinlock_t");
  fld "entry" (struct_ "list_head");
  fld "completion" (struct_ "completion");
  fld "wakeup" (ptr (struct_ "wakeup_source"));
  fld "work_in_progress" (ty "bool");
  bit "wakeup_path" (ty "bool") 1;
  bit "syscore" (ty "bool") 1;
  bit "no_pm_callbacks" (ty "bool") 1;
  bit "smart_suspend" (ty "bool") 1;
  bit "must_resume" (ty "bool") 1;
  bit "may_skip_resume" (ty "bool") 1;
  bit "strict_midlayer" (ty "bool") 1;
  fld "suspend_timer" (struct_ "hrtimer");
  fld "timer_expires" (ty "u64");
  fld "work" (struct_ "work_struct");
  fld "wait_queue" (ty "wait_queue_head_t");
  fld "wakeirq" (ptr (struct_ "wake_irq"));
  fld "usage_count" (ty "atomic_t");
  fld "child_count" (ty "atomic_t");
  bit "disable_depth" uint 3;
  bit "idle_notification" (ty "bool") 1;
  bit "request_pending" (ty "bool") 1;
  bit "deferred_resume" (ty "bool") 1;
  bit "needs_force_resume" (ty "bool") 1;
  bit "runtime_auto" (ty "bool") 1;
  bit "ignore_children" (ty "bool") 1;
  bit "no_callbacks" (ty "bool") 1;
  bit "irq_safe" (ty "bool") 1;
  bit "use_autosuspend" (ty "bool") 1;
  bit "timer_autosuspends" (ty "bool") 1;
  bit "memalloc_noio" (ty "bool") 1;
  fld "links_count" uint;
  fld "request" (enum_ "rpm_request");
  fld "runtime_status" (enum_ "rpm_status");
  fld "last_status" (enum_ "rpm_status");
  fld "runtime_error" int;
  fld "autosuspend_delay" int;
  fld "last_busy" (ty "u64");
  fld "active_time" (ty "u64");
  fld "suspended_time" (ty "u64");
  fld "accounting_timestamp" (ty "u64");
  fld "subsys_data" (ptr (struct_ "pm_subsys_data"));
  fld "set_latency_tolerance" (ptr (fn void [ptr (struct_ "device"); ty "s32"]));
  fld "qos" (ptr (struct_ "dev_pm_qos"));
  bit "detach_power_off" (ty "bool") 1
].

Definition struct_dev_msi_info : decl := DComp Struct "dev_msi_info" false [
  fld "domain" (ptr (struct_ "irq_domain"));
  fld "data" (ptr (struct_ "msi_device_data"))
].

Definition struct_dev_archdata : decl := DComp Struct "dev_archdata" false [].

Definition enum_device_removable : decl := DEnum "device_removable" false [
  ("DEVICE_REMOVABLE_NOT_SUPPORTED", 0);
  ("DEVICE_REMOVABLE_UNKNOWN", 1);
  ("DEVICE_FIXED", 2);
  ("DEVICE_REMOVABLE", 3)
]%Z.

Definition struct_device : decl := DComp Struct "device" false [
  fld "kobj" (struct_ "kobject");
  fld "parent" (ptr (struct_ "device"));
  fld "p" (ptr (struct_ "device_private"));
  fld "init_name" (ptr char);
  fld "type" (ptr (struct_ "device_type"));
  fld "bus" (ptr (struct_ "bus_type"));
  fld "driver" (ptr (struct_ "device_driver"));
  fld "platform_data" (ptr void);
  fld "driver_data" (ptr void);
  fld "driver_override" (anon_struct [
    fld "name" (ptr char);
    fld "lock" (ty "spinlock_t")
  ]);
  fld "mutex" (struct_ "mutex");
  fld "links" (struct_ "dev_links_info");
  fld "power" (struct_ "dev_pm_info");
  fld "pm_domain" (ptr (struct_ "dev_pm_domain"));
  fld "msi" (struct_ "dev_msi_info");
  fld "dma_mask" (ptr (ty "u64"));
  fld "coherent_dma_mask" (ty "u64");
  fld "bus_dma_limit" (ty "u64");
  fld "dma_range_map" (ptr (struct_ "bus_dma_region"));
  fld "dma_parms" (ptr (struct_ "device_dma_parameters"));
  fld "dma_pools" (struct_ "list_head");
  fld "dma_io_tlb_mem" (ptr (struct_ "io_tlb_mem"));
  fld "archdata" (struct_ "dev_archdata");
  fld "of_node" (ptr (struct_ "device_node"));
  fld "fwnode" (ptr (struct_ "fwnode_handle"));
  fld "numa_node" int;
  fld "devt" (ty "dev_t");
  fld "id" (ty "u32");
  fld "devres_lock" (ty "spinlock_t");
  fld "devres_head" (struct_ "list_head");
  fld "class" (ptr (struct_ "class"));
  fld "groups" (ptr (ptr (struct_ "attribute_group")));
  fld "release" (ptr (fn void [ptr (struct_ "device")]));
  fld "iommu_group" (ptr (struct_ "iommu_group"));
  fld "iommu" (ptr (struct_ "dev_iommu"));
  fld "physical_location" (ptr (struct_ "device_physical_location"));
  fld "removable" (enum_ "device_removable");
  bit "offline_disabled" (ty "bool") 1;
  bit "offline" (ty "bool") 1;
  bit "of_node_reused" (ty "bool") 1;
  bit "state_synced" (ty "bool") 1;
  bit "can_match" (ty "bool") 1;
  bit "dma_skip_sync" (ty "bool") 1;
  bit "dma_iommu" (ty "bool") 1
].

Definition struct_u64_stats_sync : decl := DComp Struct "u64_stats_sync" false [].

Definition struct_irq_affinity_notify : decl := DComp Struct "irq_affinity_notify" false [
  fld "irq" uint;
  fld "kref" (struct_ "kref");
  fld "work" (struct_ "work_struct");
  fld "notify" (ptr (fn void [ptr (struct_ "irq_affinity_notify"); ptr (ty "cpumask_t")]));
  fld "release" (ptr (fn void [ptr (struct_ "kref")]))
].

Definition typedef___wsum : decl := DTypedef "__wsum" (ty "__u32").

Definition typedef_rht_hashfn_t : decl := DTypedef "rht_hashfn_t" (ptr (fn (ty "u32") [ptr void;
    ty "u32"; ty "u32"])).

Definition typedef_rht_obj_hashfn_t : decl := DTypedef "rht_obj_hashfn_t" (ptr (fn (ty "u32")
    [ptr void; ty "u32"; ty "u32"])).

Definition typedef_rht_obj_cmpfn_t : decl := DTypedef "rht_obj_cmpfn_t" (ptr (fn int [ptr
    (struct_ "rhashtable_compare_arg"); ptr void])).

Definition struct_rhashtable_params : decl := DComp Struct "rhashtable_params" false [
  fld "nelem_hint" (ty "u16");
  fld "key_len" (ty "u16");
  fld "key_offset" (ty "u16");
  fld "head_offset" (ty "u16");
  fld "max_size" uint;
  fld "min_size" (ty "u16");
  fld "automatic_shrinking" (ty "bool");
  fld "hashfn" (ty "rht_hashfn_t");
  fld "obj_hashfn" (ty "rht_obj_hashfn_t");
  fld "obj_cmpfn" (ty "rht_obj_cmpfn_t")
].

Definition struct_rhashtable : decl := DComp Struct "rhashtable" false [
  fld "tbl" (ptr (struct_ "bucket_table"));
  fld "key_len" uint;
  fld "max_elems" uint;
  fld "p" (struct_ "rhashtable_params");
  fld "rhlist" (ty "bool");
  fld "run_work" (struct_ "work_struct");
  fld "mutex" (struct_ "mutex");
  fld "lock" (ty "spinlock_t");
  fld "nelems" (ty "atomic_t")
].

Definition typedef_sk_buff_data_t : decl := DTypedef "sk_buff_data_t" uint.

Definition struct_sk_buff_fields_1 : list (string * ctype * option N) := [
  unnamed (anon_union [
    unnamed (anon_struct [
      fld "next" (ptr (struct_ "sk_buff"));
      fld "prev" (ptr (struct_ "sk_buff"));
      unnamed (anon_union [
        fld "dev" (ptr (struct_ "net_device"));
        fld "dev_scratch" ulong
      ])
    ]);
    fld "rbnode" (struct_ "rb_node");
    fld "list" (struct_ "list_head");
    fld "ll_node" (struct_ "llist_node")
  ]);
  fld "sk" (ptr (struct_ "sock"));
  unnamed (anon_union [
    fld "tstamp" (ty "ktime_t");
    fld "skb_mstamp_ns" (ty "u64")
  ]);
  fld "cb" (arr char 48);
  unnamed (anon_union [
    unnamed (anon_struct [
      fld "_skb_refdst" ulong;
      fld "destructor" (ptr (fn void [ptr (struct_ "sk_buff")]))
    ]);
    fld "tcp_tsorted_anchor" (struct_ "list_head");
    fld "_sk_redir" ulong
  ]);
  fld "_nfct" ulong;
  fld "len" uint;
  fld "data_len" uint;
  fld "mac_len" (ty "__u16");
  fld "hdr_len" (ty "__u16");
  fld "queue_mapping" (ty "__u16");
  fld "__cloned_offset" (arr (ty "__u8") 0);
  bit "cloned" (ty "__u8") 1;
  bit "nohdr" (ty "__u8") 1;
  bit "fclone" (ty "__u8") 2;
  bit "peeked" (ty "__u8") 1;
  bit "head_frag" (ty "__u8") 1;
  bit "pfmemalloc" (ty "__u8") 1;
  bit "pp_recycle" (ty "__u8") 1;
  fld "active_extensions" (ty "__u8")
].

Definition struct_sk_buff_fields_2 : list (string * ctype * option N) := [
  unnamed (anon_union [
    unnamed (anon_struct [
      fld "__pkt_type_offset" (arr (ty "__u8") 0);
      bit "pkt_type" (ty "__u8") 3;
      bit "ignore_df" (ty "__u8") 1;
      bit "dst_pending_confirm" (ty "__u8") 1;
      bit "ip_summed" (ty "__u8") 2;
      bit "ooo_okay" (ty "__u8") 1;
      fld "__mono_tc_offset" (arr (ty "__u8") 0);
      bit "tstamp_type" (ty "__u8") 2;
      bit "tc_at_ingress" (ty "__u8") 1;
      bit "tc_skip_classify" (ty "__u8") 1;
      bit "remcsum_offload" (ty "__u8") 1;
      bit "csum_complete_sw" (ty "__u8") 1;
      bit "csum_level" (ty "__u8") 2;
      bit "inner_protocol_type" (ty "__u8") 1;
      bit "l4_hash" (ty "__u8") 1;
      bit "sw_hash" (ty "__u8") 1;
      bit "no_fcs" (ty "__u8") 1;
      bit "encapsulation" (ty "__u8") 1;
      bit "encap_hdr_csum" (ty "__u8") 1;
      bit "csum_valid" (ty "__u8") 1;
      bit "" char 1;
      bit "ndisc_nodetype" (ty "__u8") 2;
      bit "ipvs_property" (ty "__u8") 1;
      bit "nf_trace" (ty "__u8") 1;
      bit "redirected" (ty "__u8") 1;
      bit "slow_gro" (ty "__u8") 1;
      bit "csum_not_inet" (ty "__u8") 1;
      bit "unreadable" (ty "__u8") 1;
      fld "tc_index" (ty "__u16");
      fld "alloc_cpu" (ty "u16");
      unnamed (anon_union [
        fld "csum" (ty "__wsum");
        unnamed (anon_struct [
          fld "csum_start" (ty "__u16");
          fld "csum_offset" (ty "__u16")
        ])
      ]);
      fld "priority" (ty "__u32");
      fld "skb_iif" int;
      fld "hash" (ty "__u32");
      unnamed (anon_union [
        fld "vlan_all" (ty "u32");
        unnamed (anon_struct [
          fld "vlan_proto" (ty "__be16");
          fld "vlan_tci" (ty "__u16")
        ])
      ]);
      unnamed (anon_union [
        fld "napi_id" uint;
        fld "sender_cpu" uint
      ]);
      fld "secmark" (ty "__u32");
      unnamed (anon_union [
        fld "mark" (ty "__u32");
        fld "reserved_tailroom" (ty "__u32")
      ]);
      unnamed (anon_union [
        fld "inner_protocol" (ty "__be16");
        fld "inner_ipproto" (ty "__u8")
      ]);
      fld "inner_transport_header" (ty "__u16");
      fld "inner_network_header" (ty "__u16");
      fld "inner_mac_header" (ty "__u16");
      fld "protocol" (ty "__be16");
      fld "transport_header" (ty "__u16");
      fld "network_header" (ty "__u16");
      fld "mac_header" (ty "__u16")
    ]);
    fld "headers" (anon_struct [
      fld "__pkt_type_offset" (arr (ty "__u8") 0);
      bit "pkt_type" (ty "__u8") 3;
      bit "ignore_df" (ty "__u8") 1;
      bit "dst_pending_confirm" (ty "__u8") 1;
      bit "ip_summed" (ty "__u8") 2;
      bit "ooo_okay" (ty "__u8") 1;
      fld "__mono_tc_offset" (arr (ty "__u8") 0);
      bit "tstamp_type" (ty "__u8") 2;
      bit "tc_at_ingress" (ty "__u8") 1;
      bit "tc_skip_classify" (ty "__u8") 1;
      bit "remcsum_offload" (ty "__u8") 1;
      bit "csum_complete_sw" (ty "__u8") 1;
      bit "csum_level" (ty "__u8") 2;
      bit "inner_protocol_type" (ty "__u8") 1;
      bit "l4_hash" (ty "__u8") 1;
      bit "sw_hash" (ty "__u8") 1;
      bit "no_fcs" (ty "__u8") 1;
      bit "encapsulation" (ty "__u8") 1;
      bit "encap_hdr_csum" (ty "__u8") 1;
      bit "csum_valid" (ty "__u8") 1;
      bit "" char 1;
      bit "ndisc_nodetype" (ty "__u8") 2;
      bit "ipvs_property" (ty "__u8") 1;
      bit "nf_trace" (ty "__u8") 1;
      bit "redirected" (ty "__u8") 1;
      bit "slow_gro" (ty "__u8") 1;
      bit "csum_not_inet" (ty "__u8") 1;
      bit "unreadable" (ty "__u8") 1;
      fld "tc_index" (ty "__u16");
      fld "alloc_cpu" (ty "u16");
      unnamed (anon_union [
        fld "csum" (ty "__wsum");
        unnamed (anon_struct [
          fld "csum_start" (ty "__u16");
          fld "csum_offset" (ty "__u16")
        ])
      ]);
      fld "priority" (ty "__u32");
      fld "skb_iif" int;
      fld "hash" (ty "__u32");
      unnamed (anon_union [
        fld "vlan_all" (ty "u32");
        unnamed (anon_struct [
          fld "vlan_proto" (ty "__be16");
          fld "vlan_tci" (ty "__u16")
        ])
      ]);
      unnamed (anon_union [
        fld "napi_id" uint;
        fld "sender_cpu" uint
      ]);
      fld "secmark" (ty "__u32");
      unnamed (anon_union [
        fld "mark" (ty "__u32");
        fld "reserved_tailroom" (ty "__u32")
      ]);
      unnamed (anon_union [
        fld "inner_protocol" (ty "__be16");
        fld "inner_ipproto" (ty "__u8")
      ]);
      fld "inner_transport_header" (ty "__u16");
      fld "inner_network_header" (ty "__u16");
      fld "inner_mac_header" (ty "__u16");
      fld "protocol" (ty "__be16");
      fld "transport_header" (ty "__u16");
      fld "network_header" (ty "__u16");
      fld "mac_header" (ty "__u16")
    ])
  ]);
  fld "tail" (ty "sk_buff_data_t");
  fld "end" (ty "sk_buff_data_t");
  fld "head" (ptr uchar);
  fld "data" (ptr uchar);
  fld "truesize" uint;
  fld "users" (ty "refcount_t");
  fld "extensions" (ptr (struct_ "skb_ext"))
].

Definition struct_sk_buff : decl :=
  DComp Struct "sk_buff" false (struct_sk_buff_fields_1 ++ struct_sk_buff_fields_2).

Definition typedef_possible_net_t : decl := DTypedef "possible_net_t" (anon_struct [
    fld "net" (ptr (struct_ "net"))
  ]).

Definition struct_sk_buff_list : decl := DComp Struct "sk_buff_list" false [
  fld "next" (ptr (struct_ "sk_buff"));
  fld "prev" (ptr (struct_ "sk_buff"))
].

Definition struct_sk_buff_head : decl := DComp Struct "sk_buff_head" false [
  unnamed (anon_union [
    unnamed (anon_struct [
      fld "next" (ptr (struct_ "sk_buff"));
      fld "prev" (ptr (struct_ "sk_buff"))
    ]);
    fld "list" (struct_ "sk_buff_list")
  ]);
  fld "qlen" (ty "__u32");
  fld "lock" (ty "spinlock_t")
].

Definition typedef_netdev_features_t : decl := DTypedef "netdev_features_t" (ty "u64").

Definition struct_ref_tracker_dir : decl := DComp Struct "ref_tracker_dir" false [].

Definition typedef_u64_stats_t : decl := DTypedef "u64_stats_t" (anon_struct [
    fld "v" (ty "local64_t")
  ]).

Definition struct_netdev_tc_txq : decl := DComp Struct "netdev_tc_txq" false [
  fld "count" (ty "u16");
  fld "offset" (ty "u16")
].

Definition typedef_xdp_features_t : decl := DTypedef "xdp_features_t" (ty "u32").

Definition struct_net_device_stats : decl := DComp Struct "net_device_stats" false [
  unnamed (anon_union [
    fld "rx_packets" ulong;
    fld "__rx_packets" (ty "atomic_long_t")
  ]);
  unnamed (anon_union [
    fld "tx_packets" ulong;
    fld "__tx_packets" (ty "atomic_long_t")
  ]);
  unnamed (anon_union [
    fld "rx_bytes" ulong;
    fld "__rx_bytes" (ty "atomic_long_t")
  ]);
  unnamed (anon_union [
    fld "tx_bytes" ulong;
    fld "__tx_bytes" (ty "atomic_long_t")
  ]);
  unnamed (anon_union [
    fld "rx_errors" ulong;
    fld "__rx_errors" (ty "atomic_long_t")
  ]);
  unnamed (anon_union [
    fld "tx_errors" ulong;
    fld "__tx_errors" (ty "atomic_long_t")
  ]);
  unnamed (anon_union [
    fld "rx_dropped" ulong;
    fld "__rx_dropped" (ty "atomic_long_t")
  ]);
  unnamed (anon_union [
    fld "tx_dropped" ulong;
    fld "__tx_dropped" (ty "atomic_long_t")
  ]);
  unnamed (anon_union [
    fld "multicast" ulong;
    fld "__multicast" (ty "atomic_long_t")
  ]);
  unnamed (anon_union [
    fld "collisions" ulong;
    fld "__collisions" (ty "atomic_long_t")
  ]);
  unnamed (anon_union [
    fld "rx_length_errors" ulong;
    fld "__rx_length_errors" (ty "atomic_long_t")
  ]);
  unnamed (anon_union [
    fld "rx_over_errors" ulong;
    fld "__rx_over_errors" (ty "atomic_long_t")
  ]);
  unnamed (anon_union [
    fld "rx_crc_errors" ulong;
    fld "__rx_crc_errors" (ty "atomic_long_t")
  ]);
  unnamed (anon_union [
    fld "rx_frame_errors" ulong;
    fld "__rx_frame_errors" (ty "atomic_long_t")
  ]);
  unnamed (anon_union [
    fld "rx_fifo_errors" ulong;
    fld "__rx_fifo_errors" (ty "atomic_long_t")
  ]);
  unnamed (anon_union [
    fld "rx_missed_errors" ulong;
    fld "__rx_missed_errors" (ty "atomic_long_t")
  ]);
  unnamed (anon_union [
    fld "tx_aborted_errors" ulong;
    fld "__tx_aborted_errors" (ty "atomic_long_t")
  ]);
  unnamed (anon_union [
    fld "tx_carrier_errors" ulong;
    fld "__tx_carrier_errors" (ty "atomic_long_t")
  ]);
  unnamed (anon_union [
    fld "tx_fifo_errors" ulong;
    fld "__tx_fifo_errors" (ty "atomic_long_t")
  ]);
  unnamed (anon_union [
    fld "tx_heartbeat_errors" ulong;
    fld "__tx_heartbeat_errors" (ty "atomic_long_t")
  ]);
  unnamed (anon_union [
    fld "tx_window_errors" ulong;
    fld "__tx_window_errors" (ty "atomic_long_t")
  ]);
  unnamed (anon_union [
    fld "rx_compressed" ulong;
    fld "__rx_compressed" (ty "atomic_long_t")
  ]);
  unnamed (anon_union [
    fld "tx_compressed" ulong;
    fld "__tx_compressed" (ty "atomic_long_t")
  ])
].

Definition struct_netdev_hw_addr_list : decl := DComp Struct "netdev_hw_addr_list" false [
  fld "list" (struct_ "list_head");
  fld "count" int;
  fld "tree" (struct_ "rb_root")
].

Definition enum_netdev_ml_priv_type : decl := DEnum "netdev_ml_priv_type" false [
  ("ML_PRIV_NONE", 0);
  ("ML_PRIV_CAN", 1)
]%Z.

Definition enum_netdev_stat_type : decl := DEnum "netdev_stat_type" false [
  ("NETDEV_PCPU_STAT_NONE", 0);
  ("NETDEV_PCPU_STAT_LSTATS", 1);
  ("NETDEV_PCPU_STAT_TSTATS", 2);
  ("NETDEV_PCPU_STAT_DSTATS", 3)
]%Z.

Definition struct_bpf_xdp_entity : decl := DComp Struct "bpf_xdp_entity" false [
  fld "prog" (ptr (struct_ "bpf_prog"));
  fld "link" (ptr (struct_ "bpf_xdp_link"))
].

Definition typedef_netdevice_tracker : decl := DTypedef "netdevice_tracker" (anon_struct [
  ]).

Definition struct_net_device_fields_1 : list (string * ctype * option N) := [
  fld "__cacheline_group_begin__net_device_read_tx" (arr (ty "__u8") 0);
  unnamed (anon_union [
    unnamed (anon_struct [
      bit "priv_flags" ulong 32;
      bit "lltx" ulong 1;
      bit "netmem_tx" ulong 1
    ]);
    fld "priv_flags_fast" (anon_struct [
      bit "priv_flags" ulong 32;
      bit "lltx" ulong 1;
      bit "netmem_tx" ulong 1
    ])
  ]);
  fld "netdev_ops" (ptr (struct_ "net_device_ops"));
  fld "header_ops" (ptr (struct_ "header_ops"));
  fld "_tx" (ptr (struct_ "netdev_queue"));
  fld "gso_partial_features" (ty "netdev_features_t");
  fld "real_num_tx_queues" uint;
  fld "gso_max_size" uint;
  fld "gso_ipv4_max_size" uint;
  fld "gso_max_segs" (ty "u16");
  fld "num_tc" (ty "s16");
  fld "mtu" uint;
  fld "needed_headroom" ushort;
  fld "tc_to_txq" (arr (struct_ "netdev_tc_txq") 16);
  fld "xps_maps" (arr (ptr (struct_ "xps_dev_maps")) 2);
  fld "tcx_egress" (ptr (struct_ "bpf_mprog_entry"));
  fld "__cacheline_group_end__net_device_read_tx" (arr (ty "__u8") 0);
  fld "__cacheline_group_begin__net_device_read_txrx" (arr (ty "__u8") 0);
  unnamed (anon_union [
    fld "lstats" (ptr (struct_ "pcpu_lstats"));
    fld "tstats" (ptr (struct_ "pcpu_sw_netstats"));
    fld "dstats" (ptr (struct_ "pcpu_dstats"))
  ]);
  fld "state" ulong;
  fld "flags" uint;
  fld "hard_header_len" ushort;
  fld "features" (ty "netdev_features_t");
  fld "ip6_ptr" (ptr (struct_ "inet6_dev"));
  fld "__cacheline_group_end__net_device_read_txrx" (arr (ty "__u8") 0);
  fld "__cacheline_group_begin__net_device_read_rx" (arr (ty "__u8") 0);
  fld "xdp_prog" (ptr (struct_ "bpf_prog"));
  fld "ptype_specific" (struct_ "list_head");
  fld "ifindex" int;
  fld "real_num_rx_queues" uint;
  fld "_rx" (ptr (struct_ "netdev_rx_queue"));
  fld "gro_max_size" uint;
  fld "gro_ipv4_max_size" uint;
  fld "rx_handler" (ptr (ty "rx_handler_func_t"));
  fld "rx_handler_data" (ptr void);
  fld "nd_net" (ty "possible_net_t");
  fld "tcx_ingress" (ptr (struct_ "bpf_mprog_entry"));
  fld "__cacheline_group_end__net_device_read_rx" (arr (ty "__u8") 0);
  fld "name" (arr char 16);
  fld "name_node" (ptr (struct_ "netdev_name_node"));
  fld "ifalias" (ptr (struct_ "dev_ifalias"));
  fld "mem_end" ulong;
  fld "mem_start" ulong;
  fld "base_addr" ulong;
  fld "dev_list" (struct_ "list_head");
  fld "napi_list" (struct_ "list_head");
  fld "unreg_list" (struct_ "list_head");
  fld "close_list" (struct_ "list_head");
  fld "ptype_all" (struct_ "list_head");
  fld "adj_list" (anon_struct [
    fld "upper" (struct_ "list_head");
    fld "lower" (struct_ "list_head")
  ]);
  fld "xdp_features" (ty "xdp_features_t");
  fld "xdp_metadata_ops" (ptr (struct_ "xdp_metadata_ops"));
  fld "xsk_tx_metadata_ops" (ptr (struct_ "xsk_tx_metadata_ops"));
  fld "gflags" ushort;
  fld "needed_tailroom" ushort;
  fld "hw_features" (ty "netdev_features_t");
  fld "wanted_features" (ty "netdev_features_t");
  fld "vlan_features" (ty "netdev_features_t");
  fld "hw_enc_features" (ty "netdev_features_t");
  fld "mpls_features" (ty "netdev_features_t");
  fld "min_mtu" uint;
  fld "max_mtu" uint;
  fld "type" ushort;
  fld "min_header_len" uchar;
  fld "name_assign_type" uchar;
  fld "group" int;
  fld "stats" (struct_ "net_device_stats");
  fld "core_stats" (ptr (struct_ "net_device_core_stats"));
  fld "carrier_up_count" (ty "atomic_t");
  fld "carrier_down_count" (ty "atomic_t");
  fld "ethtool_ops" (ptr (struct_ "ethtool_ops"));
  fld "l3mdev_ops" (ptr (struct_ "l3mdev_ops"));
  fld "ndisc_ops" (ptr (struct_ "ndisc_ops"));
  fld "xfrmdev_ops" (ptr (struct_ "xfrmdev_ops"));
  fld "operstate" uint;
  fld "link_mode" uchar;
  fld "if_port" uchar;
  fld "dma" uchar;
  fld "perm_addr" (arr uchar 32);
  fld "addr_assign_type" uchar;
  fld "addr_len" uchar;
  fld "upper_level" uchar;
  fld "lower_level" uchar;
  fld "threaded" (ty "u8");
  fld "neigh_priv_len" ushort;
  fld "dev_id" ushort;
  fld "dev_port" ushort;
  fld "irq" int;
  fld "priv_len" (ty "u32");
  fld "addr_list_lock" (ty "spinlock_t");
  fld "uc" (struct_ "netdev_hw_addr_list");
  fld "mc" (struct_ "netdev_hw_addr_list");
  fld "dev_addrs" (struct_ "netdev_hw_addr_list");
  fld "queues_kset" (ptr (struct_ "kset"));
  fld "promiscuity" uint;
  fld "allmulti" uint;
  fld "uc_promisc" (ty "bool");
  fld "ip_ptr" (ptr (struct_ "in_device"));
  fld "fib_nh_head" (struct_ "hlist_head");
  fld "vlan_info" (ptr (struct_ "vlan_info"));
  fld "tipc_ptr" (ptr (struct_ "tipc_bearer"));
  fld "mpls_ptr" (ptr (struct_ "mpls_dev"));
  fld "dev_addr" (ptr uchar);
  fld "num_rx_queues" uint;
  fld "xdp_zc_max_segs" uint;
  fld "ingress_queue" (ptr (struct_ "netdev_queue"));
  fld "nf_hooks_ingress" (ptr (struct_ "nf_hook_entries"));
  fld "broadcast" (arr uchar 32);
  fld "rx_cpu_rmap" (ptr (struct_ "cpu_rmap"));
  fld "index_hlist" (struct_ "hlist_node");
  fld "num_tx_queues" uint;
  fld "qdisc" (ptr (struct_ "Qdisc"));
  fld "tx_queue_len" uint;
  fld "tx_global_lock" (ty "spinlock_t");
  fld "xdp_bulkq" (ptr (struct_ "xdp_dev_bulk_queue"));
  fld "qdisc_hash" (arr (struct_ "hlist_head") 16);
  fld "watchdog_timer" (struct_ "timer_list");
  fld "watchdog_timeo" int;
  fld "proto_down_reason" (ty "u32");
  fld "todo_list" (struct_ "list_head");
  fld "pcpu_refcnt" (ptr int);
  fld "refcnt_tracker" (struct_ "ref_tracker_dir");
  fld "link_watch_list" (struct_ "list_head");
  fld "reg_state" (ty "u8");
  fld "dismantle" (ty "bool");
  fld "moving_ns" (ty "bool");
  fld "rtnl_link_initializing" (ty "bool");
  fld "needs_free_netdev" (ty "bool");
  fld "priv_destructor" (ptr (fn void [ptr (struct_ "net_device")]));
  fld "ml_priv" (ptr void)
].

Definition struct_net_device_fields_2 : list (string * ctype * option N) := [
  fld "ml_priv_type" (enum_ "netdev_ml_priv_type");
  bit "pcpu_stat_type" (enum_ "netdev_stat_type") 8;
  fld "mrp_port" (ptr (struct_ "mrp_port"));
  fld "dev" (struct_ "device");
  fld "sysfs_groups" (arr (ptr (struct_ "attribute_group")) 5);
  fld "sysfs_rx_queue_group" (ptr (struct_ "attribute_group"));
  fld "rtnl_link_ops" (ptr (struct_ "rtnl_link_ops"));
  fld "stat_ops" (ptr (struct_ "netdev_stat_ops"));
  fld "queue_mgmt_ops" (ptr (struct_ "netdev_queue_mgmt_ops"));
  fld "tso_max_size" uint;
  fld "tso_max_segs" (ty "u16");
  fld "dcbnl_ops" (ptr (struct_ "dcbnl_rtnl_ops"));
  fld "prio_tc_map" (arr (ty "u8") 16);
  fld "priomap" (ptr (struct_ "netprio_map"));
  fld "link_topo" (ptr (struct_ "phy_link_topology"));
  fld "phydev" (ptr (struct_ "phy_device"));
  fld "sfp_bus" (ptr (struct_ "sfp_bus"));
  fld "qdisc_tx_busylock" (ptr (struct_ "lock_class_key"));
  fld "proto_down" (ty "bool");
  fld "irq_affinity_auto" (ty "bool");
  fld "rx_cpu_rmap_auto" (ty "bool");
  bit "see_all_hwtstamp_requests" ulong 1;
  bit "change_proto_down" ulong 1;
  bit "netns_immutable" ulong 1;
  bit "fcoe_mtu" ulong 1;
  fld "net_notifier_list" (struct_ "list_head");
  fld "udp_tunnel_nic_info" (ptr (struct_ "udp_tunnel_nic_info"));
  fld "udp_tunnel_nic" (ptr (struct_ "udp_tunnel_nic"));
  fld "cfg" (ptr (struct_ "netdev_config"));
  fld "cfg_pending" (ptr (struct_ "netdev_config"));
  fld "ethtool" (ptr (struct_ "ethtool_netdev_state"));
  fld "xdp_state" (arr (struct_ "bpf_xdp_entity") 3);
  fld "dev_addr_shadow" (arr (ty "u8") 32);
  fld "linkwatch_dev_tracker" (ty "netdevice_tracker");
  fld "watchdog_dev_tracker" (ty "netdevice_tracker");
  fld "dev_registered_tracker" (ty "netdevice_tracker");
  fld "offload_xstats_l3" (ptr (struct_ "rtnl_hw_stats64"));
  fld "devlink_port" (ptr (struct_ "devlink_port"));
  fld "page_pools" (struct_ "hlist_head");
  fld "irq_moder" (ptr (struct_ "dim_irq_moder"));
  fld "max_pacing_offload_horizon" (ty "u64");
  fld "napi_config" (ptr (struct_ "napi_config"));
  fld "num_napi_configs" (ty "u32");
  fld "napi_defer_hard_irqs" (ty "u32");
  fld "gro_flush_timeout" ulong;
  fld "up" (ty "bool");
  fld "request_ops_lock" (ty "bool");
  fld "lock" (struct_ "mutex");
  fld "neighbours" (arr (struct_ "hlist_head") 2);
  fld "hwprov" (ptr (struct_ "hwtstamp_provider"));
  bit "" long 64;
  bit "" long 64;
  bit "" long 64;
  bit "" long 64;
  bit "" long 64;
  fld "priv" (arr (ty "u8") 0)
].

Definition struct_net_device : decl :=
  DComp Struct "net_device" false (struct_net_device_fields_1 ++ struct_net_device_fields_2).

Definition struct_dql : decl := DComp Struct "dql" false [
  fld "num_queued" uint;
  fld "adj_limit" uint;
  fld "last_obj_cnt" uint;
  fld "stall_thrs" ushort;
  fld "history_head" ulong;
  fld "history" (arr ulong 4);
  bit "" long 64;
  fld "limit" uint;
  fld "num_completed" uint;
  fld "prev_ovlimit" uint;
  fld "prev_num_queued" uint;
  fld "prev_last_obj_cnt" uint;
  fld "lowest_slack" uint;
  fld "slack_start_time" ulong;
  fld "max_limit" uint;
  fld "min_limit" uint;
  fld "slack_hold_time" uint;
  fld "stall_max" ushort;
  fld "last_reap" ulong;
  fld "stall_cnt" ulong
].

Definition struct_dst_entry : decl := DComp Struct "dst_entry" false [
  unnamed (anon_union [
    fld "dev" (ptr (struct_ "net_device"));
    fld "dev_rcu" (ptr (struct_ "net_device"))
  ]);
  fld "ops" (ptr (struct_ "dst_ops"));
  fld "_metrics" ulong;
  fld "expires" ulong;
  fld "xfrm" (ptr (struct_ "xfrm_state"));
  fld "input" (ptr (fn int [ptr (struct_ "sk_buff")]));
  fld "output" (ptr (fn int [ptr (struct_ "net"); ptr (struct_ "sock"); ptr (struct_ "sk_buff")]));
  fld "flags" ushort;
  fld "obsolete" short;
  fld "header_len" ushort;
  fld "trailer_len" ushort;
  fld "__rcuref" (ty "rcuref_t");
  fld "__use" int;
  fld "lastuse" ulong;
  fld "callback_head" (struct_ "callback_head");
  fld "error" short;
  fld "__pad" short;
  fld "tclassid" (ty "__u32");
  fld "dev_tracker" (ty "netdevice_tracker");
  fld "rt_uncached" (struct_ "list_head");
  fld "rt_uncached_list" (ptr (struct_ "uncached_list"));
  fld "lwtstate" (ptr (struct_ "lwtunnel_state"))
].

Definition struct_skb_shared_hwtstamps : decl := DComp Struct "skb_shared_hwtstamps" false [
  unnamed (anon_union [
    fld "hwtstamp" (ty "ktime_t");
    fld "netdev_data" (ptr void)
  ])
].

Definition struct_rtnl_link_stats64 : decl := DComp Struct "rtnl_link_stats64" false [
  fld "rx_packets" (ty "__u64");
  fld "tx_packets" (ty "__u64");
  fld "rx_bytes" (ty "__u64");
  fld "tx_bytes" (ty "__u64");
  fld "rx_errors" (ty "__u64");
  fld "tx_errors" (ty "__u64");
  fld "rx_dropped" (ty "__u64");
  fld "tx_dropped" (ty "__u64");
  fld "multicast" (ty "__u64");
  fld "collisions" (ty "__u64");
  fld "rx_length_errors" (ty "__u64");
  fld "rx_over_errors" (ty "__u64");
  fld "rx_crc_errors" (ty "__u64");
  fld "rx_frame_errors" (ty "__u64");
  fld "rx_fifo_errors" (ty "__u64");
  fld "rx_missed_errors" (ty "__u64");
  fld "tx_aborted_errors" (ty "__u64");
  fld "tx_carrier_errors" (ty "__u64");
  fld "tx_fifo_errors" (ty "__u64");
  fld "tx_heartbeat_errors" (ty "__u64");
  fld "tx_window_errors" (ty "__u64");
  fld "rx_compressed" (ty "__u64");
  fld "tx_compressed" (ty "__u64");
  fld "rx_nohandler" (ty "__u64");
  fld "rx_otherhost_dropped" (ty "__u64")
].

Definition struct_header_ops : decl := DComp Struct "header_ops" false [
  fld "create" (ptr (fn int [ptr (struct_ "sk_buff"); ptr (struct_ "net_device"); ushort; ptr
      void; ptr void; uint]));
  fld "parse" (ptr (fn int [ptr (struct_ "sk_buff"); ptr (struct_ "net_device"); ptr uchar]));
  fld "cache" (ptr (fn int [ptr (struct_ "neighbour"); ptr (struct_ "hh_cache"); ty "__be16"]));
  fld "cache_update" (ptr (fn void [ptr (struct_ "hh_cache"); ptr (struct_ "net_device"); ptr
      uchar]));
  fld "validate" (ptr (fn (ty "bool") [ptr char; uint]));
  fld "parse_protocol" (ptr (fn (ty "__be16") [ptr (struct_ "sk_buff")]))
].

Definition struct_gro_list : decl := DComp Struct "gro_list" false [
  fld "list" (struct_ "list_head");
  fld "count" int
].

Definition struct_gro_node : decl := DComp Struct "gro_node" false [
  fld "bitmask" ulong;
  fld "hash" (arr (struct_ "gro_list") 8);
  fld "rx_list" (struct_ "list_head");
  fld "rx_count" (ty "u32");
  fld "cached_napi_id" (ty "u32")
].

Definition struct_napi_struct : decl := DComp Struct "napi_struct" false [
  fld "poll_list" (struct_ "list_head");
  fld "state" ulong;
  fld "weight" int;
  fld "defer_hard_irqs_count" (ty "u32");
  fld "poll" (ptr (fn int [ptr (struct_ "napi_struct"); int]));
  fld "list_owner" int;
  fld "dev" (ptr (struct_ "net_device"));
  fld "skb" (ptr (struct_ "sk_buff"));
  fld "gro" (struct_ "gro_node");
  fld "timer" (struct_ "hrtimer");
  fld "thread" (ptr (struct_ "task_struct"));
  fld "gro_flush_timeout" ulong;
  fld "irq_suspend_timeout" ulong;
  fld "defer_hard_irqs" (ty "u32");
  fld "napi_id" (ty "u32");
  fld "dev_list" (struct_ "list_head");
  fld "napi_hash_node" (struct_ "hlist_node");
  fld "irq" int;
  fld "notify" (struct_ "irq_affinity_notify");
  fld "napi_rmap_idx" int;
  fld "index" int;
  fld "config" (ptr (struct_ "napi_config"))
].

Definition struct_netdev_queue : decl := DComp Struct "netdev_queue" false [
  fld "dev" (ptr (struct_ "net_device"));
  fld "dev_tracker" (ty "netdevice_tracker");
  fld "qdisc" (ptr (struct_ "Qdisc"));
  fld "qdisc_sleeping" (ptr (struct_ "Qdisc"));
  fld "kobj" (struct_ "kobject");
  fld "groups" (ptr (ptr (struct_ "attribute_group")));
  fld "tx_maxrate" ulong;
  fld "trans_timeout" (ty "atomic_long_t");
  fld "sb_dev" (ptr (struct_ "net_device"));
  fld "pool" (ptr (struct_ "xsk_buff_pool"));
  fld "dql" (struct_ "dql");
  fld "_xmit_lock" (ty "spinlock_t");
  fld "xmit_lock_owner" int;
  fld "trans_start" ulong;
  fld "state" ulong;
  fld "napi" (ptr (struct_ "napi_struct"));
  fld "numa_node" int;
  bit "" long 64;
  bit "" long 64;
  bit "" long 64
].

Definition struct_netdev_bpf : decl := DComp Struct "netdev_bpf" false [
  fld "command" (enum_ "bpf_netdev_command");
  unnamed (anon_union [
    unnamed (anon_struct [
      fld "flags" (ty "u32");
      fld "prog" (ptr (struct_ "bpf_prog"));
      fld "extack" (ptr (struct_ "netlink_ext_ack"))
    ]);
    unnamed (anon_struct [
      fld "offmap" (ptr (struct_ "bpf_offloaded_map"))
    ]);
    fld "xsk" (anon_struct [
      fld "pool" (ptr (struct_ "xsk_buff_pool"));
      fld "queue_id" (ty "u16")
    ])
  ])
].

Definition struct_net_device_ops : decl := DComp Struct "net_device_ops" false [
  fld "ndo_init" (ptr (fn int [ptr (struct_ "net_device")]));
  fld "ndo_uninit" (ptr (fn void [ptr (struct_ "net_device")]));
  fld "ndo_open" (ptr (fn int [ptr (struct_ "net_device")]));
  fld "ndo_stop" (ptr (fn int [ptr (struct_ "net_device")]));
  fld "ndo_start_xmit" (ptr (fn (ty "netdev_tx_t") [ptr (struct_ "sk_buff"); ptr (struct_
      "net_device")]));
  fld "ndo_features_check" (ptr (fn (ty "netdev_features_t") [ptr (struct_ "sk_buff"); ptr
      (struct_ "net_device"); ty "netdev_features_t"]));
  fld "ndo_select_queue" (ptr (fn (ty "u16") [ptr (struct_ "net_device"); ptr (struct_
      "sk_buff"); ptr (struct_ "net_device")]));
  fld "ndo_change_rx_flags" (ptr (fn void [ptr (struct_ "net_device"); int]));
  fld "ndo_set_rx_mode" (ptr (fn void [ptr (struct_ "net_device")]));
  fld "ndo_set_mac_address" (ptr (fn int [ptr (struct_ "net_device"); ptr void]));
  fld "ndo_validate_addr" (ptr (fn int [ptr (struct_ "net_device")]));
  fld "ndo_do_ioctl" (ptr (fn int [ptr (struct_ "net_device"); ptr (struct_ "ifreq"); int]));
  fld "ndo_eth_ioctl" (ptr (fn int [ptr (struct_ "net_device"); ptr (struct_ "ifreq"); int]));
  fld "ndo_siocbond" (ptr (fn int [ptr (struct_ "net_device"); ptr (struct_ "ifreq"); int]));
  fld "ndo_siocwandev" (ptr (fn int [ptr (struct_ "net_device"); ptr (struct_ "if_settings")]));
  fld "ndo_siocdevprivate" (ptr (fn int [ptr (struct_ "net_device"); ptr (struct_ "ifreq"); ptr
      void; int]));
  fld "ndo_set_config" (ptr (fn int [ptr (struct_ "net_device"); ptr (struct_ "ifmap")]));
  fld "ndo_change_mtu" (ptr (fn int [ptr (struct_ "net_device"); int]));
  fld "ndo_neigh_setup" (ptr (fn int [ptr (struct_ "net_device"); ptr (struct_ "neigh_parms")]));
  fld "ndo_tx_timeout" (ptr (fn void [ptr (struct_ "net_device"); uint]));
  fld "ndo_get_stats64" (ptr (fn void [ptr (struct_ "net_device"); ptr (struct_
      "rtnl_link_stats64")]));
  fld "ndo_has_offload_stats" (ptr (fn (ty "bool") [ptr (struct_ "net_device"); int]));
  fld "ndo_get_offload_stats" (ptr (fn int [int; ptr (struct_ "net_device"); ptr void]));
  fld "ndo_get_stats" (ptr (fn (ptr (struct_ "net_device_stats")) [ptr (struct_ "net_device")]));
  fld "ndo_vlan_rx_add_vid" (ptr (fn int [ptr (struct_ "net_device"); ty "__be16"; ty "u16"]));
  fld "ndo_vlan_rx_kill_vid" (ptr (fn int [ptr (struct_ "net_device"); ty "__be16"; ty "u16"]));
  fld "ndo_set_vf_mac" (ptr (fn int [ptr (struct_ "net_device"); int; ptr (ty "u8")]));
  fld "ndo_set_vf_vlan" (ptr (fn int [ptr (struct_ "net_device"); int; ty "u16"; ty "u8"; ty
      "__be16"]));
  fld "ndo_set_vf_rate" (ptr (fn int [ptr (struct_ "net_device"); int; int; int]));
  fld "ndo_set_vf_spoofchk" (ptr (fn int [ptr (struct_ "net_device"); int; ty "bool"]));
  fld "ndo_set_vf_trust" (ptr (fn int [ptr (struct_ "net_device"); int; ty "bool"]));
  fld "ndo_get_vf_config" (ptr (fn int [ptr (struct_ "net_device"); int; ptr (struct_
      "ifla_vf_info")]));
  fld "ndo_set_vf_link_state" (ptr (fn int [ptr (struct_ "net_device"); int; int]));
  fld "ndo_get_vf_stats" (ptr (fn int [ptr (struct_ "net_device"); int; ptr (struct_
      "ifla_vf_stats")]));
  fld "ndo_set_vf_port" (ptr (fn int [ptr (struct_ "net_device"); int; ptr (ptr (struct_
      "nlattr"))]));
  fld "ndo_get_vf_port" (ptr (fn int [ptr (struct_ "net_device"); int; ptr (struct_ "sk_buff")]));
  fld "ndo_get_vf_guid" (ptr (fn int [ptr (struct_ "net_device"); int; ptr (struct_
      "ifla_vf_guid"); ptr (struct_ "ifla_vf_guid")]));
  fld "ndo_set_vf_guid" (ptr (fn int [ptr (struct_ "net_device"); int; ty "u64"; int]));
  fld "ndo_set_vf_rss_query_en" (ptr (fn int [ptr (struct_ "net_device"); int; ty "bool"]));
  fld "ndo_setup_tc" (ptr (fn int [ptr (struct_ "net_device"); enum_ "tc_setup_type"; ptr void]));
  fld "ndo_fcoe_get_wwn" (ptr (fn int [ptr (struct_ "net_device"); ptr (ty "u64"); int]));
  fld "ndo_rx_flow_steer" (ptr (fn int [ptr (struct_ "net_device"); ptr (struct_ "sk_buff"); ty
      "u16"; ty "u32"]));
  fld "ndo_add_slave" (ptr (fn int [ptr (struct_ "net_device"); ptr (struct_ "net_device"); ptr
      (struct_ "netlink_ext_ack")]));
  fld "ndo_del_slave" (ptr (fn int [ptr (struct_ "net_device"); ptr (struct_ "net_device")]));
  fld "ndo_get_xmit_slave" (ptr (fn (ptr (struct_ "net_device")) [ptr (struct_ "net_device"); ptr
      (struct_ "sk_buff"); ty "bool"]));
  fld "ndo_sk_get_lower_dev" (ptr (fn (ptr (struct_ "net_device")) [ptr (struct_ "net_device");
      ptr (struct_ "sock")]));
  fld "ndo_fix_features" (ptr (fn (ty "netdev_features_t") [ptr (struct_ "net_device"); ty
      "netdev_features_t"]));
  fld "ndo_set_features" (ptr (fn int [ptr (struct_ "net_device"); ty "netdev_features_t"]));
  fld "ndo_neigh_construct" (ptr (fn int [ptr (struct_ "net_device"); ptr (struct_ "neighbour")]));
  fld "ndo_neigh_destroy" (ptr (fn void [ptr (struct_ "net_device"); ptr (struct_ "neighbour")]));
  fld "ndo_fdb_add" (ptr (fn int [ptr (struct_ "ndmsg"); ptr (ptr (struct_ "nlattr")); ptr
      (struct_ "net_device"); ptr uchar; ty "u16"; ty "u16"; ptr (ty "bool"); ptr (struct_
      "netlink_ext_ack")]));
  fld "ndo_fdb_del" (ptr (fn int [ptr (struct_ "ndmsg"); ptr (ptr (struct_ "nlattr")); ptr
      (struct_ "net_device"); ptr uchar; ty "u16"; ptr (ty "bool"); ptr (struct_
      "netlink_ext_ack")]));
  fld "ndo_fdb_del_bulk" (ptr (fn int [ptr (struct_ "nlmsghdr"); ptr (struct_ "net_device"); ptr
      (struct_ "netlink_ext_ack")]));
  fld "ndo_fdb_dump" (ptr (fn int [ptr (struct_ "sk_buff"); ptr (struct_ "netlink_callback"); ptr
      (struct_ "net_device"); ptr (struct_ "net_device"); ptr int]));
  fld "ndo_fdb_get" (ptr (fn int [ptr (struct_ "sk_buff"); ptr (ptr (struct_ "nlattr")); ptr
      (struct_ "net_device"); ptr uchar; ty "u16"; ty "u32"; ty "u32"; ptr (struct_
      "netlink_ext_ack")]));
  fld "ndo_mdb_add" (ptr (fn int [ptr (struct_ "net_device"); ptr (ptr (struct_ "nlattr")); ty
      "u16"; ptr (struct_ "netlink_ext_ack")]));
  fld "ndo_mdb_del" (ptr (fn int [ptr (struct_ "net_device"); ptr (ptr (struct_ "nlattr")); ptr
      (struct_ "netlink_ext_ack")]));
  fld "ndo_mdb_del_bulk" (ptr (fn int [ptr (struct_ "net_device"); ptr (ptr (struct_ "nlattr"));
      ptr (struct_ "netlink_ext_ack")]));
  fld "ndo_mdb_dump" (ptr (fn int [ptr (struct_ "net_device"); ptr (struct_ "sk_buff"); ptr
      (struct_ "netlink_callback")]));
  fld "ndo_mdb_get" (ptr (fn int [ptr (struct_ "net_device"); ptr (ptr (struct_ "nlattr")); ty
      "u32"; ty "u32"; ptr (struct_ "netlink_ext_ack")]));
  fld "ndo_bridge_setlink" (ptr (fn int [ptr (struct_ "net_device"); ptr (struct_ "nlmsghdr"); ty
      "u16"; ptr (struct_ "netlink_ext_ack")]));
  fld "ndo_bridge_getlink" (ptr (fn int [ptr (struct_ "sk_buff"); ty "u32"; ty "u32"; ptr
      (struct_ "net_device"); ty "u32"; int]));
  fld "ndo_bridge_dellink" (ptr (fn int [ptr (struct_ "net_device"); ptr (struct_ "nlmsghdr"); ty
      "u16"]));
  fld "ndo_change_carrier" (ptr (fn int [ptr (struct_ "net_device"); ty "bool"]));
  fld "ndo_get_phys_port_id" (ptr (fn int [ptr (struct_ "net_device"); ptr (struct_
      "netdev_phys_item_id")]));
  fld "ndo_get_port_parent_id" (ptr (fn int [ptr (struct_ "net_device"); ptr (struct_
      "netdev_phys_item_id")]));
  fld "ndo_get_phys_port_name" (ptr (fn int [ptr (struct_ "net_device"); ptr char; ty "size_t"]));
  fld "ndo_dfwd_add_station" (ptr (fn (ptr void) [ptr (struct_ "net_device"); ptr (struct_
      "net_device")]));
  fld "ndo_dfwd_del_station" (ptr (fn void [ptr (struct_ "net_device"); ptr void]));
  fld "ndo_set_tx_maxrate" (ptr (fn int [ptr (struct_ "net_device"); int; ty "u32"]));
  fld "ndo_get_iflink" (ptr (fn int [ptr (struct_ "net_device")]));
  fld "ndo_fill_metadata_dst" (ptr (fn int [ptr (struct_ "net_device"); ptr (struct_ "sk_buff")]));
  fld "ndo_set_rx_headroom" (ptr (fn void [ptr (struct_ "net_device"); int]));
  fld "ndo_bpf" (ptr (fn int [ptr (struct_ "net_device"); ptr (struct_ "netdev_bpf")]));
  fld "ndo_xdp_xmit" (ptr (fn int [ptr (struct_ "net_device"); int; ptr (ptr (struct_
      "xdp_frame")); ty "u32"]));
  fld "ndo_xdp_get_xmit_slave" (ptr (fn (ptr (struct_ "net_device")) [ptr (struct_ "net_device");
      ptr (struct_ "xdp_buff")]));
  fld "ndo_xsk_wakeup" (ptr (fn int [ptr (struct_ "net_device"); ty "u32"; ty "u32"]));
  fld "ndo_tunnel_ctl" (ptr (fn int [ptr (struct_ "net_device"); ptr (struct_
      "ip_tunnel_parm_kern"); int]));
  fld "ndo_get_peer_dev" (ptr (fn (ptr (struct_ "net_device")) [ptr (struct_ "net_device")]));
  fld "ndo_fill_forward_path" (ptr (fn int [ptr (struct_ "net_device_path_ctx"); ptr (struct_
      "net_device_path")]));
  fld "ndo_get_tstamp" (ptr (fn (ty "ktime_t") [ptr (struct_ "net_device"); ptr (struct_
      "skb_shared_hwtstamps"); ty "bool"]));
  fld "ndo_hwtstamp_get" (ptr (fn int [ptr (struct_ "net_device"); ptr (struct_
      "kernel_hwtstamp_config")]));
  fld "ndo_hwtstamp_set" (ptr (fn int [ptr (struct_ "net_device"); ptr (struct_
      "kernel_hwtstamp_config"); ptr (struct_ "netlink_ext_ack")]))
].

Definition struct_pcpu_sw_netstats : decl := DComp Struct "pcpu_sw_netstats" false [
  fld "rx_packets" (ty "u64_stats_t");
  fld "rx_bytes" (ty "u64_stats_t");
  fld "tx_packets" (ty "u64_stats_t");
  fld "tx_bytes" (ty "u64_stats_t");
  fld "syncp" (struct_ "u64_stats_sync")
].

Definition struct_xdp_metadata_ops : decl := DComp Struct "xdp_metadata_ops" false [
  fld "xmo_rx_timestamp" (ptr (fn int [ptr (struct_ "xdp_md"); ptr (ty "u64")]));
  fld "xmo_rx_hash" (ptr (fn int [ptr (struct_ "xdp_md"); ptr (ty "u32"); ptr (enum_
      "xdp_rss_hash_type")]));
  fld "xmo_rx_vlan_tag" (ptr (fn int [ptr (struct_ "xdp_md"); ptr (ty "__be16"); ptr (ty "u16")]))
].

Definition struct_rtnl_link_ops : decl := DComp Struct "rtnl_link_ops" false [
  fld "list" (struct_ "list_head");
  fld "srcu" (struct_ "srcu_struct");
  fld "kind" (ptr char);
  fld "priv_size" (ty "size_t");
  fld "alloc" (ptr (fn (ptr (struct_ "net_device")) [ptr (ptr (struct_ "nlattr")); ptr char;
      uchar; uint; uint]));
  fld "setup" (ptr (fn void [ptr (struct_ "net_device")]));
  fld "netns_refund" (ty "bool");
  fld "peer_type" (ty "u16");
  fld "maxtype" uint;
  fld "policy" (ptr (struct_ "nla_policy"));
  fld "validate" (ptr (fn int [ptr (ptr (struct_ "nlattr")); ptr (ptr (struct_ "nlattr")); ptr
      (struct_ "netlink_ext_ack")]));
  fld "newlink" (ptr (fn int [ptr (struct_ "net_device"); ptr (struct_ "rtnl_newlink_params");
      ptr (struct_ "netlink_ext_ack")]));
  fld "changelink" (ptr (fn int [ptr (struct_ "net_device"); ptr (ptr (struct_ "nlattr")); ptr
      (ptr (struct_ "nlattr")); ptr (struct_ "netlink_ext_ack")]));
  fld "dellink" (ptr (fn void [ptr (struct_ "net_device"); ptr (struct_ "list_head")]));
  fld "get_size" (ptr (fn (ty "size_t") [ptr (struct_ "net_device")]));
  fld "fill_info" (ptr (fn int [ptr (struct_ "sk_buff"); ptr (struct_ "net_device")]));
  fld "get_xstats_size" (ptr (fn (ty "size_t") [ptr (struct_ "net_device")]));
  fld "fill_xstats" (ptr (fn int [ptr (struct_ "sk_buff"); ptr (struct_ "net_device")]));
  fld "get_num_tx_queues" (ptr (fn uint []));
  fld "get_num_rx_queues" (ptr (fn uint []));
  fld "slave_maxtype" uint;
  fld "slave_policy" (ptr (struct_ "nla_policy"));
  fld "slave_changelink" (ptr (fn int [ptr (struct_ "net_device"); ptr (struct_ "net_device");
      ptr (ptr (struct_ "nlattr")); ptr (ptr (struct_ "nlattr")); ptr (struct_
      "netlink_ext_ack")]));
  fld "get_slave_size" (ptr (fn (ty "size_t") [ptr (struct_ "net_device"); ptr (struct_
      "net_device")]));
  fld "fill_slave_info" (ptr (fn int [ptr (struct_ "sk_buff"); ptr (struct_ "net_device"); ptr
      (struct_ "net_device")]));
  fld "get_link_net" (ptr (fn (ptr (struct_ "net")) [ptr (struct_ "net_device")]));
  fld "get_linkxstats_size" (ptr (fn (ty "size_t") [ptr (struct_ "net_device"); int]));
  fld "fill_linkxstats" (ptr (fn int [ptr (struct_ "sk_buff"); ptr (struct_ "net_device"); ptr
      int; int]))
].

Definition struct_numa_drop_counters : decl := DComp Struct "numa_drop_counters" false [
  fld "drops0" (ty "atomic_t");
  bit "" long 64;
  bit "" long 64;
  bit "" long 64;
  bit "" long 64;
  bit "" long 64;
  bit "" long 64;
  bit "" long 64;
  fld "drops1" (ty "atomic_t");
  bit "" long 64;
  bit "" long 64;
  bit "" long 64;
  bit "" long 64;
  bit "" long 64;
  bit "" long 64;
  bit "" long 64
].

Definition enum_dma_data_direction : decl := DEnum "dma_data_direction" false [
  ("DMA_BIDIRECTIONAL", 0);
  ("DMA_TO_DEVICE", 1);
  ("DMA_FROM_DEVICE", 2);
  ("DMA_NONE", 3)
]%Z.

Definition struct_page_pool_params_fast : decl := DComp Struct "page_pool_params_fast" false [
  fld "order" uint;
  fld "pool_size" uint;
  fld "nid" int;
  fld "dev" (ptr (struct_ "device"));
  fld "napi" (ptr (struct_ "napi_struct"));
  fld "dma_dir" (enum_ "dma_data_direction");
  fld "max_len" uint;
  fld "offset" uint
].

Definition typedef_netmem_ref : decl := DTypedef "netmem_ref" ulong.

Definition struct_pp_alloc_cache : decl := DComp Struct "pp_alloc_cache" false [
  fld "count" (ty "u32");
  fld "cache" (arr (ty "netmem_ref") 128)
].

Definition struct_ptr_ring : decl := DComp Struct "ptr_ring" false [
  fld "producer" int;
  fld "producer_lock" (ty "spinlock_t");
  bit "" long 64;
  bit "" long 64;
  bit "" long 64;
  bit "" long 64;
  bit "" long 64;
  bit "" long 64;
  bit "" long 64;
  fld "consumer_head" int;
  fld "consumer_tail" int;
  fld "consumer_lock" (ty "spinlock_t");
  bit "" long 64;
  bit "" long 64;
  bit "" long 64;
  bit "" long 64;
  bit "" long 64;
  bit "" long 64;
  fld "size" int;
  fld "batch" int;
  fld "queue" (ptr (ptr void));
  bit "" long 64;
  bit "" long 64;
  bit "" long 64;
  bit "" long 64;
  bit "" long 64;
  bit "" long 64
].

Definition struct_page_pool_params_slow : decl := DComp Struct "page_pool_params_slow" false [
  fld "netdev" (ptr (struct_ "net_device"));
  fld "queue_idx" uint;
  fld "flags" uint;
  fld "init_callback" (ptr (fn void [ty "netmem_ref"; ptr void]));
  fld "init_arg" (ptr void)
].

Definition struct_page_pool : decl := DComp Struct "page_pool" false [
  fld "p" (struct_ "page_pool_params_fast");
  fld "cpuid" int;
  fld "pages_state_hold_cnt" (ty "u32");
  bit "has_init_callback" (ty "bool") 1;
  bit "dma_map" (ty "bool") 1;
  bit "dma_sync" (ty "bool") 1;
  bit "dma_sync_for_cpu" (ty "bool") 1;
  bit "" long 0;
  fld "__cacheline_group_begin__frag" (arr (ty "__u8") 0);
  fld "frag_users" long;
  fld "frag_page" (ty "netmem_ref");
  fld "frag_offset" uint;
  bit "" long 0;
  fld "__cacheline_group_end__frag" (arr (ty "__u8") 0);
  bit "" long 64;
  fld "__cacheline_group_pad__frag" (anon_struct [
  ]);
  fld "release_dw" (struct_ "delayed_work");
  fld "disconnect" (ptr (fn void [ptr void]));
  fld "defer_start" ulong;
  fld "defer_warn" ulong;
  fld "xdp_mem_id" (ty "u32");
  bit "" long 64;
  bit "" long 64;
  bit "" long 64;
  bit "" long 64;
  bit "" long 64;
  fld "alloc" (struct_ "pp_alloc_cache");
  bit "" long 64;
  bit "" long 64;
  bit "" long 64;
  bit "" long 64;
  bit "" long 64;
  bit "" long 64;
  bit "" long 64;
  fld "ring" (struct_ "ptr_ring");
  fld "mp_priv" (ptr void);
  fld "mp_ops" (ptr (struct_ "memory_provider_ops"));
  fld "dma_mapped" (struct_ "xarray");
  fld "pages_state_release_cnt" (ty "atomic_t");
  fld "user_cnt" (ty "refcount_t");
  fld "destroy_cnt" (ty "u64");
  fld "slow" (struct_ "page_pool_params_slow");
  fld "user" (anon_struct [
    fld "list" (struct_ "hlist_node");
    fld "detach_time" (ty "ktime_t");
    fld "id" (ty "u32")
  ]);
  bit "" long 64;
  bit "" long 64
].

Definition typedef_local_lock_t : decl := DTypedef "local_lock_t" (anon_struct [
  ]).

Definition struct_skb_frag : decl := DComp Struct "skb_frag" false [
  fld "netmem" (ty "netmem_ref");
  fld "len" uint;
  fld "offset" uint
].

Definition typedef_skb_frag_t : decl := DTypedef "skb_frag_t" (struct_ "skb_frag").

Definition struct_xsk_tx_metadata_compl : decl := DComp Struct "xsk_tx_metadata_compl" false [
  fld "tx_timestamp" (ptr (ty "__u64"))
].

Definition struct_skb_shared_info : decl := DComp Struct "skb_shared_info" false [
  fld "flags" (ty "__u8");
  fld "meta_len" (ty "__u8");
  fld "nr_frags" (ty "__u8");
  fld "tx_flags" (ty "__u8");
  fld "gso_size" ushort;
  fld "gso_segs" ushort;
  fld "frag_list" (ptr (struct_ "sk_buff"));
  unnamed (anon_union [
    fld "hwtstamps" (struct_ "skb_shared_hwtstamps");
    fld "xsk_meta" (struct_ "xsk_tx_metadata_compl")
  ]);
  fld "gso_type" uint;
  fld "tskey" (ty "u32");
  fld "dataref" (ty "atomic_t");
  unnamed (anon_union [
    unnamed (anon_struct [
      fld "xdp_frags_size" (ty "u32");
      fld "xdp_frags_truesize" (ty "u32")
    ]);
    fld "destructor_arg" (ptr void)
  ]);
  fld "frags" (arr (ty "skb_frag_t") 17)
].

Definition struct_xdp_frame : decl := DComp Struct "xdp_frame" false [
  fld "data" (ptr void);
  fld "len" (ty "u32");
  fld "headroom" (ty "u32");
  fld "metasize" (ty "u32");
  bit "mem_type" (enum_ "xdp_mem_type") 32;
  fld "dev_rx" (ptr (struct_ "net_device"));
  fld "frame_sz" (ty "u32");
  fld "flags" (ty "u32")
].

Definition struct_xdp_buff : decl := DComp Struct "xdp_buff" false [
  fld "data" (ptr void);
  fld "data_end" (ptr void);
  fld "data_meta" (ptr void);
  fld "data_hard_start" (ptr void);
  fld "rxq" (ptr (struct_ "xdp_rxq_info"));
  fld "txq" (ptr (struct_ "xdp_txq_info"));
  unnamed (anon_union [
    unnamed (anon_struct [
      fld "frame_sz" (ty "u32");
      fld "flags" (ty "u32")
    ]);
    fld "frame_sz_flags_init" (ty "u64")
  ])
].

Definition struct_xdp_mem_info : decl := DComp Struct "xdp_mem_info" false [
  fld "type" (ty "u32");
  fld "id" (ty "u32")
].

Definition struct_xdp_rxq_info : decl := DComp Struct "xdp_rxq_info" false [
  fld "dev" (ptr (struct_ "net_device"));
  fld "queue_index" (ty "u32");
  fld "reg_state" (ty "u32");
  fld "mem" (struct_ "xdp_mem_info");
  fld "frag_size" (ty "u32");
  bit "" long 64;
  bit "" long 64;
  bit "" long 64;
  bit "" long 64
].

Definition struct_xdp_txq_info : decl := DComp Struct "xdp_txq_info" false [
  fld "dev" (ptr (struct_ "net_device"))
].

Definition enum_bpf_xdp_mode : decl := DEnum "bpf_xdp_mode" false [
  ("XDP_MODE_SKB", 0);
  ("XDP_MODE_DRV", 1);
  ("XDP_MODE_HW", 2);
  ("__MAX_XDP_MODE", 3)
]%Z.

Definition struct_rt6key : decl := DComp Struct "rt6key" false [
  fld "addr" (struct_ "in6_addr");
  fld "plen" int
].

Definition struct_rt6_info : decl := DComp Struct "rt6_info" false [
  fld "dst" (struct_ "dst_entry");
  fld "from" (ptr (struct_ "fib6_info"));
  fld "sernum" int;
  fld "rt6i_dst" (struct_ "rt6key");
  fld "rt6i_src" (struct_ "rt6key");
  fld "rt6i_gateway" (struct_ "in6_addr");
  fld "rt6i_idev" (ptr (struct_ "inet6_dev"));
  fld "rt6i_flags" (ty "u32");
  fld "rt6i_nfheader_len" ushort
].

Definition struct_rtable : decl := DComp Struct "rtable" false [
  fld "dst" (struct_ "dst_entry");
  fld "rt_genid" int;
  fld "rt_flags" uint;
  fld "rt_type" (ty "__u16");
  fld "rt_is_input" (ty "__u8");
  fld "rt_uses_gateway" (ty "__u8");
  fld "rt_iif" int;
  fld "rt_gw_family" (ty "u8");
  unnamed (anon_union [
    fld "rt_gw4" (ty "__be32");
    fld "rt_gw6" (struct_ "in6_addr")
  ]);
  bit "rt_mtu_locked" (ty "u32") 1;
  bit "rt_pmtu" (ty "u32") 31
].

Definition struct_pp_memory_provider_params : decl := DComp Struct "pp_memory_provider_params" false [
  fld "mp_priv" (ptr void);
  fld "mp_ops" (ptr (struct_ "memory_provider_ops"))
].

Definition struct_netdev_rx_queue : decl := DComp Struct "netdev_rx_queue" false [
  fld "xdp_rxq" (struct_ "xdp_rxq_info");
  fld "rps_map" (ptr (struct_ "rps_map"));
  fld "rps_flow_table" (ptr (struct_ "rps_dev_flow_table"));
  fld "kobj" (struct_ "kobject");
  fld "groups" (ptr (ptr (struct_ "attribute_group")));
  fld "dev" (ptr (struct_ "net_device"));
  fld "dev_tracker" (ty "netdevice_tracker");
  fld "pool" (ptr (struct_ "xsk_buff_pool"));
  fld "napi" (ptr (struct_ "napi_struct"));
  fld "mp_params" (struct_ "pp_memory_provider_params")
].

Definition struct_netdev_xmit : decl := DComp Struct "netdev_xmit" false [
  fld "recursion" (ty "u16");
  fld "more" (ty "u8");
  fld "skip_txqueue" (ty "u8");
  fld "sched_mirred_nest" (ty "u8")
].

Definition struct_softnet_data : decl := DComp Struct "softnet_data" false [
  fld "poll_list" (struct_ "list_head");
  fld "process_queue" (struct_ "sk_buff_head");
  fld "process_queue_bh_lock" (ty "local_lock_t");
  fld "processed" uint;
  fld "time_squeeze" uint;
  fld "rps_ipi_list" (ptr (struct_ "softnet_data"));
  fld "received_rps" uint;
  fld "in_net_rx_action" (ty "bool");
  fld "in_napi_threaded_poll" (ty "bool");
  fld "flow_limit" (ptr (struct_ "sd_flow_limit"));
  fld "output_queue" (ptr (struct_ "Qdisc"));
  fld "output_queue_tailp" (ptr (ptr (struct_ "Qdisc")));
  fld "completion_queue" (ptr (struct_ "sk_buff"));
  fld "xfrm_backlog" (struct_ "sk_buff_head");
  fld "xmit" (struct_ "netdev_xmit");
  fld "input_queue_head" uint;
  bit "" long 64;
  bit "" long 64;
  bit "" long 64;
  bit "" long 64;
  bit "" long 64;
  bit "" long 64;
  bit "" long 64;
  fld "csd" (ty "call_single_data_t");
  fld "rps_ipi_next" (ptr (struct_ "softnet_data"));
  fld "cpu" uint;
  fld "input_queue_tail" uint;
  fld "input_pkt_queue" (struct_ "sk_buff_head");
  fld "backlog" (struct_ "napi_struct");
  bit "" long 64;
  fld "drop_counters" (struct_ "numa_drop_counters");
  fld "defer_ipi_scheduled" int;
  bit "" long 64;
  bit "" long 64;
  bit "" long 64;
  fld "defer_csd" (ty "call_single_data_t")
].

Definition struct_bridge_stp_xstats : decl := DComp Struct "bridge_stp_xstats" false [
  fld "transition_blk" (ty "__u64");
  fld "transition_fwd" (ty "__u64");
  fld "rx_bpdu" (ty "__u64");
  fld "tx_bpdu" (ty "__u64");
  fld "rx_tcn" (ty "__u64");
  fld "tx_tcn" (ty "__u64")
].

Definition struct_br_ip : decl := DComp Struct "br_ip" false [
  fld "src" (anon_union [
    fld "ip4" (ty "__be32");
    fld "ip6" (struct_ "in6_addr")
  ]);
  fld "dst" (anon_union [
    fld "ip4" (ty "__be32");
    fld "ip6" (struct_ "in6_addr");
    fld "mac_addr" (arr uchar 6)
  ]);
  fld "proto" (ty "__be16");
  fld "vid" (ty "__u16")
].

Definition struct_bridge_id : decl := DComp Struct "bridge_id" false [
  fld "prio" (arr uchar 2);
  fld "addr" (arr uchar 6)
].

Definition typedef_bridge_id : decl := DTypedef "bridge_id" (struct_ "bridge_id").

Definition typedef_port_id : decl := DTypedef "port_id" (ty "__u16").

Definition struct_bridge_mcast_own_query : decl := DComp Struct "bridge_mcast_own_query" false [
  fld "timer" (struct_ "timer_list");
  fld "startup_sent" (ty "u32")
].

Definition struct_bridge_mcast_other_query : decl := DComp Struct "bridge_mcast_other_query" false [
  fld "timer" (struct_ "timer_list");
  fld "delay_timer" (struct_ "timer_list")
].

Definition struct_bridge_mcast_querier : decl := DComp Struct "bridge_mcast_querier" false [
  fld "addr" (struct_ "br_ip");
  fld "port_ifidx" int;
  fld "seq" (ty "seqcount_spinlock_t")
].

Definition struct_net_bridge_mcast : decl := DComp Struct "net_bridge_mcast" false [
  fld "br" (ptr (struct_ "net_bridge"));
  fld "vlan" (ptr (struct_ "net_bridge_vlan"));
  fld "multicast_last_member_count" (ty "u32");
  fld "multicast_startup_query_count" (ty "u32");
  fld "multicast_querier" (ty "u8");
  fld "multicast_igmp_version" (ty "u8");
  fld "multicast_router" (ty "u8");
  fld "multicast_mld_version" (ty "u8");
  fld "multicast_last_member_interval" ulong;
  fld "multicast_membership_interval" ulong;
  fld "multicast_querier_interval" ulong;
  fld "multicast_query_interval" ulong;
  fld "multicast_query_response_interval" ulong;
  fld "multicast_startup_query_interval" ulong;
  fld "ip4_mc_router_list" (struct_ "hlist_head");
  fld "ip4_mc_router_timer" (struct_ "timer_list");
  fld "ip4_other_query" (struct_ "bridge_mcast_other_query");
  fld "ip4_own_query" (struct_ "bridge_mcast_own_query");
  fld "ip4_querier" (struct_ "bridge_mcast_querier");
  fld "ip6_mc_router_list" (struct_ "hlist_head");
  fld "ip6_mc_router_timer" (struct_ "timer_list");
  fld "ip6_other_query" (struct_ "bridge_mcast_other_query");
  fld "ip6_own_query" (struct_ "bridge_mcast_own_query");
  fld "ip6_querier" (struct_ "bridge_mcast_querier")
].

Definition struct_net_bridge : decl := DComp Struct "net_bridge" false [
  fld "lock" (ty "spinlock_t");
  fld "hash_lock" (ty "spinlock_t");
  fld "frame_type_list" (struct_ "hlist_head");
  fld "dev" (ptr (struct_ "net_device"));
  fld "options" ulong;
  fld "vlan_proto" (ty "__be16");
  fld "default_pvid" (ty "u16");
  fld "vlgrp" (ptr (struct_ "net_bridge_vlan_group"));
  fld "fdb_hash_tbl" (struct_ "rhashtable");
  fld "port_list" (struct_ "list_head");
  unnamed (anon_union [
    fld "fake_rtable" (struct_ "rtable");
    fld "fake_rt6_info" (struct_ "rt6_info")
  ]);
  fld "metrics" (arr (ty "u32") 17);
  fld "group_fwd_mask" (ty "u16");
  fld "group_fwd_mask_required" (ty "u16");
  fld "designated_root" (ty "bridge_id");
  fld "bridge_id" (ty "bridge_id");
  fld "topology_change" uchar;
  fld "topology_change_detected" uchar;
  fld "root_port" (ty "u16");
  fld "max_age" ulong;
  fld "hello_time" ulong;
  fld "forward_delay" ulong;
  fld "ageing_time" ulong;
  fld "bridge_max_age" ulong;
  fld "bridge_hello_time" ulong;
  fld "bridge_forward_delay" ulong;
  fld "bridge_ageing_time" ulong;
  fld "root_path_cost" (ty "u32");
  fld "group_addr" (arr (ty "u8") 6);
  fld "stp_enabled" (anon_enum [
    ("BR_NO_STP", 0);
    ("BR_KERNEL_STP", 1);
    ("BR_USER_STP", 2)
  ]%Z);
  fld "multicast_ctx" (struct_ "net_bridge_mcast");
  fld "mcast_stats" (ptr (struct_ "bridge_mcast_stats"));
  fld "hash_max" (ty "u32");
  fld "multicast_lock" (ty "spinlock_t");
  fld "mdb_hash_tbl" (struct_ "rhashtable");
  fld "sg_port_tbl" (struct_ "rhashtable");
  fld "mcast_gc_list" (struct_ "hlist_head");
  fld "mdb_list" (struct_ "hlist_head");
  fld "mcast_gc_work" (struct_ "work_struct");
  fld "hello_timer" (struct_ "timer_list");
  fld "tcn_timer" (struct_ "timer_list");
  fld "topology_change_timer" (struct_ "timer_list");
  fld "gc_work" (struct_ "delayed_work");
  fld "ifobj" (ptr (struct_ "kobject"));
  fld "auto_cnt" (ty "u32");
  fld "fdb_n_learned" (ty "atomic_t");
  fld "fdb_max_learned" (ty "u32");
  fld "fdb_list" (struct_ "hlist_head")
].

Definition struct_net_bridge_mcast_port : decl := DComp Struct "net_bridge_mcast_port" false [
  fld "port" (ptr (struct_ "net_bridge_port"));
  fld "vlan" (ptr (struct_ "net_bridge_vlan"));
  fld "ip4_own_query" (struct_ "bridge_mcast_own_query");
  fld "ip4_mc_router_timer" (struct_ "timer_list");
  fld "ip4_rlist" (struct_ "hlist_node");
  fld "ip6_own_query" (struct_ "bridge_mcast_own_query");
  fld "ip6_mc_router_timer" (struct_ "timer_list");
  fld "ip6_rlist" (struct_ "hlist_node");
  fld "multicast_router" uchar;
  fld "mdb_n_entries" (ty "u32");
  fld "mdb_max_entries" (ty "u32")
].

Definition struct_net_bridge_port : decl := DComp Struct "net_bridge_port" false [
  fld "br" (ptr (struct_ "net_bridge"));
  fld "dev" (ptr (struct_ "net_device"));
  fld "dev_tracker" (ty "netdevice_tracker");
  fld "list" (struct_ "list_head");
  fld "flags" ulong;
  fld "vlgrp" (ptr (struct_ "net_bridge_vlan_group"));
  fld "backup_port" (ptr (struct_ "net_bridge_port"));
  fld "backup_nhid" (ty "u32");
  fld "priority" (ty "u8");
  fld "state" (ty "u8");
  fld "port_no" (ty "u16");
  fld "topology_change_ack" uchar;
  fld "config_pending" uchar;
  fld "port_id" (ty "port_id");
  fld "designated_port" (ty "port_id");
  fld "designated_root" (ty "bridge_id");
  fld "designated_bridge" (ty "bridge_id");
  fld "path_cost" (ty "u32");
  fld "designated_cost" (ty "u32");
  fld "designated_age" ulong;
  fld "forward_delay_timer" (struct_ "timer_list");
  fld "hold_timer" (struct_ "timer_list");
  fld "message_age_timer" (struct_ "timer_list");
  fld "kobj" (struct_ "kobject");
  fld "rcu" (struct_ "callback_head");
  fld "multicast_ctx" (struct_ "net_bridge_mcast_port");
  fld "mcast_stats" (ptr (struct_ "bridge_mcast_stats"));
  fld "multicast_eht_hosts_limit" (ty "u32");
  fld "multicast_eht_hosts_cnt" (ty "u32");
  fld "mglist" (struct_ "hlist_head");
  fld "sysfs_name" (arr char 16);
  fld "group_fwd_mask" (ty "u16");
  fld "backup_redirected_cnt" (ty "u16");
  fld "stp_xstats" (struct_ "bridge_stp_xstats")
].

Definition struct_veth_stats : decl := DComp Struct "veth_stats" false [
  fld "rx_drops" (ty "u64");
  fld "xdp_packets" (ty "u64");
  fld "xdp_bytes" (ty "u64");
  fld "xdp_redirect" (ty "u64");
  fld "xdp_drops" (ty "u64");
  fld "xdp_tx" (ty "u64");
  fld "xdp_tx_err" (ty "u64");
  fld "peer_tq_xdp_xmit" (ty "u64");
  fld "peer_tq_xdp_xmit_err" (ty "u64")
].

Definition struct_veth_rq_stats : decl := DComp Struct "veth_rq_stats" false [
  fld "vs" (struct_ "veth_stats");
  fld "syncp" (struct_ "u64_stats_sync")
].

Definition struct_veth_rq : decl := DComp Struct "veth_rq" false [
  fld "xdp_napi" (struct_ "napi_struct");
  fld "napi" (ptr (struct_ "napi_struct"));
  fld "dev" (ptr (struct_ "net_device"));
  fld "xdp_prog" (ptr (struct_ "bpf_prog"));
  fld "xdp_mem" (struct_ "xdp_mem_info");
  fld "stats" (struct_ "veth_rq_stats");
  fld "rx_notify_masked" (ty "bool");
  bit "" long 64;
  bit "" long 64;
  bit "" long 64;
  bit "" long 64;
  fld "xdp_ring" (struct_ "ptr_ring");
  fld "xdp_rxq" (struct_ "xdp_rxq_info");
  fld "page_pool" (ptr (struct_ "page_pool"));
  bit "" long 64;
  bit "" long 64;
  bit "" long 64;
  bit "" long 64;
  bit "" long 64;
  bit "" long 64;
  bit "" long 64
].

Definition struct_veth_priv : decl := DComp Struct "veth_priv" false [
  fld "peer" (ptr (struct_ "net_device"));
  fld "dropped" (ty "atomic64_t");
  fld "_xdp_prog" (ptr (struct_ "bpf_prog"));
  fld "rq" (ptr (struct_ "veth_rq"));
  fld "requested_headroom" uint
].

(** The declarations of this part, in the order of the header. *)
Definition net_decls : list decl := [typedef___kernel_dev_t; typedef_dev_t; typedef_rcuref_t;
    struct___call_single_node; typedef_seqcount_t; struct_seqcount_spinlock;
    typedef_seqcount_spinlock_t; struct_lockdep_map; struct_kobject; typedef_local_t;
    typedef_local64_t; typedef_wait_queue_head_t; typedef_smp_call_func_t;
    struct___call_single_data; typedef_call_single_data_t; struct_xarray; struct_srcu_struct;
    enum_dl_dev_state; struct_dev_links_info; struct_pm_message; typedef_pm_message_t;
    enum_rpm_request; enum_rpm_status; struct_dev_pm_info; struct_dev_msi_info;
    struct_dev_archdata; enum_device_removable; struct_device; struct_u64_stats_sync;
    struct_irq_affinity_notify; typedef___wsum; typedef_rht_hashfn_t; typedef_rht_obj_hashfn_t;
    typedef_rht_obj_cmpfn_t; struct_rhashtable_params; struct_rhashtable; typedef_sk_buff_data_t;
    struct_sk_buff; typedef_possible_net_t; struct_sk_buff_list; struct_sk_buff_head;
    typedef_netdev_features_t; struct_ref_tracker_dir; typedef_u64_stats_t; struct_netdev_tc_txq;
    typedef_xdp_features_t; struct_net_device_stats; struct_netdev_hw_addr_list;
    enum_netdev_ml_priv_type; enum_netdev_stat_type; struct_bpf_xdp_entity;
    typedef_netdevice_tracker; struct_net_device; struct_dql; struct_dst_entry;
    struct_skb_shared_hwtstamps; struct_rtnl_link_stats64; struct_header_ops; struct_gro_list;
    struct_gro_node; struct_napi_struct; struct_netdev_queue; struct_netdev_bpf;
    struct_net_device_ops; struct_pcpu_sw_netstats; struct_xdp_metadata_ops;
    struct_rtnl_link_ops; struct_numa_drop_counters; enum_dma_data_direction;
    struct_page_pool_params_fast; typedef_netmem_ref; struct_pp_alloc_cache; struct_ptr_ring;
    struct_page_pool_params_slow; struct_page_pool; typedef_local_lock_t; struct_skb_frag;
    typedef_skb_frag_t; struct_xsk_tx_metadata_compl; struct_skb_shared_info; struct_xdp_frame;
    struct_xdp_buff; struct_xdp_mem_info; struct_xdp_rxq_info; struct_xdp_txq_info;
    enum_bpf_xdp_mode; struct_rt6key; struct_rt6_info; struct_rtable;
    struct_pp_memory_provider_params; struct_netdev_rx_queue; struct_netdev_xmit;
    struct_softnet_data; struct_bridge_stp_xstats; struct_br_ip; struct_bridge_id;
    typedef_bridge_id; typedef_port_id; struct_bridge_mcast_own_query;
    struct_bridge_mcast_other_query; struct_bridge_mcast_querier; struct_net_bridge_mcast;
    struct_net_bridge; struct_net_bridge_mcast_port; struct_net_bridge_port; struct_veth_stats;
    struct_veth_rq_stats; struct_veth_rq; struct_veth_priv].
