(* ===== verification/KernelVerifier.v ===== *)
(** * Kernel declarations: the BPF verifier (kernelspace/vmlinux.h)

    The state the verifier keeps while it checks the two programs at load time: registers,
    stack, frames, per-instruction records and its environment. *)

From S2P Require Import Prelude Types CTypes.

Open Scope N_scope.
Open Scope string_scope.

Definition enum_bpf_dynptr_type : decl := DEnum "bpf_dynptr_type" false [
  ("BPF_DYNPTR_TYPE_INVALID", 0);
  ("BPF_DYNPTR_TYPE_LOCAL", 1);
  ("BPF_DYNPTR_TYPE_RINGBUF", 2);
  ("BPF_DYNPTR_TYPE_SKB", 3);
  ("BPF_DYNPTR_TYPE_XDP", 4);
  ("BPF_DYNPTR_TYPE_SKB_META", 5)
]%Z.

Definition enum_bpf_iter_state : decl := DEnum "bpf_iter_state" false [
  ("BPF_ITER_STATE_INVALID", 0);
  ("BPF_ITER_STATE_ACTIVE", 1);
  ("BPF_ITER_STATE_DRAINED", 2)
]%Z.

Definition struct_tnum : decl := DComp Struct "tnum" false [
  fld "value" (ty "u64");
  fld "mask" (ty "u64")
].

Definition struct_bpf_reg_state : decl := DComp Struct "bpf_reg_state" false [
  fld "type" (enum_ "bpf_reg_type");
  fld "off" (ty "s32");
  unnamed (anon_union [
    fld "range" int;
    unnamed (anon_struct [
      fld "map_ptr" (ptr (struct_ "bpf_map"));
      fld "map_uid" (ty "u32")
    ]);
    unnamed (anon_struct [
      fld "btf" (ptr (struct_ "btf"));
      fld "btf_id" (ty "u32")
    ]);
    unnamed (anon_struct [
      fld "mem_size" (ty "u32");
      fld "dynptr_id" (ty "u32")
    ]);
    fld "dynptr" (anon_struct [
      fld "type" (enum_ "bpf_dynptr_type");
      fld "first_slot" (ty "bool")
    ]);
    fld "iter" (anon_struct [
      fld "btf" (ptr (struct_ "btf"));
      fld "btf_id" (ty "u32");
      bit "state" (enum_ "bpf_iter_state") 2;
      bit "depth" int 30
    ]);
    fld "irq" (anon_struct [
      fld "kfunc_class" (anon_enum [
        ("IRQ_NATIVE_KFUNC", 0);
        ("IRQ_LOCK_KFUNC", 1)
      ]%Z)
    ]);
    fld "raw" (anon_struct [
      fld "raw1" ulong;
      fld "raw2" ulong
    ]);
    fld "subprogno" (ty "u32")
  ]);
  fld "var_off" (struct_ "tnum");
  fld "smin_value" (ty "s64");
  fld "smax_value" (ty "s64");
  fld "umin_value" (ty "u64");
  fld "umax_value" (ty "u64");
  fld "s32_min_value" (ty "s32");
  fld "s32_max_value" (ty "s32");
  fld "u32_min_value" (ty "u32");
  fld "u32_max_value" (ty "u32");
  fld "id" (ty "u32");
  fld "ref_obj_id" (ty "u32");
  fld "frameno" (ty "u32");
  fld "subreg_def" (ty "s32");
  fld "precise" (ty "bool")
].

Definition struct_btf_mod_pair : decl := DComp Struct "btf_mod_pair" false [
  fld "btf" (ptr (struct_ "btf"));
  fld "module" (ptr (struct_ "module"))
].

Definition typedef_sockptr_t : decl := DTypedef "sockptr_t" (anon_struct [
    unnamed (anon_union [
      fld "kernel" (ptr void);
      fld "user" (ptr void)
    ]);
    bit "is_kernel" (ty "bool") 1
  ]).

Definition typedef_bpfptr_t : decl := DTypedef "bpfptr_t" (ty "sockptr_t").

Definition struct_bpf_verifier_log : decl := DComp Struct "bpf_verifier_log" false [
  fld "start_pos" (ty "u64");
  fld "end_pos" (ty "u64");
  fld "ubuf" (ptr char);
  fld "level" (ty "u32");
  fld "len_total" (ty "u32");
  fld "len_max" (ty "u32");
  fld "kbuf" (arr char 1024)
].

Definition enum_priv_stack_mode : decl := DEnum "priv_stack_mode" false [
  ("PRIV_STACK_UNKNOWN", 0);
  ("NO_PRIV_STACK", 1);
  ("PRIV_STACK_ADAPTIVE", 2)
]%Z.

Definition struct_bpf_subprog_arg_info : decl := DComp Struct "bpf_subprog_arg_info" false [
  fld "arg_type" (enum_ "bpf_arg_type");
  unnamed (anon_union [
    fld "mem_size" (ty "u32");
    fld "btf_id" (ty "u32")
  ])
].

Definition struct_bpf_subprog_info : decl := DComp Struct "bpf_subprog_info" false [
  fld "start" (ty "u32");
  fld "linfo_idx" (ty "u32");
  fld "postorder_start" (ty "u32");
  fld "stack_depth" (ty "u16");
  fld "stack_extra" (ty "u16");
  fld "fastcall_stack_off" (ty "s16");
  bit "has_tail_call" (ty "bool") 1;
  bit "tail_call_reachable" (ty "bool") 1;
  bit "has_ld_abs" (ty "bool") 1;
  bit "is_cb" (ty "bool") 1;
  bit "is_async_cb" (ty "bool") 1;
  bit "is_exception_cb" (ty "bool") 1;
  bit "args_cached" (ty "bool") 1;
  bit "keep_fastcall_stack" (ty "bool") 1;
  bit "changes_pkt_data" (ty "bool") 1;
  bit "might_sleep" (ty "bool") 1;
  fld "priv_stack_mode" (enum_ "priv_stack_mode");
  fld "arg_cnt" (ty "u8");
  fld "args" (arr (struct_ "bpf_subprog_arg_info") 5)
].

Definition struct_bpf_id_pair : decl := DComp Struct "bpf_id_pair" false [
  fld "old" (ty "u32");
  fld "cur" (ty "u32")
].

Definition struct_bpf_idmap : decl := DComp Struct "bpf_idmap" false [
  fld "tmp_id_gen" (ty "u32");
  fld "map" (arr (struct_ "bpf_id_pair") 600)
].

Definition struct_bpf_idset : decl := DComp Struct "bpf_idset" false [
  fld "count" (ty "u32");
  fld "ids" (arr (ty "u32") 600)
].

Definition struct_backtrack_state : decl := DComp Struct "backtrack_state" false [
  fld "env" (ptr (struct_ "bpf_verifier_env"));
  fld "frame" (ty "u32");
  fld "reg_masks" (arr (ty "u32") 8);
  fld "stack_masks" (arr (ty "u64") 8)
].

Definition struct_bpf_scc_callchain : decl := DComp Struct "bpf_scc_callchain" false [
  fld "callsites" (arr (ty "u32") 7);
  fld "scc" (ty "u32")
].

Definition struct_bpf_verifier_env : decl := DComp Struct "bpf_verifier_env" false [
  fld "insn_idx" (ty "u32");
  fld "prev_insn_idx" (ty "u32");
  fld "prog" (ptr (struct_ "bpf_prog"));
  fld "ops" (ptr (struct_ "bpf_verifier_ops"));
  fld "attach_btf_mod" (ptr (struct_ "module"));
  fld "head" (ptr (struct_ "bpf_verifier_stack_elem"));
  fld "stack_size" int;
  fld "strict_alignment" (ty "bool");
  fld "test_state_freq" (ty "bool");
  fld "test_reg_invariants" (ty "bool");
  fld "cur_state" (ptr (struct_ "bpf_verifier_state"));
  fld "explored_states" (ptr (struct_ "list_head"));
  fld "free_list" (struct_ "list_head");
  fld "used_maps" (arr (ptr (struct_ "bpf_map")) 64);
  fld "used_btfs" (arr (struct_ "btf_mod_pair") 64);
  fld "used_map_cnt" (ty "u32");
  fld "used_btf_cnt" (ty "u32");
  fld "id_gen" (ty "u32");
  fld "hidden_subprog_cnt" (ty "u32");
  fld "exception_callback_subprog" int;
  fld "explore_alu_limits" (ty "bool");
  fld "allow_ptr_leaks" (ty "bool");
  fld "allow_uninit_stack" (ty "bool");
  fld "bpf_capable" (ty "bool");
  fld "bypass_spec_v1" (ty "bool");
  fld "bypass_spec_v4" (ty "bool");
  fld "seen_direct_write" (ty "bool");
  fld "seen_exception" (ty "bool");
  fld "insn_aux_data" (ptr (struct_ "bpf_insn_aux_data"));
  fld "prev_linfo" (ptr (struct_ "bpf_line_info"));
  fld "log" (struct_ "bpf_verifier_log");
  fld "subprog_info" (arr (struct_ "bpf_subprog_info") 258);
  unnamed (anon_union [
    fld "idmap_scratch" (struct_ "bpf_idmap");
    fld "idset_scratch" (struct_ "bpf_idset")
  ]);
  fld "cfg" (anon_struct [
    fld "insn_state" (ptr int);
    fld "insn_stack" (ptr int);
    fld "insn_postorder" (ptr int);
    fld "cur_stack" int;
    fld "cur_postorder" int
  ]);
  fld "bt" (struct_ "backtrack_state");
  fld "cur_hist_ent" (ptr (struct_ "bpf_jmp_history_entry"));
  fld "pass_cnt" (ty "u32");
  fld "subprog_cnt" (ty "u32");
  fld "prev_insn_processed" (ty "u32");
  fld "insn_processed" (ty "u32");
  fld "prev_jmps_processed" (ty "u32");
  fld "jmps_processed" (ty "u32");
  fld "verification_time" (ty "u64");
  fld "max_states_per_insn" (ty "u32");
  fld "total_states" (ty "u32");
  fld "peak_states" (ty "u32");
  fld "longest_mark_read_walk" (ty "u32");
  fld "free_list_size" (ty "u32");
  fld "explored_states_size" (ty "u32");
  fld "num_backedges" (ty "u32");
  fld "fd_array" (ty "bpfptr_t");
  fld "scratched_regs" (ty "u32");
  fld "scratched_stack_slots" (ty "u64");
  fld "prev_log_pos" (ty "u64");
  fld "prev_insn_print_pos" (ty "u64");
  fld "fake_reg" (arr (struct_ "bpf_reg_state") 2);
  fld "tmp_str_buf" (arr char 320);
  fld "insn_buf" (arr (struct_ "bpf_insn") 32);
  fld "epilogue_buf" (arr (struct_ "bpf_insn") 32);
  fld "callchain_buf" (struct_ "bpf_scc_callchain");
  fld "liveness" (ptr (struct_ "bpf_liveness"));
  fld "scc_info" (ptr (ptr (struct_ "bpf_scc_info")));
  fld "scc_cnt" (ty "u32")
].

Definition struct_bpf_verifier_state : decl := DComp Struct "bpf_verifier_state" false [
  fld "frame" (arr (ptr (struct_ "bpf_func_state")) 8);
  fld "parent" (ptr (struct_ "bpf_verifier_state"));
  fld "refs" (ptr (struct_ "bpf_reference_state"));
  fld "branches" (ty "u32");
  fld "insn_idx" (ty "u32");
  fld "curframe" (ty "u32");
  fld "acquired_refs" (ty "u32");
  fld "active_locks" (ty "u32");
  fld "active_preempt_locks" (ty "u32");
  fld "active_irq_id" (ty "u32");
  fld "active_lock_id" (ty "u32");
  fld "active_lock_ptr" (ptr void);
  fld "active_rcu_lock" (ty "bool");
  fld "speculative" (ty "bool");
  fld "in_sleepable" (ty "bool");
  fld "cleaned" (ty "bool");
  fld "first_insn_idx" (ty "u32");
  fld "last_insn_idx" (ty "u32");
  fld "equal_state" (ptr (struct_ "bpf_verifier_state"));
  fld "jmp_history" (ptr (struct_ "bpf_jmp_history_entry"));
  fld "jmp_history_cnt" (ty "u32");
  fld "dfs_depth" (ty "u32");
  fld "callback_unroll_depth" (ty "u32");
  fld "may_goto_depth" (ty "u32")
].

(** The declarations of this part, in the order of the header. *)
Definition verifier_decls : list decl := [enum_bpf_dynptr_type; enum_bpf_iter_state; struct_tnum;
    struct_bpf_reg_state; struct_btf_mod_pair; typedef_sockptr_t; typedef_bpfptr_t;
    struct_bpf_verifier_log; enum_priv_stack_mode; struct_bpf_subprog_arg_info;
    struct_bpf_subprog_info; struct_bpf_id_pair; struct_bpf_idmap; struct_bpf_idset;
    struct_backtrack_state; struct_bpf_scc_callchain; struct_bpf_verifier_env;
    struct_bpf_verifier_state].
