(* ===== verification/KernelStack.v ===== *)
(** * Kernel declarations: the network stack behind XDP_PASS (kernelspace/vmlinux.h)

    Where a frame goes that the programs pass on: the network namespace, routes, neighbours,
    the IPv4 settings of a device, and the reasons for which the stack drops a frame. *)

From S2P Require Import Prelude Types CTypes.

Open Scope N_scope.
Open Scope string_scope.

Definition typedef___kernel_gid32_t : decl := DTypedef "__kernel_gid32_t" uint.

Definition typedef_gid_t : decl := DTypedef "gid_t" (ty "__kernel_gid32_t").

Definition struct_qrwlock : decl := DComp Struct "qrwlock" false [
  unnamed (anon_union [
    fld "cnts" (ty "atomic_t");
    unnamed (anon_struct [
      fld "wlocked" (ty "u8");
      fld "__lstate" (arr (ty "u8") 3)
    ])
  ]);
  fld "wait_lock" (ty "arch_spinlock_t")
].

Definition typedef_arch_rwlock_t : decl := DTypedef "arch_rwlock_t" (struct_ "qrwlock").

Definition typedef_seqlock_t : decl := DTypedef "seqlock_t" (anon_struct [
    fld "seqcount" (ty "seqcount_spinlock_t");
    fld "lock" (ty "spinlock_t")
  ]).

Definition typedef_rwlock_t : decl := DTypedef "rwlock_t" (anon_struct [
    fld "raw_lock" (ty "arch_rwlock_t")
  ]).

Definition struct_idr : decl := DComp Struct "idr" false [
  fld "idr_rt" (struct_ "xarray");
  fld "idr_base" uint;
  fld "idr_next" uint
].

Definition struct_ns_common : decl := DComp Struct "ns_common" false [
  fld "ns_type" (ty "u32");
  fld "stashed" (ptr (struct_ "dentry"));
  fld "ops" (ptr (struct_ "proc_ns_operations"));
  fld "inum" uint;
  fld "__ns_ref" (ty "refcount_t");
  unnamed (anon_union [
    unnamed (anon_struct [
      fld "ns_id" (ty "u64");
      fld "ns_tree_node" (struct_ "rb_node");
      fld "ns_list_node" (struct_ "list_head")
    ]);
    fld "ns_rcu" (struct_ "callback_head")
  ])
].

Definition struct_ctl_table_header : decl := DComp Struct "ctl_table_header" false [
  unnamed (anon_union [
    unnamed (anon_struct [
      fld "ctl_table" (ptr (struct_ "ctl_table"));
      fld "ctl_table_size" int;
      fld "used" int;
      fld "count" int;
      fld "nreg" int
    ]);
    fld "rcu" (struct_ "callback_head")
  ]);
  fld "unregistering" (ptr (struct_ "completion"));
  fld "ctl_table_arg" (ptr (struct_ "ctl_table"));
  fld "root" (ptr (struct_ "ctl_table_root"));
  fld "set" (ptr (struct_ "ctl_table_set"));
  fld "parent" (ptr (struct_ "ctl_dir"));
  fld "node" (ptr (struct_ "ctl_node"));
  fld "inodes" (struct_ "hlist_head");
  fld "type" (anon_enum [
    ("SYSCTL_TABLE_TYPE_DEFAULT", 0);
    ("SYSCTL_TABLE_TYPE_PERMANENTLY_EMPTY", 1)
  ]%Z)
].

Definition struct_ctl_dir : decl := DComp Struct "ctl_dir" false [
  fld "header" (struct_ "ctl_table_header");
  fld "root" (struct_ "rb_root")
].

Definition struct_ctl_table_set : decl := DComp Struct "ctl_table_set" false [
  fld "is_seen" (ptr (fn int [ptr (struct_ "ctl_table_set")]));
  fld "dir" (struct_ "ctl_dir")
].

Definition typedef_kgid_t : decl := DTypedef "kgid_t" (anon_struct [
    fld "val" (ty "gid_t")
  ]).

Definition struct_blocking_notifier_head : decl := DComp Struct "blocking_notifier_head" false [
  fld "rwsem" (struct_ "rw_semaphore");
  fld "head" (ptr (struct_ "notifier_block"))
].

Definition struct_raw_notifier_head : decl := DComp Struct "raw_notifier_head" false [
  fld "head" (ptr (struct_ "notifier_block"))
].

Definition struct_netns_core : decl := DComp Struct "netns_core" false [
  fld "sysctl_hdr" (ptr (struct_ "ctl_table_header"));
  fld "sysctl_somaxconn" int;
  fld "sysctl_optmem_max" int;
  fld "sysctl_txrehash" (ty "u8");
  fld "sysctl_tstamp_allow_data" (ty "u8");
  fld "prot_inuse" (ptr (struct_ "prot_inuse"));
  fld "rps_default_mask" (ptr (struct_ "cpumask"))
].

Definition struct_netns_mib : decl := DComp Struct "netns_mib" false [
  fld "ip_statistics" (ptr (struct_ "ipstats_mib"));
  fld "ipv6_statistics" (ptr (struct_ "ipstats_mib"));
  fld "tcp_statistics" (ptr (struct_ "tcp_mib"));
  fld "net_statistics" (ptr (struct_ "linux_mib"));
  fld "udp_statistics" (ptr (struct_ "udp_mib"));
  fld "udp_stats_in6" (ptr (struct_ "udp_mib"));
  fld "xfrm_statistics" (ptr (struct_ "linux_xfrm_mib"));
  fld "tls_statistics" (ptr (struct_ "linux_tls_mib"));
  fld "mptcp_statistics" (ptr (struct_ "mptcp_mib"));
  fld "udplite_statistics" (ptr (struct_ "udp_mib"));
  fld "udplite_stats_in6" (ptr (struct_ "udp_mib"));
  fld "icmp_statistics" (ptr (struct_ "icmp_mib"));
  fld "icmpmsg_statistics" (ptr (struct_ "icmpmsg_mib"));
  fld "icmpv6_statistics" (ptr (struct_ "icmpv6_mib"));
  fld "icmpv6msg_statistics" (ptr (struct_ "icmpv6msg_mib"));
  fld "proc_net_devsnmp6" (ptr (struct_ "proc_dir_entry"))
].

Definition struct_netns_packet : decl := DComp Struct "netns_packet" false [
  fld "sklist_lock" (struct_ "mutex");
  fld "sklist" (struct_ "hlist_head")
].

Definition struct_unix_table : decl := DComp Struct "unix_table" false [
  fld "locks" (ptr (ty "spinlock_t"));
  fld "buckets" (ptr (struct_ "hlist_head"))
].

Definition struct_netns_unix : decl := DComp Struct "netns_unix" false [
  fld "table" (struct_ "unix_table");
  fld "sysctl_max_dgram_qlen" int;
  fld "ctl" (ptr (struct_ "ctl_table_header"))
].

Definition struct_netns_nexthop : decl := DComp Struct "netns_nexthop" false [
  fld "rb_root" (struct_ "rb_root");
  fld "devhash" (ptr (struct_ "hlist_head"));
  fld "seq" uint;
  fld "last_id_allocated" (ty "u32");
  fld "notifier_chain" (struct_ "blocking_notifier_head")
].

Definition struct_inet_timewait_death_row : decl := DComp Struct "inet_timewait_death_row" false [
  fld "tw_refcount" (ty "refcount_t");
  bit "" long 64;
  bit "" long 64;
  bit "" long 64;
  bit "" long 64;
  bit "" long 64;
  bit "" long 64;
  bit "" long 64;
  fld "hashinfo" (ptr (struct_ "inet_hashinfo"));
  fld "sysctl_max_tw_buckets" int;
  bit "" long 64;
  bit "" long 64;
  bit "" long 64;
  bit "" long 64;
  bit "" long 64;
  bit "" long 64
].

Definition struct_udp_tunnel_gro : decl := DComp Struct "udp_tunnel_gro" false [
  fld "sk" (ptr (struct_ "sock"));
  fld "list" (struct_ "hlist_head")
].

Definition struct_local_ports : decl := DComp Struct "local_ports" false [
  fld "range" (ty "u32");
  fld "warned" (ty "bool")
].

Definition struct_ping_group_range : decl := DComp Struct "ping_group_range" false [
  fld "lock" (ty "seqlock_t");
  fld "range" (arr (ty "kgid_t") 2)
].

Definition struct_sysctl_fib_multipath_hash_seed : decl := DComp Struct "sysctl_fib_multipath_hash_seed" false [
  fld "user_seed" (ty "u32");
  fld "mp_seed" (ty "u32")
].

Definition typedef_siphash_key_t : decl := DTypedef "siphash_key_t" (anon_struct [
    fld "key" (arr (ty "u64") 2)
  ]).

Definition struct_netns_ipv4_fields_1 : list (string * ctype * option N) := [
  fld "__cacheline_group_begin__netns_ipv4_read_tx" (arr (ty "__u8") 0);
  fld "sysctl_tcp_early_retrans" (ty "u8");
  fld "sysctl_tcp_tso_win_divisor" (ty "u8");
  fld "sysctl_tcp_tso_rtt_log" (ty "u8");
  fld "sysctl_tcp_autocorking" (ty "u8");
  fld "sysctl_tcp_min_snd_mss" int;
  fld "sysctl_tcp_notsent_lowat" uint;
  fld "sysctl_tcp_limit_output_bytes" int;
  fld "sysctl_tcp_min_rtt_wlen" int;
  fld "sysctl_tcp_wmem" (arr int 3);
  fld "sysctl_ip_fwd_use_pmtu" (ty "u8");
  fld "__cacheline_group_end__netns_ipv4_read_tx" (arr (ty "__u8") 0);
  fld "__cacheline_group_begin__netns_ipv4_read_txrx" (arr (ty "__u8") 0);
  fld "sysctl_tcp_moderate_rcvbuf" (ty "u8");
  fld "__cacheline_group_end__netns_ipv4_read_txrx" (arr (ty "__u8") 0);
  fld "__cacheline_group_begin__netns_ipv4_read_rx" (arr (ty "__u8") 0);
  fld "sysctl_ip_early_demux" (ty "u8");
  fld "sysctl_tcp_early_demux" (ty "u8");
  fld "sysctl_tcp_l3mdev_accept" (ty "u8");
  fld "sysctl_tcp_reordering" int;
  fld "sysctl_tcp_rmem" (arr int 3);
  fld "__cacheline_group_end__netns_ipv4_read_rx" (arr (ty "__u8") 0);
  bit "" long 64;
  fld "__cacheline_group_begin__icmp" (arr (ty "__u8") 0);
  fld "icmp_global_credit" (ty "atomic_t");
  fld "icmp_global_stamp" (ty "u32");
  fld "__cacheline_group_end__icmp" (arr (ty "__u8") 0);
  bit "" long 64;
  bit "" long 64;
  bit "" long 64;
  bit "" long 64;
  bit "" long 64;
  bit "" long 64;
  bit "" long 64;
  fld "__cacheline_group_pad__icmp" (anon_struct [
  ]);
  fld "tcp_death_row" (struct_ "inet_timewait_death_row");
  fld "udp_table" (ptr (struct_ "udp_table"));
  fld "udp_tunnel_gro" (arr (struct_ "udp_tunnel_gro") 2);
  fld "forw_hdr" (ptr (struct_ "ctl_table_header"));
  fld "frags_hdr" (ptr (struct_ "ctl_table_header"));
  fld "ipv4_hdr" (ptr (struct_ "ctl_table_header"));
  fld "route_hdr" (ptr (struct_ "ctl_table_header"));
  fld "xfrm4_hdr" (ptr (struct_ "ctl_table_header"));
  fld "devconf_all" (ptr (struct_ "ipv4_devconf"));
  fld "devconf_dflt" (ptr (struct_ "ipv4_devconf"));
  fld "ra_chain" (ptr (struct_ "ip_ra_chain"));
  fld "ra_mutex" (struct_ "mutex");
  fld "rules_ops" (ptr (struct_ "fib_rules_ops"));
  fld "fib_main" (ptr (struct_ "fib_table"));
  fld "fib_default" (ptr (struct_ "fib_table"));
  fld "fib_rules_require_fldissect" uint;
  fld "fib_has_custom_rules" (ty "bool");
  fld "fib_has_custom_local_routes" (ty "bool");
  fld "fib_offload_disabled" (ty "bool");
  fld "sysctl_tcp_shrink_window" (ty "u8");
  fld "fib_num_tclassid_users" (ty "atomic_t");
  fld "fib_table_hash" (ptr (struct_ "hlist_head"));
  fld "fibnl" (ptr (struct_ "sock"));
  fld "fib_info_hash" (ptr (struct_ "hlist_head"));
  fld "fib_info_hash_bits" uint;
  fld "fib_info_cnt" uint;
  fld "mc_autojoin_sk" (ptr (struct_ "sock"));
  fld "peers" (ptr (struct_ "inet_peer_base"));
  fld "fqdir" (ptr (struct_ "fqdir"));
  fld "sysctl_icmp_echo_ignore_all" (ty "u8");
  fld "sysctl_icmp_echo_enable_probe" (ty "u8");
  fld "sysctl_icmp_echo_ignore_broadcasts" (ty "u8");
  fld "sysctl_icmp_ignore_bogus_error_responses" (ty "u8");
  fld "sysctl_icmp_errors_use_inbound_ifaddr" (ty "u8");
  fld "sysctl_icmp_ratelimit" int;
  fld "sysctl_icmp_ratemask" int;
  fld "sysctl_icmp_msgs_per_sec" int;
  fld "sysctl_icmp_msgs_burst" int;
  fld "ip_rt_min_pmtu" (ty "u32");
  fld "ip_rt_mtu_expires" int;
  fld "ip_rt_min_advmss" int;
  fld "ip_local_ports" (struct_ "local_ports");
  fld "sysctl_tcp_ecn" (ty "u8");
  fld "sysctl_tcp_ecn_option" (ty "u8");
  fld "sysctl_tcp_ecn_option_beacon" (ty "u8");
  fld "sysctl_tcp_ecn_fallback" (ty "u8");
  fld "sysctl_ip_default_ttl" (ty "u8");
  fld "sysctl_ip_no_pmtu_disc" (ty "u8");
  fld "sysctl_ip_fwd_update_priority" (ty "u8");
  fld "sysctl_ip_nonlocal_bind" (ty "u8");
  fld "sysctl_ip_autobind_reuse" (ty "u8");
  fld "sysctl_ip_dynaddr" (ty "u8");
  fld "sysctl_raw_l3mdev_accept" (ty "u8");
  fld "sysctl_udp_early_demux" (ty "u8");
  fld "sysctl_nexthop_compat_mode" (ty "u8");
  fld "sysctl_fwmark_reflect" (ty "u8");
  fld "sysctl_tcp_fwmark_accept" (ty "u8");
  fld "sysctl_tcp_mtu_probing" (ty "u8");
  fld "sysctl_tcp_mtu_probe_floor" int;
  fld "sysctl_tcp_base_mss" int;
  fld "sysctl_tcp_probe_threshold" int;
  fld "sysctl_tcp_probe_interval" (ty "u32");
  fld "sysctl_tcp_keepalive_time" int;
  fld "sysctl_tcp_keepalive_intvl" int;
  fld "sysctl_tcp_keepalive_probes" (ty "u8");
  fld "sysctl_tcp_syn_retries" (ty "u8");
  fld "sysctl_tcp_synack_retries" (ty "u8");
  fld "sysctl_tcp_syncookies" (ty "u8");
  fld "sysctl_tcp_migrate_req" (ty "u8");
  fld "sysctl_tcp_comp_sack_nr" (ty "u8");
  fld "sysctl_tcp_backlog_ack_defer" (ty "u8");
  fld "sysctl_tcp_pingpong_thresh" (ty "u8");
  fld "sysctl_tcp_retries1" (ty "u8");
  fld "sysctl_tcp_retries2" (ty "u8");
  fld "sysctl_tcp_orphan_retries" (ty "u8");
  fld "sysctl_tcp_tw_reuse" (ty "u8");
  fld "sysctl_tcp_tw_reuse_delay" uint;
  fld "sysctl_tcp_fin_timeout" int;
  fld "sysctl_tcp_sack" (ty "u8");
  fld "sysctl_tcp_window_scaling" (ty "u8");
  fld "sysctl_tcp_timestamps" (ty "u8");
  fld "sysctl_tcp_rto_min_us" int;
  fld "sysctl_tcp_rto_max_ms" int;
  fld "sysctl_tcp_recovery" (ty "u8");
  fld "sysctl_tcp_thin_linear_timeouts" (ty "u8");
  fld "sysctl_tcp_slow_start_after_idle" (ty "u8");
  fld "sysctl_tcp_retrans_collapse" (ty "u8");
  fld "sysctl_tcp_stdurg" (ty "u8");
  fld "sysctl_tcp_rfc1337" (ty "u8");
  fld "sysctl_tcp_abort_on_overflow" (ty "u8");
  fld "sysctl_tcp_fack" (ty "u8");
  fld "sysctl_tcp_max_reordering" int;
  fld "sysctl_tcp_adv_win_scale" int;
  fld "sysctl_tcp_dsack" (ty "u8");
  fld "sysctl_tcp_app_win" (ty "u8");
  fld "sysctl_tcp_frto" (ty "u8");
  fld "sysctl_tcp_nometrics_save" (ty "u8");
  fld "sysctl_tcp_no_ssthresh_metrics_save" (ty "u8");
  fld "sysctl_tcp_workaround_signed_windows" (ty "u8");
  fld "sysctl_tcp_challenge_ack_limit" int;
  fld "sysctl_tcp_min_tso_segs" (ty "u8");
  fld "sysctl_tcp_reflect_tos" (ty "u8");
  fld "sysctl_tcp_invalid_ratelimit" int;
  fld "sysctl_tcp_pacing_ss_ratio" int;
  fld "sysctl_tcp_pacing_ca_ratio" int;
  fld "sysctl_tcp_child_ehash_entries" uint;
  fld "sysctl_tcp_comp_sack_delay_ns" ulong;
  fld "sysctl_tcp_comp_sack_slack_ns" ulong;
  fld "sysctl_max_syn_backlog" int;
  fld "sysctl_tcp_fastopen" int;
  fld "tcp_congestion_control" (ptr (struct_ "tcp_congestion_ops"));
  fld "tcp_fastopen_ctx" (ptr (struct_ "tcp_fastopen_context"));
  fld "sysctl_tcp_fastopen_blackhole_timeout" uint
].

Definition struct_netns_ipv4_fields_2 : list (string * ctype * option N) := [
  fld "tfo_active_disable_times" (ty "atomic_t");
  fld "tfo_active_disable_stamp" ulong;
  fld "tcp_challenge_timestamp" (ty "u32");
  fld "tcp_challenge_count" (ty "u32");
  fld "sysctl_tcp_plb_enabled" (ty "u8");
  fld "sysctl_tcp_plb_idle_rehash_rounds" (ty "u8");
  fld "sysctl_tcp_plb_rehash_rounds" (ty "u8");
  fld "sysctl_tcp_plb_suspend_rto_sec" (ty "u8");
  fld "sysctl_tcp_plb_cong_thresh" int;
  fld "sysctl_udp_wmem_min" int;
  fld "sysctl_udp_rmem_min" int;
  fld "sysctl_fib_notify_on_flag_change" (ty "u8");
  fld "sysctl_tcp_syn_linear_timeouts" (ty "u8");
  fld "sysctl_udp_l3mdev_accept" (ty "u8");
  fld "sysctl_igmp_llm_reports" (ty "u8");
  fld "sysctl_igmp_max_memberships" int;
  fld "sysctl_igmp_max_msf" int;
  fld "sysctl_igmp_qrv" int;
  fld "ping_group_range" (struct_ "ping_group_range");
  fld "ping_port_rover" (ty "u16");
  fld "dev_addr_genid" (ty "atomic_t");
  fld "sysctl_udp_child_hash_entries" uint;
  fld "sysctl_local_reserved_ports" (ptr ulong);
  fld "sysctl_ip_prot_sock" int;
  fld "mr_tables" (struct_ "list_head");
  fld "mr_rules_ops" (ptr (struct_ "fib_rules_ops"));
  fld "sysctl_fib_multipath_hash_seed" (struct_ "sysctl_fib_multipath_hash_seed");
  fld "sysctl_fib_multipath_hash_fields" (ty "u32");
  fld "sysctl_fib_multipath_use_neigh" (ty "u8");
  fld "sysctl_fib_multipath_hash_policy" (ty "u8");
  fld "notifier_ops" (ptr (struct_ "fib_notifier_ops"));
  fld "fib_seq" uint;
  fld "ipmr_notifier_ops" (ptr (struct_ "fib_notifier_ops"));
  fld "ipmr_seq" uint;
  fld "rt_genid" (ty "atomic_t");
  fld "ip_id_key" (ty "siphash_key_t");
  fld "inet_addr_lst" (ptr (struct_ "hlist_head"));
  fld "addr_chk_work" (struct_ "delayed_work");
  bit "" long 64;
  bit "" long 64;
  bit "" long 64;
  bit "" long 64;
  bit "" long 64
].

Definition struct_netns_ipv4 : decl :=
  DComp Struct "netns_ipv4" false (struct_netns_ipv4_fields_1 ++ struct_netns_ipv4_fields_2).

Definition struct_dst_ops : decl := DComp Struct "dst_ops" false [
  fld "family" ushort;
  fld "gc_thresh" uint;
  fld "gc" (ptr (fn void [ptr (struct_ "dst_ops")]));
  fld "check" (ptr (fn (ptr (struct_ "dst_entry")) [ptr (struct_ "dst_entry"); ty "__u32"]));
  fld "default_advmss" (ptr (fn uint [ptr (struct_ "dst_entry")]));
  fld "mtu" (ptr (fn uint [ptr (struct_ "dst_entry")]));
  fld "cow_metrics" (ptr (fn (ptr (ty "u32")) [ptr (struct_ "dst_entry"); ulong]));
  fld "destroy" (ptr (fn void [ptr (struct_ "dst_entry")]));
  fld "ifdown" (ptr (fn void [ptr (struct_ "dst_entry"); ptr (struct_ "net_device")]));
  fld "negative_advice" (ptr (fn void [ptr (struct_ "sock"); ptr (struct_ "dst_entry")]));
  fld "link_failure" (ptr (fn void [ptr (struct_ "sk_buff")]));
  fld "update_pmtu" (ptr (fn void [ptr (struct_ "dst_entry"); ptr (struct_ "sock"); ptr (struct_
      "sk_buff"); ty "u32"; ty "bool"]));
  fld "redirect" (ptr (fn void [ptr (struct_ "dst_entry"); ptr (struct_ "sock"); ptr (struct_
      "sk_buff")]));
  fld "local_out" (ptr (fn int [ptr (struct_ "net"); ptr (struct_ "sock"); ptr (struct_
      "sk_buff")]));
  fld "neigh_lookup" (ptr (fn (ptr (struct_ "neighbour")) [ptr (struct_ "dst_entry"); ptr
      (struct_ "sk_buff"); ptr void]));
  fld "confirm_neigh" (ptr (fn void [ptr (struct_ "dst_entry"); ptr void]));
  fld "kmem_cachep" (ptr (struct_ "kmem_cache"));
  fld "pcpuc_entries" (struct_ "percpu_counter");
  bit "" long 64;
  bit "" long 64;
  bit "" long 64
].

Definition struct_netns_sysctl_ipv6 : decl := DComp Struct "netns_sysctl_ipv6" false [
  fld "hdr" (ptr (struct_ "ctl_table_header"));
  fld "route_hdr" (ptr (struct_ "ctl_table_header"));
  fld "icmp_hdr" (ptr (struct_ "ctl_table_header"));
  fld "frags_hdr" (ptr (struct_ "ctl_table_header"));
  fld "xfrm6_hdr" (ptr (struct_ "ctl_table_header"));
  fld "flush_delay" int;
  fld "ip6_rt_max_size" int;
  fld "ip6_rt_gc_min_interval" int;
  fld "ip6_rt_gc_timeout" int;
  fld "ip6_rt_gc_interval" int;
  fld "ip6_rt_gc_elasticity" int;
  fld "ip6_rt_mtu_expires" int;
  fld "ip6_rt_min_advmss" int;
  fld "multipath_hash_fields" (ty "u32");
  fld "multipath_hash_policy" (ty "u8");
  fld "bindv6only" (ty "u8");
  fld "flowlabel_consistency" (ty "u8");
  fld "auto_flowlabels" (ty "u8");
  fld "icmpv6_time" int;
  fld "icmpv6_echo_ignore_all" (ty "u8");
  fld "icmpv6_echo_ignore_multicast" (ty "u8");
  fld "icmpv6_echo_ignore_anycast" (ty "u8");
  fld "icmpv6_ratemask" (arr ulong 4);
  fld "icmpv6_ratemask_ptr" (ptr ulong);
  fld "anycast_src_echo_reply" (ty "u8");
  fld "ip_nonlocal_bind" (ty "u8");
  fld "fwmark_reflect" (ty "u8");
  fld "flowlabel_state_ranges" (ty "u8");
  fld "idgen_retries" int;
  fld "idgen_delay" int;
  fld "flowlabel_reflect" int;
  fld "max_dst_opts_cnt" int;
  fld "max_hbh_opts_cnt" int;
  fld "max_dst_opts_len" int;
  fld "max_hbh_opts_len" int;
  fld "seg6_flowlabel" int;
  fld "ioam6_id" (ty "u32");
  fld "ioam6_id_wide" (ty "u64");
  fld "skip_notify_on_dev_down" (ty "u8");
  fld "fib_notify_on_flag_change" (ty "u8");
  fld "icmpv6_error_anycast_as_unicast" (ty "u8")
].

Definition struct_netns_ipv6 : decl := DComp Struct "netns_ipv6" false [
  fld "ip6_dst_ops" (struct_ "dst_ops");
  fld "sysctl" (struct_ "netns_sysctl_ipv6");
  fld "devconf_all" (ptr (struct_ "ipv6_devconf"));
  fld "devconf_dflt" (ptr (struct_ "ipv6_devconf"));
  fld "peers" (ptr (struct_ "inet_peer_base"));
  fld "fqdir" (ptr (struct_ "fqdir"));
  fld "fib6_null_entry" (ptr (struct_ "fib6_info"));
  fld "ip6_null_entry" (ptr (struct_ "rt6_info"));
  fld "rt6_stats" (ptr (struct_ "rt6_statistics"));
  fld "ip6_fib_timer" (struct_ "timer_list");
  fld "fib_table_hash" (ptr (struct_ "hlist_head"));
  fld "fib_table_hash_lock" (ty "spinlock_t");
  fld "fib6_main_tbl" (ptr (struct_ "fib6_table"));
  fld "fib6_walkers" (struct_ "list_head");
  fld "fib6_walker_lock" (ty "rwlock_t");
  fld "fib6_gc_lock" (ty "spinlock_t");
  fld "ip6_rt_gc_expire" (ty "atomic_t");
  fld "ip6_rt_last_gc" ulong;
  fld "flowlabel_has_excl" uchar;
  fld "fib6_has_custom_rules" (ty "bool");
  fld "fib6_rules_require_fldissect" uint;
  fld "fib6_routes_require_src" uint;
  fld "ip6_prohibit_entry" (ptr (struct_ "rt6_info"));
  fld "ip6_blk_hole_entry" (ptr (struct_ "rt6_info"));
  fld "fib6_local_tbl" (ptr (struct_ "fib6_table"));
  fld "fib6_rules_ops" (ptr (struct_ "fib_rules_ops"));
  fld "ndisc_sk" (ptr (struct_ "sock"));
  fld "tcp_sk" (ptr (struct_ "sock"));
  fld "igmp_sk" (ptr (struct_ "sock"));
  fld "mc_autojoin_sk" (ptr (struct_ "sock"));
  fld "inet6_addr_lst" (ptr (struct_ "hlist_head"));
  fld "addrconf_hash_lock" (ty "spinlock_t");
  fld "addr_chk_work" (struct_ "delayed_work");
  fld "mr6_tables" (struct_ "list_head");
  fld "mr6_rules_ops" (ptr (struct_ "fib_rules_ops"));
  fld "dev_addr_genid" (ty "atomic_t");
  fld "fib6_sernum" (ty "atomic_t");
  fld "seg6_data" (ptr (struct_ "seg6_pernet_data"));
  fld "notifier_ops" (ptr (struct_ "fib_notifier_ops"));
  fld "ip6mr_notifier_ops" (ptr (struct_ "fib_notifier_ops"));
  fld "ipmr_seq" uint;
  fld "ip6addrlbl_table" (anon_struct [
    fld "head" (struct_ "hlist_head");
    fld "lock" (ty "spinlock_t");
    fld "seq" (ty "u32")
  ]);
  fld "ioam6_data" (ptr (struct_ "ioam6_pernet_data"));
  bit "" long 64;
  bit "" long 64;
  bit "" long 64
].

Definition struct_netns_sctp : decl := DComp Struct "netns_sctp" false [
  fld "sctp_statistics" (ptr (struct_ "sctp_mib"));
  fld "proc_net_sctp" (ptr (struct_ "proc_dir_entry"));
  fld "sysctl_header" (ptr (struct_ "ctl_table_header"));
  fld "ctl_sock" (ptr (struct_ "sock"));
  fld "udp4_sock" (ptr (struct_ "sock"));
  fld "udp6_sock" (ptr (struct_ "sock"));
  fld "udp_port" int;
  fld "encap_port" int;
  fld "local_addr_list" (struct_ "list_head");
  fld "addr_waitq" (struct_ "list_head");
  fld "addr_wq_timer" (struct_ "timer_list");
  fld "auto_asconf_splist" (struct_ "list_head");
  fld "addr_wq_lock" (ty "spinlock_t");
  fld "local_addr_lock" (ty "spinlock_t");
  fld "rto_initial" uint;
  fld "rto_min" uint;
  fld "rto_max" uint;
  fld "rto_alpha" int;
  fld "rto_beta" int;
  fld "max_burst" int;
  fld "cookie_preserve_enable" int;
  fld "cookie_auth_enable" int;
  fld "valid_cookie_life" uint;
  fld "sack_timeout" uint;
  fld "hb_interval" uint;
  fld "probe_interval" uint;
  fld "max_retrans_association" int;
  fld "max_retrans_path" int;
  fld "max_retrans_init" int;
  fld "pf_retrans" int;
  fld "ps_retrans" int;
  fld "pf_enable" int;
  fld "pf_expose" int;
  fld "sndbuf_policy" int;
  fld "rcvbuf_policy" int;
  fld "default_auto_asconf" int;
  fld "addip_enable" int;
  fld "addip_noauth" int;
  fld "prsctp_enable" int;
  fld "reconf_enable" int;
  fld "auth_enable" int;
  fld "intl_enable" int;
  fld "ecn_enable" int;
  fld "scope_policy" int;
  fld "rwnd_upd_shift" int;
  fld "max_autoclose" ulong;
  fld "l3mdev_accept" int
].

Definition struct_netns_nf : decl := DComp Struct "netns_nf" false [
  fld "proc_netfilter" (ptr (struct_ "proc_dir_entry"));
  fld "nf_loggers" (arr (ptr (struct_ "nf_logger")) 11);
  fld "nf_log_dir_header" (ptr (struct_ "ctl_table_header"));
  fld "nf_lwtnl_dir_header" (ptr (struct_ "ctl_table_header"));
  fld "hooks_ipv4" (arr (ptr (struct_ "nf_hook_entries")) 5);
  fld "hooks_ipv6" (arr (ptr (struct_ "nf_hook_entries")) 5);
  fld "hooks_arp" (arr (ptr (struct_ "nf_hook_entries")) 3);
  fld "hooks_bridge" (arr (ptr (struct_ "nf_hook_entries")) 5);
  fld "defrag_ipv4_users" uint;
  fld "defrag_ipv6_users" uint
].

Definition struct_nf_generic_net : decl := DComp Struct "nf_generic_net" false [
  fld "timeout" uint
].

Definition struct_nf_tcp_net : decl := DComp Struct "nf_tcp_net" false [
  fld "timeouts" (arr uint 14);
  fld "tcp_loose" (ty "u8");
  fld "tcp_be_liberal" (ty "u8");
  fld "tcp_max_retrans" (ty "u8");
  fld "tcp_ignore_invalid_rst" (ty "u8");
  fld "offload_timeout" uint
].

Definition struct_nf_udp_net : decl := DComp Struct "nf_udp_net" false [
  fld "timeouts" (arr uint 2);
  fld "offload_timeout" uint
].

Definition struct_nf_icmp_net : decl := DComp Struct "nf_icmp_net" false [
  fld "timeout" uint
].

Definition struct_nf_sctp_net : decl := DComp Struct "nf_sctp_net" false [
  fld "timeouts" (arr uint 10)
].

Definition struct_nf_gre_net : decl := DComp Struct "nf_gre_net" false [
  fld "keymap_list" (struct_ "list_head");
  fld "timeouts" (arr uint 2)
].

Definition struct_nf_ip_net : decl := DComp Struct "nf_ip_net" false [
  fld "generic" (struct_ "nf_generic_net");
  fld "tcp" (struct_ "nf_tcp_net");
  fld "udp" (struct_ "nf_udp_net");
  fld "icmp" (struct_ "nf_icmp_net");
  fld "icmpv6" (struct_ "nf_icmp_net");
  fld "sctp" (struct_ "nf_sctp_net");
  fld "gre" (struct_ "nf_gre_net")
].

Definition struct_netns_ct : decl := DComp Struct "netns_ct" false [
  fld "ecache_dwork_pending" (ty "bool");
  fld "sysctl_log_invalid" (ty "u8");
  fld "sysctl_events" (ty "u8");
  fld "sysctl_acct" (ty "u8");
  fld "sysctl_tstamp" (ty "u8");
  fld "sysctl_checksum" (ty "u8");
  fld "stat" (ptr (struct_ "ip_conntrack_stat"));
  fld "nf_conntrack_event_cb" (ptr (struct_ "nf_ct_event_notifier"));
  fld "nf_ct_proto" (struct_ "nf_ip_net");
  fld "labels_used" (ty "atomic_t")
].

Definition struct_netns_nftables : decl := DComp Struct "netns_nftables" false [
  fld "base_seq" uint;
  fld "gencursor" (ty "u8")
].

Definition struct_netns_ft : decl := DComp Struct "netns_ft" false [
  fld "stat" (ptr (struct_ "nf_flow_table_stat"))
].

Definition struct_netns_bpf : decl := DComp Struct "netns_bpf" false [
  fld "run_array" (arr (ptr (struct_ "bpf_prog_array")) 2);
  fld "progs" (arr (ptr (struct_ "bpf_prog")) 2);
  fld "links" (arr (struct_ "list_head") 2)
].

Definition struct_xfrm_policy_hash : decl := DComp Struct "xfrm_policy_hash" false [
  fld "table" (ptr (struct_ "hlist_head"));
  fld "hmask" uint;
  fld "dbits4" (ty "u8");
  fld "sbits4" (ty "u8");
  fld "dbits6" (ty "u8");
  fld "sbits6" (ty "u8")
].

Definition struct_xfrm_policy_hthresh : decl := DComp Struct "xfrm_policy_hthresh" false [
  fld "work" (struct_ "work_struct");
  fld "lock" (ty "seqlock_t");
  fld "lbits4" (ty "u8");
  fld "rbits4" (ty "u8");
  fld "lbits6" (ty "u8");
  fld "rbits6" (ty "u8")
].

Definition struct_netns_xfrm : decl := DComp Struct "netns_xfrm" false [
  fld "state_all" (struct_ "list_head");
  fld "state_bydst" (ptr (struct_ "hlist_head"));
  fld "state_bysrc" (ptr (struct_ "hlist_head"));
  fld "state_byspi" (ptr (struct_ "hlist_head"));
  fld "state_byseq" (ptr (struct_ "hlist_head"));
  fld "state_cache_input" (ptr (struct_ "hlist_head"));
  fld "state_hmask" uint;
  fld "state_num" uint;
  fld "state_hash_work" (struct_ "work_struct");
  fld "policy_all" (struct_ "list_head");
  fld "policy_byidx" (ptr (struct_ "hlist_head"));
  fld "policy_idx_hmask" uint;
  fld "idx_generator" uint;
  fld "policy_bydst" (arr (struct_ "xfrm_policy_hash") 3);
  fld "policy_count" (arr uint 6);
  fld "policy_hash_work" (struct_ "work_struct");
  fld "policy_hthresh" (struct_ "xfrm_policy_hthresh");
  fld "inexact_bins" (struct_ "list_head");
  fld "nlsk" (ptr (struct_ "sock"));
  fld "nlsk_stash" (ptr (struct_ "sock"));
  fld "sysctl_aevent_etime" (ty "u32");
  fld "sysctl_aevent_rseqth" (ty "u32");
  fld "sysctl_larval_drop" int;
  fld "sysctl_acq_expires" (ty "u32");
  fld "policy_default" (arr (ty "u8") 3);
  fld "sysctl_hdr" (ptr (struct_ "ctl_table_header"));
  bit "" long 64;
  bit "" long 64;
  bit "" long 64;
  bit "" long 64;
  bit "" long 64;
  fld "xfrm4_dst_ops" (struct_ "dst_ops");
  fld "xfrm6_dst_ops" (struct_ "dst_ops");
  fld "xfrm_state_lock" (ty "spinlock_t");
  fld "xfrm_state_hash_generation" (ty "seqcount_spinlock_t");
  fld "xfrm_policy_hash_generation" (ty "seqcount_spinlock_t");
  fld "xfrm_policy_lock" (ty "spinlock_t");
  fld "xfrm_cfg_mutex" (struct_ "mutex");
  fld "nat_keepalive_work" (struct_ "delayed_work");
  bit "" long 64;
  bit "" long 64;
  bit "" long 64;
  bit "" long 64;
  bit "" long 64;
  bit "" long 64;
  bit "" long 64
].

Definition struct_netns_mpls : decl := DComp Struct "netns_mpls" false [
  fld "ip_ttl_propagate" int;
  fld "default_ttl" int;
  fld "platform_labels" (ty "size_t");
  fld "platform_label" (ptr (ptr (struct_ "mpls_route")));
  fld "ctl" (ptr (struct_ "ctl_table_header"))
].

Definition struct_netns_xdp : decl := DComp Struct "netns_xdp" false [
  fld "lock" (struct_ "mutex");
  fld "list" (struct_ "hlist_head")
].

Definition struct_net : decl := DComp Struct "net" false [
  fld "passive" (ty "refcount_t");
  fld "rules_mod_lock" (ty "spinlock_t");
  fld "dev_base_seq" uint;
  fld "ifindex" (ty "u32");
  fld "nsid_lock" (ty "spinlock_t");
  fld "fnhe_genid" (ty "atomic_t");
  fld "list" (struct_ "list_head");
  fld "exit_list" (struct_ "list_head");
  fld "defer_free_list" (struct_ "llist_node");
  fld "cleanup_list" (struct_ "llist_node");
  fld "ptype_all" (struct_ "list_head");
  fld "ptype_specific" (struct_ "list_head");
  fld "key_domain" (ptr (struct_ "key_tag"));
  fld "user_ns" (ptr (struct_ "user_namespace"));
  fld "ucounts" (ptr (struct_ "ucounts"));
  fld "netns_ids" (struct_ "idr");
  fld "ns" (struct_ "ns_common");
  fld "refcnt_tracker" (struct_ "ref_tracker_dir");
  fld "notrefcnt_tracker" (struct_ "ref_tracker_dir");
  fld "dev_base_head" (struct_ "list_head");
  fld "proc_net" (ptr (struct_ "proc_dir_entry"));
  fld "proc_net_stat" (ptr (struct_ "proc_dir_entry"));
  fld "sysctls" (struct_ "ctl_table_set");
  fld "rtnl" (ptr (struct_ "sock"));
  fld "genl_sock" (ptr (struct_ "sock"));
  fld "uevent_sock" (ptr (struct_ "uevent_sock"));
  fld "dev_name_head" (ptr (struct_ "hlist_head"));
  fld "dev_index_head" (ptr (struct_ "hlist_head"));
  fld "dev_by_index" (struct_ "xarray");
  fld "netdev_chain" (struct_ "raw_notifier_head");
  fld "hash_mix" (ty "u32");
  fld "loopback_dev" (ptr (struct_ "net_device"));
  fld "rules_ops" (struct_ "list_head");
  fld "core" (struct_ "netns_core");
  fld "mib" (struct_ "netns_mib");
  fld "packet" (struct_ "netns_packet");
  fld "unx" (struct_ "netns_unix");
  fld "nexthop" (struct_ "netns_nexthop");
  bit "" long 64;
  bit "" long 64;
  bit "" long 64;
  bit "" long 64;
  bit "" long 64;
  bit "" long 64;
  bit "" long 64;
  fld "ipv4" (struct_ "netns_ipv4");
  fld "ipv6" (struct_ "netns_ipv6");
  fld "sctp" (struct_ "netns_sctp");
  fld "nf" (struct_ "netns_nf");
  fld "ct" (struct_ "netns_ct");
  fld "nft" (struct_ "netns_nftables");
  fld "ft" (struct_ "netns_ft");
  fld "gen" (ptr (struct_ "net_generic"));
  fld "bpf" (struct_ "netns_bpf");
  fld "xfrm" (struct_ "netns_xfrm");
  fld "net_cookie" (ty "u64");
  fld "ipvs" (ptr (struct_ "netns_ipvs"));
  fld "mpls" (struct_ "netns_mpls");
  fld "xdp" (struct_ "netns_xdp");
  fld "crypto_nlsk" (ptr (struct_ "sock"));
  fld "diag_nlsk" (ptr (struct_ "sock"));
  bit "" long 64;
  bit "" long 64;
  bit "" long 64
].

Definition struct_hh_cache : decl := DComp Struct "hh_cache" false [
  fld "hh_len" uint;
  fld "hh_lock" (ty "seqlock_t");
  fld "hh_data" (arr ulong 4)
].

Definition struct_neighbour : decl := DComp Struct "neighbour" false [
  fld "hash" (struct_ "hlist_node");
  fld "dev_list" (struct_ "hlist_node");
  fld "tbl" (ptr (struct_ "neigh_table"));
  fld "parms" (ptr (struct_ "neigh_parms"));
  fld "confirmed" ulong;
  fld "updated" ulong;
  fld "lock" (ty "rwlock_t");
  fld "refcnt" (ty "refcount_t");
  fld "arp_queue_len_bytes" uint;
  fld "arp_queue" (struct_ "sk_buff_head");
  fld "timer" (struct_ "timer_list");
  fld "used" ulong;
  fld "probes" (ty "atomic_t");
  fld "nud_state" (ty "u8");
  fld "type" (ty "u8");
  fld "dead" (ty "u8");
  fld "protocol" (ty "u8");
  fld "flags" (ty "u32");
  fld "ha_lock" (ty "seqlock_t");
  bit "" long 0;
  fld "ha" (arr uchar 32);
  fld "hh" (struct_ "hh_cache");
  fld "output" (ptr (fn int [ptr (struct_ "neighbour"); ptr (struct_ "sk_buff")]));
  fld "ops" (ptr (struct_ "neigh_ops"));
  fld "gc_list" (struct_ "list_head");
  fld "managed_list" (struct_ "list_head");
  fld "rcu" (struct_ "callback_head");
  fld "dev" (ptr (struct_ "net_device"));
  fld "dev_tracker" (ty "netdevice_tracker");
  fld "primary_key" (arr (ty "u8") 0)
].

Definition enum_skb_drop_reason : decl := DEnum "skb_drop_reason" false [
  ("SKB_NOT_DROPPED_YET", 0);
  ("SKB_CONSUMED", 1);
  ("SKB_DROP_REASON_NOT_SPECIFIED", 2);
  ("SKB_DROP_REASON_NO_SOCKET", 3);
  ("SKB_DROP_REASON_SOCKET_CLOSE", 4);
  ("SKB_DROP_REASON_SOCKET_FILTER", 5);
  ("SKB_DROP_REASON_SOCKET_RCVBUFF", 6);
  ("SKB_DROP_REASON_UNIX_DISCONNECT", 7);
  ("SKB_DROP_REASON_UNIX_SKIP_OOB", 8);
  ("SKB_DROP_REASON_PKT_TOO_SMALL", 9);
  ("SKB_DROP_REASON_TCP_CSUM", 10);
  ("SKB_DROP_REASON_UDP_CSUM", 11);
  ("SKB_DROP_REASON_NETFILTER_DROP", 12);
  ("SKB_DROP_REASON_OTHERHOST", 13);
  ("SKB_DROP_REASON_IP_CSUM", 14);
  ("SKB_DROP_REASON_IP_INHDR", 15);
  ("SKB_DROP_REASON_IP_RPFILTER", 16);
  ("SKB_DROP_REASON_UNICAST_IN_L2_MULTICAST", 17);
  ("SKB_DROP_REASON_XFRM_POLICY", 18);
  ("SKB_DROP_REASON_IP_NOPROTO", 19);
  ("SKB_DROP_REASON_PROTO_MEM", 20);
  ("SKB_DROP_REASON_TCP_AUTH_HDR", 21);
  ("SKB_DROP_REASON_TCP_MD5NOTFOUND", 22);
  ("SKB_DROP_REASON_TCP_MD5UNEXPECTED", 23);
  ("SKB_DROP_REASON_TCP_MD5FAILURE", 24);
  ("SKB_DROP_REASON_TCP_AONOTFOUND", 25);
  ("SKB_DROP_REASON_TCP_AOUNEXPECTED", 26);
  ("SKB_DROP_REASON_TCP_AOKEYNOTFOUND", 27);
  ("SKB_DROP_REASON_TCP_AOFAILURE", 28);
  ("SKB_DROP_REASON_SOCKET_BACKLOG", 29);
  ("SKB_DROP_REASON_TCP_FLAGS", 30);
  ("SKB_DROP_REASON_TCP_ABORT_ON_DATA", 31);
  ("SKB_DROP_REASON_TCP_ZEROWINDOW", 32);
  ("SKB_DROP_REASON_TCP_OLD_DATA", 33);
  ("SKB_DROP_REASON_TCP_OVERWINDOW", 34);
  ("SKB_DROP_REASON_TCP_OFOMERGE", 35);
  ("SKB_DROP_REASON_TCP_RFC7323_PAWS", 36);
  ("SKB_DROP_REASON_TCP_RFC7323_PAWS_ACK", 37);
  ("SKB_DROP_REASON_TCP_RFC7323_TW_PAWS", 38);
  ("SKB_DROP_REASON_TCP_RFC7323_TSECR", 39);
  ("SKB_DROP_REASON_TCP_LISTEN_OVERFLOW", 40);
  ("SKB_DROP_REASON_TCP_OLD_SEQUENCE", 41);
  ("SKB_DROP_REASON_TCP_INVALID_SEQUENCE", 42);
  ("SKB_DROP_REASON_TCP_INVALID_END_SEQUENCE", 43);
  ("SKB_DROP_REASON_TCP_INVALID_ACK_SEQUENCE", 44);
  ("SKB_DROP_REASON_TCP_RESET", 45);
  ("SKB_DROP_REASON_TCP_INVALID_SYN", 46);
  ("SKB_DROP_REASON_TCP_CLOSE", 47);
  ("SKB_DROP_REASON_TCP_FASTOPEN", 48);
  ("SKB_DROP_REASON_TCP_OLD_ACK", 49);
  ("SKB_DROP_REASON_TCP_TOO_OLD_ACK", 50);
  ("SKB_DROP_REASON_TCP_ACK_UNSENT_DATA", 51);
  ("SKB_DROP_REASON_TCP_OFO_QUEUE_PRUNE", 52);
  ("SKB_DROP_REASON_TCP_OFO_DROP", 53);
  ("SKB_DROP_REASON_IP_OUTNOROUTES", 54);
  ("SKB_DROP_REASON_BPF_CGROUP_EGRESS", 55);
  ("SKB_DROP_REASON_IPV6DISABLED", 56);
  ("SKB_DROP_REASON_NEIGH_CREATEFAIL", 57);
  ("SKB_DROP_REASON_NEIGH_FAILED", 58);
  ("SKB_DROP_REASON_NEIGH_QUEUEFULL", 59);
  ("SKB_DROP_REASON_NEIGH_DEAD", 60);
  ("SKB_DROP_REASON_NEIGH_HH_FILLFAIL", 61);
  ("SKB_DROP_REASON_TC_EGRESS", 62);
  ("SKB_DROP_REASON_SECURITY_HOOK", 63);
  ("SKB_DROP_REASON_QDISC_DROP", 64);
  ("SKB_DROP_REASON_QDISC_OVERLIMIT", 65);
  ("SKB_DROP_REASON_QDISC_CONGESTED", 66);
  ("SKB_DROP_REASON_CAKE_FLOOD", 67);
  ("SKB_DROP_REASON_FQ_BAND_LIMIT", 68);
  ("SKB_DROP_REASON_FQ_HORIZON_LIMIT", 69);
  ("SKB_DROP_REASON_FQ_FLOW_LIMIT", 70);
  ("SKB_DROP_REASON_CPU_BACKLOG", 71);
  ("SKB_DROP_REASON_XDP", 72);
  ("SKB_DROP_REASON_TC_INGRESS", 73);
  ("SKB_DROP_REASON_UNHANDLED_PROTO", 74);
  ("SKB_DROP_REASON_SKB_CSUM", 75);
  ("SKB_DROP_REASON_SKB_GSO_SEG", 76);
  ("SKB_DROP_REASON_SKB_UCOPY_FAULT", 77);
  ("SKB_DROP_REASON_DEV_HDR", 78);
  ("SKB_DROP_REASON_DEV_READY", 79);
  ("SKB_DROP_REASON_FULL_RING", 80);
  ("SKB_DROP_REASON_NOMEM", 81);
  ("SKB_DROP_REASON_HDR_TRUNC", 82);
  ("SKB_DROP_REASON_TAP_FILTER", 83);
  ("SKB_DROP_REASON_TAP_TXFILTER", 84);
  ("SKB_DROP_REASON_ICMP_CSUM", 85);
  ("SKB_DROP_REASON_INVALID_PROTO", 86);
  ("SKB_DROP_REASON_IP_INADDRERRORS", 87);
  ("SKB_DROP_REASON_IP_INNOROUTES", 88);
  ("SKB_DROP_REASON_IP_LOCAL_SOURCE", 89);
  ("SKB_DROP_REASON_IP_INVALID_SOURCE", 90);
  ("SKB_DROP_REASON_IP_LOCALNET", 91);
  ("SKB_DROP_REASON_IP_INVALID_DEST", 92);
  ("SKB_DROP_REASON_PKT_TOO_BIG", 93);
  ("SKB_DROP_REASON_DUP_FRAG", 94);
  ("SKB_DROP_REASON_FRAG_REASM_TIMEOUT", 95);
  ("SKB_DROP_REASON_FRAG_TOO_FAR", 96);
  ("SKB_DROP_REASON_TCP_MINTTL", 97);
  ("SKB_DROP_REASON_IPV6_BAD_EXTHDR", 98);
  ("SKB_DROP_REASON_IPV6_NDISC_FRAG", 99);
  ("SKB_DROP_REASON_IPV6_NDISC_HOP_LIMIT", 100);
  ("SKB_DROP_REASON_IPV6_NDISC_BAD_CODE", 101);
  ("SKB_DROP_REASON_IPV6_NDISC_BAD_OPTIONS", 102);
  ("SKB_DROP_REASON_IPV6_NDISC_NS_OTHERHOST", 103);
  ("SKB_DROP_REASON_QUEUE_PURGE", 104);
  ("SKB_DROP_REASON_TC_COOKIE_ERROR", 105);
  ("SKB_DROP_REASON_PACKET_SOCK_ERROR", 106);
  ("SKB_DROP_REASON_TC_CHAIN_NOTFOUND", 107);
  ("SKB_DROP_REASON_TC_RECLASSIFY_LOOP", 108);
  ("SKB_DROP_REASON_VXLAN_INVALID_HDR", 109);
  ("SKB_DROP_REASON_VXLAN_VNI_NOT_FOUND", 110);
  ("SKB_DROP_REASON_MAC_INVALID_SOURCE", 111);
  ("SKB_DROP_REASON_VXLAN_ENTRY_EXISTS", 112);
  ("SKB_DROP_REASON_NO_TX_TARGET", 113);
  ("SKB_DROP_REASON_IP_TUNNEL_ECN", 114);
  ("SKB_DROP_REASON_TUNNEL_TXINFO", 115);
  ("SKB_DROP_REASON_LOCAL_MAC", 116);
  ("SKB_DROP_REASON_ARP_PVLAN_DISABLE", 117);
  ("SKB_DROP_REASON_MAC_IEEE_MAC_CONTROL", 118);
  ("SKB_DROP_REASON_BRIDGE_INGRESS_STP_STATE", 119);
  ("SKB_DROP_REASON_CAN_RX_INVALID_FRAME", 120);
  ("SKB_DROP_REASON_CANFD_RX_INVALID_FRAME", 121);
  ("SKB_DROP_REASON_CANXL_RX_INVALID_FRAME", 122);
  ("SKB_DROP_REASON_PFMEMALLOC", 123);
  ("SKB_DROP_REASON_DUALPI2_STEP_DROP", 124);
  ("SKB_DROP_REASON_PSP_INPUT", 125);
  ("SKB_DROP_REASON_PSP_OUTPUT", 126);
  ("SKB_DROP_REASON_MAX", 127);
  ("SKB_DROP_REASON_SUBSYS_MASK", 4294901760)
]%Z.

Definition struct_ipv4_devconf : decl := DComp Struct "ipv4_devconf" false [
  fld "sysctl" (ptr void);
  fld "data" (arr int 33);
  fld "state" (arr ulong 1)
].

Definition struct_in_device : decl := DComp Struct "in_device" false [
  fld "dev" (ptr (struct_ "net_device"));
  fld "dev_tracker" (ty "netdevice_tracker");
  fld "refcnt" (ty "refcount_t");
  fld "dead" int;
  fld "ifa_list" (ptr (struct_ "in_ifaddr"));
  fld "mc_list" (ptr (struct_ "ip_mc_list"));
  fld "mc_hash" (ptr (ptr (struct_ "ip_mc_list")));
  fld "mc_count" int;
  fld "mc_tomb_lock" (ty "spinlock_t");
  fld "mc_tomb" (ptr (struct_ "ip_mc_list"));
  fld "mr_v1_seen" ulong;
  fld "mr_v2_seen" ulong;
  fld "mr_qi" ulong;
  fld "mr_qri" ulong;
  fld "mr_qrv" uchar;
  fld "mr_gq_running" uchar;
  fld "mr_maxdelay" (ty "u32");
  fld "mr_ifc_count" (ty "u32");
  fld "mr_gq_timer" (struct_ "timer_list");
  fld "mr_ifc_timer" (struct_ "timer_list");
  fld "arp_parms" (ptr (struct_ "neigh_parms"));
  fld "cnf" (struct_ "ipv4_devconf");
  fld "callback_head" (struct_ "callback_head")
].

Definition struct_ip_options : decl := DComp Struct "ip_options" false [
  fld "faddr" (ty "__be32");
  fld "nexthop" (ty "__be32");
  fld "optlen" uchar;
  fld "srr" uchar;
  fld "rr" uchar;
  fld "ts" uchar;
  bit "is_strictroute" uchar 1;
  bit "srr_is_hit" uchar 1;
  bit "is_changed" uchar 1;
  bit "rr_needaddr" uchar 1;
  bit "ts_needtime" uchar 1;
  bit "ts_needaddr" uchar 1;
  fld "router_alert" uchar;
  fld "cipso" uchar;
  fld "__pad2" uchar;
  fld "__data" (arr uchar 0)
].

(** The declarations of this part, in the order of the header. *)
Definition stack_decls : list decl := [typedef___kernel_gid32_t; typedef_gid_t; struct_qrwlock;
    typedef_arch_rwlock_t; typedef_seqlock_t; typedef_rwlock_t; struct_idr; struct_ns_common;
    struct_ctl_table_header; struct_ctl_dir; struct_ctl_table_set; typedef_kgid_t;
    struct_blocking_notifier_head; struct_raw_notifier_head; struct_netns_core; struct_netns_mib;
    struct_netns_packet; struct_unix_table; struct_netns_unix; struct_netns_nexthop;
    struct_inet_timewait_death_row; struct_udp_tunnel_gro; struct_local_ports;
    struct_ping_group_range; struct_sysctl_fib_multipath_hash_seed; typedef_siphash_key_t;
    struct_netns_ipv4; struct_dst_ops; struct_netns_sysctl_ipv6; struct_netns_ipv6;
    struct_netns_sctp; struct_netns_nf; struct_nf_generic_net; struct_nf_tcp_net;
    struct_nf_udp_net; struct_nf_icmp_net; struct_nf_sctp_net; struct_nf_gre_net;
    struct_nf_ip_net; struct_netns_ct; struct_netns_nftables; struct_netns_ft; struct_netns_bpf;
    struct_xfrm_policy_hash; struct_xfrm_policy_hthresh; struct_netns_xfrm; struct_netns_mpls;
    struct_netns_xdp; struct_net; struct_hh_cache; struct_neighbour; enum_skb_drop_reason;
    struct_ipv4_devconf; struct_in_device; struct_ip_options].
