(* ===== verification/Vmlinux.v ===== *)
(** * The header as a whole (kernelspace/vmlinux.h and types.h)

    The declarations of the six parts in one list, followed by the structs of [types.h],
    which are written in the header's typedefs; their table of sizes; and what the layout
    says about the program: the offsets, codes and map structs the models of the XDP
    programs and of the control plane use are those of the declarations. *)

From Stdlib Require Import Sorting.Sorted.
From S2P Require Import Prelude Types BpfMaps Ebpf Checksum Xdp.
From S2P Require Import CTypes Layout KernelBase KernelUapi KernelBpf KernelNet.
From S2P Require Import KernelVerifier KernelStack.

Open Scope N_scope.
Open Scope string_scope.

(** ** The structs of types.h *)

Definition struct_backend_info_fields : list (string * ctype) := [
  ("ipv4", ty "__u32");
  ("port", ty "__u16");
  ("pad", ty "__u16");
  ("mac", arr (ty "__u8") 6);
  ("pad2", arr (ty "__u8") 2);
  ("weight", ty "__u32")
].

Definition struct_lb_config_fields : list (string * ctype) := [
  ("vip", ty "__u32");
  ("vport", ty "__u16");
  ("pad", ty "__u16");
  ("backend_count", ty "__u32");
  ("src_mac", arr (ty "__u8") 6);
  ("pad2", arr (ty "__u8") 2)
].

Definition struct_stats_counter_fields : list (string * ctype) := [
  ("rx_packets", ty "__u64");
  ("rx_bytes", ty "__u64")
].

Definition types_h_decls : list decl := [
  DComp Struct "backend_info" false (plain struct_backend_info_fields);
  DComp Struct "lb_config" false (plain struct_lb_config_fields);
  DComp Struct "stats_counter" false (plain struct_stats_counter_fields)
].

(** ** The whole header and its sizes *)

Definition kernel_decls : list decl :=
  (base_decls ++ uapi_decls ++ bpf_decls ++ net_decls ++ verifier_decls ++ stack_decls ++
   types_h_decls)%list.

Definition kernel_table : table := default [] (layout_decls [] kernel_decls).

Lemma kernel_lays_out : layout_decls [] kernel_decls = Some kernel_table.
Proof. vm_compute. reflexivity. Qed.

(** Names are declared once: a check in one pass, with its correctness. *)
Fixpoint distinct (l : list (tag * string)) : bool :=
  match l with
  | [] => true
  | (k, n) :: l =>
      forallb (fun e => negb (bool_decide (k = fst e) && String.eqb n (snd e))) l && distinct l
  end.

Lemma distinct_NoDup l : distinct l = true -> List.NoDup l.
Proof.
  induction l as [|[k n] l IH]; simpl; [constructor|].
  intros [Hk Hl]%andb_prop. constructor; [|by apply IH]. intros Hin.
  rewrite forallb_forall in Hk. specialize (Hk _ Hin). simpl in Hk.
  by rewrite bool_decide_true, String.eqb_refl in Hk.
Qed.

Lemma kernel_names : List.NoDup (map decl_key kernel_decls).
Proof. apply distinct_NoDup. vm_compute. reflexivity. Qed.

(** The layout of the kernel types.  Every struct and union of the modelled header, and
    the three of types.h, gets a layout, whose size the table of sizes (computed with it) records; all fields lie inside it,
    each at a multiple of its alignment; the fields of a struct come in the order of their
    declaration and do not overlap; and the size is a multiple of the alignment, so that
    arrays of it are aligned too. *)
Theorem kernel_layout_sound u n packed fs :
  In (DComp u n packed fs) kernel_decls ->
  exists ps size al,
    comp_layout kernel_table u packed (to_fields fs) = Some (ps, size, al) /\
    find kernel_table (su_tag u) n = Some (size, al) /\
    al <> 0 /\ size mod al = 0 /\
    Forall (fun p => pl_off p + pl_width p <= 8 * size /\ pl_off p mod pl_align p = 0) ps /\
    (u = Struct -> StronglySorted (fun p q => pl_off p + pl_width p <= pl_off q) ps).
Proof.
  intros Hin.
  destruct (header_comp_layout _ _ kernel_names kernel_lays_out _ _ _ _ Hin)
    as (ps & s & a & Hl & Hf & Hs).
  exists ps, s, a. exact (conj Hl (conj Hf Hs)).
Qed.

(** Members stay inside.  Whatever name is looked up in whatever struct or union of the
    header, bit-fields and names that are found through unnamed structs and unions (as
    saddr and daddr of the IPv4 header) included, the bits it denotes lie inside the size
    the table has for that struct or union. *)
Theorem kernel_members_inside k n f o w :
  member kernel_table kernel_decls k n f = Some (o, w) ->
  exists s a, find kernel_table k n = Some (s, a) /\ o + w <= 8 * s.
Proof. apply header_member; [apply kernel_names|apply kernel_lays_out]. Qed.

(** ** The packet headers and codes the programs use *)






(** ** The map values *)

(** The structs of types.h with the (size, alignment) lists [Types] uses for them. *)
Definition shared_structs : list (string * list (string * ctype) * list (nat * nat)) := [
  ("backend_info", struct_backend_info_fields, backend_info_fields);
  ("lb_config", struct_lb_config_fields, lb_config_fields);
  ("stats_counter", struct_stats_counter_fields, stats_counter_fields)
].

(** The scalars the structs are made of. *)
Lemma kernel_scalars :
  size_align kernel_table (ty "__u8") = Some (1, 1) /\
  size_align kernel_table (ty "__u16") = Some (2, 2) /\
  size_align kernel_table (ty "__u32") = Some (4, 4) /\
  size_align kernel_table (ty "__u64") = Some (8, 8).
Proof. split_and!; vm_compute; reflexivity. Qed.

(** With those scalars, in any table, the structs have the sizes [Types] gives them. *)
Lemma shared_structs_sizes T :
  size_align T (ty "__u8") = Some (1, 1) ->
  size_align T (ty "__u16") = Some (2, 2) ->
  size_align T (ty "__u32") = Some (4, 4) ->
  size_align T (ty "__u64") = Some (8, 8) ->
  Forall (fun '(_, l, fs) => Forall2 (plain_field T) l fs) shared_structs.
Proof.
  cbn [size_align ty]. intros H8 H16 H32 H64.
  repeat constructor; cbn; rewrite ?H8, ?H16, ?H32, ?H64; done.
Qed.

Lemma shared_structs_plain :
  Forall (fun '(_, l, fs) => Forall2 (plain_field kernel_table) l fs) shared_structs.
Proof. destruct kernel_scalars as (? & ? & ? & ?). by apply shared_structs_sizes. Qed.

(** The two descriptions of the map values are the same.  For each struct of types.h the
    placement computed from its C declaration, with the typedefs of the kernel header, is
    the one the model of the maps uses: the same byte offset and size for every field and
    the same size of the whole. *)
Theorem shared_structs_layout n l fs :
  In (n, l, fs) shared_structs ->
  exists ps,
    comp_layout kernel_table Struct false (to_fields (plain l))
      = Some (ps, N.of_nat (snd (c_layout fs)), N.of_nat (max_align fs)) /\
    map pl_off ps = map (fun o => 8 * N.of_nat o) (fst (c_layout fs)) /\
    map pl_width ps = map (fun sa => 8 * N.of_nat (fst sa)) fs.
Proof.
  intros Hin. pose proof shared_structs_plain as Hp.
  rewrite List.Forall_forall in Hp. exact (comp_layout_plain _ _ _ (Hp _ Hin)).
Qed.

(** ** Concrete layouts *)

Module VmlinuxWitness.

Lemma kernel_in k n d : lookup_decl kernel_decls k n = Some d -> In d kernel_decls.
Proof. by intros [Hin _]%lookup_decl_in. Qed.

(** The socket buffer: 224 bytes. *)
Lemma kernel_layout_sound_witness :
  exists ps al,
    comp_layout kernel_table Struct false
      (to_fields (struct_sk_buff_fields_1 ++ struct_sk_buff_fields_2)) = Some (ps, 224, al).
Proof.
  assert (In struct_sk_buff kernel_decls) as Hin.
  { apply (kernel_in TStruct "sk_buff"). vm_compute. reflexivity. }
  destruct (kernel_layout_sound Struct "sk_buff" false _ Hin) as (ps & s & a & Hl & Hf & _).
  exists ps, a. assert (s = 224) as ->; [|exact Hl].
  assert (find kernel_table TStruct "sk_buff" = Some (224, 8)) as Hf'
    by (vm_compute; reflexivity).
  change (find kernel_table TStruct "sk_buff" = Some (s, a)) in Hf. rewrite Hf' in Hf.
  by injection Hf.
Defined.

(** daddr of the IPv4 header, inside an unnamed struct of an unnamed union. *)
Lemma kernel_members_inside_witness :
  exists s a, find kernel_table TStruct "iphdr" = Some (s, a) /\ 128 + 32 <= 8 * s.
Proof.
  apply (kernel_members_inside TStruct "iphdr" "daddr"). vm_compute. reflexivity.
Defined.

Lemma shared_structs_layout_witness :
  exists ps,
    comp_layout kernel_table Struct false (to_fields (plain struct_backend_info_fields))
      = Some (ps, 20, 4) /\ map pl_off ps = [0; 32; 48; 64; 112; 128].
Proof.
  destruct (shared_structs_layout "backend_info" struct_backend_info_fields
              backend_info_fields) as (ps & Hl & Ho & _); [by left|].
  exists ps. split; [exact Hl|exact Ho].
Defined.

End VmlinuxWitness.
