(* ===== verification/Members.v ===== *)
(** * Struct members as the programs access them

    The value of a struct member is the run of bits its declaration places, in the byte order
    of the target.  Writing a member changes that member and no other, for every struct of
    the header; what the two XDP programs decide on and what they change is stated in terms
    of the members of the packet headers, by name, where the declarations place them; and
    what a program reads as a member of a map value is what the control plane stored. *)

From Stdlib Require Import Sorting.Sorted.
From S2P Require Import Prelude Types BpfMaps Ebpf Checksum Xdp XdpSpec DataPlane Bits.
From S2P Require Import CTypes Layout KernelUapi Samples Vmlinux.

Open Scope Z_scope.

(** ** Members *)

Definition get (e : endian) (bs : list byte) (o w : N) : Z :=
  read_bits e bs (Z.of_N o) (Z.of_N w).
Definition put (e : endian) (bs : list byte) (o w : N) (v : Z) : list byte :=
  write_bits e bs (Z.of_N o) (Z.of_N w) v.

(** [s.f] and [s.f = v] for a [struct n] that occupies the bytes [bs]. *)
Definition member_get (e : endian) (n f : string) (bs : list byte) : option Z :=
  '(o, w) ← member kernel_table kernel_decls TStruct n f; Some (get e bs o w).
Definition member_put (e : endian) (n f : string) (bs : list byte) (v : Z)
    : option (list byte) :=
  '(o, w) ← member kernel_table kernel_decls TStruct n f; Some (put e bs o w v).

(** ** The members of a struct are independent *)

Lemma sorted_apart {A} (R : A -> A -> Prop) l i j x y :
  StronglySorted R l -> l !! i = Some x -> l !! j = Some y -> i <> j -> R x y \/ R y x.
Proof.
  intros Hs. revert i j. induction Hs as [|a l Hs IH Ha]; intros i j Hi Hj Hne; [done|].
  rewrite List.Forall_forall in Ha.
  assert (forall k z, l !! k = Some z -> R a z) as Hl.
  { intros k z Hz. apply Ha, list_elem_of_In. by eapply list_elem_of_lookup_2. }
  destruct i as [|i], j as [|j]; simplify_eq/=; [left|right|]; eauto.
Qed.

(** The bits of a placed field lie in a buffer of the struct's size. *)
Lemma placed_inside (bs : list byte) size (p : placed) :
  length bs = N.to_nat size -> (pl_off p + pl_width p <= 8 * size)%N ->
  within (length bs) (Z.of_N (pl_off p)) (Z.of_N (pl_width p)).
Proof. intros -> Hp. split; lia. Qed.

(** Members are independent.  In every struct of the header and of types.h, bit-fields
    included, on either byte order: a member that is written has the written value (cut to
    its width), every other member keeps its value, writing back what was read changes
    nothing, and a second write to a member replaces the first. *)
Theorem kernel_member_lens e n packed fs ps size al bs i j p q v v' :
  In (DComp Struct n packed fs) kernel_decls ->
  comp_layout kernel_table Struct packed (to_fields fs) = Some (ps, size, al) ->
  length bs = N.to_nat size -> ps !! i = Some p -> ps !! j = Some q -> i <> j ->
  let bs' := put e bs (pl_off p) (pl_width p) v in
  length bs' = length bs /\
  get e bs' (pl_off p) (pl_width p) = v mod 2 ^ Z.of_N (pl_width p) /\
  get e bs' (pl_off q) (pl_width q) = get e bs (pl_off q) (pl_width q) /\
  put e bs (pl_off p) (pl_width p) (get e bs (pl_off p) (pl_width p)) = bs /\
  put e bs' (pl_off p) (pl_width p) v' = put e bs (pl_off p) (pl_width p) v'.
Proof.
  intros Hin Hl Hlen Hp Hq Hne.
  destruct (header_comp_layout _ _ kernel_names kernel_lays_out _ _ _ _ Hin)
    as (ps' & s & a & Hl' & _ & _ & _ & Hf & Hs). rewrite Hl in Hl'. injection Hl' as <- <- <-.
  assert (forall k r, ps !! k = Some r ->
    within (length bs) (Z.of_N (pl_off r)) (Z.of_N (pl_width r))) as Hinside.
  { intros k r Hr. eapply placed_inside; [done|]. rewrite List.Forall_forall in Hf.
    apply (Hf r), list_elem_of_In. by eapply list_elem_of_lookup_2. }
  destruct (sorted_apart _ _ i j p q (Hs eq_refl) Hp Hq Hne) as [Hd|Hd];
    split_and!; eauto using length_write_bits, read_write, write_read, write_write;
    (apply read_write_other; [by eauto..|lia]).
Qed.

(** ** Values of members *)

Section Values.
Context (e : endian).

Lemma get_load bs o size :
  (o + size <= length bs)%nat ->
  get e bs (8 * N.of_nat o) (8 * N.of_nat size) = load e (slice bs o size).
Proof. intros Hb. rewrite load_slice by done. unfold get. f_equal; lia. Qed.

Lemma put_store bs o size v :
  (o + size <= length bs)%nat ->
  put e bs (8 * N.of_nat o) (8 * N.of_nat size) v = splice bs o (store e size v).
Proof. intros Hb. rewrite splice_store by done. unfold put. f_equal; lia. Qed.

(** A load or a store of a whole member, in a packet that holds the struct at [base]. *)
Lemma member_bytes n f o size al total (p : list byte) base v :
  member kernel_table kernel_decls TStruct n f = Some (8 * N.of_nat o, 8 * N.of_nat size)%N ->
  find kernel_table TStruct n = Some (N.of_nat total, al) -> (base + total <= length p)%nat ->
  member_get e n f (slice p base total) = Some (load e (slice p (base + o) size)) /\
  splice p base <$> member_put e n f (slice p base total) v =
    Some (splice p (base + o) (store e size v)).
Proof.
  intros Hm Hf Hb.
  assert (o + size <= total)%nat as Hin.
  { destruct (header_member _ _ kernel_names kernel_lays_out _ _ _ _ _ Hm) as (s & a & Hs & Hi).
    rewrite Hf in Hs. injection Hs as <- <-. lia. }
  unfold member_get, member_put. rewrite Hm. cbn [mbind option_bind fmap option_fmap option_map].
  rewrite get_load, put_store by (rewrite length_slice; lia). split.
  - by rewrite slice_slice.
  - by rewrite splice_slice by (rewrite ?length_store; lia).
Qed.

(** [ip->ihl] is computed from the byte that holds it. *)
Lemma ihl_byte b : iphdr_ihl e (load e [b]) = read_bits e [b] 0 4.
Proof.
  pose proof (load_range e [b]) as Hr. unfold read_bits.
  destruct e; cbn [iphdr_ihl bit_pos length]; unfold bits_at.
  - by rewrite Z.shiftr_0_r.
  - change (8 * Z.of_nat 1 - (0 + 4)) with 4. rewrite Z.land_ones by lia. symmetry.
    apply Z.mod_small. rewrite Z.shiftr_div_pow2 by lia. cbn [length] in Hr. split.
    + apply Z.div_pos; lia.
    + apply Z.div_lt_upper_bound; lia.
Qed.

Lemma ihl_member p :
  (sizeof_ethhdr + sizeof_iphdr <= length p)%nat ->
  member_get e "iphdr" "ihl" (iphdr_of p) =
    Some (iphdr_ihl e (load e (slice p sizeof_ethhdr 1))).
Proof.
  intros Hb. unfold member_get.
  assert (member kernel_table kernel_decls TStruct "iphdr" "ihl" = Some (0, 4)%N) as ->
    by (vm_compute; reflexivity).
  cbn [mbind option_bind]. unfold get. f_equal.
  pose proof (length_slice p sizeof_ethhdr 1 ltac:(unfold sizeof_ethhdr, sizeof_iphdr in *; lia)) as Hl.
  destruct (slice p sizeof_ethhdr 1) as [|b [|b' l]] eqn:Hs; [done| |done].
  rewrite ihl_byte, <- Hs. unfold iphdr_of.
  rewrite !read_slice; [done|..]; unfold within, sizeof_ethhdr, sizeof_iphdr in *; lia.
Qed.
End Values.

(** ** The programs in terms of members *)

Lemma slice_same (p p' : list byte) off n :
  length p' = length p -> (forall i, (off <= i < off + n)%nat -> p' !! i = p !! i) ->
  slice p' off n = slice p off n.
Proof.
  intros Hlen Heq. unfold slice. apply list_eq. intros i.
  destruct (decide (i < n)%nat) as [Hi|Hi].
  - rewrite !lookup_take_lt, !lookup_drop by done. apply Heq. lia.
  - by rewrite !lookup_take_ge by lia.
Qed.

Section Programs.
Context {KM : BpfMaps} {KL : BpfMapsLaws} (e : endian).

Definition ethhdr_of (p : list byte) : list byte := slice p 0 sizeof_ethhdr.

(** [eth->f] and [ip->f] in the frame [p]. *)
Definition eth (f : string) (p : list byte) : option Z := member_get e "ethhdr" f (ethhdr_of p).
Definition ip (f : string) (p : list byte) : option Z := member_get e "iphdr" f (iphdr_of p).

(** A member whose bytes did not change has its old value. *)
Lemma member_same n f o w base total k m (p p' : list byte) :
  member kernel_table kernel_decls TStruct n f = Some (o, w) ->
  (8 * N.of_nat k <= o)%N -> (o + w <= 8 * N.of_nat (k + m))%N -> (k + m <= total)%nat ->
  (base + total <= length p)%nat -> length p' = length p ->
  (forall i, (base + k <= i < base + k + m)%nat -> p' !! i = p !! i) ->
  member_get e n f (slice p' base total) = member_get e n f (slice p base total).
Proof.
  intros Hm Hk Hkm Ht Hb Hlen Heq. unfold member_get. rewrite Hm. cbn [mbind option_bind].
  f_equal. unfold get.
  assert (forall q, length q = length p ->
    read_bits e (slice q base total) (Z.of_N o) (Z.of_N w) =
    read_bits e (slice q (base + k) m) (Z.of_N o - 8 * Z.of_nat k) (Z.of_N w)) as Hq.
  { intros q Hl. rewrite !read_slice by (unfold within; lia). f_equal. lia. }
  rewrite !Hq by done. by rewrite (slice_same p p').
Qed.

(** The members in terms of the bytes the programs load. *)
Lemma ip_bytes f o size (p : list byte) :
  member kernel_table kernel_decls TStruct "iphdr" f
    = Some (8 * N.of_nat o, 8 * N.of_nat size)%N ->
  (34 <= length p)%nat -> ip f p = Some (load e (slice p (sizeof_ethhdr + o) size)).
Proof.
  intros Hm Hl. eapply (member_bytes e "iphdr" f o size 4 sizeof_iphdr p sizeof_ethhdr 0);
    [done|vm_compute; reflexivity|done].
Qed.

Lemma eth_bytes f o size (p : list byte) :
  member kernel_table kernel_decls TStruct "ethhdr" f
    = Some (8 * N.of_nat o, 8 * N.of_nat size)%N ->
  (34 <= length p)%nat -> eth f p = Some (load e (slice p o size)).
Proof.
  intros Hm Hl. eapply (member_bytes e "ethhdr" f o size 2 sizeof_ethhdr p 0 0);
    [done|vm_compute; reflexivity|unfold sizeof_ethhdr; lia].
Qed.

Lemma ip_saddr p : (34 <= length p)%nat -> ip "saddr" p = Some (load e (saddr_of p)).
Proof. apply (ip_bytes "saddr" 12 4). vm_compute. reflexivity. Qed.
Lemma ip_daddr p : (34 <= length p)%nat -> ip "daddr" p = Some (load e (daddr_of p)).
Proof. apply (ip_bytes "daddr" 16 4). vm_compute. reflexivity. Qed.
Lemma ip_protocol p :
  (34 <= length p)%nat ->
  ip "protocol" p = Some (load e (slice p (sizeof_ethhdr + iphdr_protocol) 1)).
Proof. apply (ip_bytes "protocol" 9 1). vm_compute. reflexivity. Qed.
Lemma eth_proto p :
  (34 <= length p)%nat -> eth "h_proto" p = Some (load e (slice p ethhdr_h_proto 2)).
Proof. apply (eth_bytes "h_proto" 12 2). vm_compute. reflexivity. Qed.
Lemma eth_dest p : (34 <= length p)%nat -> eth "h_dest" p = Some (load e (h_dest_of p)).
Proof. apply (eth_bytes "h_dest" 0 6). vm_compute. reflexivity. Qed.
Lemma eth_source p : (34 <= length p)%nat -> eth "h_source" p = Some (load e (h_source_of p)).
Proof. apply (eth_bytes "h_source" 6 6). vm_compute. reflexivity. Qed.

(** *** What the programs decide on *)

(** An IPv4 frame ([eth->h_proto]) with an ICMP message ([ip->protocol]) whose header, after
    the [ip->ihl] words of the IPv4 header, lies in the frame. *)
Definition icmp_members (p : list byte) : Prop :=
  (34 <= length p)%nat /\
  eth "h_proto" p = Some (bpf_htons e ETH_P_IP) /\ ip "protocol" p = Some IPPROTO_ICMP /\
  exists ihl, ip "ihl" p = Some ihl /\ 14 + 4 * ihl + 8 <= Z.of_nat (length p).

Lemma icmp_frame_members p : is_icmp_frame e p = true <-> icmp_members p.
Proof.
  unfold is_icmp_frame, icmp_members. rewrite !andb_true_iff, !Nat.leb_le, !Z.eqb_eq.
  destruct (decide (34 <= length p)%nat) as [Hl|Hl].
  - rewrite eth_proto, ip_protocol by done. unfold ip. rewrite (ihl_member e) by done.
    assert (0 <= iphdr_ihl e (load e (slice p sizeof_ethhdr 1))) as Hpos.
    { pose proof (load_range e (slice p sizeof_ethhdr 1)) as [H0 _].
      destruct e; cbn [iphdr_ihl]; [apply Z.land_nonneg; by right|by apply Z.shiftr_nonneg]. }
    revert Hpos. generalize (iphdr_ihl e (load e (slice p sizeof_ethhdr 1))) as ihl. intros ihl Hpos.
    split; [intros ((((_ & H1) & _) & H2) & Hi)|intros (_ & H1 & H2 & ihl' & [= <-] & Hi)].
    + rewrite H1, H2. split_and!; [done..|]. exists ihl. split; [done|].
      unfold sizeof_ethhdr, sizeof_icmphdr in Hi. lia.
    + injection H1 as H1. injection H2 as H2. unfold sizeof_ethhdr, sizeof_iphdr, sizeof_icmphdr.
      split_and!; try done; lia.
  - unfold sizeof_ethhdr, sizeof_iphdr in *. split; [lia|]. intros [? _]. lia.
Qed.

(** The destination of [p] is the address of the configuration [c] (0 is every address), and
    [b] is the backend entry at the index [rnd mod c.backend_count]. *)
Definition addressed_to (m : lbMaps) (rnd : Z) (p : list byte) (c : lb_config) (b : backend_info)
    : Prop :=
  am_lookup (ConfigMap m) 0 = Some c /\ cfg_backend_count c <> 0 /\
  (cfg_vip c = 0 \/ ip "daddr" p = Some (cfg_vip c)) /\
  am_lookup (BackendMap m) (rnd mod cfg_backend_count c) = Some b /\ bi_ipv4 b <> 0.

(** A request for backend [b]. *)
Definition request_for (m : lbMaps) (rnd : Z) (p : list byte) (c : lb_config) (b : backend_info)
    : Prop :=
  icmp_members p /\ addressed_to m rnd p c b.

Lemma request_for_select m rnd p c b :
  request_for m rnd p c b <-> exists z, select e m rnd p = Some (z, c, b).
Proof.
  unfold request_for, addressed_to. rewrite <- icmp_frame_members. split.
  - intros (Hf & Hc & Hn & Hv & Hb & H0). exists (rnd mod cfg_backend_count c).
    apply select_Some. rewrite ip_daddr in Hv by by eapply icmp_frame_length.
    unfold bpf_mod. rewrite (proj2 (Z.eqb_neq _ _) Hn).
    split_and!; try done. destruct Hv as [|[= ?]]; auto.
  - intros [z (Hf & Hc & Hn & Hv & -> & Hb & H0)%select_Some].
    rewrite ip_daddr by by eapply icmp_frame_length.
    unfold bpf_mod in Hb. rewrite (proj2 (Z.eqb_neq _ _) Hn) in Hb.
    split_and!; try done. destruct Hv as [| ->]; auto.
Qed.

(** The source is an address the reverse table knows, and a VIP is configured. *)
Definition from_backend (m : lbMaps) (p : list byte) (c : lb_config) : Prop :=
  (exists saddr i, ip "saddr" p = Some saddr /\ hm_lookup (BackendIpsMap m) saddr = Some i) /\
  am_lookup (ConfigMap m) 0 = Some c /\ cfg_vip c <> 0.

(** A reply of a backend the reverse table knows. *)
Definition reply_under (m : lbMaps) (p : list byte) (c : lb_config) : Prop :=
  icmp_members p /\ from_backend m p c.

(** *** What they change *)

(** The members of the IPv4 header before the checksum. *)
Definition ip_front : list string :=
  ["version"; "ihl"; "tos"; "tot_len"; "id"; "frag_off"; "ttl"; "protocol"].

Lemma ip_front_same p p' f :
  length p' = length p -> (34 <= length p)%nat ->
  (forall i, (14 <= i < 24)%nat -> p' !! i = p !! i) -> In f ip_front -> ip f p' = ip f p.
Proof.
  intros Hl Hp Heq Hf. unfold ip, iphdr_of.
  repeat (destruct Hf as [<-|Hf];
    [eapply (member_same "iphdr" _ _ _ sizeof_ethhdr sizeof_iphdr 0 10);
     [vm_compute; reflexivity|vm_compute; done|vm_compute; done|unfold sizeof_iphdr; lia|done|done
     |intros i Hi; apply Heq; unfold sizeof_ethhdr in Hi; lia]|]).
  destruct Hf.
Qed.

(** A frame whose bytes outside the addresses and the checksum are those of another. *)
Lemma dnat_members p p' c b :
  length p' = length p -> (34 <= length p)%nat ->
  h_dest_of p' = bi_mac b -> h_source_of p' = cfg_src_mac c ->
  daddr_of p' = store e 4 (bi_ipv4 b) -> is_u32 (bi_ipv4 b) ->
  (forall i, (12 <= i)%nat -> ~ (24 <= i < 26)%nat -> ~ (30 <= i < 34)%nat -> p' !! i = p !! i) ->
  eth "h_dest" p' = Some (load e (bi_mac b)) /\
  eth "h_source" p' = Some (load e (cfg_src_mac c)) /\
  ip "daddr" p' = Some (bi_ipv4 b) /\
  eth "h_proto" p' = eth "h_proto" p /\ ip "saddr" p' = ip "saddr" p /\
  forall f, In f ip_front -> ip f p' = ip f p.
Proof.
  intros Hl Hp Hd Hs Ha Hu Hsame.
  rewrite eth_dest, eth_source, ip_daddr, Hd, Hs, Ha, load_store_u32 by (done || lia).
  rewrite !eth_proto, !ip_saddr by lia. do 3 (split; [reflexivity|]). split_and!.
  - rewrite (slice_same p p'); [done..|]. intros i Hi. unfold ethhdr_h_proto in Hi. apply Hsame; lia.
  - unfold saddr_of. rewrite (slice_same p p'); [done..|]. intros i Hi.
    unfold sizeof_ethhdr, iphdr_saddr in Hi. apply Hsame; lia.
  - intros f Hf. apply ip_front_same; [done..| |done]. intros i Hi. apply Hsame; lia.
Qed.

Lemma snat_members p p' c :
  length p' = length p -> (34 <= length p)%nat -> saddr_of p' = store e 4 (cfg_vip c) ->
  wf_lb_config c ->
  (forall i, ~ (24 <= i < 26)%nat -> ~ (26 <= i < 30)%nat -> p' !! i = p !! i) ->
  ip "saddr" p' = Some (cfg_vip c) /\
  (forall f, In f ["h_dest"; "h_source"; "h_proto"] -> eth f p' = eth f p) /\
  ip "daddr" p' = ip "daddr" p /\ forall f, In f ip_front -> ip f p' = ip f p.
Proof.
  intros Hl Hp Ha Hwc Hsame.
  assert (ethhdr_of p' = ethhdr_of p) as He.
  { apply slice_same; [done|]. intros i Hi. unfold sizeof_ethhdr in Hi. apply Hsame; lia. }
  rewrite ip_saddr, Ha, load_store_u32 by (lia || apply Hwc). rewrite !ip_daddr by lia.
  split_and!; [done| | |].
  - intros f _. unfold eth. by rewrite He.
  - unfold daddr_of. rewrite (slice_same p p'); [done..|]. intros i Hi.
    unfold sizeof_ethhdr, iphdr_daddr in Hi. apply Hsame; lia.
  - intros f Hf. apply ip_front_same; [done..| |done]. intros i Hi. apply Hsame; lia.
Qed.

(** Each program on the members of a frame. *)
Lemma ingress_on_members s :
  wf_maps (ks_maps s) -> let m := ks_maps s in let p := ks_pkt s in
  exists s', exec (xdp_lb_ingress e) s = Some (XDP_PASS, s') /\
     let p' := ks_pkt s' in
     (forall c b, request_for m (ks_rand s) p c b ->
        eth "h_dest" p' = Some (load e (bi_mac b)) /\
        eth "h_source" p' = Some (load e (cfg_src_mac c)) /\
        ip "daddr" p' = Some (bi_ipv4 b) /\
        eth "h_proto" p' = eth "h_proto" p /\ ip "saddr" p' = ip "saddr" p /\
        forall f, In f ip_front -> ip f p' = ip f p) /\
     ((forall c b, ~ request_for m (ks_rand s) p c b) -> p' = p).
Proof.
  intros Hwf m p.
  exists (ingress_result e s). split; [by apply exec_ingress_run|]. cbn zeta. split.
  - intros c b Hr. apply request_for_select in Hr as [z Hsel].
    unfold ingress_result. fold m p. rewrite Hsel. cbn [ks_pkt with_maps with_pkt].
    apply select_Some in Hsel as (Hf & Hc & _ & _ & _ & Hb & _). apply icmp_frame_length in Hf.
    pose proof (wf_config _ Hwf _ _ Hc) as Hwc. pose proof (wf_backend _ Hwf _ _ Hb) as Hwb.
    destruct (dnat_spec e c b _ Hwc Hwb Hf) as ([Hl _ Hsame] & Hd & Hs & Ha).
    apply dnat_members; [done|done|done|done|done|by apply Hwb|]. intros i Hi1 Hi2 Hi3.
    apply Hsame; unfold dnat_bytes; lia.
  - intros Hn. unfold ingress_result. fold m p.
    destruct (select e m (ks_rand s) p) as [[[z c] b]|] eqn:Hsel; [|done].
    exfalso. apply (Hn c b), request_for_select. eauto.
Qed.

Lemma snat_on_members s :
  wf_maps (ks_maps s) -> let m := ks_maps s in let p := ks_pkt s in
  exists s', exec (xdp_veth_snat e) s = Some (XDP_PASS, s') /\
     let p' := ks_pkt s' in
     (forall c, reply_under m p c ->
        ip "saddr" p' = Some (cfg_vip c) /\
        (forall f, In f ["h_dest"; "h_source"; "h_proto"] -> eth f p' = eth f p) /\
        ip "daddr" p' = ip "daddr" p /\ forall f, In f ip_front -> ip f p' = ip f p) /\
     ((forall c, ~ reply_under m p c) -> p' = p).
Proof.
  intros Hwf m p. exists (snat_result e s). split; [apply exec_snat_run|]. cbn zeta. split.
  - intros c (Hi & (a & i & Ha & Hr) & Hc & Hv). pose proof Hi as Hf. apply icmp_frame_members in Hf.
    pose proof (icmp_frame_length _ _ Hf) as Hlen. rewrite ip_saddr in Ha by done.
    injection Ha as <-. unfold snat_result. fold m p.
    rewrite Hf, Hr, Hc, (proj2 (Z.eqb_neq _ _) Hv). cbn [ks_pkt with_pkt]. fold p.
    destruct (snat_spec e c p Hlen) as ([Hl _ Hsame] & Hs).
    apply snat_members; [done|done|done|by eapply (wf_config _ Hwf)|]. intros j Hj1 Hj2.
    apply Hsame; unfold snat_bytes; lia.
  - intros Hn. unfold snat_result. fold m p. destruct (is_icmp_frame e p) eqn:Hf; [|done].
    destruct (hm_lookup _ _) as [i|] eqn:Hi; [|done].
    destruct (am_lookup _ _) as [c|] eqn:Hc; [|done].
    destruct (Z.eqb_spec (cfg_vip c) 0) as [|Hv]; [done|]. exfalso. apply (Hn c).
    split; [by apply icmp_frame_members|]. split_and!; [|done|done].
    exists (load e (saddr_of p)), i. split; [|done]. apply ip_saddr. by eapply icmp_frame_length.
Qed.

(** C16: the programs in terms of the declared members.  [xdp_lb_ingress] rewrites a frame
    if and only if [eth->h_proto], [ip->protocol], [ip->ihl] and [ip->daddr], as vmlinux.h
    declares and places them, make it a request for a backend ([request_for]), and then sets
    [eth->h_dest] to the backend's MAC, [eth->h_source] to the configured one and [ip->daddr]
    to the backend's address, and leaves [eth->h_proto], [ip->saddr] and every member of the
    IPv4 header before the checksum as they are.  [xdp_veth_snat] rewrites a frame if and
    only if these members and [ip->saddr] make it a reply of a known backend ([reply_under]),
    and then sets [ip->saddr] to the configured address and leaves the Ethernet header,
    [ip->daddr] and the other members as they are.  Every other frame is unchanged. *)
Theorem programs_on_members s :
  wf_maps (ks_maps s) -> let m := ks_maps s in let p := ks_pkt s in
  (exists s', exec (xdp_lb_ingress e) s = Some (XDP_PASS, s') /\
     let p' := ks_pkt s' in
     (forall c b, request_for m (ks_rand s) p c b ->
        eth "h_dest" p' = Some (load e (bi_mac b)) /\
        eth "h_source" p' = Some (load e (cfg_src_mac c)) /\
        ip "daddr" p' = Some (bi_ipv4 b) /\
        eth "h_proto" p' = eth "h_proto" p /\ ip "saddr" p' = ip "saddr" p /\
        forall f, In f ip_front -> ip f p' = ip f p) /\
     ((forall c b, ~ request_for m (ks_rand s) p c b) -> p' = p)) /\
  (exists s', exec (xdp_veth_snat e) s = Some (XDP_PASS, s') /\
     let p' := ks_pkt s' in
     (forall c, reply_under m p c ->
        ip "saddr" p' = Some (cfg_vip c) /\
        (forall f, In f ["h_dest"; "h_source"; "h_proto"] -> eth f p' = eth f p) /\
        ip "daddr" p' = ip "daddr" p /\ forall f, In f ip_front -> ip f p' = ip f p) /\
     ((forall c, ~ reply_under m p c) -> p' = p)).
Proof. intros Hwf m p. split; [by apply ingress_on_members|by apply snat_on_members]. Qed.
End Programs.

(** ** Map values *)

Section MapValues.
Context (e : endian) (b : backend_info) (c : lb_config) (s : stats_counter).
Hypothesis Hb : wf_backend_info b.
Hypothesis Hc : wf_lb_config c.
Hypothesis Hs : wf_stats_counter s.

Lemma length_backend_info : length (marshal_backend_info e b) = 20%nat.
Proof.
  destruct Hb as (_ & _ & _ & Hm & Hp & _). unfold marshal_backend_info.
  by rewrite !length_app, !length_store, Hm, Hp.
Qed.
Lemma length_lb_config : length (marshal_lb_config e c) = 20%nat.
Proof.
  destruct Hc as (_ & _ & _ & _ & Hm & Hp). unfold marshal_lb_config.
  by rewrite !length_app, !length_store, Hm, Hp.
Qed.
Lemma length_stats_counter : length (marshal_stats_counter e s) = 16%nat.
Proof. unfold marshal_stats_counter. by rewrite !length_app, !length_store. Qed.

(** A scalar member, by its byte offset and size. *)
Lemma scalar_get n f bs o size :
  member kernel_table kernel_decls TStruct n f = Some (8 * N.of_nat o, 8 * N.of_nat size)%N ->
  (o + size <= length bs)%nat -> member_get e n f bs = Some (load e (slice bs o size)).
Proof.
  intros Hm Hl. unfold member_get. rewrite Hm. cbn [mbind option_bind]. by rewrite get_load.
Qed.

Ltac scalar o size H :=
  rewrite (scalar_get _ _ _ o size);
  [f_equal; rewrite <- H at 2; reflexivity|vm_compute; reflexivity
  |rewrite ?length_backend_info, ?length_lb_config, ?length_stats_counter; lia].

(** A byte of a MAC address. *)
Lemma mac_byte (bs mac : list byte) o len i x :
  (o + len <= length bs)%nat -> slice bs o len = mac -> (i < len)%nat -> mac !! i = Some x ->
  get e bs (8 * N.of_nat (o + i)) 8 = load e [x].
Proof.
  intros Hl <- Hi Hx. change 8%N with (8 * N.of_nat 1)%N at 2. rewrite get_load by lia. f_equal.
  rewrite <- (slice_slice bs o len i 1) by lia. unfold slice at 1.
  by rewrite (drop_S _ _ _ Hx).
Qed.

Lemma stats_put_packets v :
  member_put e "stats_counter" "rx_packets" (marshal_stats_counter e s) v =
    Some (marshal_stats_counter e {| rx_packets := v; rx_bytes := rx_bytes s |}).
Proof.
  unfold member_put.
  assert (member kernel_table kernel_decls TStruct "stats_counter" "rx_packets"
    = Some (8 * N.of_nat 0, 8 * N.of_nat 8)%N) as -> by (vm_compute; reflexivity).
  cbn [mbind option_bind]. rewrite put_store by (rewrite length_stats_counter; lia).
  unfold splice, marshal_stats_counter. cbn [rx_packets rx_bytes take Nat.add app].
  rewrite length_store. by rewrite drop_app_length' by (by rewrite length_store).
Qed.

Lemma stats_put_bytes v :
  member_put e "stats_counter" "rx_bytes" (marshal_stats_counter e s) v =
    Some (marshal_stats_counter e {| rx_packets := rx_packets s; rx_bytes := v |}).
Proof.
  unfold member_put.
  assert (member kernel_table kernel_decls TStruct "stats_counter" "rx_bytes"
    = Some (8 * N.of_nat 8, 8 * N.of_nat 8)%N) as -> by (vm_compute; reflexivity).
  cbn [mbind option_bind]. rewrite put_store by (rewrite length_stats_counter; lia).
  pose proof length_stats_counter as Hl. unfold splice, marshal_stats_counter in *.
  cbn [rx_packets rx_bytes]. f_equal.
  rewrite take_app_length' by (by rewrite length_store). do 2 f_equal.
  rewrite length_store, drop_ge by lia. apply app_nil_r.
Qed.

(** C32: both sides mean the same by a map value.  For each map value, on either byte order:
    the member of that name of the C struct, in the bytes the Go side marshals, is the field
    the Go side set, for every scalar the programs load and every byte of the MAC addresses;
    and the programs' stores to the counters produce the bytes of the updated struct. *)
Theorem map_values_members :
  member_get e "lb_config" "vip" (marshal_lb_config e c) = Some (cfg_vip c) /\
  member_get e "lb_config" "vport" (marshal_lb_config e c) = Some (cfg_vport c) /\
  member_get e "lb_config" "backend_count" (marshal_lb_config e c)
    = Some (cfg_backend_count c) /\
  member_get e "backend_info" "ipv4" (marshal_backend_info e b) = Some (bi_ipv4 b) /\
  member_get e "backend_info" "port" (marshal_backend_info e b) = Some (bi_port b) /\
  member_get e "backend_info" "weight" (marshal_backend_info e b) = Some (bi_weight b) /\
  member_get e "stats_counter" "rx_packets" (marshal_stats_counter e s) = Some (rx_packets s) /\
  member_get e "stats_counter" "rx_bytes" (marshal_stats_counter e s) = Some (rx_bytes s) /\
  (forall i x, bi_mac b !! i = Some x ->
     exists o, member kernel_table kernel_decls TStruct "backend_info" "mac" = Some (o, 48)%N /\
       get e (marshal_backend_info e b) (o + 8 * N.of_nat i) 8 = load e [x]) /\
  (forall i x, cfg_src_mac c !! i = Some x ->
     exists o, member kernel_table kernel_decls TStruct "lb_config" "src_mac" = Some (o, 48)%N /\
       get e (marshal_lb_config e c) (o + 8 * N.of_nat i) 8 = load e [x]) /\
  (forall v, member_put e "stats_counter" "rx_packets" (marshal_stats_counter e s) v =
     Some (marshal_stats_counter e {| rx_packets := v; rx_bytes := rx_bytes s |})) /\
  (forall v, member_put e "stats_counter" "rx_bytes" (marshal_stats_counter e s) v =
     Some (marshal_stats_counter e {| rx_packets := rx_packets s; rx_bytes := v |})).
Proof.
  pose proof (view_marshal_backend_info e b Hb) as Vb.
  pose proof (view_marshal_lb_config e c Hc) as Vc.
  pose proof (view_marshal_stats_counter e s Hs) as Vs.
  pose proof length_backend_info as Lb. pose proof length_lb_config as Lc.
  split_and!; [scalar 0%nat 4%nat Vc|scalar 4%nat 2%nat Vc|scalar 8%nat 4%nat Vc
    |scalar 0%nat 4%nat Vb|scalar 4%nat 2%nat Vb|scalar 16%nat 4%nat Vb
    |scalar 0%nat 8%nat Vs|scalar 8%nat 8%nat Vs| | |apply stats_put_packets|apply stats_put_bytes].
  - intros i x Hx. exists 64%N. split; [vm_compute; reflexivity|].
    pose proof (lookup_lt_Some _ _ _ Hx) as Hi. destruct Hb as (_ & _ & _ & Hm & _).
    replace (64 + 8 * N.of_nat i)%N with (8 * N.of_nat (8 + i))%N by lia.
    apply (mac_byte _ (bi_mac b) 8 6); [lia|by rewrite <- Vb at 2|unfold ETH_ALEN in Hm; lia|done].
  - intros i x Hx. exists 96%N. split; [vm_compute; reflexivity|].
    pose proof (lookup_lt_Some _ _ _ Hx) as Hi. destruct Hc as (_ & _ & _ & _ & Hm & _).
    replace (96 + 8 * N.of_nat i)%N with (8 * N.of_nat (12 + i))%N by lia.
    apply (mac_byte _ (cfg_src_mac c) 12 6); [lia|by rewrite <- Vc at 2|unfold ETH_ALEN in Hm; lia|done].
Qed.
End MapValues.

(** ** The bit-fields of the IPv4 header on a big-endian target

    [vmlinux.h] was dumped on a little-endian kernel and declares [ihl] before [version].  On
    the wire (RFC 791) the version is the high nibble of the first byte; on a big-endian
    target, where bit-fields are allocated from the high end, [ip->ihl] is that nibble. *)
Lemma ihl_big_endian p :
  (sizeof_ethhdr + sizeof_iphdr <= length p)%nat ->
  member_get BE "iphdr" "ihl" (iphdr_of p) =
    Some (Z.shiftr (load BE (slice p sizeof_ethhdr 1)) 4).
Proof. apply (ihl_member BE). Qed.

(** An IPv4 frame (version 4) with protocol ICMP. *)
Definition v4_icmp (p : list byte) : Prop :=
  (34 <= length p)%nat /\ eth BE "h_proto" p = Some (bpf_htons BE ETH_P_IP) /\
  ip BE "protocol" p = Some IPPROTO_ICMP /\
  Z.shiftr (load BE (slice p sizeof_ethhdr 1)) 4 = 4.

Lemma big_endian_frames p : v4_icmp p -> (icmp_members BE p <-> (38 <= length p)%nat).
Proof.
  intros (Hl & He & Hi & Hv). unfold icmp_members.
  unfold ip at 2. rewrite ihl_big_endian, Hv by done. split.
  - intros (_ & _ & _ & ihl & [= <-] & Hlen). lia.
  - intros Hlen. split_and!; [done..|]. exists 4. split; [done|lia].
Qed.

Section BigEndian.
Context {KM : BpfMaps} {KL : BpfMapsLaws}.

(** C28: the header length on a big-endian target.  Compiled for a big-endian target, both
    programs take every IPv4 frame (version 4) with protocol ICMP for an ICMP frame exactly
    when it has 38 bytes, whatever its header length says: [ip->ihl] is the version, 4, and
    the ICMP header is looked for 16 bytes into the IPv4 header.  So an addressed frame of 38
    bytes or more is rewritten, also one that ends inside the IPv4 options or the ICMP
    header, which a little-endian target leaves alone; and a shorter one is unchanged. *)
Theorem big_endian_ihl s :
  wf_maps (ks_maps s) -> let m := ks_maps s in let p := ks_pkt s in v4_icmp p ->
  (exists s', exec (xdp_lb_ingress BE) s = Some (XDP_PASS, s') /\
     forall c b, addressed_to BE m (ks_rand s) p c b ->
     if (38 <=? length p)%nat then ip BE "daddr" (ks_pkt s') = Some (bi_ipv4 b)
     else ks_pkt s' = p) /\
  (exists s', exec (xdp_veth_snat BE) s = Some (XDP_PASS, s') /\
     forall c, from_backend BE m p c ->
     if (38 <=? length p)%nat then ip BE "saddr" (ks_pkt s') = Some (cfg_vip c)
     else ks_pkt s' = p).
Proof.
  intros Hwf m p Hp. pose proof (big_endian_frames p Hp) as Hi.
  destruct (ingress_on_members BE s Hwf) as (s1 & H1 & Hr1 & Hn1).
  destruct (snat_on_members BE s Hwf) as (s2 & H2 & Hr2 & Hn2).
  split; [exists s1|exists s2]; (split; [done|]).
  - intros c b Hc. destruct (Nat.leb_spec 38 (length p)) as [Hl|Hl].
    + destruct (Hr1 c b (conj (proj2 Hi Hl) Hc)) as (_ & _ & Hd & _). exact Hd.
    + apply Hn1. intros c' b' [Hm _]. apply (proj1 Hi) in Hm. lia.
  - intros c Hc. destruct (Nat.leb_spec 38 (length p)) as [Hl|Hl].
    + destruct (Hr2 c (conj (proj2 Hi Hl) Hc)) as (Hd & _). exact Hd.
    + apply Hn2. intros c' [Hm _]. apply (proj1 Hi) in Hm. lia.
Qed.

End BigEndian.

(** An echo request cut off after four bytes of its ICMP header. *)
Example short_frame_accepted :
  is_icmp_frame BE (take 38 request) = true /\ is_icmp_frame LE (take 38 request) = false.
Proof. split; vm_compute; reflexivity. Qed.

(** ** Witnesses *)

Module MembersWitness.
Import RefMaps.

Definition iphdr_decl_fields : list (string * ctype * option N) :=
  match struct_iphdr with DComp _ _ _ fs => fs | _ => [] end.
Definition iphdr_placed : list placed :=
  match comp_layout kernel_table Struct false (to_fields iphdr_decl_fields) with
  | Some (ps, _, _) => ps
  | None => []
  end.

Lemma iphdr_comp :
  comp_layout kernel_table Struct false (to_fields iphdr_decl_fields)
    = Some (iphdr_placed, 20, 4)%N.
Proof. vm_compute. reflexivity. Qed.
Lemma iphdr_in : In (DComp Struct "iphdr" false iphdr_decl_fields) kernel_decls.
Proof. apply (VmlinuxWitness.kernel_in TStruct "iphdr"). vm_compute. reflexivity. Qed.

(** Setting ihl leaves version alone, on a big-endian target. *)
Lemma kernel_member_lens_witness :
  get BE (put BE (iphdr_of request) 0 4 6) 0 4 = 6 /\
  get BE (put BE (iphdr_of request) 0 4 6) 4 4 = get BE (iphdr_of request) 4 4.
Proof.
  destruct (kernel_member_lens BE "iphdr" false iphdr_decl_fields iphdr_placed 20 4
    (iphdr_of request) 0 1 {| pl_name := "ihl"; pl_off := 0; pl_width := 4; pl_align := 1 |}
    {| pl_name := "version"; pl_off := 4; pl_width := 4; pl_align := 1 |} 6 0)
    as (_ & Hp & Hq & _);
    [apply iphdr_in|apply iphdr_comp|reflexivity|vm_compute; reflexivity|vm_compute; reflexivity
    |done|].
  split; [exact Hp|exact Hq].
Defined.

(** The sample request, to the second of two backends. *)
Lemma programs_on_members_witness :
  exists s', exec (xdp_lb_ingress LE) (sample_state request 7) = Some (XDP_PASS, s') /\
    ip LE "daddr" (ks_pkt s') = Some (load LE b2_ip) /\
    ip LE "saddr" (ks_pkt s') = ip LE "saddr" request /\ ip LE "ttl" (ks_pkt s') = ip LE "ttl" request.
Proof.
  destruct (programs_on_members LE (sample_state request 7) sample_maps_wf)
    as [(s' & Hs & Hr & _) _].
  destruct (Hr sample_config (entry b2_ip b2_mac)) as (_ & _ & Hd & _ & Hsa & Hf).
  - apply request_for_select. eexists. vm_compute. reflexivity.
  - exists s'. split; [exact Hs|]. split; [exact Hd|]. split; [exact Hsa|].
    apply Hf. do 6 right. left. reflexivity.
Defined.

(** The request as a big-endian target has to see it for the sample maps, cut off after four
    bytes of its ICMP header. *)
Definition cut_request : list byte := take 38 (icmp_frame 69 client_ip (rev vip_ip) []).

(** It is sent to a backend. *)
Lemma big_endian_ihl_witness :
  exists s', exec (xdp_lb_ingress BE) (sample_state cut_request 7) = Some (XDP_PASS, s') /\
    ip BE "daddr" (ks_pkt s') = Some (load LE b2_ip).
Proof.
  destruct (big_endian_ihl (sample_state cut_request 7) sample_maps_wf) as [(s' & Hs & Hr) _].
  - split_and!; [apply Nat.leb_le|..]; vm_compute; reflexivity.
  - exists s'. split; [exact Hs|].
    refine (Hr sample_config (entry b2_ip b2_mac) _).
    split_and!; [vm_compute; reflexivity|done|right; vm_compute; reflexivity
      |vm_compute; reflexivity|done].
Defined.

Lemma map_values_members_witness :
  member_get BE "backend_info" "ipv4" (marshal_backend_info BE sample_entry) = Some 33558188.
Proof.
  destruct (map_values_members BE sample_entry lb_config_zero stats_counter_zero)
    as (_ & _ & _ & Hm & _); [by vm_compute|auto with lb_wf..|].
  exact Hm.
Defined.
End MembersWitness.
