(* ===== verification/GoNet.v ===== *)
(** * Go's net package, as the control plane uses it

    [net.IP] and [net.HardwareAddr] are byte slices: an IPv4 address is four bytes or
    the sixteen bytes of its IPv4-in-IPv6 form.  [To4] and [Equal] follow the standard
    library; the native-order word the control plane stores in the maps is related to
    the bytes on the wire. *)

From S2P Require Import Prelude Types.

Abbreviation IP := (list byte) (only parsing).
Abbreviation HardwareAddr := (list byte) (only parsing).

(** The twelve bytes before an IPv4 address in its sixteen-byte form. *)
Definition v4InV6Prefix : list byte :=
  replicate 10 Byte.x00 ++ [Byte.xff; Byte.xff].

(** IP.To4: [None] is nil. *)
Definition To4 (ip : IP) : option IP :=
  if (length ip =? 4)%nat then Some ip
  else if (length ip =? 16)%nat && bool_decide (take 12 ip = v4InV6Prefix)
  then Some (drop 12 ip)
  else None.

(** IP.Equal: an IPv4 address and its IPv4-in-IPv6 form are equal. *)
Definition IP_Equal (ip x : IP) : bool :=
  if (length ip =? length x)%nat then bool_decide (ip = x)
  else if (length ip =? 4)%nat && (length x =? 16)%nat then
    bool_decide (take 12 x = v4InV6Prefix) && bool_decide (ip = drop 12 x)
  else if (length ip =? 16)%nat && (length x =? 4)%nat then
    bool_decide (take 12 ip = v4InV6Prefix) && bool_decide (drop 12 ip = x)
  else false.

(** binary.NativeEndian.Uint32 of a four-byte slice. *)
Definition NativeEndian_Uint32 (e : endian) (v4 : IP) : Z := load e v4.

Lemma To4_length ip v : To4 ip = Some v -> length v = 4%nat.
Proof.
  unfold To4. destruct (Nat.eqb_spec (length ip) 4); [by intros [= <-]|].
  destruct (Nat.eqb_spec (length ip) 16); simpl; [|done].
  case_bool_decide; [|done]. intros [= <-]. rewrite length_drop. lia.
Qed.

(** On IPv4 addresses, [Equal] compares the four address bytes. *)
Lemma IP_Equal_To4 x y a b :
  To4 x = Some a -> To4 y = Some b -> IP_Equal x y = bool_decide (a = b).
Proof.
  unfold To4, IP_Equal.
  destruct (Nat.eqb_spec (length x) 4) as [Hx|Hx], (Nat.eqb_spec (length y) 4) as [Hy|Hy].
  - intros [= <-] [= <-]. by rewrite Hx, Hy.
  - intros [= <-]. destruct (Nat.eqb_spec (length y) 16) as [Hy'|]; simpl; [|done].
    rewrite bool_decide_decide. case_decide as Hp; [|done]. intros [= <-].
    by rewrite Hx, Hy'.
  - destruct (Nat.eqb_spec (length x) 16) as [Hx'|]; simpl; [|done].
    rewrite bool_decide_decide. case_decide as Hp; [|done]. intros [= <-] [= <-].
    by rewrite Hx', Hy.
  - destruct (Nat.eqb_spec (length x) 16) as [Hx'|]; simpl; [|done].
    destruct (Nat.eqb_spec (length y) 16) as [Hy'|]; simpl; [|by case_bool_decide].
    rewrite !(bool_decide_decide (take 12 _ = _)).
    case_decide as Hp; [|done]. intros [= <-]. case_decide as Hq; [|done]. intros [= <-].
    rewrite Hx', Hy'. simpl. apply bool_decide_ext. split; [congruence|].
    intros Hd. rewrite <-(take_drop 12 x), <-(take_drop 12 y). congruence.
Qed.

(** Both forms of the same address. *)
Lemma To4_form v : length v = 4%nat -> To4 (v4InV6Prefix ++ v) = Some v.
Proof.
  intros Hv. unfold To4. rewrite length_app, Hv. simpl Nat.eqb. cbv iota.
  rewrite bool_decide_eq_true_2 by (explicit_list v Hv; reflexivity).
  simpl andb. cbv iota. explicit_list v Hv. reflexivity.
Qed.

(** The word stored in a map is, in memory, the four bytes of the address: what the
    XDP programs compare with and copy into packets is the wire format, whatever the
    host's byte order. *)
Lemma NativeEndian_wire e ip v :
  To4 ip = Some v -> store e 4 (NativeEndian_Uint32 e v) = v.
Proof. intros H%To4_length. by apply store_load. Qed.

Lemma NativeEndian_u32 e ip v : To4 ip = Some v -> is_u32 (NativeEndian_Uint32 e v).
Proof. intros H%To4_length. by apply load_u32. Qed.

Lemma NativeEndian_inj e ip v ip' v' :
  To4 ip = Some v -> To4 ip' = Some v' ->
  NativeEndian_Uint32 e v = NativeEndian_Uint32 e v' -> v = v'.
Proof. intros H%To4_length H'%To4_length. apply load_inj. congruence. Qed.

(** ** Iterating over a Go map

    [for k, v := range m] visits every entry once, in an order the language leaves
    open. *)
Class GoRange := {
  range {V} : gmap string V -> list (string * V);
  range_perm {V} (m : gmap string V) : range m ≡ₚ map_to_list m
}.

(** The order [map_to_list] gives, for examples. *)
Definition range_default : GoRange.
Proof. refine {| range := fun V m => map_to_list m |}. done. Defined.
