(* ===== verification/GoStrings.v ===== *)
(** * Go's parsing functions, as the control plane uses them

    [net.ParseIP], [net.ParseMAC], [strconv.ParseUint] (base 10), [strings.TrimSpace] and
    [strings.TrimPrefix] of the Go standard library, on strings of bytes.  A failed parse
    is [None]. *)

From Stdlib Require Import Ascii.
From S2P Require Import Prelude Types GoNet.

(** ** Characters *)

Definition code (c : ascii) : Z := Z.of_nat (nat_of_ascii c).
Definition byte_of (x : Z) : byte := byte.of_Z x.

Definition is_digit (c : ascii) : bool := (48 <=? code c) && (code c <=? 57).

(** The value of a hexadecimal digit. *)
Definition hex_digit (c : ascii) : option Z :=
  if is_digit c then Some (code c - 48)
  else if (97 <=? code c) && (code c <=? 102) then Some (code c - 97 + 10)
  else if (65 <=? code c) && (code c <=? 70) then Some (code c - 65 + 10)
  else None.

Definition chars (s : string) : list ascii := String.list_ascii_of_string s.
Definition is_char (n : Z) (c : ascii) : bool := code c =? n.

Abbreviation dot := (is_char 46).
Abbreviation colon := (is_char 58).
Abbreviation percent := (is_char 37).

(** ** netip.parseIPv4Fields

    The octets of a dotted decimal: [pos] octets are complete, the current one has value
    [val] and [digLen] digits; [prev_dot] says that the previous character was a dot (or
    that there was none). *)
Fixpoint parse_v4_fields (s : list ascii) (acc : list byte) (val : Z) (digLen : nat)
    (prev_dot : bool) : option (list byte) :=
  match s with
  | [] => if (length acc =? 3)%nat then Some (acc ++ [byte_of val]) else None
  | c :: s =>
      if is_digit c then
        if (digLen =? 1)%nat && (val =? 0) then None
        else
          let val := val * 10 + (code c - 48) in
          if 255 <? val then None
          else parse_v4_fields s acc val (S digLen) false
      else if dot c then
        if prev_dot || (length s =? 0)%nat then None
        else if (length acc =? 3)%nat then None
        else parse_v4_fields s (acc ++ [byte_of val]) 0 0 true
      else None
  end.

Definition parse_v4 (s : list ascii) : option (list byte) := parse_v4_fields s [] 0 0 true.

(** ** netip.parseIPv6

    The hexadecimal digits at the front: how many, their value, and the rest.  More than
    four digits are an error. *)
Fixpoint hex_group (s : list ascii) (off : nat) (acc : Z) : option (nat * Z * list ascii) :=
  match s with
  | c :: s' =>
      match hex_digit c with
      | Some d => if (3 <? off)%nat then None else hex_group s' (S off) (acc * 16 + d)
      | None => Some (off, acc, s)
      end
  | [] => Some (off, acc, [])
  end.

(** The loop over the groups: the bytes so far, where the ellipsis was, and what is left
    of the string when it ends. *)
Fixpoint parse_v6_loop (fuel : nat) (s : list ascii) (ip : list byte) (ellipsis : option nat)
    : option (list byte * option nat * list ascii) :=
  match fuel with
  | O => Some (ip, ellipsis, s)
  | S fuel =>
      if (16 <=? length ip)%nat then Some (ip, ellipsis, s)
      else
        '(off, acc, rest) ← hex_group s 0 0;
        if (off =? 0)%nat then None
        else
          match rest with
          | c :: _ =>
              if dot c then
                (* a trailing IPv4 address *)
                if bool_decide (ellipsis = None) && negb (length ip =? 12)%nat then None
                else if (16 <? length ip + 4)%nat then None
                else v4 ← parse_v4 s; Some (ip ++ v4, ellipsis, [])
              else
                let ip := ip ++ [byte_of (acc / 256); byte_of (acc mod 256)] in
                if negb (colon c) then None
                else
                  match rest with
                  | _ :: c2 :: rest2 =>
                      if colon c2 then
                        match ellipsis with
                        | Some _ => None
                        | None =>
                            match rest2 with
                            | [] => Some (ip, Some (length ip), [])
                            | _ => parse_v6_loop fuel rest2 ip (Some (length ip))
                            end
                        end
                      else parse_v6_loop fuel (c2 :: rest2) ip ellipsis
                  | _ => None
                  end
          | [] => Some (ip ++ [byte_of (acc / 256); byte_of (acc mod 256)], ellipsis, [])
          end
  end.

Definition v6_expand (ip : list byte) (ellipsis : option nat) : option (list byte) :=
  if (length ip <? 16)%nat then
    match ellipsis with
    | None => None
    | Some k => Some (take k ip ++ replicate (16 - length ip) Byte.x00 ++ drop k ip)
    end
  else match ellipsis with None => Some ip | Some _ => None end.

(** Addresses with a zone are not IP addresses for [ParseIP]. *)
Definition parse_v6 (s : list ascii) : option (list byte) :=
  if existsb percent s then None
  else
    let '(s, ellipsis) :=
      match s with
      | c1 :: c2 :: rest => if colon c1 && colon c2 then (rest, Some 0%nat) else (s, None)
      | _ => (s, None)
      end in
    match s, ellipsis with
    | [], Some _ => Some (replicate 16 Byte.x00)
    | _, _ =>
        '(ip, ellipsis, rest) ← parse_v6_loop 9 s [] ellipsis;
        match rest with
        | [] => v6_expand ip ellipsis
        | _ => None
        end
    end.

(** net.ParseIP: the first of ['.'], [':'] and ['%'] decides the format; an IPv4 address
    is returned in its sixteen-byte form. *)
Fixpoint addr_format (s : list ascii) : option bool :=
  match s with
  | [] => None
  | c :: s =>
      if dot c then Some true else if colon c then Some false
      else if percent c then None else addr_format s
  end.

Definition ParseIP (s : string) : option IP :=
  match addr_format (chars s) with
  | Some true => v4 ← parse_v4 (chars s); Some (v4InV6Prefix ++ v4)
  | Some false => parse_v6 (chars s)
  | None => None
  end.

Example ParseIP_ex :
  map ParseIP ["172.18.0.2"; "1.2.3"; "1.2.3.4."; "01.2.3.4"; "256.1.1.1"; ""; "::1%eth0";
               "1:2:3:4:5:6:7:8:9"; "1::2::3"; "12345::"] =
    [Some (v4InV6Prefix ++ map byte_of [172; 18; 0; 2]); None; None; None; None; None; None;
     None; None; None] /\
  ParseIP "fe80::42:ff" =
    Some (map byte_of [254; 128; 0; 0; 0; 0; 0; 0; 0; 0; 0; 0; 0; 66; 0; 255]) /\
  ParseIP "::ffff:172.18.0.2" = ParseIP "172.18.0.2" /\
  ParseIP "::" = Some (replicate 16 Byte.x00).
Proof. split_and!; vm_compute; reflexivity. Qed.

(** ** net.ParseMAC *)

(** xtoi2: two hexadecimal digits; a third character must be the separator. *)
Definition xtoi2 (s : list ascii) (e : ascii) : option byte :=
  match s with
  | a :: b :: rest =>
      if match rest with c :: _ => bool_decide (c = e) | [] => true end then
        x ← hex_digit a; y ← hex_digit b; Some (byte_of (x * 16 + y))
      else None
  | _ => None
  end.

Definition mac_length (n : nat) : bool := (n =? 6)%nat || (n =? 8)%nat || (n =? 20)%nat.

(** Bytes separated by colons or hyphens, or pairs of bytes separated by dots. *)
Definition ParseMAC (str : string) : option HardwareAddr :=
  let s := chars str in
  let len := length s in
  if (len <? 14)%nat then None
  else
    c2 ← s !! 2%nat; c4 ← s !! 4%nat;
    if colon c2 || is_char 45 c2 then
      if negb ((len + 1) mod 3 =? 0)%nat then None
      else
        let n := ((len + 1) / 3)%nat in
        if negb (mac_length n) then None
        else mapM (fun i => xtoi2 (drop (3 * i) s) c2) (seq 0 n)
    else if dot c4 then
      if negb ((len + 1) mod 5 =? 0)%nat then None
      else
        let n := (2 * (len + 1) / 5)%nat in
        if negb (mac_length n) then None
        else
          (@concat byte) <$> mapM (fun k =>
            x ← xtoi2 (take 2 (drop (5 * k) s)) Ascii.zero;
            y ← xtoi2 (drop (5 * k + 2) s) c4;
            Some [x; y]) (seq 0 (n / 2))
    else None.

Example ParseMAC_ex :
  map ParseMAC ["02:42:ac:12:00:02"; "02-42-AC-12-00-02"; "0242.ac12.0002"; "";
                "02:42:ac:12:00"; "02:42:ac:12-00:02"; "0g:42:ac:12:00:02"] =
    let m := Some (map byte_of [2; 66; 172; 18; 0; 2]) in
    [m; m; m; None; None; None; None].
Proof. vm_compute. reflexivity. Qed.

(** ** strconv.ParseUint(s, 10, bits) *)

Fixpoint parse_digits (s : list ascii) (n : Z) : option Z :=
  match s with
  | [] => Some n
  | c :: s => if is_digit c then parse_digits s (n * 10 + (code c - 48)) else None
  end.

Definition ParseUint10 (str : string) (bits : Z) : option Z :=
  match chars str with
  | [] => None
  | s => n ← parse_digits s 0; if n <? 2 ^ bits then Some n else None
  end.

(** ** strings.TrimSpace and strings.TrimPrefix *)

(** The characters with Unicode's White_Space property, in UTF-8. *)
Definition spaces : list (list Z) :=
  [[9]; [10]; [11]; [12]; [13]; [32]; [194; 133]; [194; 160]; [225; 154; 128];
   [226; 128; 128]; [226; 128; 129]; [226; 128; 130]; [226; 128; 131]; [226; 128; 132];
   [226; 128; 133]; [226; 128; 134]; [226; 128; 135]; [226; 128; 136]; [226; 128; 137];
   [226; 128; 138]; [226; 128; 168]; [226; 128; 169]; [226; 128; 175]; [226; 129; 159];
   [227; 128; 128]].

Definition has_prefix (p : list Z) (s : list ascii) : bool :=
  bool_decide (map code (take (length p) s) = p).

(** Drop one leading character of [sp]. *)
Definition drop_one (sp : list (list Z)) (s : list ascii) : option (list ascii) :=
  p ← head (List.filter (fun p => has_prefix p s) sp); Some (drop (length p) s).

Fixpoint trim_left (fuel : nat) (sp : list (list Z)) (s : list ascii) : list ascii :=
  match fuel with
  | O => s
  | S fuel => match drop_one sp s with Some s' => trim_left fuel sp s' | None => s end
  end.

(** UTF-8 is self-synchronising: the last character is a space exactly when the string
    ends with its bytes. *)
Definition TrimSpace (str : string) : string :=
  let s := chars str in
  let s := trim_left (length s) spaces s in
  String.string_of_list_ascii
    (rev (trim_left (length s) (map (@rev Z) spaces) (rev s))).

Definition TrimPrefix (s prefix : string) : string :=
  if String.prefix prefix s
  then String.substring (String.length prefix) (String.length s - String.length prefix) s
  else s.

Example trim_ex :
  map TrimSpace ["  8080 "; "8080"; "   "; ""] = ["8080"; "8080"; ""; ""] /\
  map (fun s => TrimPrefix s "/") ["/web"; "web"; "//web"; ""] = ["web"; "web"; "/web"; ""] /\
  map (fun s => ParseUint10 s 16) ["8080"; "65535"; "65536"; "-1"; "+80"; ""; "0x50"; "080"] =
    [Some 8080; Some 65535; None; None; None; None; None; Some 80].
Proof. split_and!; vm_compute; reflexivity. Qed.

(** ** Lemmas *)

Lemma parse_v4_fields_length s acc val d b ip :
  parse_v4_fields s acc val d b = Some ip -> length ip = 4%nat.
Proof.
  revert acc val d b. induction s as [|c s IH]; intros acc val d b; simpl.
  - destruct (Nat.eqb_spec (length acc) 3) as [Hl|]; [|done]. intros [= <-].
    rewrite length_app, Hl. done.
  - repeat case_match; try done; apply IH.
Qed.

Lemma parse_v4_length s ip : parse_v4 s = Some ip -> length ip = 4%nat.
Proof. apply parse_v4_fields_length. Qed.

Lemma parse_v6_loop_bound fuel s ip ell ip' ell' rest :
  parse_v6_loop fuel s ip ell = Some (ip', ell', rest) ->
  (length ip <= 16)%nat -> (Nat.Even (length ip)) ->
  (forall k, ell = Some k -> k <= length ip)%nat ->
  (length ip' <= 16)%nat /\ (forall k, ell' = Some k -> k <= length ip')%nat.
Proof.
  revert s ip ell. induction fuel as [|fuel IH]; intros s ip ell Hp Hlen Hev Hell;
    cbn [parse_v6_loop] in Hp.
  { by simplify_eq. }
  destruct (Nat.leb_spec 16 (length ip)); [by simplify_eq|].
  assert (length ip + 2 <= 16)%nat as Hroom by (destruct Hev as [q ?]; lia).
  destruct (hex_group s 0 0) as [[[off acc] rest0]|]; [|done].
  cbn [mbind option_bind] in Hp.
  set (ip2 := ip ++ [byte_of (acc / 256); byte_of (acc mod 256)]) in *.
  assert (length ip2 = length ip + 2)%nat as Hl2 by (unfold ip2; rewrite length_app; done).
  assert (Nat.Even (length ip2)) as Hev2
    by (rewrite Hl2; destruct Hev as [q Hq]; exists (S q); lia).
  destruct (off =? 0)%nat; [done|]. destruct rest0 as [|c rest0].
  { injection Hp as <- <- <-. rewrite Hl2. split; [lia|]. intros k Hk. apply Hell in Hk. lia. }
  destruct (dot c).
  - destruct (bool_decide _ && _); [done|]. destruct (Nat.ltb_spec 16 (length ip + 4)); [done|].
    destruct (parse_v4 s) as [v4|] eqn:Hv4; [|done]. injection Hp as <- <- <-.
    apply parse_v4_length in Hv4. rewrite length_app, Hv4. split; [lia|].
    intros k Hk. apply Hell in Hk. lia.
  - destruct (negb (colon c)); [done|]. destruct rest0 as [|c2 rest2]; [done|].
    destruct (colon c2).
    + destruct ell; [done|]. destruct rest2 as [|c3 rest3].
      * injection Hp as <- <- <-. split; [lia|]. intros k [= <-]. done.
      * apply IH in Hp; [done|lia|done|]. intros k [= <-]. done.
    + apply IH in Hp; [done|lia|done|]. intros k Hk. apply Hell in Hk. lia.
Qed.

Lemma v6_expand_length ip ell ip' :
  (length ip <= 16)%nat -> (forall k, ell = Some k -> k <= length ip)%nat ->
  v6_expand ip ell = Some ip' -> length ip' = 16%nat.
Proof.
  intros Hl Hk. unfold v6_expand. destruct (Nat.ltb_spec (length ip) 16).
  - destruct ell as [k|]; [|done]. intros [= <-]. specialize (Hk k eq_refl).
    rewrite !length_app, length_take, length_replicate, length_drop. lia.
  - destruct ell; [done|]. intros [= <-]. lia.
Qed.

(** Every parsed address has sixteen bytes. *)
Lemma ParseIP_length s ip : ParseIP s = Some ip -> length ip = 16%nat.
Proof.
  unfold ParseIP. destruct (addr_format _) as [[|]|]; [..|done].
  - destruct (parse_v4 _) as [v4|] eqn:Hv4; cbn [mbind option_bind]; [|done]. intros [= <-].
    apply parse_v4_length in Hv4. simpl. by rewrite Hv4.
  - unfold parse_v6. destruct (existsb _ _); [done|].
    destruct (match chars s with [] => _ | _ => _ end) as [s' ell] eqn:Hs.
    assert (forall k, ell = Some k -> k <= 0)%nat as Hell.
    { intros k ->. repeat case_match; simplify_eq; lia. }
    destruct s' as [|c s']; [destruct ell|];
      try (intros [= <-]; reflexivity);
      (destruct (parse_v6_loop _ _ _ _) as [[[ip1 ell1] rest]|] eqn:Hp; simpl; [|done];
       destruct rest; [|done]; apply parse_v6_loop_bound in Hp as [? ?];
       [by apply v6_expand_length|simpl; lia|by exists 0%nat|done]).
Qed.

Lemma parse_digits_nonneg s n m : 0 <= n -> parse_digits s n = Some m -> 0 <= m.
Proof.
  revert n. induction s as [|c s IH]; intros n Hn; simpl; [by intros [= <-]|].
  unfold is_digit. destruct (Z.leb_spec 48 (code c)), (Z.leb_spec (code c) 57); simpl; try done.
  apply IH. lia.
Qed.

Lemma ParseUint10_range s bits n : ParseUint10 s bits = Some n -> 0 <= n < 2 ^ bits.
Proof.
  unfold ParseUint10. destruct (chars s) as [|c l]; [done|].
  destruct (parse_digits _ _) as [m|] eqn:Hm; simpl; [|done].
  destruct (Z.ltb_spec m (2 ^ bits)); [|done]. intros [= <-].
  split; [by eapply parse_digits_nonneg in Hm|done].
Qed.
