(* ===== verification/Manager.v ===== *)
(** * The BPF manager (userspace/bpf/maps.go, userspace/bpf/loader.go)

    [Manager] with its four map operations and the attachment of the XDP programs.
    The cilium/ebpf link library, the resource limits and the network interfaces are
    parameters ([Host]) with their documented behaviour as laws ([HostLaws]); the map
    operations are those of [BpfMaps].  A method is one state transformer.  The mutex of
    the manager covers the methods of loader.go only: the map operations of maps.go are
    system calls of their own, and [UpdateBackend] and [ClearBackend] make two of them
    ([UpdateBackend_seq], [ClearBackend_seq]), between which frames can arrive ([Busy]) and
    the manager can be closed ([Shutdown]). *)

From S2P Require Import Prelude Types BpfMaps Ebpf GoNet Xdp.

(** ** Errors: one constructor per error value the control plane builds *)

Inductive error :=
  (* maps.go *)
  | ErrConfigMapPut (e : errno)
  | ErrBackendNotIPv4 (ip : IP)
  | ErrBackendMapPut (index : Z) (e : errno)
  | ErrBackendIpsMapPut (ip : IP) (e : errno)
  | ErrBackendMapClear (index : Z) (e : errno)
  | ErrCountersLookup (e : errno)
  (* loader.go *)
  | ErrRemoveMemlock (e : errno)
  | ErrInterfaceNotFound (ifaceName : string) (e : errno)
  | ErrLoadLb (e : errno)
  | ErrLoadAndAssign (e : errno)
  | ErrLoadObjects (err : error)
  | ErrAttachXDP (ifaceName : string) (e : errno)
  | ErrAttachVeth (errDriver errGeneric : errno)
  | ErrDetachVeth (vethName : string) (e : errno)
  | ErrCloseVeth (name : string) (e : errno)
  | ErrDetachDocker0 (e : errno)
  | ErrCloseObjects (e : errno)
  | ErrManagerClose (errs : list error)
  (* pool.go *)
  | ErrWriteBackend (i : Z) (name : string) (err : error)
  | ErrAttachFor (name vethName : string) (err : error)
  | ErrClearBackend (idx : Z) (name : string) (err : error)
  | ErrDetachFor (name vethName : string) (err : error)
  | ErrUpdateConfig (err : error).

(** ** The host: links, interfaces, loading *)

Inductive xdp_program := XdpLbIngress | XdpVethSnat.
Inductive attach_flags := XDPDriverMode | XDPGenericMode.

(** link.XDPOptions *)
Record XDPOptions := { Program : xdp_program; Interface : Z; Flags : attach_flags }.

(** What [lbObjects] holds file descriptors of. *)
Inductive bpf_object :=
  | ProgXdpLbIngress | ProgXdpVethSnat
  | MapBackendIps | MapBackend | MapConfig | MapCounters.

#[export] Instance xdp_program_eq_dec : EqDecision xdp_program.
Proof. solve_decision. Defined.

Class Host := {
  net_t : Type;                  (** the kernel's networking state *)
  link_t : Type;                 (** link.Link *)
  AttachXDP : net_t -> XDPOptions -> net_t * result errno link_t;
  link_Close : net_t -> link_t -> net_t * option errno;
  object_Close : net_t -> bpf_object -> net_t * option errno;
  RemoveMemlock : net_t -> net_t * option errno;
  InterfaceByName : net_t -> string -> result errno Z;   (** the interface's index *)
  spec_t : Type;                 (** ebpf.CollectionSpec *)
  LoadCollectionSpec : result errno spec_t;              (** of the embedded object *)
  LoadAndAssign : spec_t -> list string -> net_t -> net_t * option errno;
  attached : net_t -> Z -> option xdp_program;
  link_iface : link_t -> Z
}.

(** Attaching a program to an interface makes it the interface's XDP program (a failed
    attachment changes nothing), and closing the link detaches it.  A [Close] that reports
    an error may have released the link or not, and touches no other interface.  Loading the
    objects, closing their file descriptors and raising the memory limit attach and detach
    nothing: an attached program is held by its link. *)
Class HostLaws `{!Host} := {
  attach_ok n o n' l :
    AttachXDP n o = (n', Ok l) ->
    link_iface l = Interface o /\
    (forall i, attached n' i = if decide (i = Interface o) then Some (Program o)
                               else attached n i);
  attach_err n o n' x :
    AttachXDP n o = (n', Err x) -> forall i, attached n' i = attached n i;
  close_ok n l n' :
    link_Close n l = (n', None) ->
    forall i, attached n' i = if decide (i = link_iface l) then None else attached n i;
  close_err n l n' x :
    link_Close n l = (n', Some x) ->
    forall i, attached n' i = attached n i \/ (i = link_iface l /\ attached n' i = None);
  object_close_attached n o n' r :
    object_Close n o = (n', r) -> forall i, attached n' i = attached n i;
  memlock_attached n n' r :
    RemoveMemlock n = (n', r) -> forall i, attached n' i = attached n i;
  load_attached s names n n' r :
    LoadAndAssign s names n = (n', r) -> forall i, attached n' i = attached n i
}.

Section Manager.
Context {KM : BpfMaps} {H : Host} (e : endian).

(** The Go struct, with the kernel's networking state it acts on. *)
Record Manager := {
  objs : lbMaps;
  xdpLink : option link_t;
  vethLinks : gmap string link_t;
  ifaceName : string;
  ifaceIdx : Z;
  net : net_t
}.

Definition with_objs (m : Manager) (o : lbMaps) : Manager :=
  {| objs := o; xdpLink := xdpLink m; vethLinks := vethLinks m; ifaceName := ifaceName m;
     ifaceIdx := ifaceIdx m; net := net m |}.
Definition with_net (m : Manager) (n : net_t) : Manager :=
  {| objs := objs m; xdpLink := xdpLink m; vethLinks := vethLinks m;
     ifaceName := ifaceName m; ifaceIdx := ifaceIdx m; net := n |}.
Definition with_vethLinks (m : Manager) (v : gmap string link_t) : Manager :=
  {| objs := objs m; xdpLink := xdpLink m; vethLinks := v; ifaceName := ifaceName m;
     ifaceIdx := ifaceIdx m; net := net m |}.

(** ** maps.go *)

(** [var mac [6]uint8; if len(x) == 6 { copy(mac[:], x) }] *)
Definition mac_bytes (mac : HardwareAddr) : list byte :=
  if (length mac =? ETH_ALEN)%nat then mac else zero_mac.

(** The value UpdateConfig writes. *)
Definition mk_config (vip : IP) (vport backendCount : Z) (srcMAC : HardwareAddr)
    : lb_config :=
  {| cfg_vip := match To4 vip with
                | Some v4 => NativeEndian_Uint32 e v4
                | None => 0
                end;
     cfg_vport := vport; cfg_pad := 0; cfg_backend_count := backendCount;
     cfg_src_mac := mac_bytes srcMAC; cfg_pad2 := zero_pad2 |}.

Definition UpdateConfig (m : Manager) (vip : IP) (vport backendCount : Z)
    (srcMAC : HardwareAddr) : Manager * option error :=
  let cfg := mk_config vip vport backendCount srcMAC in
  match am_update (ConfigMap (objs m)) 0 cfg with
  | Err x => (m, Some (ErrConfigMapPut x))
  | Ok t => (with_objs m (with_ConfigMap (objs m) t), None)
  end.

(** The value UpdateBackend writes. *)
Definition mk_backend (v4 : IP) (port : Z) (mac : HardwareAddr) : backend_info :=
  {| bi_ipv4 := NativeEndian_Uint32 e v4; bi_port := port; bi_pad := 0;
     bi_mac := mac_bytes mac; bi_pad2 := zero_pad2; bi_weight := 1 |}.

Definition UpdateBackend (m : Manager) (index : Z) (ip : IP) (port : Z)
    (mac : HardwareAddr) : Manager * option error :=
  match To4 ip with
  | None => (m, Some (ErrBackendNotIPv4 ip))
  | Some v4 =>
      let backend := mk_backend v4 port mac in
      match am_update (BackendMap (objs m)) index backend with
      | Err x => (m, Some (ErrBackendMapPut index x))
      | Ok t =>
          let m := with_objs m (with_BackendMap (objs m) t) in
          let ipKey := NativeEndian_Uint32 e v4 in
          match hm_update (BackendIpsMap (objs m)) ipKey index with
          | Err x => (m, Some (ErrBackendIpsMapPut ip x))
          | Ok t => (with_objs m (with_BackendIpsMap (objs m) t), None)
          end
      end
  end.

Definition ClearBackend (m : Manager) (index : Z) (ip : IP) : Manager * option error :=
  match am_update (BackendMap (objs m)) index backend_info_zero with
  | Err x => (m, Some (ErrBackendMapClear index x))
  | Ok t =>
      let m := with_objs m (with_BackendMap (objs m) t) in
      match To4 ip with
      | None => (m, None)
      | Some v4 =>
          let ipKey := NativeEndian_Uint32 e v4 in
          (* the error of Delete is discarded *)
          match hm_delete (BackendIpsMap (objs m)) ipKey with
          | Err _ => (m, None)
          | Ok t => (with_objs m (with_BackendIpsMap (objs m) t), None)
          end
      end
  end.

(** *** The two system calls of each

    [first] and, if it reports no error, [second]. *)
Definition in_order (first second : Manager -> Manager * option error) (m : Manager)
    : Manager * option error :=
  let '(m, err) := first m in
  match err with
  | Some x => (m, Some x)
  | None => second m
  end.

(** [BackendMap.Put] with the checks before it. *)
Definition UpdateBackend_forward (index : Z) (ip : IP) (port : Z) (mac : HardwareAddr)
    (m : Manager) : Manager * option error :=
  match To4 ip with
  | None => (m, Some (ErrBackendNotIPv4 ip))
  | Some v4 =>
      match am_update (BackendMap (objs m)) index (mk_backend v4 port mac) with
      | Err x => (m, Some (ErrBackendMapPut index x))
      | Ok t => (with_objs m (with_BackendMap (objs m) t), None)
      end
  end.

(** [BackendIpsMap.Put]. *)
Definition UpdateBackend_reverse (index : Z) (ip : IP) (m : Manager)
    : Manager * option error :=
  match To4 ip with
  | None => (m, Some (ErrBackendNotIPv4 ip))
  | Some v4 =>
      match hm_update (BackendIpsMap (objs m)) (NativeEndian_Uint32 e v4) index with
      | Err x => (m, Some (ErrBackendIpsMapPut ip x))
      | Ok t => (with_objs m (with_BackendIpsMap (objs m) t), None)
      end
  end.

(** [BackendMap.Put] of the empty entry. *)
Definition ClearBackend_forward (index : Z) (m : Manager) : Manager * option error :=
  match am_update (BackendMap (objs m)) index backend_info_zero with
  | Err x => (m, Some (ErrBackendMapClear index x))
  | Ok t => (with_objs m (with_BackendMap (objs m) t), None)
  end.

(** [BackendIpsMap.Delete]; its error is discarded. *)
Definition ClearBackend_reverse (ip : IP) (m : Manager) : Manager * option error :=
  match To4 ip with
  | None => (m, None)
  | Some v4 =>
      match hm_delete (BackendIpsMap (objs m)) (NativeEndian_Uint32 e v4) with
      | Err _ => (m, None)
      | Ok t => (with_objs m (with_BackendIpsMap (objs m) t), None)
      end
  end.

Lemma UpdateBackend_seq m index ip port mac :
  UpdateBackend m index ip port mac =
    in_order (UpdateBackend_forward index ip port mac) (UpdateBackend_reverse index ip) m.
Proof.
  unfold UpdateBackend, in_order, UpdateBackend_forward, UpdateBackend_reverse.
  destruct (To4 ip); [|done]. by destruct (am_update _ _ _).
Qed.

Lemma ClearBackend_seq m index ip :
  ClearBackend m index ip =
    in_order (ClearBackend_forward index) (ClearBackend_reverse ip) m.
Proof.
  unfold ClearBackend, in_order, ClearBackend_forward, ClearBackend_reverse.
  by destruct (am_update _ _ _).
Qed.

(** The loop of ReadStats: both sums wrap at 64 bits. *)
Fixpoint sum_counters (perCPU : list stats_counter) (packets bytes : Z) : Z * Z :=
  match perCPU with
  | [] => (packets, bytes)
  | s :: perCPU =>
      sum_counters perCPU (u64 (packets + rx_packets s)) (u64 (bytes + rx_bytes s))
  end.

Definition ReadStats (m : Manager) (index : Z) : result error (Z * Z) :=
  match pm_values (CountersMap (objs m)) index with
  | Err x => Err (ErrCountersLookup x)
  | Ok perCPU => Ok (sum_counters perCPU 0 0)
  end.

(** ** loader.go *)

(** Native driver mode first, generic mode if that fails: the link, or both errors. *)
Definition attach_fallback (n : net_t) (p : xdp_program) (iface : Z)
    : net_t * result (errno * errno) link_t :=
  let '(n, r) := AttachXDP n {| Program := p; Interface := iface; Flags := XDPDriverMode |} in
  match r with
  | Ok l => (n, Ok l)
  | Err errDriver =>
      let '(n, r) :=
        AttachXDP n {| Program := p; Interface := iface; Flags := XDPGenericMode |} in
      match r with
      | Ok l => (n, Ok l)
      | Err errGeneric => (n, Err (errDriver, errGeneric))
      end
  end.

(** The names of the objects in the ELF, which the struct tags repeat. *)
Definition object_name (o : bpf_object) : string :=
  match o with
  | ProgXdpLbIngress => "xdp_lb_ingress"
  | ProgXdpVethSnat => "xdp_veth_snat"
  | MapBackendIps => "backend_ips_map"
  | MapBackend => "backend_map"
  | MapConfig => "config_map"
  | MapCounters => "counters_map"
  end.

(** lbPrograms, lbMaps and lbObjects, which embeds both: what is assigned on loading. *)
Definition lbPrograms_fields : list bpf_object := [ProgXdpLbIngress; ProgXdpVethSnat].
Definition lbMaps_fields : list bpf_object := [MapBackendIps; MapBackend; MapConfig; MapCounters].
Definition lbObjects_fields : list bpf_object := lbPrograms_fields ++ lbMaps_fields.

(** The specification of the embedded object. *)
Definition loadLb : result error spec_t :=
  match LoadCollectionSpec with
  | Err x => Err (ErrLoadLb x)
  | Ok spec => Ok spec
  end.

(** loadLbObjects into a [lbObjects]. *)
Definition loadLbObjects (n : net_t) : net_t * option error :=
  match loadLb with
  | Err x => (n, Some x)
  | Ok spec =>
      let '(n, r) := LoadAndAssign spec (map object_name lbObjects_fields) n in
      (n, ErrLoadAndAssign <$> r)
  end.

(** _LbClose: stop at the first error. *)
Fixpoint LbClose (n : net_t) (closers : list (net_t -> net_t * option errno))
    : net_t * option errno :=
  match closers with
  | [] => (n, None)
  | closer :: closers =>
      let '(n, err) := closer n in
      match err with
      | Some x => (n, Some x)
      | None => LbClose n closers
      end
  end.

Definition lbPrograms_Close (n : net_t) : net_t * option errno :=
  LbClose n [fun n => object_Close n ProgXdpLbIngress; fun n => object_Close n ProgXdpVethSnat].
Definition lbMaps_Close (n : net_t) : net_t * option errno :=
  LbClose n [fun n => object_Close n MapBackendIps; fun n => object_Close n MapBackend;
             fun n => object_Close n MapConfig; fun n => object_Close n MapCounters].
Definition lbObjects_Close (n : net_t) : net_t * option errno :=
  LbClose n [lbPrograms_Close; lbMaps_Close].

(** The nested calls close, in order, exactly the objects that were loaded. *)
Lemma LbClose_app n l l' :
  LbClose n (l ++ l') = LbClose n [fun n => LbClose n l; fun n => LbClose n l'].
Proof.
  revert n. induction l as [|c l IH]; intros n; simpl.
  { by destruct (LbClose n l') as [? [?|]]. }
  destruct (c n) as [n1 [x|]]; [done|]. rewrite IH. simpl.
  by destruct (LbClose n1 l) as [n2 [x|]].
Qed.

Lemma lbObjects_Close_all n :
  lbObjects_Close n = LbClose n (map (fun o n => object_Close n o) lbObjects_fields).
Proof. unfold lbObjects_fields. by rewrite map_app, LbClose_app. Qed.

(** NewManager: the manager, or the error and the networking state left behind. *)
Definition NewManager (n : net_t) (name : string) : result (net_t * error) Manager :=
  let '(n, err) := RemoveMemlock n in
  match err with
  | Some x => Err (n, ErrRemoveMemlock x)
  | None =>
      match InterfaceByName n name with
      | Err x => Err (n, ErrInterfaceNotFound name x)
      | Ok idx =>
          let '(n, err) := loadLbObjects n in
          match err with
          | Some x => Err (n, ErrLoadObjects x)
          | None =>
              let '(n, r) := attach_fallback n XdpLbIngress idx in
              match r with
              | Err (_, errGeneric) =>
                  let '(n, _) := lbObjects_Close n in
                  Err (n, ErrAttachXDP name errGeneric)
              | Ok l =>
                  Ok {| objs := lbMaps_init; xdpLink := Some l; vethLinks := ∅;
                        ifaceName := name; ifaceIdx := idx; net := n |}
              end
          end
      end
  end.

Definition AttachVethXDP (m : Manager) (vethName : string) (vethIfIndex : Z)
    : Manager * option error :=
  match vethLinks m !! vethName with
  | Some _ => (m, None)
  | None =>
      let '(n, r) := attach_fallback (net m) XdpVethSnat vethIfIndex in
      match r with
      | Err (errDriver, errGeneric) => (with_net m n, Some (ErrAttachVeth errDriver errGeneric))
      | Ok l => (with_vethLinks (with_net m n) (<[vethName := l]> (vethLinks m)), None)
      end
  end.

Definition DetachVethXDP (m : Manager) (vethName : string) : Manager * option error :=
  match vethLinks m !! vethName with
  | None => (m, None)
  | Some l =>
      let '(n, err) := link_Close (net m) l in
      match err with
      | Some x => (with_net m n, Some (ErrDetachVeth vethName x))
      | None => (with_vethLinks (with_net m n) (delete vethName (vethLinks m)), None)
      end
  end.

Context `{!GoRange}.

(** The loop of Close over the veth links: each is closed and deleted, errors are
    collected. *)
Fixpoint close_links (links : list (string * link_t)) (m : Manager) (errs : list error)
    : Manager * list error :=
  match links with
  | [] => (m, errs)
  | (name, l) :: links =>
      let '(n, err) := link_Close (net m) l in
      let errs := match err with Some x => errs ++ [ErrCloseVeth name x] | None => errs end in
      close_links links (with_vethLinks (with_net m n) (delete name (vethLinks m))) errs
  end.

Definition Manager_Close (m : Manager) : Manager * option error :=
  let '(m, errs) := close_links (range (vethLinks m)) m [] in
  let '(m, errs) :=
    match xdpLink m with
    | None => (m, errs)
    | Some l =>
        let '(n, err) := link_Close (net m) l in
        (with_net m n,
         match err with Some x => errs ++ [ErrDetachDocker0 x] | None => errs end)
    end in
  let '(n, err) := lbObjects_Close (net m) in
  let m := with_net m n in
  let errs := match err with Some x => errs ++ [ErrCloseObjects x] | None => errs end in
  (m, match errs with [] => None | _ => Some (ErrManagerClose errs) end).
End Manager.
