(* ===== verification/Pool.v ===== *)
(** * The backend pool (userspace/discovery/pool.go)

    [Sync] reconciles a discovered list of backends with the kernel through the
    [BPFUpdater] interface.  The interface is a type class here as it is a Go
    interface there; what its callers may rely on is stated as laws over an abstract
    view of the data plane ([UpdaterLaws]), and [Sync] is shown to refine an abstract
    reconciliation ([dp_sync]) for every implementation of the laws. *)

From S2P Require Import Prelude Types BpfMaps GoNet Manager.

(** ** Data (userspace/discovery/docker.go:17) *)

Record Backend := {
  ID : string;
  Name : string;
  BIP : IP;
  MAC : HardwareAddr;
  Port : Z;
  Healthy : bool;
  ContainerPID : Z;
  VethName : string;
  VethIdx : Z
}.

(** ** The BPFUpdater interface *)

Class BPFUpdater (T : Type) := {
  bu_UpdateBackend : T -> Z -> IP -> Z -> HardwareAddr -> T * option error;
  bu_ClearBackend : T -> Z -> IP -> T * option error;
  bu_UpdateConfig : T -> IP -> Z -> Z -> HardwareAddr -> T * option error;
  bu_AttachVethXDP : T -> string -> Z -> T * option error;
  bu_DetachVethXDP : T -> string -> T * option error
}.

(** ** The pool *)

Section Pool.
Context {T : Type} `{!BPFUpdater T, !GoRange}.

(** [byVeth] is a [map[string]bool] that only ever holds [true]: a set. *)
Record Pool := {
  bpfManager : T;
  backends : list Backend;
  byVeth : gset string;
  vip : IP;
  vport : Z;
  srcMAC : HardwareAddr
}.

Definition NewPool (t : T) (vip : IP) (vport : Z) (srcMAC : HardwareAddr) : Pool :=
  {| bpfManager := t; backends := []; byVeth := ∅; vip := vip; vport := vport;
     srcMAC := srcMAC |}.

(** What the body of Sync mutates before it commits: the manager, the set of
    attached veths and the local map [oldByVeth]. *)
Record sync_state := {
  ss_mgr : T;
  ss_byVeth : gset string;
  ss_old : gmap string Backend
}.

(** The map of old backends keyed by veth name; later entries win. *)
Definition build_oldByVeth (bs : list Backend) : gmap string Backend :=
  foldl (fun m b => <[VethName b := b]> m) ∅ bs.

(** The loop over the new backends, from index [i] on; [old] is [p.backends]. *)
Fixpoint write_loop (old : list Backend) (i : nat) (news : list Backend) (s : sync_state)
    : sync_state * option error :=
  match news with
  | [] => (s, None)
  | b :: news =>
      let t :=
        match old !! i with
        | Some o =>
            if IP_Equal (BIP o) (BIP b) then ss_mgr s
            else fst (bu_ClearBackend (ss_mgr s) (u32 (Z.of_nat i)) (BIP o))
        | None => ss_mgr s
        end in
      let '(t, err) := bu_UpdateBackend t (u32 (Z.of_nat i)) (BIP b) (Port b) (MAC b) in
      match err with
      | Some x =>
          ({| ss_mgr := t; ss_byVeth := ss_byVeth s; ss_old := ss_old s |},
           Some (ErrWriteBackend (Z.of_nat i) (Name b) x))
      | None =>
          if decide (VethName b ∈ ss_byVeth s) then
            write_loop old (S i) news
              {| ss_mgr := t; ss_byVeth := ss_byVeth s;
                 ss_old := delete (VethName b) (ss_old s) |}
          else
            let '(t, err) := bu_AttachVethXDP t (VethName b) (VethIdx b) in
            match err with
            | Some x =>
                ({| ss_mgr := t; ss_byVeth := ss_byVeth s; ss_old := ss_old s |},
                 Some (ErrAttachFor (Name b) (VethName b) x))
            | None =>
                write_loop old (S i) news
                  {| ss_mgr := t; ss_byVeth := {[VethName b]} ∪ ss_byVeth s;
                     ss_old := delete (VethName b) (ss_old s) |}
            end
      end
  end.

(** The loop that clears the indices past the end of the new list. *)
Fixpoint clear_loop (i : nat) (olds : list Backend) (t : T) : T * option error :=
  match olds with
  | [] => (t, None)
  | o :: olds =>
      let '(t, err) := bu_ClearBackend t (u32 (Z.of_nat i)) (BIP o) in
      match err with
      | Some x => (t, Some (ErrClearBackend (u32 (Z.of_nat i)) (Name o) x))
      | None => clear_loop (S i) olds t
      end
  end.

(** The loop that detaches the veths left in [oldByVeth]. *)
Fixpoint detach_loop (stale : list (string * Backend)) (t : T) (by_veth : gset string)
    : T * gset string * option error :=
  match stale with
  | [] => (t, by_veth, None)
  | (vethName, old) :: stale =>
      let '(t, err) := bu_DetachVethXDP t vethName in
      match err with
      | Some x => (t, by_veth, Some (ErrDetachFor (Name old) vethName x))
      | None => detach_loop stale t (by_veth ∖ {[vethName]})
      end
  end.

Definition with_mgr (p : Pool) (t : T) (by_veth : gset string) : Pool :=
  {| bpfManager := t; backends := backends p; byVeth := by_veth; vip := vip p;
     vport := vport p; srcMAC := srcMAC p |}.

Definition Sync (p : Pool) (newBackends : list Backend) : Pool * option error :=
  let '(s, err) :=
    write_loop (backends p) 0 newBackends
      {| ss_mgr := bpfManager p; ss_byVeth := byVeth p;
         ss_old := build_oldByVeth (backends p) |} in
  match err with
  | Some x => (with_mgr p (ss_mgr s) (ss_byVeth s), Some x)
  | None =>
      let '(t, err) :=
        clear_loop (length newBackends) (drop (length newBackends) (backends p)) (ss_mgr s) in
      match err with
      | Some x => (with_mgr p t (ss_byVeth s), Some x)
      | None =>
          let '(t, by_veth, err) := detach_loop (range (ss_old s)) t (ss_byVeth s) in
          match err with
          | Some x => (with_mgr p t by_veth, Some x)
          | None =>
              let '(t, err) :=
                bu_UpdateConfig t (vip p) (vport p)
                  (u32 (Z.of_nat (length newBackends))) (srcMAC p) in
              match err with
              | Some x => (with_mgr p t by_veth, Some (ErrUpdateConfig x))
              | None =>
                  ({| bpfManager := t; backends := newBackends; byVeth := by_veth;
                      vip := vip p; vport := vport p; srcMAC := srcMAC p |}, None)
              end
          end
      end
  end.

(** GetBackends: a copy of the slice, here the value itself. *)
Definition GetBackends (p : Pool) : list Backend := backends p.

(** ** What every call of Sync preserves

    [Sync] only acts on the manager through the interface, with the arguments below:
    a predicate that each of these calls preserves holds after [Sync], whether it
    returned an error or not.  The last call, [UpdateConfig], may establish another
    one. *)
Section Preserve.
Context (P Q : T -> Prop) (p : Pool) (new : list Backend).
Hypothesis Hupd : forall i b t, new !! i = Some b -> P t ->
  P (fst (bu_UpdateBackend t (u32 (Z.of_nat i)) (BIP b) (Port b) (MAC b))).
Hypothesis Hclr : forall i o t, backends p !! i = Some o -> P t ->
  P (fst (bu_ClearBackend t (u32 (Z.of_nat i)) (BIP o))).
Hypothesis Hatt : forall b t, b ∈ new -> P t ->
  P (fst (bu_AttachVethXDP t (VethName b) (VethIdx b))).
Hypothesis Hdet : forall name t, P t -> P (fst (bu_DetachVethXDP t name)).
Hypothesis Hcfg : forall t, P t ->
  Q (fst (bu_UpdateConfig t (vip p) (vport p) (u32 (Z.of_nat (length new))) (srcMAC p))).
Hypothesis HPQ : forall t, P t -> Q t.

Lemma write_loop_preserves news i s :
  drop i new = news -> P (ss_mgr s) ->
  P (ss_mgr (fst (write_loop (backends p) i news s))).
Proof.
  revert i s. induction news as [|b news IH]; intros i s Hnew HP; [done|].
  assert (new !! i = Some b) as Hi.
  { rewrite <-(Nat.add_0_r i), <-lookup_drop, Hnew. done. }
  rewrite (drop_S _ _ _ Hi) in Hnew. injection Hnew as Hnew. cbn [write_loop].
  set (t := match backends p !! i with Some _ => _ | None => _ end).
  assert (P t) as Ht.
  { unfold t. destruct (backends p !! i) as [o|] eqn:Ho; [|done].
    destruct (IP_Equal _ _); [done|by eapply Hclr]. }
  pose proof (Hupd i b t Hi Ht) as Hu.
  destruct (bu_UpdateBackend _ _ _ _ _) as [t1 [x|]]; [done|].
  destruct (decide _); [by apply IH|].
  pose proof (Hatt b t1 ltac:(by eapply list_elem_of_lookup_2) Hu) as Ha.
  destruct (bu_AttachVethXDP _ _ _) as [t2 [x|]]; [done|by apply IH].
Qed.

Lemma clear_loop_preserves olds i t :
  drop i (backends p) = olds -> P t -> P (fst (clear_loop i olds t)).
Proof.
  revert i t. induction olds as [|o olds IH]; intros i t Hold HP; [done|].
  assert (backends p !! i = Some o) as Hi.
  { rewrite <-(Nat.add_0_r i), <-lookup_drop, Hold. done. }
  rewrite (drop_S _ _ _ Hi) in Hold. injection Hold as Hold. cbn [clear_loop].
  pose proof (Hclr i o t Hi HP) as Hc.
  destruct (bu_ClearBackend _ _ _) as [t1 [x|]]; [done|by apply IH].
Qed.

Lemma detach_loop_preserves stale t bv :
  P t -> P (fst (fst (detach_loop stale t bv))).
Proof.
  revert t bv. induction stale as [|[n o] stale IH]; intros t bv HP; [done|].
  cbn [detach_loop]. pose proof (Hdet n t HP) as Hd.
  destruct (bu_DetachVethXDP _ _) as [t1 [x|]]; [done|by apply IH].
Qed.

(** Where [Sync] ends: before the last call with an error, or with the last call. *)
Lemma Sync_outcome :
  P (bpfManager p) ->
  let q := fst (Sync p new) in
  exists t, P t /\
  ((bpfManager q = t /\ is_Some (snd (Sync p new)) /\ backends q = backends p) \/
   exists r, bu_UpdateConfig t (vip p) (vport p) (u32 (Z.of_nat (length new))) (srcMAC p)
             = (bpfManager q, r) /\
     match r with
     | Some _ => is_Some (snd (Sync p new)) /\ backends q = backends p
     | None => snd (Sync p new) = None /\ backends q = new
     end).
Proof.
  intros HP. unfold Sync.
  pose proof (write_loop_preserves new 0 {| ss_mgr := bpfManager p; ss_byVeth := byVeth p;
    ss_old := build_oldByVeth (backends p) |} (drop_0 _) HP) as Hw.
  destruct (write_loop _ _ _ _) as [s [x|]]; [by exists (ss_mgr s); eauto|].
  pose proof (clear_loop_preserves _ (length new) (ss_mgr s) eq_refl Hw) as Hc.
  destruct (clear_loop _ _ _) as [t1 [x|]]; [by exists t1; eauto|].
  pose proof (detach_loop_preserves (range (ss_old s)) t1 (ss_byVeth s) Hc) as Hd.
  destruct (detach_loop _ _ _) as [[t2 bv] [x|]]; [by exists t2; eauto|].
  exists t2. split; [done|]. right.
  destruct (bu_UpdateConfig _ _ _ _ _) as [t3 [x|]]; eexists; split; [done|by eauto|done|done].
Qed.

Lemma Sync_preserves : P (bpfManager p) -> Q (bpfManager (fst (Sync p new))).
Proof.
  intros HP. destruct (Sync_outcome HP) as (t & Ht & [(-> & _)|(r & Hr & _)]); [by apply HPQ|].
  specialize (Hcfg t Ht). by rewrite Hr in Hcfg.
Qed.
End Preserve.
End Pool.
Arguments Pool : clear implicits.
Arguments sync_state : clear implicits.
