(* ===== verification/Simulate.v ===== *)
(** * Reconciliation on two related updaters

    [Sync] reaches its updater only through the interface [BPFUpdater].  If two updaters
    are related by [R], and each call of the interface keeps them related and returns the
    same error on both sides, then so does [Sync]: the two runs report the same error, make
    the same snapshot and record of veths, and end in related updaters.  Recording the
    states ([Interleave]) and letting packets arrive between the calls ([Busy]) are
    instances. *)

From S2P Require Import Prelude Types GoNet Manager Pool.

(** The same pool on another updater. *)
Definition map_pool {A B} (f : A -> B) (p : Pool A) : Pool B :=
  {| bpfManager := f (bpfManager p); backends := backends p; byVeth := byVeth p;
     vip := vip p; vport := vport p; srcMAC := srcMAC p |}.

(** The outcomes of one call on both sides. *)
Definition sim_result {A B} (R : A -> B -> Prop) (x : A * option error) (y : B * option error)
    : Prop := R (fst x) (fst y) /\ snd x = snd y.

(** The contract between two updaters. *)
Class UpdaterSim {A B} `{!BPFUpdater A, !BPFUpdater B} (R : A -> B -> Prop) : Prop := {
  sim_update x y i ip port mac : R x y ->
    sim_result R (bu_UpdateBackend x i ip port mac) (bu_UpdateBackend y i ip port mac);
  sim_clear x y i ip : R x y ->
    sim_result R (bu_ClearBackend x i ip) (bu_ClearBackend y i ip);
  sim_config x y ip port n mac : R x y ->
    sim_result R (bu_UpdateConfig x ip port n mac) (bu_UpdateConfig y ip port n mac);
  sim_attach x y name i : R x y ->
    sim_result R (bu_AttachVethXDP x name i) (bu_AttachVethXDP y name i);
  sim_detach x y name : R x y ->
    sim_result R (bu_DetachVethXDP x name) (bu_DetachVethXDP y name)
}.

Section Simulate.
Context {A B : Type} `{!BPFUpdater A, !BPFUpdater B, !GoRange}.
Context (R : A -> B -> Prop) `{!UpdaterSim R}.

Definition sim_state (s : sync_state A) (s' : sync_state B) : Prop :=
  R (ss_mgr s) (ss_mgr s') /\ ss_byVeth s = ss_byVeth s' /\ ss_old s = ss_old s'.

(** Pools that differ in related updaters only. *)
Definition sim_pool (p : Pool A) (q : Pool B) : Prop :=
  R (bpfManager p) (bpfManager q) /\
  backends p = backends q /\ byVeth p = byVeth q /\
  vip p = vip q /\ vport p = vport q /\ srcMAC p = srcMAC q.

(** Take both sides through the same call: [HR] relates the results, [r] is the error. *)
Ltac sim_step call HR r :=
  let Hc := fresh in let He := fresh in let x := fresh "x" in let y := fresh "y" in
  let r' := fresh in
  pose proof call as Hc;
  match type of Hc with
  | sim_result _ ?f ?g =>
      destruct Hc as [HR He]; destruct f as [x r], g as [y r'];
      cbn [fst snd] in HR, He; subst r'
  end.

Lemma write_loop_sim old i news s s' :
  sim_state s s' ->
  sim_state (fst (write_loop old i news s)) (fst (write_loop old i news s')) /\
  snd (write_loop old i news s) = snd (write_loop old i news s').
Proof.
  revert i s s'. induction news as [|b news IH]; intros i s s' (Hm & Hv & Ho); [done|].
  cbn [write_loop].
  set (x := match old !! i with Some _ => _ | None => ss_mgr s end).
  set (y := match old !! i with Some _ => _ | None => ss_mgr s' end).
  assert (R x y) as Hxy.
  { unfold x, y. destruct (old !! i) as [o|]; [|done].
    destruct (IP_Equal _ _); [done|]. by apply (sim_clear (R := R)). }
  sim_step (sim_update x y (u32 (Z.of_nat i)) (BIP b) (Port b) (MAC b) Hxy) H1 r1.
  destruct r1 as [err|]; [by split|]. rewrite Hv.
  destruct (decide _); [apply IH; by rewrite Ho|].
  sim_step (sim_attach _ _ (VethName b) (VethIdx b) H1) H2 r2.
  destruct r2 as [err|]; [by split|]. apply IH. by rewrite Ho.
Qed.

Lemma clear_loop_sim i olds x y :
  R x y -> sim_result R (clear_loop i olds x) (clear_loop i olds y).
Proof.
  revert i x y. induction olds as [|o olds IH]; intros i x y Hxy; [done|]. cbn [clear_loop].
  sim_step (sim_clear x y (u32 (Z.of_nat i)) (BIP o) Hxy) H1 r1.
  destruct r1 as [err|]; [done|by apply IH].
Qed.

Lemma detach_loop_sim stale x y bv :
  R x y ->
  R (fst (fst (detach_loop stale x bv))) (fst (fst (detach_loop stale y bv))) /\
  snd (fst (detach_loop stale x bv)) = snd (fst (detach_loop stale y bv)) /\
  snd (detach_loop stale x bv) = snd (detach_loop stale y bv).
Proof.
  revert x y bv. induction stale as [|[n o] stale IH]; intros x y bv Hxy; [done|].
  cbn [detach_loop]. sim_step (sim_detach x y n Hxy) H1 r1.
  destruct r1 as [err|]; [done|by apply IH].
Qed.

Lemma Sync_sim p q new :
  sim_pool p q ->
  sim_pool (fst (Sync p new)) (fst (Sync q new)) /\ snd (Sync p new) = snd (Sync q new).
Proof.
  intros (Hm & Hb & Hv & Hvip & Hvp & Hmac). unfold Sync. rewrite <-Hb, <-Hv, <-Hvip, <-Hvp, <-Hmac.
  set (s := {| ss_mgr := bpfManager p; ss_byVeth := _; ss_old := _ |}).
  set (s' := {| ss_mgr := bpfManager q; ss_byVeth := _; ss_old := _ |}).
  destruct (write_loop_sim (backends p) 0 new s s') as [(H1 & Hv1 & Ho1) He]; [done|].
  destruct (write_loop (backends p) 0 new s) as [s1 r1],
    (write_loop (backends p) 0 new s') as [s1' r1']. cbn in H1, Hv1, Ho1, He. subst r1'.
  destruct r1 as [err|]; [by rewrite Hv1|].
  sim_step (clear_loop_sim (length new) (drop (length new) (backends p)) _ _ H1) H2 r2.
  destruct r2 as [err|]; [by rewrite Hv1|].
  rewrite Ho1, Hv1.
  destruct (detach_loop_sim (range (ss_old s1')) _ _ (ss_byVeth s1') H2) as (H3 & Hv3 & He).
  destruct (detach_loop _ x _) as [[x3 bv] r3], (detach_loop _ y _) as [[y3 bv'] r3'].
  cbn in H3, Hv3, He. subst bv' r3'. destruct r3 as [err|]; [done|].
  sim_step (sim_config x3 y3 (vip p) (vport p) (u32 (Z.of_nat (length new))) (srcMAC p) H3)
    H4 r4.
  by destruct r4.
Qed.
End Simulate.

(** A functional relation: the second pool is the image of the first. *)
Lemma sim_pool_map {A B} (f : A -> B) p q : sim_pool (fun x y => f x = y) p q -> map_pool f p = q.
Proof.
  destruct p, q. unfold sim_pool, map_pool. cbn. intros (-> & -> & -> & -> & -> & ->). done.
Qed.
