(* ===== verification/PoolTest.v ===== *)
(** * The unit test of the pool (userspace/discovery/pool_test.go)

    The mock of the test is another implementation of [BPFUpdater]: it records the calls and
    never fails.  The test's steps are run on the model and its assertions hold, for every
    iteration order of Go's maps.  The test says less than the theorems on [Sync] (it does not
    look at the reverse table); it is a check that the model agrees with what the authors
    expect. *)

From S2P Require Import Prelude Types GoNet GoStrings Manager Pool.

(** The maps of the mock; a Go map that is assigned to. *)
Record mockBPFManager := {
  updatedBackends : gmap Z IP;
  clearedBackends : gmap Z IP;
  attachedVeths : gmap string Z;
  detachedVeths : gmap string bool;
  configUpdates : Z
}.

Definition newMockBPFManager : mockBPFManager :=
  {| updatedBackends := ∅; clearedBackends := ∅; attachedVeths := ∅; detachedVeths := ∅;
     configUpdates := 0 |}.

#[export] Instance mock_updater : BPFUpdater mockBPFManager := {|
  bu_UpdateBackend m idx ip port mac :=
    ({| updatedBackends := <[idx := ip]> (updatedBackends m);
        clearedBackends := clearedBackends m; attachedVeths := attachedVeths m;
        detachedVeths := detachedVeths m; configUpdates := configUpdates m |}, None);
  bu_ClearBackend m idx ip :=
    ({| updatedBackends := updatedBackends m;
        clearedBackends := <[idx := ip]> (clearedBackends m);
        attachedVeths := attachedVeths m; detachedVeths := detachedVeths m;
        configUpdates := configUpdates m |}, None);
  bu_UpdateConfig m vip vport n mac :=
    ({| updatedBackends := updatedBackends m; clearedBackends := clearedBackends m;
        attachedVeths := attachedVeths m; detachedVeths := detachedVeths m;
        configUpdates := configUpdates m + 1 |}, None);
  bu_AttachVethXDP m name idx :=
    ({| updatedBackends := updatedBackends m; clearedBackends := clearedBackends m;
        attachedVeths := <[name := idx]> (attachedVeths m);
        detachedVeths := detachedVeths m; configUpdates := configUpdates m |}, None);
  bu_DetachVethXDP m name :=
    ({| updatedBackends := updatedBackends m; clearedBackends := clearedBackends m;
        attachedVeths := attachedVeths m;
        detachedVeths := <[name := true]> (detachedVeths m);
        configUpdates := configUpdates m |}, None)
|}.

(** ** TestPool_Sync *)

Definition test_ip (s : string) : IP := default [] (ParseIP s).
Definition test_mac : HardwareAddr := default [] (ParseMAC "02:42:0a:00:00:01").

Definition test_backend (id name ip veth : string) (idx : Z) : Backend :=
  {| ID := id; Name := name; BIP := test_ip ip; MAC := test_mac; Port := 80;
     Healthy := false; ContainerPID := 0; VethName := veth; VethIdx := idx |}.
Definition container1 : Backend := test_backend "container1" "app1" "10.0.0.2" "veth1" 10.
Definition container2 : Backend := test_backend "container2" "app2" "10.0.0.3" "veth2" 11.
Definition container3 : Backend := test_backend "container3" "app3" "10.0.0.4" "veth3" 12.

Section Test.
Context `{!GoRange}.

Definition test_pool : Pool mockBPFManager :=
  NewPool newMockBPFManager (test_ip "10.0.0.100") 8080 test_mac.
Definition first_sync : Pool mockBPFManager * option error :=
  Sync test_pool [container1; container2].
Definition second_sync : Pool mockBPFManager * option error :=
  Sync (fst first_sync) [container1; container3].

(** Ranging over a map with one key. *)
Lemma range_singleton {V} (k : string) (v : V) : range {[k := v]} = [(k, v)].
Proof.
  apply Permutation_singleton_r. by rewrite range_perm, map_to_list_singleton.
Qed.

Lemma range_empty {V} : range (∅ : gmap string V) = [].
Proof. apply Permutation_nil_r. by rewrite range_perm, map_to_list_empty. Qed.

(** A reconciliation on the mock, by what its loops leave. *)
Lemma mock_sync (p : Pool mockBPFManager) new old stale s t :
  write_loop (backends p) 0 new {| ss_mgr := bpfManager p; ss_byVeth := byVeth p;
    ss_old := build_oldByVeth (backends p) |} = (s, None) ->
  clear_loop (length new) (drop (length new) (backends p)) (ss_mgr s) = (t, None) ->
  ss_old s = old -> range old = stale ->
  Sync p new =
    let '(t, bv, _) := detach_loop stale t (ss_byVeth s) in
    ({| bpfManager := fst (bu_UpdateConfig t (vip p) (vport p) (u32 (Z.of_nat (length new)))
                             (srcMAC p));
        backends := new; byVeth := bv; vip := vip p; vport := vport p; srcMAC := srcMAC p |},
     None).
Proof.
  intros Hw Hc <- <-. unfold Sync. rewrite Hw, Hc.
  assert (forall stale t bv, snd (detach_loop (T := mockBPFManager) stale t bv) = None) as Hd.
  { clear. induction stale as [|[n o] stale IH]; intros t bv; [done|apply IH]. }
  specialize (Hd (range (ss_old s)) t (ss_byVeth s)).
  destruct (detach_loop _ _ _) as [[t' bv] r]. cbn in *. by subst r.
Qed.

Definition after_first : Pool mockBPFManager :=
  {| bpfManager :=
       {| updatedBackends := {[0 := BIP container1; 1 := BIP container2]};
          clearedBackends := ∅;
          attachedVeths := {["veth1" := 10; "veth2" := 11]};
          detachedVeths := ∅; configUpdates := 1 |};
     backends := [container1; container2]; byVeth := {["veth2"; "veth1"]};
     vip := test_ip "10.0.0.100"; vport := 8080; srcMAC := test_mac |}.

Lemma first_sync_eq : first_sync = (after_first, None).
Proof.
  unfold first_sync.
  erewrite (mock_sync _ _ ∅ []); [|vm_compute; reflexivity..|apply range_empty].
  vm_compute. reflexivity.
Qed.

Definition after_second : mockBPFManager :=
  {| updatedBackends := {[0 := BIP container1; 1 := BIP container3]};
     clearedBackends := {[1 := BIP container2]};
     attachedVeths := {["veth1" := 10; "veth2" := 11; "veth3" := 12]};
     detachedVeths := {["veth2" := true]}; configUpdates := 2 |}.

Lemma second_sync_eq :
  bpfManager (fst second_sync) = after_second /\ snd second_sync = None.
Proof.
  unfold second_sync. rewrite first_sync_eq.
  erewrite (mock_sync _ _ {["veth2" := container2]} [("veth2", container2)]);
    [|vm_compute; reflexivity..|apply range_singleton].
  vm_compute. done.
Qed.

(** The assertions of the test, in its order; [default] reads a missing key as Go does. *)
Theorem TestPool_Sync :
  let m1 := bpfManager (fst first_sync) in
  let m2 := bpfManager (fst second_sync) in
  snd first_sync = None /\ size (updatedBackends m1) = 2%nat /\
  default 0 (attachedVeths m1 !! "veth1") = 10 /\
  default 0 (attachedVeths m1 !! "veth2") = 11 /\
  configUpdates m1 = 1 /\ length (GetBackends (fst first_sync)) = 2%nat /\
  snd second_sync = None /\ size (clearedBackends m2) = 1%nat /\
  is_Some (clearedBackends m2 !! 1) /\
  default false (detachedVeths m2 !! "veth2") = true /\
  default 0 (attachedVeths m2 !! "veth3") = 12 /\ configUpdates m2 = 2.
Proof.
  destruct second_sync_eq as [-> ->]. rewrite first_sync_eq.
  split_and!; vm_compute; eauto.
Qed.
End Test.
