(* ===== verification/Reconcile.v ===== *)
(** * The reconciliation contract

    An abstract view of the data plane (forward table, reverse table, configuration,
    attached veths), the contract of [BPFUpdater] over it, and the refinement: a
    successful [Sync] has exactly the effect of [dp_sync] on the view, and a failed one
    leaves the configuration and the pool's snapshot alone. *)

From S2P Require Import Prelude Types BpfMaps GoNet Manager Pool.

(** Adding the new and removing the stale leaves the new. *)
Lemma union_difference_stale (A B : gset string) : (A ∪ B) ∖ (A ∖ B) = B.
Proof.
  apply set_eq. intros x. rewrite !elem_of_difference, elem_of_union.
  destruct (decide (x ∈ B)); tauto.
Qed.

(** In general, what was there and is not stale stays too. *)
Lemma union_difference_left_over (C A B : gset string) : (C ∪ B) ∖ (A ∖ B) = B ∪ C ∖ A.
Proof.
  apply set_eq. intros x. rewrite !elem_of_difference, !elem_of_union, !elem_of_difference.
  destruct (decide (x ∈ B)); tauto.
Qed.

(** ** The abstract data plane *)

Record dp := {
  d_fwd : Z -> option backend_info;   (** backend_map *)
  d_rev : Z -> option Z;              (** backend_ips_map *)
  d_cfg : option lb_config;           (** config_map[0] *)
  d_veths : gset string               (** veths the updater has attached *)
}.

(** Two views are equivalent when no lookup tells them apart. *)
#[export] Instance dp_equiv : Equiv dp := fun d d' =>
  (forall k, d_fwd d k = d_fwd d' k) /\ (forall k, d_rev d k = d_rev d' k) /\
  d_cfg d = d_cfg d' /\ d_veths d = d_veths d'.

#[export] Instance dp_equivalence : Equivalence (≡@{dp}).
Proof.
  split.
  - intros d. done.
  - intros d d' (? & ? & ? & ?). split_and!; by auto.
  - intros d d' d'' (Hf & Hr & ? & ?) (Hf' & Hr' & ? & ?).
    split_and!; congruence.
Qed.

Definition upd {A} (f : Z -> A) (k : Z) (v : A) (j : Z) : A :=
  if decide (j = k) then v else f j.

Lemma upd_eq {A} (f : Z -> A) k v : upd f k v k = v.
Proof. unfold upd. by rewrite decide_True. Qed.
Lemma upd_ne {A} (f : Z -> A) k v j : j <> k -> upd f k v j = f j.
Proof. intros. unfold upd. by rewrite decide_False. Qed.

(** The veths of a list of backends. *)
Definition veths_of (bs : list Backend) : gset string := list_to_set (map VethName bs).

Section Ops.
Context (e : endian).

(** The reverse-table key of an address. *)
Definition ip_key (ip : IP) : option Z := NativeEndian_Uint32 e <$> To4 ip.

Definition dp_update (i : Z) (v4 : IP) (port : Z) (mac : HardwareAddr) (d : dp) : dp :=
  {| d_fwd := upd (d_fwd d) i (Some (mk_backend e v4 port mac));
     d_rev := upd (d_rev d) (NativeEndian_Uint32 e v4) (Some i);
     d_cfg := d_cfg d; d_veths := d_veths d |}.

Definition dp_clear (i : Z) (ip : IP) (d : dp) : dp :=
  {| d_fwd := upd (d_fwd d) i (Some backend_info_zero);
     d_rev := match ip_key ip with Some k => upd (d_rev d) k None | None => d_rev d end;
     d_cfg := d_cfg d; d_veths := d_veths d |}.

Definition dp_config (c : lb_config) (d : dp) : dp :=
  {| d_fwd := d_fwd d; d_rev := d_rev d; d_cfg := Some c; d_veths := d_veths d |}.

Definition dp_set_veths (v : gset string) (d : dp) : dp :=
  {| d_fwd := d_fwd d; d_rev := d_rev d; d_cfg := d_cfg d; d_veths := v |}.

#[export] Instance dp_update_proper i v4 port mac :
  Proper ((≡) ==> (≡)) (dp_update i v4 port mac).
Proof.
  intros d d' (Hf & Hr & ? & ?). split_and!; simpl; try done;
    intros k; unfold upd; by case_decide.
Qed.
#[export] Instance dp_clear_proper i ip : Proper ((≡) ==> (≡)) (dp_clear i ip).
Proof.
  intros d d' (Hf & Hr & ? & ?). split_and!; simpl; try done; intros k; unfold upd.
  - by case_decide.
  - destruct (ip_key ip); [by case_decide|done].
Qed.
#[export] Instance dp_config_proper c : Proper ((≡) ==> (≡)) (dp_config c).
Proof. intros d d' (Hf & Hr & ? & ?). done. Qed.
#[export] Instance dp_set_veths_proper : Proper ((=) ==> (≡) ==> (≡)) dp_set_veths.
Proof. intros v ? <- d d' (Hf & Hr & ? & ?). done. Qed.
#[export] Instance d_veths_proper : Proper ((≡) ==> (=)) d_veths.
Proof. intros d d' (_ & _ & _ & ?). done. Qed.
#[export] Instance d_cfg_proper : Proper ((≡) ==> (=)) d_cfg.
Proof. intros d d' (_ & _ & ? & _). done. Qed.

(** ** The abstract reconciliation *)

Definition idx (i : nat) : Z := u32 (Z.of_nat i).

Definition dp_put (i : nat) (b : Backend) (d : dp) : dp :=
  match To4 (BIP b) with
  | Some v4 => dp_update (idx i) v4 (Port b) (MAC b) d
  | None => d
  end.

(** If another address used index [i], its entries go first. *)
Definition dp_replace (old : list Backend) (i : nat) (b : Backend) (d : dp) : dp :=
  match old !! i with
  | Some o => if IP_Equal (BIP o) (BIP b) then d else dp_clear (idx i) (BIP o) d
  | None => d
  end.

Fixpoint dp_writes (old : list Backend) (i : nat) (news : list Backend) (d : dp) : dp :=
  match news with
  | [] => d
  | b :: news => dp_writes old (S i) news (dp_put i b (dp_replace old i b d))
  end.

Fixpoint dp_clears (i : nat) (olds : list Backend) (d : dp) : dp :=
  match olds with
  | [] => d
  | o :: olds => dp_clears (S i) olds (dp_clear (idx i) (BIP o) d)
  end.

(** Entries, then stale entries, then veths, then the configuration. *)
Definition dp_sync (c : lb_config) (old new : list Backend) (d : dp) : dp :=
  dp_config c
    (dp_set_veths ((d_veths d ∪ veths_of new) ∖ (veths_of old ∖ veths_of new))
       (dp_clears (length new) (drop (length new) old) (dp_writes old 0 new d))).

#[export] Instance dp_put_proper i b : Proper ((≡) ==> (≡)) (dp_put i b).
Proof. intros d d' Hd. unfold dp_put. destruct (To4 (BIP b)); [by rewrite Hd|done]. Qed.
#[export] Instance dp_replace_proper old i b : Proper ((≡) ==> (≡)) (dp_replace old i b).
Proof.
  intros d d' Hd. unfold dp_replace. destruct (old !! i) as [o|]; [|done].
  destruct (IP_Equal _ _); [done|by rewrite Hd].
Qed.
#[export] Instance dp_writes_proper old i news : Proper ((≡) ==> (≡)) (dp_writes old i news).
Proof.
  revert i. induction news as [|b news IH]; intros i d d' Hd; simpl; [done|].
  apply IH. by rewrite Hd.
Qed.
#[export] Instance dp_clears_proper i olds : Proper ((≡) ==> (≡)) (dp_clears i olds).
Proof.
  revert i. induction olds as [|o olds IH]; intros i d d' Hd; simpl; [done|].
  apply IH. by rewrite Hd.
Qed.

Lemma dp_put_veths i b d : d_veths (dp_put i b d) = d_veths d.
Proof. unfold dp_put. by destruct (To4 _). Qed.
Lemma dp_replace_veths old i b d : d_veths (dp_replace old i b d) = d_veths d.
Proof. unfold dp_replace. destruct (old !! i); [|done]. by destruct (IP_Equal _ _). Qed.
Lemma dp_writes_veths old i news d : d_veths (dp_writes old i news d) = d_veths d.
Proof.
  revert i d. induction news as [|b news IH]; intros i d; simpl; [done|].
  by rewrite IH, dp_put_veths, dp_replace_veths.
Qed.
Lemma dp_clears_veths i olds d : d_veths (dp_clears i olds d) = d_veths d.
Proof. revert i d. induction olds as [|o olds IH]; intros i d; simpl; [done|]. by rewrite IH. Qed.
End Ops.

(** ** The contract of BPFUpdater *)

(** A failed update may at most have written its forward entry. *)
Definition partial_update (e : endian) (i : Z) (ip : IP) (port : Z) (mac : HardwareAddr)
    (d d' : dp) : Prop :=
  (forall k, d_fwd d' k = d_fwd d k \/
     (k = i /\ exists v4, To4 ip = Some v4 /\ d_fwd d' k = Some (mk_backend e v4 port mac))) /\
  (forall k, d_rev d' k = d_rev d k) /\ d_cfg d' = d_cfg d /\ d_veths d' = d_veths d.

Class UpdaterLaws (T : Type) `{!BPFUpdater T} (e : endian) := {
  view : T -> dp;
  update_ok t i ip port mac t' :
    bu_UpdateBackend t i ip port mac = (t', None) ->
    exists v4, To4 ip = Some v4 /\ view t' ≡ dp_update e i v4 port mac (view t);
  update_err t i ip port mac t' x :
    bu_UpdateBackend t i ip port mac = (t', Some x) ->
    partial_update e i ip port mac (view t) (view t');
  clear_ok t i ip t' :
    bu_ClearBackend t i ip = (t', None) -> view t' ≡ dp_clear e i ip (view t);
  clear_err t i ip t' x : bu_ClearBackend t i ip = (t', Some x) -> view t' ≡ view t;
  (** a slot that cannot be cleared cannot be written either *)
  clear_err_update t i ip t' x ip' port mac :
    bu_ClearBackend t i ip = (t', Some x) -> snd (bu_UpdateBackend t' i ip' port mac) <> None;
  config_ok t ip port n mac t' :
    bu_UpdateConfig t ip port n mac = (t', None) ->
    view t' ≡ dp_config (mk_config e ip port n mac) (view t);
  config_err t ip port n mac t' x :
    bu_UpdateConfig t ip port n mac = (t', Some x) -> view t' ≡ view t;
  veth_attach_ok t name i t' :
    bu_AttachVethXDP t name i = (t', None) ->
    view t' ≡ dp_set_veths ({[name]} ∪ d_veths (view t)) (view t);
  veth_attach_err t name i t' x :
    bu_AttachVethXDP t name i = (t', Some x) -> view t' ≡ view t;
  veth_detach_ok t name t' :
    bu_DetachVethXDP t name = (t', None) ->
    view t' ≡ dp_set_veths (d_veths (view t) ∖ {[name]}) (view t);
  veth_detach_err t name t' x :
    bu_DetachVethXDP t name = (t', Some x) -> view t' ≡ view t
}.

(** ** Sync refines dp_sync *)

Section Refine.
Context {T : Type} `{!BPFUpdater T, !GoRange} (e : endian) `{!UpdaterLaws T e}.

(** What no step of the reconciliation but the last touches. *)
Definition keeps_cfg (t t' : T) : Prop := d_cfg (view t') = d_cfg (view t).

(** The pool's own record of attached veths agrees with the data plane. *)
Definition veths_agree (t : T) (by_veth : gset string) : Prop := by_veth = d_veths (view t).

Lemma clear_frame t i ip t' r :
  bu_ClearBackend t i ip = (t', r) ->
  keeps_cfg t t' /\ d_veths (view t') = d_veths (view t).
Proof.
  unfold keeps_cfg. destruct r as [x|].
  - intros (_ & _ & ? & ?)%clear_err. done.
  - intros (_ & _ & ? & ?)%clear_ok. done.
Qed.

Lemma update_frame t i ip port mac t' r :
  bu_UpdateBackend t i ip port mac = (t', r) ->
  keeps_cfg t t' /\ d_veths (view t') = d_veths (view t).
Proof.
  unfold keeps_cfg. destruct r as [x|].
  - intros (_ & _ & ? & ?)%update_err. done.
  - intros (v4 & _ & _ & _ & ? & ?)%update_ok. done.
Qed.

(** The manager after the optional clear at the head of the write loop. *)
Definition replace_step (old : list Backend) (i : nat) (b : Backend) (t : T) : T :=
  match old !! i with
  | Some o =>
      if IP_Equal (BIP o) (BIP b) then t
      else fst (bu_ClearBackend t (u32 (Z.of_nat i)) (BIP o))
  | None => t
  end.

Lemma replace_step_frame old i b t :
  keeps_cfg t (replace_step old i b t) /\
  d_veths (view (replace_step old i b t)) = d_veths (view t).
Proof.
  unfold replace_step. destruct (old !! i) as [o|]; [|done].
  destruct (IP_Equal _ _); [done|].
  destruct (bu_ClearBackend _ _ _) as [t' r] eqn:Hc. by eapply clear_frame.
Qed.

(** The clear and the update together, when the update succeeds. *)
Lemma write_step_ok old i b t t' :
  bu_UpdateBackend (replace_step old i b t) (u32 (Z.of_nat i)) (BIP b) (Port b) (MAC b)
    = (t', None) ->
  view t' ≡ dp_put e i b (dp_replace e old i b (view t)).
Proof.
  intros Hu. pose proof Hu as (v4 & Hv4 & Hview)%update_ok.
  unfold dp_put. rewrite Hv4, Hview. f_equiv. unfold replace_step, dp_replace in *.
  destruct (old !! i) as [o|]; [|done]. destruct (IP_Equal _ _); [done|].
  destruct (bu_ClearBackend _ _ _) as [tc [x|]] eqn:Hc; simpl in *.
  - exfalso. eapply clear_err_update; [done|]. by erewrite Hu.
  - by apply clear_ok.
Qed.

Lemma dp_writes_set_veths old i news v d :
  dp_writes e old i news (dp_set_veths v d) = dp_set_veths v (dp_writes e old i news d).
Proof.
  revert i d. induction news as [|b news IH]; intros i d; simpl; [done|].
  rewrite <-IH. f_equal. unfold dp_put, dp_replace.
  destruct (To4 _), (old !! i) as [o|]; try destruct (IP_Equal _ _); done.
Qed.

Lemma dp_clears_set_veths i olds v d :
  dp_clears e i olds (dp_set_veths v d) = dp_set_veths v (dp_clears e i olds d).
Proof.
  revert i d. induction olds as [|o olds IH]; intros i d; simpl; [done|]. by rewrite <-IH.
Qed.

Lemma dp_set_veths_twice v w d : dp_set_veths v (dp_set_veths w d) = dp_set_veths v d.
Proof. done. Qed.

Lemma dp_set_veths_id d : dp_set_veths (d_veths d) d ≡ d.
Proof. done. Qed.

Lemma veths_of_cons b bs : veths_of (b :: bs) = {[VethName b]} ∪ veths_of bs.
Proof. done. Qed.

(** The write loop: on success the abstract writes; in any case the configuration is
    untouched and the record of attached veths is right. *)
Lemma write_loop_frame old i news s s' r :
  write_loop old i news s = (s', r) ->
  veths_agree (ss_mgr s) (ss_byVeth s) ->
  keeps_cfg (ss_mgr s) (ss_mgr s') /\ veths_agree (ss_mgr s') (ss_byVeth s').
Proof.
  unfold veths_agree, keeps_cfg. revert i s.
  induction news as [|b news IH]; intros i s Hw Hv; simpl in Hw; [by simplify_eq|].
  destruct (replace_step_frame old i b (ss_mgr s)) as [Hc0 Hv0]. unfold keeps_cfg in Hc0.
  fold (replace_step old i b (ss_mgr s)) in Hw.
  destruct (bu_UpdateBackend _ _ _ _ _) as [t1 [x|]] eqn:Hu;
    apply update_frame in Hu as [Hc1 Hv1]; unfold keeps_cfg in Hc1.
  { simplify_eq/=. split; congruence. }
  destruct (decide (VethName b ∈ ss_byVeth s)).
  { apply IH in Hw as [? ?]; simpl in *; [split|]; congruence. }
  destruct (bu_AttachVethXDP _ _ _) as [t2 [x|]] eqn:Ha.
  - apply veth_attach_err in Ha as (_ & _ & Hc2 & Hv2). simplify_eq/=. split; congruence.
  - apply veth_attach_ok in Ha as (_ & _ & Hc2 & Hv2). simpl in Hc2, Hv2.
    apply IH in Hw as [? ?]; simpl in *; [split|]; congruence.
Qed.

Lemma write_loop_ok old i news s s' :
  write_loop old i news s = (s', None) ->
  veths_agree (ss_mgr s) (ss_byVeth s) ->
  view (ss_mgr s') ≡ dp_set_veths (d_veths (view (ss_mgr s)) ∪ veths_of news)
                       (dp_writes e old i news (view (ss_mgr s))) /\
  forall k, ss_old s' !! k = if decide (k ∈ veths_of news) then None else ss_old s !! k.
Proof.
  unfold veths_agree. revert i s.
  induction news as [|b news IH]; intros i s Hw Hv; simpl in Hw.
  { simplify_eq. split; [|done]. simpl. unfold veths_of. simpl.
    by rewrite union_empty_r_L. }
  fold (replace_step old i b (ss_mgr s)) in Hw.
  destruct (replace_step_frame old i b (ss_mgr s)) as [_ Hv0].
  destruct (bu_UpdateBackend _ _ _ _ _) as [t1 [x|]] eqn:Hu; [done|].
  pose proof (write_step_ok _ _ _ _ _ Hu) as Hstep.
  apply update_frame in Hu as [_ Hv1].
  assert (forall t2 bv old', view t2 ≡ dp_set_veths ({[VethName b]} ∪ d_veths (view t1)) (view t1) ->
    write_loop old (S i) news {| ss_mgr := t2; ss_byVeth := bv; ss_old := old' |} = (s', None) ->
    bv = d_veths (view t2) -> old' = delete (VethName b) (ss_old s) ->
    view (ss_mgr s') ≡ dp_set_veths (d_veths (view (ss_mgr s)) ∪ veths_of (b :: news))
                         (dp_writes e old i (b :: news) (view (ss_mgr s))) /\
    forall k, ss_old s' !! k =
      if decide (k ∈ veths_of (b :: news)) then None else ss_old s !! k) as Hnext.
  { intros t2 bv old' Ht2 Hw2 Hbv ->. apply IH in Hw2 as [Hview Hold]; [|done]. simpl in *.
    split.
    - rewrite Hview, Ht2, dp_writes_set_veths, dp_set_veths_twice, Hstep.
      cbn [d_veths dp_set_veths]. rewrite dp_put_veths, dp_replace_veths, veths_of_cons.
      by replace ({[VethName b]} ∪ d_veths (view (ss_mgr s)) ∪ veths_of news)
        with (d_veths (view (ss_mgr s)) ∪ ({[VethName b]} ∪ veths_of news)) by set_solver.
    - intros k. rewrite Hold, veths_of_cons, lookup_delete. repeat case_decide; set_solver. }
  destruct (decide (VethName b ∈ ss_byVeth s)).
  - eapply Hnext; [|done|simpl; congruence|done].
    replace ({[VethName b]} ∪ d_veths (view t1)) with (d_veths (view t1)) by set_solver.
    done.
  - destruct (bu_AttachVethXDP _ _ _) as [t2 [x|]] eqn:Ha; [done|].
    pose proof (veth_attach_ok _ _ _ _ Ha) as Ht2. eapply Hnext; [done|done| |done].
    destruct Ht2 as (_ & _ & _ & ->). simpl. set_solver.
Qed.

(** A list that is written without error consists of IPv4 backends. *)
Lemma write_loop_v4 old i news s s' :
  write_loop old i news s = (s', None) -> Forall (fun b => is_Some (To4 (BIP b))) news.
Proof.
  revert i s. induction news as [|b news IH]; intros i s Hw; simpl in Hw; [constructor|].
  destruct (bu_UpdateBackend _ _ _ _ _) as [t1 [x|]] eqn:Hu; [done|].
  apply update_ok in Hu as (v4 & Hv4 & _). constructor; [by eauto|].
  destruct (decide _); [by eapply IH|].
  destruct (bu_AttachVethXDP _ _ _) as [t2 [x|]]; [done|by eapply IH].
Qed.

Lemma clear_loop_frame i olds t t' r :
  clear_loop i olds t = (t', r) ->
  keeps_cfg t t' /\ d_veths (view t') = d_veths (view t).
Proof.
  unfold keeps_cfg. revert i t. induction olds as [|o olds IH]; intros i t Hc; simpl in Hc.
  { by simplify_eq. }
  destruct (bu_ClearBackend _ _ _) as [t1 [x|]] eqn:H1;
    apply clear_frame in H1 as [? ?]; unfold keeps_cfg in *; [by simplify_eq|].
  apply IH in Hc as [? ?]. split; congruence.
Qed.

Lemma clear_loop_ok i olds t t' :
  clear_loop i olds t = (t', None) -> view t' ≡ dp_clears e i olds (view t).
Proof.
  revert i t. induction olds as [|o olds IH]; intros i t Hc; simpl in *; [by simplify_eq|].
  destruct (bu_ClearBackend _ _ _) as [t1 [x|]] eqn:H1; [done|].
  apply clear_ok in H1. apply IH in Hc. by rewrite Hc, H1.
Qed.

Lemma detach_loop_frame stale t bv t' bv' r :
  detach_loop stale t bv = (t', bv', r) -> veths_agree t bv ->
  keeps_cfg t t' /\ veths_agree t' bv'.
Proof.
  unfold keeps_cfg, veths_agree. revert t bv.
  induction stale as [|[n o] stale IH]; intros t bv Hd Hv; simpl in Hd; [by simplify_eq|].
  destruct (bu_DetachVethXDP _ _) as [t1 [x|]] eqn:H1.
  - apply veth_detach_err in H1 as (_ & _ & ? & ?). simplify_eq. split; congruence.
  - apply veth_detach_ok in H1 as (_ & _ & ? & Hv1). simpl in *.
    apply IH in Hd as [? ?]; [split|]; congruence.
Qed.

Lemma detach_loop_ok stale t bv t' bv' :
  detach_loop stale t bv = (t', bv', None) ->
  view t' ≡ dp_set_veths (d_veths (view t) ∖ list_to_set (map fst stale)) (view t).
Proof.
  revert t bv. induction stale as [|[n o] stale IH]; intros t bv Hd; simpl in Hd.
  { simplify_eq/=. by rewrite difference_empty_L. }
  destruct (bu_DetachVethXDP _ _) as [t1 [x|]] eqn:H1; [done|].
  apply veth_detach_ok in H1. apply IH in Hd. rewrite Hd, H1, dp_set_veths_twice.
  cbn [d_veths dp_set_veths map fst list_to_set].
  by rewrite difference_difference_l_L.
Qed.

Lemma build_oldByVeth_dom bs : dom (build_oldByVeth bs) = veths_of bs.
Proof.
  unfold build_oldByVeth. rewrite <-(union_empty_l_L (veths_of bs)).
  change ∅ with (dom (∅ : gmap string Backend)) at 2.
  generalize (∅ : gmap string Backend). induction bs as [|b bs IH]; intros m; simpl.
  - unfold veths_of. simpl. by rewrite union_empty_r_L.
  - rewrite IH, dom_insert_L, veths_of_cons. set_solver.
Qed.

Lemma range_dom {V} (m : gmap string V) : list_to_set (map fst (range m)) = dom m.
Proof.
  apply set_eq. intros k. rewrite elem_of_list_to_set, elem_of_dom. split.
  - intros ([k' v] & -> & Hin)%list_elem_of_fmap. rewrite range_perm in Hin.
    apply elem_of_map_to_list in Hin. eauto.
  - intros [v Hv]. apply list_elem_of_fmap. exists (k, v). split; [done|].
    rewrite range_perm. by apply elem_of_map_to_list.
Qed.

(** ** The pool's invariant and the refinement *)

Definition pool_inv (p : Pool T) : Prop := veths_agree (bpfManager p) (byVeth p).

(** The configuration a pool writes for [n] backends. *)
Definition pool_config (p : Pool T) (n : nat) : lb_config :=
  mk_config e (vip p) (vport p) (u32 (Z.of_nat n)) (srcMAC p).

Lemma Sync_success p new p' :
  pool_inv p -> Sync p new = (p', None) ->
  view (bpfManager p') ≡
    dp_sync e (pool_config p (length new)) (backends p) new (view (bpfManager p)) /\
  pool_inv p' /\ backends p' = new /\ vip p' = vip p /\ vport p' = vport p /\
  srcMAC p' = srcMAC p.
Proof.
  intros Hinv Hs. unfold Sync in Hs.
  destruct (write_loop _ _ _ _) as [s [x|]] eqn:Hw; [done|].
  pose proof (write_loop_frame _ _ _ _ _ _ Hw Hinv) as [_ Hagree].
  apply write_loop_ok in Hw as [Hview Hold]; [|done]. simpl in Hview, Hold.
  destruct (clear_loop _ _ _) as [t1 [x|]] eqn:Hc; [done|].
  pose proof (clear_loop_frame _ _ _ _ _ Hc) as [_ Hv1]. apply clear_loop_ok in Hc.
  destruct (detach_loop _ _ _) as [[t2 bv] [x|]] eqn:Hd; [done|].
  pose proof (detach_loop_frame _ _ _ _ _ _ Hd) as Hbv.
  apply detach_loop_ok in Hd. rewrite range_dom in Hd.
  destruct (bu_UpdateConfig _ _ _ _ _) as [t3 [x|]] eqn:Hu; [done|].
  apply config_ok in Hu. simplify_eq/=. split_and!; try done.
  - assert (dom (ss_old s) = veths_of (backends p) ∖ veths_of new) as Hdom.
    { rewrite <-build_oldByVeth_dom. apply set_eq. intros k.
      rewrite elem_of_difference, !elem_of_dom, Hold. case_decide; naive_solver. }
    rewrite Hu, Hd, Hc, Hview, Hdom. unfold dp_sync, pool_config.
    by rewrite dp_clears_set_veths, dp_set_veths_twice.
  - unfold pool_inv, veths_agree in *. simpl. rewrite Hu. simpl. apply Hbv. congruence.
Qed.

Lemma Sync_v4 p new p' :
  Sync p new = (p', None) -> Forall (fun b => is_Some (To4 (BIP b))) new.
Proof.
  unfold Sync. destruct (write_loop _ _ _ _) as [s [x|]] eqn:Hw; [done|].
  intros _. by eapply write_loop_v4.
Qed.

Lemma Sync_failure p new p' x :
  pool_inv p -> Sync p new = (p', Some x) ->
  keeps_cfg (bpfManager p) (bpfManager p') /\ pool_inv p' /\ backends p' = backends p.
Proof.
  unfold keeps_cfg, pool_inv. intros Hinv Hs. unfold Sync in Hs.
  destruct (write_loop _ _ _ _) as [s [y|]] eqn:Hw;
    pose proof (write_loop_frame _ _ _ _ _ _ Hw Hinv) as [Hc0 Hagree];
    unfold keeps_cfg in Hc0; simpl in Hc0; [by simplify_eq|].
  destruct (clear_loop _ _ _) as [t1 [y|]] eqn:Hc;
    pose proof (clear_loop_frame _ _ _ _ _ Hc) as [Hc1 Hv1]; unfold keeps_cfg in Hc1.
  { simplify_eq/=. unfold veths_agree in *. split_and!; [congruence..|done]. }
  destruct (detach_loop _ _ _) as [[t2 bv] [y|]] eqn:Hd;
    (pose proof (detach_loop_frame _ _ _ _ _ _ Hd) as Hbv;
     destruct Hbv as [Hc2 Hbv]; [unfold veths_agree in *; congruence|]);
    unfold keeps_cfg in Hc2.
  { simplify_eq/=. split_and!; [congruence|done|done]. }
  destruct (bu_UpdateConfig _ _ _ _ _) as [t3 [y|]] eqn:Hu; [|done].
  apply config_err in Hu. simplify_eq/=. unfold veths_agree in *.
  split_and!; [rewrite Hu; congruence|by rewrite Hu|done].
Qed.
End Refine.
