(* ===== verification/Tables.v ===== *)
(** * The tables after a reconciliation

    Exact contents of the forward and reverse tables that [dp_sync] leaves, and what
    follows for a pool whose [Sync] succeeds, for every implementation of the
    [BPFUpdater] contract. *)

From S2P Require Import Prelude Types BpfMaps GoNet Manager Pool Reconcile.

Section Tables.
Context (e : endian).

(** The reverse-table keys of a list of backends. *)
Definition keys (bs : list Backend) : list Z := omap (fun b => ip_key e (BIP b)) bs.

(** All backends of a list have IPv4 addresses. *)
Definition all_v4 (bs : list Backend) : Prop := Forall (fun b => is_Some (To4 (BIP b))) bs.

#[export] Instance all_v4_dec bs : Decision (all_v4 bs).
Proof. unfold all_v4. apply _. Defined.

(** The forward entry a backend gets. *)
Definition entry_of (b : Backend) : option backend_info :=
  (fun v4 => mk_backend e v4 (Port b) (MAC b)) <$> To4 (BIP b).

Lemma elem_of_keys a bs : a ∈ keys bs <-> exists b, b ∈ bs /\ ip_key e (BIP b) = Some a.
Proof. apply list_elem_of_omap. Qed.

Lemma elem_of_keys_cons a o bs :
  a ∈ keys (o :: bs) <-> ip_key e (BIP o) = Some a \/ a ∈ keys bs.
Proof.
  unfold keys. simpl. destruct (ip_key e (BIP o)) as [k|]; [|naive_solver].
  rewrite elem_of_cons. naive_solver.
Qed.

Lemma keys_app xs ys : keys (xs ++ ys) = keys xs ++ keys ys.
Proof. apply omap_app. Qed.

Lemma idx_small i : (Z.of_nat i < 2 ^ 32) -> idx i = Z.of_nat i.
Proof. intros. apply u32_id. unfold is_u32. lia. Qed.

Lemma idx_inj i j : Z.of_nat i < 2 ^ 32 -> Z.of_nat j < 2 ^ 32 -> idx i = idx j -> i = j.
Proof. intros Hi Hj. rewrite !idx_small by done. lia. Qed.

(** Addresses with different keys are different. *)
Lemma key_ne_unequal o b a :
  ip_key e (BIP o) = Some a -> ip_key e (BIP b) <> Some a -> is_Some (To4 (BIP b)) ->
  IP_Equal (BIP o) (BIP b) = false.
Proof.
  unfold ip_key. intros (x & Hx & ->)%fmap_Some Hne [y Hy].
  rewrite (IP_Equal_To4 _ _ _ _ Hx Hy). apply bool_decide_eq_false_2. intros ->.
  apply Hne. by rewrite Hy.
Qed.

Lemma dp_writes_app old i xs ys d :
  dp_writes e old i (xs ++ ys) d =
    dp_writes e old (i + length xs) ys (dp_writes e old i xs d).
Proof.
  revert i d. induction xs as [|x xs IH]; intros i d; simpl; [by rewrite Nat.add_0_r|].
  rewrite IH. f_equal. lia.
Qed.

Lemma dp_writes_split old new d j b :
  new !! j = Some b ->
  dp_writes e old 0 new d =
    dp_writes e old (S j) (drop (S j) new)
      (dp_put e j b (dp_replace e old j b (dp_writes e old 0 (take j new) d))).
Proof.
  intros Hj. rewrite <-(take_drop_middle new j b Hj) at 1. rewrite dp_writes_app.
  simpl. by rewrite length_take_le by (apply lookup_lt_Some in Hj; lia).
Qed.

(** ** The reverse table *)

Lemma dp_put_rev_ne i b d a :
  ip_key e (BIP b) <> Some a -> d_rev (dp_put e i b d) a = d_rev d a.
Proof.
  unfold dp_put, ip_key. destruct (To4 (BIP b)) as [v|]; [|done]. simpl. intros Hne.
  apply upd_ne. congruence.
Qed.

Lemma dp_put_rev_eq i b d a :
  ip_key e (BIP b) = Some a -> d_rev (dp_put e i b d) a = Some (idx i).
Proof.
  unfold dp_put, ip_key. destruct (To4 (BIP b)) as [v|]; simpl; [|done]. intros [= <-].
  apply upd_eq.
Qed.

Lemma dp_clear_rev i ip d a :
  d_rev (dp_clear e i ip d) a =
    if decide (ip_key e ip = Some a) then None else d_rev d a.
Proof.
  unfold dp_clear. simpl. destruct (ip_key e ip) as [k|]; simpl; [|done].
  unfold upd. repeat case_decide; congruence.
Qed.

Lemma dp_clears_rev i olds d a :
  d_rev (dp_clears e i olds d) a = if decide (a ∈ keys olds) then None else d_rev d a.
Proof.
  revert i d. induction olds as [|o olds IH]; intros i d; [done|]. cbn [dp_clears].
  rewrite IH, dp_clear_rev. repeat case_decide; rewrite ?elem_of_keys_cons in *; try done; tauto.
Qed.

(** A key that the writes do not insert survives unless it belonged to an old backend
    at one of the written indices. *)
Lemma dp_writes_rev old i news d a :
  all_v4 news -> a ∉ keys news ->
  d_rev (dp_writes e old i news d) a =
    if decide (a ∈ keys (take (length news) (drop i old))) then None else d_rev d a.
Proof.
  intros Hv4. revert i d. induction Hv4 as [|b news Hb Hv4 IH]; intros i d Ha.
  { done. }
  cbn [dp_writes length].
  assert (ip_key e (BIP b) <> Some a /\ a ∉ keys news) as [Hne Hnews].
  { rewrite elem_of_keys_cons in Ha. tauto. }
  rewrite IH by done. clear IH. rewrite dp_put_rev_ne by done. unfold dp_replace.
  destruct (old !! i) as [o|] eqn:Ho.
  - rewrite (drop_S _ _ _ Ho). cbn [take].
    destruct (decide (ip_key e (BIP o) = Some a)) as [Hoa|Hoa].
    + rewrite (key_ne_unequal o b a) by done. rewrite dp_clear_rev.
      rewrite (decide_True _ _ Hoa), (decide_True (P := a ∈ keys (o :: _)))
        by (apply elem_of_keys_cons; by left).
      by case_decide.
    + replace (d_rev (if IP_Equal _ _ then d else _) a) with (d_rev d a).
      2: { destruct (IP_Equal _ _); [done|]. by rewrite dp_clear_rev, decide_False. }
      repeat case_decide; try done; exfalso; rewrite elem_of_keys_cons in *; tauto.
  - rewrite (drop_ge old i), (drop_ge old (S i)) by
      (apply lookup_ge_None in Ho; lia). by rewrite !take_nil.
Qed.

(** The same across the writes and the clearing of the rest. *)
Lemma dp_tail_rev old i news d a :
  all_v4 news -> a ∉ keys news ->
  d_rev (dp_clears e (i + length news) (drop (i + length news) old)
           (dp_writes e old i news d)) a =
    if decide (a ∈ keys (drop i old)) then None else d_rev d a.
Proof.
  intros Hv4 Ha. rewrite dp_clears_rev, dp_writes_rev by done.
  rewrite <-drop_drop.
  assert (a ∈ keys (drop i old) <-> a ∈ keys (take (length news) (drop i old)) \/
    a ∈ keys (drop (length news) (drop i old))) as Hk.
  { rewrite <-(take_drop (length news) (drop i old)) at 1.
    by rewrite keys_app, elem_of_app. }
  repeat case_decide; tauto || done.
Qed.

(** A key of no new backend: gone if an old backend had it, otherwise as before. *)
Lemma dp_sync_rev_absent c old new d a :
  all_v4 new -> a ∉ keys new ->
  d_rev (dp_sync e c old new d) a = if decide (a ∈ keys old) then None else d_rev d a.
Proof. intros Hv4 Ha. apply (dp_tail_rev old 0 new d a Hv4 Ha). Qed.

(** The key of the new backend at index [j]: it maps to [j], unless the address was in
    the old list at a larger index, in which case the entry is missing. *)
Lemma dp_sync_rev_present c old new d j b a :
  all_v4 new -> new !! j = Some b -> ip_key e (BIP b) = Some a ->
  a ∉ keys (drop (S j) new) ->
  d_rev (dp_sync e c old new d) a =
    if decide (a ∈ keys (drop (S j) old)) then None else Some (idx j).
Proof.
  intros Hv4 Hj Ha Hlast. unfold dp_sync. simpl.
  assert (length new = S j + length (drop (S j) new))%nat as Hlen.
  { apply lookup_lt_Some in Hj. rewrite length_drop. lia. }
  rewrite (dp_writes_split old new d j b Hj), Hlen.
  rewrite dp_tail_rev; [|by apply Forall_drop|done].
  by rewrite dp_put_rev_eq.
Qed.

(** An address listed once does not occur again further down. *)
Lemma keys_nodup_drop bs j b a :
  NoDup (keys bs) -> bs !! j = Some b -> ip_key e (BIP b) = Some a ->
  a ∉ keys (drop (S j) bs).
Proof.
  intros Hnd Hj Ha Hin. rewrite <-(take_drop_middle bs j b Hj) in Hnd.
  rewrite keys_app in Hnd. apply NoDup_app in Hnd as (_ & _ & Hnd).
  unfold keys in Hnd, Hin. simpl in Hnd. rewrite Ha in Hnd.
  apply NoDup_cons in Hnd as [Hn _]. done.
Qed.

(** ** The forward table *)

Lemma dp_put_fwd i b d k :
  is_Some (To4 (BIP b)) ->
  d_fwd (dp_put e i b d) k = if decide (k = idx i) then entry_of b else d_fwd d k.
Proof.
  intros [v Hv]. unfold dp_put, entry_of. rewrite Hv. simpl. unfold upd.
  by case_decide.
Qed.

Lemma dp_replace_fwd_ne old i b d k :
  k <> idx i -> d_fwd (dp_replace e old i b d) k = d_fwd d k.
Proof.
  intros Hk. unfold dp_replace. destruct (old !! i); [|done].
  destruct (IP_Equal _ _); [done|]. by apply upd_ne.
Qed.

Lemma dp_writes_fwd_out old i news d k :
  all_v4 news -> (forall j, (i <= j < i + length news)%nat -> k <> idx j) ->
  d_fwd (dp_writes e old i news d) k = d_fwd d k.
Proof.
  intros Hv4. revert i d. induction Hv4 as [|b news Hb Hv4 IH]; intros i d Hk; simpl; [done|].
  rewrite IH by (intros; apply Hk; simpl; lia).
  rewrite dp_put_fwd by done. rewrite decide_False by (apply Hk; simpl; lia).
  apply dp_replace_fwd_ne, Hk. simpl; lia.
Qed.

Lemma dp_clears_fwd_out i olds d k :
  (forall j, (i <= j < i + length olds)%nat -> k <> idx j) ->
  d_fwd (dp_clears e i olds d) k = d_fwd d k.
Proof.
  revert i d. induction olds as [|o olds IH]; intros i d Hk; simpl; [done|].
  rewrite IH by (intros; apply Hk; simpl; lia). apply upd_ne, Hk. simpl; lia.
Qed.

Lemma dp_clears_fwd_in i olds d j :
  Z.of_nat (i + length olds) <= 2 ^ 32 -> (i <= j < i + length olds)%nat ->
  d_fwd (dp_clears e i olds d) (idx j) = Some backend_info_zero.
Proof.
  revert i d. induction olds as [|o olds IH]; intros i d Hmax Hj; simpl in *; [lia|].
  destruct (decide (j = i)) as [->|Hne]; [|apply IH; lia].
  rewrite dp_clears_fwd_out; [apply upd_eq|].
  intros j Hj'. intros Hij%idx_inj; lia.
Qed.

(** Every new backend is at its index, the indices of a longer old list are cleared,
    and nothing else is written. *)
Lemma dp_sync_fwd c old new d k :
  all_v4 new -> Z.of_nat (length new) <= 2 ^ 32 -> Z.of_nat (length old) <= 2 ^ 32 ->
  Z.of_nat k < 2 ^ 32 ->
  d_fwd (dp_sync e c old new d) (idx k) =
    match new !! k with
    | Some b => entry_of b
    | None => if decide (k < length old)%nat then Some backend_info_zero
              else d_fwd d (idx k)
    end.
Proof.
  intros Hv4 Hn Ho Hk32. unfold dp_sync. simpl.
  assert (length (drop (length new) old) = length old - length new)%nat as Hd
    by apply length_drop.
  destruct (new !! k) as [b|] eqn:Hk.
  - pose proof (lookup_lt_Some _ _ _ Hk).
    rewrite dp_clears_fwd_out by (intros j Hj Hjk%idx_inj; lia).
    rewrite (dp_writes_split old new d k b Hk).
    rewrite dp_writes_fwd_out; [|by apply Forall_drop|].
    2: { rewrite length_drop. intros j Hj Hjk%idx_inj; lia. }
    rewrite dp_put_fwd by (apply (Forall_lookup_1 _ _ _ _ Hv4 Hk)). by rewrite decide_True.
  - apply lookup_ge_None in Hk. case_decide.
    + apply dp_clears_fwd_in; lia.
    + rewrite dp_clears_fwd_out, dp_writes_fwd_out; [done|done|..];
        intros j Hj Hjk%idx_inj; lia.
Qed.
End Tables.
