(* ===== verification/ManagerSpec.v ===== *)
(** * The manager implements the updater contract

    [Manager] as the [BPFUpdater] of the pool, its view, and the proof that its five
    operations satisfy [UpdaterLaws] for every implementation of the map interface and
    of the host. *)

From S2P Require Import Prelude Types BpfMaps GoNet Xdp Manager Pool Reconcile Tables.

Section ManagerSpec.
Context {KM : BpfMaps} {KL : BpfMapsLaws} {HH : Host} (e : endian).

#[export] Instance Manager_updater : BPFUpdater Manager := {|
  bu_UpdateBackend := UpdateBackend e;
  bu_ClearBackend := ClearBackend e;
  bu_UpdateConfig := UpdateConfig e;
  bu_AttachVethXDP := AttachVethXDP;
  bu_DetachVethXDP := DetachVethXDP
|}.

Definition manager_view (m : Manager) : dp :=
  {| d_fwd := am_lookup (BackendMap (objs m));
     d_rev := hm_lookup (BackendIpsMap (objs m));
     d_cfg := am_lookup (ConfigMap (objs m)) 0;
     d_veths := dom (vethLinks m) |}.

(** The outcome of an array update is decided by the key. *)
Lemma backend_update_err (t : backend_t) k v x :
  am_update t k v = Err x -> ~ 0 <= k < MAX_BACKENDS.
Proof. intros Hu Hk. destruct (am_update_in t k v Hk) as [t' Ht']. congruence. Qed.

Lemma hash_delete_err (t : ips_t) k x : hm_delete t k = Err x -> hm_lookup t k = None.
Proof.
  intros Hd. destruct (decide (k ∈ hm_keys t)) as [Hk|Hk].
  - destruct (hm_delete_present t k Hk) as [t' Ht']. congruence.
  - destruct (hm_lookup t k) eqn:Hl; [|done]. exfalso. apply Hk, hm_keys_lookup. eauto.
Qed.

Lemma UpdateBackend_ok m i ip port mac m' :
  UpdateBackend e m i ip port mac = (m', None) ->
  exists v4, To4 ip = Some v4 /\
    manager_view m' ≡ dp_update e i v4 port mac (manager_view m).
Proof.
  unfold UpdateBackend. destruct (To4 ip) as [v4|]; [|done].
  destruct (am_update _ _ _) as [x|t] eqn:Hb; [done|]. simpl.
  destruct (hm_update _ _ _) as [x|t'] eqn:Hi; [done|]. intros [= <-].
  exists v4. split; [done|]. split_and!; simpl; try done; intros k; unfold upd.
  - by rewrite (am_lookup_update _ _ _ _ _ Hb).
  - by rewrite (hm_lookup_update _ _ _ _ _ Hi).
Qed.

Lemma UpdateBackend_err m i ip port mac m' x :
  UpdateBackend e m i ip port mac = (m', Some x) ->
  partial_update e i ip port mac (manager_view m) (manager_view m').
Proof.
  unfold UpdateBackend. destruct (To4 ip) as [v4|] eqn:Hv4.
  2: { intros [= <- _]. split_and!; by auto. }
  destruct (am_update _ _ _) as [y|t] eqn:Hb; [intros [= <- _]; split_and!; by auto|].
  simpl. destruct (hm_update _ _ _) as [y|t'] eqn:Hi; [|done]. intros [= <- _].
  split_and!; simpl; try done. intros k.
  rewrite (am_lookup_update _ _ _ _ _ Hb). case_decide; [right; by eauto|by left].
Qed.

Lemma ClearBackend_ok m i ip m' :
  ClearBackend e m i ip = (m', None) ->
  manager_view m' ≡ dp_clear e i ip (manager_view m).
Proof.
  unfold ClearBackend. destruct (am_update _ _ _) as [x|t] eqn:Hb; [done|].
  assert (forall k, am_lookup t k = upd (am_lookup (BackendMap (objs m))) i
    (Some backend_info_zero) k) as Hf
    by (intros k; unfold upd; by rewrite (am_lookup_update _ _ _ _ _ Hb)).
  unfold dp_clear, ip_key. destruct (To4 ip) as [v4|]; simpl.
  - destruct (hm_delete _ _) as [x|t'] eqn:Hd; intros [= <-]; split_and!; simpl; try done;
      intros k; unfold upd.
    + apply hash_delete_err in Hd. case_decide; [by subst|done].
    + by rewrite (hm_lookup_delete _ _ _ _ Hd).
  - intros [= <-]. done.
Qed.

Lemma ClearBackend_err m i ip m' x :
  ClearBackend e m i ip = (m', Some x) -> m' = m /\ ~ 0 <= i < MAX_BACKENDS.
Proof.
  unfold ClearBackend. destruct (am_update _ _ _) as [y|t] eqn:Hb.
  - intros [= <- _]. split; [done|]. by eapply backend_update_err.
  - destruct (To4 ip); [destruct (hm_delete _ _)|]; done.
Qed.

Lemma UpdateBackend_range m i ip port mac :
  ~ 0 <= i < MAX_BACKENDS -> snd (UpdateBackend e m i ip port mac) <> None.
Proof.
  intros Hi. unfold UpdateBackend. destruct (To4 ip); [|done].
  by rewrite (am_update_out (max := MAX_BACKENDS)).
Qed.

#[export] Program Instance Manager_laws : UpdaterLaws Manager e := {| view := manager_view |}.
Next Obligation. apply UpdateBackend_ok. Qed.
Next Obligation. apply UpdateBackend_err. Qed.
Next Obligation. apply ClearBackend_ok. Qed.
Next Obligation. intros * [-> _]%ClearBackend_err. done. Qed.
Next Obligation. intros * [_ ?]%ClearBackend_err. by apply UpdateBackend_range. Qed.
Next Obligation.
  intros *. simpl. unfold UpdateConfig. destruct (am_update _ _ _) as [x|t0] eqn:Hc; [done|].
  intros [= <-]. split_and!; simpl; try done.
  by rewrite (am_lookup_update _ _ _ _ _ Hc), decide_True.
Qed.
Next Obligation.
  intros *. simpl. unfold UpdateConfig. destruct (am_update _ _ _); [|done].
  by intros [= <- _].
Qed.
Next Obligation.
  intros *. simpl. unfold AttachVethXDP. destruct (vethLinks t !! name) eqn:Hl.
  - intros [= <-]. split_and!; simpl; try done.
    assert (name ∈ dom (vethLinks t)) by (apply elem_of_dom; eauto). set_solver.
  - destruct (attach_fallback _ _ _) as [n [[? ?]|l]]; [done|]. intros [= <-].
    split_and!; simpl; try done. by rewrite dom_insert_L.
Qed.
Next Obligation.
  intros *. simpl. unfold AttachVethXDP. destruct (vethLinks t !! name); [done|].
  destruct (attach_fallback _ _ _) as [n [[? ?]|l]]; [|done]. by intros [= <- _].
Qed.
Next Obligation.
  intros *. simpl. unfold DetachVethXDP. destruct (vethLinks t !! name) eqn:Hl.
  - destruct (link_Close _ _) as [n [x|]]; [done|]. intros [= <-].
    split_and!; simpl; try done. by rewrite dom_delete_L.
  - intros [= <-]. split_and!; simpl; try done.
    assert (name ∉ dom (vethLinks t)) by (by apply not_elem_of_dom). set_solver.
Qed.
Next Obligation.
  intros *. simpl. unfold DetachVethXDP. destruct (vethLinks t !! name); [|done].
  destruct (link_Close _ _) as [n [y|]]; [|done]. by intros [= <- _].
Qed.

(** ** When Sync succeeds *)

Context `{!GoRange}.

(** Only addresses of the current snapshot are in the reverse table, and the snapshot
    fits the maps. *)
Definition tables_inv (p : Pool Manager) : Prop :=
  pool_inv e p /\ (length (backends p) <= 64)%nat /\
  forall a, is_Some (hm_lookup (BackendIpsMap (objs (bpfManager p))) a) ->
    a ∈ keys e (backends p).

(** A new key fits when the keys present belong to fewer than 64 backends. *)
Lemma ips_room (t : ips_t) (l : list Z) a :
  (forall k, is_Some (hm_lookup t k) -> k = a \/ k ∈ l) -> (length l < 64)%nat ->
  a ∈ hm_keys t \/ (size (hm_keys t) < Z.to_nat MAX_BACKENDS)%nat.
Proof.
  intros Hl Hlen. destruct (decide (a ∈ hm_keys t)) as [|Ha]; [by left|right].
  assert (hm_keys t ⊆ list_to_set l) as Hsub.
  { intros k Hk. apply elem_of_list_to_set.
    destruct (Hl k) as [->|?]; [by apply hm_keys_lookup|done|done]. }
  apply subseteq_size in Hsub. pose proof (size_list_to_set_le l).
  unfold MAX_BACKENDS. lia.
Qed.

(** The host's links: every attach and every close succeeds. *)
Definition links_work : Prop :=
  (forall n i, exists n' l, attach_fallback n XdpVethSnat i = (n', Ok l)) /\
  (forall n l, exists n', link_Close n l = (n', None)).

Lemma idx_range i : (i < 64)%nat -> 0 <= idx i < MAX_BACKENDS.
Proof. intros Hi. rewrite idx_small by lia. unfold MAX_BACKENDS. lia. Qed.

Lemma UpdateBackend_succeeds m i ip port mac v4 :
  To4 ip = Some v4 -> 0 <= i < MAX_BACKENDS ->
  (NativeEndian_Uint32 e v4 ∈ hm_keys (BackendIpsMap (objs m)) \/
   size (hm_keys (BackendIpsMap (objs m))) < Z.to_nat MAX_BACKENDS)%nat ->
  exists m', UpdateBackend e m i ip port mac = (m', None).
Proof.
  intros Hv4 Hi Hroom. unfold UpdateBackend. rewrite Hv4.
  destruct (am_update_in (BackendMap (objs m)) i (mk_backend e v4 port mac) Hi) as [t ->].
  simpl. destruct (hm_update_room (BackendIpsMap (objs m)) (NativeEndian_Uint32 e v4) i Hroom)
    as [t' ->]. eauto.
Qed.

Lemma ClearBackend_succeeds m i ip :
  0 <= i < MAX_BACKENDS -> exists m', ClearBackend e m i ip = (m', None).
Proof.
  intros Hi. destruct (ClearBackend e m i ip) as [m' [x|]] eqn:Hc; [|eauto].
  by apply ClearBackend_err in Hc as [_ ?].
Qed.

Lemma AttachVethXDP_succeeds m name i :
  links_work -> exists m', AttachVethXDP m name i = (m', None).
Proof.
  intros [Ha _]. unfold AttachVethXDP. destruct (vethLinks m !! name); [eauto|].
  destruct (Ha (net m) i) as (n' & l & ->). eauto.
Qed.

Lemma DetachVethXDP_succeeds m name :
  links_work -> exists m', DetachVethXDP m name = (m', None).
Proof.
  intros [_ Hc]. unfold DetachVethXDP. destruct (vethLinks m !! name) as [l|]; [|eauto].
  destruct (Hc (net m) l) as (n' & ->). eauto.
Qed.

(** The keys present after the head of the write loop at index [i]: those of the
    backends written so far, of the old backends still to come, and at most the key
    about to be written. *)
Lemma replace_step_keys done old i b (m : Manager) :
  is_Some (To4 (BIP b)) -> (i < 64)%nat ->
  (forall a, is_Some (d_rev (manager_view m) a) -> a ∈ keys e done \/ a ∈ keys e (drop i old)) ->
  forall a, is_Some (d_rev (manager_view (replace_step old i b m)) a) ->
    ip_key e (BIP b) = Some a \/ a ∈ keys e (done ++ drop (S i) old).
Proof.
  intros Hv4 Hi Hpre a. rewrite keys_app, elem_of_app. unfold replace_step.
  destruct (old !! i) as [o|] eqn:Ho.
  - rewrite (drop_S _ _ _ Ho) in Hpre.
    destruct (IP_Equal (BIP o) (BIP b)) eqn:Heq.
    + intros [Ha|Ha]%Hpre; [tauto|]. rewrite elem_of_keys_cons in Ha.
      destruct Ha as [Ha|Ha]; [|tauto].
      destruct (decide (ip_key e (BIP b) = Some a)); [tauto|].
      by rewrite (key_ne_unequal e o b a) in Heq.
    + destruct (ClearBackend_succeeds m (idx i) (BIP o) (idx_range i Hi)) as [m' Hc].
      cbn [bu_ClearBackend Manager_updater]. unfold idx in Hc. rewrite Hc. cbn [fst].
      apply ClearBackend_ok in Hc as (_ & Hr & _).
      rewrite Hr, dp_clear_rev. case_decide as Hk; [by intros [? ?]|].
      intros [Ha|Ha]%Hpre; [tauto|]. rewrite elem_of_keys_cons in Ha. tauto.
  - intros [Ha|Ha]%Hpre; [tauto|].
    rewrite drop_ge in Ha by (apply lookup_ge_None in Ho; lia). by apply not_elem_of_nil in Ha.
Qed.

Lemma write_loop_succeeds done old news s :
  links_work -> all_v4 news -> (length done + length news <= 64)%nat ->
  (length old <= 64)%nat ->
  (forall a, is_Some (d_rev (manager_view (ss_mgr s)) a) ->
     a ∈ keys e done \/ a ∈ keys e (drop (length done) old)) ->
  exists s', write_loop old (length done) news s = (s', None).
Proof.
  intros Hlinks Hv4. revert done s.
  induction Hv4 as [|b news Hb Hv4 IH]; intros done s Hlen Hold Hpre; [simpl; eauto|].
  cbn [write_loop length] in *. fold (replace_step old (length done) b (ss_mgr s)).
  pose proof (replace_step_keys done old (length done) b (ss_mgr s) Hb ltac:(lia) Hpre) as Hkeys.
  destruct Hb as [v4 Hb].
  destruct (UpdateBackend_succeeds (replace_step old (length done) b (ss_mgr s))
    (idx (length done)) (BIP b) (Port b) (MAC b) v4 Hb (idx_range (length done) ltac:(lia)))
    as [m1 Hu].
  { apply (ips_room _ (keys e (done ++ drop (S (length done)) old))).
    - intros k Hk. destruct (Hkeys k Hk) as [Hk'|]; [left|by right].
      unfold ip_key in Hk'. rewrite Hb in Hk'. by simplify_eq/=.
    - eapply Nat.le_lt_trans; [apply length_omap_le|].
      rewrite length_app, length_drop. lia. }
  unfold idx in Hu. cbn [bu_UpdateBackend bu_AttachVethXDP Manager_updater]. rewrite Hu.
  pose proof (write_step_ok e old (length done) b (ss_mgr s) m1 Hu) as Hview.
  assert (forall s1, d_rev (manager_view (ss_mgr s1)) = d_rev (manager_view m1) ->
    exists s', write_loop old (S (length done)) news s1 = (s', None)) as Hnext.
  { intros s1 Hs1. specialize (IH (done ++ [b]) s1).
    rewrite length_app, Nat.add_1_r in IH.
    apply IH; [lia|done|]. intros a. rewrite Hs1.
    apply (UpdateBackend_ok _ _ _ _ _ _) in Hu as (v & Hv & _ & Hr & _).
    rewrite Hr. simpl. unfold upd. simplify_eq. rewrite !keys_app, !elem_of_app.
    case_decide as Hk.
    - intros _. left; right. apply elem_of_keys_cons. left. unfold ip_key.
      rewrite Hb. by subst.
    - intros [Ha|Ha]%Hkeys; [unfold ip_key in Ha; rewrite Hb in Ha; by simplify_eq/=|].
      rewrite keys_app, elem_of_app in Ha. tauto. }
  destruct (decide _); [by apply Hnext|].
  destruct (AttachVethXDP_succeeds m1 (VethName b) (VethIdx b) Hlinks) as [m2 Ha].
  rewrite Ha. apply Hnext. simpl.
  pose proof Ha as Ha'. unfold AttachVethXDP in Ha'.
  destruct (vethLinks m1 !! _); [by simplify_eq|].
  destruct (attach_fallback _ _ _) as [n1 [[? ?]|l]]; by simplify_eq/=.
Qed.

Lemma clear_loop_succeeds i olds (m : Manager) :
  (i + length olds <= 64)%nat -> exists m', clear_loop i olds m = (m', None).
Proof.
  revert i m. induction olds as [|o olds IH]; intros i m Hlen; [simpl; eauto|].
  cbn [clear_loop length bu_ClearBackend Manager_updater] in *.
  destruct (ClearBackend_succeeds m (idx i) (BIP o)) as [m' Hc]; [apply idx_range; lia|].
  unfold idx in Hc. rewrite Hc. apply IH. lia.
Qed.

Lemma detach_loop_succeeds stale (m : Manager) bv :
  links_work -> exists m' bv', detach_loop stale m bv = (m', bv', None).
Proof.
  intros Hlinks. revert m bv. induction stale as [|[n o] stale IH]; intros m bv; [simpl; eauto|].
  cbn [detach_loop bu_DetachVethXDP Manager_updater].
  destruct (DetachVethXDP_succeeds m n Hlinks) as [m' ->]. apply IH.
Qed.

Lemma Sync_succeeds p new :
  links_work -> tables_inv p -> all_v4 new -> (length new <= 64)%nat ->
  exists p', Sync p new = (p', None).
Proof.
  intros Hlinks (_ & Hold & Hrev) Hv4 Hnew. unfold Sync.
  destruct (write_loop_succeeds [] (backends p) new
    {| ss_mgr := bpfManager p; ss_byVeth := byVeth p;
       ss_old := build_oldByVeth (backends p) |}) as [s Hw]; [done..| |].
  { intros a Ha. right. rewrite drop_0. by apply Hrev. }
  simpl in Hw. rewrite Hw.
  destruct (clear_loop_succeeds (length new) (drop (length new) (backends p)) (ss_mgr s))
    as [m1 ->]; [rewrite length_drop; lia|].
  destruct (detach_loop_succeeds (range (ss_old s)) m1 (ss_byVeth s) Hlinks)
    as (m2 & bv & ->).
  cbn [bu_UpdateConfig Manager_updater]. unfold UpdateConfig.
  destruct (am_update_in (zero := lb_config_zero) (max := 1) (ConfigMap (objs m2)) 0
    (mk_config e (vip p) (vport p) (u32 (Z.of_nat (length new))) (srcMAC p)) ltac:(lia))
    as [t ->]. eauto.
Qed.

(** Every index a successful write loop used is in range. *)
Lemma write_loop_range old i news s s' j :
  write_loop old i news s = (s', None) -> (j < length news)%nat ->
  0 <= idx (i + j) < MAX_BACKENDS.
Proof.
  revert i s j. induction news as [|b news IH]; intros i s j Hw Hj; [simpl in Hj; lia|].
  cbn [write_loop length] in *. fold (replace_step old i b (ss_mgr s)) in Hw.
  destruct (bu_UpdateBackend _ _ _ _ _) as [m1 [x|]] eqn:Hu; [done|].
  destruct j as [|j].
  { rewrite Nat.add_0_r. destruct (decide (0 <= idx i < MAX_BACKENDS)) as [|Hn]; [done|].
    exfalso. eapply (UpdateBackend_range _ _ (BIP b) (Port b) (MAC b) Hn).
    unfold idx. cbn [bu_UpdateBackend Manager_updater] in Hu. by rewrite Hu. }
  replace (i + S j)%nat with (S i + j)%nat by lia.
  destruct (decide _); [eapply IH; [done|lia]|].
  destruct (bu_AttachVethXDP _ _ _) as [m2 [x|]]; [done|]. eapply IH; [done|lia].
Qed.

Lemma Sync_max p new p' : Sync p new = (p', None) -> (length new <= 64)%nat.
Proof.
  intros Hs. destruct (decide (length new <= 64)%nat) as [|Hn]; [done|].
  unfold Sync in Hs. destruct (write_loop _ _ _ _) as [s [x|]] eqn:Hw; [done|].
  apply (write_loop_range _ _ _ _ _ 64) in Hw; [|lia].
  rewrite idx_small in Hw by lia. unfold MAX_BACKENDS in Hw. lia.
Qed.

Lemma Sync_tables_inv p new p' :
  tables_inv p -> Sync p new = (p', None) -> tables_inv p'.
Proof.
  intros (Hinv & Hold & Hrev) Hs. pose proof (Sync_max _ _ _ Hs) as Hmax.
  pose proof (Sync_v4 e _ _ _ Hs) as Hv4.
  apply (Sync_success e) in Hs as (Hview & Hinv' & Hbs & _); [|done].
  unfold tables_inv. rewrite Hbs. split_and!; [done|done|]. intros a Ha.
  destruct (decide (a ∈ keys e new)) as [|Hn]; [done|exfalso].
  destruct Hview as (_ & Hr & _).
  change (is_Some (d_rev (view (e := e) (bpfManager p')) a)) in Ha. rewrite Hr in Ha.
  rewrite dp_sync_rev_absent in Ha by done. case_decide as Hk; [by destruct Ha|].
  by apply Hk, Hrev.
Qed.

(** A fresh manager and an empty pool. *)
Lemma NewPool_tables_inv n name m vip vport mac :
  NewManager n name = Ok m -> tables_inv (NewPool m vip vport mac).
Proof.
  unfold NewManager. destruct (RemoveMemlock n) as [n1 [x|]]; [done|].
  destruct (InterfaceByName n1 name) as [x|i]; [done|].
  destruct (loadLbObjects n1) as [n2 [x|]]; [done|].
  destruct (attach_fallback n2 _ i) as [n3 [[? x]|l]].
  { by destruct (lbObjects_Close n3). }
  intros [= <-]. split_and!; simpl; [|lia|].
  - unfold pool_inv, veths_agree. simpl. by rewrite dom_empty_L.
  - intros a Ha. by rewrite hm_lookup_init in Ha; destruct Ha.
Qed.
End ManagerSpec.

(** [Sync] on the real manager of a host of byte order [e]. *)
Abbreviation SyncM e := (Sync (BPFUpdater0 := Manager_updater e)).

(** ** A reference host, for examples: every call succeeds *)

Module RefHost.
#[export] Instance host : Host := {|
  net_t := gmap Z xdp_program;
  link_t := Z;
  AttachXDP := fun n o => (<[Interface o := Program o]> n, Ok (Interface o));
  link_Close := fun n l => (delete l n, None);
  object_Close := fun n _ => (n, None);
  RemoveMemlock := fun n => (n, None);
  InterfaceByName := fun n s => Ok 2;
  spec_t := unit;
  LoadCollectionSpec := Ok ();
  LoadAndAssign := fun _ _ n => (n, None);
  attached := fun n i => n !! i;
  link_iface := fun l => l
|}.

#[export] Instance host_laws : HostLaws.
Proof.
  split; simpl; intros; simplify_eq; try done.
  - split; [done|]. intros i. rewrite lookup_insert. repeat case_decide; congruence.
  - rewrite lookup_delete. repeat case_decide; congruence.
Qed.

Lemma links_ok : links_work.
Proof. split; [intros n i|intros n l]; simpl; eauto. Qed.

#[export] Existing Instance range_default.
End RefHost.
