(* ===== verification/ManagerWf.v ===== *)
(** * Every value user space writes fits its struct

    Each operation of the manager keeps the maps well formed ([wf_maps]), hence [Sync]
    does on every path, and the maps of a new manager are well formed. *)

From S2P Require Import Prelude Types BpfMaps Ebpf Xdp GoNet Manager Pool Reconcile Tables.
From S2P Require Import ManagerSpec.

Section ManagerWf.
Context {KM : BpfMaps} {KL : BpfMapsLaws} {HH : Host} `{!GoRange} (e : endian).

Lemma length_mac_bytes mac : length (mac_bytes mac) = ETH_ALEN.
Proof. unfold mac_bytes. destruct (Nat.eqb_spec (length mac) ETH_ALEN); done. Qed.

Lemma wf_mk_backend ip v4 port mac :
  To4 ip = Some v4 -> is_u16 port -> wf_backend_info (mk_backend e v4 port mac).
Proof.
  intros Hv4 Hp. split_and!; simpl; try done.
  - by eapply NativeEndian_u32.
  - apply length_mac_bytes.
Qed.

Lemma wf_mk_config vip port n mac :
  is_u16 port -> is_u32 n -> wf_lb_config (mk_config e vip port n mac).
Proof.
  intros Hp Hn. split_and!; simpl; try done.
  - destruct (To4 vip) eqn:Hv; [by eapply NativeEndian_u32|done].
  - apply length_mac_bytes.
Qed.

Lemma wf_update_backend m (t : backend_t) k v :
  wf_maps m -> am_update (BackendMap m) k v = Ok t -> wf_backend_info v ->
  wf_maps (with_BackendMap m t).
Proof.
  intros Hwf Hu Hv. split; cbn; [apply Hwf| |apply Hwf]. intros j b.
  rewrite (am_lookup_update _ _ _ _ _ Hu). case_decide; [by intros [= <-]|apply Hwf].
Qed.

Lemma UpdateBackend_wf m i ip port mac :
  wf_maps (objs m) -> is_u16 port -> wf_maps (objs (fst (UpdateBackend e m i ip port mac))).
Proof.
  intros Hwf Hp. unfold UpdateBackend. destruct (To4 ip) as [v4|] eqn:Hv4; [|done].
  destruct (am_update _ _ _) as [x|t] eqn:Hu; [done|].
  pose proof (wf_update_backend _ _ _ _ Hwf Hu (wf_mk_backend ip v4 port mac Hv4 Hp)) as Hwf'.
  destruct (hm_update _ _ _); [done|]. split; apply Hwf'.
Qed.

Lemma ClearBackend_wf m i ip :
  wf_maps (objs m) -> wf_maps (objs (fst (ClearBackend e m i ip))).
Proof.
  intros Hwf. unfold ClearBackend. destruct (am_update _ _ _) as [x|t] eqn:Hu; [done|].
  pose proof (wf_update_backend _ _ _ _ Hwf Hu wf_backend_info_zero) as Hwf'.
  destruct (To4 ip); [|done]. destruct (hm_delete _ _); [done|]. split; apply Hwf'.
Qed.

(** The same for each of their two map operations. *)
Lemma halves_wf m :
  wf_maps (objs m) ->
  (forall i ip port mac, is_u16 port ->
     wf_maps (objs (fst (UpdateBackend_forward e i ip port mac m)))) /\
  (forall i ip, wf_maps (objs (fst (UpdateBackend_reverse e i ip m)))) /\
  (forall i, wf_maps (objs (fst (ClearBackend_forward i m)))) /\
  (forall ip, wf_maps (objs (fst (ClearBackend_reverse e ip m)))).
Proof.
  intros Hwf.
  assert (forall t, wf_maps (with_BackendIpsMap (objs m) t)) as Hips by (split; apply Hwf).
  split_and!; unfold UpdateBackend_forward, UpdateBackend_reverse, ClearBackend_forward,
    ClearBackend_reverse.
  - intros i ip port mac Hp. destruct (To4 ip) as [v4|] eqn:Hv4; [|done].
    destruct (am_update _ _ _) as [x|t] eqn:Hu; [done|].
    exact (wf_update_backend _ _ _ _ Hwf Hu (wf_mk_backend ip v4 port mac Hv4 Hp)).
  - intros i ip. destruct (To4 ip); [|done]. destruct (hm_update _ _ _); [done|apply Hips].
  - intros i. destruct (am_update _ _ _) as [x|t] eqn:Hu; [done|].
    exact (wf_update_backend _ _ _ _ Hwf Hu wf_backend_info_zero).
  - intros ip. destruct (To4 ip); [|done]. destruct (hm_delete _ _); [done|apply Hips].
Qed.

Lemma UpdateConfig_wf m vip port n mac :
  wf_maps (objs m) -> is_u16 port -> is_u32 n ->
  wf_maps (objs (fst (UpdateConfig e m vip port n mac))).
Proof.
  intros Hwf Hp Hn. unfold UpdateConfig.
  destruct (am_update _ _ _) as [x|t] eqn:Hu; [done|].
  split; cbn; [|apply Hwf..]. intros j c. rewrite (am_lookup_update _ _ _ _ _ Hu).
  case_decide; [|apply Hwf]. intros [= <-]. by apply wf_mk_config.
Qed.

Lemma AttachVethXDP_objs m name i : objs (fst (AttachVethXDP m name i)) = objs m.
Proof.
  unfold AttachVethXDP. destruct (vethLinks m !! name); [done|].
  by destruct (attach_fallback _ _ _) as [n [[? ?]|l]].
Qed.

Lemma DetachVethXDP_objs m name : objs (fst (DetachVethXDP m name)) = objs m.
Proof.
  unfold DetachVethXDP. destruct (vethLinks m !! name); [|done].
  by destruct (link_Close _ _) as [n [x|]].
Qed.

Definition ports_ok (bs : list Backend) : Prop := Forall (fun b => is_u16 (Port b)) bs.

Lemma Sync_wf (p : Pool Manager) new :
  wf_maps (objs (bpfManager p)) -> ports_ok new -> is_u16 (vport p) ->
  wf_maps (objs (bpfManager (fst (SyncM e p new)))).
Proof.
  intros Hwf Hports Hvp.
  apply (Sync_preserves (fun m => wf_maps (objs m)) (fun m => wf_maps (objs m)));
    [..|done|done]; cbn.
  - intros i b t Hb Ht. apply UpdateBackend_wf; [done|]. by eapply Forall_lookup_1 in Hports.
  - intros i o t _. apply ClearBackend_wf.
  - intros b t _ Ht. by rewrite AttachVethXDP_objs.
  - intros name t Ht. by rewrite DetachVethXDP_objs.
  - intros t Ht. apply UpdateConfig_wf; [done..|apply u32_range].
Qed.

Lemma lbMaps_init_wf : wf_maps lbMaps_init.
Proof.
  split; cbn.
  - intros k c. destruct (decide (0 <= k < 1)) as [Hk|Hk].
    + rewrite (am_lookup_init (zero := lb_config_zero)) by done. intros [= <-]. auto with lb_wf.
    + by rewrite (am_lookup_out (max := 1)).
  - intros k b. destruct (decide (0 <= k < MAX_BACKENDS)) as [Hk|Hk].
    + rewrite (am_lookup_init (zero := backend_info_zero)) by done. intros [= <-].
      auto with lb_wf.
    + by rewrite am_lookup_out.
  - intros c k v. destruct (decide (c < pm_ncpus)%nat) as [Hc|Hc].
    + destruct (decide (0 <= k < MAX_BACKENDS)) as [Hk|Hk].
      * rewrite (pm_lookup_init (zero := stats_counter_zero)) by done. intros [= <-].
        auto with lb_wf.
      * by rewrite pm_lookup_out.
    + rewrite pm_lookup_cpu by lia. done.
Qed.

Lemma NewManager_wf n name m : NewManager n name = Ok m -> wf_maps (objs m).
Proof.
  unfold NewManager. destruct (RemoveMemlock n) as [n1 [x|]]; [done|].
  destruct (InterfaceByName n1 name) as [x|i]; [done|].
  destruct (loadLbObjects n1) as [n2 [x|]]; [done|].
  destruct (attach_fallback n2 _ i) as [n3 [[? x]|l]]; [by destruct (lbObjects_Close n3)|].
  intros [= <-]. apply lbMaps_init_wf.
Qed.
End ManagerWf.
