(* ===== verification/Fleet.v ===== *)
(** * A fleet of two backends

    Concrete pools on the reference maps and the reference host, for the witnesses of the
    control-plane properties: two backends come up, then the first goes away. *)

From S2P Require Import Prelude Types BpfMaps Ebpf Checksum GoNet Xdp Samples Manager Pool.
From S2P Require Import Reconcile Tables ManagerSpec ManagerWf.
Import RefMaps RefHost.

Definition backend (name : string) (ip mac : list byte) (veth : string) (i : Z) : Backend :=
  {| ID := name; Name := name; BIP := v4InV6Prefix ++ ip; MAC := mac; Port := 8080;
     Healthy := true; ContainerPID := 100 + i; VethName := veth; VethIdx := i |}.
Definition app1 : Backend := backend "app1" b1_ip b1_mac "veth1" 10.
Definition app2 : Backend := backend "app2" b2_ip b2_mac "veth2" 11.

Definition mgr0 : Manager :=
  {| objs := lbMaps_init; xdpLink := Some 2; vethLinks := ∅; ifaceName := "eth0";
     ifaceIdx := 2; net := {[ 2 := XdpLbIngress ]} |}.
Lemma mgr0_new : NewManager ∅ "eth0" = Ok mgr0.
Proof. reflexivity. Qed.

Definition pool0 : Pool Manager := NewPool mgr0 (v4InV6Prefix ++ vip_ip) 8080 host_mac.
Lemma pool0_inv : tables_inv LE pool0.
Proof. apply (NewPool_tables_inv LE ∅ "eth0"), mgr0_new. Qed.

Definition pool1 : Pool Manager := fst (SyncM LE pool0 [app1; app2]).
Definition pool2 : Pool Manager := fst (SyncM LE pool1 [app2]).
Definition pool3 : Pool Manager := fst (SyncM LE pool2 [app2]).

(** Each of these reconciliations succeeds. *)
Lemma v4_app1 : is_Some (To4 (BIP app1)).
Proof. exists b1_ip. reflexivity. Qed.
Lemma v4_app2 : is_Some (To4 (BIP app2)).
Proof. exists b2_ip. reflexivity. Qed.
Lemma fleet1_v4 : all_v4 [app1; app2].
Proof. constructor; [apply v4_app1|]. constructor; [apply v4_app2|constructor]. Qed.
Lemma fleet2_v4 : all_v4 [app2].
Proof. constructor; [apply v4_app2|constructor]. Qed.

Lemma sync1 : SyncM LE pool0 [app1; app2] = (pool1, None).
Proof.
  destruct (Sync_succeeds LE pool0 [app1; app2] links_ok pool0_inv fleet1_v4) as [p' Hp'];
    [simpl; lia|]. unfold pool1. by rewrite Hp'.
Qed.
Lemma pool1_inv : tables_inv LE pool1.
Proof. eapply Sync_tables_inv; [apply pool0_inv|apply sync1]. Qed.

Lemma sync2 : SyncM LE pool1 [app2] = (pool2, None).
Proof.
  destruct (Sync_succeeds LE pool1 [app2] links_ok pool1_inv fleet2_v4) as [p' Hp'];
    [simpl; lia|]. unfold pool2. by rewrite Hp'.
Qed.
Lemma pool2_inv : tables_inv LE pool2.
Proof. eapply Sync_tables_inv; [apply pool1_inv|apply sync2]. Qed.

Lemma sync3 : SyncM LE pool2 [app2] = (pool3, None).
Proof.
  destruct (Sync_succeeds LE pool2 [app2] links_ok pool2_inv fleet2_v4) as [p' Hp'];
    [simpl; lia|]. unfold pool3. by rewrite Hp'.
Qed.

(** The pool after the first one. *)
Lemma pool1_fields :
  backends pool1 = [app1; app2] /\ vip pool1 = v4InV6Prefix ++ vip_ip /\
  vport pool1 = 8080 /\ srcMAC pool1 = host_mac /\ byVeth pool1 = veths_of [app1; app2].
Proof.
  pose proof sync1 as Hs. apply (Sync_success LE) in Hs as ((_ & _ & _ & Hv) & Hinv & Hrest);
    [|apply pool0_inv]. destruct Hrest as (Hb & Hvip & Hvp & Hmac).
  split_and!; [done..|]. unfold pool_inv, veths_agree in Hinv. rewrite Hinv, Hv.
  apply (union_difference_stale ∅).
Qed.

(** The key of the second backend. *)
Lemma keys2 : keys LE [app2] = [load LE b2_ip].
Proof. reflexivity. Qed.
Lemma keys2_nodup : NoDup (keys LE [app2]).
Proof. rewrite keys2. apply NoDup_singleton. Qed.

Definition laws : UpdaterLaws (BPFUpdater0 := Manager_updater LE) Manager LE :=
  Manager_laws LE.

(** The maps of these pools are well formed. *)
Lemma pool0_wf : wf_maps (objs (bpfManager pool0)).
Proof. apply (NewManager_wf ∅ "eth0"), mgr0_new. Qed.
Lemma ports1 : ports_ok [app1; app2].
Proof. repeat (constructor; [unfold is_u16; simpl; lia|]). constructor. Qed.
Lemma ports2 : ports_ok [app2].
Proof. constructor; [unfold is_u16; simpl; lia|constructor]. Qed.
Lemma vport_ok : is_u16 8080.
Proof. unfold is_u16. lia. Qed.
Lemma pool1_wf : wf_maps (objs (bpfManager pool1)).
Proof.
  pose proof (Sync_wf LE pool0 [app1; app2] pool0_wf ports1 vport_ok) as Hw.
  by rewrite sync1 in Hw.
Qed.
