(* ===== verification/ControlPlane.v ===== *)
(** * Properties of the control plane

    What [Pool.Sync] guarantees: first for every [BPFUpdater] that satisfies the
    contract, then for the real [Manager]. *)

From S2P Require Import Prelude Types BpfMaps Ebpf Checksum GoNet Xdp Samples Manager Pool.
From S2P Require Import Reconcile Tables ManagerSpec Fleet.

Section AnyUpdater.
Context {T : Type} `{!BPFUpdater T, !GoRange} (e : endian) `{!UpdaterLaws T e}.

(** C7: [Sync] refines the abstract reconciliation.  For every updater that satisfies
    the contract and every iteration order of Go maps, a successful [Sync] has on the
    data plane exactly the effect of [dp_sync], records the new list as the snapshot,
    and keeps the pool's set of attached veths equal to the data plane's. *)
Theorem sync_refines (p : Pool T) new p' :
  pool_inv e p -> Sync p new = (p', None) ->
  view (bpfManager p') ≡
    dp_sync e (pool_config e p (length new)) (backends p) new (view (bpfManager p)) /\
  backends p' = new /\ pool_inv e p'.
Proof. intros Hinv (? & ? & ? & _)%(Sync_success e); [|done]. done. Qed.

(** C20: a failed [Sync] does not touch the configuration.  On every error path (a
    rejected map write, a failed attach, clear or detach, a failed configuration
    write) [config_map] and the pool's snapshot are as before, and the set of
    attached veths still agrees with the data plane, so the next [Sync] starts from
    the same snapshot. *)
Theorem sync_failure (p : Pool T) new p' x :
  pool_inv e p -> Sync p new = (p', Some x) ->
  d_cfg (view (bpfManager p')) = d_cfg (view (bpfManager p)) /\
  backends p' = backends p /\ pool_inv e p'.
Proof. intros Hinv (? & ? & ?)%(Sync_failure e); [|done]. done. Qed.

(** C14: the forward table and the configuration after a successful [Sync]: index [k]
    holds the entry of the [k]-th new backend, the indices of a longer old list are
    zeroed, all others are untouched, and the configuration announces exactly the
    number of new backends with the pool's VIP and MAC. *)
Theorem sync_forward_table (p : Pool T) new p' k :
  pool_inv e p -> Sync p new = (p', None) ->
  Z.of_nat (length new) <= 2 ^ 32 -> Z.of_nat (length (backends p)) <= 2 ^ 32 ->
  Z.of_nat k < 2 ^ 32 ->
  d_fwd (view (bpfManager p')) (Z.of_nat k) =
    match new !! k with
    | Some b => entry_of e b
    | None => if decide (k < length (backends p))%nat then Some backend_info_zero
              else d_fwd (view (bpfManager p)) (Z.of_nat k)
    end /\
  d_cfg (view (bpfManager p')) = Some (pool_config e p (length new)).
Proof.
  intros Hinv Hs Hn Ho Hk. pose proof (Sync_v4 e _ _ _ Hs) as Hv4.
  apply (Sync_success e) in Hs as [(Hf & _ & Hc & _) _]; [|done].
  split; [|done]. rewrite Hf, <-!(idx_small k) by done. by apply dp_sync_fwd.
Qed.

(** C13: the reverse table after a successful [Sync], exactly.  The address of a new
    backend (listed once) at index [j] maps to [j], except when the same address was
    in the previous list at a larger index: then it is missing.  An address of no
    new backend is gone if a previous backend had it, and otherwise unchanged. *)
Theorem sync_reverse_table (p : Pool T) new p' a :
  pool_inv e p -> Sync p new = (p', None) -> NoDup (keys e new) ->
  (forall j b, new !! j = Some b -> ip_key e (BIP b) = Some a ->
     d_rev (view (bpfManager p')) a =
       if decide (a ∈ keys e (drop (S j) (backends p))) then None else Some (idx j)) /\
  (a ∉ keys e new ->
     d_rev (view (bpfManager p')) a =
       if decide (a ∈ keys e (backends p)) then None else d_rev (view (bpfManager p)) a).
Proof.
  intros Hinv Hs Hnd. pose proof (Sync_v4 e _ _ _ Hs) as Hv4.
  apply (Sync_success e) in Hs as [(_ & Hr & _) _]; [|done]. split.
  - intros j b Hj Ha. rewrite Hr. eapply dp_sync_rev_present; [done..|].
    by eapply keys_nodup_drop.
  - intros Ha. rewrite Hr. by apply dp_sync_rev_absent.
Qed.

(** A second [Sync] with the same list repairs the reverse table.  After two
    successful reconciliations with the same list of distinct addresses, every
    backend of the list is in the reverse table under its index, whatever the first
    one lost. *)
Theorem resync_heals (p : Pool T) new p1 p2 j b a :
  pool_inv e p -> Sync p new = (p1, None) -> Sync p1 new = (p2, None) ->
  NoDup (keys e new) -> new !! j = Some b -> ip_key e (BIP b) = Some a ->
  d_rev (view (bpfManager p2)) a = Some (idx j).
Proof.
  intros Hinv H1 H2 Hnd Hj Ha. pose proof (Sync_v4 e _ _ _ H2) as Hv4.
  apply (Sync_success e) in H1 as (_ & Hinv1 & Hbs & _); [|done].
  apply (Sync_success e) in H2 as [(_ & Hr & _) _]; [|done].
  pose proof (keys_nodup_drop e new j b a Hnd Hj Ha) as Hlast.
  rewrite Hr, Hbs. rewrite (dp_sync_rev_present e _ _ _ _ j b a) by done.
  by rewrite decide_False.
Qed.

(** The SNAT attachments follow the list.  If the attached veths are those of the
    old snapshot, then after a successful [Sync] the attached veths, in the data
    plane and in the pool's record, are exactly those of the new list. *)
Theorem sync_veths (p : Pool T) new p' :
  pool_inv e p -> byVeth p = veths_of (backends p) -> Sync p new = (p', None) ->
  byVeth p' = veths_of new /\ d_veths (view (bpfManager p')) = veths_of new.
Proof.
  unfold pool_inv, veths_agree. intros Hinv Hold Hs.
  apply (Sync_success e) in Hs as [(_ & _ & _ & Hv) (Hinv' & _)]; [|done].
  unfold pool_inv, veths_agree in Hinv'. rewrite Hinv', Hv. simpl.
  rewrite <-Hinv, Hold. split; apply union_difference_stale.
Qed.

End AnyUpdater.

Section RealManager.
Context {KM : BpfMaps} {KL : BpfMapsLaws} {HH : Host} `{!GoRange} (e : endian).

(** C19: [Sync] on the real manager succeeds.  From a pool whose reverse table holds no
    address outside the snapshot ([tables_inv]: a new pool, or one that only successful
    [Sync]s have changed; a failed one may have left addresses behind), with working links,
    any list of at most 64 IPv4 backends is reconciled without error: neither the array
    bounds nor the capacity of the reverse hash map can be hit on the way, in any
    intermediate step. *)
Theorem sync_succeeds (p : Pool Manager) new :
  links_work -> tables_inv e p -> all_v4 new -> (length new <= 64)%nat ->
  exists p', SyncM e p new = (p', None).
Proof. apply Sync_succeeds. Qed.

(** C36: more than 64 backends.  [Sync] with more backends than the maps hold reports an
    error and leaves the configuration and the snapshot as they were: the data plane
    keeps announcing the old number of backends. *)
Theorem sync_too_many (p : Pool Manager) new :
  tables_inv e p -> (64 < length new)%nat ->
  exists p' x, SyncM e p new = (p', Some x) /\
    am_lookup (ConfigMap (objs (bpfManager p'))) 0 =
      am_lookup (ConfigMap (objs (bpfManager p))) 0 /\
    backends p' = backends p.
Proof.
  intros (Hinv & _) Hlen. destruct (SyncM e p new) as [p' [x|]] eqn:Hs.
  - pose proof (Sync_failure e _ _ _ _ Hinv Hs) as (Hc & _ & Hb). eauto.
  - apply Sync_max in Hs. lia.
Qed.

(** The invariant of pool and maps.  A successful [Sync] keeps it: the snapshot fits
    the maps, the veth record agrees with the links, and the reverse table holds no
    address outside the snapshot, so stale backends are never translated.  A pool
    built on a new manager satisfies it. *)
Theorem tables_invariant :
  (forall n name m vip vport mac,
     NewManager n name = Ok m -> tables_inv e (NewPool m vip vport mac)) /\
  (forall (p : Pool Manager) new p',
     tables_inv e p -> SyncM e p new = (p', None) -> tables_inv e p').
Proof. split; [apply NewPool_tables_inv|apply Sync_tables_inv]. Qed.
End RealManager.

(** ** Witnesses *)

Module CPWitness.
Import RefMaps RefHost.

Lemma sync_refines_witness :
  view (UpdaterLaws := laws) (bpfManager pool2) ≡
    dp_sync LE (pool_config LE pool1 1) (backends pool1) [app2]
      (view (UpdaterLaws := laws) (bpfManager pool1)) /\
  backends pool2 = [app2] /\ pool_inv LE (UpdaterLaws0 := laws) pool2.
Proof.
  apply (sync_refines LE (UpdaterLaws0 := laws) pool1 [app2] pool2);
    [apply pool1_inv|apply sync2].
Defined.

(** 65 backends, one more than the maps hold. *)
Definition too_many : list Backend := replicate 65 app1.
Definition pool_err : Pool Manager := fst (SyncM LE pool1 too_many).

Lemma sync_err : exists x, SyncM LE pool1 too_many = (pool_err, Some x).
Proof.
  unfold pool_err. destruct (SyncM LE pool1 too_many) as [p' [x|]] eqn:Hs; [by exists x|].
  apply Sync_max in Hs. unfold too_many in Hs. rewrite length_replicate in Hs. lia.
Qed.

Lemma sync_failure_witness :
  d_cfg (view (UpdaterLaws := laws) (bpfManager pool_err)) =
    d_cfg (view (UpdaterLaws := laws) (bpfManager pool1)) /\
  backends pool_err = backends pool1 /\ pool_inv LE (UpdaterLaws0 := laws) pool_err.
Proof.
  destruct sync_err as [x Hx].
  apply (sync_failure LE (UpdaterLaws0 := laws) pool1 too_many pool_err x);
    [apply pool1_inv|apply Hx].
Defined.

Lemma sync_forward_table_witness :
  d_fwd (view (UpdaterLaws := laws) (bpfManager pool2)) (Z.of_nat 1) =
    Some backend_info_zero /\
  d_cfg (view (UpdaterLaws := laws) (bpfManager pool2)) = Some (pool_config LE pool1 1).
Proof.
  apply (sync_forward_table LE (UpdaterLaws0 := laws) pool1 [app2] pool2 1);
    [apply pool1_inv|apply sync2|simpl; lia| |simpl; lia].
  rewrite (proj1 pool1_fields). simpl. lia.
Defined.

(** The address of the backend that moved from index 1 to index 0 is missing. *)
Lemma sync_reverse_table_witness :
  (forall j b, [app2] !! j = Some b -> ip_key LE (BIP b) = Some (load LE b2_ip) ->
     d_rev (view (UpdaterLaws := laws) (bpfManager pool2)) (load LE b2_ip) =
       if decide (load LE b2_ip ∈ keys LE (drop (S j) (backends pool1)))
       then None else Some (idx j)) /\
  (load LE b2_ip ∉ keys LE [app2] ->
     d_rev (view (UpdaterLaws := laws) (bpfManager pool2)) (load LE b2_ip) =
       if decide (load LE b2_ip ∈ keys LE (backends pool1)) then None
       else d_rev (view (UpdaterLaws := laws) (bpfManager pool1)) (load LE b2_ip)).
Proof.
  apply (sync_reverse_table LE (UpdaterLaws0 := laws) pool1 [app2] pool2 (load LE b2_ip));
    [apply pool1_inv|apply sync2|apply keys2_nodup].
Defined.

Lemma resync_heals_witness :
  d_rev (view (UpdaterLaws := laws) (bpfManager pool3)) (load LE b2_ip) = Some (idx 0).
Proof.
  apply (resync_heals LE (UpdaterLaws0 := laws) pool1 [app2] pool2 pool3 0 app2
           (load LE b2_ip));
    [apply pool1_inv|apply sync2|apply sync3|apply keys2_nodup|reflexivity|reflexivity].
Defined.

Lemma sync_veths_witness :
  byVeth pool2 = veths_of [app2] /\
  d_veths (view (UpdaterLaws := laws) (bpfManager pool2)) = veths_of [app2].
Proof.
  apply (sync_veths LE (UpdaterLaws0 := laws) pool1 [app2] pool2);
    [apply pool1_inv| |apply sync2].
  destruct pool1_fields as (-> & _ & _ & _ & ->). reflexivity.
Defined.

Lemma sync_succeeds_witness : exists p', SyncM LE pool1 [app2] = (p', None).
Proof.
  apply (sync_succeeds LE pool1 [app2]);
    [apply links_ok|apply pool1_inv|apply fleet2_v4|simpl; lia].
Defined.

Lemma sync_too_many_witness :
  exists p' x, SyncM LE pool1 too_many = (p', Some x) /\
    am_lookup (ConfigMap (objs (bpfManager p'))) 0 =
      am_lookup (ConfigMap (objs (bpfManager pool1))) 0 /\
    backends p' = backends pool1.
Proof. apply (sync_too_many LE pool1 too_many); [apply pool1_inv|simpl; lia]. Defined.

Lemma tables_invariant_witness : tables_inv LE pool2.
Proof.
  destruct (tables_invariant LE) as [_ Hstep].
  apply (Hstep pool1 [app2]); [apply pool1_inv|apply sync2].
Defined.
End CPWitness.
