(* ===== verification/Leaks.v ===== *)
(** * What a failed reconciliation leaves behind

    [Sync] records its list only when it succeeds.  What a failed one has already written or
    attached and the old snapshot does not know is never cleaned up: reverse entries and
    attachments stay through every later [Sync] that does not list them again, and when the
    64 entries of the reverse map are used up in this way no new address fits any more. *)

From S2P Require Import Prelude Types BpfMaps Ebpf Checksum GoNet Xdp Samples Manager Pool.
From S2P Require Import Reconcile Tables ManagerSpec ManagerWf Fleet.

Section AnyUpdater.
Context {T : Type} `{!BPFUpdater T, !GoRange} (e : endian) `{!UpdaterLaws T e}.

(** Any number of reconciliations, one after the other, whether they succeed or fail. *)
Definition syncs (p : Pool T) (lists : list (list Backend)) : Pool T :=
  foldl (fun p l => fst (Sync p l)) p lists.

(** ** One reconciliation *)

Lemma Sync_snapshot (p : Pool T) new :
  backends (fst (Sync p new)) = backends p \/ backends (fst (Sync p new)) = new.
Proof.
  destruct (Sync_outcome (fun _ => True) p new) as (t & _ & [(_ & _ & ?)|(r & _ & Hr)]);
    try done; [by left|].
  destruct r; [left|right]; apply Hr.
Qed.

Lemma Sync_pool_inv (p : Pool T) new : pool_inv e p -> pool_inv e (fst (Sync p new)).
Proof.
  intros Hp. destruct (Sync p new) as [p' [x|]] eqn:Hs.
  - by apply (Sync_failure e) in Hs as (_ & ? & _).
  - by apply (Sync_success e) in Hs as (_ & ? & _).
Qed.

(** An address in neither list keeps its entry. *)
Lemma Sync_keeps_rev (p : Pool T) new a i :
  a ∉ keys e (backends p) -> a ∉ keys e new ->
  d_rev (view (bpfManager p)) a = Some i ->
  d_rev (view (bpfManager (fst (Sync p new)))) a = Some i.
Proof.
  intros Hold Hnew. set (P := fun t => d_rev (view t) a = Some i).
  apply (Sync_preserves P P); unfold P; [..|done].
  - intros j b t Hb Ht. destruct (bu_UpdateBackend _ _ _ _ _) as [t' [x|]] eqn:Hu; cbn [fst].
    + apply update_err in Hu as (_ & Hr & _). by rewrite Hr.
    + apply update_ok in Hu as (v4 & Hv4 & _ & Hr & _). rewrite Hr. cbn. rewrite upd_ne; [done|].
      intros ->. apply Hnew, elem_of_keys. exists b. unfold ip_key. rewrite Hv4.
      split; [by eapply list_elem_of_lookup_2|done].
  - intros j o t Ho Ht. destruct (bu_ClearBackend _ _ _) as [t' [x|]] eqn:Hc; cbn [fst].
    + apply clear_err in Hc as (_ & Hr & _). by rewrite Hr.
    + apply clear_ok in Hc as (_ & Hr & _). rewrite Hr, dp_clear_rev, decide_False; [done|].
      intros Hk. apply Hold, elem_of_keys. exists o. split; [by eapply list_elem_of_lookup_2|done].
  - intros b t _ Ht. destruct (bu_AttachVethXDP _ _ _) as [t' [x|]] eqn:Ha; cbn [fst];
      [apply veth_attach_err in Ha as (_ & Hr & _)|apply veth_attach_ok in Ha as (_ & Hr & _)];
      by rewrite Hr.
  - intros name t Ht. destruct (bu_DetachVethXDP _ _) as [t' [x|]] eqn:Ha; cbn [fst];
      [apply veth_detach_err in Ha as (_ & Hr & _)|apply veth_detach_ok in Ha as (_ & Hr & _)];
      by rewrite Hr.
  - intros t Ht. destruct (bu_UpdateConfig _ _ _ _ _) as [t' [x|]] eqn:Ha; cbn [fst];
      [apply config_err in Ha as (_ & Hr & _)|apply config_ok in Ha as (_ & Hr & _)];
      by rewrite Hr.
Qed.

(** The write loop only adds to the record of veths, and marks old ones as active. *)
Lemma write_loop_grows old i news s s' r :
  write_loop old i news s = (s', r) ->
  ss_byVeth s ⊆ ss_byVeth s' /\ dom (ss_old s') ⊆ dom (ss_old s).
Proof.
  revert i s. induction news as [|b news IH]; intros i s; cbn [write_loop].
  { by intros [= <- _]. }
  destruct (bu_UpdateBackend _ _ _ _ _) as [t1 [x|]]; [by intros [= <- _]|].
  destruct (decide _).
  { intros Hw. apply IH in Hw as [? Hd]. cbn in *. rewrite dom_delete_L in Hd. set_solver. }
  destruct (bu_AttachVethXDP _ _ _) as [t2 [x|]]; [by intros [= <- _]|].
  intros Hw. apply IH in Hw as [? Hd]. cbn in *. rewrite dom_delete_L in Hd. set_solver.
Qed.

Lemma detach_loop_keeps stale t bv t' bv' r name :
  detach_loop stale t bv = (t', bv', r) -> name ∉ map fst stale -> name ∈ bv -> name ∈ bv'.
Proof.
  revert t bv. induction stale as [|[k o] stale IH]; intros t bv; cbn [detach_loop].
  { by intros [= _ <- _]. }
  destruct (bu_DetachVethXDP _ _) as [t1 [x|]]; [by intros [= _ <- _]|].
  cbn [map fst]. intros Hd [Hk Hn]%not_elem_of_cons Hin. eapply IH; [done..|]. set_solver.
Qed.

(** A recorded veth that is not in the snapshot stays recorded. *)
Lemma Sync_keeps_veth (p : Pool T) new name :
  name ∈ byVeth p -> name ∉ veths_of (backends p) -> name ∈ byVeth (fst (Sync p new)).
Proof.
  intros Hin Hold. unfold Sync. destruct (write_loop _ _ _ _) as [s [x|]] eqn:Hw;
    apply write_loop_grows in Hw as [Hb Hd]; cbn in Hb, Hd; [cbn; set_solver|].
  destruct (clear_loop _ _ _) as [t1 [x|]]; [cbn; set_solver|].
  assert (name ∉ map fst (range (ss_old s))) as Hni.
  { rewrite build_oldByVeth_dom in Hd. intros Hn%(elem_of_list_to_set (C := gset string)).
    rewrite range_dom in Hn. set_solver. }
  destruct (detach_loop _ _ _) as [[t2 bv] [x|]] eqn:Hl;
    (eapply detach_loop_keeps in Hl; [|exact Hni|set_solver]); [done|].
  by destruct (bu_UpdateConfig _ _ _ _ _) as [t3 [x|]].
Qed.

(** ** Many reconciliations *)

Lemma syncs_keep_rev lists (p : Pool T) a i :
  a ∉ keys e (backends p) -> Forall (fun l => a ∉ keys e l) lists ->
  d_rev (view (bpfManager p)) a = Some i ->
  d_rev (view (bpfManager (syncs p lists))) a = Some i.
Proof.
  intros Hp Hl. revert p Hp. induction Hl as [|l lists Hl _ IH]; intros p Hp Ha; [done|].
  apply IH; [|by apply Sync_keeps_rev]. by destruct (Sync_snapshot p l) as [->| ->].
Qed.

Lemma syncs_keep_veth lists (p : Pool T) name :
  pool_inv e p -> name ∈ byVeth p -> name ∉ veths_of (backends p) ->
  Forall (fun l => name ∉ veths_of l) lists ->
  name ∈ byVeth (syncs p lists) /\ name ∈ d_veths (view (bpfManager (syncs p lists))).
Proof.
  intros Hp Hin Hold Hl. revert p Hp Hin Hold.
  induction Hl as [|l lists Hl _ IH]; intros p Hp Hin Hold; cbn [syncs foldl].
  { split; [done|]. by rewrite <- Hp. }
  apply IH; [by apply Sync_pool_inv|by apply Sync_keeps_veth|].
  by destruct (Sync_snapshot p l) as [->| ->].
Qed.
(** ** Where an attachment fails *)

(** The backends before it are attached, and its address is already in the reverse table. *)
Lemma write_loop_attach_fails old i news s s' name veth x :
  write_loop old i news s = (s', Some (ErrAttachFor name veth x)) ->
  exists j b a, news !! j = Some b /\ Name b = name /\ VethName b = veth /\
    ip_key e (BIP b) = Some a /\ d_rev (view (ss_mgr s')) a = Some (idx (i + j)) /\
    forall k c, (k < j)%nat -> news !! k = Some c -> VethName c ∈ ss_byVeth s'.
Proof.
  revert i s. induction news as [|b news IH]; intros i s; cbn [write_loop]; [done|].
  destruct (bu_UpdateBackend _ _ _ _ _) as [t1 [y|]] eqn:Hu; [done|].
  apply update_ok in Hu as (v4 & Hv4 & _ & Hr & _).
  assert (forall s1, write_loop old (S i) news s1 = (s', Some (ErrAttachFor name veth x)) ->
    VethName b ∈ ss_byVeth s1 ->
    exists j c a, (b :: news) !! j = Some c /\ Name c = name /\ VethName c = veth /\
      ip_key e (BIP c) = Some a /\ d_rev (view (ss_mgr s')) a = Some (idx (i + j)) /\
      forall k d, (k < j)%nat -> (b :: news) !! k = Some d -> VethName d ∈ ss_byVeth s') as Hnext.
  { intros s1 Hw Hin. pose proof (write_loop_grows _ _ _ _ _ _ Hw) as [Hsub _].
    apply IH in Hw as (j & c & a & Hc & Hn & Hv & Ha & Hd & Hk). exists (S j), c, a.
    rewrite <- Nat.add_succ_comm. split_and!; try done.
    intros [|k] d Hlt Hd'; [injection Hd' as <-; set_solver|]. apply (Hk k); [lia|done]. }
  destruct (decide _); [by intros Hw; eapply Hnext|].
  destruct (bu_AttachVethXDP _ _ _) as [t2 [y|]] eqn:Ha;
    [|intros Hw; eapply Hnext; [exact Hw|cbn; set_solver]].
  apply veth_attach_err in Ha as (_ & Hr' & _). intros [= <- <- <- <-].
  exists 0%nat, b, (NativeEndian_Uint32 e v4). unfold ip_key. rewrite Hv4, Nat.add_0_r.
  split_and!; try done; [|intros; lia]. cbn [ss_mgr]. rewrite Hr', Hr. apply upd_eq.
Qed.

(** The other loops fail with errors of their own. *)
Lemma clear_loop_error i olds (t : T) name veth x :
  snd (clear_loop i olds t) <> Some (ErrAttachFor name veth x).
Proof.
  revert i t. induction olds as [|o olds IH]; intros i t; [done|]. cbn [clear_loop].
  destruct (bu_ClearBackend _ _ _) as [t1 [y|]]; [done|apply IH].
Qed.

Lemma detach_loop_error stale (t : T) bv name veth x :
  snd (detach_loop stale t bv) <> Some (ErrAttachFor name veth x).
Proof.
  revert t bv. induction stale as [|[k o] stale IH]; intros t bv; [done|]. cbn [detach_loop].
  destruct (bu_DetachVethXDP _ _) as [t1 [y|]]; [done|apply IH].
Qed.

(** C26: what a failed attachment leaves behind, for good.  When [Sync] fails because the
    program cannot be attached for the backend at position [j], that backend's address is in
    the reverse table and the backends before it are attached, and the snapshot knows neither.
    Through every later sequence of reconciliations, successful or not, whose lists do not
    contain them: the address (if the old snapshot did not have it) keeps its entry, so that
    frames from it are still translated and one of the 64 entries is lost, and the veths (if
    the old snapshot did not have them) stay attached. *)
Theorem failed_sync_leaks (p : Pool T) new name veth x p1 :
  pool_inv e p -> Sync p new = (p1, Some (ErrAttachFor name veth x)) ->
  exists j b a, new !! j = Some b /\ Name b = name /\ VethName b = veth /\
    ip_key e (BIP b) = Some a /\
  forall later,
    (a ∉ keys e (backends p) -> Forall (fun l => a ∉ keys e l) later ->
     d_rev (view (bpfManager (syncs p1 later))) a = Some (idx j)) /\
    (forall k c, (k < j)%nat -> new !! k = Some c -> VethName c ∉ veths_of (backends p) ->
     Forall (fun l => VethName c ∉ veths_of l) later ->
     VethName c ∈ d_veths (view (bpfManager (syncs p1 later)))).
Proof.
  intros Hp Hs. destruct (Sync_failure e _ _ _ _ Hp Hs) as (_ & Hp1 & Hbs).
  unfold Sync in Hs. destruct (write_loop _ _ _ _) as [s [y|]] eqn:Hw.
  2: { pose proof (clear_loop_error (length new) (drop (length new) (backends p)) (ss_mgr s)
         name veth x) as Hce.
       destruct (clear_loop _ _ _) as [t1 [y|]]; [cbn in Hce; congruence|].
       pose proof (detach_loop_error (range (ss_old s)) t1 (ss_byVeth s) name veth x) as Hde.
       destruct (detach_loop _ _ _) as [[t2 bv] [y|]]; [cbn in Hde; congruence|].
       by destruct (bu_UpdateConfig _ _ _ _ _) as [t3 [y|]]. }
  injection Hs as <- ->.
  apply write_loop_attach_fails in Hw as (j & b & a & Hb & Hn & Hv & Ha & Hr & Hk).
  exists j, b, a. split_and!; try done. intros later. split.
  - intros Hold Hl. by apply syncs_keep_rev.
  - intros k c Hlt Hc Hold Hl. apply (syncs_keep_veth later); try done. by apply (Hk k).
Qed.
End AnyUpdater.

(** ** The reverse map is used up *)

Section RealManager.
Context {KM : BpfMaps} {KL : BpfMapsLaws} {HH : Host} `{!GoRange} (e : endian).

Abbreviation known m := (hm_keys (BackendIpsMap (objs m))).










End RealManager.

(** ** Witnesses *)

(** A host on which the attachment to interface 10 fails. *)
Module LeakWitness.
Import RefMaps.

Definition bad_host : Host := {|
  net_t := gmap Z xdp_program;
  link_t := Z;
  AttachXDP := fun n o =>
    if Interface o =? 10 then (n, Err (EOTHER 22))
    else (<[Interface o := Program o]> n, Ok (Interface o));
  link_Close := fun n l => (delete l n, None);
  object_Close := fun n _ => (n, None);
  RemoveMemlock := fun n => (n, None);
  InterfaceByName := fun n s => Ok 2;
  spec_t := unit;
  LoadCollectionSpec := Ok ();
  LoadAndAssign := fun _ _ n => (n, None);
  attached := fun n i => n !! i;
  link_iface := fun l => l
|}.
#[local] Existing Instances bad_host range_default.

Definition bad_mgr : Manager :=
  {| objs := lbMaps_init; xdpLink := Some 2; vethLinks := ∅; ifaceName := "eth0";
     ifaceIdx := 2; net := {[ 2 := XdpLbIngress ]} |}.
Definition bad0 : Pool Manager := NewPool bad_mgr (v4InV6Prefix ++ vip_ip) 8080 host_mac.

(** The first reconciliation attaches the second backend, fails to attach the first one and
    leaves an empty snapshot; then both go away. *)
Definition bad1 : Pool Manager := fst (SyncM LE bad0 [app2; app1]).
Definition bad2 : Pool Manager := syncs (BPFUpdater0 := Manager_updater LE) bad1 [[]; []].

Definition bad_attach : error := ErrAttachVeth (EOTHER 22) (EOTHER 22).

Lemma bad_sync : SyncM LE bad0 [app2; app1] = (bad1, Some (ErrAttachFor "app1" "veth1" bad_attach)).
Proof.
  assert (snd (SyncM LE bad0 [app2; app1]) = Some (ErrAttachFor "app1" "veth1" bad_attach)) as Hs
    by (vm_compute; reflexivity).
  unfold bad1. rewrite <- Hs. apply surjective_pairing.
Qed.

(** Their address and veth stay. *)
Lemma failed_sync_leaks_witness :
  hm_lookup (BackendIpsMap (objs (bpfManager bad2))) (load LE b1_ip) = Some 1 /\
  "veth2" ∈ dom (vethLinks (bpfManager bad2)).
Proof.
  destruct (failed_sync_leaks LE (UpdaterLaws0 := Manager_laws LE) bad0 [app2; app1] "app1" "veth1"
    bad_attach bad1 eq_refl bad_sync) as (j & b & a & Hj & Hn & _ & Ha & Hlater).
  destruct j as [|[|j]]; cbn in Hj; [by injection Hj as <-| |done]. injection Hj as <-.
  injection Ha as <-. destruct (Hlater [[]; []]) as [Hr Hv]. split.
  - apply Hr; [apply not_elem_of_nil|]. repeat constructor; apply not_elem_of_nil.
  - apply (Hv 0%nat app2); [lia|done|apply not_elem_of_empty|].
    repeat constructor; apply not_elem_of_empty.
Defined.
End LeakWitness.

Module BlockWitness.
Import RefMaps RefHost.



End BlockWitness.
