(* ===== verification/Interleave.v ===== *)
(** * What the data plane can see while Sync runs

    [Sync] is a sequence of calls on the manager, and packets arrive between any two of
    them.  [Traced] records the manager after every call; the record does not change what
    [Sync] does, and in every recorded state each forward entry is the one from before, a
    cleared one or the new one, with the configuration unchanged until the last call. *)

From S2P Require Import Prelude Types BpfMaps Ebpf Checksum GoNet Xdp XdpSpec DataPlane.
From S2P Require Import Samples Manager Pool Simulate Reconcile Tables ManagerSpec ManagerWf Fleet.

(** ** An updater that records its states, the latest first *)

Definition Traced (T : Type) : Type := T * list T.

Definition record {T R : Type} (x : Traced T) (f : T -> T * R) : Traced T * R :=
  let '(t, r) := f (fst x) in ((t, t :: snd x), r).

#[export] Instance traced_updater {T} `{!BPFUpdater T} : BPFUpdater (Traced T) := {|
  bu_UpdateBackend x i ip port mac := record x (fun t => bu_UpdateBackend t i ip port mac);
  bu_ClearBackend x i ip := record x (fun t => bu_ClearBackend t i ip);
  bu_UpdateConfig x ip port n mac := record x (fun t => bu_UpdateConfig t ip port n mac);
  bu_AttachVethXDP x name i := record x (fun t => bu_AttachVethXDP t name i);
  bu_DetachVethXDP x name := record x (fun t => bu_DetachVethXDP t name)
|}.

Section Trace.
Context {T : Type} `{!BPFUpdater T, !GoRange}.

Definition traced_Sync (p : Pool T) (new : list Backend) : Pool (Traced T) * option error :=
  Sync (map_pool (fun t => (t, [])) p) new.

(** The managers after each call of [Sync], in order. *)
Definition sync_trace (p : Pool T) (new : list Backend) : list T :=
  reverse (snd (bpfManager (fst (traced_Sync p new)))).

(** ** Recording changes nothing *)

Lemma record_sim (x : Traced T) (t : T) (f : T -> T * option error) :
  fst x = t -> sim_result (fun x t => fst x = t) (record x f) (f t).
Proof. intros <-. unfold record, sim_result. by destruct (f (fst x)). Qed.

#[local] Instance traced_sim : UpdaterSim (fun (x : Traced T) t => fst x = t).
Proof.
  split; intros x t.
  - intros i ip port mac. apply (record_sim x t (fun t => bu_UpdateBackend t i ip port mac)).
  - intros i ip. apply (record_sim x t (fun t => bu_ClearBackend t i ip)).
  - intros ip port n mac. apply (record_sim x t (fun t => bu_UpdateConfig t ip port n mac)).
  - intros name i. apply (record_sim x t (fun t => bu_AttachVethXDP t name i)).
  - intros name. apply (record_sim x t (fun t => bu_DetachVethXDP t name)).
Qed.

Lemma traced_Sync_erase p new :
  (map_pool fst (fst (traced_Sync p new)), snd (traced_Sync p new)) = Sync p new.
Proof.
  assert (sim_pool (fun (x : Traced T) t => fst x = t) (fst (traced_Sync p new))
    (fst (Sync p new)) /\ snd (traced_Sync p new) = snd (Sync p new))
    as [Hp He] by (by apply Sync_sim; [apply _|]).
  rewrite He, (sim_pool_map fst _ _ Hp). by destruct (Sync p new).
Qed.
End Trace.

(** ** Every recorded state *)

Section Interleave.
Context {T : Type} `{!BPFUpdater T, !GoRange} (e : endian) `{!UpdaterLaws T e}.

(** A forward table on the way from [d0] to the list [new]. *)
Definition fwd_between (new : list Backend) (d0 d : dp) : Prop :=
  forall z, d_fwd d z = d_fwd d0 z \/ d_fwd d z = Some backend_info_zero \/
    exists i b, z = idx i /\ new !! i = Some b /\ d_fwd d z = entry_of e b.

Definition between (new : list Backend) (d0 d : dp) : Prop :=
  fwd_between new d0 d /\ d_cfg d = d_cfg d0.

Lemma between_frame new d0 d d' :
  between new d0 d -> (forall z, d_fwd d' z = d_fwd d z) -> d_cfg d' = d_cfg d ->
  between new d0 d'.
Proof. intros [Hf Hc] Hf' Hc'. split; [|congruence]. intros z. rewrite Hf'. apply Hf. Qed.

Lemma between_update new d0 t i b :
  new !! i = Some b -> between new d0 (view t) ->
  between new d0
    (view (fst (bu_UpdateBackend t (u32 (Z.of_nat i)) (BIP b) (Port b) (MAC b)))).
Proof.
  intros Hi [Hf Hc]. destruct (bu_UpdateBackend _ _ _ _ _) as [t' [x|]] eqn:Hu; cbn [fst].
  - apply update_err in Hu as (Hf' & _ & Hc' & _). split; [|congruence]. intros z.
    destruct (Hf' z) as [->|(-> & v4 & Hv4 & ->)]; [apply Hf|].
    right; right. exists i, b. unfold entry_of. by rewrite Hv4.
  - apply update_ok in Hu as (v4 & Hv4 & Hf' & _ & Hc' & _).
    split; [|by rewrite Hc']. intros z. rewrite Hf'. cbn [d_fwd dp_update].
    unfold upd. case_decide as Hz; [|apply Hf].
    right; right. exists i, b. unfold entry_of. by rewrite Hv4.
Qed.

Lemma between_clear new d0 t i ip :
  between new d0 (view t) -> between new d0 (view (fst (bu_ClearBackend t i ip))).
Proof.
  intros [Hf Hc]. destruct (bu_ClearBackend _ _ _) as [t' [x|]] eqn:Hcl; cbn [fst].
  - apply clear_err in Hcl as (Hf' & _ & Hc' & _). by eapply between_frame.
  - apply clear_ok in Hcl as (Hf' & _ & Hc' & _). split; [|by rewrite Hc'].
    intros z. rewrite Hf'. cbn [d_fwd dp_clear]. unfold upd. case_decide; auto.
Qed.

Lemma between_attach new d0 t name i :
  between new d0 (view t) -> between new d0 (view (fst (bu_AttachVethXDP t name i))).
Proof.
  intros Hb. destruct (bu_AttachVethXDP _ _ _) as [t' [x|]] eqn:Ha; cbn [fst].
  - apply veth_attach_err in Ha as (? & _ & ? & _). by eapply between_frame.
  - apply veth_attach_ok in Ha as (? & _ & ? & _). by eapply between_frame.
Qed.

Lemma between_detach new d0 t name :
  between new d0 (view t) -> between new d0 (view (fst (bu_DetachVethXDP t name))).
Proof.
  intros Hb. destruct (bu_DetachVethXDP _ _) as [t' [x|]] eqn:Ha; cbn [fst].
  - apply veth_detach_err in Ha as (? & _ & ? & _). by eapply between_frame.
  - apply veth_detach_ok in Ha as (? & _ & ? & _). by eapply between_frame.
Qed.

(** A record whose states are all on the way, and one whose last state may have the
    new configuration. *)
Definition log_ok (new : list Backend) (d0 : dp) (x : Traced T) : Prop :=
  between new d0 (view (fst x)) /\ Forall (fun t => between new d0 (view t)) (snd x).

Definition last_ok (new : list Backend) (d0 : dp) (c : lb_config) (x : Traced T) : Prop :=
  Forall (fun t => between new d0 (view t)) (snd x) \/
  exists t log, snd x = t :: log /\ Forall (fun t => between new d0 (view t)) log /\
    fwd_between new d0 (view t) /\
    (d_cfg (view t) = d_cfg d0 \/ d_cfg (view t) = Some c).

Lemma log_ok_record new d0 x {R} (f : T -> T * R) :
  (between new d0 (view (fst x)) -> between new d0 (view (fst (f (fst x))))) ->
  log_ok new d0 x -> log_ok new d0 (fst (record x f)).
Proof.
  intros Hf [Hx Hlog]. unfold record. specialize (Hf Hx). destruct (f (fst x)) as [t r].
  split; [done|]. by constructor.
Qed.

Lemma traced_Sync_last_ok p new :
  last_ok new (view (bpfManager p)) (pool_config e p (length new))
    (bpfManager (fst (traced_Sync p new))).
Proof.
  set (d0 := view (bpfManager p)). unfold traced_Sync.
  apply (Sync_preserves (log_ok new d0)); cbn [backends map_pool]; unfold pool_config.
  - intros i b x Hi. apply log_ok_record. by apply between_update.
  - intros i o x _. apply log_ok_record, between_clear.
  - intros b x _. apply log_ok_record, between_attach.
  - intros name x. apply log_ok_record, between_detach.
  - intros x [Hx Hlog]. cbn [bu_UpdateConfig traced_updater vip vport srcMAC map_pool].
    unfold record. destruct (bu_UpdateConfig _ _ _ _ _) as [t [y|]] eqn:Hu; right;
      exists t, (snd x); (split; [done|]); (split; [done|]).
    + apply config_err in Hu as (Hf & _ & Hc & _).
      destruct (between_frame _ _ _ _ Hx Hf Hc). auto.
    + apply config_ok in Hu as (Hf & _ & Hc & _). split; [|right; by rewrite Hc].
      intros z. rewrite Hf. apply Hx.
  - intros x [_ Hlog]. by left.
  - split; [|by constructor]. split; [|done]. intros z. by left.
Qed.

(** The states of the trace, by position. *)
Lemma sync_trace_states p new i t :
  sync_trace p new !! i = Some t ->
  fwd_between new (view (bpfManager p)) (view t) /\
  (d_cfg (view t) = d_cfg (view (bpfManager p)) \/
   (S i = length (sync_trace p new) /\
    d_cfg (view t) = Some (pool_config e p (length new)))).
Proof.
  intros Hi. unfold sync_trace in *.
  destruct (traced_Sync_last_ok p new) as [Hall|(tl & log & Hlog & Hall & Hf & Hc)].
  - apply list_elem_of_lookup_2 in Hi. rewrite elem_of_reverse in Hi.
    rewrite Forall_forall in Hall. destruct (Hall t Hi). auto.
  - rewrite Hlog, reverse_cons in *. rewrite length_app, length_reverse. simpl.
    apply lookup_app_Some in Hi as [Hi|[Hge Hi]].
    + apply list_elem_of_lookup_2 in Hi. rewrite elem_of_reverse in Hi.
      rewrite Forall_forall in Hall. destruct (Hall t Hi). auto.
    + rewrite length_reverse in *. destruct (i - length log)%nat as [|k] eqn:Hk; [|done].
      simpl in Hi. injection Hi as <-. split; [done|].
      destruct Hc; [by left|right]. split; [lia|done].
Qed.
End Interleave.

(** ** Requests that arrive during a reconciliation *)

Section Requests.
Context {KM : BpfMaps} {KL : BpfMapsLaws} {HH : Host} `{!GoRange} (e : endian).

(** The data plane serves the pool's snapshot: the configured number of backends is
    its length, and the forward table holds its entries and nothing else. *)
Definition serving (p : Pool Manager) : Prop :=
  (exists c, am_lookup (ConfigMap (objs (bpfManager p))) 0 = Some c /\
     cfg_backend_count c = Z.of_nat (length (backends p))) /\
  (forall k, (k < 64)%nat ->
     am_lookup (BackendMap (objs (bpfManager p))) (Z.of_nat k) =
       match backends p !! k with
       | Some b => entry_of e b
       | None => Some backend_info_zero
       end).

Lemma NewPool_serving n name m vip vport mac :
  NewManager n name = Ok m -> serving (NewPool m vip vport mac).
Proof.
  unfold NewManager. destruct (RemoveMemlock n) as [n1 [x|]]; [done|].
  destruct (InterfaceByName n1 name) as [x|i]; [done|].
  destruct (loadLbObjects n1) as [n2 [x|]]; [done|].
  destruct (attach_fallback n2 _ i) as [n3 [[? x]|l]]; [by destruct (lbObjects_Close n3)|].
  intros [= <-]. split; cbn.
  - exists lb_config_zero. split; [|done].
    by rewrite (am_lookup_init (zero := lb_config_zero) (max := 1)).
  - intros k Hk. by rewrite (am_lookup_init (zero := backend_info_zero) (max := MAX_BACKENDS))
      by (unfold MAX_BACKENDS; lia).
Qed.

Lemma Sync_serving (p : Pool Manager) new p' :
  tables_inv e p -> serving p -> SyncM e p new = (p', None) -> serving p'.
Proof.
  intros (Hinv & Hold & _) [_ Hfw] Hs. pose proof (Sync_v4 e _ _ _ Hs) as Hv4.
  pose proof (Sync_max e _ _ _ Hs) as Hmax.
  apply (Sync_success e) in Hs as [(Hf & _ & Hc & _) (_ & Hbs & _)]; [|done].
  cbn [view Manager_laws manager_view d_fwd d_cfg] in Hf, Hc.
  unfold serving. rewrite Hbs. split.
  - rewrite Hc. eexists. split; [done|]. apply u32_id. unfold is_u32. lia.
  - intros k Hk. rewrite Hf, <-(idx_small k) by lia.
    rewrite dp_sync_fwd by (done || lia). destruct (new !! k); [done|].
    case_decide as Hlt; [done|]. cbn [d_fwd manager_view]. rewrite idx_small by lia.
    rewrite Hfw by done. by rewrite lookup_ge_None_2 by lia.
Qed.

(** The backends an index can stand for while the list changes. *)
Definition old_or_new (p : Pool Manager) (new : list Backend) (z : Z) (b : backend_info)
    : Prop :=
  exists o, (backends p !! Z.to_nat z = Some o \/ new !! Z.to_nat z = Some o) /\
    entry_of e o = Some b.

Lemma fwd_between_old_or_new (p : Pool Manager) new (m : Manager) z b :
  serving p -> Z.of_nat (length new) < 2 ^ 32 ->
  fwd_between e new (manager_view (bpfManager p)) (manager_view m) ->
  am_lookup (BackendMap (objs m)) z = Some b -> bi_ipv4 b <> 0 -> old_or_new p new z b.
Proof.
  intros [_ Hfw] Hn Hbtw Hz Hnz.
  assert (0 <= z < MAX_BACKENDS) as Hr.
  { destruct (decide (0 <= z < MAX_BACKENDS)); [done|]. by rewrite am_lookup_out in Hz. }
  unfold MAX_BACKENDS in Hr. specialize (Hbtw z). cbn [manager_view d_fwd] in Hbtw.
  rewrite Hz in Hbtw. destruct Hbtw as [Hi|[Hi|(i & o & -> & Ho & Hi)]].
  - rewrite <-(Z2Nat.id z) in Hi by lia. rewrite Hfw in Hi by lia.
    destruct (backends p !! Z.to_nat z) as [o|] eqn:Ho; [|by simplify_eq].
    exists o. auto.
  - by simplify_eq.
  - pose proof (lookup_lt_Some _ _ _ Ho). exists o.
    rewrite idx_small by lia. rewrite Nat2Z.id. auto.
Qed.

(** The data plane serves the snapshot.  A pool on a new manager serves its empty
    list, and after every successful [Sync] the configured count is the length of
    the new list and [backend_map] holds exactly the entries of that list, zeroes
    in all other slots. *)
Theorem serving_invariant :
  (forall n name m vip vport mac,
     NewManager n name = Ok m -> serving (NewPool m vip vport mac)) /\
  (forall (p : Pool Manager) new p',
     tables_inv e p -> serving p -> SyncM e p new = (p', None) -> serving p').
Proof. split; [apply NewPool_serving|apply Sync_serving]. Qed.

(** The maps are well formed in every state of the trace. *)
Lemma sync_trace_wf (p : Pool Manager) new i m :
  wf_maps (objs (bpfManager p)) -> ports_ok new -> is_u16 (vport p) ->
  sync_trace (BPFUpdater0 := Manager_updater e) p new !! i = Some m -> wf_maps (objs m).
Proof.
  intros Hwf Hports Hvp Hi.
  set (P := fun x : Traced Manager =>
    wf_maps (objs (fst x)) /\ Forall (fun m => wf_maps (objs m)) (snd x)).
  assert (forall x R (f : Manager -> Manager * R),
    (wf_maps (objs (fst x)) -> wf_maps (objs (fst (f (fst x))))) ->
    P x -> P (fst (record x f))) as Hrec.
  { intros x R f Hf [Hx Hlog]. unfold record. specialize (Hf Hx).
    destruct (f (fst x)) as [t r]. split; [done|by constructor]. }
  enough (P (bpfManager (fst (traced_Sync (BPFUpdater0 := Manager_updater e) p new))))
    as [_ Hall].
  { unfold sync_trace in Hi. apply list_elem_of_lookup_2 in Hi.
    rewrite elem_of_reverse in Hi. by eapply Forall_forall in Hall. }
  apply (Sync_preserves P P); [..|done|by split].
  - intros k b x Hk. apply Hrec. intros Ht. apply UpdateBackend_wf; [done|].
    by eapply Forall_lookup_1 in Hports.
  - intros k o x _. apply Hrec, ClearBackend_wf.
  - intros b x _. apply Hrec. intros Ht. cbn. by rewrite AttachVethXDP_objs.
  - intros name x. apply Hrec. intros Ht. cbn. by rewrite DetachVethXDP_objs.
  - intros x. apply Hrec. intros Ht. apply UpdateConfig_wf; [done..|apply u32_range].
Qed.

(** Requests during a reconciliation.  A packet that arrives in any state of the
    manager between two calls of [Sync], including a [Sync] that fails half way,
    passes [xdp_lb_ingress] unchanged or is rewritten for a backend that the old or
    the new list has at the selected index. *)
Theorem sync_interleaving (p : Pool Manager) new i m s a s' :
  serving p -> wf_maps (objs (bpfManager p)) -> ports_ok new -> is_u16 (vport p) ->
  Z.of_nat (length new) < 2 ^ 32 ->
  sync_trace (BPFUpdater0 := Manager_updater e) p new !! i = Some m ->
  ks_maps s = objs m -> exec (xdp_lb_ingress e) s = Some (a, s') ->
  s' = s \/ exists z c b, ks_pkt s' = dnat e c b (ks_pkt s) /\ old_or_new p new z b.
Proof.
  intros Hp Hwf Hports Hvp Hn Hi Hs.
  pose proof (sync_trace_wf p new i m Hwf Hports Hvp Hi) as Hm.
  rewrite exec_ingress_run by (by rewrite Hs). intros [= <- <-]. unfold ingress_result.
  destruct (select _ _ _ _) as [[[z c] b]|] eqn:Hsel; [right|by left].
  exists z, c, b. split; [done|].
  apply select_Some in Hsel as (_ & _ & _ & _ & _ & Hb & Hnz). rewrite Hs in Hb.
  apply (sync_trace_states e) in Hi as [Hf _].
  eapply fwd_between_old_or_new; [done|done|exact Hf|done|done].
Qed.

(** The configuration is the last thing [Sync] writes.  In every state but the
    last of a reconciliation the data plane still announces the previous
    configuration, and recording the states changes neither the result nor the
    manager [Sync] ends with. *)
Theorem sync_config_last (p : Pool Manager) new :
  (forall i m, sync_trace (BPFUpdater0 := Manager_updater e) p new !! i = Some m ->
     S i <> length (sync_trace (BPFUpdater0 := Manager_updater e) p new) ->
     am_lookup (ConfigMap (objs m)) 0 = am_lookup (ConfigMap (objs (bpfManager p))) 0) /\
  (map_pool fst (fst (traced_Sync (BPFUpdater0 := Manager_updater e) p new)),
   snd (traced_Sync (BPFUpdater0 := Manager_updater e) p new)) = SyncM e p new.
Proof.
  split; [|apply traced_Sync_erase]. intros i m Hi Hlast.
  apply (sync_trace_states e) in Hi as [_ [Hc|[? _]]]; [exact Hc|done].
Qed.
End Requests.

(** ** Witnesses *)

Module InterleaveWitness.
Import RefMaps RefHost.

Lemma pool0_serving : serving LE pool0.
Proof. apply (NewPool_serving LE ∅ "eth0"), mgr0_new. Qed.
Lemma pool1_serving : serving LE pool1.
Proof. eapply Sync_serving; [apply pool0_inv|apply pool0_serving|apply sync1]. Qed.

Lemma serving_invariant_witness : serving LE pool2.
Proof.
  destruct (serving_invariant LE) as [_ Hstep].
  apply (Hstep pool1 [app2]); [apply pool1_inv|apply pool1_serving|apply sync2].
Defined.

(** A pool that serves both backends of the sample maps. *)
Definition mgr_s : Manager :=
  {| objs := sample_maps; xdpLink := Some 2;
     vethLinks := {[ "veth1" := 10; "veth2" := 11 ]} : gmap string Z; ifaceName := "eth0";
     ifaceIdx := 2; net := ∅ |}.
Definition pool_s : Pool Manager :=
  {| bpfManager := mgr_s; backends := [app1; app2]; byVeth := {["veth1"; "veth2"]};
     vip := v4InV6Prefix ++ vip_ip; vport := 8080; srcMAC := host_mac |}.

Lemma pool_s_serving : serving LE pool_s.
Proof.
  split; [exists sample_config; split; reflexivity|].
  intros [|[|k]] Hk; [reflexivity..|]. simpl. unfold RefMaps.array_lookup, RefMaps.in_range.
  rewrite (proj2 (Z.leb_le 0 _)), (proj2 (Z.ltb_lt _ MAX_BACKENDS))
    by (unfold MAX_BACKENDS; lia).
  simpl. by rewrite lookup_insert_ne, lookup_singleton_ne by lia.
Qed.

(** The states when the first backend goes away: clear index 0, write it, clear index 1,
    detach, configuration. *)
Definition trace_s : list Manager :=
  sync_trace (BPFUpdater0 := Manager_updater LE) pool_s [app2].
Definition trace_s1 : Manager := default mgr_s (trace_s !! 1%nat).

Example trace_s_length : length trace_s = 5%nat.
Proof. reflexivity. Qed.
Lemma trace_s_1 : trace_s !! 1%nat = Some trace_s1.
Proof. reflexivity. Qed.

(** After the second call index 0 already holds the new backend. *)
Definition during : kstate :=
  {| ks_pkt := request; ks_maps := objs trace_s1; ks_cpu := 0; ks_rand := 6 |}.

Lemma during_wf : wf_maps (ks_maps during).
Proof.
  apply (sync_trace_wf LE pool_s [app2] 1);
    [apply sample_maps_wf|apply ports2|apply vport_ok|apply trace_s_1].
Qed.

Lemma sync_interleaving_witness :
  ingress_result LE during = during \/
  exists z c b, ks_pkt (ingress_result LE during) = dnat LE c b request /\
    old_or_new LE pool_s [app2] z b.
Proof.
  apply (sync_interleaving LE pool_s [app2] 1 trace_s1 during XDP_PASS);
    [apply pool_s_serving|apply sample_maps_wf|apply ports2|apply vport_ok|simpl; lia
    |apply trace_s_1|reflexivity|apply exec_ingress_run, during_wf].
Defined.

(** The first four states still announce two backends. *)
Lemma sync_config_last_witness :
  am_lookup (ConfigMap (objs trace_s1)) 0 = am_lookup (ConfigMap (objs (bpfManager pool_s))) 0.
Proof.
  destruct (sync_config_last LE pool_s [app2]) as [Hkeep _].
  apply (Hkeep 1%nat trace_s1); [apply trace_s_1|].
  change (sync_trace pool_s [app2]) with trace_s. rewrite trace_s_length. discriminate.
Defined.
End InterleaveWitness.
