(* ===== verification/Attach.v ===== *)
(** * Which program runs on which interface

    The kernel side of the attachments: [HostLaws] relates the calls of loader.go to the
    XDP program each interface runs, and the theorems follow it through the life of a
    manager, from [NewManager] over any number of [Sync]s to [Close]. *)

From S2P Require Import Prelude Types BpfMaps Ebpf Checksum GoNet Xdp Samples Manager Pool.
From S2P Require Import Reconcile Tables ManagerSpec Fleet.

Section Attach.
Context {KM : BpfMaps} {KL : BpfMapsLaws} {HH : Host} {HL : HostLaws} `{!GoRange}.

Lemma attach_fallback_ok n prog i n' l :
  attach_fallback n prog i = (n', Ok l) ->
  link_iface l = i /\
  forall j, attached n' j = if decide (j = i) then Some prog else attached n j.
Proof.
  unfold attach_fallback. destruct (AttachXDP n _) as [n1 [x|l1]] eqn:H1.
  - destruct (AttachXDP n1 _) as [n2 [y|l2]] eqn:H2; [done|]. intros [= <- <-].
    apply attach_ok in H2 as [? H2]. split; [done|]. intros j. rewrite H2. simpl.
    case_decide; [done|]. by eapply attach_err.
  - intros [= <- <-]. by apply attach_ok in H1.
Qed.

Lemma attach_fallback_err n prog i n' x :
  attach_fallback n prog i = (n', Err x) -> forall j, attached n' j = attached n j.
Proof.
  unfold attach_fallback. destruct (AttachXDP n _) as [n1 [x1|l1]] eqn:H1; [|done].
  destruct (AttachXDP n1 _) as [n2 [y|l2]] eqn:H2; [|done]. intros [= <- _] j.
  rewrite (attach_err _ _ _ _ H2). by eapply attach_err.
Qed.

Lemma LbClose_attached closers :
  Forall (fun f => forall n n' r, f n = (n', r) -> forall i, attached n' i = attached n i)
    closers ->
  forall n n' r, LbClose n closers = (n', r) -> forall i, attached n' i = attached n i.
Proof.
  induction 1 as [|f closers Hf _ IH]; intros n n' r Hc i; simpl in Hc; [by simplify_eq|].
  destruct (f n) as [n1 [x|]] eqn:H1.
  - simplify_eq. by eapply Hf.
  - rewrite (IH _ _ _ Hc). by eapply Hf.
Qed.

Lemma lbObjects_Close_attached n n' r :
  lbObjects_Close n = (n', r) -> forall i, attached n' i = attached n i.
Proof.
  apply LbClose_attached.
  repeat (constructor; [apply LbClose_attached; repeat (constructor;
    [intros ? ? ?; apply object_close_attached|]); constructor|]). constructor.
Qed.

Lemma loadLbObjects_attached n n' r :
  loadLbObjects n = (n', r) -> forall i, attached n' i = attached n i.
Proof.
  unfold loadLbObjects. destruct loadLb as [x|spec]; [by intros [= <- _]|].
  destruct (LoadAndAssign spec _ n) as [n1 r1] eqn:Hl. intros [= <- _]. by eapply load_attached.
Qed.

(** A [Close] that fails changes nothing: more than the kernel promises. *)
Definition close_atomic : Prop :=
  forall n l n' x, link_Close n l = (n', Some x) -> forall i, attached n' i = attached n i.

Lemma links_work_atomic : links_work -> close_atomic.
Proof. intros [_ Hc] n l n' x Hx. destruct (Hc n l) as [n1 Hn]. congruence. Qed.

(** ** The invariant of the attachments

    [f] gives the index of the interface each veth name stands for, for as long as
    the manager lives. *)
Section Indices.
Context (f : string -> Z) (Hinj : forall x y, f x = f y -> x = y).

Record attach_inv (m : Manager) : Prop := {
  ai_link name l : vethLinks m !! name = Some l -> link_iface l = f name;
  ai_veth name :
    attached (net m) (f name) = None \/
    (attached (net m) (f name) = Some XdpVethSnat /\ name ∈ dom (vethLinks m));
  ai_exact : close_atomic ->
    forall name, name ∈ dom (vethLinks m) -> attached (net m) (f name) = Some XdpVethSnat;
  ai_iface name : f name <> ifaceIdx m;
  ai_ingress :
    exists l, xdpLink m = Some l /\ link_iface l = ifaceIdx m /\
      attached (net m) (ifaceIdx m) = Some XdpLbIngress
}.

(** Every veth with a link runs the SNAT program: so it is as long as no [Close] fails. *)
Definition attach_exact (m : Manager) : Prop :=
  forall name, name ∈ dom (vethLinks m) -> attached (net m) (f name) = Some XdpVethSnat.

(** Where the invariant is exact, a veth runs the program if and only if it has a link. *)
Lemma attach_exact_iff m name :
  attach_inv m -> attach_exact m ->
  attached (net m) (f name) = if decide (name ∈ dom (vethLinks m)) then Some XdpVethSnat else None.
Proof.
  intros Hm Hx. case_decide as Hn; [by apply Hx|]. by destruct (ai_veth _ Hm name) as [|[_ ?]].
Qed.

(** A change of the interface of one veth only. *)
Lemma attach_inv_change m n name v (links : gmap string link_t) :
  attach_inv m ->
  (forall i, attached n i = if decide (i = f name) then v else attached (net m) i) ->
  (forall k l, links !! k = Some l -> link_iface l = f k) ->
  (forall k, k <> name -> k ∈ dom links <-> k ∈ dom (vethLinks m)) ->
  (v = None \/ v = Some XdpVethSnat /\ name ∈ dom links) ->
  (close_atomic -> name ∈ dom links -> v = Some XdpVethSnat) ->
  attach_inv (with_vethLinks (with_net m n) links) /\
  ((name ∈ dom links -> v = Some XdpVethSnat) -> attach_exact m ->
   attach_exact (with_vethLinks (with_net m n) links)).
Proof.
  intros [H1 H2 Hex H3 H4] Hn Hl Hd Hv Hva.
  assert (forall k, k <> name -> attached n (f k) = attached (net m) (f k)) as Hne.
  { intros k Hk. rewrite Hn, decide_False; [done|by intros ?%Hinj]. }
  assert (attached n (f name) = v) as Hname by (by rewrite Hn, decide_True).
  split; [split; cbn|]; try done.
  - intros k. destruct (decide (k = name)) as [->|Hk]; [by rewrite Hname|].
    rewrite (Hne k Hk), (Hd k Hk). apply H2.
  - intros Ha k Hk. destruct (decide (k = name)) as [->|Hkn]; [rewrite Hname; auto|].
    rewrite (Hne k Hkn). apply (Hex Ha). by apply (Hd k Hkn).
  - setoid_rewrite Hn. by rewrite decide_False by (intros Heq; by apply (H3 name)).
  - intros Hin Hx k Hk. cbn in *. destruct (decide (k = name)) as [->|Hkn]; [rewrite Hname; auto|].
    rewrite (Hne k Hkn). apply Hx. by apply (Hd k Hkn).
Qed.

Lemma attach_inv_net m n :
  attach_inv m -> (forall i, attached n i = attached (net m) i) -> attach_inv (with_net m n).
Proof.
  intros [H1 H2 Hex H3 H4] Hn. split; cbn; [done|..|done|by setoid_rewrite Hn].
  - intros k. by rewrite Hn.
  - intros Ha k Hk. rewrite Hn. by apply Hex.
Qed.

Lemma with_vethLinks_id m n : with_vethLinks (with_net m n) (vethLinks m) = with_net m n.
Proof. by destruct m. Qed.

Lemma AttachVethXDP_attach m name :
  attach_inv m ->
  attach_inv (fst (AttachVethXDP m name (f name))) /\
  (attach_exact m -> attach_exact (fst (AttachVethXDP m name (f name)))).
Proof.
  intros Hm. unfold AttachVethXDP. destruct (vethLinks m !! name) eqn:Hl; [done|].
  destruct (attach_fallback _ _ _) as [n [[x y]|l]] eqn:Ha; cbn [fst].
  - pose proof (attach_fallback_err _ _ _ _ _ Ha) as Hn. split; [by apply attach_inv_net|].
    intros Hx k Hk. cbn. rewrite Hn. by apply Hx.
  - apply attach_fallback_ok in Ha as [Hi Hn].
    assert (name ∈ dom (<[name:=l]> (vethLinks m))) as Hin by (rewrite dom_insert_L; set_solver).
    destruct (attach_inv_change m n name (Some XdpVethSnat) (<[name:=l]> (vethLinks m)) Hm Hn)
      as [? Hx]; [..|split; [done|by apply Hx]]; try by auto.
    + intros k l'. rewrite lookup_insert. case_decide; [|by apply Hm]. intros [= <-]. by subst.
    + intros k Hk. rewrite dom_insert_L. set_solver.
Qed.

Lemma AttachVethXDP_attach_inv m name :
  attach_inv m -> attach_inv (fst (AttachVethXDP m name (f name))).
Proof. intros Hm. by apply AttachVethXDP_attach. Qed.

Lemma DetachVethXDP_attach m name :
  attach_inv m ->
  attach_inv (fst (DetachVethXDP m name)) /\
  (snd (DetachVethXDP m name) = None -> attach_exact m ->
   attach_exact (fst (DetachVethXDP m name))).
Proof.
  intros Hm. unfold DetachVethXDP. destruct (vethLinks m !! name) as [l|] eqn:Hl; [|done].
  pose proof (ai_link _ Hm _ _ Hl) as Hi.
  destruct (link_Close _ _) as [n [x|]] eqn:Hc; cbn [fst snd].
  - split; [|done]. pose proof (close_err _ _ _ _ Hc) as Hn. rewrite Hi in Hn.
    rewrite <- with_vethLinks_id.
    eapply (attach_inv_change m n name (attached n (f name)) (vethLinks m) Hm).
    + intros i. case_decide as Hf; [by subst|]. by destruct (Hn i) as [|[? _]].
    + apply Hm.
    + done.
    + destruct (Hn (f name)) as [-> |[_ ->]]; [apply Hm|by left].
    + intros Hat Hin. rewrite (Hat _ _ _ _ Hc). by apply (ai_exact _ Hm).
  - pose proof (close_ok _ _ _ Hc) as Hn. rewrite Hi in Hn.
    assert (name ∉ dom (delete name (vethLinks m))) as Hni by (rewrite dom_delete_L; set_solver).
    destruct (attach_inv_change m n name None (delete name (vethLinks m)) Hm Hn)
      as [? Hx]; [..|split; [done|intros _; by apply Hx]]; try by auto.
    + intros k l'. rewrite lookup_delete. case_decide; [done|by apply Hm].
    + intros k Hk. rewrite dom_delete_L. set_solver.
Qed.

Lemma DetachVethXDP_attach_inv m name :
  attach_inv m -> attach_inv (fst (DetachVethXDP m name)).
Proof. intros Hm. by apply DetachVethXDP_attach. Qed.

Lemma with_objs_attach_inv m o : attach_inv m -> attach_inv (with_objs m o).
Proof. intros [H1 H2 H3 H4 H5]. by split. Qed.

(** A new manager on a host whose veths run no XDP program. *)
Lemma NewManager_attach_inv n name m :
  NewManager n name = Ok m -> (forall x, f x <> ifaceIdx m) ->
  (forall x, attached n (f x) = None) -> attach_inv m.
Proof.
  clear Hinj.
  unfold NewManager. destruct (RemoveMemlock n) as [n1 [x|]] eqn:H1; [done|].
  destruct (InterfaceByName n1 name) as [x|i]; [done|].
  destruct (loadLbObjects n1) as [n2 [x|]] eqn:H2; [done|].
  destruct (attach_fallback n2 _ i) as [n3 [[? x]|l]] eqn:H3;
    [by destruct (lbObjects_Close n3)|].
  intros [= <-] Hne Hnone. apply attach_fallback_ok in H3 as [Hi H3]. split; cbn in *.
  - intros k l'. by rewrite lookup_empty.
  - intros k. left. rewrite H3, decide_False by done.
    by rewrite (loadLbObjects_attached _ _ _ H2), (memlock_attached _ _ _ H1), Hnone.
  - intros _ k. rewrite dom_empty_L. set_solver.
  - done.
  - exists l. rewrite H3, decide_True by done. done.
Qed.

Lemma NewManager_fails n name n' x :
  NewManager n name = Err (n', x) -> forall i, attached n' i = attached n i.
Proof.
  unfold NewManager. destruct (RemoveMemlock n) as [n1 [y|]] eqn:H1;
    pose proof (memlock_attached _ _ _ H1) as Ha1; [by intros [= <- _]|].
  destruct (InterfaceByName n1 name) as [y|i]; [by intros [= <- _]|].
  destruct (loadLbObjects n1) as [n2 [y|]] eqn:H2;
    pose proof (loadLbObjects_attached _ _ _ H2) as Ha2;
    [intros [= <- _] j; congruence|].
  destruct (attach_fallback n2 _ i) as [n3 [[? y]|l]] eqn:H3; [|done].
  destruct (lbObjects_Close n3) as [n4 r] eqn:H4. intros [= <- _] j.
  rewrite (lbObjects_Close_attached _ _ _ H4), (attach_fallback_err _ _ _ _ _ H3).
  congruence.
Qed.

(** The veths of a list have the indices [f] says. *)
Definition veths_indexed (bs : list Backend) : Prop :=
  Forall (fun b => VethIdx b = f (VethName b)) bs.

Lemma UpdateBackend_attach_inv e m i ip port mac :
  attach_inv m -> attach_inv (fst (UpdateBackend e m i ip port mac)).
Proof.
  intros Hm. unfold UpdateBackend. destruct (To4 _); [|done].
  destruct (am_update _ _ _); [done|].
  destruct (hm_update _ _ _); cbn [fst]; repeat apply with_objs_attach_inv; done.
Qed.

Lemma ClearBackend_attach_inv e m i ip :
  attach_inv m -> attach_inv (fst (ClearBackend e m i ip)).
Proof.
  intros Hm. unfold ClearBackend. destruct (am_update _ _ _); [done|].
  destruct (To4 _); [|by apply with_objs_attach_inv].
  destruct (hm_delete _ _); cbn [fst]; repeat apply with_objs_attach_inv; done.
Qed.

(** The same for their two halves. *)
Lemma halves_attach_inv e m :
  attach_inv m ->
  (forall i ip port mac, attach_inv (fst (UpdateBackend_forward e i ip port mac m))) /\
  (forall i ip, attach_inv (fst (UpdateBackend_reverse e i ip m))) /\
  (forall i, attach_inv (fst (ClearBackend_forward i m))) /\
  (forall ip, attach_inv (fst (ClearBackend_reverse e ip m))).
Proof.
  intros Hm. pose proof (with_objs_attach_inv m) as Ho.
  split_and!; intros; unfold UpdateBackend_forward, UpdateBackend_reverse, ClearBackend_forward,
    ClearBackend_reverse; repeat case_match; cbn [fst]; auto.
Qed.

Lemma UpdateConfig_attach_inv e m ip port n mac :
  attach_inv m -> attach_inv (fst (UpdateConfig e m ip port n mac)).
Proof.
  intros Hm. unfold UpdateConfig. destruct (am_update _ _ _); [done|].
  by apply with_objs_attach_inv.
Qed.

Lemma Sync_attach_inv e (p : Pool Manager) new :
  attach_inv (bpfManager p) -> veths_indexed new ->
  attach_inv (bpfManager (fst (SyncM e p new))).
Proof.
  intros Hm Hidx. apply (Sync_preserves attach_inv attach_inv); cbn; [..|done|done].
  - intros i b t _. apply UpdateBackend_attach_inv.
  - intros i o t _. apply ClearBackend_attach_inv.
  - intros b t Hb Ht. rewrite (proj1 (Forall_forall _ _) Hidx b Hb).
    by apply AttachVethXDP_attach_inv.
  - intros name t. apply DetachVethXDP_attach_inv.
  - intros t. apply UpdateConfig_attach_inv.
Qed.

(** A successful [Sync] also keeps the exact correspondence: all its detachments succeed. *)
Lemma with_objs_exact m o : attach_exact m -> attach_exact (with_objs m o).
Proof. done. Qed.

Lemma UpdateBackend_exact e m i ip port mac :
  attach_exact m -> attach_exact (fst (UpdateBackend e m i ip port mac)).
Proof.
  intros Hm. unfold UpdateBackend. destruct (To4 _); [|done].
  destruct (am_update _ _ _); [done|]. by destruct (hm_update _ _ _).
Qed.

Lemma ClearBackend_exact e m i ip :
  attach_exact m -> attach_exact (fst (ClearBackend e m i ip)).
Proof.
  intros Hm. unfold ClearBackend. destruct (am_update _ _ _); [done|].
  destruct (To4 _); [|done]. by destruct (hm_delete _ _).
Qed.

Lemma detach_loop_exact e stale (m : Manager) bv m' bv' :
  attach_inv m /\ attach_exact m ->
  detach_loop (BPFUpdater0 := Manager_updater e) stale m bv = (m', bv', None) ->
  attach_inv m' /\ attach_exact m'.
Proof.
  revert m bv. induction stale as [|[name o] stale IH]; intros m bv [Hm Hx].
  { by intros [= <- _]. }
  cbn [detach_loop bu_DetachVethXDP Manager_updater].
  destruct (DetachVethXDP_attach m name Hm) as [Hm' Hx'].
  destruct (DetachVethXDP m name) as [m1 [x|]]; [done|]. apply IH. cbn in *. auto.
Qed.

Lemma Sync_attach_exact e (p : Pool Manager) new p' :
  attach_inv (bpfManager p) -> attach_exact (bpfManager p) -> veths_indexed new ->
  SyncM e p new = (p', None) ->
  attach_inv (bpfManager p') /\ attach_exact (bpfManager p').
Proof.
  intros Hm Hx Hidx. set (P := fun m => attach_inv m /\ attach_exact m).
  assert (forall i o t, backends p !! i = Some o -> P t ->
    P (fst (ClearBackend e t (u32 (Z.of_nat i)) (BIP o)))) as Hclr
    by (intros i o t _ []; split; [by apply ClearBackend_attach_inv|by apply ClearBackend_exact]).
  unfold SyncM, Sync.
  pose proof (write_loop_preserves (BPFUpdater0 := Manager_updater e) P p new) as Hw.
  specialize (Hw ltac:(intros i b t _ []; split;
    [by apply UpdateBackend_attach_inv|by apply UpdateBackend_exact]) Hclr).
  specialize (Hw ltac:(intros b t Hb []; cbn; rewrite (proj1 (Forall_forall _ _) Hidx b Hb);
    destruct (AttachVethXDP_attach t (VethName b)); [done|]; split; auto) new 0%nat
    {| ss_mgr := bpfManager p; ss_byVeth := byVeth p; ss_old := build_oldByVeth (backends p) |}
    (drop_0 _) (conj Hm Hx)).
  destruct (write_loop _ _ _ _) as [s [x|]]; [done|].
  pose proof (clear_loop_preserves (BPFUpdater0 := Manager_updater e) P p Hclr _ (length new)
    (ss_mgr s) eq_refl Hw) as Hc.
  destruct (clear_loop _ _ _) as [m1 [x|]]; [done|].
  destruct (detach_loop _ _ _) as [[m2 bv] [x|]] eqn:Hd; [done|].
  apply detach_loop_exact in Hd as [Hm2 Hx2]; [|done].
  cbn [bu_UpdateConfig Manager_updater]. unfold UpdateConfig.
  destruct (am_update _ _ _); [done|]. intros [= <-]. by split; [apply with_objs_attach_inv|].
Qed.

(** ** Close *)

Lemma close_links_spec links m errs m' errs' :
  close_links links m errs = (m', errs') ->
  xdpLink m' = xdpLink m /\ ifaceIdx m' = ifaceIdx m /\
  (forall k, vethLinks m' !! k =
     if decide (k ∈ map fst links) then None else vethLinks m !! k) /\
  (errs' = [] -> errs = [] /\ forall i, attached (net m') i =
     if decide (i ∈ map (fun x => link_iface (snd x)) links) then None
     else attached (net m) i).
Proof.
  revert m errs. induction links as [|[k l] links IH]; intros m errs Hc.
  { injection Hc as <- <-. split_and!; [done..|]. intros ->. split; [done|].
    intros i. by rewrite decide_False by (apply not_elem_of_nil). }
  cbn [close_links] in Hc. destruct (link_Close (net m) l) as [n r] eqn:Hl.
  apply IH in Hc as (Hx & Hi & Hv & Hn). cbn in *. split_and!; [done..| |].
  - intros j. rewrite Hv, lookup_delete.
    destruct (decide (j = k)) as [->|Hne].
    + rewrite (decide_True (P := k ∈ k :: _)) by set_solver.
      rewrite (decide_True (P := k = k)) by done. by case_decide.
    + rewrite (decide_False (P := k = j)) by done. repeat case_decide; set_solver.
  - intros He. apply Hn in He as [He Ha].
    destruct r as [x|]; [by destruct errs|]. split; [done|]. intros i. rewrite Ha.
    rewrite (close_ok _ _ _ Hl). destruct (decide (i = link_iface l)) as [->|Hne].
    + rewrite (decide_True (P := link_iface l ∈ link_iface l :: _)) by set_solver.
      by case_decide.
    + repeat case_decide; set_solver.
Qed.

Lemma Manager_Close_links m m' r :
  Manager_Close m = (m', r) -> vethLinks m' = ∅.
Proof.
  unfold Manager_Close.
  destruct (close_links _ _ _) as [m1 errs] eqn:Hc.
  apply close_links_spec in Hc as (_ & _ & Hv & _).
  assert (vethLinks m1 = ∅) as Hempty.
  { apply map_empty. intros k. rewrite Hv. case_decide as Hk; [done|].
    apply not_elem_of_dom. rewrite <-range_dom. by rewrite elem_of_list_to_set. }
  destruct (xdpLink m1) as [l|]; [destruct (link_Close _ _)|];
    (destruct (lbObjects_Close _) as [n' r']; by intros [= <- _]).
Qed.

Lemma Manager_Close_ifaceIdx m m' r :
  Manager_Close m = (m', r) -> ifaceIdx m' = ifaceIdx m.
Proof.
  unfold Manager_Close. destruct (close_links _ _ _) as [m1 errs] eqn:Hc.
  apply close_links_spec in Hc as (_ & Hi & _).
  destruct (xdpLink m1) as [l|]; [destruct (link_Close _ _)|];
    (destruct (lbObjects_Close _) as [n1 r1]; by intros [= <- _]).
Qed.

Lemma Manager_Close_ok m m' :
  attach_inv m -> Manager_Close m = (m', None) ->
  (forall name, attached (net m') (f name) = None) /\
  attached (net m') (ifaceIdx m) = None.
Proof.
  intros [H1 H2 _ H3 (l & Hl & Hli & _)]. unfold Manager_Close.
  destruct (close_links _ _ _) as [m1 errs] eqn:Hc.
  apply close_links_spec in Hc as (Hx & _ & _ & Ha). rewrite Hx, Hl.
  destruct (link_Close (net m1) l) as [n2 r2] eqn:H4. cbn [net with_net].
  destruct (lbObjects_Close n2) as [n3 r3] eqn:H5. cbn [net with_net].
  pose proof (lbObjects_Close_attached _ _ _ H5) as Hn3.
  destruct r3 as [x3|]; [by destruct r2, errs|].
  destruct r2 as [x2|]; [by destruct errs|]. destruct errs as [|x1 errs]; [|done].
  intros [= <-]. cbn [net with_net]. destruct (Ha eq_refl) as [_ Hn1].
  pose proof (close_ok _ _ _ H4) as Hn2.
  split; [|by rewrite Hn3, Hn2, decide_True].
  intros name. rewrite Hn3, Hn2, Hn1. repeat case_decide; try done.
  destruct (H2 name) as [|[_ Hin]]; [done|]. exfalso.
  assert (exists l', vethLinks m !! name = Some l') as [l' Hl'] by (by apply elem_of_dom).
  match goal with H : f name ∉ _ |- _ => apply H end. apply list_elem_of_fmap.
  exists (name, l'). split; [symmetry; by apply H1|].
  rewrite range_perm. by apply elem_of_map_to_list.
Qed.

(** ** Properties *)

(** C33: start-up attaches the ingress program or nothing.  A manager that
    [NewManager] returns runs [xdp_lb_ingress] on its interface and nothing on
    the veths; when [NewManager] fails, at whatever step, every interface runs
    what it ran before. *)
Theorem start_attaches n name :
  (forall x, attached n (f x) = None) ->
  match NewManager n name with
  | Ok m => (forall x, f x <> ifaceIdx m) -> attach_inv m
  | Err (n', _) => forall i, attached n' i = attached n i
  end.
Proof.
  intros Hnone. destruct (NewManager n name) as [[n' x]|m] eqn:Hm.
  - by eapply NewManager_fails.
  - intros Hne. by eapply NewManager_attach_inv.
Qed.

(** C21: which veths run the SNAT program.  After a successful [Sync], from a state in which
    every recorded link is attached (as it is while no [Close] fails), a veth runs
    [xdp_veth_snat] if and only if it belongs to a backend of the new list or is left over
    from a failed [Sync]: recorded in [byVeth] but not in the snapshot before.  The left-over
    veths are never detached; they only become fewer, when a list contains them again.  With
    none left over the program runs on exactly the veths of the new list.  The ingress
    interface still runs [xdp_lb_ingress]. *)
Theorem attachments_follow e (p : Pool Manager) new p' :
  attach_inv (bpfManager p) -> attach_exact (bpfManager p) -> veths_indexed new ->
  pool_inv e (UpdaterLaws0 := Manager_laws e) p -> SyncM e p new = (p', None) ->
  let left_over := byVeth p ∖ veths_of (backends p) in
  (forall name, attached (net (bpfManager p')) (f name) =
     if decide (name ∈ veths_of new ∪ left_over) then Some XdpVethSnat else None) /\
  attached (net (bpfManager p')) (ifaceIdx (bpfManager p')) = Some XdpLbIngress /\
  attach_exact (bpfManager p') /\
  byVeth p' ∖ veths_of (backends p') = left_over ∖ veths_of new.
Proof.
  intros Hm Hx Hidx Hinv Hs left_over.
  destruct (Sync_attach_exact e p new p' Hm Hx Hidx Hs) as [Hm' Hx'].
  apply (Sync_success e) in Hs as [(_ & _ & _ & Hv) (Hinv' & Hbs & _)]; [|done].
  cbn [view Manager_laws manager_view d_veths dp_sync dp_config dp_set_veths] in Hv.
  unfold pool_inv, veths_agree in Hinv, Hinv'.
  cbn [view Manager_laws manager_view d_veths] in Hinv, Hinv'.
  rewrite <-Hinv, union_difference_left_over in Hv. fold left_over in Hv.
  split_and!; [| |done|].
  - intros name. by rewrite attach_exact_iff, Hv.
  - by destruct (ai_ingress _ Hm') as (l & _ & _ & ?).
  - rewrite Hinv', Hv, Hbs. set_solver.
Qed.

(** A failed [Sync] loses no attachment.  Whatever [Sync] returns, the ingress
    interface still runs [xdp_lb_ingress], and a veth's interface runs
    [xdp_veth_snat] only if the manager holds a link for the veth, so that
    [Close] will find it. *)
Theorem attachments_recorded e (p : Pool Manager) new p' r :
  attach_inv (bpfManager p) -> veths_indexed new -> SyncM e p new = (p', r) ->
  attach_inv (bpfManager p').
Proof.
  intros Hm Hidx Hs. pose proof (Sync_attach_inv e p new Hm Hidx) as Hm'.
  by rewrite Hs in Hm'.
Qed.

(** [Close] detaches everything.  It empties the record of links in any case,
    and when it reports no error neither the ingress interface nor any veth runs
    an XDP program. *)
Theorem close_detaches m m' r :
  attach_inv m -> Manager_Close m = (m', r) ->
  vethLinks m' = ∅ /\
  (r = None -> (forall name, attached (net m') (f name) = None) /\
               attached (net m') (ifaceIdx m) = None).
Proof.
  intros Hm Hc. split; [by eapply Manager_Close_links|]. intros ->.
  by eapply Manager_Close_ok.
Qed.
End Indices.
End Attach.

(** ** Witnesses *)

Module AttachWitness.
Import RefMaps RefHost.

(** "veth1" has index 10 and "veth2" index 11; every other name an index of its own. *)
Definition veth_index (name : string) : Z :=
  if decide (name = "veth1") then 10
  else if decide (name = "veth2") then 11
  else 12 + Z.pos (encode name).

Lemma veth_index_inj x y : veth_index x = veth_index y -> x = y.
Proof.
  unfold veth_index. repeat case_decide; subst; try done; try lia.
  intros Heq. apply (inj encode). lia.
Qed.
Lemma veth_index_ne x : veth_index x <> 2.
Proof. unfold veth_index. repeat case_decide; lia. Qed.

Lemma mgr0_attach : attach_inv veth_index mgr0.
Proof.
  apply (NewManager_attach_inv veth_index ∅ "eth0");
    [apply mgr0_new|apply veth_index_ne|done].
Qed.
Lemma mgr0_exact : attach_exact veth_index mgr0.
Proof. intros name. cbn. rewrite dom_empty_L. set_solver. Qed.
Lemma fleet_indexed : veths_indexed veth_index [app1; app2].
Proof. repeat (constructor; [vm_compute; reflexivity|]). constructor. Qed.
Lemma pool1_attach : attach_inv veth_index (bpfManager pool1).
Proof. apply (Sync_attach_inv veth_index veth_index_inj LE pool0 [app1; app2]);
  [apply mgr0_attach|apply fleet_indexed]. Qed.

Lemma start_attaches_witness :
  match NewManager ∅ "eth0" with
  | Ok m => (forall x, veth_index x <> ifaceIdx m) -> attach_inv veth_index m
  | Err (n', _) => forall i, attached n' i = attached ∅ i
  end.
Proof. apply (start_attaches veth_index ∅ "eth0"). done. Defined.

Lemma attachments_follow_witness :
  (forall name, attached (net (bpfManager pool1)) (veth_index name) =
     if decide (name ∈ veths_of [app1; app2]) then Some XdpVethSnat else None) /\
  attached (net (bpfManager pool1)) 2 = Some XdpLbIngress.
Proof.
  pose proof (attachments_follow veth_index veth_index_inj LE pool0 [app1; app2] pool1
    mgr0_attach mgr0_exact fleet_indexed (proj1 pool0_inv) sync1) as (Hv & Hi & _).
  split; [|exact Hi]. intros name. rewrite Hv. change (byVeth pool0) with (∅ : gset string).
  by rewrite empty_difference_L, union_empty_r_L.
Defined.

Lemma attachments_recorded_witness : attach_inv veth_index (bpfManager pool1).
Proof.
  apply (attachments_recorded veth_index veth_index_inj LE pool0 [app1; app2] pool1 None);
    [apply mgr0_attach|apply fleet_indexed|apply sync1].
Defined.

Lemma close_detaches_witness :
  vethLinks (fst (Manager_Close (bpfManager pool1))) = ∅ /\
  (snd (Manager_Close (bpfManager pool1)) = None ->
     (forall name, attached (net (fst (Manager_Close (bpfManager pool1)))) (veth_index name)
        = None) /\
     attached (net (fst (Manager_Close (bpfManager pool1)))) 2 = None).
Proof.
  apply (close_detaches veth_index veth_index_inj (bpfManager pool1));
    [apply pool1_attach|apply surjective_pairing].
Defined.
End AttachWitness.
