(* ===== verification/Shutdown.v ===== *)
(** * Shutdown during a reconciliation (userspace/cmd/main.go:64-117, loader.go:128)

    [main] does not wait for the polling goroutine: on a signal the deferred
    [bpfManager.Close()] may run between any two system calls of a [Sync] that is under way
    (also between the two map operations of an [UpdateBackend] or [ClearBackend], which take
    no mutex), and [Sync] then goes on, on a manager whose links, programs and maps are
    closed, until it returns or the process is gone.  [shut] is a manager with a signal that
    is due after a given number of calls; it is an updater, so [Sync] runs on it unchanged.  Whenever the
    signal comes, a [Close] that reports no error is final: no later call of [Sync] attaches
    anything, the reconciliation fails, and the snapshot stays. *)

From S2P Require Import Prelude Types BpfMaps Ebpf GoNet Xdp Samples Manager Pool Simulate.
From S2P Require Import Reconcile Tables ManagerSpec Fleet Attach.

(** A call on a closed file descriptor (sys.ErrClosedFd). *)
Definition EBADF : errno := EOTHER 9.

#[export] Instance bpf_object_eq_dec : EqDecision bpf_object.
Proof. solve_decision. Defined.

Section Closed.
Context {KM : BpfMaps} {KL : BpfMapsLaws} {HH : Host} (e : endian).

(** The operation on an object, when the objects [c] are closed. *)
Definition on_object {A} (c : list bpf_object) (o : bpf_object) (r : result errno A)
    : result errno A :=
  if decide (o ∈ c) then Err EBADF else r.

(** ** The manager's calls when some of its objects are closed *)

Definition closed_UpdateBackend_forward (c : list bpf_object) (index : Z) (ip : IP)
    (port : Z) (mac : HardwareAddr) (m : Manager) : Manager * option error :=
  match To4 ip with
  | None => (m, Some (ErrBackendNotIPv4 ip))
  | Some v4 =>
      match on_object c MapBackend
              (am_update (BackendMap (objs m)) index (mk_backend e v4 port mac)) with
      | Err x => (m, Some (ErrBackendMapPut index x))
      | Ok t => (with_objs m (with_BackendMap (objs m) t), None)
      end
  end.

Definition closed_UpdateBackend_reverse (c : list bpf_object) (index : Z) (ip : IP)
    (m : Manager) : Manager * option error :=
  match To4 ip with
  | None => (m, Some (ErrBackendNotIPv4 ip))
  | Some v4 =>
      match on_object c MapBackendIps
              (hm_update (BackendIpsMap (objs m)) (NativeEndian_Uint32 e v4) index) with
      | Err x => (m, Some (ErrBackendIpsMapPut ip x))
      | Ok t => (with_objs m (with_BackendIpsMap (objs m) t), None)
      end
  end.

Definition closed_ClearBackend_forward (c : list bpf_object) (index : Z) (m : Manager)
    : Manager * option error :=
  match on_object c MapBackend (am_update (BackendMap (objs m)) index backend_info_zero) with
  | Err x => (m, Some (ErrBackendMapClear index x))
  | Ok t => (with_objs m (with_BackendMap (objs m) t), None)
  end.

Definition closed_ClearBackend_reverse (c : list bpf_object) (ip : IP) (m : Manager)
    : Manager * option error :=
  match To4 ip with
  | None => (m, None)
  | Some v4 =>
      match on_object c MapBackendIps
              (hm_delete (BackendIpsMap (objs m)) (NativeEndian_Uint32 e v4)) with
      | Err _ => (m, None)
      | Ok t => (with_objs m (with_BackendIpsMap (objs m) t), None)
      end
  end.

Definition closed_UpdateConfig (c : list bpf_object) (m : Manager) (vip : IP)
    (vport count : Z) (mac : HardwareAddr) : Manager * option error :=
  match on_object c MapConfig
          (am_update (ConfigMap (objs m)) 0 (mk_config e vip vport count mac)) with
  | Err x => (m, Some (ErrConfigMapPut x))
  | Ok t => (with_objs m (with_ConfigMap (objs m) t), None)
  end.

(** A closed program cannot be attached, in either mode. *)
Definition closed_AttachVethXDP (c : list bpf_object) (m : Manager) (name : string) (i : Z)
    : Manager * option error :=
  match vethLinks m !! name with
  | Some _ => (m, None)
  | None =>
      if decide (ProgXdpVethSnat ∈ c) then (m, Some (ErrAttachVeth EBADF EBADF))
      else AttachVethXDP m name i
  end.

(** While everything is open these are the calls of the manager. *)
Lemma closed_nothing m :
  (forall i ip port mac,
     closed_UpdateBackend_forward [] i ip port mac m = UpdateBackend_forward e i ip port mac m) /\
  (forall i ip, closed_UpdateBackend_reverse [] i ip m = UpdateBackend_reverse e i ip m) /\
  (forall i, closed_ClearBackend_forward [] i m = ClearBackend_forward i m) /\
  (forall ip, closed_ClearBackend_reverse [] ip m = ClearBackend_reverse e ip m) /\
  (forall ip port n mac, closed_UpdateConfig [] m ip port n mac = UpdateConfig e m ip port n mac) /\
  (forall name i, closed_AttachVethXDP [] m name i = AttachVethXDP m name i).
Proof.
  split_and!; [done..|]. intros name i. unfold closed_AttachVethXDP, AttachVethXDP.
  by destruct (vethLinks m !! name).
Qed.

(** ** A signal during [Sync] *)

Context `{!GoRange}.

(** [sh_wait] calls before the signal; then the result of [Close] and the closed objects. *)
Record shut := {
  sh_mgr : Manager;
  sh_wait : nat;
  sh_done : option (option error);
  sh_closed : list bpf_object
}.

(** [Close], in any case.  One that reports an error may have left objects open: [c] are
    those it has closed. *)
Definition shut_Close (c : list bpf_object) (x : shut) : shut :=
  match sh_done x with
  | Some _ => x
  | None =>
      let '(m, r) := Manager_Close (sh_mgr x) in
      {| sh_mgr := m; sh_wait := 0; sh_done := Some r;
         sh_closed := match r with None => lbObjects_fields | Some _ => c end |}
  end.

(** The signal, when it is due. *)
Definition shut_due (c : list bpf_object) (x : shut) : shut :=
  match sh_wait x with
  | O => shut_Close c x
  | S k => {| sh_mgr := sh_mgr x; sh_wait := k; sh_done := sh_done x;
              sh_closed := sh_closed x |}
  end.

Definition shut_call (c : list bpf_object) (x : shut)
    (f : list bpf_object -> Manager -> Manager * option error) : shut * option error :=
  let x := shut_due c x in
  let '(m, r) := f (sh_closed x) (sh_mgr x) in
  ({| sh_mgr := m; sh_wait := sh_wait x; sh_done := sh_done x; sh_closed := sh_closed x |}, r).

(** The two system calls of a map operation, with the signal before either. *)
Definition shut_in_order (c : list bpf_object) (x : shut)
    (first second : list bpf_object -> Manager -> Manager * option error)
    : shut * option error :=
  let '(x, err) := shut_call c x first in
  match err with
  | Some y => (x, Some y)
  | None => shut_call c x second
  end.

Definition shut_updater (c : list bpf_object) : BPFUpdater shut := {|
  bu_UpdateBackend x i ip port mac :=
    shut_in_order c x (fun o => closed_UpdateBackend_forward o i ip port mac)
      (fun o => closed_UpdateBackend_reverse o i ip);
  bu_ClearBackend x i ip :=
    shut_in_order c x (fun o => closed_ClearBackend_forward o i)
      (fun o => closed_ClearBackend_reverse o ip);
  bu_UpdateConfig x ip port n mac :=
    shut_call c x (fun o m => closed_UpdateConfig o m ip port n mac);
  bu_AttachVethXDP x name i := shut_call c x (fun o m => closed_AttachVethXDP o m name i);
  bu_DetachVethXDP x name := shut_call c x (fun _ m => DetachVethXDP m name)
|}.

Definition before_signal (k : nat) (m : Manager) : shut :=
  {| sh_mgr := m; sh_wait := k; sh_done := None; sh_closed := [] |}.

(** [Sync] with the signal before its call number [k]; it has come when [sh_done] is set. *)
Definition shut_Sync (k : nat) (c : list bpf_object) (p : Pool Manager) (new : list Backend)
    : Pool shut * option error :=
  Sync (BPFUpdater0 := shut_updater c) (map_pool (before_signal k) p) new.

(** ** After a [Close] without an error *)

(** Every call on the closed manager leaves it as it is. *)
Lemma closed_calls m :
  (forall i ip port mac,
     fst (closed_UpdateBackend_forward lbObjects_fields i ip port mac m) = m) /\
  (forall i ip, fst (closed_UpdateBackend_reverse lbObjects_fields i ip m) = m) /\
  (forall i, fst (closed_ClearBackend_forward lbObjects_fields i m) = m) /\
  (forall ip, fst (closed_ClearBackend_reverse lbObjects_fields ip m) = m) /\
  (forall ip port n mac,
     closed_UpdateConfig lbObjects_fields m ip port n mac = (m, Some (ErrConfigMapPut EBADF))) /\
  (forall name i, fst (closed_AttachVethXDP lbObjects_fields m name i) = m) /\
  (vethLinks m = ∅ -> forall name, DetachVethXDP m name = (m, None)).
Proof.
  split_and!; try done.
  - intros i ip port mac. unfold closed_UpdateBackend_forward. by destruct (To4 ip).
  - intros i ip. unfold closed_UpdateBackend_reverse. by destruct (To4 ip).
  - intros ip. unfold closed_ClearBackend_reverse. by destruct (To4 ip).
  - intros name i. unfold closed_AttachVethXDP. by destruct (vethLinks m !! name).
  - intros Hv name. unfold DetachVethXDP. by rewrite Hv, lookup_empty.
Qed.

Section Invariant.
Context {HL : HostLaws} (f : string -> Z) (Hinj : forall x y, f x = f y -> x = y).
Context (c : list bpf_object).

(** No interface of the manager runs an XDP program. *)
Definition detached (m : Manager) : Prop :=
  vethLinks m = ∅ /\ (forall name, attached (net m) (f name) = None) /\
  attached (net m) (ifaceIdx m) = None.

Lemma Manager_Close_detached m m' :
  attach_inv f m -> Manager_Close m = (m', None) -> detached m'.
Proof.
  intros Hm Hc. split; [by eapply Manager_Close_links|].
  rewrite (Manager_Close_ifaceIdx f Hinj _ _ _ Hc). by eapply Manager_Close_ok.
Qed.

Definition shut_inv (x : shut) : Prop :=
  match sh_done x with
  | None => attach_inv f (sh_mgr x) /\ sh_closed x = []
  | Some None => detached (sh_mgr x) /\ sh_closed x = lbObjects_fields
  | Some (Some _) => True
  end.

Lemma shut_Close_inv x : shut_inv x -> shut_inv (shut_Close c x).
Proof.
  unfold shut_Close, shut_inv. destruct (sh_done x) as [r|] eqn:Hd; [by rewrite Hd|].
  intros [Hm _]. destruct (Manager_Close (sh_mgr x)) as [m [y|]] eqn:Hc; [done|].
  by split; [eapply Manager_Close_detached|].
Qed.

Lemma shut_Close_done x : exists r, sh_done (shut_Close c x) = Some r.
Proof.
  unfold shut_Close. destruct (sh_done x) as [r|] eqn:Hd; [by exists r|].
  destruct (Manager_Close _) as [m r]. by exists r.
Qed.

Lemma shut_due_inv x : shut_inv x -> shut_inv (shut_due c x).
Proof. unfold shut_due. destruct (sh_wait x); [apply shut_Close_inv|done]. Qed.

Lemma shut_call_inv x g :
  (forall m, attach_inv f m -> attach_inv f (fst (g [] m))) ->
  (forall m, detached m -> fst (g lbObjects_fields m) = m) ->
  shut_inv x -> shut_inv (fst (shut_call c x g)).
Proof.
  intros Hopen Hclosed Hx%shut_due_inv. unfold shut_call. revert Hx.
  generalize (shut_due c x) as y. clear x. intros y. unfold shut_inv.
  destruct (sh_done y) as [[x|]|] eqn:Hd.
  - intros _. destruct (g _ _). done.
  - intros [Hm Hc]. specialize (Hclosed _ Hm). rewrite Hc. destruct (g _ _) as [m r].
    cbn in *. by subst m.
  - intros [Hm Hc]. specialize (Hopen _ Hm). rewrite Hc. destruct (g _ _) as [m r].
    done.
Qed.

Lemma shut_in_order_inv x g h :
  (forall m, attach_inv f m -> attach_inv f (fst (g [] m))) ->
  (forall m, attach_inv f m -> attach_inv f (fst (h [] m))) ->
  (forall m, fst (g lbObjects_fields m) = m) -> (forall m, fst (h lbObjects_fields m) = m) ->
  shut_inv x -> shut_inv (fst (shut_in_order c x g h)).
Proof.
  intros Hg Hh Hcg Hch Hx. unfold shut_in_order.
  apply (shut_call_inv x g) in Hx; [|done..].
  destruct (shut_call c x g) as [y [z|]]; [done|]. by apply shut_call_inv.
Qed.

Lemma shut_config_inv x ip port n mac :
  shut_inv x ->
  shut_inv (fst (bu_UpdateConfig (BPFUpdater := shut_updater c) x ip port n mac)).
Proof.
  apply shut_call_inv; intros m Hm'.
  - destruct (closed_nothing m) as (_ & _ & _ & _ & -> & _). by apply UpdateConfig_attach_inv.
  - by destruct (closed_calls m) as (_ & _ & _ & _ & -> & _).
Qed.

Lemma shut_config_fails x ip port n mac x' :
  shut_inv x -> bu_UpdateConfig (BPFUpdater := shut_updater c) x ip port n mac = (x', None) ->
  sh_done x' <> Some None.
Proof.
  intros Hx%shut_due_inv. cbn [bu_UpdateConfig shut_updater]. unfold shut_call. revert Hx.
  generalize (shut_due c x) as y. clear x. intros y. unfold shut_inv.
  destruct (sh_done y) as [[x|]|] eqn:Hd; intros Hx.
  - destruct (closed_UpdateConfig _ _ _ _ _ _). intros [= <- _]. done.
  - destruct Hx as [_ ->]. by destruct (closed_calls (sh_mgr y)) as (_ & _ & _ & _ & -> & _).
  - destruct (closed_UpdateConfig _ _ _ _ _ _). intros [= <- _]. done.
Qed.
(** What each call of [Sync] keeps; the configuration is the last one. *)
Lemma shut_Sync_outcome k p new :
  attach_inv f (bpfManager p) -> veths_indexed f new ->
  let q := fst (shut_Sync k c p new) in
  shut_inv (bpfManager q) /\
  (sh_done (bpfManager q) = Some None ->
   is_Some (snd (shut_Sync k c p new)) /\ backends q = backends p).
Proof.
  intros Hm Hidx. unfold shut_Sync.
  destruct (Sync_outcome (BPFUpdater0 := shut_updater c) shut_inv
    (map_pool (before_signal k) p) new) as (t & Ht & Hq); cbn [backends map_pool].
  - intros i b x _. apply shut_in_order_inv; intros m; [intros Hm'..|apply closed_calls|apply closed_calls];
      destruct (closed_nothing m) as (H1 & H2 & _); [rewrite H1|rewrite H2];
      by apply (halves_attach_inv f e m Hm').
  - intros i o x _. apply shut_in_order_inv; intros m; [intros Hm'..|apply closed_calls|apply closed_calls];
      destruct (closed_nothing m) as (_ & _ & H1 & H2 & _); [rewrite H1|rewrite H2];
      by apply (halves_attach_inv f e m Hm').
  - intros b x Hb. apply shut_call_inv; intros m Hm'; [|apply closed_calls].
    destruct (closed_nothing m) as (_ & _ & _ & _ & _ & ->).
    rewrite (proj1 (Forall_forall _ _) Hidx b Hb). by apply AttachVethXDP_attach_inv.
  - intros name x. apply shut_call_inv; intros m Hm'; [by apply DetachVethXDP_attach_inv|].
    destruct (closed_calls m) as (_ & _ & _ & _ & _ & _ & ->); [done|apply Hm'].
  - done.
  - destruct Hq as [(-> & Hs & Hb)|(r & Hr & Hrest)]; [by split|].
    split; [|destruct r as [y|]; [by intros _|by intros Hd%(shut_config_fails _ _ _ _ _ _ Ht Hr)]].
    eapply (shut_config_inv t) in Ht. rewrite Hr in Ht. exact Ht.
Qed.

Lemma shut_Sync_detached k p new :
  attach_inv f (bpfManager p) -> veths_indexed f new ->
  let x := shut_Close c (bpfManager (fst (shut_Sync k c p new))) in
  sh_done x = Some None -> detached (sh_mgr x).
Proof.
  intros Hm Hidx x Hn. destruct (shut_Sync_outcome k p new Hm Hidx) as [Hx _].
  apply shut_Close_inv in Hx. unfold shut_inv in Hx. fold x in Hx. rewrite Hn in Hx. apply Hx.
Qed.

(** C34: a signal at any moment.  Wherever in a reconciliation the signal comes, before any
    of its calls, between the two map operations of one or after the last, [Close] runs; and
    if it reports no error, then when the reconciliation has gone on and returned, neither the ingress interface nor any veth
    runs an XDP program and no link is recorded: no later call attaches anything.  If the
    signal came before the last call, the reconciliation reports an error and the snapshot is
    the old one. *)
Theorem shutdown_any_time k p new q err :
  attach_inv f (bpfManager p) -> veths_indexed f new -> shut_Sync k c p new = (q, err) ->
  let x := shut_Close c (bpfManager q) in
  (exists r, sh_done x = Some r) /\
  (sh_done x = Some None -> detached (sh_mgr x)) /\
  (sh_done (bpfManager q) = Some None -> is_Some err /\ backends q = backends p).
Proof.
  intros Hm Hidx Hs. pose proof (shut_Sync_detached k p new Hm Hidx) as Hx.
  destruct (shut_Sync_outcome k p new Hm Hidx) as [_ Hd]. rewrite Hs in Hx, Hd.
  split_and!; [apply shut_Close_done|exact Hx|exact Hd].
Qed.
End Invariant.
End Closed.

(** ** Witness: the signal comes while the first of two backends is being removed. *)

Module ShutdownWitness.
Import RefMaps RefHost AttachWitness.

(** Before the second call: the first one has zeroed the entry of index 0. *)
Definition shut1 : Pool shut * option error := shut_Sync LE 1 [] pool1 [app2].
Lemma shut1_eq : shut_Sync LE 1 [] pool1 [app2] = (fst shut1, snd shut1).
Proof. apply surjective_pairing. Qed.
Lemma shut1_done : sh_done (bpfManager (fst shut1)) = Some None.
Proof. vm_compute. reflexivity. Qed.
Lemma shut1_closed : shut_Close [] (bpfManager (fst shut1)) = bpfManager (fst shut1).
Proof. unfold shut_Close. by rewrite shut1_done. Qed.

Lemma fleet2_indexed : veths_indexed veth_index [app2].
Proof. constructor; [vm_compute; reflexivity|constructor]. Qed.

Lemma shutdown_any_time_witness :
  detached veth_index (sh_mgr (bpfManager (fst shut1))) /\ is_Some (snd shut1) /\
  backends (fst shut1) = backends pool1.
Proof.
  pose proof (shutdown_any_time LE veth_index veth_index_inj [] 1 pool1 [app2] (fst shut1)
    (snd shut1) pool1_attach fleet2_indexed shut1_eq) as (_ & Hd & Hf).
  rewrite shut1_closed in Hd. split; [apply Hd, shut1_done|apply Hf, shut1_done].
Defined.
End ShutdownWitness.
