(* ===== verification/EndToEnd.v ===== *)
(** * Control plane and data plane together

    The maps a successful [Pool.Sync] leaves behind, run under the two XDP programs:
    requests reach the backends of the new list, replies come back from the virtual
    address, and the exact case in which a reply is not translated. *)

From S2P Require Import Prelude Types BpfMaps Ebpf Checksum Xdp XdpSpec DataPlane GoNet.
From S2P Require Import Manager Pool Reconcile Tables ManagerSpec ManagerWf Samples Fleet.

Section EndToEnd.
Context {KM : BpfMaps} {KL : BpfMapsLaws} {HH : Host} `{!GoRange} (e : endian).

(** ** The maps after a successful Sync *)

Lemma Sync_maps (p : Pool Manager) new p' :
  tables_inv e p -> SyncM e p new = (p', None) ->
  am_lookup (ConfigMap (objs (bpfManager p'))) 0 = Some (pool_config e p (length new)) /\
  (forall k b, new !! k = Some b ->
     am_lookup (BackendMap (objs (bpfManager p'))) (Z.of_nat k) = entry_of e b) /\
  (forall j b a, NoDup (keys e new) -> new !! j = Some b -> ip_key e (BIP b) = Some a ->
     hm_lookup (BackendIpsMap (objs (bpfManager p'))) a =
       if decide (a ∈ keys e (drop (S j) (backends p))) then None else Some (idx j)).
Proof.
  intros (Hinv & Hold & _) Hs. pose proof (Sync_v4 e _ _ _ Hs) as Hv4.
  pose proof (Sync_max e _ _ _ Hs) as Hmax.
  apply (Sync_success e) in Hs as [(Hf & Hr & Hc & _) _]; [|done].
  cbn [view Manager_laws manager_view d_fwd d_rev d_cfg] in Hf, Hr, Hc. split_and!.
  - rewrite Hc. done.
  - intros k b Hk. pose proof (lookup_lt_Some _ _ _ Hk) as Hlt.
    rewrite Hf, <-(idx_small k) by lia. rewrite dp_sync_fwd by (done || lia). by rewrite Hk.
  - intros j b a Hnd Hj Ha. rewrite Hr. eapply dp_sync_rev_present; [done..|].
    by eapply keys_nodup_drop.
Qed.

(** The configured number of backends, as the data plane reads it. *)
Lemma pool_config_count (p : Pool Manager) n :
  (n <= 64)%nat -> cfg_backend_count (pool_config e p n) = Z.of_nat n.
Proof. intros Hn. apply u32_id. unfold is_u32. lia. Qed.

Lemma pool_config_vip (p : Pool Manager) n v4 :
  To4 (vip p) = Some v4 -> cfg_vip (pool_config e p n) = load e v4.
Proof. intros Hv. unfold pool_config, mk_config. simpl. by rewrite Hv. Qed.

(** No backend has the unspecified address, which marks a cleared entry. *)
Definition addresses_ok (bs : list Backend) : Prop :=
  Forall (fun b => forall v4, To4 (BIP b) = Some v4 -> load e v4 <> 0) bs.

(** The backend a request with random value [rnd] is meant for. *)
Definition chosen (bs : list Backend) (rnd : Z) : option Backend :=
  bs !! Z.to_nat (rnd mod Z.of_nat (length bs)).

Definition run_state (p : Pool Manager) (pkt : list byte) (cpu : nat) (rnd : Z) : kstate :=
  {| ks_pkt := pkt; ks_maps := objs (bpfManager p); ks_cpu := cpu; ks_rand := rnd |}.

Lemma chosen_Some bs rnd : bs <> [] -> exists b, chosen bs rnd = Some b.
Proof.
  intros Hne. assert (0 < Z.of_nat (length bs)) as Hlen by (destruct bs; [done|simpl; lia]).
  pose proof (Z.mod_pos_bound rnd _ Hlen).
  apply lookup_lt_is_Some_2. lia.
Qed.

(** The selection on the maps of a successful Sync. *)
Lemma Sync_select (p : Pool Manager) new p' vip4 pkt rnd b :
  tables_inv e p -> SyncM e p new = (p', None) -> addresses_ok new ->
  To4 (vip p) = Some vip4 -> is_icmp_frame e pkt = true -> daddr_of pkt = vip4 ->
  chosen new rnd = Some b ->
  exists v4, To4 (BIP b) = Some v4 /\
    select e (objs (bpfManager p')) rnd pkt =
      Some (rnd mod Z.of_nat (length new), pool_config e p (length new),
            mk_backend e v4 (Port b) (MAC b)).
Proof.
  intros Hinv Hs Haddr Hvip Hf Hd Hb. pose proof (Sync_max e _ _ _ Hs) as Hmax.
  pose proof (Sync_v4 e _ _ _ Hs) as Hv4. destruct (Sync_maps p new p' Hinv Hs) as (Hc & Hfw & _).
  unfold chosen in Hb. pose proof (lookup_lt_Some _ _ _ Hb) as Hlt.
  destruct (Forall_lookup_1 _ _ _ _ Hv4 Hb) as [v4 Hb4]. exists v4. split; [done|].
  pose proof (Z.mod_pos_bound rnd (Z.of_nat (length new)) ltac:(lia)) as Hr.
  apply select_Some. rewrite pool_config_count, (pool_config_vip _ _ vip4) by done.
  split_and!; [done|done|lia|right; by rewrite Hd|..].
  - unfold bpf_mod. by rewrite (proj2 (Z.eqb_neq _ _)) by lia.
  - specialize (Hfw _ _ Hb). rewrite Z2Nat.id in Hfw by lia. rewrite Hfw.
    unfold entry_of. by rewrite Hb4.
  - eapply (Forall_lookup_1 _ _ _ _ Haddr Hb). done.
Qed.

(** A selected request, delivered. *)
Lemma select_delivers (p : Pool Manager) n m i b v4 pkt cpu rnd :
  wf_maps m -> is_u16 (vport p) -> is_u16 (Port b) -> To4 (BIP b) = Some v4 ->
  is_icmp_frame e pkt = true ->
  select e m rnd pkt = Some (i, pool_config e p n, mk_backend e v4 (Port b) (MAC b)) ->
  exists s,
    exec (xdp_lb_ingress e) {| ks_pkt := pkt; ks_maps := m; ks_cpu := cpu; ks_rand := rnd |}
      = Some (XDP_PASS, s) /\
    nat_rewrite dnat_bytes pkt (ks_pkt s) /\ To4 (BIP b) = Some (daddr_of (ks_pkt s)) /\
    h_dest_of (ks_pkt s) = mac_bytes (MAC b) /\
    h_source_of (ks_pkt s) = mac_bytes (srcMAC p) /\ same_tables m (ks_maps s).
Proof.
  intros Hwf Hvp Hp Hv4 Hf Hsel. eexists. split; [by apply exec_ingress_run|].
  unfold ingress_result. cbn [ks_maps ks_rand ks_pkt ks_cpu]. rewrite Hsel.
  cbn [ks_pkt ks_maps with_maps with_pkt]. apply icmp_frame_length in Hf.
  destruct (dnat_spec e (pool_config e p n) (mk_backend e v4 (Port b) (MAC b)) pkt)
    as (Hn & Hm & Hsrc & Ha); [apply wf_mk_config; [done|apply u32_range]
    |by eapply wf_mk_backend|done|].
  rewrite Hm, Hsrc, Ha. cbn [bi_ipv4 mk_backend]. rewrite (NativeEndian_wire e (BIP b)) by done.
  split_and!; [done..|apply count_packet_tables].
Qed.

(** No address of the new list was in the old list at a larger index. *)
Definition no_move_down (old new : list Backend) : Prop :=
  forall j b a, new !! j = Some b -> ip_key e (BIP b) = Some a ->
    a ∉ keys e (drop (S j) old).

Section Synced.
Context (p : Pool Manager) (new : list Backend) (p' : Pool Manager).
Hypothesis Hinv : tables_inv e p.
Hypothesis Hwf : wf_maps (objs (bpfManager p)).
Hypothesis Hports : ports_ok new.
Hypothesis Hvport : is_u16 (vport p).
Hypothesis Hsync : SyncM e p new = (p', None).

Lemma Synced_wf : wf_maps (objs (bpfManager p')).
Proof. pose proof (Sync_wf e p new Hwf Hports Hvport) as Hw. by rewrite Hsync in Hw. Qed.

(** A request to the virtual address, delivered. *)
Lemma delivered vip4 pkt cpu rnd b :
  addresses_ok new -> To4 (vip p) = Some vip4 ->
  is_icmp_frame e pkt = true -> daddr_of pkt = vip4 -> chosen new rnd = Some b ->
  exists s, exec (xdp_lb_ingress e) (run_state p' pkt cpu rnd) = Some (XDP_PASS, s) /\
    nat_rewrite dnat_bytes pkt (ks_pkt s) /\ To4 (BIP b) = Some (daddr_of (ks_pkt s)) /\
    h_dest_of (ks_pkt s) = mac_bytes (MAC b) /\
    h_source_of (ks_pkt s) = mac_bytes (srcMAC p) /\
    same_tables (objs (bpfManager p')) (ks_maps s).
Proof.
  intros Haddr Hvip Hf Hd Hb.
  destruct (Sync_select p new p' vip4 pkt rnd b) as (v4 & Hv4 & Hsel); [done..|].
  eapply select_delivers; [apply Synced_wf|done| |done|done|exact Hsel].
  by eapply Forall_lookup_1 in Hports.
Qed.

(** A frame from the backend at index [j], on any maps with these tables. *)
Lemma returned vip4 j b a m pkt cpu rnd :
  NoDup (keys e new) -> new !! j = Some b -> ip_key e (BIP b) = Some a ->
  a ∉ keys e (drop (S j) (backends p)) -> To4 (vip p) = Some vip4 -> load e vip4 <> 0 ->
  same_tables (objs (bpfManager p')) m ->
  is_icmp_frame e pkt = true -> load e (saddr_of pkt) = a ->
  let s := {| ks_pkt := pkt; ks_maps := m; ks_cpu := cpu; ks_rand := rnd |} in
  exists s', exec (xdp_veth_snat e) s = Some (XDP_PASS, s') /\
    nat_rewrite snat_bytes pkt (ks_pkt s') /\ saddr_of (ks_pkt s') = vip4.
Proof.
  intros Hnd Hj Ha Hmove Hvip Hnz (Hmc & _ & Hmi) Hf Hsrc s.
  destruct (Sync_maps p new p' Hinv Hsync) as (Hc & _ & Hr).
  eexists. split; [apply exec_snat_run|]. unfold snat_result, s. cbn [ks_pkt ks_maps].
  rewrite Hf, Hmc, Hmi, Hc, Hsrc, (Hr j b a) by done. rewrite decide_False by done.
  rewrite (pool_config_vip _ _ vip4), (proj2 (Z.eqb_neq _ _) Hnz) by done.
  cbn [ks_pkt with_pkt]. apply icmp_frame_length in Hf.
  destruct (snat_spec e (pool_config e p (length new)) pkt Hf) as [Hn Hs].
  split; [done|]. rewrite Hs, (pool_config_vip _ _ vip4) by done.
  by apply (NativeEndian_wire e (vip p)).
Qed.

(** Requests reach the backends of the list.  After a successful [Sync], a
    request to the virtual address goes to the backend at position [rnd mod n] of
    the new list: it leaves with that backend's IPv4 address and MAC, the
    interface's MAC as source, a valid checksum of the fixed header and everything else
    unchanged. *)
Theorem e2e_request vip4 pkt cpu rnd :
  new <> [] -> addresses_ok new -> To4 (vip p) = Some vip4 ->
  is_icmp_frame e pkt = true -> daddr_of pkt = vip4 ->
  exists b s, chosen new rnd = Some b /\
    exec (xdp_lb_ingress e) (run_state p' pkt cpu rnd) = Some (XDP_PASS, s) /\
    nat_rewrite dnat_bytes pkt (ks_pkt s) /\ To4 (BIP b) = Some (daddr_of (ks_pkt s)) /\
    h_dest_of (ks_pkt s) = mac_bytes (MAC b) /\
    h_source_of (ks_pkt s) = mac_bytes (srcMAC p).
Proof.
  intros Hne Haddr Hvip Hf Hd. destruct (chosen_Some new rnd Hne) as [b Hb].
  destruct (delivered vip4 pkt cpu rnd b) as (s & ? & ? & ? & ? & ? & _); [done..|].
  exists b, s. by split_and!.
Qed.

(** C1: the round trip is transparent.  After a successful [Sync] that moved no
    address to a smaller index, a request to the virtual address is delivered to
    one of the backends, and any ICMP frame from the address it was delivered to,
    seen by [xdp_veth_snat] on the maps the request left, goes back with the
    address the client sent to as its source, its destination and payload
    untouched and a checksum that is valid for the fixed 20-byte header (all of the header
    when it has no options, see [dnat_options_checksum]).  Assumed are distinct, non-zero
    backend addresses and an IPv4 VIP other than 0.0.0.0. *)
Theorem e2e_round_trip vip4 pkt cpu rnd :
  new <> [] -> addresses_ok new -> NoDup (keys e new) ->
  no_move_down (backends p) new -> To4 (vip p) = Some vip4 -> load e vip4 <> 0 ->
  is_icmp_frame e pkt = true -> daddr_of pkt = vip4 ->
  exists b s, b ∈ new /\
    exec (xdp_lb_ingress e) (run_state p' pkt cpu rnd) = Some (XDP_PASS, s) /\
    To4 (BIP b) = Some (daddr_of (ks_pkt s)) /\
    forall answer cpu' rnd', is_icmp_frame e answer = true ->
      saddr_of answer = daddr_of (ks_pkt s) ->
      exists s', exec (xdp_veth_snat e)
          {| ks_pkt := answer; ks_maps := ks_maps s; ks_cpu := cpu'; ks_rand := rnd' |}
          = Some (XDP_PASS, s') /\
        nat_rewrite snat_bytes answer (ks_pkt s') /\
        saddr_of (ks_pkt s') = daddr_of pkt.
Proof.
  intros Hne Haddr Hnd Hmove Hvip Hnz Hf Hd. destruct (chosen_Some new rnd Hne) as [b Hb].
  destruct (delivered vip4 pkt cpu rnd b) as (s & Hs & _ & Hb4 & _ & _ & Hst); [done..|].
  exists b, s. split_and!; [by eapply list_elem_of_lookup_2|done|done|].
  intros answer cpu' rnd' Hfa Hsa. unfold chosen in Hb. rewrite Hd.
  assert (ip_key e (BIP b) = Some (load e (daddr_of (ks_pkt s)))) as Ha
    by (unfold ip_key; by rewrite Hb4).
  eapply returned; [done|done|done|by eapply Hmove|done|done|done|done|by rewrite Hsa].
Qed.

(** C25: a backend that moved down answers untranslated.  If the address of a new
    backend was in the previous list at a larger index, then after the [Sync] that
    moved it [xdp_veth_snat] leaves its frames unchanged: the client sees the
    container's address instead of the virtual one, until the next [Sync]. *)
Theorem moved_backend_untranslated j b a pkt cpu rnd :
  NoDup (keys e new) -> new !! j = Some b -> ip_key e (BIP b) = Some a ->
  a ∈ keys e (drop (S j) (backends p)) -> load e (saddr_of pkt) = a ->
  exec (xdp_veth_snat e) (run_state p' pkt cpu rnd) =
    Some (XDP_PASS, run_state p' pkt cpu rnd).
Proof.
  intros Hnd Hj Ha Hmove Hsrc. destruct (Sync_maps p new p' Hinv Hsync) as (_ & _ & Hr).
  rewrite exec_snat_run. unfold snat_result. cbn [ks_pkt ks_maps run_state].
  rewrite Hsrc, (Hr j b a), decide_True by done. by destruct (is_icmp_frame e pkt).
Qed.

(** Only backends are translated.  After a successful [Sync], a frame from an
    address of no backend of the new list passes [xdp_veth_snat] unchanged: a
    removed backend is no longer translated. *)
Theorem stale_untranslated pkt cpu rnd :
  load e (saddr_of pkt) ∉ keys e new ->
  exec (xdp_veth_snat e) (run_state p' pkt cpu rnd) =
    Some (XDP_PASS, run_state p' pkt cpu rnd).
Proof.
  intros Hno. pose proof (Sync_tables_inv e _ _ _ Hinv Hsync) as (Hinv' & _ & Hrev).
  apply (Sync_success e) in Hsync as (_ & _ & Hbs & _); [|by destruct Hinv].
  rewrite exec_snat_run. unfold snat_result. cbn [ks_pkt ks_maps run_state].
  destruct (hm_lookup _ _) eqn:Hl; [|by destruct (is_icmp_frame e pkt)].
  exfalso. apply Hno. rewrite <-Hbs. apply Hrev. eauto.
Qed.
End Synced.
End EndToEnd.

(** ** Witnesses *)

Module E2EWitness.
Import RefMaps RefHost.

Lemma addresses1 : addresses_ok LE [app1; app2].
Proof.
  repeat (constructor; [intros v4; vm_compute; intros [= <-]; discriminate|]). constructor.
Qed.
Lemma keys1_nodup : NoDup (keys LE [app1; app2]).
Proof.
  replace (keys LE [app1; app2]) with [load LE b1_ip; load LE b2_ip]
    by (vm_compute; reflexivity).
  apply (bool_decide_unpack _). vm_compute. done.
Qed.

Lemma e2e_request_witness :
  exists b s, chosen [app1; app2] 7 = Some b /\
    exec (xdp_lb_ingress LE) (run_state pool1 request 1 7) = Some (XDP_PASS, s) /\
    nat_rewrite dnat_bytes request (ks_pkt s) /\ To4 (BIP b) = Some (daddr_of (ks_pkt s)) /\
    h_dest_of (ks_pkt s) = mac_bytes (MAC b) /\ h_source_of (ks_pkt s) = host_mac.
Proof.
  apply (e2e_request LE pool0 [app1; app2] pool1) with (vip4 := vip_ip);
    [apply pool0_inv|apply pool0_wf|apply ports1|apply vport_ok|apply sync1|done
    |apply addresses1|reflexivity|reflexivity|reflexivity].
Defined.

Lemma e2e_round_trip_witness :
  exists b s, b ∈ [app1; app2] /\
    exec (xdp_lb_ingress LE) (run_state pool1 request 1 6) = Some (XDP_PASS, s) /\
    To4 (BIP b) = Some (daddr_of (ks_pkt s)) /\
    forall answer cpu' rnd', is_icmp_frame LE answer = true ->
      saddr_of answer = daddr_of (ks_pkt s) ->
      exists s', exec (xdp_veth_snat LE)
          {| ks_pkt := answer; ks_maps := ks_maps s; ks_cpu := cpu'; ks_rand := rnd' |}
          = Some (XDP_PASS, s') /\
        nat_rewrite snat_bytes answer (ks_pkt s') /\ saddr_of (ks_pkt s') = vip_ip.
Proof.
  apply (e2e_round_trip LE pool0 [app1; app2] pool1 pool0_inv pool0_wf ports1 vport_ok sync1
           vip_ip request 1 6);
    [done|apply addresses1|apply keys1_nodup| |reflexivity|vm_compute; discriminate
    |reflexivity|reflexivity].
  intros j b a _ _. apply not_elem_of_nil.
Defined.

(** Backend 2 moved from index 1 to index 0 when backend 1 went away. *)
Definition reply2 : list byte := icmp_frame 69 b2_ip client_ip [].

Lemma moved_backend_untranslated_witness :
  exec (xdp_veth_snat LE) (run_state pool2 reply2 0 0) =
    Some (XDP_PASS, run_state pool2 reply2 0 0).
Proof.
  apply (moved_backend_untranslated LE pool1 [app2] pool2 pool1_inv sync2 0 app2
           (load LE b2_ip));
    [apply keys2_nodup|reflexivity|reflexivity| |reflexivity].
  rewrite (proj1 pool1_fields). change (drop 1 [app1; app2]) with [app2]. rewrite keys2.
  by apply list_elem_of_singleton.
Defined.

Lemma stale_untranslated_witness :
  exec (xdp_veth_snat LE) (run_state pool2 reply 0 0) =
    Some (XDP_PASS, run_state pool2 reply 0 0).
Proof.
  apply (stale_untranslated LE pool1 [app2] pool2 pool1_inv sync2).
  rewrite keys2, list_elem_of_singleton. vm_compute. discriminate.
Defined.
End E2EWitness.
