(* ===== verification/Stats.v ===== *)
(** * Counters and their display (userspace/stats/collector.go, maps.go ReadStats)

    What [ReadStats] reports after any sequence of packets on any CPUs, and the pure
    formatting functions of the collector. *)

From S2P Require Import Prelude Types BpfMaps Ebpf Checksum Xdp XdpSpec DataPlane GoNet.
From S2P Require Import Manager Pool Reconcile Tables ManagerSpec Samples.

(** ** A sequence of packets *)

Section Traffic.
Context {KM : BpfMaps} {KL : BpfMapsLaws} {HH : Host} (e : endian).

(** A packet that arrives on the ingress interface: its bytes, the CPU that handles
    it and the random value the helper returns there. *)
Record arrival := { ar_pkt : list byte; ar_cpu : nat; ar_rand : Z }.

Definition arrival_state (m : lbMaps) (a : arrival) : kstate :=
  {| ks_pkt := ar_pkt a; ks_maps := m; ks_cpu := ar_cpu a; ks_rand := ar_rand a |}.

(** The ingress program on each packet in turn; the maps carry over. *)
Fixpoint run_ingress (m : lbMaps) (arrivals : list arrival) : option lbMaps :=
  match arrivals with
  | [] => Some m
  | a :: arrivals =>
      '(_, s) ← exec (xdp_lb_ingress e) (arrival_state m a);
      run_ingress (ks_maps s) arrivals
  end.

(** The packets that are sent to backend [k]. *)
Definition sent_to (m : lbMaps) (k : Z) (a : arrival) : Prop :=
  fst ∘ fst <$> select e m (ar_rand a) (ar_pkt a) = Some k.
#[export] Instance sent_to_dec m k a : Decision (sent_to m k a).
Proof. unfold sent_to. apply _. Defined.
Definition hits (m : lbMaps) (k : Z) (arrivals : list arrival) : list arrival :=
  filter (sent_to m k) arrivals.
Definition total_bytes (arrivals : list arrival) : Z :=
  foldr (fun a s => Z.of_nat (length (ar_pkt a)) + s) 0 arrivals.

(** ** Sums over CPUs *)

Definition total (f : stats_counter -> Z) (l : list stats_counter) : Z :=
  foldr (fun c s => f c + s) 0 l.

Lemma total_app f l l' : total f (l ++ l') = total f l + total f l'.
Proof. induction l as [|c l IH]; simpl; [done|]. unfold total in *. simpl. lia. Qed.

Lemma total_insert f l i c c' :
  l !! i = Some c -> total f (<[i := c']> l) = total f l - f c + f c'.
Proof.
  intros Hi. rewrite insert_take_drop by (by eapply lookup_lt_Some).
  rewrite <-(take_drop_middle l i c Hi) at 3. rewrite !total_app. simpl. lia.
Qed.

Lemma sum_counters_total l p b :
  sum_counters l (u64 p) (u64 b) = (u64 (p + total rx_packets l), u64 (b + total rx_bytes l)).
Proof.
  revert p b. induction l as [|c l IH]; intros p b; simpl.
  { by rewrite !Z.add_0_r. }
  rewrite !u64_add_l, IH. f_equal; f_equal; unfold total; lia.
Qed.

(** The slots user space reads. *)
Lemma values_lookup (m : counters_t) k vs :
  pm_values m k = Ok vs -> 0 <= k < MAX_BACKENDS ->
  length vs = pm_ncpus /\ forall c, (c < pm_ncpus)%nat -> vs !! c = pm_lookup m c k.
Proof.
  intros Hv Hk. destruct (pm_values_in m k Hk) as (vs' & Hv' & Hl).
  rewrite Hv in Hv'. by injection Hv' as <-.
Qed.

Lemma ReadStats_Ok (mgr : Manager) k :
  0 <= k < MAX_BACKENDS ->
  exists vs, pm_values (CountersMap (objs mgr)) k = Ok vs /\
    ReadStats mgr k = Ok (u64 (total rx_packets vs), u64 (total rx_bytes vs)).
Proof.
  intros Hk. destruct (pm_values_in (CountersMap (objs mgr)) k Hk) as (vs & Hv & _).
  exists vs. split; [done|]. unfold ReadStats. rewrite Hv.
  change 0 with (u64 0). by rewrite sum_counters_total.
Qed.

(** New counters are zero. *)
Lemma ReadStats_init (mgr : Manager) k :
  CountersMap (objs mgr) = pm_init -> 0 <= k < MAX_BACKENDS -> ReadStats mgr k = Ok (0, 0).
Proof.
  intros Hi Hk. destruct (ReadStats_Ok mgr k Hk) as (vs & Hv & ->).
  apply values_lookup in Hv as [Hl Hv]; [|done].
  assert (Forall (fun c => c = stats_counter_zero) vs) as Hz.
  { apply Forall_lookup. intros c x Hx. pose proof (lookup_lt_Some _ _ _ Hx).
    rewrite Hv, Hi, (pm_lookup_init (zero := stats_counter_zero)) in Hx by (done || lia).
    by injection Hx. }
  assert (total rx_packets vs = 0 /\ total rx_bytes vs = 0) as [-> ->]; [|done].
  clear Hl Hv. induction Hz as [|c vs -> Hz [IH1 IH2]]; [done|]. unfold total in *. simpl. lia.
Qed.

(** One counted packet changes one slot. *)
Lemma count_packet_lookup m cpu idx len c k :
  is_Some (pm_lookup (CountersMap m) cpu idx) ->
  pm_lookup (CountersMap (count_packet m cpu idx len)) c k =
    if decide (c = cpu /\ k = idx) then
      (fun s => {| rx_packets := u64 (rx_packets s + 1);
                   rx_bytes := u64 (rx_bytes s + u64 len) |}) <$>
        pm_lookup (CountersMap m) c k
    else pm_lookup (CountersMap m) c k.
Proof.
  intros [s Hs]. unfold count_packet. rewrite Hs. cbn [CountersMap with_CountersMap].
  rewrite !pm_lookup_write by (rewrite ?pm_lookup_write, ?decide_True by eauto; eauto).
  case_decide as Hd; [|done]. destruct Hd as [-> ->]. by rewrite Hs.
Qed.

Lemma u64_total_insert f l i c c' d :
  l !! i = Some c -> f c' = u64 (f c + d) ->
  u64 (total f (<[i := c']> l)) = u64 (total f l + d).
Proof.
  intros Hi Hc. rewrite (total_insert f l i c c') by done. rewrite Hc, u64_add_r.
  f_equal. lia.
Qed.

Lemma count_packet_values m cpu idx len k vs vs' :
  (cpu < pm_ncpus)%nat -> 0 <= idx < MAX_BACKENDS -> 0 <= k < MAX_BACKENDS ->
  pm_values (CountersMap m) k = Ok vs ->
  pm_values (CountersMap (count_packet m cpu idx len)) k = Ok vs' ->
  let hit := if decide (k = idx) then 1 else 0 in
  u64 (total rx_packets vs') = u64 (total rx_packets vs + hit) /\
  u64 (total rx_bytes vs') = u64 (total rx_bytes vs + hit * len).
Proof.
  intros Hcpu Hidx Hk Hv Hv'. apply values_lookup in Hv as [Hl Hv]; [|done].
  apply values_lookup in Hv' as [Hl' Hv']; [|done].
  pose proof (pm_lookup_in (CountersMap m) cpu idx Hcpu Hidx) as Hsome.
  assert (forall c, (c < pm_ncpus)%nat -> vs' !! c =
    if decide (c = cpu /\ k = idx) then
      (fun s => {| rx_packets := u64 (rx_packets s + 1);
                   rx_bytes := u64 (rx_bytes s + u64 len) |}) <$> vs !! c
    else vs !! c) as Heq.
  { intros c Hc. by rewrite Hv', Hv, count_packet_lookup. }
  simpl. case_decide as Hd.
  - subst k. destruct (lookup_lt_is_Some_2 vs cpu) as [s Hs]; [lia|].
    assert (vs' = <[cpu := {| rx_packets := u64 (rx_packets s + 1);
                              rx_bytes := u64 (rx_bytes s + u64 len) |}]> vs) as ->.
    { apply (list_eq_same_length _ _ pm_ncpus); [by rewrite length_insert|done|].
      intros c x y Hc. rewrite Heq by done. destruct (decide (c = cpu)) as [->|Hne].
      - rewrite decide_True, Hs, list_lookup_insert_eq by (done || lia). simpl. congruence.
      - rewrite decide_False by (by intros [? ?]). rewrite list_lookup_insert_ne by done. congruence. }
    split; eapply u64_total_insert; try done; simpl.
    by rewrite u64_add_r, Z.mul_1_l.
  - assert (vs' = vs) as ->.
    { apply (list_eq_same_length _ _ pm_ncpus); [done..|]. intros c x y Hc.
      rewrite Heq by done. rewrite decide_False by (by intros [? ?]). congruence. }
    by rewrite !Z.add_0_r.
Qed.

(** A run keeps the maps well formed and the tables as they were. *)
Lemma count_packet_wf m cpu idx len : wf_maps m -> wf_maps (count_packet m cpu idx len).
Proof.
  intros Hwf. unfold count_packet. destruct (pm_lookup _ _ _) as [s|] eqn:Hs; [|done].
  split; cbn [ConfigMap BackendMap CountersMap with_CountersMap];
    [apply Hwf|apply Hwf|]. intros c k v.
  rewrite !pm_lookup_write by (rewrite ?pm_lookup_write, ?decide_True by eauto; eauto).
  case_decide; [|apply (wf_counter _ Hwf)]. intros [= <-].
  split; simpl; apply u64_range.
Qed.

Lemma select_same_tables m m' rnd p : same_tables m m' -> select e m' rnd p = select e m rnd p.
Proof. intros (Hc & Hb & _). unfold select. by rewrite Hc, Hb. Qed.

Lemma ingress_maps m a :
  wf_maps m ->
  exists s, exec (xdp_lb_ingress e) (arrival_state m a) = Some (XDP_PASS, s) /\
    wf_maps (ks_maps s) /\ same_tables m (ks_maps s) /\
    ks_maps s = match select e m (ar_rand a) (ar_pkt a) with
                | Some (idx, _, _) =>
                    count_packet m (ar_cpu a) idx (Z.of_nat (length (ar_pkt a)))
                | None => m
                end.
Proof.
  intros Hwf. eexists. split; [by apply exec_ingress_run|]. unfold ingress_result.
  cbn [ks_maps ks_rand ks_pkt ks_cpu arrival_state].
  destruct (select _ _ _ _) as [[[idx c] b]|]; [|done].
  cbn [ks_maps with_maps with_pkt].
  split_and!; [by apply count_packet_wf|apply count_packet_tables|done].
Qed.

(** What one packet adds to the counters of backend [k]. *)
Lemma ingress_counts (mgr : Manager) a k pkts bytes :
  wf_maps (objs mgr) -> (ar_cpu a < pm_ncpus)%nat -> 0 <= k < MAX_BACKENDS ->
  ReadStats mgr k = Ok (pkts, bytes) ->
  let hit := if decide (sent_to (objs mgr) k a) then 1 else 0 in
  exists s, exec (xdp_lb_ingress e) (arrival_state (objs mgr) a) = Some (XDP_PASS, s) /\
    wf_maps (ks_maps s) /\ same_tables (objs mgr) (ks_maps s) /\
    ReadStats (with_objs mgr (ks_maps s)) k =
      Ok (u64 (pkts + hit), u64 (bytes + hit * Z.of_nat (length (ar_pkt a)))).
Proof.
  intros Hwf Hcpu Hk Hread. destruct (ReadStats_Ok mgr k Hk) as (vs & Hvs & Hr).
  rewrite Hread in Hr. injection Hr as -> ->.
  destruct (ingress_maps (objs mgr) a Hwf) as (s & Hs & Hwf' & Hst & Hm).
  exists s. split_and!; [done..|].
  destruct (ReadStats_Ok (with_objs mgr (ks_maps s)) k Hk) as (vs' & Hvs' & ->).
  cbn [objs with_objs] in Hvs'. rewrite Hm in Hvs'.
  destruct (select _ _ _ _) as [[[idx c] b]|] eqn:Hsel.
  2: { rewrite decide_False by (unfold sent_to; by rewrite Hsel).
       rewrite Hvs in Hvs'. injection Hvs' as <-.
       by rewrite !u64_add_l, !Z.add_0_r. }
  assert (sent_to (objs mgr) k a <-> k = idx) as Hsent
    by (unfold sent_to; rewrite Hsel; simpl; split; congruence).
  assert (0 <= idx < MAX_BACKENDS) as Hidx.
  { apply select_Some in Hsel as (_ & _ & _ & _ & _ & Hb & _).
    destruct (decide (0 <= idx < MAX_BACKENDS)); [done|]. by rewrite am_lookup_out in Hb. }
  destruct (count_packet_values _ _ _ _ _ _ _ Hcpu Hidx Hk Hvs Hvs') as [-> ->].
  rewrite !u64_add_l. destruct (decide (k = idx)) as [Hd|Hd].
  - by rewrite decide_True by (by apply Hsent).
  - by rewrite decide_False by (by intros ?%Hsent).
Qed.

Lemma hits_same_tables m m' k l : same_tables m m' -> hits m' k l = hits m k l.
Proof.
  intros Hst. apply list_filter_iff. intros x. unfold sent_to.
  by rewrite (select_same_tables m m').
Qed.

(** ** Properties *)

(** The statistics are exact.  After any sequence of packets on any CPUs,
    [ReadStats] of an index reports its previous value plus the number of packets,
    and plus the number of bytes of the frames, that [xdp_lb_ingress] sent to that
    backend, both modulo [2^64]; packets that pass unchanged are not counted. *)
Theorem stats_exact (mgr : Manager) arrivals k pkts bytes :
  wf_maps (objs mgr) -> Forall (fun a => ar_cpu a < pm_ncpus)%nat arrivals ->
  0 <= k < MAX_BACKENDS -> ReadStats mgr k = Ok (pkts, bytes) ->
  exists m', run_ingress (objs mgr) arrivals = Some m' /\
    ReadStats (with_objs mgr m') k =
      Ok (u64 (pkts + Z.of_nat (length (hits (objs mgr) k arrivals))),
          u64 (bytes + total_bytes (hits (objs mgr) k arrivals))).
Proof.
  intros Hwf Hcpus Hk. revert mgr pkts bytes Hwf.
  induction Hcpus as [|a arrivals Hcpu _ IH]; intros mgr pkts bytes Hwf Hread.
  { exists (objs mgr). split; [done|]. unfold hits. rewrite filter_nil. simpl.
    rewrite !Z.add_0_r.
    destruct (ReadStats_Ok mgr k Hk) as (vs & _ & Hr). rewrite Hread in Hr.
    injection Hr as -> ->. rewrite !(u64_id (u64 _)) by apply u64_range.
    by destruct mgr. }
  destruct (ingress_counts mgr a k pkts bytes Hwf Hcpu Hk Hread)
    as (s & Hs & Hwf' & Hst & Hread').
  destruct (IH (with_objs mgr (ks_maps s)) _ _ Hwf' Hread') as (m' & Hrun & Hread'').
  exists m'. cbn [run_ingress]. rewrite Hs. split; [done|].
  change (with_objs (with_objs mgr (ks_maps s)) m') with (with_objs mgr m') in Hread''.
  rewrite Hread''. cbn [objs with_objs]. rewrite (hits_same_tables (objs mgr)) by done.
  unfold hits at 3 4. rewrite filter_cons, !u64_add_l. fold (hits (objs mgr) k arrivals).
  f_equal. case_decide; cbn [length total_bytes foldr]; unfold total_bytes;
    f_equal; f_equal; lia.
Qed.
End Traffic.

(** ** collector.go: truncate *)

(** [s[:maxLen-3] + "..."]; slicing outside the string panics, [None]. *)
Definition truncate (s : string) (maxLen : Z) : option string :=
  if Z.of_nat (String.length s) >? maxLen then
    if (0 <=? maxLen - 3) && (maxLen - 3 <=? Z.of_nat (String.length s))
    then Some (String.substring 0 (Z.to_nat (maxLen - 3)) s +:+ "...")
    else None
  else Some s.

(** ** collector.go: formatBytes *)

(** [const unit = 1024] *)
Definition fb_unit : Z := 1024.

(** The loop [for n := b / unit; n >= unit; n /= unit]; [div] is an int64. *)
Fixpoint format_loop (fuel : nat) (n div : Z) (exp : nat) : option (Z * nat) :=
  if n <? fb_unit then Some (div, exp)
  else match fuel with
       | O => None
       | S fuel => format_loop fuel (n / fb_unit) (i64 (div * fb_unit)) (S exp)
       end.

(** The quotient of two integers rounded to the nearest, ties to even. *)
Definition round_half_even (num den : Z) : Z :=
  let q := num / den in
  let r := num mod den in
  if 2 * r <? den then q
  else if den <? 2 * r then q + 1
  else if Z.even q then q else q + 1.

(** float64(b) of a uint64: 53 significant bits. *)
Definition float64_of_uint64 (b : Z) : Z :=
  let k := Z.max 0 (Z.log2 b - 52) in
  round_half_even b (2 ^ k) * 2 ^ k.

(** %.1f of [num / den], an exact binary64 quotient (the divisor is a power of two):
    the decimal is rounded to the nearest tenth, ties to even. *)
Definition tenths (num den : Z) : Z := round_half_even (10 * num) den.

Definition sprintf_d (x : Z) : string := pretty (Z.to_N x).
Definition sprintf_1f (t : Z) : string := sprintf_d (t / 10) +:+ "." +:+ sprintf_d (t mod 10).

(** [None] is a panic: an index outside "KMGTPE". *)
Definition formatBytes (b : Z) : option string :=
  if b <? fb_unit then Some (sprintf_d b +:+ " B")
  else
    '(div, exp) ← format_loop 6 (b / fb_unit) fb_unit 0;
    c ← String.get exp "KMGTPE";
    Some (sprintf_1f (tenths (float64_of_uint64 b) div) +:+ " " +:+ String c "iB").

Example formatBytes_ex :
  map formatBytes [0; 1023; 1024; 1536; 1048575; 2 ^ 64 - 1] =
    [Some "0 B"; Some "1023 B"; Some "1.0 KiB"; Some "1.5 KiB"; Some "1024.0 KiB";
     Some "16.0 EiB"].
Proof. vm_compute. reflexivity. Qed.

(** Lengths of strings. *)
Lemma string_length_app s t : String.length (s +:+ t) = (String.length s + String.length t)%nat.
Proof. induction s as [|c s IH]; simpl; [done|]. by rewrite IH. Qed.

Lemma substring_length s n :
  (n <= String.length s)%nat -> String.length (String.substring 0 n s) = n.
Proof.
  revert n. induction s as [|c s IH]; intros [|n] Hn; simpl in *; try lia.
  rewrite IH; lia.
Qed.

Lemma round_half_even_spec num den :
  0 < den -> 2 * Z.abs (round_half_even num den * den - num) <= den.
Proof.
  intros Hd. unfold round_half_even.
  pose proof (Z.div_mod num den ltac:(lia)). pose proof (Z.mod_pos_bound num den Hd).
  destruct (Z.ltb_spec (2 * (num mod den)) den); [nia|].
  destruct (Z.ltb_spec den (2 * (num mod den))); [nia|].
  destruct (Z.even _); nia.
Qed.

(** The conversion to float64 is exact below [2^53] and off by at most [2^10] above. *)
Lemma float64_of_uint64_spec b :
  is_u64 b -> 2 * Z.abs (float64_of_uint64 b - b) <= 2 ^ 11 /\
    (b < 2 ^ 53 -> float64_of_uint64 b = b).
Proof.
  intros [Hb Hb']. unfold float64_of_uint64. set (k := Z.max 0 (Z.log2 b - 52)).
  assert (0 <= k <= 11) as Hk.
  { assert (Z.log2 b < 64); [|lia].
    destruct (decide (b = 0)) as [->|]; [simpl; lia|]. apply Z.log2_lt_pow2; lia. }
  split.
  - pose proof (round_half_even_spec b (2 ^ k) ltac:(apply Z.pow_pos_nonneg; lia)).
    assert (2 ^ k <= 2 ^ 11) by (apply Z.pow_le_mono_r; lia). lia.
  - intros Hs. assert (k = 0) as ->.
    { assert (Z.log2 b < 53); [|lia].
      destruct (decide (b = 0)) as [->|]; [simpl; lia|]. apply Z.log2_lt_pow2; lia. }
    unfold round_half_even. change (2 ^ 0) with 1. rewrite Z.mod_1_r, Z.div_1_r. simpl. lia.
Qed.

(** The loop ends with the largest power of 1024 that is not above [b]. *)
Lemma format_loop_spec fuel b exp :
  is_u64 b -> fb_unit ^ Z.of_nat (S exp) <= b -> (5 <= exp + fuel)%nat ->
  exists exp', (exp' <= 5)%nat /\
    format_loop fuel (b / fb_unit ^ Z.of_nat (S exp)) (fb_unit ^ Z.of_nat (S exp)) exp =
      Some (fb_unit ^ Z.of_nat (S exp'), exp') /\
    fb_unit ^ Z.of_nat (S exp') <= b < fb_unit ^ Z.of_nat (S (S exp')).
Proof.
  intros [Hb0 Hb]. revert exp.
  assert (forall e, fb_unit ^ Z.of_nat (S e) <= b -> (e <= 5)%nat) as Hmax.
  { intros e He. destruct (decide (e <= 5)%nat); [done|exfalso].
    assert (fb_unit ^ 7 <= fb_unit ^ Z.of_nat (S e)) by (apply Z.pow_le_mono_r; unfold fb_unit; lia).
    unfold fb_unit in *. lia. }
  induction fuel as [|fuel IH]; intros exp Hexp Hfuel; cbn [format_loop];
    pose proof (Z.pow_pos_nonneg fb_unit (Z.of_nat (S exp)) ltac:(done) ltac:(lia)) as Hpos;
    destruct (Z.ltb_spec (b / fb_unit ^ Z.of_nat (S exp)) fb_unit) as [Hn|Hn].
  1,3: exists exp; split_and!; [by apply Hmax|done|done|];
    rewrite (Nat2Z.inj_succ (S exp)), Z.pow_succ_r by lia;
    pose proof (Z.mul_succ_div_gt b _ Hpos); nia.
  all: assert (fb_unit ^ Z.of_nat (S (S exp)) <= b) as Hnext by
    (rewrite (Nat2Z.inj_succ (S exp)), Z.pow_succ_r by lia;
     pose proof (Z.mul_div_le b _ Hpos); unfold fb_unit in *; nia).
  - apply Hmax in Hnext. lia.
  - destruct (IH (S exp) Hnext ltac:(lia)) as (exp' & Hle & Hl & Hr).
    exists exp'. split; [done|]. split; [|done]. rewrite <-Hl.
    assert (fb_unit ^ Z.of_nat (S (S exp)) = fb_unit ^ Z.of_nat (S exp) * fb_unit) as Hp
      by (rewrite (Nat2Z.inj_succ (S exp)), Z.pow_succ_r by lia; lia).
    rewrite Zdiv.Zdiv_Zdiv, <-Hp by (unfold fb_unit; lia). rewrite i64_id; [done|].
    apply Hmax in Hnext as Hm.
    assert (fb_unit ^ Z.of_nat (S (S exp)) <= fb_unit ^ 6) as Hp6
      by (apply Z.pow_le_mono_r; unfold fb_unit; lia).
    change (fb_unit ^ 6) with (2 ^ 60) in Hp6.
    pose proof (Z.pow_nonneg fb_unit (Z.of_nat (S (S exp))) ltac:(unfold fb_unit; lia)) as Hp0.
    clear -Hp6 Hp0. unfold is_i64. lia.
Qed.

(** ** Properties *)

(** C38: byte counts are displayed within half a tenth of their unit.  [formatBytes] is
    total on 64-bit counts: the loop ends, its int64 divisor does not overflow and the
    unit letter exists.  Above 1023 it prints the number of tenths [t] of the largest
    unit not above the count, rounded to the nearest; above [2^53] the conversion to
    float64 adds an error of at most [2^10] bytes. *)
Theorem formatBytes_total b :
  is_u64 b ->
  if decide (b < 1024) then formatBytes b = Some (sprintf_d b +:+ " B")
  else exists exp c t,
    let div := 1024 ^ Z.of_nat (S exp) in
    String.get exp "KMGTPE" = Some c /\ div <= b < 1024 * div /\
    formatBytes b = Some (sprintf_1f t +:+ " " +:+ String c "iB") /\
    2 * Z.abs (t * div - 10 * b) <= div + (if decide (b < 2 ^ 53) then 0 else 10 * 2 ^ 11).
Proof.
  intros Hb. unfold formatBytes. case_decide as Hs.
  { by rewrite (proj2 (Z.ltb_lt b fb_unit) Hs). }
  rewrite (proj2 (Z.ltb_ge b fb_unit)) by (unfold fb_unit; lia).
  destruct (format_loop_spec 6 b 0 Hb) as (exp & Hexp & Hl & Hlo & Hhi);
    [unfold fb_unit; simpl; lia|lia|].
  change (fb_unit ^ Z.of_nat 1) with fb_unit in Hl. rewrite Hl. cbn [mbind option_bind].
  destruct (String.get exp "KMGTPE") as [c|] eqn:Hc.
  2: { do 6 (destruct exp as [|exp]; [done|]). lia. }
  exists exp, c, (tenths (float64_of_uint64 b) (fb_unit ^ Z.of_nat (S exp))). cbn zeta.
  change 1024 with fb_unit in *. set (div := fb_unit ^ Z.of_nat (S exp)) in *.
  assert (0 < div) as Hdiv by (apply Z.pow_pos_nonneg; [done|lia]).
  rewrite Nat2Z.inj_succ, Z.pow_succ_r in Hhi by lia.
  destruct (float64_of_uint64_spec b Hb) as [Herr Hexact].
  pose proof (round_half_even_spec (10 * float64_of_uint64 b) div Hdiv) as Ht.
  fold (tenths (float64_of_uint64 b) div) in Ht.
  split_and!; [done..|]. case_decide as Hsmall; [rewrite Hexact in * by done|]; lia.
Qed.

(** Names fit their column.  [truncate] with a limit of at least three never
    panics, never returns more than the limit, keeps short names as they are and marks
    the others with an ellipsis after their first bytes. *)
Theorem truncate_bounded s maxLen :
  3 <= maxLen ->
  exists s', truncate s maxLen = Some s' /\ Z.of_nat (String.length s') <= maxLen /\
    (Z.of_nat (String.length s) <= maxLen -> s' = s) /\
    (maxLen < Z.of_nat (String.length s) ->
       Z.of_nat (String.length s') = maxLen /\
       s' = String.substring 0 (Z.to_nat (maxLen - 3)) s +:+ "...").
Proof.
  intros Hm. unfold truncate.
  destruct (Z.gtb_spec (Z.of_nat (String.length s)) maxLen) as [Hlt|Hle].
  - rewrite (proj2 (Z.leb_le 0 _)), (proj2 (Z.leb_le (maxLen - 3) _)) by lia. simpl andb.
    eexists. split; [done|].
    assert (Z.of_nat (String.length (String.substring 0 (Z.to_nat (maxLen - 3)) s +:+ "..."))
      = maxLen) as Hlen.
    { rewrite string_length_app, substring_length by lia. simpl. lia. }
    split_and!; [lia|lia|done].
  - exists s. split_and!; [done|lia|done|lia].
Qed.

(** ** Witnesses *)

Module StatsWitness.
Import RefMaps RefHost.

Definition mgr : Manager :=
  {| objs := sample_maps; xdpLink := Some 2; vethLinks := ∅; ifaceName := "eth0";
     ifaceIdx := 2; net := ∅ |}.

(** Two requests for backend 1 on different CPUs, one for backend 0, and a reply. *)
Definition traffic : list arrival :=
  [{| ar_pkt := request; ar_cpu := 0; ar_rand := 7 |};
   {| ar_pkt := request; ar_cpu := 1; ar_rand := 8 |};
   {| ar_pkt := reply; ar_cpu := 0; ar_rand := 3 |};
   {| ar_pkt := request; ar_cpu := 1; ar_rand := 9 |}].

Lemma stats_exact_witness :
  exists m', run_ingress LE (objs mgr) traffic = Some m' /\
    ReadStats (with_objs mgr m') 1 = Ok (2, 84).
Proof.
  apply (stats_exact LE mgr traffic 1 0 0);
    [apply sample_maps_wf| |unfold MAX_BACKENDS; lia|vm_compute; reflexivity].
  repeat (constructor; [simpl; lia|]). constructor.
Defined.

Lemma formatBytes_total_witness :
  exists exp c t,
    let div := 1024 ^ Z.of_nat (S exp) in
    String.get exp "KMGTPE" = Some c /\ div <= 2 ^ 64 - 1 < 1024 * div /\
    formatBytes (2 ^ 64 - 1) = Some (sprintf_1f t +:+ " " +:+ String c "iB") /\
    2 * Z.abs (t * div - 10 * (2 ^ 64 - 1)) <= div + 10 * 2 ^ 11.
Proof. apply (formatBytes_total (2 ^ 64 - 1)). unfold is_u64. lia. Defined.

Lemma truncate_bounded_witness :
  exists s', truncate "a-long-container-name" 16 = Some s' /\
    Z.of_nat (String.length s') <= 16 /\
    (Z.of_nat (String.length "a-long-container-name") <= 16 ->
       s' = "a-long-container-name") /\
    (16 < Z.of_nat (String.length "a-long-container-name") ->
       Z.of_nat (String.length s') = 16 /\
       s' = String.substring 0 (Z.to_nat (16 - 3)) "a-long-container-name" +:+ "...").
Proof. apply (truncate_bounded "a-long-container-name" 16). lia. Defined.
End StatsWitness.
