(* ===== verification/Busy.v ===== *)
(** * Reconciliation under traffic

    Frames arrive while [Sync] is under way.  [busy] is a manager with the frames that are
    still to come: before each system call (each attachment and each map operation, of which
    [UpdateBackend] and [ClearBackend] make two) a batch of them runs through the XDP
    programs, on the maps as they are at that moment, and what happened to each is logged.
    [busy] is an updater, so [Sync] itself runs on it unchanged.  The control plane does not
    notice the traffic (it never reads the counters, which is all a program writes), every
    frame is handled without a fault, a forwarded request reaches a backend of the old or
    the new list, and no frame is lost or counted twice in the statistics. *)

From S2P Require Import Prelude Types BpfMaps Ebpf Checksum Xdp XdpSpec DataPlane GoNet.
From S2P Require Import Samples Manager Pool Simulate Reconcile Tables ManagerSpec ManagerWf.
From S2P Require Import Fleet Interleave Stats.

(** A frame on the ingress interface or on a veth, by the program that sees it. *)
Record frame := { fr_prog : xdp_program; fr_arrival : arrival }.

Section Busy.
Context {KM : BpfMaps} {HH : Host} (e : endian).

Definition run_frame (m : lbMaps) (f : frame) : option (xdp_action * kstate) :=
  exec (match fr_prog f with
        | XdpLbIngress => xdp_lb_ingress e
        | XdpVethSnat => xdp_veth_snat e
        end) (arrival_state m (fr_arrival f)).

(** What is logged of a frame: the maps it met, and what the program returned and left of
    it; [None] is a fault. *)
Record seen := {
  se_maps : lbMaps;
  se_frame : frame;
  se_out : option (xdp_action * list byte)
}.

Definition receive (x : Manager * list seen) (f : frame) : Manager * list seen :=
  let '(m, log) := x in
  match run_frame (objs m) f with
  | Some (a, s) =>
      (with_objs m (ks_maps s),
       log ++ [{| se_maps := objs m; se_frame := f; se_out := Some (a, ks_pkt s) |}])
  | None => (m, log ++ [{| se_maps := objs m; se_frame := f; se_out := None |}])
  end.

Record busy := {
  bz_mgr : Manager;
  bz_pending : list (list frame);   (** one batch per system call to come *)
  bz_log : list seen
}.

Definition drain (x : busy) : busy :=
  match bz_pending x with
  | [] => x
  | batch :: rest =>
      let '(m, log) := foldl receive (bz_mgr x, bz_log x) batch in
      {| bz_mgr := m; bz_pending := rest; bz_log := log |}
  end.

Definition busy_call (x : busy) (f : Manager -> Manager * option error) : busy * option error :=
  let x := drain x in
  let '(m, r) := f (bz_mgr x) in
  ({| bz_mgr := m; bz_pending := bz_pending x; bz_log := bz_log x |}, r).

(** The two map operations of a call, with frames before each. *)
Definition busy_in_order (x : busy) (first second : Manager -> Manager * option error)
    : busy * option error :=
  let '(x, err) := busy_call x first in
  match err with
  | Some y => (x, Some y)
  | None => busy_call x second
  end.

Definition busy_updater : BPFUpdater busy := {|
  bu_UpdateBackend x i ip port mac :=
    busy_in_order x (UpdateBackend_forward e i ip port mac) (UpdateBackend_reverse e i ip);
  bu_ClearBackend x i ip :=
    busy_in_order x (ClearBackend_forward i) (ClearBackend_reverse e ip);
  bu_UpdateConfig x ip port n mac := busy_call x (fun m => UpdateConfig e m ip port n mac);
  bu_AttachVethXDP x name i := busy_call x (fun m => AttachVethXDP m name i);
  bu_DetachVethXDP x name := busy_call x (fun m => DetachVethXDP m name)
|}.

Definition with_traffic (batches : list (list frame)) (m : Manager) : busy :=
  {| bz_mgr := m; bz_pending := batches; bz_log := [] |}.

(** Sync while frames arrive. *)
Definition busy_Sync `{!GoRange} (batches : list (list frame)) (p : Pool Manager)
    (new : list Backend) : Pool busy * option error :=
  Sync (BPFUpdater0 := busy_updater) (map_pool (with_traffic batches) p) new.

(** ** A program writes nothing but the counters *)

Lemma with_counters_same (m : lbMaps) : m = with_CountersMap m (CountersMap m).
Proof. by destruct m. Qed.

Lemma handle_counters ev s x s' :
  handle ev s = Some (x, s') -> exists c, ks_maps s' = with_CountersMap (ks_maps s) c.
Proof.
  assert (exists c, ks_maps s = with_CountersMap (ks_maps s) c) as H0
    by (exists (CountersMap (ks_maps s)); apply with_counters_same).
  destruct ev; cbn [handle]; intros Hh;
    repeat match type of Hh with
           | mbind _ ?y = _ => destruct y; cbn [mbind option_bind] in Hh; [|discriminate Hh]
           end;
    injection Hh as _ <-; try exact H0; cbn; eauto.
Qed.

Lemma exec_counters {A} (p : prog A) s a s' :
  exec p s = Some (a, s') -> exists c, ks_maps s' = with_CountersMap (ks_maps s) c.
Proof.
  revert s. induction p as [x|ev k IH]; intros s.
  { intros [= _ <-]. exists (CountersMap (ks_maps s)). apply with_counters_same. }
  change (exec (Vis ev k) s) with ('(x, s1) ← handle ev s; exec (k x) s1).
  destruct (handle ev s) as [[x s1]|] eqn:Hh; cbn [mbind option_bind]; [|done].
  intros (c & Hc)%IH. apply handle_counters in Hh as (c1 & Hc1). exists c. by rewrite Hc, Hc1.
Qed.

(** ** The control plane does not read the counters *)

Definition with_counters (m : Manager) (c : counters_t) : Manager :=
  with_objs m (with_CountersMap (objs m) c).

(** A call that neither reads nor writes the counters. *)
Definition blind (f : Manager -> Manager * option error) : Prop :=
  forall m c, f (with_counters m c) = (with_counters (fst (f m)) c, snd (f m)).

Lemma halves_blind :
  (forall i ip port mac, blind (UpdateBackend_forward e i ip port mac)) /\
  (forall i ip, blind (UpdateBackend_reverse e i ip)) /\
  (forall i, blind (ClearBackend_forward i)) /\ (forall ip, blind (ClearBackend_reverse e ip)).
Proof.
  split_and!; intros; intros m c; unfold UpdateBackend_forward, UpdateBackend_reverse,
    ClearBackend_forward, ClearBackend_reverse; cbn [objs with_counters with_objs];
    cbn [BackendMap BackendIpsMap with_CountersMap]; by repeat case_match.
Qed.

Lemma UpdateConfig_blind ip port n mac : blind (fun m => UpdateConfig e m ip port n mac).
Proof.
  intros m c. unfold UpdateConfig. cbn [objs with_counters with_objs ConfigMap with_CountersMap].
  by destruct (am_update _ _ _).
Qed.

Lemma AttachVethXDP_blind name i : blind (fun m => AttachVethXDP m name i).
Proof.
  intros m c. unfold AttachVethXDP. cbn [vethLinks net with_counters with_objs].
  destruct (vethLinks m !! name); [done|].
  by destruct (attach_fallback _ _ _) as [n [[? ?]|l]].
Qed.

Lemma DetachVethXDP_blind name : blind (fun m => DetachVethXDP m name).
Proof.
  intros m c. unfold DetachVethXDP. cbn [vethLinks net with_counters with_objs].
  destruct (vethLinks m !! name); [|done]. by destruct (link_Close _ _) as [n [x|]].
Qed.

(** Managers that differ in the counters only. *)
Definition upto_counters (x : busy) (m : Manager) : Prop :=
  exists c, bz_mgr x = with_counters m c.

Lemma with_counters_id m : with_counters m (CountersMap (objs m)) = m.
Proof. unfold with_counters. rewrite <-with_counters_same. by destruct m. Qed.

Lemma receive_counters x f : exists c, fst (receive x f) = with_counters (fst x) c.
Proof.
  destruct x as [m log]. unfold receive. destruct (run_frame (objs m) f) as [[a s]|] eqn:Hr.
  - apply exec_counters in Hr as [c Hc]. exists c. cbn in *. by rewrite Hc.
  - exists (CountersMap (objs m)). by rewrite with_counters_id.
Qed.

Lemma receives_counters fs x : exists c, fst (foldl receive x fs) = with_counters (fst x) c.
Proof.
  revert x. induction fs as [|f fs IH]; intros x; cbn [foldl].
  { exists (CountersMap (objs (fst x))). by rewrite with_counters_id. }
  destruct (IH (receive x f)) as [c ->]. destruct (receive_counters x f) as [c1 ->].
  by exists c.
Qed.

Lemma drain_counters x : exists c, bz_mgr (drain x) = with_counters (bz_mgr x) c.
Proof.
  unfold drain. destruct (bz_pending x) as [|batch rest].
  { exists (CountersMap (objs (bz_mgr x))). by rewrite with_counters_id. }
  destruct (receives_counters batch (bz_mgr x, bz_log x)) as [c Hc].
  exists c. by destruct (foldl receive _ batch).
Qed.

Lemma busy_call_sim f x m :
  blind f -> upto_counters x m -> sim_result upto_counters (busy_call x f) (f m).
Proof.
  intros Hf [c Hc]. unfold busy_call. destruct (drain_counters x) as [c1 Hc1].
  assert (bz_mgr (drain x) = with_counters m c1) as -> by (by rewrite Hc1, Hc).
  rewrite Hf. split; [by exists c1|done].
Qed.

Lemma busy_in_order_sim f g x m :
  blind f -> blind g -> upto_counters x m ->
  sim_result upto_counters (busy_in_order x f g) (in_order f g m).
Proof.
  intros Hf Hg Hx. unfold busy_in_order, in_order.
  destruct (busy_call_sim f x m Hf Hx) as [Hx1 He].
  destruct (busy_call x f) as [x1 r]; destruct (f m) as [m1 r']; cbn in Hx1, He. subst r'.
  destruct r; [by split|by apply busy_call_sim].
Qed.

#[local] Existing Instance busy_updater.
#[local] Instance busy_sim :
  UpdaterSim (BPFUpdater1 := Manager_updater e) upto_counters.
Proof.
  split; intros x m.
  - intros i ip port mac Hx. cbn [bu_UpdateBackend busy_updater Manager_updater].
    rewrite UpdateBackend_seq. by apply busy_in_order_sim; [apply halves_blind..|].
  - intros i ip Hx. cbn [bu_ClearBackend busy_updater Manager_updater].
    rewrite ClearBackend_seq. by apply busy_in_order_sim; [apply halves_blind..|].
  - intros ip port n mac. apply busy_call_sim, UpdateConfig_blind.
  - intros name i. apply busy_call_sim, AttachVethXDP_blind.
  - intros name. apply busy_call_sim, DetachVethXDP_blind.
Qed.

Lemma busy_Sync_upto `{!GoRange} batches (p : Pool Manager) new :
  (exists c, map_pool bz_mgr (fst (busy_Sync batches p new)) =
     map_pool (fun m => with_counters m c) (fst (SyncM e p new))) /\
  snd (busy_Sync batches p new) = snd (SyncM e p new).
Proof.
  assert (sim_pool upto_counters (fst (busy_Sync batches p new)) (fst (SyncM e p new)) /\
    snd (busy_Sync batches p new) = snd (SyncM e p new)) as [(Hc & Hrest) He].
  { apply (Sync_sim upto_counters (BPFUpdater1 := Manager_updater e)). split; [|done].
    exists (CountersMap (objs (bpfManager p))). by rewrite with_counters_id. }
  split; [|done]. destruct Hc as [c Hc]. exists c.
  unfold map_pool. destruct Hrest as (-> & -> & -> & -> & ->). by rewrite Hc.
Qed.

(** ** Invariants of manager and log *)

Section Invariant.
Context (P : Manager -> list seen -> Prop) (F : frame -> Prop).
Hypothesis Hrecv : forall m log f, F f -> P m log ->
  P (fst (receive (m, log) f)) (snd (receive (m, log) f)).

Definition busy_inv (x : busy) : Prop :=
  P (bz_mgr x) (bz_log x) /\ Forall (Forall F) (bz_pending x).

Lemma receives_inv fs x :
  Forall F fs -> P (fst x) (snd x) ->
  P (fst (foldl receive x fs)) (snd (foldl receive x fs)).
Proof.
  intros Hfs. revert x. induction Hfs as [|f fs Hf _ IH]; intros x HP; [done|].
  cbn [foldl]. apply IH. destruct x as [m log]. by apply Hrecv.
Qed.

Lemma drain_inv x : busy_inv x -> busy_inv (drain x).
Proof.
  intros [HP HF]. unfold drain. destruct (bz_pending x) as [|batch rest] eqn:Hp.
  { split; [done|by rewrite Hp]. }
  apply Forall_cons in HF as [Hb Hr].
  pose proof (receives_inv batch (bz_mgr x, bz_log x) Hb HP) as HP'.
  destruct (foldl receive _ batch) as [m log]. by split.
Qed.

(** A call after the batch of frames before it. *)
Lemma busy_call_inv (Q : Manager -> list seen -> Prop) f x :
  (forall m log, P m log -> Q (fst (f m)) log) -> busy_inv x ->
  Q (bz_mgr (fst (busy_call x f))) (bz_log (fst (busy_call x f))) /\
  Forall (Forall F) (bz_pending (fst (busy_call x f))).
Proof.
  intros Hf [HP HF]%drain_inv. unfold busy_call. specialize (Hf _ _ HP).
  destruct (f (bz_mgr (drain x))) as [m r]. by split.
Qed.

Lemma busy_in_order_inv f g x :
  (forall m log, P m log -> P (fst (f m)) log) -> (forall m log, P m log -> P (fst (g m)) log) ->
  busy_inv x -> busy_inv (fst (busy_in_order x f g)).
Proof.
  intros Hf Hg Hx. unfold busy_in_order. apply (busy_call_inv P f x Hf) in Hx.
  destruct (busy_call x f) as [x1 [y|]]; [done|]. by apply busy_call_inv.
Qed.
End Invariant.
End Busy.

(** ** Properties *)

Section Traffic.
Context {KM : BpfMaps} {KL : BpfMapsLaws} {HH : Host} `{!GoRange} (e : endian).

(** The frame was handled without a fault and passed on. *)
Definition passed (s : seen) : Prop := exists pkt, se_out s = Some (XDP_PASS, pkt).

(** What became of a frame, exactly.  The configuration it met is the one from before the
    reconciliation.  A request is rewritten if and only if the maps it met select a backend
    for its random number: an ICMP request to the address of that configuration (0 is every
    address), at the index [rand mod backend_count], where the old or the new list has a
    backend whose entry it is; it is left alone otherwise.  A reply gets the configured
    address if and only if it is an ICMP frame whose source the reverse table has and the
    address is not 0. *)
Definition handled (p : Pool Manager) (new : list Backend) (s : seen) : Prop :=
  forall pkt, se_out s = Some (XDP_PASS, pkt) ->
  let m := se_maps s in
  let a := fr_arrival (se_frame s) in
  exists c, am_lookup (ConfigMap m) 0 = Some c /\
  am_lookup (ConfigMap (objs (bpfManager p))) 0 = Some c /\
  match fr_prog (se_frame s) with
  | XdpLbIngress =>
      match select e m (ar_rand a) (ar_pkt a) with
      | Some (z, _, b) =>
          pkt = dnat e c b (ar_pkt a) /\
          is_icmp_frame e (ar_pkt a) = true /\
          (cfg_vip c = 0 \/ load e (daddr_of (ar_pkt a)) = cfg_vip c) /\
          0 < cfg_backend_count c /\ z = ar_rand a mod cfg_backend_count c /\
          old_or_new e p new z b
      | None => pkt = ar_pkt a
      end
  | XdpVethSnat =>
      pkt = if is_icmp_frame e (ar_pkt a) &&
               bool_decide (is_Some (hm_lookup (BackendIpsMap m) (load e (saddr_of (ar_pkt a))))) &&
               negb (cfg_vip c =? 0)
            then snat e c (ar_pkt a) else ar_pkt a
  end.

(** What is shown of every frame of a log. *)
Definition served (p : Pool Manager) (new : list Backend) (s : seen) : Prop :=
  passed s /\ (serving e p -> Z.of_nat (length new) < 2 ^ 32 -> handled p new s).

(** One frame on well-formed maps. *)
Lemma receive_ok m log f :
  wf_maps (objs m) ->
  exists pkt, snd (receive e (m, log) f) =
      log ++ [{| se_maps := objs m; se_frame := f; se_out := Some (XDP_PASS, pkt) |}] /\
    wf_maps (objs (fst (receive e (m, log) f))) /\
    same_tables (objs m) (objs (fst (receive e (m, log) f))).
Proof.
  intros Hwf. unfold receive, run_frame. destruct f as [[|] a]; cbn [fr_prog fr_arrival].
  - destruct (ingress_maps e (objs m) a Hwf) as (s & -> & Hwf' & Hst & _). by exists (ks_pkt s).
  - rewrite exec_snat_run. eexists. split; [done|]. cbn [fst objs with_objs].
    assert (ks_maps (snat_result e (arrival_state (objs m) a)) = objs m) as ->
      by (unfold snat_result; by repeat case_match).
    done.
Qed.

Lemma receive_handled p new m log f pkt :
  serving e p -> wf_maps (objs m) -> Z.of_nat (length new) < 2 ^ 32 ->
  between e new (manager_view (bpfManager p)) (manager_view m) ->
  snd (receive e (m, log) f) =
    log ++ [{| se_maps := objs m; se_frame := f; se_out := Some (XDP_PASS, pkt) |}] ->
  handled p new {| se_maps := objs m; se_frame := f; se_out := Some (XDP_PASS, pkt) |}.
Proof.
  intros Hp Hwf Hn [Hf Hcfg]. pose proof Hp as [(c & Hc & _) _].
  cbn [manager_view d_cfg] in Hcfg. rewrite Hc in Hcfg.
  unfold receive, run_frame, handled. cbn [se_frame se_out se_maps].
  destruct f as [[|] a]; cbn [fr_prog fr_arrival].
  - rewrite exec_ingress_run by done. intros [= <-]%(inj (app log)) pkt' [= <-].
    exists c. split_and!; [done..|].
    unfold ingress_result. cbn [ks_maps ks_rand ks_pkt arrival_state].
    destruct (select _ _ _ _) as [[[z c'] b]|] eqn:Hsel; [|done].
    apply select_Some in Hsel as (Hi & Hc' & Hnz & Hv & -> & Hb & Hb0). rewrite Hcfg in Hc'.
    injection Hc' as <-. pose proof (wf_config _ Hwf 0 c Hcfg) as (_ & _ & _ & Hcnt & _).
    unfold bpf_mod in *. rewrite (proj2 (Z.eqb_neq _ _) Hnz) in *.
    split_and!; try done; [unfold is_u32 in Hcnt; lia|]. by eapply fwd_between_old_or_new.
  - rewrite exec_snat_run. intros [= <-]%(inj (app log)) pkt' [= <-].
    exists c. split_and!; [done..|].
    unfold snat_result. cbn [ks_maps ks_pkt arrival_state].
    destruct (is_icmp_frame _ _); [|done]. rewrite Hcfg.
    destruct (hm_lookup _ _); [|by rewrite bool_decide_false by (by intros [? ?])].
    rewrite bool_decide_true by eauto. by destruct (cfg_vip c =? 0).
Qed.

(** Each map operation keeps the tables on the way. *)
Lemma halves_between m new d0 :
  between e new d0 (manager_view m) ->
  (forall i b, new !! i = Some b ->
     between e new d0 (manager_view
       (fst (UpdateBackend_forward e (u32 (Z.of_nat i)) (BIP b) (Port b) (MAC b) m)))) /\
  (forall i ip, between e new d0 (manager_view (fst (UpdateBackend_reverse e i ip m)))) /\
  (forall i, between e new d0 (manager_view (fst (ClearBackend_forward i m)))) /\
  (forall ip, between e new d0 (manager_view (fst (ClearBackend_reverse e ip m)))).
Proof.
  intros [Hf Hc]. unfold UpdateBackend_forward, UpdateBackend_reverse, ClearBackend_forward,
    ClearBackend_reverse. split_and!.
  - intros i b Hb. destruct (To4 (BIP b)) as [v4|] eqn:Hv4; [|done].
    destruct (am_update _ _ _) as [x|t] eqn:Hu; [done|]. split; [|done]. intros z.
    cbn. rewrite (am_lookup_update _ _ _ _ _ Hu). case_decide as Hz; [|apply Hf].
    right; right. exists i, b. unfold entry_of. by rewrite Hv4.
  - intros i ip. destruct (To4 ip); [|done]. by destruct (hm_update _ _ _).
  - intros i. destruct (am_update _ _ _) as [x|t] eqn:Hu; [done|]. split; [|done]. intros z.
    cbn. rewrite (am_lookup_update _ _ _ _ _ Hu). case_decide; [by auto|apply Hf].
  - intros ip. destruct (To4 ip); [|done]. by destruct (hm_delete _ _).
Qed.

(** The invariant while the list changes. *)
Definition under_way (p : Pool Manager) (new : list Backend) (m : Manager) (log : list seen)
    : Prop :=
  wf_maps (objs m) /\ between e new (manager_view (bpfManager p)) (manager_view m) /\
  Forall (served p new) log.

Lemma receive_under_way p new m log f :
  under_way p new m log ->
  under_way p new (fst (receive e (m, log) f)) (snd (receive e (m, log) f)).
Proof.
  intros (Hwf & Hb & Hlog).
  destruct (receive_ok m log f Hwf) as (pkt & Hs & Hwf' & Hc & Hbm & Hi).
  split_and!; [done| |].
  - eapply between_frame; [exact Hb|..]; cbn [manager_view d_fwd d_cfg];
      [by rewrite Hbm|by rewrite Hc].
  - rewrite Hs. apply Forall_app. split; [done|]. constructor; [|constructor].
    split; [by exists pkt|]. intros Hp Hn. by eapply receive_handled.
Qed.

Definition any_frame (f : frame) : Prop := True.

Lemma any_batches (batches : list (list frame)) : Forall (Forall any_frame) batches.
Proof. apply Forall_true. intros b. by apply Forall_true. Qed.

(** C11: reconciliation under traffic.  Whatever frames arrive before each call of a
    reconciliation, and whether it succeeds or fails, its result, the new snapshot and the
    state of maps and attachments are those of the reconciliation without traffic, up to
    the counters. *)
Theorem busy_sync_refines batches (p : Pool Manager) new q r :
  busy_Sync e batches p new = (q, r) ->
  exists p' c, SyncM e p new = (p', r) /\
    map_pool bz_mgr q = map_pool (fun m => with_counters m c) p'.
Proof.
  intros Hs. destruct (busy_Sync_upto e batches p new) as [[c Hc] He]. rewrite Hs in Hc, He.
  exists (fst (SyncM e p new)), c. cbn in *. split; [|done]. rewrite He.
  apply surjective_pairing.
Qed.

Lemma busy_Sync_served batches (p : Pool Manager) new :
  wf_maps (objs (bpfManager p)) -> ports_ok new -> is_u16 (vport p) ->
  Forall (served p new) (bz_log (bpfManager (fst (busy_Sync e batches p new)))).
Proof.
  intros Hwf Hports Hvp.
  pose (P := under_way p new).
  assert (forall m log f, any_frame f -> P m log ->
    P (fst (receive e (m, log) f)) (snd (receive e (m, log) f))) as Hrecv
    by (intros m log f _; apply receive_under_way).
  apply (Sync_preserves (BPFUpdater0 := busy_updater e) (busy_inv P any_frame)
    (fun x => Forall (served p new) (bz_log x)));
    cbn [backends vip vport srcMAC map_pool].
  - intros i b x Hi. pose proof (Forall_lookup_1 _ _ _ _ Hports Hi) as Hport.
    apply (busy_in_order_inv e P any_frame Hrecv); intros m log (Hw & Hb & Hl);
      destruct (halves_wf e m Hw) as (Hw1 & Hw2 & _); destruct (halves_between m new _ Hb) as (H1 & H2 & _);
      split_and!; auto.
  - intros i o x _.
    apply (busy_in_order_inv e P any_frame Hrecv); intros m log (Hw & Hb & Hl);
      destruct (halves_wf e m Hw) as (_ & _ & Hw1 & Hw2);
      destruct (halves_between m new _ Hb) as (_ & _ & H1 & H2); split_and!; auto.
  - intros b x _. apply (busy_call_inv e P any_frame Hrecv P). intros m log (? & ? & ?).
    split_and!; [by rewrite AttachVethXDP_objs| |done].
    by apply (between_attach e (UpdaterLaws0 := Manager_laws e) new _ m).
  - intros name x. apply (busy_call_inv e P any_frame Hrecv P). intros m log (? & ? & ?).
    split_and!; [by rewrite DetachVethXDP_objs| |done].
    by apply (between_detach e (UpdaterLaws0 := Manager_laws e) new _ m).
  - intros x Hx. eapply (busy_call_inv e P any_frame Hrecv
      (fun _ log => Forall _ log)); [|exact Hx]. by intros m log (_ & _ & ?).
  - by intros x [(_ & _ & ?) _].
  - split; [|apply any_batches]. split_and!; [done| |by constructor].
    split; [intros z; by left|done].
Qed.

(** C10: frames during a reconciliation.  Every frame that arrives before any system call of
    a reconciliation is handled without a fault and passed on.  If the data plane served the
    old list, each frame meets the old configuration, and what becomes of it is exactly this
    ([handled]): a request is rewritten if and only if the maps it met select a backend for
    it, and then it is an ICMP request to the configured address and goes to the entry, at
    the index [rand mod backend_count], of a backend that the old or the new list has at that
    index; a reply gets the configured address if and only if its source is in the reverse
    table it met; every other frame is unchanged. *)
Theorem busy_frames batches (p : Pool Manager) new q r :
  wf_maps (objs (bpfManager p)) -> ports_ok new -> is_u16 (vport p) ->
  busy_Sync e batches p new = (q, r) ->
  Forall (fun s => passed s /\
            (serving e p -> Z.of_nat (length new) < 2 ^ 32 -> handled p new s))
    (bz_log (bpfManager q)).
Proof.
  intros Hwf Hports Hvp Hs.
  pose proof (busy_Sync_served batches p new Hwf Hports Hvp) as Hl. by rewrite Hs in Hl.
Qed.

(** *** Statistics *)

(** A logged request that was sent to backend [k]. *)
Definition hit (k : Z) (s : seen) : Prop :=
  fr_prog (se_frame s) = XdpLbIngress /\ sent_to e (se_maps s) k (fr_arrival (se_frame s)).
#[export] Instance hit_dec k s : Decision (hit k s).
Proof. unfold hit. apply _. Defined.

Definition sent (k : Z) (log : list seen) : list arrival :=
  map (fun s => fr_arrival (se_frame s)) (filter (hit k) log).

Lemma sent_app k l l' : sent k (l ++ l') = sent k l ++ sent k l'.
Proof. unfold sent. by rewrite filter_app, map_app. Qed.

(** The statistics of backend [k], from [pkts] and [bytes] on. *)
Definition counted (k pkts bytes : Z) (m : Manager) (log : list seen) : Prop :=
  wf_maps (objs m) /\
  ReadStats m k = Ok (u64 (pkts + Z.of_nat (length (sent k log))),
                      u64 (bytes + total_bytes (sent k log))).

Definition on_cpu (f : frame) : Prop := (ar_cpu (fr_arrival f) < pm_ncpus)%nat.

Lemma total_bytes_app l l' : total_bytes (l ++ l') = total_bytes l + total_bytes l'.
Proof.
  induction l as [|a l IH]; [done|]. cbn [app total_bytes foldr].
  fold (total_bytes (l ++ l')) (total_bytes l). lia.
Qed.

Lemma receive_counted k pkts bytes m log f :
  0 <= k < MAX_BACKENDS -> on_cpu f -> counted k pkts bytes m log ->
  counted k pkts bytes (fst (receive e (m, log) f)) (snd (receive e (m, log) f)).
Proof.
  intros Hk Hf [Hwf Hr]. destruct (receive_ok m log f Hwf) as (pkt & Hs & Hwf' & _).
  split; [done|]. rewrite Hs, sent_app, length_app, total_bytes_app. clear Hs Hwf'.
  unfold receive, run_frame, sent. rewrite filter_cons, filter_nil.
  destruct f as [[|] a]; cbn [fr_prog fr_arrival].
  - destruct (ingress_counts e m a k _ _ Hwf Hf Hk Hr) as (s & -> & _ & _ & Hr').
    cbn [fst]. rewrite Hr'. clear Hr Hr'. fold (sent k log).
    destruct (decide (sent_to e (objs m) k a)) as [Hh|Hh].
    + rewrite decide_True by done. cbn [map length se_frame fr_arrival].
      change (total_bytes [a]) with (Z.of_nat (length (ar_pkt a)) + 0).
      rewrite !u64_add_l. do 3 f_equal; lia.
    + rewrite decide_False by (by intros [_ ?]). cbn [map length].
      change (total_bytes []) with 0. rewrite !u64_add_l. do 3 f_equal; lia.
  - rewrite exec_snat_run. rewrite decide_False by (by intros [? _]).
    cbn [fst map length]. fold (sent k log). change (total_bytes []) with 0.
    assert (ks_maps (snat_result e (arrival_state (objs m) a)) = objs m) as ->
      by (unfold snat_result; by repeat case_match).
    assert (with_objs m (objs m) = m) as -> by (by destruct m).
    rewrite Hr. do 3 f_equal; lia.
Qed.

Lemma blind_counted f k pkts bytes m log :
  blind f -> (wf_maps (objs m) -> wf_maps (objs (fst (f m)))) ->
  counted k pkts bytes m log -> counted k pkts bytes (fst (f m)) log.
Proof.
  intros Hf Hw [Hwf Hr]. split; [by apply Hw|].
  specialize (Hf m (CountersMap (objs m))). rewrite with_counters_id in Hf.
  assert (CountersMap (objs (fst (f m))) = CountersMap (objs m)) as Hc
    by (by rewrite Hf).
  rewrite <- Hr. unfold ReadStats. by rewrite Hc.
Qed.

Lemma busy_Sync_counted batches (p : Pool Manager) new k pkts bytes :
  wf_maps (objs (bpfManager p)) -> ports_ok new -> is_u16 (vport p) ->
  0 <= k < MAX_BACKENDS -> Forall (Forall on_cpu) batches ->
  ReadStats (bpfManager p) k = Ok (u64 pkts, u64 bytes) ->
  counted k pkts bytes (bz_mgr (bpfManager (fst (busy_Sync e batches p new))))
    (bz_log (bpfManager (fst (busy_Sync e batches p new)))).
Proof.
  intros Hwf Hports Hvp Hk Hb Hr. pose (P := counted k pkts bytes).
  assert (forall m log f, on_cpu f -> P m log ->
    P (fst (receive e (m, log) f)) (snd (receive e (m, log) f))) as Hrecv
    by (intros m log f; by apply receive_counted).
  enough (busy_inv P on_cpu (bpfManager (fst (busy_Sync e batches p new)))) as [? _] by done.
  apply (Sync_preserves (BPFUpdater0 := busy_updater e) (busy_inv P on_cpu) (busy_inv P on_cpu));
    cbn [backends vip vport srcMAC map_pool]; [..|done|].
  - intros i b x Hi. pose proof (Forall_lookup_1 _ _ _ _ Hports Hi) as Hport.
    apply (busy_in_order_inv e P on_cpu Hrecv); intros m log Hm;
      destruct (halves_blind e) as (H1 & H2 & _); (eapply blind_counted; [auto| |exact Hm]);
      intros Hw; destruct (halves_wf e m Hw) as (Hw1 & Hw2 & _); auto.
  - intros i o x _.
    apply (busy_in_order_inv e P on_cpu Hrecv); intros m log Hm;
      destruct (halves_blind e) as (_ & _ & H1 & H2); (eapply blind_counted; [auto| |exact Hm]);
      intros Hw; destruct (halves_wf e m Hw) as (_ & _ & Hw1 & Hw2); auto.
  - intros b x _. apply (busy_call_inv e P on_cpu Hrecv P). intros m log.
    apply (blind_counted (fun m => AttachVethXDP m _ _)); [apply AttachVethXDP_blind|].
    by rewrite AttachVethXDP_objs.
  - intros name x. apply (busy_call_inv e P on_cpu Hrecv P). intros m log.
    apply (blind_counted (fun m => DetachVethXDP m _)); [apply DetachVethXDP_blind|].
    by rewrite DetachVethXDP_objs.
  - intros x. apply (busy_call_inv e P on_cpu Hrecv P). intros m log.
    apply (blind_counted (fun m => UpdateConfig e m _ _ _ _)); [apply UpdateConfig_blind|].
    intros ?. apply UpdateConfig_wf; [done..|apply u32_range].
  - split; [|done]. split; [done|]. cbn. by rewrite !Z.add_0_r.
Qed.
End Traffic.

(** ** Witnesses: the first of two backends goes away while requests and replies arrive. *)

Module BusyWitness.
Import RefMaps RefHost InterleaveWitness.

Definition request_frame (cpu : nat) (rnd : Z) : frame :=
  {| fr_prog := XdpLbIngress;
     fr_arrival := {| ar_pkt := request; ar_cpu := cpu; ar_rand := rnd |} |}.
Definition reply_frame : frame :=
  {| fr_prog := XdpVethSnat; fr_arrival := {| ar_pkt := reply; ar_cpu := 1; ar_rand := 0 |} |}.

(** Before the two map operations that clear index 0, the two that write it, the two that
    clear index 1, the detachment and the configuration. *)
Definition batches_s : list (list frame) :=
  [[request_frame 0 6]; [request_frame 1 6; reply_frame]; [request_frame 0 6];
   [request_frame 0 6]; [reply_frame]; [request_frame 0 7]; []; [reply_frame]].

Definition busy_s : Pool busy * option error := busy_Sync LE batches_s pool_s [app2].

(** The requests for index 0 go to the old backend, nowhere (it is cleared), and to the new
    one as soon as its forward entry is written; the one for index 1 finds it cleared. *)
Example busy_s_hits :
  (fun s => bool_decide (hit LE 0 s)) <$> bz_log (bpfManager (fst busy_s)) =
    [true; false; false; false; true; false; false; false].
Proof. reflexivity. Qed.

Lemma busy_s_eq : busy_Sync LE batches_s pool_s [app2] = (fst busy_s, snd busy_s).
Proof. unfold busy_s. exact (surjective_pairing (busy_Sync LE batches_s pool_s [app2])). Qed.

Lemma busy_sync_refines_witness :
  exists p' c, SyncM LE pool_s [app2] = (p', snd busy_s) /\
    map_pool bz_mgr (fst busy_s) = map_pool (fun m => with_counters m c) p'.
Proof. exact (busy_sync_refines LE batches_s pool_s [app2] _ _ busy_s_eq). Defined.

Lemma busy_frames_witness :
  Forall (fun s => passed s /\
            (serving LE pool_s -> Z.of_nat 1 < 2 ^ 32 -> handled LE pool_s [app2] s))
    (bz_log (bpfManager (fst busy_s))).
Proof.
  apply (busy_frames LE batches_s pool_s [app2] (fst busy_s) (snd busy_s));
    [apply sample_maps_wf|apply ports2|apply vport_ok|apply busy_s_eq].
Defined.
End BusyWitness.
