(* ===== verification/Collector.v ===== *)
(** * The statistics table (userspace/stats/collector.go)

    [render]: the text the collector prints at every tick, from the pool's snapshot and the
    counters.  [IP.String] and [HardwareAddr.String] follow the standard library; [%-Ns]
    pads to [N] runes ([rune_count]). *)

From Stdlib Require Import Ascii.
From S2P Require Import Prelude Types BpfMaps Ebpf Checksum Xdp GoNet GoStrings Manager Pool.
From S2P Require Import Samples ManagerSpec Fleet Stats.

(** ** Formatting *)

Definition ascii_of_Z (x : Z) : ascii := ascii_of_nat (Z.to_nat x).

(** One of "0123456789abcdef". *)
Definition hex_char (d : Z) : ascii := ascii_of_Z (if d <? 10 then d + 48 else d - 10 + 97).

Fixpoint join (sep : string) (l : list string) : string :=
  match l with
  | [] => ""
  | [s] => s
  | s :: l => s +:+ sep +:+ join sep l
  end.

Definition octet (b : byte) : string := sprintf_d (byte.unsigned b).

Definition hex_pair (b : byte) : string :=
  String (hex_char (byte.unsigned b / 16)) (String (hex_char (byte.unsigned b mod 16)) "").

(** HardwareAddr.String *)
Definition MAC_String (mac : HardwareAddr) : string := join ":" (map hex_pair mac).

(** The hexadecimal digits of a 16-bit group without leading zeros. *)
Definition hex_digits (x : Z) : string :=
  let d k := String (hex_char (x / 16 ^ k mod 16)) "" in
  if 4096 <=? x then d 3 +:+ d 2 +:+ d 1 +:+ d 0
  else if 256 <=? x then d 2 +:+ d 1 +:+ d 0
  else if 16 <=? x then d 1 +:+ d 0
  else d 0.

Fixpoint groups (ip : list byte) : list Z :=
  match ip with
  | a :: b :: ip => (byte.unsigned a * 256 + byte.unsigned b) :: groups ip
  | _ => []
  end.

(** The number of leading zero groups. *)
Fixpoint zeros (gs : list Z) : nat :=
  match gs with
  | g :: gs => if g =? 0 then S (zeros gs) else 0
  | [] => 0
  end.

(** The first longest run of at least two zero groups: where it starts and ends. *)
Definition zero_run (gs : list Z) : option (nat * nat) :=
  foldl (fun best i =>
    let l := zeros (drop i gs) in
    let len := match best with Some (s, e) => (e - s)%nat | None => 0%nat end in
    if (2 <=? l)%nat && (len <? l)%nat then Some (i, (i + l)%nat) else best)
    None (seq 0 (length gs)).

Definition v6_string (ip : IP) : string :=
  let gs := groups ip in
  match zero_run gs with
  | None => join ":" (map hex_digits gs)
  | Some (s, e) =>
      join ":" (map hex_digits (take s gs)) +:+ "::" +:+ join ":" (map hex_digits (drop e gs))
  end.

(** IP.String *)
Definition IP_String (ip : IP) : string :=
  if (length ip =? 0)%nat then "<nil>"
  else
    match To4 ip with
    | Some v4 => join "." (map octet v4)
    | None =>
        if (length ip =? 16)%nat then v6_string ip
        else "?" +:+ String.concat "" (map hex_pair ip)
    end.

Example IP_String_ex :
  map (fun s => IP_String <$> ParseIP s)
    ["172.18.0.2"; "::ffff:10.0.0.1"; "fe80::42:0:0:1"; "::"; "1:0:0:2::3"; "2001:db8::1:0:0:1"] =
    [Some "172.18.0.2"; Some "10.0.0.1"; Some "fe80::42:0:0:1"; Some "::"; Some "1:0:0:2::3";
     Some "2001:db8::1:0:0:1"].
Proof. vm_compute. reflexivity. Qed.

Fixpoint repeat_string (s : string) (n : nat) : string :=
  match n with O => "" | S n => s +:+ repeat_string s n end.

(** utf8.RuneCountInString.  The second byte of a multi-byte rune has bounds that depend on
    the first, the others are in [0x80..0xbf]; a byte that starts no valid encoding counts as
    a rune of its own. *)
Definition second_bounds (c0 : Z) : option (nat * Z * Z) :=   (** length, bounds *)
  if (194 <=? c0) && (c0 <=? 223) then Some (2%nat, 128, 191)
  else if c0 =? 224 then Some (3%nat, 160, 191)
  else if c0 =? 237 then Some (3%nat, 128, 159)
  else if (225 <=? c0) && (c0 <=? 239) then Some (3%nat, 128, 191)
  else if c0 =? 240 then Some (4%nat, 144, 191)
  else if (241 <=? c0) && (c0 <=? 243) then Some (4%nat, 128, 191)
  else if c0 =? 244 then Some (4%nat, 128, 143)
  else None.

Definition within_bounds (lo hi : Z) (c : ascii) : bool := (lo <=? code c) && (code c <=? hi).

(** The length of the encoding at the front. *)
Definition rune_length (s : list ascii) : nat :=
  match s with
  | c0 :: c1 :: s =>
      match second_bounds (code c0) with
      | Some (n, lo, hi) =>
          if within_bounds lo hi c1 && (n - 2 <=? length s)%nat &&
             forallb (within_bounds 128 191) (take (n - 2) s)
          then n else 1
      | None => 1
      end
  | _ => 1
  end.

Fixpoint rune_count_loop (fuel : nat) (s : list ascii) : nat :=
  match fuel, s with
  | S fuel, _ :: _ => S (rune_count_loop fuel (drop (rune_length s) s))
  | _, _ => 0
  end.

Definition rune_count (s : string) : nat := rune_count_loop (String.length s) (chars s).

(** Two bytes, three, four; an overlong form and a cut one. *)
Example rune_count_ex :
  map (fun l => rune_count (String.string_of_list_ascii (map ascii_of_Z l)))
    [[97; 98]; [195; 169]; [226; 130; 172; 97]; [240; 159; 152; 128]; [192; 175]; [226; 130]] =
    [2; 1; 2; 1; 2; 2]%nat.
Proof. vm_compute. reflexivity. Qed.

(** [%-Ns] *)
Definition pad (n : nat) (s : string) : string := s +:+ repeat_string " " (n - rune_count s).

Definition newline : string := String (ascii_of_Z 10) "".

(** ** render *)

Section Render.
Context {KM : BpfMaps} {HH : Host}.

(** Counters that cannot be read are shown as zero. *)
Definition shown (m : Manager) (i : nat) : Z * Z :=
  match ReadStats m (u32 (Z.of_nat i)) with
  | Ok (pkts, bytes) => (pkts, bytes)
  | Err _ => (0, 0)
  end.

Definition endpoint_string (b : Backend) : string :=
  IP_String (BIP b) +:+ ":" +:+ sprintf_d (Port b).

(** [" %-5d %-16s %-21s %-18s %-12d %-12s\n"] *)
Definition line (c1 c2 c3 c4 c5 c6 : string) : string :=
  " " +:+ pad 5 c1 +:+ " " +:+ pad 16 c2 +:+ " " +:+ pad 21 c3 +:+ " " +:+ pad 18 c4 +:+ " "
    +:+ pad 12 c5 +:+ " " +:+ pad 12 c6 +:+ newline.

(** The row of backend [b] at index [i]; [None] is a panic. *)
Definition row (m : Manager) (i : nat) (b : Backend) : option string :=
  let '(pkts, bytes) := shown m i in
  name ← truncate (Name b) 16;
  size ← formatBytes bytes;
  Some (line (sprintf_d (Z.of_nat i)) name (endpoint_string b) (MAC_String (MAC b))
          (sprintf_d pkts) size).

Fixpoint rows (m : Manager) (i : nat) (bs : list Backend) : option string :=
  match bs with
  | [] => Some ""
  | b :: bs => r ← row m i b; rest ← rows m (S i) bs; Some (r +:+ rest)
  end.

Definition header (now : string) (n : nat) : string :=
  newline +:+ repeat_string "=" 80 +:+ newline +:+
  " [" +:+ now +:+ "] XDP LOAD BALANCER - STATS & ACTIVE BACKENDS (" +:+
  sprintf_d (Z.of_nat n) +:+ " Total)" +:+ newline +:+
  repeat_string "-" 80 +:+ newline +:+
  line "IDX" "CONTAINER" "ENDPOINT" "MAC ADDRESS" "PACKETS" "BYTES" +:+
  repeat_string "-" 80 +:+ newline.

Definition no_backends : string :=
  " (No healthy backends discovered. Waiting for matching Docker containers...)" +:+ newline.

Definition render (now : string) (m : Manager) (p : Pool Manager) : option string :=
  let backends := GetBackends p in
  body ← (if (length backends =? 0)%nat then Some no_backends else rows m 0 backends);
  Some (header now (length backends) +:+ body +:+ repeat_string "=" 80 +:+ newline).
End Render.

(** ** Addresses are shown so that they can be read back *)

Lemma chars_app s t : chars (s +:+ t) = chars s ++ chars t.
Proof. unfold chars. induction s as [|c s IH]; simpl; [done|]. by rewrite IH. Qed.

(** The shape of a printed octet: one to three digits, no leading zero. *)
Definition digits_of (cs : list ascii) (v : Z) : bool :=
  match cs with
  | [x] => is_digit x && (code x - 48 =? v)
  | [x; y] =>
      is_digit x && is_digit y && negb (code x =? 48) &&
      ((code x - 48) * 10 + (code y - 48) =? v)
  | [x; y; z] =>
      is_digit x && is_digit y && is_digit z && negb (code x =? 48) &&
      (((code x - 48) * 10 + (code y - 48)) * 10 + (code z - 48) =? v)
  | _ => false
  end.

Lemma octet_digits b : digits_of (chars (octet b)) (byte.unsigned b) = true.
Proof. destruct b; vm_compute; reflexivity. Qed.

Lemma digit_range c : is_digit c = true -> 0 <= code c - 48 <= 9.
Proof. unfold is_digit. intros [?%Z.leb_le ?%Z.leb_le]%andb_prop. lia. Qed.

Lemma digit_format c s : is_digit c = true -> addr_format (c :: s) = addr_format s.
Proof.
  intros Hd%digit_range. cbn [addr_format]. unfold is_char.
  rewrite !(proj2 (Z.eqb_neq _ _)) by lia. done.
Qed.

Lemma parse_digit c s acc val k pd :
  is_digit c = true -> (k = 0%nat \/ val <> 0) -> val * 10 + (code c - 48) <= 255 ->
  parse_v4_fields (c :: s) acc val k pd =
    parse_v4_fields s acc (val * 10 + (code c - 48)) (S k) false.
Proof.
  intros Hd Hk Hv. cbn [parse_v4_fields]. rewrite Hd.
  assert ((k =? 1)%nat && (val =? 0) = false) as ->.
  { destruct Hk as [->|Hv0]; [done|]. by rewrite (proj2 (Z.eqb_neq _ _) Hv0), andb_false_r. }
  by rewrite (proj2 (Z.ltb_ge _ _)) by lia.
Qed.

(** A printed octet is parsed to its value, and has no character that decides the format. *)
Lemma parse_octet b s acc pd :
  addr_format (chars (octet b) ++ s) = addr_format s /\
  exists d, parse_v4_fields (chars (octet b) ++ s) acc 0 0 pd =
              parse_v4_fields s acc (byte.unsigned b) (S d) false.
Proof.
  pose proof (octet_digits b) as Hd. pose proof (byte.unsigned_range b) as Hb.
  destruct (chars (octet b)) as [|x [|y [|z [|? ?]]]]; cbn [digits_of] in Hd; try done;
    rewrite !andb_true_iff, ?negb_true_iff, ?Z.eqb_neq, Z.eqb_eq in Hd;
    destruct_and! Hd; cbn [app]; rewrite !digit_format by done;
    repeat match goal with H : is_digit ?c = true |- _ =>
      lazymatch goal with R : 0 <= code c - 48 <= 9 |- _ => fail
      | _ => pose proof (digit_range c H) end end;
    (split; [done|]); eexists; rewrite !parse_digit by (done || lia); do 2 f_equal; lia.
Qed.

Lemma parse_dot s acc val d :
  s <> [] -> (length acc < 3)%nat ->
  parse_v4_fields (ascii_of_nat 46 :: s) acc val (S d) false =
    parse_v4_fields s (acc ++ [byte_of val]) 0 0 true.
Proof.
  intros Hs Hacc. cbn [parse_v4_fields]. change (is_digit (ascii_of_nat 46)) with false.
  change (is_char 46 (ascii_of_nat 46)) with true. cbv iota. cbn [orb].
  rewrite (proj2 (Nat.eqb_neq (length s) 0)) by (by destruct s).
  by rewrite (proj2 (Nat.eqb_neq (length acc) 3)) by lia.
Qed.

Lemma chars_octet_ne b s : chars (octet b) ++ s <> [].
Proof. by destruct b. Qed.

Lemma chars_octet_ne' b : chars (octet b) <> [].
Proof. by destruct b. Qed.

Lemma parse_v4_octets a b c d :
  parse_v4 (chars (join "." (map octet [a; b; c; d]))) = Some [a; b; c; d].
Proof.
  unfold parse_v4. cbn [map join]. rewrite !chars_app. change (chars ".") with [ascii_of_nat 46].
  cbn [app].
  destruct (parse_octet a (ascii_of_nat 46 :: chars (octet b) ++ ascii_of_nat 46 ::
    chars (octet c) ++ ascii_of_nat 46 :: chars (octet d)) [] true) as [_ [da ->]].
  rewrite parse_dot by (apply chars_octet_ne || (simpl; lia)).
  destruct (parse_octet b (ascii_of_nat 46 :: chars (octet c) ++ ascii_of_nat 46 ::
    chars (octet d)) ([] ++ [byte_of (byte.unsigned a)]) true) as [_ [db ->]].
  rewrite parse_dot by (apply chars_octet_ne || (simpl; lia)).
  destruct (parse_octet c (ascii_of_nat 46 :: chars (octet d))
    (([] ++ [byte_of (byte.unsigned a)]) ++ [byte_of (byte.unsigned b)]) true) as [_ [dc ->]].
  rewrite parse_dot by (apply chars_octet_ne' || (simpl; lia)).
  rewrite <- (app_nil_r (chars (octet d))).
  destruct (parse_octet d [] ((([] ++ [byte_of (byte.unsigned a)]) ++
    [byte_of (byte.unsigned b)]) ++ [byte_of (byte.unsigned c)]) true) as [_ [dd ->]].
  cbn [parse_v4_fields app length Nat.eqb]. unfold byte_of. by rewrite !byte.of_Z_unsigned.
Qed.

Lemma IP_String_parses ip v4 :
  To4 ip = Some v4 -> ParseIP (IP_String ip) = Some (v4InV6Prefix ++ v4).
Proof.
  intros Hv. unfold IP_String. rewrite Hv.
  assert (length ip <> 0%nat) as Hne by (intros H0; unfold To4 in Hv; by rewrite H0 in Hv).
  rewrite (proj2 (Nat.eqb_neq _ _) Hne). apply To4_length in Hv. explicit_list v4 Hv.
  unfold ParseIP. rewrite parse_v4_octets. cbn [map join]. rewrite chars_app.
  rewrite (proj1 (parse_octet _ _ [] true)). reflexivity.
Qed.

(** Two printed hexadecimal digits are parsed to their byte. *)
Definition hi (b : byte) : ascii := hex_char (byte.unsigned b / 16).
Definition lo (b : byte) : ascii := hex_char (byte.unsigned b mod 16).

Lemma hex_pair_value b :
  (x ← hex_digit (hi b); y ← hex_digit (lo b); Some (byte_of (x * 16 + y))) = Some b.
Proof. destruct b; vm_compute; reflexivity. Qed.

Lemma xtoi2_sep b rest sep : xtoi2 (hi b :: lo b :: sep :: rest) sep = Some b.
Proof. unfold xtoi2. rewrite bool_decide_true by done. apply hex_pair_value. Qed.

Lemma xtoi2_end b sep : xtoi2 [hi b; lo b] sep = Some b.
Proof. apply hex_pair_value. Qed.

Lemma MAC_String_parses mac : length mac = 6%nat -> ParseMAC (MAC_String mac) = Some mac.
Proof.
  intros Hm. explicit_list mac Hm. set (sep := ascii_of_nat 58).
  unfold ParseMAC. change (chars (MAC_String _)) with
    [hi x; lo x; sep; hi x0; lo x0; sep; hi x1; lo x1; sep; hi x2; lo x2; sep;
     hi x3; lo x3; sep; hi x4; lo x4].
  cbn [length Nat.ltb Nat.leb lookup list_lookup mbind option_bind].
  change (is_char 58 sep) with true. cbn [orb].
  change (negb ((17 + 1) mod 3 =? 0)%nat) with false. change ((17 + 1) / 3)%nat with 6%nat.
  cbn [negb mac_length Nat.eqb orb seq mapM Nat.mul Nat.add drop].
  by rewrite !xtoi2_sep, xtoi2_end.
Qed.

(** ** The table *)

Lemma formatBytes_Some b : is_u64 b -> is_Some (formatBytes b).
Proof.
  intros Hb. unfold formatBytes. destruct (Z.ltb_spec b fb_unit) as [|Hs]; [eauto|].
  destruct (format_loop_spec 6 b 0 Hb) as (exp & Hexp & Hl & _);
    [unfold fb_unit in *; simpl; lia|lia|].
  change (fb_unit ^ Z.of_nat 1) with fb_unit in Hl. rewrite Hl. cbn [mbind option_bind].
  destruct (String.get exp "KMGTPE") as [c|] eqn:Hc; [eauto|].
  do 6 (destruct exp as [|exp]; [done|]). lia.
Qed.

Lemma sum_counters_range l p b :
  is_u64 p -> is_u64 b ->
  is_u64 (fst (sum_counters l p b)) /\ is_u64 (snd (sum_counters l p b)).
Proof.
  revert p b. induction l as [|c l IH]; intros p b Hp Hb; [done|].
  apply IH; apply u64_range.
Qed.

Lemma string_app_nil s : s +:+ "" = s.
Proof. induction s as [|c s IH]; [done|]. change (String c (s +:+ "") = String c s). congruence. Qed.

Lemma string_app_assoc s t u : s +:+ (t +:+ u) = (s +:+ t) +:+ u.
Proof.
  induction s as [|c s IH]; [done|].
  change (String c (s +:+ (t +:+ u)) = String c ((s +:+ t) +:+ u)). congruence.
Qed.

Section Table.
Context {KM : BpfMaps} {HH : Host}.

Lemma shown_range (m : Manager) i : is_u64 (fst (shown m i)) /\ is_u64 (snd (shown m i)).
Proof.
  assert (is_u64 0) as H0 by (unfold is_u64; lia).
  unfold shown, ReadStats. destruct (pm_values _ _) as [x|vs]; [done|].
  pose proof (sum_counters_range vs 0 0 H0 H0). by destruct (sum_counters vs 0 0).
Qed.

Lemma row_total m i b : exists text, row m i b = Some text.
Proof.
  unfold row. pose proof (shown_range m i) as [_ Hb]. destruct (shown m i) as [pkts bytes].
  destruct (truncate_bounded (Name b) 16 ltac:(lia)) as (name & -> & _).
  destruct (formatBytes_Some bytes Hb) as [size ->]. cbn [mbind option_bind]. eauto.
Qed.

Lemma rows_total m i bs : exists text, rows m i bs = Some text.
Proof.
  revert i. induction bs as [|b bs IH]; intros i; [by eexists|]. cbn [rows].
  destruct (row_total m i b) as [text ->], (IH (S i)) as [texts ->]. by eexists.
Qed.

Lemma render_total now (m : Manager) (p : Pool Manager) : render now m p <> None.
Proof.
  destruct (rows_total m 0 (backends p)) as [texts Hr]. unfold render, GetBackends.
  rewrite Hr. by destruct (length (backends p) =? 0)%nat.
Qed.

End Table.

(** A printed number is parsed to its value. *)
Lemma pretty_char_digit d :
  (d < 10)%N -> is_digit (pretty_N_char d) = true /\ code (pretty_N_char d) - 48 = Z.of_N d.
Proof. intros Hd. do 10 (destruct d as [|d] using N.peano_ind; [done|clear IHd]). lia. Qed.

Lemma parse_pretty_go x s :
  parse_digits (chars (pretty_N_go x s)) 0 = parse_digits (chars s) (Z.of_N x).
Proof.
  revert s. induction (N.lt_wf_0 x) as [x _ IH]. intros s.
  destruct (decide (0 < x)%N) as [Hx|Hx].
  - rewrite pretty_N_go_step by done. rewrite IH by (apply N.div_lt; lia).
    destruct (pretty_char_digit (x mod 10)) as [Hd Hc]; [by apply N.mod_lt|].
    cbn [chars String.list_ascii_of_string parse_digits]. unfold chars in *.
    cbn [String.list_ascii_of_string parse_digits]. rewrite Hd, Hc. f_equal.
    rewrite N2Z.inj_div, N2Z.inj_mod. pose proof (Z.div_mod (Z.of_N x) 10 ltac:(lia)). lia.
  - assert (x = 0%N) as -> by lia. by rewrite pretty_N_go_0.
Qed.

Lemma sprintf_d_parses bits x : 0 <= x < 2 ^ bits -> ParseUint10 (sprintf_d x) bits = Some x.
Proof.
  intros Hx. unfold sprintf_d, pretty, pretty_N. case_decide as H0.
  { assert (x = 0) as -> by lia.
    change (ParseUint10 "0" bits) with (if 0 <? 2 ^ bits then Some 0 else None).
    by rewrite (proj2 (Z.ltb_lt 0 _)) by lia. }
  pose proof (parse_pretty_go (Z.to_N x) "") as Hp.
  unfold ParseUint10. destruct (chars (pretty_N_go _ _)) as [|c l] eqn:Hc.
  { cbn in Hp. injection Hp. lia. }
  rewrite Hp. cbn. rewrite Z2N.id by apply Hx.
  by rewrite (proj2 (Z.ltb_lt x _)) by apply Hx.
Qed.

(** ** Witnesses *)

Module CollectorWitness.
Import RefMaps RefHost.

Example render_ex :
  render "12:00:00" mgr0 pool0 =
    Some (header "12:00:00" 0 +:+ no_backends +:+ repeat_string "=" 80 +:+ newline).
Proof. reflexivity. Qed.

Example row_ex :
  row (KM := RefMaps.maps) (HH := RefHost.host) StatsWitness.mgr 0 app1 =
    Some (" 0     app1             172.18.0.2:8080       02:42:ac:12:00:02  0            0 B         "
          +:+ newline).
Proof. vm_compute. reflexivity. Qed.

End CollectorWitness.
