(* ===== verification/Readback.v ===== *)
(** * The table can be read back

    A reader that knows nothing of the printing code (it splits a text into lines and a line
    at its spaces) finds, in the line of each backend of the snapshot: its index, its name
    (cut to the column), its address and port, its MAC and its counters, summed over the CPUs. *)

From Stdlib Require Import Ascii.
From S2P Require Import Prelude Types BpfMaps Ebpf Checksum Xdp GoNet GoStrings Manager Pool.
From S2P Require Import Samples ManagerSpec Fleet Stats Collector.

(** ** The reader *)

(** The pieces of [s] between the characters that [sep] accepts; [cur] is the piece under
    way. *)
Fixpoint pieces (sep : ascii -> bool) (cur s : list ascii) : list (list ascii) :=
  match s with
  | [] => [cur]
  | c :: s => if sep c then cur :: pieces sep [] s else pieces sep (cur ++ [c]) s
  end.

Definition is_space : ascii -> bool := is_char 32.
Definition is_newline : ascii -> bool := is_char 10.

Definition of_chars (l : list ascii) : string := String.string_of_list_ascii l.

Definition lines (s : string) : list string := map of_chars (pieces is_newline [] (chars s)).

(** The words of a line: what is not empty between spaces. *)
Definition words (s : string) : list string :=
  map of_chars (filter (fun l => l <> []) (pieces is_space [] (chars s))).

Example words_ex : words "  a bc   d " = ["a"; "bc"; "d"].
Proof. reflexivity. Qed.

(** ** Splitting *)

(** No character of the string is accepted. *)
Definition without (sep : ascii -> bool) (s : string) : Prop :=
  Forall (fun c => sep c = false) (chars s).

Lemma of_chars_chars s : of_chars (chars s) = s.
Proof. apply String.string_of_list_ascii_of_string. Qed.

Lemma pieces_app sep cur s rest :
  Forall (fun c => sep c = false) s -> pieces sep cur (s ++ rest) = pieces sep (cur ++ s) rest.
Proof.
  intros Hs. revert cur. induction Hs as [|c s Hc _ IH]; intros cur; cbn [app pieces].
  { by rewrite app_nil_r. }
  by rewrite Hc, IH, <- app_assoc.
Qed.

Lemma without_app sep s t : without sep (s +:+ t) <-> without sep s /\ without sep t.
Proof. unfold without. rewrite chars_app. apply Forall_app. Qed.

Lemma lines_cons s rest :
  without is_newline s -> lines (s +:+ newline +:+ rest) = s :: lines rest.
Proof.
  intros Hs. unfold lines. rewrite chars_app, pieces_app by done. rewrite chars_app.
  cbn [app]. change (chars newline) with [ascii_of_Z 10]. cbn [app pieces].
  change (is_newline (ascii_of_Z 10)) with true. cbn [map]. by rewrite of_chars_chars.
Qed.

(** A word and the spaces after it. *)
Lemma words_cons s rest :
  without is_space s -> s <> "" -> words (s +:+ " " +:+ rest) = s :: words rest.
Proof.
  intros Hs Hne. unfold words. rewrite chars_app, pieces_app by done. rewrite chars_app.
  change (chars " ") with [ascii_of_nat 32]. cbn [app pieces].
  change (is_space (ascii_of_nat 32)) with true. cbv iota. rewrite filter_cons_True.
  - cbn [map]. by rewrite of_chars_chars.
  - intros Hc. apply Hne. rewrite <- (of_chars_chars s), Hc. done.
Qed.

Lemma words_space rest : words (" " +:+ rest) = words rest.
Proof.
  unfold words. rewrite chars_app. change (chars " ") with [ascii_of_nat 32].
  cbn [app pieces]. change (is_space (ascii_of_nat 32)) with true. cbv iota.
  by rewrite filter_cons_False by (by intros ?).
Qed.

Lemma words_spaces n rest : words (repeat_string " " n +:+ rest) = words rest.
Proof.
  induction n as [|n IH]; [done|]. cbn [repeat_string]. rewrite <- IH.
  rewrite <- string_app_assoc. apply words_space.
Qed.

(** A padded column and the space that follows it. *)
Lemma words_pad n s rest :
  without is_space s -> s <> "" -> words (pad n s +:+ " " +:+ rest) = s :: words rest.
Proof.
  intros Hs Hne. unfold pad. destruct (n - rune_count s)%nat as [|k].
  - cbn [repeat_string]. rewrite string_app_nil. by apply words_cons.
  - cbn [repeat_string]. rewrite <- !string_app_assoc, words_cons, words_spaces by done.
    by rewrite words_space.
Qed.

(** ** Columns: no spaces, no line breaks *)

Definition solid (s : string) : Prop := without is_space s /\ without is_newline s.

Lemma solid_app s t : solid s -> solid t -> solid (s +:+ t).
Proof. unfold solid. rewrite !without_app. tauto. Qed.

Lemma solid_char c s :
  is_space c = false -> is_newline c = false -> solid s -> solid (String c s).
Proof. intros H1 H2 [H3 H4]. split; (constructor; [done|]); done. Qed.

Lemma digit_solid c : is_digit c = true -> is_space c = false /\ is_newline c = false.
Proof.
  intros Hd%digit_range. unfold is_space, is_newline, is_char.
  split; apply Z.eqb_neq; lia.
Qed.

Lemma solid_pretty_go x s : solid s -> solid (pretty_N_go x s).
Proof.
  revert s. induction (N.lt_wf_0 x) as [x _ IH]. intros s Hs.
  destruct (decide (0 < x)%N) as [Hx|Hx].
  - rewrite pretty_N_go_step by done. apply IH; [apply N.div_lt; lia|].
    destruct (pretty_char_digit (x mod 10)) as [Hd _]; [by apply N.mod_lt|].
    apply digit_solid in Hd as [? ?]. by apply solid_char.
  - assert (x = 0%N) as -> by lia. by rewrite pretty_N_go_0.
Qed.

Lemma solid_empty : solid "".
Proof. split; constructor. Qed.

Lemma solid_sprintf_d x : solid (sprintf_d x).
Proof.
  unfold sprintf_d, pretty, pretty_N. case_decide.
  - split; repeat (constructor; [reflexivity|]); constructor.
  - apply solid_pretty_go, solid_empty.
Qed.

Lemma sprintf_d_ne x : sprintf_d x <> "".
Proof.
  assert (forall y s, (0 < y)%N \/ s <> "" -> pretty_N_go y s <> "") as Hgo.
  { intros y. induction (N.lt_wf_0 y) as [y _ IH]. intros s Hs.
    destruct (decide (0 < y)%N) as [Hy|Hy].
    - rewrite pretty_N_go_step by done. apply IH; [apply N.div_lt; lia|by right].
    - assert (y = 0%N) as -> by lia. rewrite pretty_N_go_0. destruct Hs; [lia|done]. }
  unfold sprintf_d, pretty, pretty_N. case_decide; [done|]. apply Hgo. left. lia.
Qed.

Lemma solid_join sep l : solid sep -> Forall solid l -> solid (join sep l).
Proof.
  intros Hsep Hl. induction Hl as [|s l Hs Hl IH]; [apply solid_empty|]. cbn [join].
  destruct l; [done|]. by apply solid_app; [|apply solid_app].
Qed.

Lemma solid_hex_pair b : solid (hex_pair b).
Proof. destruct b; (split; repeat (constructor; [reflexivity|]); constructor). Qed.

Lemma solid_sep c : is_space c = false -> is_newline c = false -> solid (String c "").
Proof. intros. by apply solid_char; [..|apply solid_empty]. Qed.

Lemma solid_MAC mac : solid (MAC_String mac).
Proof.
  apply solid_join; [by apply solid_sep|]. apply Forall_map, Forall_true. apply solid_hex_pair.
Qed.

Lemma solid_IP ip v4 : To4 ip = Some v4 -> solid (IP_String ip).
Proof.
  intros Hv. unfold IP_String. destruct (_ =? _)%nat.
  { split; repeat (constructor; [reflexivity|]); constructor. }
  rewrite Hv. apply solid_join; [by apply solid_sep|].
  apply Forall_map, Forall_true. intros b. apply solid_sprintf_d.
Qed.

Lemma chars_substring n s : chars (String.substring 0 n s) = take n (chars s).
Proof.
  revert n. induction s as [|c s IH]; intros [|n]; try done.
  unfold chars in *. cbn. by rewrite IH.
Qed.

Lemma solid_truncate s n s' : truncate s n = Some s' -> solid s -> solid s'.
Proof.
  unfold truncate. intros Ht Hs. repeat case_match; simplify_eq; [|done].
  apply solid_app.
  - destruct Hs as [H1 H2]. split; unfold without; rewrite chars_substring; by apply Forall_take.
  - split; repeat (constructor; [reflexivity|]); constructor.
Qed.

(** A formatted size is a number and a unit. *)
Lemma formatBytes_words b s :
  formatBytes b = Some s -> exists num unit, s = num +:+ " " +:+ unit /\
    solid num /\ num <> "" /\ solid unit /\ unit <> "".
Proof.
  unfold formatBytes. destruct (b <? fb_unit).
  { intros [= <-]. exists (sprintf_d b), "B". split_and!; try done;
      [apply solid_sprintf_d|apply sprintf_d_ne|by apply solid_sep]. }
  destruct (format_loop _ _ _ _) as [[div exp]|]; [|done]. cbn [mbind option_bind].
  destruct (String.get exp "KMGTPE") as [c|] eqn:Hc; [|done]. cbn [mbind option_bind].
  intros [= <-]. unfold sprintf_1f.
  set (t := tenths _ _). exists (sprintf_d (t / 10) +:+ "." +:+ sprintf_d (t mod 10)), (String c "iB").
  assert (is_space c = false /\ is_newline c = false) as [? ?].
  { do 6 (destruct exp as [|exp]; [by injection Hc as <-|]). done. }
  split_and!; try done.
  - apply solid_app; [apply solid_sprintf_d|].
    apply solid_app; [by apply solid_sep|apply solid_sprintf_d].
  - intros Heq. pose proof (sprintf_d_ne (t / 10)). by destruct (sprintf_d (t / 10)).
  - apply solid_char; [done..|]. split; repeat (constructor; [reflexivity|]); constructor.
Qed.

(** ** Lines *)

Lemma without_spaces n : without is_newline (repeat_string " " n).
Proof. induction n as [|n IH]; [constructor|]. by constructor. Qed.

Lemma without_repeat c n : is_newline c = false -> without is_newline (repeat_string (String c "") n).
Proof. intros Hc. induction n as [|n IH]; [constructor|]. by constructor. Qed.

Lemma without_pad n s : without is_newline s -> without is_newline (pad n s).
Proof. intros Hs. apply without_app. split; [done|apply without_spaces]. Qed.

(** A line of six columns without its line break. *)
Definition columns (c1 c2 c3 c4 c5 c6 : string) : string :=
  " " +:+ pad 5 c1 +:+ " " +:+ pad 16 c2 +:+ " " +:+ pad 21 c3 +:+ " " +:+ pad 18 c4 +:+ " "
    +:+ pad 12 c5 +:+ " " +:+ pad 12 c6.

Lemma line_columns c1 c2 c3 c4 c5 c6 :
  line c1 c2 c3 c4 c5 c6 = columns c1 c2 c3 c4 c5 c6 +:+ newline.
Proof. unfold line, columns. by rewrite <- !string_app_assoc. Qed.

Lemma without_columns c1 c2 c3 c4 c5 c6 :
  Forall (without is_newline) [c1; c2; c3; c4; c5; c6] ->
  without is_newline (columns c1 c2 c3 c4 c5 c6).
Proof.
  rewrite !Forall_cons. intros (? & ? & ? & ? & ? & ? & _). unfold columns.
  assert (without is_newline " ") as Hsp by (by constructor).
  rewrite !without_app. split_and!; auto using without_pad.
Qed.

Lemma words_columns c1 c2 c3 c4 c5 num unit :
  Forall (fun c => solid c /\ c <> "") [c1; c2; c3; c4; c5; num; unit] ->
  words (columns c1 c2 c3 c4 c5 (num +:+ " " +:+ unit)) = [c1; c2; c3; c4; c5; num; unit].
Proof.
  rewrite !Forall_cons. intros ([[]] & [[]] & [[]] & [[]] & [[]] & [[]] & [[]] & _).
  unfold columns. rewrite words_space, !words_pad by done. do 5 f_equal.
  unfold pad. rewrite <- !string_app_assoc, words_cons by done. f_equal.
  generalize (12 - rune_count (num +:+ " " +:+ unit))%nat as k. intros [|k].
  - cbn [repeat_string]. unfold words. rewrite chars_app, pieces_app by done.
    cbn [chars String.list_ascii_of_string app pieces]. rewrite filter_cons_True.
    + cbn [map filter]. by rewrite of_chars_chars.
    + intros Hc. assert (unit = "") as Hu; [|done]. by rewrite <- (of_chars_chars unit), Hc.
  - cbn [repeat_string]. rewrite words_cons by done. f_equal.
    rewrite <- (string_app_nil (repeat_string " " k)), words_spaces. done.
Qed.

(** ** The rows *)

Section Rows.
Context {KM : BpfMaps} {KL : BpfMapsLaws} {HH : Host}.

(** What discovery makes sure of, and a name as Docker allows it. *)
Definition presentable (b : Backend) : Prop :=
  is_Some (To4 (BIP b)) /\ is_u16 (Port b) /\ length (MAC b) = 6%nat /\
  solid (Name b) /\ Name b <> "".

(** A counter of index [i] over all CPUs, as a 64-bit number; 0 if it cannot be read. *)
Definition counter (f : stats_counter -> Z) (m : Manager) (i : nat) : Z :=
  match pm_values (CountersMap (objs m)) (Z.of_nat i) with
  | Ok vs => u64 (total f vs)
  | Err _ => 0
  end.

(** What a reader finds in the line of backend [b] at index [i]. *)
Definition row_reads (m : Manager) (i : nat) (b : Backend) (l : string) : Prop :=
  exists index name host port mac packets num unit ip,
    words l = [index; name; host +:+ ":" +:+ port; mac; packets; num; unit] /\
    ParseUint10 index 32 = Some (Z.of_nat i) /\
    name = (if decide (String.length (Name b) <= 16)%nat then Name b
            else String.substring 0 13 (Name b) +:+ "...") /\
    ParseIP host = Some ip /\ To4 ip = To4 (BIP b) /\ ParseUint10 port 16 = Some (Port b) /\
    ParseMAC mac = Some (MAC b) /\
    ParseUint10 packets 64 = Some (counter rx_packets m i) /\
    formatBytes (counter rx_bytes m i) = Some (num +:+ " " +:+ unit).

Lemma shown_counters (m : Manager) i :
  Z.of_nat i < 2 ^ 32 -> shown m i = (counter rx_packets m i, counter rx_bytes m i).
Proof.
  intros Hi. unfold shown, counter, ReadStats. rewrite u32_id by (unfold is_u32; lia).
  destruct (pm_values _ _) as [x|vs]; [done|]. change 0 with (u64 0).
  by rewrite sum_counters_total.
Qed.

Lemma row_reads_back m i b text :
  Z.of_nat i < 2 ^ 32 -> presentable b -> row m i b = Some text ->
  exists l, text = l +:+ newline /\ without is_newline l /\ row_reads m i b l.
Proof.
  intros Hi ([v4 Hv4] & Hport & Hmac & Hname & Hne). unfold row. pose proof (shown_range m i) as [Hp Hb].
  rewrite (shown_counters m i Hi) in *. cbn [fst snd] in *.
  destruct (truncate_bounded (Name b) 16 ltac:(lia)) as (name & Ht & _ & Hshort & Hlong).
  rewrite Ht. cbn [mbind option_bind].
  destruct (formatBytes_Some _ Hb) as [size Hsize]. rewrite Hsize. cbn [mbind option_bind].
  intros [= <-]. rewrite line_columns. eexists. split; [done|].
  destruct (formatBytes_words _ _ Hsize) as (num & unit & -> & Hnum & Hnum' & Hunit & Hunit').
  assert (solid (endpoint_string b)) as Hend.
  { apply solid_app; [by eapply solid_IP|]. apply solid_app; [by apply solid_sep|apply solid_sprintf_d]. }
  pose proof (solid_truncate _ _ _ Ht Hname) as Hsn.
  assert (name <> "") as Hnn.
  { destruct (decide (Z.of_nat (String.length (Name b)) <= 16)) as [Hl|Hl];
      [by rewrite Hshort|]. destruct Hlong as [Hlen _]; [lia|]. by intros ->. }
  assert (MAC_String (MAC b) <> "") as Hmn by (by destruct (MAC b) as [|x [|y l]]).
  assert (endpoint_string b <> "") as Hen.
  { unfold endpoint_string. by destruct (IP_String (BIP b)). }
  split.
  - apply without_columns. repeat (apply Forall_cons; split); try apply Forall_nil; try done;
      [apply solid_sprintf_d|apply Hsn|apply Hend|apply solid_MAC|apply solid_sprintf_d|].
    rewrite !without_app. split_and!; [apply Hnum|by constructor|apply Hunit].
  - exists (sprintf_d (Z.of_nat i)), name, (IP_String (BIP b)), (sprintf_d (Port b)),
      (MAC_String (MAC b)), (sprintf_d (counter rx_packets m i)), num, unit, (v4InV6Prefix ++ v4).
    rewrite words_columns.
    2: { repeat (apply Forall_cons; split); try apply Forall_nil;
         auto using solid_sprintf_d, sprintf_d_ne, solid_MAC. }
    split_and!; try done.
    + apply sprintf_d_parses. lia.
    + case_decide as Hl; [apply Hshort; lia|]. apply Hlong. lia.
    + by apply IP_String_parses.
    + rewrite Hv4. by apply To4_form, (To4_length (BIP b)).
    + by apply sprintf_d_parses.
    + by apply MAC_String_parses.
    + by apply sprintf_d_parses.
Qed.

Lemma rows_read_back m i bs body rest :
  Z.of_nat (i + length bs) < 2 ^ 32 -> Forall presentable bs -> rows m i bs = Some body ->
  exists ls, lines (body +:+ rest) = ls ++ lines rest /\ length ls = length bs /\
    forall k b, bs !! k = Some b -> exists l, ls !! k = Some l /\ row_reads m (i + k) b l.
Proof.
  intros Hi Hbs. revert i body Hi. induction Hbs as [|b bs Hb _ IH]; intros i body Hi; cbn [rows].
  { intros [= <-]. by exists []. }
  cbn [length] in Hi. destruct (row m i b) as [text|] eqn:Hr; [|done]. cbn [mbind option_bind].
  destruct (rows m (S i) bs) as [tail|] eqn:Ht; [|done]. cbn [mbind option_bind]. intros [= <-].
  apply row_reads_back in Hr as (l & -> & Hl & Hrow); [|lia|done].
  destruct (IH (S i) tail) as (ls & Hls & Hlen & Hk); [lia|done|].
  exists (l :: ls). rewrite <- !string_app_assoc, lines_cons, Hls by done.
  split_and!; [done|cbn; by rewrite Hlen|].
  intros [|k] b' Hb'; [injection Hb' as <-; rewrite Nat.add_0_r; by exists l|].
  rewrite <- Nat.add_succ_comm. by apply Hk.
Qed.

(** *** The whole text *)

Lemma lines_newline rest : lines (newline +:+ rest) = "" :: lines rest.
Proof. apply (lines_cons ""). constructor. Qed.

Definition title (now : string) (n : nat) : string :=
  " [" +:+ now +:+ "] XDP LOAD BALANCER - STATS & ACTIVE BACKENDS (" +:+
  sprintf_d (Z.of_nat n) +:+ " Total)".

(** The heading. *)
Lemma lines_header now n body :
  without is_newline now ->
  lines (header now n +:+ body) =
    [""; repeat_string "=" 80; title now n; repeat_string "-" 80;
     columns "IDX" "CONTAINER" "ENDPOINT" "MAC ADDRESS" "PACKETS" "BYTES"; repeat_string "-" 80]
    ++ lines body.
Proof.
  intros Hnow.
  assert (header now n +:+ body = newline +:+ repeat_string "=" 80 +:+ newline +:+ title now n +:+
    newline +:+ repeat_string "-" 80 +:+ newline +:+
    columns "IDX" "CONTAINER" "ENDPOINT" "MAC ADDRESS" "PACKETS" "BYTES" +:+ newline +:+
    repeat_string "-" 80 +:+ newline +:+ body) as ->.
  { unfold header, title. rewrite line_columns. by rewrite <- !string_app_assoc. }
  assert (without is_newline (title now n)) as Ht.
  { unfold title. rewrite !without_app. split_and!; [|done| |apply solid_sprintf_d|];
      repeat (constructor; [reflexivity|]); constructor. }
  rewrite lines_newline, !lines_cons; [done|by apply without_repeat| |by apply without_repeat|done
    |by apply without_repeat].
  apply without_columns. repeat (apply Forall_cons; split); try apply Forall_nil;
    repeat (constructor; [reflexivity|]); constructor.
Qed.

(** C39: the table can be read back.  For any snapshot of backends as discovery makes them
    (IPv4 addresses, 16-bit ports, six-byte MACs; names without spaces or line breaks),
    [render] does not panic, and its text has one line per backend, in the order of the
    indices, after six lines of heading whose columns are named in that order.  Split at its
    spaces the line of the backend at index [i] is: [i]; the name, or its first 13 bytes and
    dots if it is longer than 16; a text that parses to the backend's address, a colon and
    one that parses to its port; one that parses to its MAC; the packets of index [i], summed
    over all CPUs modulo [2^64]; and the bytes, as [formatBytes] writes them. *)
Theorem render_reads_back now (m : Manager) (p : Pool Manager) :
  without is_newline now -> Forall presentable (backends p) ->
  Z.of_nat (length (backends p)) < 2 ^ 32 ->
  exists text, render now m p = Some text /\
    length (lines text) = (8 + Nat.max 1 (length (backends p)))%nat /\
    (words <$> lines text !! 4%nat) =
      Some ["IDX"; "CONTAINER"; "ENDPOINT"; "MAC"; "ADDRESS"; "PACKETS"; "BYTES"] /\
    forall i b, backends p !! i = Some b ->
      exists l, lines text !! (6 + i)%nat = Some l /\ row_reads m i b l.
Proof.
  intros Hnow Hbs Hlen. unfold render, GetBackends.
  set (bottom := repeat_string "=" 80 +:+ newline).
  assert (lines bottom = [repeat_string "=" 80; ""]) as Hbottom by reflexivity.
  destruct (Nat.eqb_spec (length (backends p)) 0) as [H0|H0].
  - eexists. split; [done|]. rewrite lines_header by done. apply nil_length_inv in H0 as ->.
    split_and!; [done|done|by intros i b ?].
  - destruct (rows_total m 0 (backends p)) as [texts Hr]. rewrite Hr. cbn [mbind option_bind].
    eexists. split; [done|].
    destruct (rows_read_back m 0 (backends p) _ bottom Hlen Hbs Hr) as (ls & Hls & Hl & Hk).
    rewrite lines_header, Hls, Hbottom by done.
    split_and!; [|done|].
    + rewrite !length_app, Hl. cbn [length]. lia.
    + intros i b Hb. destruct (Hk i b Hb) as (l & Hl' & Hrow). exists l. split; [|exact Hrow].
      rewrite (lookup_app_r _ _ (6 + i)) by (cbn; lia).
      rewrite lookup_app_l by (apply lookup_lt_Some in Hl'; cbn; lia).
      by replace (6 + i - _)%nat with i by (cbn; lia).
Qed.
End Rows.

(** ** Witness *)

Module ReadbackWitness.
Import RefMaps RefHost.

Lemma fleet_presentable : Forall presentable [app1; app2].
Proof.
  assert (forall b ip, To4 (BIP b) = Some ip -> Port b = 8080 -> length (MAC b) = 6%nat ->
    solid (Name b) -> Name b <> "" -> presentable b) as Hb.
  { intros b ip Hip Hp Hm Hs Hne. split; [by exists ip|]. split_and!; try done.
    rewrite Hp. unfold is_u16. lia. }
  constructor; [|constructor; [|constructor]]; [apply (Hb app1 b1_ip)|apply (Hb app2 b2_ip)];
    try done; split; repeat (apply Forall_cons; split; [reflexivity|]); apply Forall_nil; done.
Qed.

Lemma render_reads_back_witness :
  exists text l, render "12:00:00" (bpfManager pool1) pool1 = Some text /\
    lines text !! 7%nat = Some l /\ row_reads (bpfManager pool1) 1 app2 l.
Proof.
  destruct pool1_fields as (Hb & _).
  destruct (render_reads_back "12:00:00" (bpfManager pool1) pool1) as (text & Ht & _ & _ & Hk).
  - repeat (constructor; [reflexivity|]). constructor.
  - rewrite Hb. apply fleet_presentable.
  - rewrite Hb. cbn. lia.
  - destruct (Hk 1%nat app2) as (l & Hl & Hr); [rewrite Hb; reflexivity|].
    exists text, l. exact (conj Ht (conj Hl Hr)).
Defined.
End ReadbackWitness.
