(* ===== verification/Discovery.v ===== *)
(** * Backend discovery (userspace/discovery/docker.go)

    [DiscoverBackends] and [FindHostVeth].  The Docker API client and the netlink and netns
    packages are parameters ([Docker], [Netlink]): what one poll sees of the daemon and of
    the host.  Pointers of the API's answers may be nil; dereferencing nil is a panic.
    [FindHostVeth] is written in a small monad of functions with deferred calls ([fn]): what
    opens a handle records it in a log, [defer] pushes a call, and returning runs the
    deferred calls, the last one first. *)

From S2P Require Import Prelude Types GoNet GoStrings Manager Pool Reconcile Tables ManagerWf.

(** ** The netlink and netns packages *)

Class Netlink := {
  nl_err : Type;
  ns_t : Type;
  handle_t : Type;
  GetFromPid : Z -> result nl_err ns_t;
  NewHandleAt : ns_t -> result nl_err handle_t;
  LinkList : handle_t -> result nl_err (list (string * Z));  (** type and ParentIndex *)
  LinkByIndex : Z -> result nl_err string                    (** the name in the host *)
}.

(** ** The Docker API: the fields the watcher reads *)

Record container := { c_ID : string; c_Labels : gmap string string }.
Record endpoint := { IPAddress : string; MacAddress : string }.

(** [*container.State] *)
Record container_state := {
  s_Running : bool;
  s_Health : option string;             (** the status; nil without a health check *)
  s_Pid : Z
}.

(** [*container.ContainerJSONBase], embedded in the answer *)
Record inspect_base := { b_Name : string; b_State : option container_state }.

(** [container.InspectResponse]; [None] is a nil pointer *)
Record inspection := {
  i_Base : option inspect_base;
  i_NetworkSettings : option (gmap string (option endpoint))   (** the Networks *)
}.

Class Docker := {
  docker_err : Type;
  ContainerList : option string -> result docker_err (list container);  (** label filter *)
  ContainerInspect : string -> result docker_err inspection
}.

(** The client itself is the class [Docker]. *)
Record DockerWatcher := { labelFilter : string; targetPort : Z }.

Inductive watcher_error (err : Type) := ErrCreateClient (x : err).
Arguments ErrCreateClient {err} x.

(** [NewClientWithOpts] is the error of the Docker client's constructor, if there is one. *)
Definition NewDockerWatcher {err} (NewClientWithOpts : option err) (labelFilter : string)
    (targetPort : Z) : result (watcher_error err) DockerWatcher :=
  match NewClientWithOpts with
  | Some x => Err (ErrCreateClient x)
  | None => Ok {| labelFilter := labelFilter; targetPort := targetPort |}
  end.

Section Discovery.
Context {NL : Netlink} {DK : Docker} `{!GoRange}.

(** ** FindHostVeth *)

Inductive nl_event := OpenNetns (n : ns_t) | CloseNetns (n : ns_t)
                    | OpenHandle (h : handle_t) | DeleteHandle (h : handle_t).

Inductive veth_error :=
  | ErrGetNetns (pid : Z) (x : nl_err)
  | ErrNewHandle (x : nl_err)
  | ErrListLinks (pid : Z) (x : nl_err)
  | ErrNoVeth (pid : Z)
  | ErrHostVeth (idx : Z) (x : nl_err).

(** The ParentIndex of the first veth in the list, 0 if there is none. *)
Fixpoint first_veth (links : list (string * Z)) : Z :=
  match links with
  | [] => 0
  | (ty, parent) :: links => if bool_decide (ty = "veth") then parent else first_veth links
  end.

(** *** Functions with deferred calls

    The state of a running function: the events so far, and the deferred calls, the last one
    first. *)
Definition fn (A : Type) : Type :=
  list nl_event * list nl_event -> (list nl_event * list nl_event) * A.

#[local] Instance fn_ret : MRet fn := fun A a st => (st, a).
#[local] Instance fn_bind : MBind fn := fun A B k f st => let '(st, a) := f st in k a st.

Definition emit (ev : nl_event) : fn unit := fun '(log, ds) => ((log ++ [ev], ds), tt).
Definition defer (ev : nl_event) : fn unit := fun '(log, ds) => ((log, ev :: ds), tt).

(** The call of a function: its body, then what it deferred. *)
Definition call_fn {A} (body : fn A) : list nl_event * A :=
  let '((log, ds), a) := body ([], []) in (log ++ ds, a).

(** [netns.GetFromPid] and [netlink.NewHandleAt] open a handle unless they fail. *)
Definition open_netns (pid : Z) : fn (result nl_err ns_t) :=
  match GetFromPid pid with
  | Err x => mret (Err x)
  | Ok ns => emit (OpenNetns ns);; mret (Ok ns)
  end.
Definition open_handle (ns : ns_t) : fn (result nl_err handle_t) :=
  match NewHandleAt ns with
  | Err x => mret (Err x)
  | Ok h => emit (OpenHandle h);; mret (Ok h)
  end.

Definition FindHostVeth (containerPID : Z) : list nl_event * result veth_error (string * Z) :=
  call_fn (
    r ← open_netns containerPID;
    match r with
    | Err x => mret (Err (ErrGetNetns containerPID x))
    | Ok ns =>
        defer (CloseNetns ns);;
        r ← open_handle ns;
        match r with
        | Err x => mret (Err (ErrNewHandle x))
        | Ok h =>
            defer (DeleteHandle h);;
            match LinkList h with
            | Err x => mret (Err (ErrListLinks containerPID x))
            | Ok links =>
                let hostVethIdx := first_veth links in
                if hostVethIdx =? 0 then mret (Err (ErrNoVeth containerPID))
                else
                  match LinkByIndex hostVethIdx with
                  | Err x => mret (Err (ErrHostVeth hostVethIdx x))
                  | Ok name => mret (Ok (name, hostVethIdx))
                  end
            end
        end
    end).

(** Run the body as far as the outcomes of its calls are known. *)
Ltac run_fn :=
  cbv [FindHostVeth call_fn open_netns open_handle emit defer mbind fn_bind mret fn_ret app
       fst snd].

(** ** DiscoverBackends *)

(** The first network with an IPv4 address and a six-byte MAC, if there is one; a nil
    endpoint on the way is a panic. *)
Fixpoint pick_network (networks : list (string * option endpoint))
    : option (option (IP * HardwareAddr)) :=
  match networks with
  | [] => Some None
  | (_, None) :: _ => None
  | (_, Some ns) :: networks =>
      if bool_decide (IPAddress ns = "") then pick_network networks
      else
        match ParseIP (IPAddress ns) with
        | None => pick_network networks
        | Some parsed =>
            match To4 parsed with
            | None => pick_network networks
            | Some _ =>
                match ParseMAC (MacAddress ns) with
                | None => pick_network networks
                | Some mac =>
                    if negb (length mac =? 6)%nat then pick_network networks
                    else Some (Some (parsed, mac))
                end
            end
        end
  end.

(** The "lb.port" label if it parses, otherwise the default. *)
Definition resolve_port (w : DockerWatcher) (labels : gmap string string) : Z :=
  match labels !! "lb.port" with
  | Some portLabel =>
      match ParseUint10 (TrimSpace portLabel) 16 with
      | Some p => p
      | None => targetPort w
      end
  | None => targetPort w
  end.

Definition healthy (h : option string) : bool :=
  match h with
  | None => true
  | Some status => bool_decide (status = "healthy") || bool_decide (status = "none")
  end.

(** [c.ID[:12]], which panics on a shorter identifier. *)
Definition short_id (id : string) : option string :=
  if (12 <=? String.length id)%nat then Some (String.substring 0 12 id) else None.

(** A pointer is dereferenced: [None] is a panic, before any event. *)
Definition deref {A B} (ptr : option A) (k : A -> list nl_event * option B)
    : list nl_event * option B :=
  match ptr with None => ([], None) | Some a => k a end.

(** The body of the loop for one container: what it appends, [None] for a panic. *)
Definition discover_one (w : DockerWatcher) (c : container)
    : list nl_event * option (list Backend) :=
  match ContainerInspect (c_ID c) with
  | Err _ => ([], Some [])
  | Ok inspect =>
      deref (i_Base inspect) (fun base =>
      deref (b_State base) (fun state =>
      if negb (s_Running state) then ([], Some [])
      else if negb (healthy (s_Health state)) then ([], Some [])
      else
        deref (i_NetworkSettings inspect) (fun networks =>
        deref (pick_network (range networks)) (fun found =>
        match found with
        | None => ([], Some [])
        | Some (ip, mac) =>
            let port := resolve_port w (c_Labels c) in
            let '(log, r) := FindHostVeth (s_Pid state) in
            match r with
            | Err _ => (log, Some [])
            | Ok (vethName, vethIdx) =>
                (log,
                 id ← short_id (c_ID c);
                 Some [{| ID := id; Name := TrimPrefix (b_Name base) "/"; BIP := ip; MAC := mac;
                          Port := port; Healthy := true; ContainerPID := s_Pid state;
                          VethName := vethName; VethIdx := vethIdx |}])
            end
        end))))
  end.

Fixpoint discover_loop (w : DockerWatcher) (containers : list container)
    (backends : list Backend) : list nl_event * option (list Backend) :=
  match containers with
  | [] => ([], Some backends)
  | c :: containers =>
      let '(log, r) := discover_one w c in
      match r with
      | None => (log, None)
      | Some bs =>
          let '(log', r) := discover_loop w containers (backends ++ bs) in (log ++ log', r)
      end
  end.

(** The backends of a poll, an error of the listing, or a panic ([None]). *)
Definition DiscoverBackends (w : DockerWatcher)
    : list nl_event * option (result docker_err (list Backend)) :=
  let filter := if bool_decide (labelFilter w = "") then None else Some (labelFilter w) in
  match ContainerList filter with
  | Err x => ([], Some (Err x))
  | Ok containers =>
      let '(log, r) := discover_loop w containers [] in (log, (fun bs => Ok bs) <$> r)
  end.

(** ** What a discovered backend is *)

(** The endpoint gives this address and MAC. *)
Definition usable (ns : endpoint) (ip : IP) (mac : HardwareAddr) : Prop :=
  IPAddress ns <> "" /\ ParseIP (IPAddress ns) = Some ip /\ is_Some (To4 ip) /\
  ParseMAC (MacAddress ns) = Some mac /\ length mac = 6%nat.

(** A backend that stands for a running, not unhealthy container with a usable network
    and a host-side veth. *)
Definition stands_for (w : DockerWatcher) (c : container) (b : Backend) : Prop :=
  exists i base state nets net ns,
    ContainerInspect (c_ID c) = Ok i /\ i_Base i = Some base /\ b_State base = Some state /\
    s_Running state = true /\
    (s_Health state = None \/ s_Health state = Some "healthy" \/ s_Health state = Some "none") /\
    i_NetworkSettings i = Some nets /\ nets !! net = Some (Some ns) /\
    usable ns (BIP b) (MAC b) /\
    snd (FindHostVeth (s_Pid state)) = Ok (VethName b, VethIdx b) /\
    Port b = resolve_port w (c_Labels c) /\ short_id (c_ID c) = Some (ID b) /\
    Name b = TrimPrefix (b_Name base) "/" /\ ContainerPID b = s_Pid state /\ Healthy b = true.

Lemma pick_network_Some l ip mac :
  pick_network l = Some (Some (ip, mac)) ->
  exists net ns, (net, Some ns) ∈ l /\ usable ns ip mac.
Proof.
  induction l as [|[net [ns|]] l IH]; [done| |done]. cbn [pick_network]. intros Hp.
  assert (pick_network l = Some (Some (ip, mac)) ->
    exists net' ns', (net', Some ns') ∈ (net, Some ns) :: l /\ usable ns' ip mac) as Hrest.
  { intros (net' & ns' & ? & ?)%IH. exists net', ns'. split; [by right|done]. }
  case_bool_decide as H0; [by apply Hrest|].
  destruct (ParseIP _) as [ip'|] eqn:H1; [|by apply Hrest].
  destruct (To4 ip') as [v4|] eqn:H2; [|by apply Hrest].
  destruct (ParseMAC _) as [mac'|] eqn:H3; [|by apply Hrest].
  destruct (Nat.eqb_spec (length mac') 6); [|by apply Hrest]. injection Hp as <- <-.
  exists net, ns. split; [by left|]. unfold usable. rewrite H1, H2, H3. by eauto 10.
Qed.

Lemma pick_network_None l net ns ip mac :
  pick_network l = Some None -> (net, Some ns) ∈ l -> ~ usable ns ip mac.
Proof.
  induction l as [|[net' [ns'|]] l IH]; [by intros _ ?%not_elem_of_nil| |done]. cbn [pick_network].
  intros Hp [[= <- <-]|Hin]%elem_of_cons (H0 & H1 & [v4 H2] & H3 & H4).
  - rewrite bool_decide_eq_false_2, H1, H2, H3 in Hp by done.
    by rewrite (proj2 (Nat.eqb_eq _ _) H4) in Hp.
  - revert Hin. repeat case_match; try done; intros Hin; eapply IH; try done; by split_and!; eauto.
Qed.

(** Without nil endpoints there is no panic. *)
Lemma pick_network_total l : Forall (fun x => is_Some (snd x)) l -> is_Some (pick_network l).
Proof.
  induction 1 as [|[net ns] l [x Hx] _ IH]; [by eexists|]. cbn in Hx. subst ns.
  cbn [pick_network]. repeat case_match; eauto.
Qed.

Lemma healthy_spec h :
  healthy h = true <-> h = None \/ h = Some "healthy" \/ h = Some "none".
Proof.
  destruct h as [x|]; simpl; [|tauto].
  rewrite orb_true_iff, !bool_decide_eq_true. split; [intros [->| ->]; auto|].
  intros [?|[[= ->]|[= ->]]]; [done|auto..].
Qed.

(** What one container contributes. *)
Definition contribution (w : DockerWatcher) (c : container) : option Backend :=
  bs ← snd (discover_one w c); head bs.

(** What the watcher takes for granted of an answer: an identifier of its usual length, and
    no nil pointers. *)
Definition full_id (c : container) : Prop := (12 <= String.length (c_ID c))%nat.

Definition complete (i : inspection) : Prop :=
  (exists base state, i_Base i = Some base /\ b_State base = Some state) /\
  (exists nets, i_NetworkSettings i = Some nets /\
     forall net ns, nets !! net = Some ns -> is_Some ns).

Definition answered (c : container) : Prop :=
  full_id c /\ forall i, ContainerInspect (c_ID c) = Ok i -> complete i.

Lemma discover_one_contribution w c :
  answered c -> snd (discover_one w c) = Some (option_list (contribution w c)).
Proof.
  intros [Hid Hi]. unfold contribution, discover_one, short_id.
  rewrite (proj2 (Nat.leb_le _ _) Hid). destruct (ContainerInspect _) as [x|i]; [done|].
  destruct (Hi i eq_refl) as [(base & state & -> & Hs) (nets & Hn & Hns)].
  cbn [deref]. rewrite Hs. cbn [deref]. destruct (negb _); [done|]. destruct (negb _); [done|].
  rewrite Hn. cbn [deref]. destruct (pick_network_total (range nets)) as [found ->].
  { apply Forall_forall. intros [k v] Hin. rewrite range_perm in Hin.
    apply elem_of_map_to_list in Hin. by eapply Hns. }
  cbn [deref]. destruct found as [[ip mac]|]; [|done].
  by destruct (FindHostVeth _) as [log [x|[n k]]].
Qed.

Lemma contribution_sound w c b : contribution w c = Some b -> stands_for w c b.
Proof.
  unfold contribution, discover_one, stands_for.
  destruct (ContainerInspect _) as [x|i]; [done|].
  destruct (i_Base i) as [base|] eqn:Hb; [|done]. cbn [deref].
  destruct (b_State base) as [state|] eqn:Hs; [|done]. cbn [deref].
  destruct (s_Running state) eqn:H1; [|done]. destruct (healthy _) eqn:H2; [|done].
  apply healthy_spec in H2. cbn [negb].
  destruct (i_NetworkSettings i) as [nets|] eqn:Hn; [|done]. cbn [deref].
  destruct (pick_network _) as [[[ip mac]|]|] eqn:H3; cbn [deref]; [|done..].
  apply pick_network_Some in H3 as (net & ns & Hin & Hu).
  rewrite range_perm in Hin. apply elem_of_map_to_list in Hin.
  destruct (FindHostVeth _) as [log [x|[n k]]] eqn:H4; [done|]. cbn [snd].
  destruct (short_id _) as [id|] eqn:H5; [|done]. intros [= <-].
  exists i, base, state, nets, net, ns. cbn. rewrite H4. by split_and!.
Qed.

Lemma contribution_complete w c b :
  answered c -> contribution w c = None -> ~ stands_for w c b.
Proof.
  intros Hans Hn (i & base & state & nets & net & ns & H1 & Hb & Hs & H2 & H3 & Hnets & H4 & H5 & H6 & _).
  pose proof (discover_one_contribution w c Hans) as Hone. rewrite Hn in Hone. cbn in Hone.
  revert Hone. unfold discover_one, short_id. destruct Hans as [Hid _].
  rewrite (proj2 (Nat.leb_le _ _) Hid), H1, Hb. cbn [deref]. rewrite Hs. cbn [deref].
  rewrite H2. apply healthy_spec in H3. rewrite H3, Hnets. cbn [negb deref].
  destruct (pick_network _) as [[[ip mac]|]|] eqn:H7; cbn [deref]; [| |done].
  - by destruct (FindHostVeth _) as [log [x|[n k]]].
  - exfalso. eapply pick_network_None; [exact H7| |exact H5].
    rewrite range_perm. by apply elem_of_map_to_list.
Qed.

Lemma discover_loop_contributions w cs acc :
  Forall answered cs ->
  snd (discover_loop w cs acc) = Some (acc ++ omap (contribution w) cs).
Proof.
  intros Hid. revert acc. induction Hid as [|c cs Hc _ IH]; intros acc; simpl.
  { by rewrite app_nil_r. }
  pose proof (discover_one_contribution w c Hc) as H1.
  destruct (discover_one w c) as [log r]. simpl in H1. subst r.
  specialize (IH (acc ++ option_list (contribution w c))).
  destruct (discover_loop _ _ _) as [log' r]. simpl in *. rewrite IH.
  destruct (contribution w c); simpl; [by rewrite <-app_assoc|by rewrite app_nil_r].
Qed.

(** ** Opened handles are released, the last one first *)

Fixpoint released (pending log : list nl_event) : Prop :=
  match log with
  | [] => pending = []
  | OpenNetns n :: log => released (CloseNetns n :: pending) log
  | OpenHandle h :: log => released (DeleteHandle h :: pending) log
  | ev :: log =>
      match pending with
      | ev' :: pending => ev = ev' /\ released pending log
      | [] => False
      end
  end.

Lemma released_app log log' p :
  released p log -> released [] log' -> released p (log ++ log').
Proof.
  intros Hl Hl'. revert p Hl. induction log as [|ev log IH]; intros p Hl.
  - simpl in Hl. by subst.
  - destruct ev; simpl in *; try by apply IH.
    all: destruct p as [|ev' p]; [done|]; destruct Hl as [? ?]; split; auto.
Qed.

Lemma FindHostVeth_released pid : released [] (fst (FindHostVeth pid)).
Proof.
  run_fn. destruct (GetFromPid pid) as [x|ns]; [done|]. run_fn.
  destruct (NewHandleAt ns) as [x|h]; [done|]. run_fn.
  destruct (LinkList h); [done|]. destruct (_ =? _); [done|]. by destruct (LinkByIndex _).
Qed.

Lemma discover_one_released w c : released [] (fst (discover_one w c)).
Proof.
  unfold discover_one. destruct (ContainerInspect _) as [x|i]; [done|].
  destruct (i_Base i) as [base|]; [|done]. cbn [deref]. destruct (b_State base) as [state|]; [|done].
  cbn [deref]. destruct (negb _); [done|]. destruct (negb _); [done|].
  destruct (i_NetworkSettings i) as [nets|]; [|done]. cbn [deref].
  destruct (pick_network _) as [[[ip mac]|]|]; [|done..]. cbn [deref].
  pose proof (FindHostVeth_released (s_Pid state)) as Hr.
  by destruct (FindHostVeth _) as [log [x|[n k]]].
Qed.

Lemma discover_loop_released w cs acc : released [] (fst (discover_loop w cs acc)).
Proof.
  revert acc. induction cs as [|c cs IH]; intros acc; simpl; [done|].
  pose proof (discover_one_released w c) as H1. destruct (discover_one w c) as [log [bs|]]; [|done].
  specialize (IH (acc ++ bs)). destruct (discover_loop _ _ _) as [log' r].
  by apply released_app.
Qed.

(** A discovered list meets what [Sync] and the maps require of it. *)
Lemma stands_for_wf w c b :
  is_u16 (targetPort w) -> stands_for w c b ->
  is_Some (To4 (BIP b)) /\ length (MAC b) = 6%nat /\ is_u16 (Port b) /\ VethIdx b <> 0.
Proof.
  intros Hw (i & base & state & nets & net & ns & _ & _ & _ & _ & _ & _ & _ & (_ & _ & H4 & _ & Hm)
    & Hv & Hp & _).
  split_and!; [done|done| |].
  - rewrite Hp. unfold resolve_port. destruct (_ !! "lb.port") as [l|]; [|done].
    destruct (ParseUint10 _ _) eqn:Hu; [|done]. by apply ParseUint10_range in Hu.
  - revert Hv. run_fn. destruct (GetFromPid _); [done|]. run_fn.
    destruct (NewHandleAt _); [done|]. run_fn.
    destruct (LinkList _) as [x|links]; [done|]. destruct (Z.eqb_spec (first_veth links) 0); [done|].
    destruct (LinkByIndex _); [done|]. by intros [= _ <-].
Qed.

Lemma omap_stands_for w (cs : list container) b :
  b ∈ omap (contribution w) cs -> exists c, c ∈ cs /\ stands_for w c b.
Proof. intros (c & Hc & Hb)%list_elem_of_omap. eauto using contribution_sound. Qed.

(** ** Properties *)

(** C12: discovery returns exactly the usable containers.  When the listing
    succeeds and the answers are as usual (identifiers of at least twelve characters, no nil
    pointers) [DiscoverBackends] does not panic and returns, in the order of the listing, one
    backend for every container that stands for one (running,
    no failing health check, a network with an IPv4 address and a MAC, a host-side veth),
    and nothing for the others. *)
Theorem discover_exact w cs :
  ContainerList (if bool_decide (labelFilter w = "") then None else Some (labelFilter w))
    = Ok cs ->
  Forall answered cs ->
  exists f : container -> option Backend,
    snd (DiscoverBackends w) = Some (Ok (omap f cs)) /\
    (forall c b, f c = Some b -> stands_for w c b) /\
    (forall c b, c ∈ cs -> f c = None -> ~ stands_for w c b).
Proof.
  intros Hl Hid. exists (contribution w). split_and!.
  - unfold DiscoverBackends. rewrite Hl.
    pose proof (discover_loop_contributions w cs [] Hid) as Hc.
    destruct (discover_loop _ _ _) as [log r]. simpl in *. by rewrite Hc.
  - apply contribution_sound.
  - intros c b Hc. apply contribution_complete. by eapply Forall_forall in Hid.
Qed.

(** C29: a discovered list is fit for [Sync].  Every backend of a successful discovery has
    an IPv4 address, a six-byte MAC, a 16-bit port (label or default) and a veth index
    that is not 0: what [Sync] needs to succeed and the maps to stay well formed. *)
Theorem discover_fit w cs bs :
  ContainerList (if bool_decide (labelFilter w = "") then None else Some (labelFilter w))
    = Ok cs ->
  Forall answered cs -> is_u16 (targetPort w) ->
  snd (DiscoverBackends w) = Some (Ok bs) ->
  all_v4 bs /\ ports_ok bs /\ Forall (fun b => length (MAC b) = 6%nat /\ VethIdx b <> 0) bs.
Proof.
  intros Hl Hid Hw. unfold DiscoverBackends. rewrite Hl.
  pose proof (discover_loop_contributions w cs [] Hid) as Hc.
  destruct (discover_loop _ _ _) as [log r]. simpl in *. subst r. simpl. intros [= <-].
  split_and!; apply Forall_forall; intros b (c & _ & Hb)%omap_stands_for;
    by destruct (stands_for_wf w c b Hw Hb) as (? & ? & ? & ?).
Qed.

(** C30: discovery leaks no handle.  On every path, errors, skipped containers and panics
    included, each network namespace and netlink handle that is opened is released again,
    the handle before its namespace. *)
Theorem discover_releases w : released [] (fst (DiscoverBackends w)).
Proof.
  unfold DiscoverBackends. destruct (ContainerList _) as [x|cs]; [done|].
  pose proof (discover_loop_released w cs []) as Hr. by destruct (discover_loop _ _ _).
Qed.
End Discovery.

(** ** Witnesses *)

Module DiscoveryWitness.

(** Every container has a veth whose host side is interface 10, "veth1". *)
Definition sim_netlink : Netlink := {|
  nl_err := unit; ns_t := Z; handle_t := Z;
  GetFromPid := fun pid => Ok pid;
  NewHandleAt := fun ns => Ok ns;
  LinkList := fun _ => Ok [("loopback", 0); ("veth", 10)];
  LinkByIndex := fun i => if i =? 10 then Ok "veth1" else Err tt
|}.

Definition web : container :=
  {| c_ID := "0123456789abcdef"; c_Labels := {[ "lb.port" := " 9000 " ]} |}.
Definition gone : container := {| c_ID := "fedcba9876543210"; c_Labels := ∅ |}.

(** One running container and one that has stopped. *)
Definition sim_docker : Docker := {|
  docker_err := unit;
  ContainerList := fun _ => Ok [web; gone];
  ContainerInspect := fun id =>
    Ok {| i_Base := Some {| b_Name := "/web";
            b_State := Some {| s_Running := bool_decide (id = c_ID web); s_Health := None;
                               s_Pid := 100 |} |};
          i_NetworkSettings := Some {[ "bridge" :=
            Some {| IPAddress := "172.18.0.2"; MacAddress := "02:42:ac:12:00:02" |} ]} |}
|}.

#[local] Existing Instances sim_netlink sim_docker range_default.

Definition watcher : DockerWatcher := {| labelFilter := "lb.backend=true"; targetPort := 8080 |}.

Definition web_backend : Backend :=
  {| ID := "0123456789ab"; Name := "web";
     BIP := v4InV6Prefix ++ map byte_of [172; 18; 0; 2];
     MAC := map byte_of [2; 66; 172; 18; 0; 2]; Port := 9000; Healthy := true;
     ContainerPID := 100; VethName := "veth1"; VethIdx := 10 |}.

Lemma discovered : snd (DiscoverBackends watcher) = Some (Ok [web_backend]).
Proof. vm_compute. reflexivity. Qed.

Lemma all_answered : Forall answered [web; gone].
Proof.
  assert (forall c i, ContainerInspect (c_ID c) = Ok i -> complete i) as Hi.
  { intros c i [= <-]. split; [by do 2 eexists|]. eexists. split; [done|].
    intros net ns [_ <-]%lookup_singleton_Some. by eexists. }
  repeat (constructor; [split; [vm_compute; lia|apply Hi]|]). constructor.
Qed.

Lemma discover_exact_witness :
  exists f : container -> option Backend,
    snd (DiscoverBackends watcher) = Some (Ok (omap f [web; gone])) /\
    (forall c b, f c = Some b -> stands_for watcher c b) /\
    (forall c b, c ∈ [web; gone] -> f c = None -> ~ stands_for watcher c b).
Proof. apply (discover_exact watcher [web; gone]); [reflexivity|apply all_answered]. Defined.

Lemma discover_fit_witness :
  all_v4 [web_backend] /\ ports_ok [web_backend] /\
  Forall (fun b => length (MAC b) = 6%nat /\ VethIdx b <> 0) [web_backend].
Proof.
  apply (discover_fit watcher [web; gone] [web_backend]);
    [reflexivity|apply all_answered|by vm_compute|apply discovered].
Defined.
End DiscoveryWitness.
