(* ===== verification/Main.v ===== *)
(** * The main program (userspace/cmd/main.go)

    Start-up from the command-line flags, the polling loop, the collector's table, the packets
    that arrive meanwhile and the shutdown, as a transition system over the pool and its
    manager.
    What Docker and the host's interfaces look like may differ at every poll; frames on the
    ingress interface and on the veths arrive between the polls and between the calls of a
    poll ([Busy]), and a running process carries the history of what happened to them; the
    signal comes between the polls or between the calls of one ([Shutdown]).  (How a
    program's own memory accesses interleave with the calls is the subject of [Race].) *)

From S2P Require Import Prelude Types BpfMaps Ebpf Checksum Xdp XdpSpec DataPlane GoNet.
From S2P Require Import GoStrings Manager Pool Simulate Reconcile Tables ManagerSpec ManagerWf.
From S2P Require Import Samples Fleet Attach Shutdown EndToEnd Interleave Stats Busy Collector Discovery.

(** ** The flags; the durations in nanoseconds *)

Record flags := {
  fl_iface : string;
  fl_vip : string;
  fl_port : Z;
  fl_label : string;
  fl_poll : Z;
  fl_stats : Z
}.

Definition default_flags : flags :=
  {| fl_iface := "eth0"; fl_vip := "0.0.0.0"; fl_port := 8080;
     fl_label := "lb.backend=true"; fl_poll := 2000000000; fl_stats := 3000000000 |}.

Section Main.
Context {KM : BpfMaps} {KL : BpfMapsLaws} {HH : Host} `{!GoRange} (e : endian).

(** The hardware address of an interface, and whether the Docker client can be made. *)
Context (iface_mac : net_t -> Z -> HardwareAddr) (client_err : Type).
Context (NewClientWithOpts : option client_err).

(** ** Start-up *)

Inductive fatal :=
  | FatalVIP (s : string)
  | FatalInterface (name : string) (x : errno)
  | FatalManager (x : error)
  | FatalDocker (x : watcher_error client_err).

(** Steps 1 to 3.  [log.Fatalf] ends the process without running the deferred calls: the
    state of the host is left as it is at that point. *)
Definition main_setup (fl : flags) (n : net_t)
    : net_t * result fatal (DockerWatcher * Pool Manager) :=
  match ParseIP (fl_vip fl) with
  | None => (n, Err (FatalVIP (fl_vip fl)))
  | Some vip =>
      match InterfaceByName n (fl_iface fl) with
      | Err x => (n, Err (FatalInterface (fl_iface fl) x))
      | Ok idx =>
          let srcMAC := iface_mac n idx in
          match NewManager n (fl_iface fl) with
          | Err (n, x) => (n, Err (FatalManager x))
          | Ok m =>
              match NewDockerWatcher NewClientWithOpts (fl_label fl) (u16 (fl_port fl)) with
              | Err x => (net m, Err (FatalDocker x))
              | Ok w => (net m, Ok (w, NewPool m vip (u16 (fl_port fl)) srcMAC))
              end
          end
      end
  end.

(** ** A poll *)

Inductive poll_error (err : Type) :=
  | PollDiscovery (x : err)
  | PollSync (x : error).
Arguments PollDiscovery {err} x.
Arguments PollSync {err} x.

(** Discovery and reconciliation, with the frames that arrive before each call: the pool,
    what happened to the frames, and the error that is logged; [None] is a panic of the
    discovery. *)
Definition poll {NL : Netlink} {DK : Docker} (w : DockerWatcher) (batches : list (list frame))
    (p : Pool Manager)
    : option (Pool Manager * list seen * option (poll_error docker_err)) :=
  match snd (DiscoverBackends w) with
  | None => None
  | Some (Err x) => Some (p, [], Some (PollDiscovery x))
  | Some (Ok backends) =>
      let '(q, r) := busy_Sync e batches p backends in
      Some (map_pool bz_mgr q, bz_log (bpfManager q), PollSync <$> r)
  end.

(** ** The process *)

(** [h] is the history of the frames so far. *)
Inductive proc :=
  | Running (p : Pool Manager) (h : list seen)
  | Crashed (p : Pool Manager)
  | Exited (m : Manager) (r : option error).

(** Start-up with the initial discovery; [time.NewTicker] panics on a duration that is not
    positive. *)
Definition main_start {NL : Netlink} {DK : Docker} (fl : flags) (batches : list (list frame))
    (n : net_t) : net_t * result fatal (DockerWatcher * proc) :=
  let '(n, r) := main_setup fl n in
  match r with
  | Err x => (n, Err x)
  | Ok (w, p) =>
      match poll w batches p with
      | None => (n, Ok (w, Crashed p))
      | Some (p, h, _) =>
          (net (bpfManager p),
           Ok (w, if (fl_poll fl <=? 0) || (fl_stats fl <=? 0) then Crashed p else Running p h))
      end
  end.

Definition with_pool_objs (p : Pool Manager) (o : lbMaps) : Pool Manager :=
  with_mgr p (with_objs (bpfManager p) o) (byVeth p).

Section Steps.
Context (env : Netlink -> Docker -> Prop) (w : DockerWatcher).

(** The ticker of the polls fires, a frame arrives, or a signal ends the process: between the
    polls, or before or after any call of a poll's reconciliation, which nothing waits for.
    When the collector's ticker fires, its table is printed. *)
Inductive step : proc -> proc -> Prop :=
  | StepPoll NL DK batches p h p' log err :
      env NL DK -> Forall (Forall on_cpu) batches ->
      poll w batches p = Some (p', log, err) ->
      step (Running p h) (Running p' (h ++ log))
  | StepPanic NL DK batches p h :
      env NL DK -> poll w batches p = None -> step (Running p h) (Crashed p)
  | StepFrame f p h :
      on_cpu f ->
      step (Running p h)
        (Running (with_pool_objs p (objs (fst (receive e (bpfManager p, h) f))))
           (snd (receive e (bpfManager p, h) f)))
  | StepSignal p h m r :
      Manager_Close (bpfManager p) = (m, r) -> step (Running p h) (Exited m r)
  | StepSignalPoll NL DK k c p h bs r :
      env NL DK -> snd (DiscoverBackends w) = Some (Ok bs) ->
      let x := shut_Close c (bpfManager (fst (shut_Sync e k c p bs))) in
      sh_done x = Some r -> step (Running p h) (Exited (sh_mgr x) r)
  | StepStats now p h text :
      render now (bpfManager p) p = Some text -> step (Running p h) (Running p h)
  | StepStatsPanic now p h :
      render now (bpfManager p) p = None -> step (Running p h) (Crashed p).
End Steps.

(** ** The parameters of the pool never change *)

Definition same_params (p p' : Pool Manager) : Prop :=
  vip p' = vip p /\ vport p' = vport p /\ srcMAC p' = srcMAC p.

Lemma Sync_params p new : same_params p (fst (SyncM e p new)).
Proof.
  unfold SyncM, Sync. destruct (write_loop _ _ _ _) as [s [x|]]; [done|].
  destruct (clear_loop _ _ _) as [t [x|]]; [done|].
  destruct (detach_loop _ _ _) as [[t' bv] [x|]]; [done|].
  by destruct (bu_UpdateConfig _ _ _ _ _) as [t'' [x|]].
Qed.

(** ** The invariant of a running process

    [f] gives the index of the host-side veth with a given name. *)
Section Invariant.
Context {HL : HostLaws} (f : string -> Z) (Hinj : forall x y, f x = f y -> x = y).

(** What the program relies on of Docker and of the host: answers without nil pointers and
    with identifiers of the usual length, and a veth name that stands for the same interface
    as long as the process runs (an interface other than the ingress interface, as the
    start-up theorems assume: the ingress program does not run on a backend's own veth). *)
Record env_ok (NL : Netlink) (DK : Docker) : Prop := {
  eo_ids flt cs : ContainerList flt = Ok cs -> Forall answered cs;
  eo_index pid name i : snd (FindHostVeth pid) = Ok (name, i) -> i = f name
}.

(** The configuration the kernel holds is that of the snapshot, or still the initial one. *)
Definition config_of (p : Pool Manager) (c : lb_config) : Prop :=
  c = pool_config e p (length (backends p)) \/ (c = lb_config_zero /\ backends p = []).

Record main_inv (p : Pool Manager) : Prop := {
  mi_wf : wf_maps (objs (bpfManager p));
  mi_pool : pool_inv e (UpdaterLaws0 := Manager_laws e) p;
  mi_attach : attach_inv f (bpfManager p);
  mi_max : (length (backends p) <= 64)%nat;
  mi_vport : is_u16 (vport p);
  mi_config : exists c, am_lookup (ConfigMap (objs (bpfManager p))) 0 = Some c /\ config_of p c
}.

(** What a discovery hands to [Sync]. *)
Lemma discovered_ok {NL : Netlink} {DK : Docker} (w : DockerWatcher) bs :
  env_ok NL DK -> is_u16 (targetPort w) -> snd (DiscoverBackends w) = Some (Ok bs) ->
  all_v4 bs /\ ports_ok bs /\ veths_indexed f bs.
Proof.
  intros [Hids Hidx] Hw. unfold DiscoverBackends.
  destruct (ContainerList _) as [x|cs] eqn:Hl; [done|]. specialize (Hids _ _ Hl).
  pose proof (discover_loop_contributions w cs [] Hids) as Hc.
  destruct (discover_loop _ _ _) as [log r]. simpl in *. subst r. simpl. intros [= <-].
  split_and!; apply Forall_forall; intros b (c & _ & Hb)%omap_stands_for;
    destruct (stands_for_wf w c b Hw Hb) as (? & ? & ? & ?); try done.
  destruct Hb as (i & base & state & nets & net & ns & _ & _ & _ & _ & _ & _ & _ & _ & Hv & _).
  by eapply Hidx.
Qed.

Lemma discovery_total {NL : Netlink} {DK : Docker} (w : DockerWatcher) :
  env_ok NL DK -> snd (DiscoverBackends w) <> None.
Proof.
  intros [Hids _]. unfold DiscoverBackends.
  destruct (ContainerList _) as [x|cs] eqn:Hl; [done|]. specialize (Hids _ _ Hl).
  pose proof (discover_loop_contributions w cs [] Hids) as Hc.
  destruct (discover_loop _ _ _) as [log r]. simpl in *. by rewrite Hc.
Qed.

Lemma poll_total {NL : Netlink} {DK : Docker} w batches p :
  env_ok NL DK -> poll w batches p <> None.
Proof.
  intros He. pose proof (discovery_total w He). unfold poll.
  destruct (snd (DiscoverBackends w)) as [[x|bs]|]; [done| |done].
  by destruct (busy_Sync e batches p bs).
Qed.

(** A poll that reconciles: the pool of the reconciliation without frames, with other
    counters. *)
Lemma poll_sync {NL : Netlink} {DK : Docker} w batches p p' log err :
  poll w batches p = Some (p', log, err) ->
  (p' = p /\ log = [] /\ exists x, err = Some (PollDiscovery x)) \/
  exists bs q r c, snd (DiscoverBackends w) = Some (Ok bs) /\
    busy_Sync e batches p bs = (q, r) /\ log = bz_log (bpfManager q) /\
    err = PollSync <$> r /\ snd (SyncM e p bs) = r /\ p' = map_pool bz_mgr q /\
    p' = with_pool_objs (fst (SyncM e p bs))
           (with_CountersMap (objs (bpfManager (fst (SyncM e p bs)))) c).
Proof.
  unfold poll. destruct (snd (DiscoverBackends w)) as [[x|bs]|] eqn:Hd; [| |done].
  { intros Hp. injection Hp as <- <- <-. left. eauto. }
  destruct (busy_Sync_upto e batches p bs) as [[c Hc] He].
  destruct (busy_Sync e batches p bs) as [q r] eqn:Hs. intros Hp. injection Hp as <- <- <-. right.
  exists bs, q, r, c. by split_and!.
Qed.

Lemma Sync_main_inv p new :
  main_inv p -> ports_ok new -> veths_indexed f new -> main_inv (fst (SyncM e p new)).
Proof.
  intros [Hwf Hpool Hatt Hmax Hvp (c & Hc & Hcfg)] Hports Hidx.
  pose proof (Sync_wf e p new Hwf Hports Hvp) as Hwf'.
  pose proof (Sync_attach_inv f Hinj e p new Hatt Hidx) as Hatt'.
  pose proof (Sync_params p new) as (Hp1 & Hp2 & Hp3).
  destruct (SyncM e p new) as [p' [x|]] eqn:Hs; cbn [fst] in *.
  - apply (Sync_failure e) in Hs as (Hk & Hpool' & Hbs); [|done].
    split; rewrite ?Hbs, ?Hp2; try done. exists c. split; [by rewrite <- Hc|].
    unfold config_of, pool_config in *. by rewrite Hbs, Hp1, Hp2, Hp3.
  - pose proof (Sync_max e _ _ _ Hs) as Hm.
    apply (Sync_success e) in Hs as ((_ & _ & Hk & _) & Hpool' & Hbs & _); [|done].
    split; rewrite ?Hbs, ?Hp2; try done. eexists. split; [exact Hk|]. left.
    unfold pool_config. by rewrite Hbs, Hp1, Hp2, Hp3.
Qed.

(** Frames only change the counters. *)
Lemma frames_main_inv p o :
  main_inv p -> wf_maps o -> same_tables (objs (bpfManager p)) o ->
  main_inv (with_pool_objs p o).
Proof.
  intros [Hwf Hpool Hatt Hmax Hvp Hc] Ho (Ht & _ & _). split; try done.
  - by apply with_objs_attach_inv.
  - cbn. by rewrite Ht.
Qed.

(** The history agrees with the counters, and no frame met a fault. *)
Record history_ok (p : Pool Manager) (h : list seen) : Prop := {
  ho_passed : Forall passed h;
  ho_counted k : 0 <= k < MAX_BACKENDS -> counted e k 0 0 (bpfManager p) h
}.

Lemma receive_history p h g :
  main_inv p -> on_cpu g -> history_ok p h ->
  history_ok (with_pool_objs p (objs (fst (receive e (bpfManager p, h) g))))
    (snd (receive e (bpfManager p, h) g)).
Proof.
  intros [Hwf _ _ _ _ _] Hf [Hp Hc].
  destruct (receive_ok e (bpfManager p) h g Hwf) as (pkt & Hs & _). split.
  - rewrite Hs. apply Forall_app. split; [done|]. constructor; [by exists pkt|constructor].
  - intros k Hk. destruct (receive_counted e k 0 0 _ _ g Hk Hf (Hc k Hk)) as [H1 H2].
    split; [done|]. rewrite <- H2. done.
Qed.

Lemma poll_inv {NL : Netlink} {DK : Docker} w batches p h p' log err :
  env_ok NL DK -> is_u16 (targetPort w) -> Forall (Forall on_cpu) batches ->
  main_inv p -> history_ok p h -> poll w batches p = Some (p', log, err) ->
  main_inv p' /\ history_ok p' (h ++ log).
Proof.
  intros He Hw Hb Hp [Hpass Hcnt] Hpoll.
  destruct (poll_sync _ _ _ _ _ _ Hpoll) as
    [(-> & -> & _)|(bs & q & r & c & Hd & Hs & -> & _ & _ & Hq & Hp')].
  { by rewrite app_nil_r. }
  destruct (discovered_ok w bs He Hw Hd) as (_ & Hports & Hidx).
  assert (forall k, 0 <= k < MAX_BACKENDS -> counted e k 0 0 (bpfManager p') (h ++ bz_log (bpfManager q)))
    as Hcnt'.
  { intros k Hk. destruct (Hcnt k Hk) as [_ Hr].
    pose proof (busy_Sync_counted e batches p bs k _ _ (mi_wf _ Hp) Hports (mi_vport _ Hp) Hk Hb Hr)
      as [Hwf' Hr']. rewrite Hs in Hwf', Hr'. cbn [fst] in *. rewrite Hq.
    split; [done|]. cbn [bpfManager map_pool]. rewrite Hr', sent_app, length_app, total_bytes_app.
    do 3 f_equal; lia. }
  split.
  - rewrite Hp'. apply frames_main_inv; [by apply Sync_main_inv| |done].
    destruct (Hcnt' 0) as [Hwf' _]; [by vm_compute|]. by rewrite Hp' in Hwf'.
  - split; [|done]. apply Forall_app. split; [done|].
    pose proof (busy_Sync_served e batches p bs (mi_wf _ Hp) Hports (mi_vport _ Hp)) as Hsv.
    rewrite Hs in Hsv. eapply Forall_impl; [exact Hsv|]. by intros s [? _].
Qed.

Lemma poll_params {NL : Netlink} {DK : Docker} w batches p p' log err :
  poll w batches p = Some (p', log, err) -> same_params p p'.
Proof.
  intros [(-> & _)|(bs & q & r & c & _ & _ & _ & _ & _ & _ & ->)]%poll_sync; [done|].
  apply (Sync_params p bs).
Qed.

(** What holds of a running process and its history. *)
Definition running_ok (p : Pool Manager) (h : list seen) : Prop :=
  main_inv p /\ history_ok p h.

Section Run.
Context (env : Netlink -> Docker -> Prop) (Henv : forall NL DK, env NL DK -> env_ok NL DK).

Lemma step_running w p h p' h' :
  is_u16 (targetPort w) -> running_ok p h -> step env w (Running p h) (Running p' h') ->
  running_ok p' h'.
Proof.
  intros Hw [Hp Hh] Hs. remember (Running p h) as q eqn:Hq.
  remember (Running p' h') as q' eqn:Hq'.
  destruct Hs as [NL DK batches p0 h0 p1 log err He Hb Hpoll| |g p0 h0 Hg| | | |]; simplify_eq;
    [| |done].
  - eapply poll_inv; eauto.
  - destruct (receive_ok e (bpfManager p) h g (mi_wf _ Hp)) as (pkt & _ & Hwf & Hsame).
    split; [by apply frames_main_inv|by apply receive_history].
Qed.

(** Every running state on the way was reached through running states. *)
Lemma run_running w p h q :
  is_u16 (targetPort w) -> running_ok p h -> rtc (step env w) (Running p h) q ->
  match q with
  | Running p' h' => running_ok p' h'
  | Exited m r => r = None -> detached f m
  | Crashed _ => False
  end.
Proof.
  intros Hw Hp Hr. remember (Running p h) as q0 eqn:Hq0. revert p h Hp Hq0.
  induction Hr as [q0|q0 q1 q2 Hs Hr IH]; intros p h Hp ->; [done|].
  destruct q1 as [p1 h1|p1|m r].
  - eapply IH; [|done]. by eapply step_running.
  - exfalso. inversion Hs as [|NL DK batches ? ? He Hpoll| | | | |now ? ? Hr'].
    + eapply poll_total; [by apply Henv|exact Hpoll].
    + by apply render_total in Hr'.
  - assert (q2 = Exited m r) as ->.
    { inversion Hr as [|? y ? Hy _]; [done|]. inversion Hy. }
    intros ->. destruct Hp as [Hp _].
    inversion Hs as [| | |? ? ? ? Hc|NL DK k c ? ? bs ? He Hd x Hx| |]; subst.
    + by eapply Manager_Close_detached; [done|apply Hp|].
    + destruct (discovered_ok w bs (Henv _ _ He) Hw Hd) as (_ & _ & Hidx).
      apply (shut_Sync_detached e f Hinj c k p bs); [apply Hp|done|done].
Qed.

(** *** Start-up establishes the invariant *)

Lemma main_setup_ok fl n n' w p :
  main_setup fl n = (n', Ok (w, p)) ->
  is_u16 (targetPort w) /\
  exists m vip, NewManager n (fl_iface fl) = Ok m /\ ParseIP (fl_vip fl) = Some vip /\
    n' = net m /\ backends p = [] /\ bpfManager p = m /\
    exists mac, p = NewPool m vip (u16 (fl_port fl)) mac.
Proof.
  unfold main_setup. destruct (ParseIP _) as [vip|]; [|done].
  destruct (InterfaceByName _ _) as [x|i]; [done|].
  destruct (NewManager _ _) as [[n1 x]|m]; [done|].
  unfold NewDockerWatcher. destruct NewClientWithOpts; [done|]. intros [= <- <- <-].
  split; [apply u16_range|]. eauto 10.
Qed.

Context (fl : flags) (n : net_t) (Hfree : forall x, attached n (f x) = None).
Context (Hiface : forall n1 i, InterfaceByName n1 (fl_iface fl) = Ok i -> forall x, f x <> i).

(** The interface, the configuration and the counters of a new manager. *)
Lemma NewManager_fields name m :
  NewManager n name = Ok m ->
  (exists n1, InterfaceByName n1 name = Ok (ifaceIdx m)) /\
  am_lookup (ConfigMap (objs m)) 0 = Some lb_config_zero /\ CountersMap (objs m) = pm_init.
Proof.
  unfold NewManager. destruct (RemoveMemlock n) as [n1 [x|]]; [done|].
  destruct (InterfaceByName n1 name) as [x|i] eqn:Hi; [done|].
  destruct (loadLbObjects n1) as [n2 [x|]]; [done|].
  destruct (attach_fallback n2 _ i) as [n3 [[? x]|l]]; [by destruct (lbObjects_Close n3)|].
  intros [= <-]. cbn. split_and!; [eauto| |done].
  by rewrite (am_lookup_init (zero := lb_config_zero) (max := 1)).
Qed.

Lemma setup_running n' w p :
  main_setup fl n = (n', Ok (w, p)) -> is_u16 (targetPort w) /\ running_ok p [].
Proof.
  intros (Hw & m & vip & Hm & _ & _ & _ & _ & mac & ->)%main_setup_ok. split; [done|].
  destruct (NewManager_fields _ _ Hm) as ([n1 Hi] & Hc & Hz).
  pose proof (NewManager_wf _ _ _ Hm) as Hwf. split; split; cbn.
  - done.
  - by eapply NewPool_tables_inv.
  - eapply NewManager_attach_inv; [exact Hm|by eapply Hiface|done].
  - lia.
  - apply u16_range.
  - eexists. split; [exact Hc|]. by right.
  - constructor.
  - intros k Hk. split; [done|]. by rewrite ReadStats_init.
Qed.

(** The initial discovery keeps it. *)
Lemma start_running NL DK batches n' w q :
  env NL DK -> Forall (Forall on_cpu) batches ->
  main_start fl batches n = (n', Ok (w, q)) ->
  is_u16 (targetPort w) /\
  match q with
  | Running p h => running_ok p h
  | Crashed _ => fl_poll fl <= 0 \/ fl_stats fl <= 0
  | Exited _ _ => False
  end.
Proof.
  intros He Hb. unfold main_start.
  destruct (main_setup fl n) as [n1 [x|[w1 p1]]] eqn:Hs; [done|].
  apply setup_running in Hs as (Hw & Hp & Hh).
  destruct (poll w1 batches p1) as [[[p2 log] err]|] eqn:Hpoll;
    [|by apply poll_total in Hpoll; [|apply Henv]].
  intros [= _ <- <-]. split; [done|].
  destruct (Z.leb_spec (fl_poll fl) 0); [by left|].
  destruct (Z.leb_spec (fl_stats fl) 0); [by right|].
  apply (poll_inv w1 batches p1 [] p2 log err); auto.
Qed.

(** C5: what holds in every state of the process.  Whatever Docker and the host show at
    each poll, whichever calls fail, and whatever frames arrive between the polls and
    between the calls of a poll, a started process (with positive intervals) never crashes,
    and as long as it runs: the maps are well formed, the configuration in the kernel is the
    one of the pool's snapshot (or still the initial one, with no backend), the snapshot fits
    the maps, the veth record agrees with the links, the ingress interface runs
    [xdp_lb_ingress] and a veth runs [xdp_veth_snat] only if the manager holds a link for it
    (and exactly then, when a [Close] that fails changes nothing); and every frame since the
    start was handled without a fault and passed on.  Of what Docker and the host show it is
    assumed what [env_ok] says. *)
Theorem main_invariant NL DK batches n' w p0 h0 q :
  env NL DK -> Forall (Forall on_cpu) batches ->
  main_start fl batches n = (n', Ok (w, Running p0 h0)) ->
  rtc (step env w) (Running p0 h0) q ->
  match q with
  | Running p h => main_inv p /\ Forall passed h
  | Crashed _ => False
  | Exited _ _ => True
  end.
Proof.
  intros He Hb Hs Hr. apply (start_running NL DK) in Hs as [Hw Hp]; [|done..].
  apply (run_running _ _ _ _ Hw Hp) in Hr. destruct q as [p h|p|m r]; [|done..].
  by destruct Hr as [? [? _]].
Qed.

(** C15: no frame is lost or counted twice.  In every state a started process reaches, the
    statistics of each index are exactly the frames of the whole history that the ingress
    program sent to it, and their bytes, as 64-bit counters: over the start, any number of
    polls that change the list, and the frames that arrive before any of their calls, on any
    CPU; and these are the numbers the table shows for the backend at that index. *)
Theorem main_stats NL DK batches n' w p0 h0 p h :
  env NL DK -> Forall (Forall on_cpu) batches ->
  main_start fl batches n = (n', Ok (w, Running p0 h0)) ->
  rtc (step env w) (Running p0 h0) (Running p h) ->
  (forall k, 0 <= k < MAX_BACKENDS ->
     ReadStats (bpfManager p) k =
       Ok (u64 (Z.of_nat (length (sent e k h))), u64 (total_bytes (sent e k h)))) /\
  (forall i, (i < length (GetBackends p))%nat ->
     shown (bpfManager p) i =
       (u64 (Z.of_nat (length (sent e (Z.of_nat i) h))), u64 (total_bytes (sent e (Z.of_nat i) h)))).
Proof.
  intros He Hb Hs Hr. apply (start_running NL DK) in Hs as [Hw Hp]; [|done..].
  apply (run_running _ _ _ _ Hw Hp) in Hr as [Hi [_ Hc]].
  split; [intros k Hk; by destruct (Hc k Hk) as [_ ->]|].
  intros i Hlt. unfold GetBackends in Hlt. pose proof (mi_max _ Hi) as Hmax. unfold shown.
  rewrite u32_id by (unfold is_u32; lia).
  destruct (Hc (Z.of_nat i)) as [_ ->]; [unfold MAX_BACKENDS; lia|done].
Qed.

(** C35: a signal cleans up.  When the process has ended on a signal, after any number of
    polls and frames and at any moment, also while a reconciliation is under way: unless
    closing reported an error the manager holds no links any more, and neither the ingress
    interface nor any veth runs an XDP program. *)
Theorem main_shutdown NL DK batches n' w p0 h0 m :
  env NL DK -> Forall (Forall on_cpu) batches ->
  main_start fl batches n = (n', Ok (w, Running p0 h0)) ->
  rtc (step env w) (Running p0 h0) (Exited m None) ->
  vethLinks m = ∅ /\ (forall name, attached (net m) (f name) = None) /\
  attached (net m) (ifaceIdx m) = None.
Proof.
  intros He Hb Hs Hr. apply (start_running NL DK) in Hs as [Hw Hp]; [|done..].
  by apply (run_running _ _ _ _ Hw Hp) in Hr as (? & ? & ?).
Qed.

(** *** When the links work and the discovered lists fit *)

Record serves (p : Pool Manager) : Prop := {
  sv_tables : tables_inv e p;
  sv_serving : serving e p;
  sv_v4 : all_v4 (backends p);
  sv_ports : ports_ok (backends p);
  sv_addr : addresses_ok e (backends p)
}.

Definition env_small (w : DockerWatcher) : Prop :=
  forall NL DK, env NL DK -> forall bs, snd (DiscoverBackends w) = Some (Ok bs) ->
    (length bs <= 64)%nat /\ addresses_ok e bs.

Lemma frames_serves p o :
  serves p -> same_tables (objs (bpfManager p)) o -> serves (with_pool_objs p o).
Proof.
  intros [(Hpi & Hlen & Hrev) [Hc Hb] H4 Hpo Ha] (Hc' & Hb' & Hi'). split; try done.
  - split_and!; [done|done|]. cbn. by rewrite Hi'.
  - split; cbn; [by rewrite Hc'|by rewrite Hb'].
Qed.

(** A poll whose discovery succeeds reconciles. *)
Lemma poll_succeeds NL DK w batches p bs :
  links_work -> env NL DK -> env_small w -> is_u16 (targetPort w) -> serves p ->
  snd (DiscoverBackends w) = Some (Ok bs) ->
  exists p1 c log, SyncM e p bs = (p1, None) /\ backends p1 = bs /\
    poll w batches p =
      Some (with_pool_objs p1 (with_CountersMap (objs (bpfManager p1)) c), log, None).
Proof.
  intros Hlinks He Hsmall Hw Hsv Hd.
  destruct (discovered_ok w bs (Henv _ _ He) Hw Hd) as (Hv4 & Hports & _).
  destruct (Hsmall _ _ He bs Hd) as [Hlen Haddr].
  destruct (Sync_succeeds e p bs Hlinks (sv_tables _ Hsv) Hv4 Hlen) as [p1 Hs].
  assert (backends p1 = bs) as Hbs.
  { pose proof Hs as Hs'. apply (Sync_success e) in Hs' as (_ & _ & Hb & _);
      [done|apply (sv_tables _ Hsv)]. }
  destruct (busy_Sync_upto e batches p bs) as [[c Hc] Hr]. rewrite Hs in Hc, Hr.
  exists p1, c, (bz_log (bpfManager (fst (busy_Sync e batches p bs)))).
  split_and!; [done|done|]. unfold poll. rewrite Hd.
  destruct (busy_Sync e batches p bs) as [q r]. cbn in Hc, Hr |- *. by rewrite Hr, Hc.
Qed.

Lemma poll_serves NL DK w batches p p' log err :
  links_work -> env NL DK -> env_small w -> is_u16 (targetPort w) -> serves p ->
  poll w batches p = Some (p', log, err) ->
  serves p' /\ (forall x, err <> Some (PollSync x)).
Proof.
  intros Hlinks He Hsmall Hw Hsv Hpoll.
  destruct (poll_sync _ _ _ _ _ _ Hpoll) as
    [(-> & _ & x & ->)|(bs & q & r & c & Hd & _)]; [by split|].
  destruct (poll_succeeds NL DK w batches p bs) as (p1 & c1 & log1 & Hs & Hbs & Hp1);
    [done..|]. rewrite Hp1 in Hpoll. injection Hpoll as <- <- <-. split; [|done].
  destruct (discovered_ok w bs (Henv _ _ He) Hw Hd) as (Hv4 & Hports & _).
  destruct (Hsmall _ _ He bs Hd) as [_ Haddr]. destruct Hsv as [Ht Hsvg _ _ _].
  apply frames_serves; [|done].
  split; [by eapply Sync_tables_inv|by eapply Sync_serving|by rewrite Hbs..].
Qed.

Lemma run_serves w p h q :
  links_work -> env_small w -> is_u16 (targetPort w) -> running_ok p h -> serves p ->
  rtc (step env w) (Running p h) q ->
  match q with Running p' _ => main_inv p' /\ serves p' | _ => True end.
Proof.
  intros Hlinks Hsmall Hw Hp Hsv Hr. remember (Running p h) as q0 eqn:Hq0.
  revert p h Hp Hsv Hq0.
  induction Hr as [q0|q0 q1 q2 Hs Hr IH]; intros p h Hp Hsv ->; [by split; [apply Hp|]|].
  destruct q1 as [p1 h1|p1|m r];
    [|by inversion Hr as [|? y ? Hy _]; [|inversion Hy]..].
  eapply IH; [by eapply step_running| |done].
  remember (Running p h) as q eqn:Hq. remember (Running p1 h1) as q' eqn:Hq'.
  destruct Hs as [NL DK batches p2 h2 p3 log err He Hb Hpoll| |g p2 h2 Hg| | | |]; simplify_eq;
    [| |done].
  - eapply (poll_serves NL DK); eauto.
  - destruct (receive_ok e (bpfManager p) h g) as (pkt & _ & _ & Hsame); [apply Hp|].
    by apply frames_serves.
Qed.

(** A request on the maps of a process that serves its snapshot. *)
Lemma serves_request p vip4 a :
  main_inv p -> serves p -> To4 (vip p) = Some vip4 -> backends p <> [] ->
  is_icmp_frame e (ar_pkt a) = true -> daddr_of (ar_pkt a) = vip4 ->
  exists b s, chosen (backends p) (ar_rand a) = Some b /\
    exec (xdp_lb_ingress e) (arrival_state (objs (bpfManager p)) a) = Some (XDP_PASS, s) /\
    nat_rewrite dnat_bytes (ar_pkt a) (ks_pkt s) /\
    To4 (BIP b) = Some (daddr_of (ks_pkt s)) /\
    h_dest_of (ks_pkt s) = mac_bytes (MAC b) /\ h_source_of (ks_pkt s) = mac_bytes (srcMAC p).
Proof.
  intros [Hwf _ _ Hmax Hvp (c & Hc & [->|[_ Hnil]])] [_ [_ Hfw] Hv4 Hports Haddr] Hvip Hne Hf Hd;
    [|done].
  destruct (chosen_Some (backends p) (ar_rand a) Hne) as [b Hb]. exists b.
  pose proof Hb as Hb'. unfold chosen in Hb'. pose proof (lookup_lt_Some _ _ _ Hb') as Hlt.
  destruct (Forall_lookup_1 _ _ _ _ Hv4 Hb') as [v4 Hb4].
  pose proof (Z.mod_pos_bound (ar_rand a) (Z.of_nat (length (backends p))) ltac:(lia)) as Hr.
  assert (select e (objs (bpfManager p)) (ar_rand a) (ar_pkt a) =
    Some (ar_rand a mod Z.of_nat (length (backends p)), pool_config e p (length (backends p)),
          mk_backend e v4 (Port b) (MAC b))) as Hsel.
  { apply select_Some. rewrite pool_config_count, (pool_config_vip _ _ _ vip4) by done.
    split_and!; [done|done|lia|right; by rewrite Hd|..].
    - unfold bpf_mod. by rewrite (proj2 (Z.eqb_neq _ _)) by lia.
    - specialize (Hfw (Z.to_nat (ar_rand a mod Z.of_nat (length (backends p)))) ltac:(lia)).
      rewrite Z2Nat.id, Hb' in Hfw by lia. rewrite Hfw. unfold entry_of. by rewrite Hb4.
    - by eapply (Forall_lookup_1 _ _ _ _ Haddr Hb'). }
  eapply Forall_lookup_1 in Hports; [|exact Hb'].
  destruct (select_delivers e p _ _ _ b v4 (ar_pkt a) (ar_cpu a) _ Hwf Hvp Hports Hb4 Hf Hsel)
    as (s & ? & ? & ? & ? & ? & _). by exists s.
Qed.

Lemma run_params w p h p' h' :
  rtc (step env w) (Running p h) (Running p' h') -> same_params p p'.
Proof.
  intros Hr. remember (Running p h) as q0 eqn:Hq0. remember (Running p' h') as q' eqn:Hq'.
  revert p h Hq0. induction Hr as [q0|q0 q1 q2 Hs Hr IH]; intros p h ->; [by simplify_eq|].
  destruct q1 as [p1 h1|p1|m r];
    [|by subst; inversion Hr as [|? y ? Hy _]; inversion Hy..].
  destruct (IH Hq' p1 h1 eq_refl) as (H1 & H2 & H3). unfold same_params. rewrite H1, H2, H3.
  remember (Running p h) as q eqn:Hq. remember (Running p1 h1) as q1 eqn:Hq1.
  destruct Hs as [NL DK batches p2 h2 p3 log err He Hb Hpoll| | | | | |]; simplify_eq; [|done..].
  by apply poll_params in Hpoll.
Qed.

(** The process serves from the start on, with the address of the flag. *)
Lemma start_serves NL DK batches n' w p0 h0 ip :
  links_work -> env NL DK -> Forall (Forall on_cpu) batches ->
  main_start fl batches n = (n', Ok (w, Running p0 h0)) -> env_small w ->
  ParseIP (fl_vip fl) = Some ip ->
  is_u16 (targetPort w) /\ running_ok p0 h0 /\ serves p0 /\ vip p0 = ip.
Proof.
  intros Hlinks He Hb Hstart Hsmall Hip.
  pose proof (start_running NL DK _ _ _ _ He Hb Hstart) as [Hw Hp0]. split_and!; [done..| |];
  revert Hstart; unfold main_start;
  destruct (main_setup fl n) as [n1 [x|[w1 p1]]] eqn:Hs; try done;
  destruct (poll w1 batches p1) as [[[p2 log] err]|] eqn:Hpoll; try done;
  (destruct (_ || _); [done|]); intros [= _ <- <- <-];
  destruct (main_setup_ok _ _ _ _ _ Hs) as (_ & m & vip' & Hm & Hvip & _ & _ & _ & mac & ->).
  - apply (poll_serves NL DK) in Hpoll as [? _]; [done..|].
    split; [by eapply NewPool_tables_inv|by eapply NewPool_serving|constructor..].
  - destruct (poll_params _ _ _ _ _ _ Hpoll) as [-> _]. cbn. by simplify_eq.
Qed.

(** C4: from the flags to the backends.  On a host whose links work, with lists of at most
    64 backends with addresses other than 0 at every poll, no poll fails to reconcile, and in
    every state the running process reaches, whatever frames arrived, the data plane serves the pool's snapshot: the
    forward table holds its entries and nothing else and no foreign address is in the
    reverse table; and a request to the address the vip flag names is delivered to the
    backend of the snapshot at position [rnd mod n], with its address and MAC. *)
Theorem main_serves NL DK batches n' w p0 h0 p h ip vip4 a :
  links_work -> env NL DK -> Forall (Forall on_cpu) batches ->
  main_start fl batches n = (n', Ok (w, Running p0 h0)) -> env_small w ->
  rtc (step env w) (Running p0 h0) (Running p h) ->
  ParseIP (fl_vip fl) = Some ip -> To4 ip = Some vip4 ->
  tables_inv e p /\ serving e p /\
  (backends p <> [] -> is_icmp_frame e (ar_pkt a) = true -> daddr_of (ar_pkt a) = vip4 ->
   exists b s, chosen (backends p) (ar_rand a) = Some b /\
     exec (xdp_lb_ingress e) (arrival_state (objs (bpfManager p)) a) = Some (XDP_PASS, s) /\
     nat_rewrite dnat_bytes (ar_pkt a) (ks_pkt s) /\
     To4 (BIP b) = Some (daddr_of (ks_pkt s)) /\
     h_dest_of (ks_pkt s) = mac_bytes (MAC b) /\ h_source_of (ks_pkt s) = mac_bytes (srcMAC p)).
Proof.
  intros Hlinks He Hb Hstart Hsmall Hr Hip Hv4.
  destruct (start_serves NL DK batches n' w p0 h0 ip) as (Hw & Hp0 & Hsv0 & Hvip); [done..|].
  destruct (run_serves w p0 h0 _ Hlinks Hsmall Hw Hp0 Hsv0 Hr) as [Hp Hsv].
  split_and!; [apply Hsv..|]. intros Hne Hf Hd.
  eapply serves_request; [done|done| |done|done|done].
  destruct (run_params _ _ _ _ _ Hr) as [-> _]. by rewrite Hvip.
Qed.

(** *** Convergence *)

Lemma receive_mgr m h g :
  fst (receive e (m, h) g) = with_objs m (objs (fst (receive e (m, h) g))).
Proof. unfold receive. destruct (run_frame _ _ _) as [[? ?]|]; by destruct m. Qed.

(** Frames between two polls, as steps. *)
Lemma frames_run w fs p h :
  Forall on_cpu fs ->
  rtc (step env w) (Running p h)
    (Running (with_pool_objs p (objs (fst (foldl (receive e) (bpfManager p, h) fs))))
       (snd (foldl (receive e) (bpfManager p, h) fs))).
Proof.
  intros Hfs. revert p h. induction Hfs as [|g fs Hg _ IH]; intros p h; cbn [foldl fst snd].
  { replace (with_pool_objs p (objs (bpfManager p))) with p; [done|].
    destruct p as [[] ? ? ? ? ?]. done. }
  eapply rtc_l; [by apply (StepFrame env w g)|].
  specialize (IH (with_pool_objs p (objs (fst (receive e (bpfManager p, h) g))))
    (snd (receive e (bpfManager p, h) g))).
  cbn [bpfManager with_pool_objs with_mgr] in IH. rewrite <- receive_mgr in IH.
  by destruct (receive e (bpfManager p, h) g).
Qed.

(** The veths of the new list run the SNAT program after a reconciliation. *)
Lemma Sync_attached p bs p1 b :
  links_work -> tables_inv e p -> attach_inv f (bpfManager p1) -> SyncM e p bs = (p1, None) ->
  b ∈ bs -> attached (net (bpfManager p1)) (f (VethName b)) = Some XdpVethSnat.
Proof.
  intros Hlinks [Hinv _] Hatt Hs Hb. apply (ai_exact _ _ Hatt); [by apply links_work_atomic|].
  apply (Sync_success e) in Hs as ((_ & _ & _ & Hv) & _); [|done].
  cbn [view Manager_laws manager_view d_veths dp_sync dp_config dp_set_veths] in Hv.
  rewrite Hv. assert (VethName b ∈ veths_of bs); [|set_solver].
  unfold veths_of. rewrite elem_of_list_to_set. by apply list_elem_of_fmap_2.
Qed.

(** A poll that discovers [bs], as a step of a process that serves. *)
Lemma poll_run NL DK w batches p h bs :
  links_work -> env NL DK -> env_small w -> is_u16 (targetPort w) ->
  running_ok p h -> serves p -> snd (DiscoverBackends w) = Some (Ok bs) ->
  Forall (Forall on_cpu) batches ->
  exists p1 log s c, poll w batches p = Some (p1, log, None) /\
    SyncM e p bs = (s, None) /\
    p1 = with_pool_objs s (with_CountersMap (objs (bpfManager s)) c) /\ backends p1 = bs /\
    step env w (Running p h) (Running p1 (h ++ log)) /\ running_ok p1 (h ++ log) /\ serves p1.
Proof.
  intros Hlinks He Hsmall Hw Hp Hsv Hd Hb.
  destruct (poll_succeeds NL DK w batches p bs) as (s & c & log & Hs & Hbs & Hpoll); [done..|].
  pose proof (StepPoll env w NL DK _ _ h _ _ _ He Hb Hpoll) as Hstep.
  exists (with_pool_objs s (with_CountersMap (objs (bpfManager s)) c)), log, s, c.
  split_and!; [done..| |]; [by eapply step_running|by eapply (poll_serves NL DK)].
Qed.

(** After a poll that found the list it already had, the replies of its backends are
    translated. *)
Lemma settled_reply p bs s c vip4 b a :
  links_work -> serves p -> backends p = bs -> SyncM e p bs = (s, None) -> NoDup (keys e bs) ->
  To4 (vip p) = Some vip4 -> load e vip4 <> 0 ->
  let p1 := with_pool_objs s (with_CountersMap (objs (bpfManager s)) c) in
  main_inv p1 -> b ∈ bs -> is_icmp_frame e (ar_pkt a) = true ->
  To4 (BIP b) = Some (saddr_of (ar_pkt a)) ->
  attached (net (bpfManager p1)) (f (VethName b)) = Some XdpVethSnat /\
  exists s', exec (xdp_veth_snat e) (arrival_state (objs (bpfManager p1)) a)
               = Some (XDP_PASS, s') /\
    nat_rewrite snat_bytes (ar_pkt a) (ks_pkt s') /\ saddr_of (ks_pkt s') = vip4.
Proof.
  intros Hlinks Hsv Hbs Hs Hnd Hvip Hnz p1 Hi Hb Hf Hsrc. pose proof (sv_tables _ Hsv) as Ht. split.
  - apply (Sync_attached p bs s b Hlinks Ht); [|done..]. by destruct (mi_attach _ Hi); split.
  - apply list_elem_of_lookup_1 in Hb as [j Hj].
    assert (ip_key e (BIP b) = Some (load e (saddr_of (ar_pkt a)))) as Ha
      by (unfold ip_key; by rewrite Hsrc).
    apply (returned e p bs s Ht Hs vip4 j b (load e (saddr_of (ar_pkt a)))
      (objs (bpfManager p1))); try done.
    rewrite Hbs. by eapply keys_nodup_drop.
Qed.

(** C6: convergence.  On a host whose links work, for a process that has only ever seen lists
    of at most 64 backends with addresses other than 0 ([env_small], at every poll since the
    start: a longer list can block the reverse map for good, see [overlong_list_blocks]) and
    whose vip flag is an IPv4 address other than 0.0.0.0: when two polls in a row discover the
    same list of backends with distinct addresses, then from whatever state the process has
    reached, and whatever frames arrive before, between and during the polls, both reconcile,
    and afterwards every backend of the list answers as the virtual address: its veth runs
    [xdp_veth_snat], which rewrites the source of its ICMP frames to the VIP, with a valid
    checksum of the fixed header and nothing else changed. *)
Theorem main_converges NL DK batches n' w p0 h0 p h ip vip4 NL1 DK1 NL2 DK2 bs bt1 bt2 fs :
  links_work -> env NL DK -> Forall (Forall on_cpu) batches ->
  main_start (NL := NL) (DK := DK) fl batches n = (n', Ok (w, Running p0 h0)) ->
  env_small w ->
  rtc (step env w) (Running p0 h0) (Running p h) ->
  ParseIP (fl_vip fl) = Some ip -> To4 ip = Some vip4 -> load e vip4 <> 0 ->
  env NL1 DK1 -> snd (DiscoverBackends (NL := NL1) (DK := DK1) w) = Some (Ok bs) ->
  env NL2 DK2 -> snd (DiscoverBackends (NL := NL2) (DK := DK2) w) = Some (Ok bs) ->
  Forall (Forall on_cpu) bt1 -> Forall (Forall on_cpu) bt2 -> Forall on_cpu fs ->
  NoDup (keys e bs) ->
  exists p1 log1 p2 log2,
    poll (NL := NL1) (DK := DK1) w bt1 p = Some (p1, log1, None) /\
    let x := foldl (receive e) (bpfManager p1, h ++ log1) fs in
    poll (NL := NL2) (DK := DK2) w bt2 (with_pool_objs p1 (objs (fst x)))
      = Some (p2, log2, None) /\
    rtc (step env w) (Running p h) (Running p2 (snd x ++ log2)) /\ backends p2 = bs /\
    forall b a, b ∈ bs -> is_icmp_frame e (ar_pkt a) = true ->
      To4 (BIP b) = Some (saddr_of (ar_pkt a)) ->
      attached (net (bpfManager p2)) (f (VethName b)) = Some XdpVethSnat /\
      exists s, exec (xdp_veth_snat e) (arrival_state (objs (bpfManager p2)) a)
                  = Some (XDP_PASS, s) /\
        nat_rewrite snat_bytes (ar_pkt a) (ks_pkt s) /\ saddr_of (ks_pkt s) = vip4.
Proof.
  intros Hlinks He Hb Hstart Hsmall Hr Hip Hv4 Hnz He1 Hd1 He2 Hd2 Hb1 Hb2 Hfs Hnd.
  destruct (start_serves NL DK batches n' w p0 h0 ip) as (Hw & Hp0 & Hsv0 & Hvip); [done..|].
  pose proof (run_running w p0 h0 _ Hw Hp0 Hr) as Hp.
  destruct (run_serves w p0 h0 _ Hlinks Hsmall Hw Hp0 Hsv0 Hr) as [_ Hsv].
  destruct (poll_run NL1 DK1 w bt1 p h bs)
    as (p1 & log1 & _ & _ & Hpoll1 & _ & _ & Hbs1 & Hs1 & Hp1 & Hsv1); [done..|].
  pose proof (frames_run w fs p1 (h ++ log1) Hfs) as Hr1.
  pose proof (run_running w p1 _ _ Hw Hp1 Hr1) as Hp1'.
  destruct (run_serves w p1 _ _ Hlinks Hsmall Hw Hp1 Hsv1 Hr1) as [_ Hsv1'].
  set (x := foldl (receive e) (bpfManager p1, h ++ log1) fs) in *.
  destruct (poll_run NL2 DK2 w bt2 (with_pool_objs p1 (objs (fst x))) (snd x) bs)
    as (p2 & log2 & s2 & c2 & Hpoll2 & Hsync2 & Hp2 & Hbs2 & Hs2 & [Hi2 _] & _); [done..|].
  exists p1, log1, p2, log2. split; [done|]. cbn zeta. fold x. split_and!; [done| |done|].
  { eapply rtc_l; [exact Hs1|]. eapply rtc_r; [exact Hr1|exact Hs2]. }
  intros b a Hin Hf Hsrc. subst p2.
  eapply settled_reply; [done|exact Hsv1'|done|exact Hsync2|done| |done..].
  pose proof (run_params _ _ _ _ _ (transitivity Hr (rtc_l _ _ _ _ Hs1 Hr1))) as [-> _].
  by rewrite Hvip.
Qed.
End Run.
End Invariant.
End Main.

(** ** Witnesses *)

Module MainWitness.
Import RefMaps RefHost DiscoveryWitness AttachWitness.
#[local] Existing Instances sim_netlink sim_docker.

Definition sim_flags : flags :=
  {| fl_iface := "eth0"; fl_vip := "10.200.200.200"; fl_port := 8080;
     fl_label := "lb.backend=true"; fl_poll := 2000000000; fl_stats := 3000000000 |}.

Definition sim_env (NL : Netlink) (DK : Docker) : Prop := NL = sim_netlink /\ DK = sim_docker.

Lemma sim_env_ok NL DK : sim_env NL DK -> env_ok veth_index NL DK.
Proof.
  intros [-> ->]. split.
  - intros flt cs [= <-]. apply all_answered.
  - intros pid name i [= <- <-]. vm_compute. reflexivity.
Qed.

Definition started_pool : Pool Manager := NewPool mgr0 (v4InV6Prefix ++ vip_ip) 8080 host_mac.
Definition sim_mac (n : net_t) (i : Z) : list byte := host_mac.

(** Echo requests to the VIP: before the first and before the last call of the first poll on
    CPU 0, and after it on CPU 1. *)
Definition ping (cpu : nat) : frame :=
  {| fr_prog := XdpLbIngress;
     fr_arrival := {| ar_pkt := request; ar_cpu := cpu; ar_rand := 7 |} |}.
Definition start_batches : list (list frame) := [[ping 0]; []; [ping 0]].

Definition polled : Pool busy := fst (busy_Sync LE start_batches started_pool [web_backend]).
Definition polled_pool : Pool Manager := map_pool bz_mgr polled.
Definition polled_log : list seen := bz_log (bpfManager polled).
Definition pinged : Manager * list seen := receive LE (bpfManager polled_pool, polled_log) (ping 1).

Lemma setup_ok :
  main_setup sim_mac unit None sim_flags ∅ = (net mgr0, Ok (watcher, started_pool)).
Proof. reflexivity. Qed.

Lemma web_v4 : all_v4 [web_backend].
Proof. constructor; [|constructor]. exists b1_ip. reflexivity. Qed.

Lemma poll_ok :
  poll LE watcher start_batches started_pool = Some (polled_pool, polled_log, None).
Proof.
  unfold poll. rewrite discovered.
  destruct (Sync_succeeds LE started_pool [web_backend] links_ok) as [p' Hp'];
    [apply (NewPool_tables_inv LE ∅ "eth0"), mgr0_new|apply web_v4|simpl; lia|].
  destruct (busy_Sync_upto LE start_batches started_pool [web_backend]) as [_ He].
  rewrite Hp' in He. unfold polled_pool, polled_log, polled.
  destruct (busy_Sync _ _ _ _) as [q r]. cbn in *. by subst r.
Qed.

Lemma start_ok :
  main_start LE sim_mac unit None sim_flags start_batches ∅ =
    (net (bpfManager polled_pool), Ok (watcher, Running polled_pool polled_log)).
Proof. unfold main_start. rewrite setup_ok, poll_ok. reflexivity. Qed.

Lemma batches_ok : Forall (Forall on_cpu) start_batches.
Proof. repeat constructor. Qed.

Lemma ping_step :
  rtc (step LE sim_env watcher) (Running polled_pool polled_log)
    (Running (with_pool_objs polled_pool (objs (fst pinged))) (snd pinged)).
Proof. apply rtc_once, (StepFrame LE sim_env watcher (ping 1)). repeat constructor. Qed.

Lemma sim_free x : attached (∅ : gmap Z xdp_program) (veth_index x) = None.
Proof. done. Qed.
Lemma sim_iface n1 i :
  InterfaceByName n1 (fl_iface sim_flags) = Ok i -> forall x, veth_index x <> i.
Proof. intros [= <-] x. apply veth_index_ne. Qed.

Lemma main_invariant_witness :
  main_inv LE veth_index (with_pool_objs polled_pool (objs (fst pinged))) /\
  Forall passed (snd pinged).
Proof.
  apply (main_invariant LE sim_mac unit None veth_index veth_index_inj sim_env sim_env_ok
           sim_flags ∅ sim_free sim_iface sim_netlink sim_docker start_batches
           (net (bpfManager polled_pool)) watcher polled_pool polled_log
           (Running (with_pool_objs polled_pool (objs (fst pinged))) (snd pinged)));
    [done|apply batches_ok|apply start_ok|apply ping_step].
Defined.

(** Before the poll's first call there is no backend; the second request meets a written
    backend but still the old count; the third one, after the poll, is sent to backend 0. *)
(** Before the first call there is no backend, before the configuration none is announced;
    the request after the poll is sent to backend 0. *)
Lemma main_stats_witness :
  ReadStats (bpfManager (with_pool_objs polled_pool (objs (fst pinged)))) 0 = Ok (1, 42) /\
  shown (bpfManager (with_pool_objs polled_pool (objs (fst pinged)))) 0 = (1, 42).
Proof.
  destruct (main_stats LE sim_mac unit None veth_index veth_index_inj sim_env sim_env_ok
             sim_flags ∅ sim_free sim_iface sim_netlink sim_docker start_batches
             (net (bpfManager polled_pool)) watcher polled_pool polled_log _ (snd pinged)
             (conj eq_refl eq_refl) batches_ok start_ok ping_step) as [Hr Hs].
  split; [rewrite Hr by (unfold MAX_BACKENDS; lia)|rewrite Hs by (vm_compute; lia)];
    vm_compute; reflexivity.
Defined.

(** The signal comes in the second poll, between its two calls. *)
Definition signalled : Pool shut := fst (shut_Sync LE 1 [] polled_pool [web_backend]).
Definition ended : Manager := sh_mgr (shut_Close [] (bpfManager signalled)).

Lemma signal_step :
  rtc (step LE sim_env watcher) (Running polled_pool polled_log) (Exited ended None).
Proof.
  apply rtc_once, (StepSignalPoll LE sim_env watcher sim_netlink sim_docker 1 []);
    [done|apply discovered|vm_compute; reflexivity].
Qed.

Lemma main_shutdown_witness :
  vethLinks ended = ∅ /\ (forall name, attached (net ended) (veth_index name) = None) /\
  attached (net ended) (ifaceIdx ended) = None.
Proof.
  apply (main_shutdown LE sim_mac unit None veth_index veth_index_inj sim_env sim_env_ok
           sim_flags ∅ sim_free sim_iface sim_netlink sim_docker start_batches
           (net (bpfManager polled_pool)) watcher polled_pool polled_log);
    [done|apply batches_ok|apply start_ok|apply signal_step].
Defined.

Lemma sim_small : env_small LE sim_env watcher.
Proof.
  intros NL DK [-> ->] bs. rewrite discovered. intros [= <-]. split; [simpl; lia|].
  constructor; [|constructor]. intros v4 [= <-]. vm_compute. discriminate.
Qed.

Lemma main_serves_witness :
  tables_inv LE polled_pool /\ serving LE polled_pool /\
  (backends polled_pool <> [] -> is_icmp_frame LE request = true -> daddr_of request = vip_ip ->
   exists b s, chosen (backends polled_pool) 7 = Some b /\
     exec (xdp_lb_ingress LE) (arrival_state (objs (bpfManager polled_pool)) (fr_arrival (ping 0)))
       = Some (XDP_PASS, s) /\
     nat_rewrite dnat_bytes request (ks_pkt s) /\
     To4 (BIP b) = Some (daddr_of (ks_pkt s)) /\
     h_dest_of (ks_pkt s) = mac_bytes (MAC b) /\
     h_source_of (ks_pkt s) = mac_bytes (srcMAC polled_pool)).
Proof.
  apply (main_serves LE sim_mac unit None veth_index veth_index_inj sim_env sim_env_ok
           sim_flags ∅ sim_free sim_iface sim_netlink sim_docker start_batches
           (net (bpfManager polled_pool)) watcher polled_pool polled_log polled_pool polled_log
           (v4InV6Prefix ++ vip_ip) vip_ip (fr_arrival (ping 0)));
    [apply links_ok|done|apply batches_ok|apply start_ok|apply sim_small|apply rtc_refl|reflexivity
    |reflexivity].
Defined.

(** Two more polls with requests before, between and during them; then a reply. *)
Definition answer : arrival := {| ar_pkt := reply; ar_cpu := 1; ar_rand := 0 |}.

Lemma web_keys : NoDup (keys LE [web_backend]).
Proof.
  change (keys LE [web_backend]) with [load LE b1_ip]. apply NoDup_singleton.
Qed.

Lemma main_converges_witness :
  exists p2 h2, rtc (step LE sim_env watcher) (Running polled_pool polled_log) (Running p2 h2) /\
    backends p2 = [web_backend] /\
    exists s, exec (xdp_veth_snat LE) (arrival_state (objs (bpfManager p2)) answer)
                = Some (XDP_PASS, s) /\ saddr_of (ks_pkt s) = vip_ip.
Proof.
  destruct (main_converges LE sim_mac unit None veth_index veth_index_inj sim_env sim_env_ok
             sim_flags ∅ sim_free sim_iface sim_netlink sim_docker start_batches
             (net (bpfManager polled_pool)) watcher polled_pool polled_log polled_pool polled_log
             (v4InV6Prefix ++ vip_ip) vip_ip sim_netlink sim_docker sim_netlink sim_docker
             [web_backend] start_batches start_batches [ping 0; ping 1])
    as (p1 & log1 & p2 & log2 & _ & _ & Hr & Hb & Hreply);
    [apply links_ok|done|apply batches_ok|apply start_ok|apply sim_small|apply rtc_refl
    |reflexivity|reflexivity|vm_compute; discriminate|done|apply discovered|done|apply discovered
    |apply batches_ok|apply batches_ok|repeat constructor|apply web_keys|].
  destruct (Hreply web_backend answer) as (_ & s & Hs & _ & Hsrc);
    [apply list_elem_of_here|reflexivity|reflexivity|].
  exists p2, (snd (foldl (receive LE) (bpfManager p1, polled_log ++ log1) [ping 0; ping 1]) ++ log2).
  split_and!; [exact Hr|exact Hb|]. by exists s.
Defined.
End MainWitness.
